(* ===== verification/_CoqProject ===== *)
-Q . S2P
Prelude.v
Shared.v
Mmap.v
MmapFacts.v
Pages.v
Buf.v
BufFacts.v
Apps.v
AppsFacts.v
World.v
WorldFacts.v
Transact.v
MapOps.v
MapFacts.v
MapProps.v
Demo.v
Witnesses.v
Session.v
SessionFacts.v
SessionDemo.v
Invoke.v
CtxFacts.v
CtxInv.v
ArgFacts.v
DescFacts.v
MsgFacts.v
InvokeFacts.v
InvokeSafe.v
ArgsWrap.v
InvokeDemo.v
Keep.v
KeepFile.v
AsyncFacts.v
AsyncQueue.v
Close.v
CloseFacts.v
CloseDemo.v
Probe.v
ProbeFacts.v
ProbeDemo.v
Dispatch.v
DispatchFacts.v
DispatchProps.v
DispatchDemo.v
Silent.v
Monitor.v
SilentFacts.v
SilentDemo.v
Subsys.v
SubsysFacts.v
SubsysDemo.v
BootLog.v
Print.v
Platform.v
PlatformFacts.v
PlatformDemo.v
Debugfs.v
DebugfsFacts.v
