(* ===== verification/Prelude.v ===== *)
(** * Verification of the virtual FastRPC driver

    The repository holds the platform drivers of a Linux guest.  The largest,
    and the one with its own logic, is the virtual FastRPC driver under
    src/drivers/virtual_fastrpc/dsp: it lets guest processes call functions on
    a DSP through a virtio device.  Beside it are silent boot with its GPIO
    monitor and the virtual subsystem notifier.  This development models them
    as pure functions over explicit state, from the C sources, and proves what
    makes them correct.

    ** The program

    A process opens a device node ([vfastrpc_open]) and gets a file with its
    mappings of dma-bufs, its driver buffers, its invoke contexts and its
    saved commands.  ioctls on the file send requests to the device: a request
    takes a slot of the message table and a tx buffer, is written, queued on
    the send virtqueue and waited for; the interrupt handler finds the message
    by the id in the response, stores the rx buffer in it and completes it;
    the waiting thread reads the response, returns the rx buffer to the
    receive virtqueue and frees the message.  Mappings are reference counted
    and shared between requests of a file.

    ** Files

    - Prelude.v: machine integers with their wrap-around ([u16], [u32], [u64],
      [s32]), error numbers, the state monad [M] whose outcomes are a value
      ([Ok]), a memory error ([Fault]) or non-termination ([Hang], in a loop
      or asleep), the total-correctness predicate [wp], counts and sums over
      heaps, hlists.
    - Shared.v: what the driver takes from headers that are not in the
      repository (adsprpc_shared.h) and from the kernel's configuration, as
      type classes [adsprpc_shared] and [kernel_config] with the documented
      facts [adsprpc_shared_ok] and [kernel_config_ok]; [Shared.Example]
      instantiates them.
    - Mmap.v, MmapFacts.v: [struct vfastrpc_mmap] and every operation of
      virtio_fastrpc_mem.c on it: [vfastrpc_mmap_create], [_find], [_remove],
      [_remove_fd], [_add], [_free], and the closing loop of
      [vfastrpc_file_free] ([free_all_maps]).  The state [mmaps] is the heap
      of map objects, [fl->maps], and ledgers of the dma-buf references,
      attachments and tables taken.
    - Pages.v: [vfastrpc_alloc_pages] and [vfastrpc_free_pages] against any
      behaviour of the buddy allocator.
    - Buf.v, BufFacts.v: [struct vfastrpc_buf]: [vfastrpc_buf_alloc],
      [vfastrpc_buf_free], the cache and the remote list, and their closing
      loops.
    - Apps.v, AppsFacts.v: the device ([struct vfastrpc_apps]): message table
      ([virt_alloc_msg], [virt_free_msg]), tx and rx buffers and the queue
      operations of virtio_fastrpc_queue.c.  A virtqueue is the interface
      [virtqueue] with its laws [virtqueue_ok]; [Apps.Ring] implements it.
    - World.v, WorldFacts.v: one open file together with the device; the
      receive path [recv_done], [recv_single] and
      [vfastrpc_queue_completed_async_job] of virtio_fastrpc_base.c and
      virtio_fastrpc_core.c; waiting for a completion while the device acts.
    - Transact.v: the shape every synchronous command shares, [transact], and
      [swp], the correctness predicate of runs that depend on the device.
    - MapOps.v, MapFacts.v, MapProps.v: the map and unmap commands and the
      handlers [vfastrpc_internal_mmap], [_munmap], [_munmap_fd], [_mem_map]
      and [_mem_unmap].
    - Session.v, SessionFacts.v: [virt_fastrpc_open], [_close], [_control],
      [_get_dsp_info], the handlers above them and their ioctls; channels and
      the device-node policy.
    - Invoke.v: remote invocation: [context_alloc], [get_args] (mapping the
      arguments, sizing and filling the message), [virt_fastrpc_invoke],
      [put_args], [context_free], saved and restored contexts,
      [vfastrpc_internal_invoke] and the queue of asynchronous jobs.
      CtxFacts.v, CtxInv.v, ArgFacts.v, DescFacts.v and MsgFacts.v hold the
      facts on contexts, their invariant [ctx_inv], argument mapping, message
      descriptors and message contents; InvokeFacts.v and InvokeSafe.v put
      them together.  Beside the invariant they keep the books: [maps_dropped]
      and [bufs_given] say exactly what releasing a context does, [balanced]
      that no reference of a map and no buffer is lost between two states.
      ArgsWrap.v: what happens when the sum of the argument lengths wraps.
    - Keep.v, KeepFile.v: what every handler leaves alone, as relations between
      the states before and after ([framed]); the map handlers and the session
      commands keep [ctx_inv].  AsyncFacts.v: the invariant [aq] of the queue of
      finished asynchronous jobs, kept by every operation; AsyncQueue.v: the
      queue refines a list.
    - Close.v, CloseFacts.v: [vfastrpc_file_free] and [vfastrpc_release].
    - Probe.v, ProbeFacts.v: [init_vqs], the channels, [virt_fastrpc_probe]
      with its error labels and [virt_fastrpc_remove]; every kernel object
      they take is in the ledger [kernel].
    - Dispatch.v: [vfastrpc_ioctl], [vfastrpc_mmap_ioctl],
      [vfastrpc_internal_invoke2] and the functions exported to other modules;
      the layout of the caller's structures is the class [invoke_layout].
      DispatchFacts.v and DispatchProps.v put the components together: from
      probe and open, through any sequence of ioctls.
    - Debugfs.v, DebugfsFacts.v: [vfastrpc_debugfs_read] against a reference
      report; Print.v has the [printf] conversions.
    - Silent.v, Monitor.v, SilentFacts.v: silent_boot.c and
      silent-mode-hw-monitoring.c on memory given as bytes and on events.
    - Subsys.v, SubsysFacts.v: subsystem_notif_virt.c.
    - BootLog.v: dump_boot_log.c.  Platform.v, PlatformFacts.v: aop-set-ddr.c
      (Module [Ddr]), socinfo_dt.c ([Socinfo]), adsp_vote_smp2p.c ([Vote]) and
      wallpower_charger.c ([Wall]).
    - Demo.v, SessionDemo.v, InvokeDemo.v, CloseDemo.v, ProbeDemo.v,
      DispatchDemo.v, SilentDemo.v, SubsysDemo.v, PlatformDemo.v, Witnesses.v:
      concrete devices, files and device trees, and every theorem applied to a
      concrete run.

    ** What the theorems show

    - Memory safety and exact accounting, by invariants over all reachable
      states: [mmap_ops_safe], [buf_ops_safe], [apps_ops_safe],
      [map_handlers_safe], [session_ops_safe], [invoke_safe]; the probe
      establishes these invariants ([probe_establishes]).  [driver_safe] is the
      composition: after a probe, an open and any sequence of ioctls whose
      parameters meet [req_ok] and kernel answers [io_ok], all of them hold
      together.  In these theorems the only faults are [device_fault]s, and a
      run that does not return is [asleep] on a message that was never
      completed.
    - Functional behaviour of each operation on every branch, errors included:
      [alloc_pages_exact], [buf_alloc_correct], [buf_free_correct],
      [alloc_msg_correct], [free_msg_correct], [mmap_find_correct],
      [mmap_remove_then_free], [mmap_remove_fd_correct], [recv_single_correct],
      [internal_mmap_atomic], [mem_unmap_restores], [capability_cached],
      [context_free_exact] (what is given back, object by object),
      [retry_resumes] (a retry after an interruption resumes the saved call), [invoke_error_codes], [init_vqs_exact],
      [probe_outcomes], [subsys_probe_exact], [ioctl_refused] (a refused ioctl
      changes nothing), [boot_log_reads], [ddr_message].
    - Round trips and cleanup: [mmap_create_free_roundtrip],
      [mmap_create_failure_exact], [mmap_munmap_roundtrip],
      [buf_alloc_free_roundtrip], [buf_lists_close], [free_all_maps_empties],
      [file_free_closes], [probe_remove_roundtrip], [subsys_life],
      [socinfo_roundtrip].
    - Specifications: silent boot refines an abstract register with a user
      override ([silent_refines]); its command-line parsing agrees with a
      reference reading ([param_set_correct]); the asynchronous jobs are a
      first-in first-out queue, whose head is taken and freed even when it cannot
      be delivered ([async_fifo]); the ADSP vote is a register
      ([vote_register]); the 64-bit map ioctls equal the plain ones
      ([mmap64_equivalent]); the debugfs file shows a prefix of the reference
      report ([debugfs_report]).
    - Termination and progress: [interrupts_framed] (the interrupt handler
      terminates whatever the device does), [request_answered] (a request
      whose answer arrives, in any trace of device events, returns it),
      [file_free_closes] (closing ends if the device answers the close command
      and no listed map has lost its references).
    - Access control: [init_process_policy].
    - What the code does not do right, each with a proof: [free_all_maps_can_hang],
      [mmap_create_keep_map_leaks], [munmap_failure_drops_ref],
      [unsent_messages_exhaust], [cache_overshoots], [page_count_covers],
      [init_before_getinfo_faults], [dsp_info_cross_domain],
      [args_length_wraps], [resume_low_goes_deaf],
      [forced_mode_suspend_faults], [subsys_dangling_handlers],
      [async_ignores_features], [boot_log_ledger], [vote_probe_returns_bit],
      [wall_announces_more], [wall_init_hides_failure].

    ** Conventions and bounds

    C pointers to kernel objects are keys of a heap ([gmap ptr _]); an access
    to an object that is not live is a [Fault].  The faults that a response
    provokes by its contents, because the driver uses its id, its lengths and
    its repetition unchecked, are a class of their own ([Device]); every other
    fault, such as an overrun of a tx buffer, a double free or a corrupted
    list, would be the driver's.  What the kernel answers
    (allocations, dma-buf calls, copies from and to user space) is an argument
    of the operation, so that the theorems hold for all answers.  Device
    behaviour during a wait is a list of events: moves on the queues, writes
    to rx buffers it owns, interrupts.  A handler may wait for ever only if
    these events do not complete its message.  Messages are typed values with
    the sizes of the packed structures; a write that does not fit the tx buffer
    is a [Fault].  Code under a lock is one atomic step.

    The safety theorems need bounds, and several have a theorem that shows
    why: invoke buffers below 2 GiB ([args_length_wraps]: longer ones can
    overrun the tx buffer); at most 540 references of a map per invocation and
    fewer than [2^29] in all (the counts are [int]s); scatter tables of fewer
    than [2^18] entries (the size of a message is an [int]); a process started
    only after its domain was set ([init_before_getinfo_faults]); references of
    the listed maps when a file is closed ([free_all_maps_can_hang]).
    [kvzalloc] refuses requests above [KVMALLOC_MAX], which is at most
    [INT_MAX], as the kernel does; [alloc_pages_exact] shows that
    [vfastrpc_free_pages], with its [int] count, depends on it.

    Loops that are not structural take fuel: the order loop of
    [vfastrpc_alloc_pages] 64 rounds (an order mask has at most 32 bits), its
    outer loop [count] rounds (each stores at least one page), the closing
    loops one round more than the list is long, [recv_done] one round more
    than the queue has buffers.  The theorems show that the fuel is never used
    up, except [free_all_maps_can_hang], which holds for every fuel.

    ** Not modelled

    Log output, trace points (virtio_fastrpc_trace.h) and performance counters
    ([vfastrpc_update_invoke_count], [getnstimediff]), which no decision of the
    driver depends on; the byte layout of messages and the contents of user
    buffers; preemption inside code that runs under a lock; several files open
    at once; qcom_common.h, which declares functions of other modules. *)
From stdpp Require Export gmap gmultiset list strings.
From Stdlib Require Export ZArith Lia.
#[global] Open Scope Z_scope.
#[global] Set Default Goal Selector "!".

Abbreviation ptr := positive (only parsing).

(** ** Machine integers *)

Definition INT_MAX : Z := 2 ^ 31 - 1.
(** Conversion to a 16-bit, 32-bit or 64-bit unsigned integer, and to a 32-bit
    or 64-bit signed one. *)
Definition u16 (z : Z) : Z := z mod 2 ^ 16.
Definition u32 (z : Z) : Z := z mod 2 ^ 32.
Definition u64 (z : Z) : Z := z mod 2 ^ 64.
Definition s32 (z : Z) : Z := (z + 2 ^ 31) mod 2 ^ 32 - 2 ^ 31.
Definition s64 (z : Z) : Z := (z + 2 ^ 63) mod 2 ^ 64 - 2 ^ 63.

Lemma u32_id z : 0 <= z < 2 ^ 32 -> u32 z = z.
Proof. intros. unfold u32. by rewrite Z.mod_small. Qed.

Lemma u64_id z : 0 <= z < 2 ^ 64 -> u64 z = z.
Proof. intros. unfold u64. by rewrite Z.mod_small. Qed.

(** One wrap-around. *)
Lemma u64_wrap z : 2 ^ 64 <= z < 2 ^ 65 -> u64 z = z - 2 ^ 64.
Proof. intros. unfold u64. symmetry. apply (Z.mod_unique _ _ 1); lia. Qed.

Lemma u16_range z : 0 <= u16 z < 2 ^ 16.
Proof. unfold u16. apply Z.mod_pos_bound. lia. Qed.

Lemma u32_range z : 0 <= u32 z < 2 ^ 32.
Proof. unfold u32. apply Z.mod_pos_bound. lia. Qed.

Lemma u64_range z : 0 <= u64 z < 2 ^ 64.
Proof. unfold u64. apply Z.mod_pos_bound. lia. Qed.

Lemma s32_id z : - 2 ^ 31 <= z < 2 ^ 31 -> s32 z = z.
Proof. intros. unfold s32. rewrite Z.mod_small; lia. Qed.

(** The test [x & mask] of C, as a boolean. *)
Definition has_bit (x mask : Z) : bool := negb (Z.land x mask =? 0).

Lemma has_bit_0 mask : has_bit 0 mask = false.
Proof. unfold has_bit. by rewrite Z.land_0_l. Qed.

(** ** Error numbers (include/uapi/asm-generic/errno*.h) *)

Definition EPERM : Z := 1.
Definition ENOMEM : Z := 12.
Definition EACCES : Z := 13.
Definition EFAULT : Z := 14.
Definition EEXIST : Z := 17.
Definition ENODEV : Z := 19.
Definition EBADF : Z := 9.
Definition EINVAL : Z := 22.
Definition ENOTTY : Z := 25.
Definition ECHRNG : Z := 44.
Definition EBADE : Z := 52.
Definition EBADR : Z := 53.
Definition EBADMSG : Z := 74.
Definition EOVERFLOW : Z := 75.
Definition EPROTONOSUPPORT : Z := 93.
Definition ETOOMANYREFS : Z := 109.
Definition ECONNREFUSED : Z := 111.
Definition ERESTARTSYS : Z := 512.

(** ** Outcomes and the state monad

    A run of driver code ends with a value and a state, performs an access
    the kernel would not survive ([Fault]), or never returns ([Hang]). *)

(** What a device can provoke by the contents of a response: the driver uses
    its id, its lengths and its repetition unchecked.
    - [BadId]: the message table is read outside its bounds, at the id of a
      response;
    - [SecondAnswer]: a second response to one asynchronous job links its node
      into the queue of finished jobs twice;
    - [LongPayload]: the lengths in the response to an invocation lead past
      the end of the rx buffer. *)
Inductive device_error : Type :=
| BadId
| SecondAnswer
| LongPayload.

Inductive fault : Type :=
| NullDeref
| UseAfterFree
| OutOfBounds
| DoubleFree
| ListCorruption
| Uninitialised
| Device (d : device_error).

(** A run that never returns is in a loop without end, or sleeps in state [s]
    until message [on] completes ([None]: until an asynchronous job does). *)
Inductive stall (S : Type) : Type :=
| Loops
| Sleeps (on : option positive) (s : S).
Arguments Loops {S}.
Arguments Sleeps {S} on s.

Definition stall_map {S W} (g : S -> W) (h : stall S) : stall W :=
  match h with
  | Loops => Loops
  | Sleeps on s => Sleeps on (g s)
  end.

Inductive outcome (S A : Type) : Type :=
| Ok (a : A) (s : S)
| Fault (f : fault)
| Hang (h : stall S).
Arguments Ok {S A} a s.
Arguments Fault {S A} f.
Arguments Hang {S A} h.

Definition M (S A : Type) : Type := S -> outcome S A.

#[export] Instance M_ret S : MRet (M S) := fun A a s => Ok a s.
#[export] Instance M_bind S : MBind (M S) := fun A B k m s =>
  match m s with
  | Ok a s' => k a s'
  | Fault f => Fault f
  | Hang h => Hang h
  end.

Definition get {S} : M S S := fun s => Ok s s.
Definition gets {S A} (f : S -> A) : M S A := fun s => Ok (f s) s.
Definition put {S} (s : S) : M S () := fun _ => Ok () s.
Definition modify {S} (f : S -> S) : M S () := fun s => Ok () (f s).
Definition fail {S A} (f : fault) : M S A := fun _ => Fault f.
Definition hang {S A} : M S A := fun _ => Hang Loops.
Definition sleep {S A} (on : option positive) : M S A := fun s => Hang (Sleeps on s).
Definition when {S} (b : bool) (m : M S ()) : M S () := if b then m else mret ().

(** Running a component's operation on its part of a larger state. *)
Definition zoom {W S A} (rd : W -> S) (wr : S -> W -> W) (m : M S A) : M W A := fun w =>
  match m (rd w) with
  | Ok a s => Ok a (wr s w)
  | Fault f => Fault f
  | Hang h => Hang (stall_map (fun s => wr s w) h)
  end.

(** A step that returns. *)
Lemma bind_eq {S A B} (m : M S A) (k : A -> M S B) st a st' : m st = Ok a st' -> (m ≫= k) st = k a st'.
Proof. unfold mbind, M_bind. by intros ->. Qed.

(** ** Total-correctness predicate

    [wp m Q s]: [m] run from [s] returns, without fault, a value and a state in [Q]. *)

Definition wp {S A} (m : M S A) (Q : A -> S -> Prop) (s : S) : Prop :=
  match m s with
  | Ok a s' => Q a s'
  | _ => False
  end.

Section wp_rules.
Context {S : Type}.

Lemma wp_iff {A} (m : M S A) Q s :
  wp m Q s <-> exists a s', m s = Ok a s' /\ Q a s'.
Proof.
  unfold wp. destruct (m s) as [a s'| |]; split; try done.
  - intros; by exists a, s'.
  - by intros (? & ? & [= -> ->] & ?).
  - by intros (? & ? & ? & ?).
  - by intros (? & ? & ? & ?).
Qed.

Lemma wp_ret {A} (a : A) (Q : A -> S -> Prop) s : Q a s -> wp (mret a) Q s.
Proof. done. Qed.

Lemma wp_bind {A B} (m : M S A) (k : A -> M S B) Q s :
  wp m (fun a s' => wp (k a) Q s') s -> wp (m ≫= k) Q s.
Proof. unfold wp, mbind, M_bind. by destruct (m s). Qed.

Lemma wp_mono {A} (m : M S A) (Q Q' : A -> S -> Prop) s :
  wp m Q s -> (forall a s', Q a s' -> Q' a s') -> wp m Q' s.
Proof. unfold wp. destruct (m s); eauto. Qed.

Lemma wp_seq {A B} (m : M S A) (k : A -> M S B) R Q s :
  wp m R s -> (forall a s', R a s' -> wp (k a) Q s') -> wp (m ≫= k) Q s.
Proof. intros Hm Hk. apply wp_bind. by eapply wp_mono. Qed.

Lemma wp_zoom {W A} (rd : W -> S) (wr : S -> W -> W) (m : M S A) (Q : A -> W -> Prop) w :
  wp m (fun a s => Q a (wr s w)) (rd w) -> wp (zoom rd wr m) Q w.
Proof. unfold wp, zoom. by destruct (m (rd w)). Qed.
End wp_rules.

(** ** Heaps of kernel objects *)

Section heap.
Context {A : Type}.
Implicit Types h : gmap ptr A.

(** The pointer a successful [kzalloc] returns: one no live object has. *)
Definition new_ptr h : ptr := fresh (dom h : gset ptr).

Lemma new_ptr_None h : h !! new_ptr h = None.
Proof. apply (not_elem_of_dom (D := gset ptr)). unfold new_ptr. apply is_fresh. Qed.

(** The number of live objects with a property. *)
Definition hcount (f : A -> bool) h : Z := Z.of_nat (size (filter (fun kv => f kv.2 = true) h)).
Definition b2z (b : bool) : Z := if b then 1 else 0.

Lemma hcount_empty f : hcount f ∅ = 0.
Proof. unfold hcount. by rewrite map_filter_empty, map_size_empty. Qed.

Lemma hcount_insert_new f h p a :
  h !! p = None -> hcount f (<[p := a]> h) = hcount f h + b2z (f a).
Proof.
  intros Hp. unfold hcount. destruct (f a) eqn:E; simpl.
  - rewrite map_filter_insert_True by done.
    rewrite map_size_insert_None; [lia|]. by rewrite map_lookup_filter, Hp.
  - rewrite map_filter_insert_False by (simpl; congruence).
    rewrite delete_id by done. lia.
Qed.

Lemma hcount_delete f h p a :
  h !! p = Some a -> hcount f (delete p h) = hcount f h - b2z (f a).
Proof.
  intros Hp. rewrite <- (insert_delete_id h p a) at 2 by done.
  rewrite hcount_insert_new by apply lookup_delete_eq. lia.
Qed.

Lemma hcount_update f h p a a' :
  h !! p = Some a -> hcount f (<[p := a']> h) = hcount f h - b2z (f a) + b2z (f a').
Proof.
  intros Hp. rewrite <- insert_delete_eq, hcount_insert_new by apply lookup_delete_eq.
  by rewrite (hcount_delete _ _ _ a).
Qed.
End heap.

(** The multiset of what live objects own. *)
Section hsum.
Context {A B : Type} `{Countable B}.
Implicit Types (f : A -> gmultiset B) (h : gmap ptr A).

Definition hsum f h : gmultiset B := map_fold (fun _ a acc => f a ⊎ acc) ∅ h.

Lemma hsum_insert f h p a : h !! p = None -> hsum f (<[p := a]> h) = f a ⊎ hsum f h.
Proof. intros Hp. unfold hsum. rewrite map_fold_insert_L; [done| |done]. multiset_solver. Qed.

Lemma hsum_delete f h p a : h !! p = Some a -> hsum f h = f a ⊎ hsum f (delete p h).
Proof.
  intros Hp. rewrite <- (insert_delete_id h p a) at 1 by done.
  apply hsum_insert, lookup_delete_eq.
Qed.

Lemma hsum_update f h p a a' :
  h !! p = Some a -> f a ⊎ hsum f (<[p := a']> h) = f a' ⊎ hsum f h.
Proof.
  intros Hp. rewrite <- insert_delete_eq, hsum_insert by apply lookup_delete_eq.
  rewrite (hsum_delete f h p a) by done. multiset_solver.
Qed.
End hsum.

(** ** hlist: the kernel's intrusive lists, as lists of object pointers *)

(** [hlist_del_init]: unlinks a node; a no-op on an unhashed one. *)
Definition hlist_del (p : ptr) (l : list ptr) : list ptr := filter (fun q => q <> p) l.

Section hlist.
Implicit Types (p q : ptr) (l : list ptr).

Lemma elem_of_hlist_del p q l : q ∈ hlist_del p l <-> q ∈ l /\ q <> p.
Proof. unfold hlist_del. rewrite list_elem_of_filter. naive_solver. Qed.

Lemma NoDup_hlist_del p l : NoDup l -> NoDup (hlist_del p l).
Proof. apply NoDup_filter. Qed.

Lemma hlist_del_id p l : p ∉ l -> hlist_del p l = l.
Proof.
  intros Hp. unfold hlist_del. induction l as [|q l IH]; [done|].
  rewrite filter_cons_True by set_solver. f_equal. set_solver.
Qed.

Lemma hlist_del_head p l : NoDup (p :: l) -> hlist_del p (p :: l) = l.
Proof.
  intros [Hp _]%NoDup_cons. unfold hlist_del.
  rewrite filter_cons_False by naive_solver. by apply hlist_del_id.
Qed.
End hlist.

(** ** Automation *)

Create HintDb drv.
#[export] Hint Resolve wp_ret NoDup_hlist_del : drv.

(** Evaluate the integer comparisons of the goal that the context decides. *)
Ltac zdec :=
  repeat match goal with
  | |- context [?x =? ?y] =>
      first [ rewrite (proj2 (Z.eqb_eq x y)) by lia | rewrite (proj2 (Z.eqb_neq x y)) by lia ]
  | |- context [?x <=? ?y] =>
      first [ rewrite (proj2 (Z.leb_le x y)) by lia | rewrite (proj2 (Z.leb_gt x y)) by lia ]
  | |- context [?x <? ?y] =>
      first [ rewrite (proj2 (Z.ltb_lt x y)) by lia | rewrite (proj2 (Z.ltb_ge x y)) by lia ]
  end.

(** Functional record update, [r <| field := v |>]. *)
Class Eta (R : Type) := eta : R -> R.
Class Upd {R T : Type} (proj : R -> T) := upd : (T -> T) -> R -> R.
Arguments upd {R T} proj {_} _ _ /.
Ltac solve_upd :=
  lazymatch goal with
  | |- @Upd ?R ?T ?proj =>
      let f := fresh "f" in
      let r := fresh "r" in
      intros f r;
      let b := eval hnf in (eta r) in
      let c := eval pattern (proj r) in b in
      match c with ?k _ => let t := eval cbv beta in (k (f (proj r))) in exact t end
  end.
#[export] Hint Extern 1 (Upd _) => solve_upd : typeclass_instances.
Notation "r <| f := v |>" := (upd f (fun _ => v) r)
  (at level 1, left associativity, format "r  <| f  :=  v |>").
