(* ===== verification/Shared.v ===== *)
(** * Names the drivers take from headers that are not in the repository

    [adsprpc_shared.h] and [adsprpc_compat.h] are included by
    virtual_fastrpc/dsp but are not part of the repository, and the page size,
    the largest buddy order and the limit of [kvmalloc] come from the kernel's
    configuration.  They
    are parameters of the whole development: [adsprpc_shared] and
    [kernel_config] hold the names, [adsprpc_shared_ok] and
    [kernel_config_ok] the documented facts the driver relies on.  The
    instances at the end of the file show the facts can hold together. *)
From S2P Require Import Prelude.

Class adsprpc_shared := {
  (** [VERIFY(err, cond)]: the value [err] gets when [cond] is false. *)
  VERIFY_err : Z -> Z;
  FASTRPC_ATTR_KEEP_MAP : Z;
  FASTRPC_ATTR_NOMAP : Z;
  FASTRPC_MAP_STATIC : Z;
  FASTRPC_MAP_FD : Z;
  FASTRPC_MAP_FD_DELAYED : Z;
  REMOTE_SCALARS_INBUFS : Z -> Z;
  REMOTE_SCALARS_OUTBUFS : Z -> Z;
  REMOTE_SCALARS_INHANDLES : Z -> Z;
  REMOTE_SCALARS_OUTHANDLES : Z -> Z;
  REMOTE_SCALARS_LENGTH : Z -> Z;
  FASTRPC_MODE_PARALLEL : Z;
  FASTRPC_MODE_SERIAL : Z;
  FASTRPC_MODE_SESSION : Z;
  FASTRPC_MODE_PROFILE : Z;
  FASTRPC_INIT_CREATE : Z;
  FASTRPC_INIT_CREATE_STATIC : Z;
  FASTRPC_INIT_ATTACH : Z;
  FASTRPC_INIT_ATTACH_SENSORS : Z;
  FASTRPC_CONTROL_LATENCY : Z;
  FASTRPC_CONTROL_KALLOC : Z;
  CDSP_DOMAIN_ID : Z;
  FASTRPC_MAX_ATTRIBUTES : Z;
  FASTRPC_MAX_DSP_ATTRIBUTES : Z;
  ASYNC_FASTRPC_CAP : Z;
  FASTRPC_INVOKE2_ASYNC : Z;
  FASTRPC_INVOKE2_ASYNC_RESPONSE : Z;
  FASTRPC_INVOKE2_KERNEL_OPTIMIZATIONS : Z;
  sizeof_ioctl_invoke_async : Z;
  sizeof_ioctl_async_response : Z;
}.

Class adsprpc_shared_ok (H : adsprpc_shared) : Prop := {
  VERIFY_err_nonzero e : VERIFY_err e <> 0;
  VERIFY_err_keeps e : e <> 0 -> VERIFY_err e = e;
  KEEP_MAP_nonzero : FASTRPC_ATTR_KEEP_MAP <> 0;
  INBUFS_0 : REMOTE_SCALARS_INBUFS 0 = 0;
  OUTBUFS_0 : REMOTE_SCALARS_OUTBUFS 0 = 0;
  INHANDLES_0 : REMOTE_SCALARS_INHANDLES 0 = 0;
  OUTHANDLES_0 : REMOTE_SCALARS_OUTHANDLES 0 = 0;
  INBUFS_range sc : 0 <= REMOTE_SCALARS_INBUFS sc < 256;
  OUTBUFS_range sc : 0 <= REMOTE_SCALARS_OUTBUFS sc < 256;
  INHANDLES_range sc : 0 <= REMOTE_SCALARS_INHANDLES sc < 16;
  OUTHANDLES_range sc : 0 <= REMOTE_SCALARS_OUTHANDLES sc < 16;
  LENGTH_sum sc : REMOTE_SCALARS_LENGTH sc =
    REMOTE_SCALARS_INBUFS sc + REMOTE_SCALARS_OUTBUFS sc +
    REMOTE_SCALARS_INHANDLES sc + REMOTE_SCALARS_OUTHANDLES sc;
  DSP_ATTRIBUTES_range : 1 < FASTRPC_MAX_DSP_ATTRIBUTES <= 2 ^ 20;
  ATTRIBUTES_range : FASTRPC_MAX_DSP_ATTRIBUTES < FASTRPC_MAX_ATTRIBUTES <= 2 ^ 21;
  CDSP_DOMAIN_range : 0 <= CDSP_DOMAIN_ID;
  ASYNC_CAP_range : 1 < ASYNC_FASTRPC_CAP < FASTRPC_MAX_DSP_ATTRIBUTES;
}.

Class kernel_config := {
  PAGE_SHIFT : Z;
  MAX_ORDER : Z;
  DMA_ATTR_NO_KERNEL_MAPPING : Z;
  KVMALLOC_MAX : Z;         (* the largest request [kvmalloc] does not refuse *)
}.

Class kernel_config_ok (K : kernel_config) : Prop := {
  PAGE_SHIFT_range : 0 < PAGE_SHIFT <= 16;
  MAX_ORDER_range : 0 <= MAX_ORDER < 31;
  KVMALLOC_MAX_range : KVMALLOC_MAX <= INT_MAX;
}.

Definition PAGE_SIZE `{kernel_config} : Z := 2 ^ PAGE_SHIFT.
(** [PAGE_ALIGN] on a 64-bit size. *)
Definition PAGE_ALIGN `{kernel_config} (x : Z) : Z :=
  Z.ldiff (u64 (x + PAGE_SIZE - 1)) (PAGE_SIZE - 1).

(** ** Kernel types *)

(** An entry of a scatter list, with what the driver reads of it:
    [sg_dma_address], [sg_dma_len], [page_to_phys(sg_page(sgl))] and [length]. *)
Record scatterlist := Sg {
  sg_dma_address : Z;
  sg_dma_len : Z;
  sg_phys : Z;
  sg_length : Z;
}.

(** A scatter table: the kernel's constructors refuse to build one without entries. *)
Record sg_table := SgTable {
  sgl : scatterlist;
  sg_next : list scatterlist;
}.

(** The entries [for_each_sg] visits, and the table's [nents]. *)
Definition sg_entries (t : sg_table) : list scatterlist := sgl t :: sg_next t.
Definition nents (t : sg_table) : Z := Z.of_nat (length (sg_entries t)).

(** [VERIFY(err, cond)] of adsprpc_shared.h: keeps [err] when the condition holds. *)
Definition VERIFY `{adsprpc_shared} (err : Z) (cond : bool) : Z :=
  if cond then err else VERIFY_err err.

Section verify.
Context `{HS : adsprpc_shared, !adsprpc_shared_ok HS}.

Lemma VERIFY_zero cond : VERIFY 0 cond = 0 <-> cond = true.
Proof.
  unfold VERIFY. destruct cond; [done|]. split; [|done].
  intros H. by apply VERIFY_err_nonzero in H.
Qed.

Lemma VERIFY_err_eqb e : (VERIFY_err e =? 0) = false.
Proof. apply Z.eqb_neq, VERIFY_err_nonzero. Qed.

(** [VERIFY(err, 0 == (err = e))] leaves [err] equal to [e]. *)
Lemma VERIFY_assign e : VERIFY e (e =? 0) = e.
Proof.
  unfold VERIFY. destruct (Z.eqb_spec e 0) as [->|Hne]; [done|].
  by apply VERIFY_err_keeps.
Qed.
End verify.

(** ** One instance of the parameters, for concrete runs *)

Module Example.
#[export] Instance shared : adsprpc_shared := {|
  VERIFY_err e := if e =? 0 then -1 else e;
  FASTRPC_ATTR_KEEP_MAP := 8;
  FASTRPC_ATTR_NOMAP := 16;
  FASTRPC_MAP_STATIC := 0;
  FASTRPC_MAP_FD := 2;
  FASTRPC_MAP_FD_DELAYED := 3;
  REMOTE_SCALARS_INBUFS sc := Z.land (Z.shiftr sc 16) 255;
  REMOTE_SCALARS_OUTBUFS sc := Z.land (Z.shiftr sc 8) 255;
  REMOTE_SCALARS_INHANDLES sc := Z.land (Z.shiftr sc 4) 15;
  REMOTE_SCALARS_OUTHANDLES sc := Z.land sc 15;
  REMOTE_SCALARS_LENGTH sc :=
    Z.land (Z.shiftr sc 16) 255 + Z.land (Z.shiftr sc 8) 255 +
    Z.land (Z.shiftr sc 4) 15 + Z.land sc 15;
  FASTRPC_MODE_PARALLEL := 0;
  FASTRPC_MODE_SERIAL := 1;
  FASTRPC_MODE_PROFILE := 2;
  FASTRPC_MODE_SESSION := 4;
  FASTRPC_INIT_ATTACH := 0;
  FASTRPC_INIT_CREATE := 1;
  FASTRPC_INIT_CREATE_STATIC := 2;
  FASTRPC_INIT_ATTACH_SENSORS := 3;
  FASTRPC_CONTROL_LATENCY := 1;
  FASTRPC_CONTROL_KALLOC := 3;
  CDSP_DOMAIN_ID := 3;
  FASTRPC_MAX_ATTRIBUTES := 257;
  FASTRPC_MAX_DSP_ATTRIBUTES := 256;
  ASYNC_FASTRPC_CAP := 9;
  FASTRPC_INVOKE2_ASYNC := 1;
  FASTRPC_INVOKE2_ASYNC_RESPONSE := 2;
  FASTRPC_INVOKE2_KERNEL_OPTIMIZATIONS := 3;
  sizeof_ioctl_invoke_async := 72;
  sizeof_ioctl_async_response := 40;
|}.

Lemma land_ones_range x n : 0 <= n -> 0 <= Z.land x (Z.ones n) < 2 ^ n.
Proof. intros. rewrite Z.land_ones by done. apply Z.mod_pos_bound. lia. Qed.

#[export] Instance shared_ok : adsprpc_shared_ok shared.
Proof.
  split; simpl; intros; try done.
  - destruct (Z.eqb_spec e 0); lia.
  - destruct (Z.eqb_spec e 0); [done|]; lia.
  - by apply (land_ones_range _ 8).
  - by apply (land_ones_range _ 8).
  - by apply (land_ones_range _ 4).
  - by apply (land_ones_range _ 4).
Qed.

#[export] Instance config : kernel_config := {|
  PAGE_SHIFT := 12; MAX_ORDER := 10; DMA_ATTR_NO_KERNEL_MAPPING := 16; KVMALLOC_MAX := INT_MAX |}.

#[export] Instance config_ok : kernel_config_ok config.
Proof. split; simpl; lia. Qed.
End Example.
