(* ===== verification/Mmap.v ===== *)
(** * DMA-buffer mappings: [struct vfastrpc_mmap] (virtio_fastrpc_mem.c)

    The mappings of one open file: the objects, the list [fl->maps], and a
    ledger of the dma-buf references, attachments and mapped tables taken
    and not yet given back.  All the operations run under [fl->map_mutex]. *)
From S2P Require Import Prelude Shared.

Definition ADSP_MMAP_HEAP_ADDR : Z := 4.
Definition ADSP_MMAP_REMOTE_HEAP_ADDR : Z := 8.
Definition ADSP_MMAP_ADD_PAGES : Z := 0x1000.

Definition is_heap_addr (flags : Z) : bool :=
  (flags =? ADSP_MMAP_HEAP_ADDR) || (flags =? ADSP_MMAP_REMOTE_HEAP_ADDR).

(** The three pointers are [None] when they are NULL or an error pointer,
    which is how the code tests them. *)
Record vfastrpc_mmap := {
  m_fd : Z;
  m_flags : Z;
  m_buf : option ptr;
  m_table : option sg_table;
  m_attach : option ptr;
  m_phys : Z;
  m_size : Z;
  m_va : Z;
  m_len : Z;
  m_raddr : Z;
  m_refs : Z;
  m_attr : Z;
  m_ctx_refs : Z;
}.
#[export] Instance eta_mmap : Eta vfastrpc_mmap := fun m =>
  {| m_fd := m_fd m; m_flags := m_flags m; m_buf := m_buf m; m_table := m_table m;
     m_attach := m_attach m; m_phys := m_phys m; m_size := m_size m; m_va := m_va m;
     m_len := m_len m; m_raddr := m_raddr m; m_refs := m_refs m; m_attr := m_attr m;
     m_ctx_refs := m_ctx_refs m |}.

(** [kzalloc(sizeof *map)]. *)
Definition zero_mmap : vfastrpc_mmap :=
  {| m_fd := 0; m_flags := 0; m_buf := None; m_table := None; m_attach := None; m_phys := 0;
     m_size := 0; m_va := 0; m_len := 0; m_raddr := 0; m_refs := 0; m_attr := 0;
     m_ctx_refs := 0 |}.

Record mmaps := {
  mm_heap : gmap ptr vfastrpc_mmap;
  mm_list : list ptr;               (* fl->maps, head first *)
  mm_bufs : Z;                      (* dma_buf_get minus dma_buf_put *)
  mm_attaches : Z;                  (* dma_buf_attach minus dma_buf_detach *)
  mm_tables : Z;                    (* dma_buf_map_attachment minus unmap *)
}.
#[export] Instance eta_mmaps : Eta mmaps := fun s =>
  {| mm_heap := mm_heap s; mm_list := mm_list s; mm_bufs := mm_bufs s;
     mm_attaches := mm_attaches s; mm_tables := mm_tables s |}.

Definition empty_mmaps : mmaps :=
  {| mm_heap := ∅; mm_list := []; mm_bufs := 0; mm_attaches := 0; mm_tables := 0 |}.

(** ** Kernel primitives on this state *)

Definition load (p : ptr) : M mmaps vfastrpc_mmap := fun s =>
  match mm_heap s !! p with
  | Some m => Ok m s
  | None => Fault UseAfterFree
  end.

Definition store (p : ptr) (m : vfastrpc_mmap) : M mmaps () := fun s =>
  match mm_heap s !! p with
  | Some _ => Ok () (s <| mm_heap := <[p := m]> (mm_heap s) |>)
  | None => Fault UseAfterFree
  end.

Definition kzalloc_map (ok : bool) : M mmaps (option ptr) := fun s =>
  if ok then
    let p := new_ptr (mm_heap s) in
    Ok (Some p) (s <| mm_heap := <[p := zero_mmap]> (mm_heap s) |>)
  else Ok None s.

Definition kfree_map (p : ptr) : M mmaps () := fun s =>
  match mm_heap s !! p with
  | Some _ => Ok () (s <| mm_heap := delete p (mm_heap s) |>)
  | None => Fault DoubleFree
  end.

(** [hlist_add_head(&map->hn, &fl->maps)]; linking a linked node corrupts the list. *)
Definition maps_add_head (p : ptr) : M mmaps () := fun s =>
  if decide (p ∈ mm_list s) then Fault ListCorruption
  else Ok () (s <| mm_list := p :: mm_list s |>).

Definition maps_del_init (p : ptr) : M mmaps () :=
  modify (fun s => s <| mm_list := hlist_del p (mm_list s) |>).

Definition dma_buf_put : M mmaps () := modify (fun s => s <| mm_bufs := mm_bufs s - 1 |>).
Definition dma_buf_detach : M mmaps () :=
  modify (fun s => s <| mm_attaches := mm_attaches s - 1 |>).
Definition dma_buf_unmap_attachment : M mmaps () :=
  modify (fun s => s <| mm_tables := mm_tables s - 1 |>).

Definition dma_buf_get (r : option ptr) : M mmaps (option ptr) :=
  modify (fun s => s <| mm_bufs := mm_bufs s + b2z (bool_decide (is_Some r)) |>);; mret r.
Definition dma_buf_attach (r : option ptr) : M mmaps (option ptr) :=
  modify (fun s => s <| mm_attaches := mm_attaches s + b2z (bool_decide (is_Some r)) |>);; mret r.
Definition dma_buf_map_attachment (r : option sg_table) : M mmaps (option sg_table) :=
  modify (fun s => s <| mm_tables := mm_tables s + b2z (bool_decide (is_Some r)) |>);; mret r.

Section ops.
Context `{HS : adsprpc_shared}.

Definition keep_map (m : vfastrpc_mmap) : bool := has_bit (m_attr m) FASTRPC_ATTR_KEEP_MAP.

Definition vfastrpc_mmap_add (p : ptr) : M mmaps () :=
  m ← load p;
  if is_heap_addr (m_flags m) then mret () else maps_add_head p.

Definition vfastrpc_mmap_free (om : option ptr) (force_free : Z) : M mmaps () :=
  match om with
  | None => mret ()
  | Some p =>
    m ← load p;
    if is_heap_addr (m_flags m) then mret ()
    else if (m_refs m <=? 0) || (m_ctx_refs m <? 0) then mret ()
    else
      store p (m <| m_refs := m_refs m - 1 |>);;
      m ← load p;
      when ((negb (m_refs m =? 0) || negb (m_ctx_refs m =? 0)) && negb (force_free =? 0))
        (store p (m <| m_refs := 0 |> <| m_ctx_refs := 0 |>));;
      m ← load p;
      if (m_refs m =? 0) && (m_ctx_refs m =? 0) then
        maps_del_init p;;
        when (bool_decide (is_Some (m_table m)))
          (dma_buf_unmap_attachment;; m ← load p; store p (m <| m_table := None |>));;
        when (bool_decide (is_Some (m_attach m)))
          (dma_buf_detach;; m ← load p; store p (m <| m_attach := None |>));;
        when (bool_decide (is_Some (m_buf m)))
          (dma_buf_put;; m ← load p; store p (m <| m_buf := None |>));;
        kfree_map p
      else mret ()
  end.

(** The loop of [vfastrpc_mmap_remove] over the rest of [fl->maps]. *)
Fixpoint mmap_remove_loop (l : list ptr) (fd va len : Z) : M mmaps (option ptr) :=
  match l with
  | [] => mret None
  | p :: l' =>
    m ← load p;
    if ((fd <? 0) || (m_fd m =? fd)) && (m_raddr m =? va) &&
       (u64 (m_raddr m + m_len m) =? u64 (va + len)) &&
       ((m_refs m =? 1) || ((m_refs m =? 2) && keep_map m)) &&
       (m_ctx_refs m =? 0)
    then
      when (keep_map m) (store p (m <| m_refs := m_refs m - 1 |>));;
      maps_del_init p;;
      mret (Some p)
    else mmap_remove_loop l' fd va len
  end.

(** The error code and what [*ppmap] is assigned. *)
Definition vfastrpc_mmap_remove (fd va len : Z) : M mmaps (Z * option ptr) :=
  l ← gets mm_list;
  r ← mmap_remove_loop l fd va len;
  match r with
  | Some p => mret (0, Some p)
  | None => mret (- ETOOMANYREFS, None)
  end.

(** [hlist_for_each_entry_safe] of [vfastrpc_mmap_remove_fd]: the body may
    free the entry it is at, and no other. *)
Fixpoint mmap_remove_fd_loop (l : list ptr) (fd err entries : Z) : M mmaps (Z * Z) :=
  match l with
  | [] => mret (err, entries)
  | p :: l' =>
    m ← load p;
    if (m_fd m =? fd) && keep_map m then
      let err' := if (1 <? m_refs m) || negb (m_ctx_refs m =? 0)
                  then - ETOOMANYREFS else err in
      vfastrpc_mmap_free (Some p) 0;;
      mmap_remove_fd_loop l' fd err' (u32 (entries + 1))
    else mmap_remove_fd_loop l' fd err entries
  end.

Definition vfastrpc_mmap_remove_fd (fd : Z) : M mmaps (Z * Z) :=
  l ← gets mm_list;
  mmap_remove_fd_loop l fd 0 0.

Fixpoint mmap_find_loop (l : list ptr) (fd va len refs : Z) : M mmaps (Z * option ptr) :=
  match l with
  | [] => mret (- ENOTTY, None)
  | p :: l' =>
    m ← load p;
    if (m_va m <=? va) && (u64 (va + len) <=? u64 (m_va m + m_len m)) && (m_fd m =? fd) then
      if negb (refs =? 0) then
        if m_refs m + 1 =? INT_MAX then mret (- ETOOMANYREFS, None)
        else
          store p (m <| m_refs := s32 (m_refs m + 1) |>);;
          mret (0, Some p)
      else mret (0, Some p)
    else mmap_find_loop l' fd va len refs
  end.

Definition vfastrpc_mmap_find (fd va len mflags refs : Z) : M mmaps (Z * option ptr) :=
  if u64 (va + len) <? va then mret (- EOVERFLOW, None)
  else if is_heap_addr mflags then mret (- ENOTTY, None)
  else
    l ← gets mm_list;
    mmap_find_loop l fd va len refs.

(** What the kernel answers during one [vfastrpc_mmap_create]. *)
Record create_env := {
  ce_kzalloc : bool;
  ce_dma_buf : option ptr;
  ce_attach : option ptr;
  ce_table : option sg_table;
}.

(** The part of [vfastrpc_mmap_create] between the allocation and [bail]:
    the value of [err] and, on success, the map linked into the list. *)
Definition mmap_create_body (e : create_env) (p : ptr) (fd attr va len mflags : Z)
    : M mmaps Z :=
  m ← load p;
  store p (m <| m_flags := mflags |> <| m_refs := 1 |> <| m_fd := fd |>
             <| m_attr := attr |> <| m_ctx_refs := 0 |>);;
  if is_heap_addr mflags then mret (- EINVAL)
  else
    m ← load p;
    when (negb (m_attr m =? 0) && keep_map m) (store p (m <| m_refs := 2 |>));;
    b ← dma_buf_get (ce_dma_buf e);
    m ← load p; store p (m <| m_buf := b |>);;
    let err := VERIFY 0 (bool_decide (is_Some b)) in
    if negb (err =? 0) then mret err
    else
      a ← dma_buf_attach (ce_attach e);
      m ← load p; store p (m <| m_attach := a |>);;
      let err := VERIFY 0 (bool_decide (is_Some a)) in
      if negb (err =? 0) then mret err
      else
        t ← dma_buf_map_attachment (ce_table e);
        m ← load p; store p (m <| m_table := t |>);;
        let err := VERIFY 0 (bool_decide (is_Some t)) in
        if negb (err =? 0) then mret err
        else match t with
        | None => fail NullDeref
        | Some t =>
          m ← load p;
          store p (m <| m_phys := sg_dma_address (sgl t) |>
                     <| m_size := foldl (fun sz g => u64 (sz + sg_dma_len g)) (m_size m) (sg_entries t) |>
                     <| m_va := va |> <| m_len := len |>);;
          vfastrpc_mmap_add p;;
          mret 0
        end.

Definition vfastrpc_mmap_create (e : create_env) (fd attr va len mflags : Z)
    : M mmaps (Z * option ptr) :=
  r ← vfastrpc_mmap_find fd va len mflags 1;
  if r.1 =? 0 then mret (0, r.2)
  else
    op ← kzalloc_map (ce_kzalloc e);
    match op with
    | None => mret (VERIFY 0 false, None)
    | Some p =>
      err ← mmap_create_body e p fd attr va len mflags;
      if err =? 0 then mret (0, Some p)
      else
        vfastrpc_mmap_free (Some p) 0;;
        mret (err, None)
    end.

(** [maps[i]->ctx_refs++] and the guarded [ctx_refs--] the callers perform. *)
Definition ctx_ref_inc (p : ptr) : M mmaps () :=
  m ← load p; store p (m <| m_ctx_refs := s32 (m_ctx_refs m + 1) |>).
Definition ctx_ref_dec (p : ptr) : M mmaps () :=
  m ← load p;
  when (negb (m_ctx_refs m =? 0)) (store p (m <| m_ctx_refs := m_ctx_refs m - 1 |>)).

(** The [do ... while (lmap)] loop of [vfastrpc_file_free] over [fl->maps]. *)
Fixpoint free_all_maps (fuel : nat) : M mmaps () :=
  match fuel with
  | O => hang
  | S fuel =>
    l ← gets mm_list;
    match l with
    | [] => vfastrpc_mmap_free None 1
    | p :: _ => vfastrpc_mmap_free (Some p) 1;; free_all_maps fuel
    end
  end.
End ops.
Arguments vfastrpc_mmap_free : simpl never.
Arguments mmap_create_body : simpl never.

(** ** Closed forms *)

(** The state after the last reference of [p] is dropped. *)
Definition release (p : ptr) (m : vfastrpc_mmap) (s : mmaps) : mmaps :=
  {| mm_heap := delete p (mm_heap s);
     mm_list := hlist_del p (mm_list s);
     mm_bufs := mm_bufs s - b2z (bool_decide (is_Some (m_buf m)));
     mm_attaches := mm_attaches s - b2z (bool_decide (is_Some (m_attach m)));
     mm_tables := mm_tables s - b2z (bool_decide (is_Some (m_table m))) |}.

Definition set_map (p : ptr) (m : vfastrpc_mmap) (s : mmaps) : mmaps :=
  s <| mm_heap := <[p := m]> (mm_heap s) |>.

(** Symbolic execution: unfold the monad and resolve the lookups. *)
Ltac run_mmaps :=
  unfold mbind, M_bind, mret, M_ret, gets, modify, when, load, store, kfree_map,
    maps_del_init, dma_buf_put, dma_buf_detach, dma_buf_unmap_attachment, set_map;
  simpl;
  repeat (first
    [ rewrite lookup_insert_eq
    | rewrite insert_insert_eq
    | rewrite delete_insert_eq
    | match goal with H : ?h !! ?p = Some _ |- context [?h !! ?p] => rewrite H end
    | match goal with H : ?b = true |- context [if ?b then _ else _] => rewrite H end
    | match goal with H : ?b = false |- context [if ?b then _ else _] => rewrite H end ];
    simpl).

Section closed.
Context `{HS : adsprpc_shared}.

Lemma mmap_free_skip p m force s :
  mm_heap s !! p = Some m ->
  is_heap_addr (m_flags m) = true \/ m_refs m <= 0 \/ m_ctx_refs m < 0 ->
  vfastrpc_mmap_free (Some p) force s = Ok () s.
Proof.
  intros Hp Hskip. unfold vfastrpc_mmap_free. run_mmaps.
  destruct (is_heap_addr _); [done|].
  destruct (Z.leb_spec (m_refs m) 0); [done|].
  destruct (Z.ltb_spec (m_ctx_refs m) 0); [done|]. naive_solver lia.
Qed.

Lemma mmap_free_last p m force s :
  mm_heap s !! p = Some m ->
  is_heap_addr (m_flags m) = false -> 0 < m_refs m -> 0 <= m_ctx_refs m ->
  force <> 0 \/ (m_refs m = 1 /\ m_ctx_refs m = 0) ->
  vfastrpc_mmap_free (Some p) force s = Ok () (release p m s).
Proof.
  intros Hp Hf Hr Hc Hlast. unfold vfastrpc_mmap_free. run_mmaps. zdec. run_mmaps.
  destruct (Z.eqb_spec (m_refs m - 1) 0), (Z.eqb_spec (m_ctx_refs m) 0),
    (Z.eqb_spec force 0); simpl; try lia; run_mmaps.
  all: zdec; simpl; unfold release.
  all: destruct (m_table m), (m_attach m), (m_buf m); run_mmaps.
  all: by rewrite ?Z.sub_0_r.
Qed.

Lemma mmap_free_drop p m s :
  mm_heap s !! p = Some m ->
  is_heap_addr (m_flags m) = false -> 0 < m_refs m -> 0 <= m_ctx_refs m ->
  m_refs m <> 1 \/ m_ctx_refs m <> 0 ->
  vfastrpc_mmap_free (Some p) 0 s = Ok () (set_map p (m <| m_refs := m_refs m - 1 |>) s).
Proof.
  intros Hp Hf Hr Hc Hmore. unfold vfastrpc_mmap_free. run_mmaps. zdec. run_mmaps.
  rewrite andb_false_r. run_mmaps.
  destruct (Z.eqb_spec (m_refs m - 1) 0), (Z.eqb_spec (m_ctx_refs m) 0); simpl; try done. lia.
Qed.

Lemma ctx_ref_inc_eq p m s :
  mm_heap s !! p = Some m ->
  ctx_ref_inc p s = Ok () (set_map p (m <| m_ctx_refs := s32 (m_ctx_refs m + 1) |>) s).
Proof. intros Hp. unfold ctx_ref_inc. by run_mmaps. Qed.

Lemma ctx_ref_dec_eq p m s :
  mm_heap s !! p = Some m ->
  ctx_ref_dec p s =
    Ok () (if m_ctx_refs m =? 0 then s
           else set_map p (m <| m_ctx_refs := m_ctx_refs m - 1 |>) s).
Proof. intros Hp. unfold ctx_ref_dec. run_mmaps. destruct (_ =? 0); by run_mmaps. Qed.

(** The loop keeps to the first entry of the list that matches. *)
Definition find_match (fd va len : Z) (m : vfastrpc_mmap) : bool :=
  (m_va m <=? va) && (u64 (va + len) <=? u64 (m_va m + m_len m)) && (m_fd m =? fd).
Definition remove_match (fd va len : Z) (m : vfastrpc_mmap) : bool :=
  ((fd <? 0) || (m_fd m =? fd)) && (m_raddr m =? va) &&
  (u64 (m_raddr m + m_len m) =? u64 (va + len)) &&
  ((m_refs m =? 1) || ((m_refs m =? 2) && keep_map m)) &&
  (m_ctx_refs m =? 0).

(** The first entry of [l] whose map satisfies [f], with its map. *)
Fixpoint first_map (f : vfastrpc_mmap -> bool) (h : gmap ptr vfastrpc_mmap) (l : list ptr)
    : option (ptr * vfastrpc_mmap) :=
  match l with
  | [] => None
  | p :: l' =>
    match h !! p with
    | Some m => if f m then Some (p, m) else first_map f h l'
    | None => None
    end
  end.

Lemma first_map_Some f h l p m :
  first_map f h l = Some (p, m) -> p ∈ l /\ h !! p = Some m /\ f m = true.
Proof.
  induction l as [|q l IH]; simpl; [done|].
  destruct (h !! q) as [v|] eqn:Hq; [|done]. destruct (f v) eqn:Hf.
  - intros ?. simplify_eq. by split; [left|].
  - intros (Hp & Hm & Hfm)%IH. by split; [right|].
Qed.

Lemma find_loop_spec s l fd va len refs :
  (forall p, p ∈ l -> is_Some (mm_heap s !! p)) ->
  mmap_find_loop l fd va len refs s =
    match first_map (find_match fd va len) (mm_heap s) l with
    | None => Ok (- ENOTTY, None) s
    | Some (p, m) =>
      if refs =? 0 then Ok (0, Some p) s
      else if m_refs m + 1 =? INT_MAX then Ok (- ETOOMANYREFS, None) s
      else Ok (0, Some p) (set_map p (m <| m_refs := s32 (m_refs m + 1) |>) s)
    end.
Proof.
  induction l as [|q l IH]; intros Hl; [done|].
  destruct (Hl q) as [m Hm]; [set_solver|].
  cbn [mmap_find_loop first_map]. rewrite Hm. run_mmaps. fold (find_match fd va len m).
  destruct (find_match fd va len m).
  - destruct (refs =? 0); [done|]. simpl. destruct (_ =? INT_MAX); [done|]. by run_mmaps.
  - apply IH. set_solver.
Qed.

Lemma remove_loop_spec s l fd va len :
  (forall p, p ∈ l -> is_Some (mm_heap s !! p)) ->
  mmap_remove_loop l fd va len s =
    match first_map (remove_match fd va len) (mm_heap s) l with
    | None => Ok None s
    | Some (p, m) =>
      let s1 := if keep_map m then set_map p (m <| m_refs := m_refs m - 1 |>) s else s in
      Ok (Some p) (s1 <| mm_list := hlist_del p (mm_list s) |>)
    end.
Proof.
  induction l as [|q l IH]; intros Hl; [done|].
  destruct (Hl q) as [m Hm]; [set_solver|].
  cbn [mmap_remove_loop first_map]. rewrite Hm. run_mmaps. fold (remove_match fd va len m).
  destruct (remove_match fd va len m).
  - destruct (keep_map m); by run_mmaps.
  - apply IH. set_solver.
Qed.
End closed.

(** ** The invariant *)

Definition has_buf (m : vfastrpc_mmap) : bool := bool_decide (is_Some (m_buf m)).
Definition has_attach (m : vfastrpc_mmap) : bool := bool_decide (is_Some (m_attach m)).
Definition has_table (m : vfastrpc_mmap) : bool := bool_decide (is_Some (m_table m)).

(** A map whose reference counts an operation may still change. *)
Definition counts_ok (m : vfastrpc_mmap) : Prop :=
  0 <= m_refs m < INT_MAX /\ 0 <= m_ctx_refs m <= INT_MAX.

(** A map fit for [fl->maps]: backed by a dma-buf, attached and mapped. *)
Definition linkable (m : vfastrpc_mmap) : Prop :=
  is_heap_addr (m_flags m) = false /\
  has_buf m = true /\ has_attach m = true /\ has_table m = true.

Record mm_inv (s : mmaps) : Prop := {
  inv_nodup : NoDup (mm_list s);
  inv_listed p : p ∈ mm_list s -> exists m, mm_heap s !! p = Some m /\ linkable m;
  inv_counts p m : mm_heap s !! p = Some m -> counts_ok m;
  inv_bufs : mm_bufs s = hcount has_buf (mm_heap s);
  inv_attaches : mm_attaches s = hcount has_attach (mm_heap s);
  inv_tables : mm_tables s = hcount has_table (mm_heap s);
}.

Lemma inv_is_Some s p : mm_inv s -> p ∈ mm_list s -> is_Some (mm_heap s !! p).
Proof. intros H Hp. destruct (inv_listed s H p Hp) as (m & -> & _). by eexists. Qed.

Lemma inv_empty : mm_inv empty_mmaps.
Proof.
  split; simpl; rewrite ?hcount_empty; try done.
  - apply NoDup_nil_2.
  - by intros p ?%not_elem_of_nil.
Qed.

(** Changing a live map's counts keeps the invariant. *)
Lemma inv_set_map s p m m' :
  mm_inv s -> mm_heap s !! p = Some m -> counts_ok m' ->
  m_flags m' = m_flags m -> m_buf m' = m_buf m -> m_attach m' = m_attach m ->
  m_table m' = m_table m ->
  mm_inv (set_map p m' s).
Proof.
  intros [Hnd Hl Hc Hb Ha Ht] Hp Hc' Ef Eb Ea Et.
  split; simpl; [done| | | | |].
  - intros q Hq. destruct (Hl q Hq) as (mq & Hmq & Hk). destruct (decide (p = q)) as [<-|Hne].
    + exists m'. rewrite lookup_insert_eq. split; [done|]. rewrite Hp in Hmq. simplify_eq.
      unfold linkable, has_buf, has_attach, has_table in *. by rewrite Ef, Eb, Ea, Et.
    + exists mq. by rewrite lookup_insert_ne.
  - intros q mq. rewrite lookup_insert. case_decide; [|by apply Hc]. by intros [= <-].
  - rewrite (hcount_update _ _ _ m) by done. unfold has_buf at 2 3. rewrite Eb. lia.
  - rewrite (hcount_update _ _ _ m) by done. unfold has_attach at 2 3. rewrite Ea. lia.
  - rewrite (hcount_update _ _ _ m) by done. unfold has_table at 2 3. rewrite Et. lia.
Qed.

Lemma inv_release s p m : mm_inv s -> mm_heap s !! p = Some m -> mm_inv (release p m s).
Proof.
  intros [Hnd Hl Hc Hb Ha Ht] Hp. split; simpl.
  - by apply NoDup_hlist_del.
  - intros q [Hq Hne]%elem_of_hlist_del. destruct (Hl q Hq) as (mq & Hmq & Hk).
    exists mq. by rewrite lookup_delete_ne.
  - intros q mq. rewrite lookup_delete_Some. naive_solver.
  - rewrite (hcount_delete _ _ _ m) by done. unfold has_buf in *. lia.
  - rewrite (hcount_delete _ _ _ m) by done. unfold has_attach in *. lia.
  - rewrite (hcount_delete _ _ _ m) by done. unfold has_table in *. lia.
Qed.

Lemma inv_unlink s p : mm_inv s -> mm_inv (s <| mm_list := hlist_del p (mm_list s) |>).
Proof.
  intros [Hnd Hl Hc Hb Ha Ht]. split; simpl; try done.
  - by apply NoDup_hlist_del.
  - intros q [Hq _]%elem_of_hlist_del. by apply Hl.
Qed.

Lemma inv_link s p m :
  mm_inv s -> p ∉ mm_list s -> mm_heap s !! p = Some m -> linkable m ->
  mm_inv (s <| mm_list := p :: mm_list s |>).
Proof.
  intros [Hnd Hl Hc Hb Ha Ht] Hp Hm Hk. split; simpl; try done.
  - by apply NoDup_cons.
  - intros q [->|Hq]%elem_of_cons; [by exists m|]. by apply Hl.
Qed.

(** A fresh object, with the ledger counting what it holds. *)
Lemma inv_new s p m :
  mm_inv s -> mm_heap s !! p = None -> counts_ok m ->
  mm_inv {| mm_heap := <[p := m]> (mm_heap s); mm_list := mm_list s;
            mm_bufs := mm_bufs s + b2z (has_buf m);
            mm_attaches := mm_attaches s + b2z (has_attach m);
            mm_tables := mm_tables s + b2z (has_table m) |}.
Proof.
  intros [Hnd Hl Hc Hb Ha Ht] Hp Hm. split; simpl; try done.
  - intros q Hq. destruct (Hl q Hq) as (mq & Hmq & Hk). exists mq.
    rewrite lookup_insert_ne by naive_solver. done.
  - intros q mq. rewrite lookup_insert. case_decide; [|by apply Hc]. by intros [= <-].
  - rewrite hcount_insert_new by done. lia.
  - rewrite hcount_insert_new by done. lia.
  - rewrite hcount_insert_new by done. lia.
Qed.

(** ** Creation *)

Section create.
Context `{HS : adsprpc_shared, !adsprpc_shared_ok HS}.

(** The fields of a new map once the kernel has answered [b], [a] and [t]. *)
Definition new_map (fd attr mflags : Z) (b a : option ptr) (t : option sg_table) : vfastrpc_mmap :=
  zero_mmap <| m_flags := mflags |> <| m_fd := fd |> <| m_attr := attr |>
    <| m_refs := if has_bit attr FASTRPC_ATTR_KEEP_MAP then 2 else 1 |>
    <| m_buf := b |> <| m_attach := a |> <| m_table := t |>.

Definition with_new (p : ptr) (m : vfastrpc_mmap) (s : mmaps) : mmaps :=
  {| mm_heap := <[p := m]> (mm_heap s); mm_list := mm_list s;
     mm_bufs := mm_bufs s + b2z (has_buf m);
     mm_attaches := mm_attaches s + b2z (has_attach m);
     mm_tables := mm_tables s + b2z (has_table m) |}.

Lemma create_body_heap e p fd attr va len mflags s :
  is_heap_addr mflags = true ->
  mmap_create_body e p fd attr va len mflags (with_new p zero_mmap s) =
    Ok (- EINVAL) (with_new p (zero_mmap <| m_flags := mflags |> <| m_refs := 1 |>
      <| m_fd := fd |> <| m_attr := attr |>) s).
Proof.
  intros Hf. unfold mmap_create_body, with_new. run_mmaps. done.
Qed.

Lemma keep_test attr :
  negb (attr =? 0) && has_bit attr FASTRPC_ATTR_KEEP_MAP = has_bit attr FASTRPC_ATTR_KEEP_MAP.
Proof. destruct (Z.eqb_spec attr 0) as [->|]; [|done]. by rewrite has_bit_0. Qed.

Lemma create_body_spec e p fd attr va len mflags s :
  is_heap_addr mflags = false -> p ∉ mm_list s ->
  mmap_create_body e p fd attr va len mflags (with_new p zero_mmap s) =
    match ce_dma_buf e, ce_attach e, ce_table e with
    | None, _, _ => Ok (VERIFY_err 0) (with_new p (new_map fd attr mflags None None None) s)
    | Some b, None, _ =>
      Ok (VERIFY_err 0) (with_new p (new_map fd attr mflags (Some b) None None) s)
    | Some b, Some a, None =>
      Ok (VERIFY_err 0) (with_new p (new_map fd attr mflags (Some b) (Some a) None) s)
    | Some b, Some a, Some t =>
      Ok 0 ((with_new p ((new_map fd attr mflags (Some b) (Some a) (Some t))
          <| m_phys := sg_dma_address (sgl t) |>
          <| m_size := foldl (fun sz g => u64 (sz + sg_dma_len g)) 0 (sg_entries t) |>
          <| m_va := va |> <| m_len := len |>) s)
        <| mm_list := p :: mm_list s |>)
    end.
Proof.
  intros Hf Hp. unfold mmap_create_body, with_new, new_map.
  unfold dma_buf_get, dma_buf_attach, dma_buf_map_attachment, vfastrpc_mmap_add,
    maps_add_head, VERIFY, keep_map.
  run_mmaps. rewrite keep_test.
  destruct (has_bit attr _), (ce_dma_buf e), (ce_attach e), (ce_table e); run_mmaps;
    rewrite ?VERIFY_err_eqb; run_mmaps; rewrite ?decide_False by done; run_mmaps;
    by rewrite ?Z.add_0_r.
Qed.

Lemma with_new_zero p s :
  with_new p zero_mmap s = s <| mm_heap := <[p := zero_mmap]> (mm_heap s) |>.
Proof. unfold with_new. simpl. by rewrite !Z.add_0_r. Qed.

Lemma release_with_new p m s :
  mm_heap s !! p = None -> p ∉ mm_list s -> release p m (with_new p m s) = s.
Proof.
  intros Hh Hl. unfold release, with_new, has_buf, has_attach, has_table. destruct s; simpl in *.
  rewrite delete_insert_eq, delete_id, hlist_del_id by done. f_equal; lia.
Qed.

(** The same for a map that was linked after it was built. *)
Lemma release_linked_new p m s :
  mm_heap s !! p = None -> p ∉ mm_list s -> NoDup (mm_list s) ->
  release p m ((with_new p m s) <| mm_list := p :: mm_list s |>) = s.
Proof.
  intros Hh Hl Hnd. unfold release, with_new, has_buf, has_attach, has_table.
  destruct s; simpl in *. rewrite hlist_del_head by by apply NoDup_cons.
  rewrite delete_insert_eq, delete_id by done. f_equal; lia.
Qed.

Lemma inv_fresh_unlisted s p : mm_inv s -> mm_heap s !! p = None -> p ∉ mm_list s.
Proof. intros H Hp Hin. destruct (inv_is_Some s p H Hin). naive_solver. Qed.

(** What a lookup leaves behind, on every branch. *)
Lemma find_spec fd va len mflags refs s :
  mm_inv s ->
  wp (vfastrpc_mmap_find fd va len mflags refs) (fun r s' => mm_inv s' /\
    mm_list s' = mm_list s /\
    (r.1 = 0 -> exists p, r.2 = Some p /\ p ∈ mm_list s') /\
    (r.1 <> 0 -> s' = s /\ r.2 = None)) s.
Proof.
  intros Hinv. unfold vfastrpc_mmap_find, wp.
  destruct (_ <? _); [by simpl|]. destruct (is_heap_addr mflags); [by simpl|].
  unfold mbind, M_bind, gets. simpl.
  rewrite find_loop_spec by (intros; by apply inv_is_Some).
  destruct (first_map _ _ _) as [[p m]|] eqn:E; [|by simpl].
  apply first_map_Some in E as (Hp & Hm & _).
  destruct (refs =? 0); [naive_solver|]. destruct (Z.eqb_spec (m_refs m + 1) INT_MAX); [by simpl|].
  split; [|naive_solver]. destruct (inv_counts s Hinv p m Hm) as [Hr Hc].
  eapply inv_set_map; try done. unfold counts_ok in *. simpl. unfold INT_MAX in *.
  rewrite s32_id by lia. lia.
Qed.

Lemma free_inv om force s :
  mm_inv s -> (forall p, om = Some p -> is_Some (mm_heap s !! p)) ->
  wp (vfastrpc_mmap_free om force) (fun _ s' => mm_inv s') s.
Proof.
  intros Hinv Hom. unfold wp. destruct om as [p|]; [|done].
  destruct (Hom p) as [m Hm]; [done|]. destruct (inv_counts s Hinv p m Hm) as [Hr Hc].
  destruct (is_heap_addr (m_flags m)) eqn:Hf; [by rewrite (mmap_free_skip _ m) by eauto|].
  destruct (Z.le_gt_cases (m_refs m) 0); [by rewrite (mmap_free_skip _ m) by eauto|].
  destruct (decide (force <> 0 \/ (m_refs m = 1 /\ m_ctx_refs m = 0))) as [Hl|Hl].
  - rewrite (mmap_free_last _ m) by (done || lia). by apply inv_release.
  - assert (force = 0) as -> by lia. rewrite (mmap_free_drop _ m) by (done || lia).
    eapply inv_set_map; try done. unfold counts_ok in *. simpl. lia.
Qed.

(** How the middle of [vfastrpc_mmap_create] ends: linked, or to be undone. *)
Lemma create_body_cases e p fd attr va len mflags s :
  p ∉ mm_list s ->
  let run := mmap_create_body e p fd attr va len mflags (with_new p zero_mmap s) in
  (exists m, run = Ok 0 ((with_new p m s) <| mm_list := p :: mm_list s |>) /\
    linkable m /\ counts_ok m) \/
  (exists err m, run = Ok err (with_new p m s) /\ err <> 0 /\ m_flags m = mflags /\
    m_ctx_refs m = 0 /\
    m_refs m = if negb (is_heap_addr mflags) && has_bit attr FASTRPC_ATTR_KEEP_MAP
               then 2 else 1).
Proof.
  intros Hp run. subst run. destruct (is_heap_addr mflags) eqn:Hf.
  - right. rewrite create_body_heap by done. eexists _, _. split; [done|]. by simpl.
  - rewrite create_body_spec by done. pose proof (VERIFY_err_nonzero 0).
    destruct (ce_dma_buf e) as [b|]; [destruct (ce_attach e) as [a|]; [destruct (ce_table e) as [t|]|]|];
      [left|right..].
    + eexists. split; [done|]. unfold linkable, counts_ok, INT_MAX. simpl. rewrite Hf.
      destruct (has_bit _ _); split_and!; done || lia.
    + eexists _, _. split; [done|]. by simpl.
    + eexists _, _. split; [done|]. by simpl.
    + eexists _, _. split; [done|]. by simpl.
Qed.

Lemma create_inv e fd attr va len mflags s :
  mm_inv s ->
  wp (vfastrpc_mmap_create e fd attr va len mflags) (fun r s' => mm_inv s' /\
    (r.1 = 0 -> exists p, r.2 = Some p /\ p ∈ mm_list s') /\
    (r.1 <> 0 -> r.2 = None)) s.
Proof.
  intros Hinv. unfold vfastrpc_mmap_create. eapply wp_seq; [by apply find_spec|].
  intros [err r] s1 (Hinv1 & _ & H0 & _). simpl in *.
  destruct (Z.eqb_spec err 0) as [->|Hne]; [by apply wp_ret; naive_solver|].
  unfold kzalloc_map. apply wp_bind. unfold wp at 1.
  destruct (ce_kzalloc e); [|apply wp_ret; pose proof (VERIFY_err_nonzero 0); naive_solver].
  set (p := new_ptr (mm_heap s1)). assert (mm_heap s1 !! p = None) as Hp by apply new_ptr_None.
  assert (p ∉ mm_list s1) as Hpl by by apply inv_fresh_unlisted.
  rewrite <- with_new_zero. apply wp_bind. unfold wp at 1.
  destruct (create_body_cases e p fd attr va len mflags s1 Hpl)
    as [(m & -> & Hlk & Hct)|(er & m & -> & Her & Hfl & Hcr & Hrf)].
  - apply wp_ret. split; [|naive_solver by left].
    eapply (inv_link (with_new p m s1)); [by apply inv_new|done|apply lookup_insert_eq|done].
  - zdec. eapply wp_seq; [apply free_inv|].
    + apply inv_new; try done. unfold counts_ok, INT_MAX. destruct (negb _ && _); lia.
    + intros q [= <-]. simpl. rewrite lookup_insert_eq. by eexists.
    + intros [] s2 Hinv2. apply wp_ret. naive_solver.
Qed.
End create.
