(* ===== verification/MmapFacts.v ===== *)
(** * What the mapping operations guarantee

    Reachability over the operations of [Mmap], the invariant, the exactness
    of creation, lookup and removal, and the loop that empties [fl->maps]
    when the file is closed. *)
From S2P Require Import Prelude Shared Mmap.

(** ** Sequences of operations *)

(** One operation on the mappings, as the ioctl handlers and the invoke path perform them. *)
Inductive mm_op : Type :=
| OpCreate (e : create_env) (fd attr va len mflags : Z)
| OpFind (fd va len mflags refs : Z)
| OpRemove (fd va len : Z)
| OpRemoveFd (fd : Z)
| OpAdd (p : ptr)
| OpFree (p : ptr) (force : Z)
| OpCtxInc (p : ptr)
| OpCtxDec (p : ptr).

Section reach.
Context `{HS : adsprpc_shared}.

Definition run_op (o : mm_op) : M mmaps () :=
  match o with
  | OpCreate e fd attr va len mflags => vfastrpc_mmap_create e fd attr va len mflags;; mret ()
  | OpFind fd va len mflags refs => vfastrpc_mmap_find fd va len mflags refs;; mret ()
  | OpRemove fd va len => vfastrpc_mmap_remove fd va len;; mret ()
  | OpRemoveFd fd => vfastrpc_mmap_remove_fd fd;; mret ()
  | OpAdd p => vfastrpc_mmap_add p
  | OpFree p force => vfastrpc_mmap_free (Some p) force
  | OpCtxInc p => ctx_ref_inc p
  | OpCtxDec p => ctx_ref_dec p
  end.

(** What the caller of an operation holds: a live map, and for [OpAdd] one
    that an earlier removal took off the list. *)
Definition op_pre (o : mm_op) (s : mmaps) : Prop :=
  match o with
  | OpAdd p => (p ∉ mm_list s) /\ exists m, mm_heap s !! p = Some m /\ linkable m
  | OpFree p _ | OpCtxDec p => is_Some (mm_heap s !! p)
  | OpCtxInc p => exists m, mm_heap s !! p = Some m /\ m_ctx_refs m < INT_MAX
  | _ => True
  end.

Inductive mm_reach : mmaps -> Prop :=
| reach_open : mm_reach empty_mmaps
| reach_step s o s' : mm_reach s -> op_pre o s -> run_op o s = Ok () s' -> mm_reach s'.
End reach.

Section inv.
Context `{HS : adsprpc_shared, !adsprpc_shared_ok HS}.

Lemma remove_inv fd va len s :
  mm_inv s -> wp (vfastrpc_mmap_remove fd va len) (fun _ s' => mm_inv s') s.
Proof.
  intros Hinv. unfold vfastrpc_mmap_remove, wp, mbind, M_bind, gets. simpl.
  rewrite remove_loop_spec by (intros; by apply inv_is_Some).
  destruct (first_map _ _ _) as [[p m]|] eqn:E; [|done]. simpl.
  apply first_map_Some in E as (Hp & Hm & Hmatch).
  destruct (keep_map m); [|by apply inv_unlink].
  eapply (inv_unlink (set_map p _ s)), inv_set_map; try done.
  destruct (inv_counts s Hinv p m Hm). unfold counts_ok, remove_match in *. simpl.
  destruct (Z.eqb_spec (m_refs m) 1), (Z.eqb_spec (m_refs m) 2); try lia.
Qed.

Lemma free_listed p q force s s' :
  mm_inv s -> p <> q -> vfastrpc_mmap_free (Some p) force s = Ok () s' ->
  mm_heap s' !! q = mm_heap s !! q.
Proof.
  intros Hinv Hne Hrun. destruct (mm_heap s !! p) as [m|] eqn:Hm.
  2: { revert Hrun. unfold vfastrpc_mmap_free. run_mmaps. by rewrite Hm. }
  destruct (inv_counts s Hinv p m Hm) as [Hr Hc].
  destruct (is_heap_addr (m_flags m)) eqn:Hf; [rewrite (mmap_free_skip _ m) in Hrun by eauto; by simplify_eq|].
  destruct (Z.le_gt_cases (m_refs m) 0); [rewrite (mmap_free_skip _ m) in Hrun by eauto; by simplify_eq|].
  destruct (decide (force <> 0 \/ (m_refs m = 1 /\ m_ctx_refs m = 0))) as [Hl|Hl].
  - rewrite (mmap_free_last _ m) in Hrun by (done || lia). simplify_eq/=. by rewrite lookup_delete_ne.
  - assert (force = 0) as -> by lia. rewrite (mmap_free_drop _ m) in Hrun by (done || lia).
    simplify_eq/=. by rewrite lookup_insert_ne.
Qed.

Lemma remove_fd_loop_inv fd err n s l :
  mm_inv s -> NoDup l -> (forall p, p ∈ l -> is_Some (mm_heap s !! p)) ->
  wp (mmap_remove_fd_loop l fd err n) (fun _ s' => mm_inv s') s.
Proof.
  revert s err n. induction l as [|p l IH]; intros s err n Hinv Hnd Hl; [done|].
  apply NoDup_cons in Hnd as [Hp Hnd]. destruct (Hl p) as [m Hm]; [by left|].
  cbn [mmap_remove_fd_loop]. apply wp_bind. unfold wp at 1, load. rewrite Hm.
  destruct (_ && keep_map m).
  - pose proof (free_inv (Some p) 0 s Hinv) as Hfree.
    apply wp_iff in Hfree as ([] & s1 & Hrun & Hinv1); [|by intros ? [= <-]].
    apply wp_bind. unfold wp at 1. rewrite Hrun. apply IH; [done..|].
    intros q Hq. rewrite (free_listed p q 0 s) by (done || set_solver). apply Hl. by right.
  - apply IH; [done..|]. intros q Hq. apply Hl. by right.
Qed.

Lemma remove_fd_inv fd s :
  mm_inv s -> wp (vfastrpc_mmap_remove_fd fd) (fun _ s' => mm_inv s') s.
Proof.
  intros Hinv. apply (remove_fd_loop_inv fd 0 0 s (mm_list s) Hinv); [by apply inv_nodup|].
  intros; by apply inv_is_Some.
Qed.

Lemma op_inv o s : mm_inv s -> op_pre o s -> wp (run_op o) (fun _ s' => mm_inv s') s.
Proof.
  intros Hinv Hpre. destruct o; simpl in Hpre |- *.
  - eapply wp_seq; [by apply create_inv|]. by intros ? ? [? _].
  - eapply wp_seq; [by apply find_spec|]. by intros ? ? [? _].
  - eapply wp_seq; [by apply remove_inv|]. by intros [] ? ?.
  - eapply wp_seq; [by apply remove_fd_inv|]. by intros [] ? ?.
  - destruct Hpre as (Hp & m & Hm & Hk). unfold wp, vfastrpc_mmap_add. run_mmaps.
    rewrite (proj1 Hk). unfold maps_add_head. rewrite decide_False by done. by eapply inv_link.
  - apply free_inv; [done|]. by intros ? [= <-].
  - destruct Hpre as (m & Hm & Hlt). unfold wp, ctx_ref_inc. run_mmaps.
    eapply inv_set_map; try done. destruct (inv_counts s Hinv p m Hm).
    unfold counts_ok, INT_MAX in *. simpl. rewrite s32_id; lia.
  - destruct Hpre as [m Hm]. unfold wp, ctx_ref_dec. run_mmaps.
    destruct (Z.eqb_spec (m_ctx_refs m) 0); run_mmaps; [done|].
    eapply inv_set_map; try done. destruct (inv_counts s Hinv p m Hm).
    unfold counts_ok in *. simpl. lia.
Qed.

(** C27: mappings stay well formed.  In every state reachable from an open
    file by any sequence of create, find, remove, remove-by-fd, add, free
    and context-reference operations, [fl->maps] has no duplicates, every
    entry is a live object backed by a dma-buf with its attachment and
    table, no reference count is negative or overflows, and the dma-buf
    references, attachments and tables taken equal those the live objects
    hold; and no further operation touches freed memory or corrupts the list. *)
Theorem mmap_ops_safe s :
  mm_reach s ->
  mm_inv s /\ forall o, op_pre o s -> exists s', run_op o s = Ok () s' /\ mm_inv s'.
Proof.
  intros Hr. assert (mm_inv s) as Hinv.
  { induction Hr as [|s o s' Hr IH Hpre Hrun]; [apply inv_empty|].
    pose proof (op_inv o s IH Hpre) as H. unfold wp in H. by rewrite Hrun in H. }
  split; [done|]. intros o Hpre.
  destruct (proj1 (wp_iff _ _ _) (op_inv o s Hinv Hpre)) as ([] & s' & ? & ?). eauto.
Qed.
End inv.

(** ** Creation and release *)

Section create_facts.
Context `{HS : adsprpc_shared, !adsprpc_shared_ok HS}.

(** The call when no existing map serves the request. *)
Lemma create_unfold e fd attr va len mflags s r :
  vfastrpc_mmap_find fd va len mflags 1 s = Ok r s -> r.1 <> 0 -> ce_kzalloc e = true ->
  let p := new_ptr (mm_heap s) in
  vfastrpc_mmap_create e fd attr va len mflags s =
    match mmap_create_body e p fd attr va len mflags (with_new p zero_mmap s) with
    | Ok err s1 =>
      if err =? 0 then Ok (0, Some p) s1
      else match vfastrpc_mmap_free (Some p) 0 s1 with
           | Ok _ s2 => Ok (err, None) s2
           | Fault f => Fault f
           | Hang h => Hang h
           end
    | Fault f => Fault f
    | Hang h => Hang h
    end.
Proof.
  intros Hfind Hne Hk p. unfold vfastrpc_mmap_create, mbind, M_bind. rewrite Hfind. zdec.
  unfold kzalloc_map. rewrite Hk, with_new_zero. fold p.
  destruct (mmap_create_body _ _ _ _ _ _ _ _) as [err s1| |]; [|done..].
  destruct (err =? 0); [done|]. by destruct (vfastrpc_mmap_free _ _ _).
Qed.

(** The lookup at the head of [vfastrpc_mmap_create]. *)
Lemma find_exact fd va len mflags s :
  mm_inv s ->
  (exists p m, p ∈ mm_list s /\ mm_heap s !! p = Some m /\ m_refs m + 1 < INT_MAX /\
    vfastrpc_mmap_find fd va len mflags 1 s =
      Ok (0, Some p) (set_map p (m <| m_refs := m_refs m + 1 |>) s)) \/
  (exists err, err <> 0 /\ vfastrpc_mmap_find fd va len mflags 1 s = Ok (err, None) s).
Proof.
  intros Hinv. unfold vfastrpc_mmap_find. destruct (_ <? _); [right; by exists (- EOVERFLOW)|].
  destruct (is_heap_addr mflags); [right; by exists (- ENOTTY)|].
  unfold mbind, M_bind, gets. rewrite find_loop_spec by (intros; by apply inv_is_Some).
  destruct (first_map _ _ _) as [[p m]|] eqn:E; [|right; by exists (- ENOTTY)].
  apply first_map_Some in E as (Hp & Hm & _). destruct (inv_counts s Hinv _ _ Hm).
  destruct (Z.eqb_spec (m_refs m + 1) INT_MAX); [right; by exists (- ETOOMANYREFS)|].
  left. exists p, m. split_and!; try done; [lia|]. simpl. rewrite s32_id; [done|]. unfold INT_MAX in *. lia.
Qed.

(** A failed creation undoes itself.  When [vfastrpc_mmap_create]
    returns an error for a map without KEEP_MAP (and outside the
    unsupported heap flags), the mappings are exactly as before: no object,
    dma-buf reference, attachment or table is left behind, and [*ppmap] is
    not set. *)
Theorem mmap_create_failure_exact e fd attr va len mflags s err r s' :
  mm_inv s -> is_heap_addr mflags = false ->
  has_bit attr FASTRPC_ATTR_KEEP_MAP = false ->
  vfastrpc_mmap_create e fd attr va len mflags s = Ok (err, r) s' -> err <> 0 ->
  s' = s /\ r = None.
Proof.
  intros Hinv Hf Hk Hrun Herr.
  destruct (proj1 (wp_iff _ _ _) (find_spec fd va len mflags 1 s Hinv)) as (r0 & s0 & Hfind & _ & _ & _ & Hno).
  destruct (Z.eq_dec r0.1 0) as [H0|Hne].
  { revert Hrun. unfold vfastrpc_mmap_create, mbind, M_bind. rewrite Hfind. zdec.
    unfold mret, M_ret. intros ?. simplify_eq. }
  destruct (Hno Hne) as [-> _]. destruct (ce_kzalloc e) eqn:Hkz.
  2: { revert Hrun. unfold vfastrpc_mmap_create, mbind, M_bind, kzalloc_map. rewrite Hfind, Hkz.
       zdec. unfold mret, M_ret. intros ?. by simplify_eq. }
  rewrite (create_unfold _ _ _ _ _ _ _ r0) in Hrun by done.
  set (p := new_ptr (mm_heap s)) in Hrun. assert (mm_heap s !! p = None) as Hp by apply new_ptr_None.
  assert (p ∉ mm_list s) as Hpl by by apply inv_fresh_unlisted.
  destruct (create_body_cases e p fd attr va len mflags s Hpl)
    as [(m & E & _)|(er & m & E & Her & Hfl & Hcr & Hrf)]; rewrite E in Hrun.
  { simplify_eq/=. }
  rewrite (proj2 (Z.eqb_neq er 0) Her) in Hrun. rewrite Hf, Hk in Hrf. simpl in Hrf.
  rewrite (mmap_free_last _ m) in Hrun by (simpl; rewrite ?lookup_insert_eq, ?Hfl; lia || done || auto).
  rewrite release_with_new in Hrun by done. by simplify_eq.
Qed.

(** With KEEP_MAP a failed creation leaks.  If attaching the dma-buf
    fails for a KEEP_MAP request no existing map serves, the call reports
    an error and gives the caller no map, but leaves behind an object that
    is on no list, still has one reference, and keeps a dma-buf reference
    that nothing will ever drop: [vfastrpc_mmap_free] takes back one of the
    two references the map was born with. *)
Theorem mmap_create_keep_map_leaks e fd attr va len mflags s b :
  mm_inv s -> is_heap_addr mflags = false ->
  has_bit attr FASTRPC_ATTR_KEEP_MAP = true ->
  first_map (find_match fd va len) (mm_heap s) (mm_list s) = None ->
  ce_kzalloc e = true -> ce_dma_buf e = Some b -> ce_attach e = None ->
  exists p m s', vfastrpc_mmap_create e fd attr va len mflags s = Ok (VERIFY_err 0, None) s' /\
    mm_heap s !! p = None /\ mm_heap s' !! p = Some m /\ (p ∉ mm_list s') /\
    m_refs m = 1 /\ mm_bufs s' = mm_bufs s + 1.
Proof.
  intros Hinv Hf Hk Hnone Hkz Hb Ha.
  assert (exists r0, vfastrpc_mmap_find fd va len mflags 1 s = Ok r0 s /\ r0.1 <> 0) as (r0 & Hfind & Hne).
  { unfold vfastrpc_mmap_find. destruct (_ <? _); [by eexists|]. rewrite Hf.
    unfold mbind, M_bind, gets. rewrite find_loop_spec by (intros; by apply inv_is_Some).
    rewrite Hnone. by eexists. }
  rewrite (create_unfold _ _ _ _ _ _ _ r0) by done.
  set (p := new_ptr (mm_heap s)). assert (mm_heap s !! p = None) as Hp by apply new_ptr_None.
  assert (p ∉ mm_list s) as Hpl by by apply inv_fresh_unlisted.
  rewrite create_body_spec, Hb, Ha by done. rewrite VERIFY_err_eqb.
  erewrite mmap_free_drop; cycle 1.
  { apply lookup_insert_eq. } { done. } { simpl. rewrite Hk. lia. } { done. } { simpl. rewrite Hk. lia. }
  eexists p, _, _. split_and!; [done|done| | | |].
  - simpl. by rewrite lookup_insert_eq.
  - done.
  - simpl. by rewrite Hk.
  - done.
Qed.

(** Creation and release are inverse.  A successful
    [vfastrpc_mmap_create] without KEEP_MAP followed by one
    [vfastrpc_mmap_free] of the returned map restores the mappings exactly,
    whether the request reused a live map or built a new one; so a handler
    that frees the map it created on its error path leaks nothing. *)
Theorem mmap_create_free_roundtrip e fd attr va len mflags s p s' :
  mm_inv s -> is_heap_addr mflags = false ->
  has_bit attr FASTRPC_ATTR_KEEP_MAP = false ->
  (forall q m, q ∈ mm_list s -> mm_heap s !! q = Some m -> 0 < m_refs m) ->
  vfastrpc_mmap_create e fd attr va len mflags s = Ok (0, Some p) s' ->
  vfastrpc_mmap_free (Some p) 0 s' = Ok () s.
Proof.
  intros Hinv Hf Hk Hpos Hrun.
  destruct (find_exact fd va len mflags s Hinv) as [(q & m & Hq & Hm & Hlt & Hfind)|(er & Her & Hfind)].
  - assert (Ok (0, Some q) (set_map q (m <| m_refs := m_refs m + 1 |>) s) = Ok (0, Some p) s') as E.
    { rewrite <- Hrun. unfold vfastrpc_mmap_create, mbind, M_bind. by rewrite Hfind. }
    simplify_eq. specialize (Hpos _ _ Hq Hm). destruct (inv_counts s Hinv _ _ Hm) as [_ Hc].
    destruct (inv_listed s Hinv _ Hq) as (m2 & Hm2 & Hk2). simplify_eq.
    rewrite (mmap_free_drop _ (m <| m_refs := m_refs m + 1 |>)).
    + f_equal. unfold set_map. destruct s; simpl in *. f_equal. rewrite insert_insert_eq.
      apply insert_id. rewrite Hm. f_equal. destruct m; simpl. f_equal. lia.
    + simpl. by rewrite lookup_insert_eq.
    + apply Hk2.
    + simpl. lia.
    + simpl. lia.
    + simpl. lia.
  - destruct (ce_kzalloc e) eqn:Hkz.
    2: { revert Hrun. unfold vfastrpc_mmap_create, mbind, M_bind, kzalloc_map. rewrite Hfind, Hkz.
         simpl. zdec. unfold mret, M_ret. intros ?. simplify_eq. }
    rewrite (create_unfold _ _ _ _ _ _ _ (er, None)) in Hrun by done.
    set (p0 := new_ptr (mm_heap s)) in Hrun. assert (mm_heap s !! p0 = None) as Hp by apply new_ptr_None.
    assert (p0 ∉ mm_list s) as Hpl by by apply inv_fresh_unlisted.
    rewrite create_body_spec in Hrun by done. revert Hrun.
    destruct (ce_dma_buf e) as [b|]; [destruct (ce_attach e) as [a|]; [destruct (ce_table e) as [t|]|]|].
    2-4: rewrite VERIFY_err_eqb; destruct (vfastrpc_mmap_free _ _ _); intros ?; simplify_eq.
    rewrite Z.eqb_refl. intros [= <- <-]. erewrite mmap_free_last; [|apply lookup_insert_eq|..].
    + f_equal. apply release_linked_new; by eauto using inv_nodup.
    + done.
    + simpl. by rewrite Hk.
    + done.
    + right. simpl. by rewrite Hk.
Qed.
End create_facts.

(** ** Closing the file: the loop that empties [fl->maps] *)

Section close.
Context `{HS : adsprpc_shared, !adsprpc_shared_ok HS}.

(** One turn of the loop frees the head of the list, whatever references it has. *)
Lemma free_all_step p m l fuel s :
  mm_list s = p :: l -> NoDup (p :: l) -> mm_heap s !! p = Some m -> linkable m -> counts_ok m ->
  0 < m_refs m ->
  free_all_maps (S fuel) s = free_all_maps fuel (release p m s) /\ mm_list (release p m s) = l.
Proof.
  intros El Hnd Hm Hk Hc Hr. split.
  - cbn [free_all_maps]. unfold mbind, M_bind, gets. rewrite El.
    rewrite (mmap_free_last _ m); [done| |apply Hk| |apply Hc|by left]; done.
  - simpl. rewrite El. by apply hlist_del_head.
Qed.

Lemma free_all_maps_ok s :
  mm_inv s ->
  (forall p m, p ∈ mm_list s -> mm_heap s !! p = Some m -> 0 < m_refs m) ->
  exists s', free_all_maps (S (length (mm_list s))) s = Ok () s' /\
    mm_list s' = [] /\ mm_inv s' /\
    (forall p, mm_heap s' !! p = if decide (p ∈ mm_list s) then None else mm_heap s !! p).
Proof.
  intros Hinv Hpos.
  remember (mm_list s) as l eqn:El. revert s El Hinv Hpos.
  induction l as [|p l IH]; intros s El Hinv Hpos.
  - exists s. split_and!; [|done..|intros; by rewrite decide_False by apply not_elem_of_nil].
    cbn [free_all_maps length]. unfold mbind, M_bind, gets. by rewrite <- El.
  - pose proof (inv_nodup s Hinv) as Hnd. rewrite <- El in Hnd.
    destruct (inv_listed s Hinv p) as (m & Hm & Hk); [rewrite <- El; by left|].
    change (length (p :: l)) with (S (length l)).
    destruct (free_all_step p m l (S (length l)) s) as [-> Hl];
      [done|done|done|done|by eapply inv_counts|by eapply Hpos; [left|]|].
    apply NoDup_cons in Hnd as [Hp Hnd].
    destruct (IH (release p m s)) as (s' & Hrun & Hl' & Hinv' & Hheap).
    + done.
    + by apply inv_release.
    + simpl. intros q mq Hq. rewrite lookup_delete_ne by naive_solver. intros Hmq.
      eapply Hpos; [by right|done].
    + exists s'. split_and!; [done..|]. intros q. rewrite Hheap. simpl.
      destruct (decide (p = q)) as [<-|Hne].
      * rewrite (decide_False (P := p ∈ l)) by done.
        rewrite (decide_True (P := p ∈ p :: l)) by by left. apply lookup_delete_eq.
      * rewrite lookup_delete_ne by done. destruct (decide (q ∈ l)).
        -- by rewrite decide_True by by right.
        -- rewrite decide_False; [done|]. by intros [->|?]%elem_of_cons.
Qed.

Lemma mm_inv_none s : mm_inv s -> mm_heap s = ∅ -> mm_list s = [] -> s = empty_mmaps.
Proof.
  intros [_ _ _ Hb Ha Ht] He Hl. rewrite He, hcount_empty in Hb, Ha, Ht. destruct s; simpl in *. by subst.
Qed.

(** Closing a file releases every mapping.  If every map on [fl->maps]
    still has a reference, the loop of [vfastrpc_file_free] stops after one
    turn per map with the list empty, exactly the listed maps gone, and
    the ledger balanced; if nothing was off the list, no object, dma-buf
    reference, attachment or table is left at all. *)
Theorem free_all_maps_empties s :
  mm_inv s ->
  (forall p m, p ∈ mm_list s -> mm_heap s !! p = Some m -> 0 < m_refs m) ->
  exists s', free_all_maps (S (length (mm_list s))) s = Ok () s' /\
    mm_list s' = [] /\ mm_inv s' /\
    (forall p, mm_heap s' !! p = if decide (p ∈ mm_list s) then None else mm_heap s !! p) /\
    ((forall p, is_Some (mm_heap s !! p) -> p ∈ mm_list s) -> s' = empty_mmaps).
Proof.
  intros Hinv Hpos. destruct (free_all_maps_ok s Hinv Hpos) as (s' & Hrun & Hl & Hinv' & Hheap).
  exists s'. split_and!; [done..|]. intros Hall. apply mm_inv_none; [done| |done].
  apply map_eq. intros p. rewrite Hheap, lookup_empty. case_decide as Hd; [done|].
  apply eq_None_not_Some. intros Hs. by apply Hd, Hall.
Qed.

(** A listed map without references makes no turn of the loop progress. *)
Lemma free_all_stuck p m l s fuel :
  mm_list s = p :: l -> mm_heap s !! p = Some m -> m_refs m <= 0 -> free_all_maps fuel s = Hang Loops.
Proof.
  intros El Hm Hr. induction fuel as [|fuel IH]; [done|].
  cbn [free_all_maps]. unfold mbind, M_bind, gets. rewrite El.
  by rewrite (mmap_free_skip _ m) by eauto.
Qed.

Lemma KEEP_bit : has_bit FASTRPC_ATTR_KEEP_MAP FASTRPC_ATTR_KEEP_MAP = true.
Proof. unfold has_bit. rewrite Z.land_diag. pose proof KEEP_MAP_nonzero. by zdec. Qed.

Definition good_env : create_env :=
  {| ce_kzalloc := true; ce_dma_buf := Some 1%positive; ce_attach := Some 1%positive;
     ce_table := Some {| sgl := Sg 0x80000000 4096 0x80000000 4096; sg_next := [] |} |}.

(** The state of a file with one KEEP_MAP mapping of fd 5, by its two counts. *)
Definition one_ptr : ptr := new_ptr (∅ : gmap ptr vfastrpc_mmap).
Definition one_map (refs ctx : Z) : vfastrpc_mmap :=
  (new_map 5 FASTRPC_ATTR_KEEP_MAP 0 (Some 1%positive) (Some 1%positive) (ce_table good_env))
    <| m_phys := 0x80000000 |> <| m_size := 4096 |> <| m_va := 0 |> <| m_len := 4096 |>
    <| m_refs := refs |> <| m_ctx_refs := ctx |>.
Definition one_state (refs ctx : Z) : mmaps :=
  {| mm_heap := {[ one_ptr := one_map refs ctx ]};
     mm_list := [one_ptr]; mm_bufs := 1; mm_attaches := 1; mm_tables := 1 |}.

Lemma one_map_refs r c r' : (one_map r c) <| m_refs := r' |> = one_map r' c.
Proof. unfold one_map, new_map. simpl. reflexivity. Qed.

Lemma one_map_ctx r c c' : (one_map r c) <| m_ctx_refs := c' |> = one_map r c'.
Proof. unfold one_map, new_map. simpl. reflexivity. Qed.

Lemma one_lookup r c : mm_heap (one_state r c) !! one_ptr = Some (one_map r c).
Proof. apply lookup_singleton_eq. Qed.

Lemma one_set r c r' c' : set_map one_ptr (one_map r' c') (one_state r c) = one_state r' c'.
Proof. unfold set_map, one_state. simpl. by rewrite insert_singleton_eq. Qed.

Lemma one_create :
  run_op (OpCreate good_env 5 FASTRPC_ATTR_KEEP_MAP 0 4096 0) empty_mmaps = Ok () (one_state 2 0).
Proof.
  cbn [run_op]. unfold mbind, M_bind. erewrite create_unfold by done.
  rewrite create_body_spec by (done || apply not_elem_of_nil). cbn [good_env ce_dma_buf ce_attach ce_table].
  rewrite Z.eqb_refl. unfold mret, M_ret, with_new, one_state, one_map, new_map, good_env. simpl.
  rewrite KEEP_bit, insert_empty. done.
Qed.

Lemma one_remove_fd r c :
  0 < r -> 0 < c -> run_op (OpRemoveFd 5) (one_state r c) = Ok () (one_state (r - 1) c).
Proof.
  intros Hr Hc. cbn [run_op]. unfold vfastrpc_mmap_remove_fd, mbind, M_bind, gets.
  cbn [one_state mm_list mmap_remove_fd_loop]. fold (one_state r c).
  unfold mbind, M_bind, load. rewrite one_lookup. unfold keep_map. simpl. rewrite KEEP_bit.
  rewrite (mmap_free_drop _ (one_map r c)) by (apply one_lookup || done || (simpl; lia)).
  by rewrite one_map_refs, one_set.
Qed.

(** C38: closing a file can loop for ever.  A state is reachable in which
    [vfastrpc_file_free] never gets past [fl->maps]: an invocation holds a
    KEEP_MAP buffer while two [FASTRPC_IOCTL_MUNMAP_FD] calls on its fd each
    drop a reference, leaving the map listed with [refs = 0]; the
    invocation's own release then refuses it as abnormal, and so does every
    turn of the closing loop, which keeps picking the same head. *)
Theorem free_all_maps_can_hang :
  exists s, mm_reach s /\ forall fuel, free_all_maps fuel s = Hang Loops.
Proof.
  pose proof one_lookup as Hlk. exists (one_state 0 0).
  split; [|intros fuel; by eapply (free_all_stuck one_ptr (one_map 0 0) [])].
  eapply (reach_step (one_state 0 0) (OpFree one_ptr 0));
    [|eexists; apply Hlk|by eapply mmap_free_skip; [done|right; left]].
  eapply (reach_step (one_state 0 1) (OpCtxDec one_ptr));
    [|eexists; apply Hlk|cbn [run_op]; erewrite ctx_ref_dec_eq by done; by rewrite one_map_ctx, one_set].
  apply (reach_step (one_state 1 1) (OpRemoveFd 5)); [|done|by apply one_remove_fd].
  apply (reach_step (one_state 2 1) (OpRemoveFd 5)); [|done|by apply one_remove_fd].
  eapply (reach_step (one_state 2 0) (OpCtxInc one_ptr));
    [|by exists (one_map 2 0)|cbn [run_op]; erewrite ctx_ref_inc_eq by done; by rewrite one_map_ctx, one_set].
  eapply (reach_step _ _ _ reach_open); [|apply one_create]. done.
Qed.
End close.

(** ** Lookup and removal *)

Section lookup.
Context `{HS : adsprpc_shared, !adsprpc_shared_ok HS}.

Lemma first_map_None f h l :
  (forall p, p ∈ l -> is_Some (h !! p)) -> first_map f h l = None ->
  forall p m, p ∈ l -> h !! p = Some m -> f m = false.
Proof.
  induction l as [|q l IH]; intros Hl; simpl; [by intros _ p m ?%not_elem_of_nil|].
  destruct (Hl q) as [v Hv]; [by left|]. rewrite Hv. destruct (f v) eqn:Hf; [done|].
  intros Hn p m [->|Hp]%elem_of_cons; [by rewrite Hv; intros [= <-]|].
  apply IH; [|done..]. intros q' Hq'. apply Hl. by right.
Qed.

(** Lookup is sound and complete.  For a 64-bit range,
    [vfastrpc_mmap_find] reports overflow exactly when the range wraps; a
    map it returns is listed, has the requested fd and, unless its own range
    wraps, contains the requested one; and it answers "not found" only when
    the flags ask for the unsupported heap or no listed map of that fd
    contains the range. *)
Theorem mmap_find_correct fd va len mflags refs s :
  mm_inv s -> 0 <= va < 2 ^ 64 -> 0 <= len < 2 ^ 64 ->
  exists err r s', vfastrpc_mmap_find fd va len mflags refs s = Ok (err, r) s' /\
    (err = - EOVERFLOW <-> 2 ^ 64 <= va + len) /\
    (err = 0 -> exists p m, r = Some p /\ p ∈ mm_list s /\ mm_heap s !! p = Some m /\
      m_fd m = fd /\ m_va m <= va /\
      (0 <= m_va m + m_len m < 2 ^ 64 -> va + len <= m_va m + m_len m)) /\
    (err = - ENOTTY -> is_heap_addr mflags = true \/
      forall p m, p ∈ mm_list s -> mm_heap s !! p = Some m ->
        m_fd m = fd -> m_va m <= va -> 0 <= m_va m + m_len m < 2 ^ 64 ->
        m_va m + m_len m < va + len).
Proof.
  intros Hinv Hva Hlen. unfold vfastrpc_mmap_find.
  destruct (Z.ltb_spec (u64 (va + len)) va) as [Hw|Hw].
  { eexists _, _, _. split; [done|]. split_and!; try done. split; [|done]. intros _.
    destruct (Z.le_gt_cases (2 ^ 64) (va + len)); [done|]. rewrite u64_id in Hw; lia. }
  assert (va + len < 2 ^ 64) as Hnw.
  { destruct (Z.le_gt_cases (2 ^ 64) (va + len)); [|done]. rewrite u64_wrap in Hw; lia. }
  destruct (is_heap_addr mflags) eqn:Hf.
  { eexists _, _, _. split; [done|]. split_and!; try done; [|by left]. unfold EOVERFLOW, ENOTTY. lia. }
  unfold mbind, M_bind, gets. rewrite find_loop_spec by (intros; by apply inv_is_Some).
  destruct (first_map _ _ _) as [[p m]|] eqn:E.
  - apply first_map_Some in E as (Hp & Hm & Hmt). unfold find_match in Hmt.
    rewrite (u64_id (va + len)) in Hmt by lia.
    apply andb_prop in Hmt as [[Hv%Z.leb_le Hr%Z.leb_le]%andb_prop Hfd%Z.eqb_eq].
    assert (0 <= m_va m + m_len m < 2 ^ 64 -> va + len <= m_va m + m_len m) as Hin.
    { intros Hrange. by rewrite u64_id in Hr. }
    destruct (refs =? 0); [|destruct (_ =? INT_MAX)]; eexists _, _, _; (split; [done|]);
      unfold EOVERFLOW, ENOTTY, ETOOMANYREFS; split_and!; try lia; intros _; by exists p, m.
  - eexists _, _, _. split; [done|]. unfold EOVERFLOW, ENOTTY. split_and!; try lia.
    intros _. right. intros p m Hp Hm Hfd Hv Hrange.
    eapply first_map_None in E; [|intros; by apply inv_is_Some|done|done].
    unfold find_match in E. rewrite !u64_id in E by lia.
    destruct (Z.leb_spec (m_va m) va), (Z.leb_spec (va + len) (m_va m + m_len m)),
      (Z.eqb_spec (m_fd m) fd); simpl in E; try done; lia.
Qed.

(** Removal then release.  [vfastrpc_mmap_remove] fails with
    [-ETOOMANYREFS] and changes nothing when no listed map matches; when it
    succeeds the map is unlinked and, unless it was a KEEP_MAP map down to
    its last reference, one [vfastrpc_mmap_free] then releases the object
    and its dma-buf resources completely. *)
Theorem mmap_remove_then_free fd va len s :
  mm_inv s ->
  (vfastrpc_mmap_remove fd va len s = Ok (- ETOOMANYREFS, None) s /\
    forall p m, p ∈ mm_list s -> mm_heap s !! p = Some m -> remove_match fd va len m = false) \/
  (exists p m s', vfastrpc_mmap_remove fd va len s = Ok (0, Some p) s' /\
    p ∈ mm_list s /\ mm_heap s !! p = Some m /\ remove_match fd va len m = true /\
    (p ∉ mm_list s') /\
    (keep_map m = false \/ m_refs m = 2 ->
     vfastrpc_mmap_free (Some p) 0 s' = Ok () (release p m s)) /\
    (keep_map m = true /\ m_refs m = 1 -> vfastrpc_mmap_free (Some p) 0 s' = Ok () s')).
Proof.
  intros Hinv. unfold vfastrpc_mmap_remove, mbind, M_bind, gets.
  rewrite remove_loop_spec by (intros; by apply inv_is_Some).
  destruct (first_map _ _ _) as [[p m]|] eqn:E; [right|left].
  2: { split; [done|]. intros p m Hp Hm. eapply first_map_None; [|done..]. intros; by apply inv_is_Some. }
  apply first_map_Some in E as (Hp & Hm & Hmt). exists p, m. eexists. split; [done|].
  destruct (inv_listed s Hinv p Hp) as (m2 & Hm2 & Hk). simplify_eq.
  assert (m_ctx_refs m = 0 /\ (m_refs m = 1 \/ m_refs m = 2 /\ keep_map m = true)) as [Hc Hr].
  { unfold remove_match in Hmt. destruct (keep_map m); split; try lia. }
  assert (p ∉ hlist_del p (mm_list s)) as Hnl by (rewrite elem_of_hlist_del; naive_solver).
  destruct (keep_map m) eqn:Ek; (split_and!; [done|done|done|by simpl| |]).
  - intros [|Hr2]; [done|]. erewrite mmap_free_last; [|simpl; apply lookup_insert_eq|apply Hk|simpl; lia..].
    f_equal. unfold release. simpl. f_equal; [apply delete_insert_eq|apply hlist_del_id, Hnl].
  - intros [_ Hr1]. eapply mmap_free_skip; [simpl; apply lookup_insert_eq|]. simpl. lia.
  - intros _. erewrite mmap_free_last; [|done|apply Hk|lia..].
    f_equal. unfold release. simpl. f_equal. apply hlist_del_id, Hnl.
  - by intros [? _].
Qed.
End lookup.

(** ** Removal by file descriptor *)

Section remove_fd.
Context `{HS : adsprpc_shared, !adsprpc_shared_ok HS}.

(** What one unforced [vfastrpc_mmap_free] makes of a map. *)
Definition free_one (m : vfastrpc_mmap) : option vfastrpc_mmap :=
  if is_heap_addr (m_flags m) || (m_refs m <=? 0) || (m_ctx_refs m <? 0) then Some m
  else if (m_refs m =? 1) && (m_ctx_refs m =? 0) then None
  else Some (m <| m_refs := m_refs m - 1 |>).

Definition fd_kept (fd : Z) (m : vfastrpc_mmap) : bool := (m_fd m =? fd) && keep_map m.
Definition busy (m : vfastrpc_mmap) : bool := (1 <? m_refs m) || negb (m_ctx_refs m =? 0).

(** The listed maps of an fd that are kept, and what the call does to each map. *)
Fixpoint kept_maps (fd : Z) (h : gmap ptr vfastrpc_mmap) (l : list ptr) : list vfastrpc_mmap :=
  match l with
  | [] => []
  | p :: l' =>
    match h !! p with
    | Some m => (if fd_kept fd m then [m] else []) ++ kept_maps fd h l'
    | None => kept_maps fd h l'
    end
  end.
Definition drop_fd (fd : Z) (m : vfastrpc_mmap) : option vfastrpc_mmap :=
  if fd_kept fd m then free_one m else Some m.

Lemma free_one_spec p m s :
  mm_heap s !! p = Some m ->
  exists s', vfastrpc_mmap_free (Some p) 0 s = Ok () s' /\
    mm_heap s' = partial_alter (fun _ => free_one m) p (mm_heap s).
Proof.
  intros Hm. unfold free_one.
  destruct (is_heap_addr (m_flags m)) eqn:Hf; [|destruct (Z.leb_spec (m_refs m) 0);
    [|destruct (Z.ltb_spec (m_ctx_refs m) 0)]]; simpl.
  1-3: exists s; split; [eapply mmap_free_skip; eauto|]; symmetry;
       by rewrite <- (insert_id (mm_heap s) p m Hm) at 2.
  destruct (Z.eqb_spec (m_refs m) 1), (Z.eqb_spec (m_ctx_refs m) 0); simpl.
  1: { eexists. split; [by eapply mmap_free_last; [..|right]|]. done. }
  all: eexists; (split; [eapply mmap_free_drop; [done..|lia]|]); done.
Qed.

Lemma kept_maps_ext fd h h' l :
  (forall p, p ∈ l -> h' !! p = h !! p) -> kept_maps fd h' l = kept_maps fd h l.
Proof.
  induction l as [|q l IH]; intros Heq; [done|]. simpl.
  rewrite Heq by by left. rewrite IH; [done|]. intros p Hp. apply Heq. by right.
Qed.

Lemma remove_fd_loop_spec fd l s err n :
  NoDup l -> (forall p, p ∈ l -> is_Some (mm_heap s !! p)) -> 0 <= n < 2 ^ 32 ->
  let sel := kept_maps fd (mm_heap s) l in
  exists s', mmap_remove_fd_loop l fd err n s =
      Ok (if existsb busy sel then - ETOOMANYREFS else err, u32 (n + Z.of_nat (length sel))) s' /\
    forall q, mm_heap s' !! q =
      if decide (q ∈ l) then mm_heap s !! q ≫= drop_fd fd else mm_heap s !! q.
Proof.
  revert s err n. induction l as [|p l IH]; intros s err n Hnd Hl Hn sel.
  { exists s. split; [|intros; by rewrite decide_False by apply not_elem_of_nil].
    simpl. rewrite u32_id by lia. by rewrite Z.add_0_r. }
  apply NoDup_cons in Hnd as [Hp Hnd]. destruct (Hl p) as [m Hm]; [by left|].
  assert (sel = (if fd_kept fd m then [m] else []) ++ kept_maps fd (mm_heap s) l) as Esel.
  { subst sel. simpl. by rewrite Hm. }
  cbn [mmap_remove_fd_loop]. unfold mbind, M_bind, load. rewrite Hm.
  fold (fd_kept fd m). fold (busy m). destruct (fd_kept fd m) eqn:Ek; simpl in Esel; rewrite Esel.
  - destruct (free_one_spec p m s Hm) as (s1 & -> & Hh).
    assert (forall q, q <> p -> mm_heap s1 !! q = mm_heap s !! q) as Hne.
    { intros q Hq. by rewrite Hh, lookup_partial_alter_ne. }
    destruct (IH s1 (if busy m then - ETOOMANYREFS else err) (u32 (n + 1))) as (s' & -> & Hh').
    + done.
    + intros q Hq. rewrite Hne by (intros ->; done). apply Hl. by right.
    + apply u32_range.
    + rewrite (kept_maps_ext fd (mm_heap s)) by (intros q Hq; apply Hne; by intros ->).
      exists s'. split.
      * f_equal. f_equal; [by simpl; destruct (busy m), (existsb _ _)|].
        cbn [length]. unfold u32. rewrite Zplus_mod_idemp_l. f_equal. lia.
      * intros q. rewrite Hh'. destruct (decide (q = p)) as [->|Hqp].
        -- rewrite (decide_False (P := p ∈ l)) by done. rewrite decide_True by by left.
           rewrite Hh, lookup_partial_alter_eq, Hm. simpl. unfold drop_fd. by rewrite Ek.
        -- rewrite Hne by done. destruct (decide (q ∈ l)).
           ++ by rewrite decide_True by by right.
           ++ by rewrite decide_False by by intros [?|?]%elem_of_cons.
  - destruct (IH s err n) as (s' & -> & Hh'); [done| |done|].
    { intros q Hq. apply Hl. by right. }
    exists s'. split; [done|]. intros q. rewrite Hh'. destruct (decide (q = p)) as [->|Hqp].
    + rewrite (decide_False (P := p ∈ l)) by done. rewrite decide_True by by left.
      rewrite Hm. simpl. unfold drop_fd. by rewrite Ek.
    + destruct (decide (q ∈ l)).
      * by rewrite decide_True by by right.
      * by rewrite decide_False by by intros [?|?]%elem_of_cons.
Qed.

(** Removal by fd.  [vfastrpc_mmap_remove_fd] reports the number of
    listed KEEP_MAP maps of the fd, the error [-ETOOMANYREFS] exactly when
    one of them is still referenced elsewhere or held by a context, drops
    exactly one reference of each of them, releasing those whose last
    reference it was, and leaves every other map as it is. *)
Theorem mmap_remove_fd_correct fd s :
  mm_inv s ->
  let sel := kept_maps fd (mm_heap s) (mm_list s) in
  exists s', vfastrpc_mmap_remove_fd fd s =
      Ok (if existsb busy sel then - ETOOMANYREFS else 0, u32 (Z.of_nat (length sel))) s' /\
    mm_inv s' /\
    forall q, mm_heap s' !! q =
      if decide (q ∈ mm_list s) then mm_heap s !! q ≫= drop_fd fd else mm_heap s !! q.
Proof.
  intros Hinv sel.
  destruct (remove_fd_loop_spec fd (mm_list s) s 0 0) as (s' & Hrun & Hh);
    [by apply inv_nodup|intros; by apply inv_is_Some|lia|].
  exists s'. split_and!; [exact Hrun| |exact Hh].
  pose proof (remove_fd_inv fd s Hinv) as Hi. unfold wp, vfastrpc_mmap_remove_fd in Hi.
  unfold mbind, M_bind, gets in Hi. by rewrite Hrun in Hi.
Qed.
End remove_fd.
