(* ===== verification/Pages.v ===== *)
(** * Page arrays: [vfastrpc_alloc_pages] and [vfastrpc_free_pages] (virtio_fastrpc_mem.c)

    Pages are frame numbers.  The state is the multiset of frames the driver
    owns, the number of page arrays it holds and a count of the allocator
    calls made; the buddy allocator itself is the parameter
    [alloc_pages_node]. *)
From S2P Require Import Prelude Shared.

Record pages_st := {
  pg_live : gmultiset Z;
  pg_arrays : Z;
  pg_calls : nat;
}.
#[export] Instance eta_pages_st : Eta pages_st := fun s =>
  {| pg_live := pg_live s; pg_arrays := pg_arrays s; pg_calls := pg_calls s |}.

(** Kernel primitives. *)
Definition free_page (pg : Z) : M pages_st () := fun s =>
  if decide (pg ∈ pg_live s) then Ok () (s <| pg_live := pg_live s ∖ {[+ pg +]} |>)
  else Fault DoubleFree.

Definition kvfree_pages : M pages_st () := modify (fun s => s <| pg_arrays := pg_arrays s - 1 |>).

(** The frames of a block of [n] pages starting at [page]. *)
Fixpoint block (page : Z) (n : nat) : list Z :=
  match n with
  | O => []
  | S n => page :: block (page + 1) n
  end.

(** The loop of [vfastrpc_free_pages] from a [count] that is not negative. *)
Fixpoint free_pages_loop (pages : list Z) (count : nat) : M pages_st () :=
  match count with
  | O => kvfree_pages
  | S count =>
    match pages !! count with
    | None => fail OutOfBounds
    | Some pg => free_page pg;; free_pages_loop pages count
    end
  end.

(** [count] becomes an [int]; if it is negative then, the first [pages[count]]
    lies before the array. *)
Definition vfastrpc_free_pages (pages : list Z) (count : Z) : M pages_st () :=
  if s32 count <? 0 then fail OutOfBounds
  else free_pages_loop pages (Z.to_nat (s32 count)).

Section alloc.
Context `{KC : kernel_config}.
(** The answer of the [n]-th [alloc_pages_node] call: the first frame of a
    block of [2^order] pages, or NULL.  The flag is [__GFP_NORETRY]. *)
Variable alloc_pages_node : nat -> bool -> Z -> option Z.

(** A successful call makes the block's frames the driver's; [split_page]
    makes them separately freeable. *)
Definition alloc_block (noretry : bool) (order : Z) : M pages_st (option Z) := fun s =>
  let s1 := s <| pg_calls := S (pg_calls s) |> in
  match alloc_pages_node (pg_calls s) noretry order with
  | None => Ok None s1
  | Some page =>
    Ok (Some page) (s1 <| pg_live := pg_live s ⊎ list_to_set_disj (block page (Z.to_nat (2 ^ order))) |>)
  end.

(** The [for] loop over [order_mask]: the page and its [order_size], if any,
    and the mask at exit. *)
Fixpoint try_orders (fuel : nat) (order_mask : Z) : M pages_st (option (Z * Z) * Z) :=
  if order_mask =? 0 then mret (None, order_mask)
  else match fuel with
  | O => hang
  | S fuel =>
    let order := Z.log2 order_mask in
    let order_size := u32 (Z.shiftl 1 order) in
    r ← alloc_block (order_size <? order_mask) order;
    match r with
    | None => try_orders fuel (Z.land order_mask (Z.lxor (2 ^ 32 - 1) order_size))
    | Some page => mret (Some (page, order_size), order_mask)
    end
  end.

(** [while (order_size--) pages[i++] = page++], [pages] having room for [cap] entries. *)
Fixpoint store_pages (cap : Z) (n : nat) (page : Z) (pages : list Z) : M pages_st (list Z) :=
  match n with
  | O => mret pages
  | S n =>
    if Z.of_nat (length pages) <? cap then store_pages cap n (page + 1) (pages ++ [page])
    else fail OutOfBounds
  end.

(** The [while (count)] loop; [pages] is the filled prefix, of length [i]. *)
Fixpoint alloc_loop (fuel : nat) (cap count order_mask : Z) (pages : list Z)
    : M pages_st (option (list Z)) :=
  if count =? 0 then mret (Some pages)
  else match fuel with
  | O => hang
  | S fuel =>
    let mask := Z.land order_mask (u32 (u32 (Z.shiftl 2 (Z.log2 count)) - 1)) in
    r ← try_orders 64 mask;
    match r with
    | (None, _) => vfastrpc_free_pages pages (Z.of_nat (length pages));; mret None
    | (Some (page, order_size), mask') =>
      pages' ← store_pages cap (Z.to_nat order_size) page pages;
      alloc_loop fuel cap (u32 (count - order_size)) mask' pages'
    end
  end.

Definition vfastrpc_alloc_pages (kvzalloc_ok : bool) (count : Z) : M pages_st (option (list Z)) :=
  let order_mask := u32 (u32 (Z.shiftl 2 MAX_ORDER) - 1) in
  if kvzalloc_ok && (count * 8 <=? KVMALLOC_MAX) then
    modify (fun s => s <| pg_arrays := pg_arrays s + 1 |>);;
    alloc_loop (Z.to_nat count) count count order_mask []
  else mret None.
End alloc.

(** ** Masks *)

Lemma ones_testbit k i : 0 <= k -> 0 <= i -> Z.testbit (Z.ones k) i = (i <? k).
Proof.
  intros Hk Hi. destruct (Z.ltb_spec i k).
  - by apply Z.ones_spec_low.
  - by apply Z.ones_spec_high.
Qed.

Lemma land_ones_ones a b : 0 <= a -> 0 <= b -> Z.land (Z.ones a) (Z.ones b) = Z.ones (Z.min a b).
Proof.
  intros Ha Hb. apply Z.bits_inj'. intros i Hi.
  rewrite Z.land_spec, !ones_testbit by lia.
  destruct (Z.ltb_spec i a), (Z.ltb_spec i b), (Z.ltb_spec i (Z.min a b)); simpl; done || lia.
Qed.

(** [(2U << l) - 1] on 32 bits. *)
Lemma shift_mask l : 0 <= l < 32 -> u32 (u32 (Z.shiftl 2 l) - 1) = Z.ones (l + 1).
Proof.
  intros Hl. rewrite Z.shiftl_mul_pow2 by lia. rewrite Z.ones_equiv, Z.pow_add_r by lia.
  destruct (Z.eq_dec l 31) as [->|]; [done|].
  assert (2 ^ l <= 2 ^ 30) by (apply Z.pow_le_mono_r; lia).
  assert (0 < 2 ^ l) by (apply Z.pow_pos_nonneg; lia).
  rewrite !u32_id by (rewrite ?u32_id; lia). lia.
Qed.

Lemma log2_ones k : 0 < k -> Z.log2 (Z.ones k) = k - 1.
Proof. intros. rewrite Z.ones_equiv. replace (Z.pred (2 ^ k)) with (2 ^ k - 1) by lia.
  rewrite Z.sub_1_r. apply Z.log2_pred_pow2. lia. Qed.

Lemma clear_top k : 0 < k <= 32 ->
  Z.land (Z.ones k) (Z.lxor (2 ^ 32 - 1) (2 ^ (k - 1))) = Z.ones (k - 1).
Proof.
  intros Hk. apply Z.bits_inj'. intros i Hi.
  change (2 ^ 32 - 1) with (Z.ones 32).
  rewrite Z.land_spec, Z.lxor_spec, !ones_testbit by lia.
  rewrite Z.pow2_bits_eqb by lia.
  destruct (Z.ltb_spec i k), (Z.ltb_spec i 32), (Z.eqb_spec (k - 1) i), (Z.ltb_spec i (k - 1));
    simpl; done || lia.
Qed.

(** ** The allocation loop *)

Lemma length_block page n : length (block page n) = n.
Proof. revert page. induction n; intros; simpl; auto. Qed.

Lemma free_pages_loop_ok pages n L s :
  (n <= length pages)%nat -> pg_live s = L ⊎ list_to_set_disj (take n pages) ->
  free_pages_loop pages n s =
    Ok () {| pg_live := L; pg_arrays := pg_arrays s - 1; pg_calls := pg_calls s |}.
Proof.
  revert s. induction n as [|n IH]; intros s Hn Hlive.
  - simpl in *. unfold kvfree_pages, modify. destruct s; simpl in *. f_equal. f_equal. multiset_solver.
  - destruct (lookup_lt_is_Some_2 pages n) as [pg Hpg]; [lia|].
    cbn [free_pages_loop]. rewrite Hpg. unfold mbind, M_bind, free_page.
    erewrite take_S_r in Hlive by done. rewrite list_to_set_disj_app in Hlive. simpl in Hlive.
    rewrite decide_True by (rewrite Hlive; multiset_solver).
    rewrite IH; [done|lia|]. simpl. rewrite Hlive. multiset_solver.
Qed.

Lemma free_pages_ok pages L s :
  Z.of_nat (length pages) < 2 ^ 31 -> pg_live s = L ⊎ list_to_set_disj pages ->
  vfastrpc_free_pages pages (Z.of_nat (length pages)) s =
    Ok () {| pg_live := L; pg_arrays := pg_arrays s - 1; pg_calls := pg_calls s |}.
Proof.
  intros Hn Hl. unfold vfastrpc_free_pages. rewrite s32_id by lia. zdec. rewrite Nat2Z.id.
  apply free_pages_loop_ok; [done|]. by rewrite firstn_all.
Qed.

Lemma store_pages_ok cap n page pages s :
  Z.of_nat (length pages + n) <= cap ->
  store_pages cap n page pages s = Ok (pages ++ block page n) s.
Proof.
  revert page pages. induction n as [|n IH]; intros page pages Hcap; simpl.
  - by rewrite app_nil_r.
  - zdec. rewrite IH by (rewrite length_app; simpl; lia). by rewrite <- app_assoc.
Qed.

Section alloc_facts.
Context `{KC : kernel_config, !kernel_config_ok KC}.
Variable alloc_pages_node : nat -> bool -> Z -> option Z.

Lemma try_orders_spec k fuel s :
  0 <= k <= 32 -> k <= Z.of_nat fuel ->
  exists r mask s', try_orders alloc_pages_node fuel (Z.ones k) s = Ok (r, mask) s' /\
    pg_arrays s' = pg_arrays s /\
    match r with
    | None => pg_live s' = pg_live s
    | Some (page, sz) =>
      pg_live s' = pg_live s ⊎ list_to_set_disj (block page (Z.to_nat sz)) /\
      exists k', 0 < k' <= k /\ mask = Z.ones k' /\ sz = 2 ^ (k' - 1)
    end.
Proof.
  intros Hk Hf. revert k s Hk Hf. induction fuel as [|fuel IH]; intros k s Hk Hf.
  { assert (k = 0) as -> by lia. by eexists _, _, _. }
  destruct (Z.eq_dec k 0) as [->|Hk0]; [by eexists _, _, _|].
  assert (0 < 2 ^ (k - 1)) by (apply Z.pow_pos_nonneg; lia).
  assert (2 ^ (k - 1) <= 2 ^ 31) by (apply Z.pow_le_mono_r; lia).
  assert (2 ^ k = 2 * 2 ^ (k - 1)) as Hpow by (rewrite <- Z.pow_succ_r by lia; f_equal; lia).
  cbn [try_orders]. rewrite log2_ones by lia.
  rewrite Z.shiftl_mul_pow2, Z.mul_1_l, (u32_id (2 ^ (k - 1))) by lia.
  rewrite (proj2 (Z.eqb_neq (Z.ones k) 0)) by (rewrite Z.ones_equiv; lia).
  unfold mbind, M_bind, alloc_block.
  destruct (alloc_pages_node _ _ _) as [page|].
  - eexists _, _, _. split; [done|]. split; [done|]. split; [done|]. exists k. split; [lia|done].
  - rewrite clear_top by lia.
    destruct (IH (k - 1) (s <| pg_calls := S (pg_calls s) |>)) as (r & mask & s' & -> & Harr & Hr);
      [lia..|].
    eexists _, _, _. split; [done|]. split; [done|]. destruct r as [[page sz]|]; [|done].
    destruct Hr as (Hlive & k' & ? & ? & ?). split; [done|]. exists k'. split; [lia|done].
Qed.

Lemma alloc_loop_spec fuel cap count k pages L s :
  0 < k <= 32 -> 0 <= count -> count <= Z.of_nat fuel ->
  count + Z.of_nat (length pages) = cap -> cap < 2 ^ 31 ->
  pg_live s = L ⊎ list_to_set_disj pages ->
  exists r s', alloc_loop alloc_pages_node fuel cap count (Z.ones k) pages s = Ok r s' /\
    match r with
    | None => pg_live s' = L /\ pg_arrays s' = pg_arrays s - 1
    | Some all => Z.of_nat (length all) = cap /\ pg_live s' = L ⊎ list_to_set_disj all /\
                  pg_arrays s' = pg_arrays s
    end.
Proof.
  revert count k pages s. induction fuel as [|fuel IH]; intros count k pages s Hk Hc Hf Hcap Hmax Hlive.
  { assert (count = 0) as -> by lia. eexists _, _. split; [done|]. split; [lia|done]. }
  cbn [alloc_loop]. destruct (Z.eqb_spec count 0) as [->|Hc0].
  { eexists _, _. split; [done|]. split; [lia|done]. }
  assert (2 ^ Z.log2 count <= count) as Hlog by (apply Z.log2_spec; lia).
  assert (0 <= Z.log2 count < 32) by (split; [apply Z.log2_nonneg|apply Z.log2_lt_pow2; lia]).
  rewrite shift_mask, land_ones_ones by lia.
  destruct (try_orders_spec (Z.min k (Z.log2 count + 1)) 64 s) as (r & mask & s1 & Hrun & Harr & Hr); [lia..|].
  unfold mbind, M_bind. rewrite Hrun. destruct r as [[page sz]|].
  - destruct Hr as (Hlive1 & k' & Hk' & -> & ->).
    assert (0 < 2 ^ (k' - 1)) by (apply Z.pow_pos_nonneg; lia).
    assert (2 ^ (k' - 1) <= count).
    { etrans; [|exact Hlog]. apply Z.pow_le_mono_r; lia. }
    rewrite store_pages_ok by lia. rewrite u32_id by lia.
    destruct (IH (count - 2 ^ (k' - 1)) k' (pages ++ block page (Z.to_nat (2 ^ (k' - 1)))) s1)
      as (r & s' & -> & Hres); [lia..| |lia| |].
    + rewrite length_app, length_block. lia.
    + by rewrite Hlive1, Hlive, list_to_set_disj_app, (assoc_L (⊎)).
    + eexists _, _. split; [done|]. rewrite Harr in Hres. done.
  - rewrite (free_pages_ok _ L) by (lia || congruence).
    eexists _, _. split; [done|]. simpl. split; [done|]. lia.
Qed.

Lemma alloc_pages_spec kv count s :
  0 <= count < 2 ^ 32 ->
  exists r s', vfastrpc_alloc_pages alloc_pages_node kv count s = Ok r s' /\
    match r with
    | None => pg_live s' = pg_live s /\ pg_arrays s' = pg_arrays s
    | Some pages => Z.of_nat (length pages) = count /\ count < 2 ^ 28 /\
        pg_live s' = pg_live s ⊎ list_to_set_disj pages /\ pg_arrays s' = pg_arrays s + 1
    end.
Proof.
  intros Hc. unfold vfastrpc_alloc_pages. pose proof KVMALLOC_MAX_range as Hkv. unfold INT_MAX in Hkv.
  destruct kv; [|by eexists _, _]. destruct (Z.leb_spec (count * 8) KVMALLOC_MAX); cbn [andb]; [|by eexists _, _].
  pose proof MAX_ORDER_range. rewrite shift_mask by lia. unfold mbind, M_bind, modify.
  destruct (alloc_loop_spec (Z.to_nat count) count count (MAX_ORDER + 1) [] (pg_live s)
    (s <| pg_arrays := pg_arrays s + 1 |>)) as (r & s' & -> & Hres); [lia..| |lia|by simpl; rewrite (right_id_L ∅ (⊎))|].
  { simpl. lia. }
  eexists _, _. split; [done|]. destruct r; simpl in *; [|split; [apply Hres|]; lia].
  destruct Hres as (? & ? & ?). split_and!; [done|lia|done..].
Qed.

(** C35: page allocation is exact.  For any behaviour of the buddy
    allocator, [vfastrpc_alloc_pages] returns; on success it yields exactly
    [count] pages, all stored inside the array, and owns exactly those in
    addition, and [vfastrpc_free_pages] of [count] gives them and the array
    back; on failure it has given back every page it had obtained and the
    array.  This rests on [kvzalloc], which refuses arrays of more than 2 GiB:
    [vfastrpc_free_pages] takes the count as an [int], and from [2^31] on it
    reads before the array. *)
Theorem alloc_pages_exact kv count s :
  0 <= count < 2 ^ 32 ->
  (exists r s', vfastrpc_alloc_pages alloc_pages_node kv count s = Ok r s' /\
    match r with
    | None => pg_live s' = pg_live s /\ pg_arrays s' = pg_arrays s
    | Some pages => Z.of_nat (length pages) = count /\
        pg_live s' = pg_live s ⊎ list_to_set_disj pages /\ pg_arrays s' = pg_arrays s + 1 /\
        vfastrpc_free_pages pages count s' =
          Ok () {| pg_live := pg_live s; pg_arrays := pg_arrays s; pg_calls := pg_calls s' |}
    end) /\
  (2 ^ 31 <= count -> forall pages, vfastrpc_free_pages pages count s = Fault OutOfBounds).
Proof.
  intros Hc. split.
  - destruct (alloc_pages_spec kv count s Hc) as (r & s' & E & Hr). exists r, s'. split; [done|].
    destruct r as [pages|]; [|done]. destruct Hr as (Hn & Hlt & Hl & Ha). split_and!; try done.
    rewrite <- Hn, (free_pages_ok pages (pg_live s)) by (lia || done). do 2 f_equal. lia.
  - intros Hge pages. unfold vfastrpc_free_pages. rewrite (proj2 (Z.ltb_lt _ 0)); [done|].
    unfold s32. rewrite <- (Z.mod_unique (count + 2 ^ 31) (2 ^ 32) 1 (count - 2 ^ 31)); lia.
Qed.
End alloc_facts.
