(* ===== verification/Buf.v ===== *)
(** * Kernel buffers: [struct vfastrpc_buf] (virtio_fastrpc_mem.c)

    The buffers of one open file: the objects, the cache [fl->cached_bufs]
    with its counter, the list [fl->remote_bufs], the pages they own and a
    ledger of their scatter tables and kernel mappings.  The list operations
    run under [fl->hlock]. *)
From S2P Require Import Prelude Shared Pages.

Definition MAX_CACHE_BUF_SIZE : Z := 8 * 1024 * 1024.
Definition MAX_CACHED_BUFS : Z := 32.

Record vfastrpc_buf := {
  b_size : Z;
  b_sgt : option sg_table;        (* None: no table allocated *)
  b_pages : option (list Z);      (* None: NULL or an error pointer *)
  b_va : option Z;
  b_dma_attr : Z;
  b_map_attr : Z;
  b_raddr : Z;
  b_flags : Z;
  b_remote : Z;
}.
#[export] Instance eta_buf : Eta vfastrpc_buf := fun b =>
  {| b_size := b_size b; b_sgt := b_sgt b; b_pages := b_pages b; b_va := b_va b;
     b_dma_attr := b_dma_attr b; b_map_attr := b_map_attr b; b_raddr := b_raddr b;
     b_flags := b_flags b; b_remote := b_remote b |}.

Record bufs := {
  bf_heap : gmap ptr vfastrpc_buf;
  bf_cached : list ptr;           (* fl->cached_bufs *)
  bf_num_cached : Z;              (* fl->num_cached_buf *)
  bf_remote : list ptr;           (* fl->remote_bufs *)
  bf_pages : pages_st;
  bf_sgts : Z;                    (* scatter tables allocated and not freed *)
  bf_vmaps : Z;                   (* vmap minus vunmap *)
}.
#[export] Instance eta_bufs : Eta bufs := fun s =>
  {| bf_heap := bf_heap s; bf_cached := bf_cached s; bf_num_cached := bf_num_cached s;
     bf_remote := bf_remote s; bf_pages := bf_pages s; bf_sgts := bf_sgts s;
     bf_vmaps := bf_vmaps s |}.

Definition empty_bufs : bufs :=
  {| bf_heap := ∅; bf_cached := []; bf_num_cached := 0; bf_remote := [];
     bf_pages := {| pg_live := ∅; pg_arrays := 0; pg_calls := 0 |}; bf_sgts := 0; bf_vmaps := 0 |}.

(** ** Kernel primitives *)

Definition bload (p : ptr) : M bufs vfastrpc_buf := fun s =>
  match bf_heap s !! p with
  | Some b => Ok b s
  | None => Fault UseAfterFree
  end.

Definition bstore (p : ptr) (b : vfastrpc_buf) : M bufs () := fun s =>
  match bf_heap s !! p with
  | Some _ => Ok () (s <| bf_heap := <[p := b]> (bf_heap s) |>)
  | None => Fault UseAfterFree
  end.

Definition bkfree (p : ptr) : M bufs () := fun s =>
  match bf_heap s !! p with
  | Some _ => Ok () (s <| bf_heap := delete p (bf_heap s) |>)
  | None => Fault DoubleFree
  end.

Definition cached_add_head (p : ptr) : M bufs () := fun s =>
  if decide (p ∈ bf_cached s) then Fault ListCorruption
  else Ok () (s <| bf_cached := p :: bf_cached s |>).
Definition cached_del (p : ptr) : M bufs () :=
  modify (fun s => s <| bf_cached := hlist_del p (bf_cached s) |>).
Definition remote_add_head (p : ptr) : M bufs () := fun s =>
  if decide (p ∈ bf_remote s) then Fault ListCorruption
  else Ok () (s <| bf_remote := p :: bf_remote s |>).
Definition remote_del (p : ptr) : M bufs () :=
  modify (fun s => s <| bf_remote := hlist_del p (bf_remote s) |>).

Definition on_pages {A} (m : M pages_st A) : M bufs A :=
  zoom bf_pages (fun ps s => s <| bf_pages := ps |>) m.

(** What the kernel answers during one [vfastrpc_buf_alloc]. *)
Record alloc_env := {
  ae_kzalloc : bool;
  ae_kvzalloc : bool;
  ae_pages : nat -> bool -> Z -> option Z;   (* alloc_pages_node *)
  ae_sgt : option sg_table;                  (* sg_alloc_table_from_pages *)
  ae_vmap : option Z;                        (* vmap *)
}.

Section ops.
Context `{HS : adsprpc_shared, KC : kernel_config}.

(** [PAGE_ALIGN(size) >> PAGE_SHIFT] as an [unsigned int]. *)
Definition page_count (size : Z) : Z := u32 (Z.shiftr (PAGE_ALIGN size) PAGE_SHIFT).

Definition vfastrpc_alloc_buffer (e : alloc_env) (p : ptr) : M bufs (option (list Z)) :=
  b ← bload p;
  let count := page_count (b_size b) in
  r ← on_pages (vfastrpc_alloc_pages (ae_pages e) (ae_kvzalloc e) count);
  match r with
  | None => mret None
  | Some pages =>
    match ae_sgt e with
    | None =>
      on_pages (vfastrpc_free_pages pages count);; mret None
    | Some t =>
      modify (fun s => s <| bf_sgts := bf_sgts s + 1 |>);;
      bstore p (b <| b_sgt := Some t |>);;
      if negb (has_bit (b_dma_attr b) DMA_ATTR_NO_KERNEL_MAPPING) then
        b ← bload p;
        bstore p (b <| b_va := ae_vmap e |>);;
        match ae_vmap e with
        | None =>
          b ← bload p;
          bstore p (b <| b_sgt := None |>);;
          modify (fun s => s <| bf_sgts := bf_sgts s - 1 |>);;
          on_pages (vfastrpc_free_pages pages count);;
          mret None
        | Some _ =>
          modify (fun s => s <| bf_vmaps := bf_vmaps s + 1 |>);;
          mret (Some pages)
        end
      else mret (Some pages)
    end
  end.

Definition vfastrpc_free_buffer (p : ptr) : M bufs () :=
  b ← bload p;
  let count := page_count (b_size b) in
  when (bool_decide (is_Some (b_va b))) (modify (fun s => s <| bf_vmaps := bf_vmaps s - 1 |>));;
  when (bool_decide (is_Some (b_sgt b))) (modify (fun s => s <| bf_sgts := bf_sgts s - 1 |>));;
  bstore p (b <| b_sgt := None |>);;
  match b_pages b with
  | None => fail NullDeref
  | Some pages => on_pages (vfastrpc_free_pages pages count)
  end.

(** From the label [skip_buf_cache]. *)
Definition buf_release (p : ptr) : M bufs () :=
  b ← bload p;
  when (negb (b_remote b =? 0))
    (remote_del p;; bstore p (b <| b_remote := 0 |> <| b_raddr := 0 |>));;
  b ← bload p;
  when (bool_decide (is_Some (b_pages b))) (vfastrpc_free_buffer p);;
  bkfree p.

Definition vfastrpc_buf_free (op : option ptr) (cache : Z) : M bufs () :=
  match op with
  | None => mret ()
  | Some p =>
    b ← bload p;
    if negb (cache =? 0) && (b_size b <? MAX_CACHE_BUF_SIZE) then
      n ← gets bf_num_cached;
      if MAX_CACHED_BUFS <? n then buf_release p
      else
        cached_add_head p;;
        modify (fun s => s <| bf_num_cached := s32 (bf_num_cached s + 1) |>)
    else buf_release p
  end.

(** The search for the smallest cached buffer that fits. *)
Fixpoint best_fit (l : list ptr) (size : Z) (fr : option ptr) : M bufs (option ptr) :=
  match l with
  | [] => mret fr
  | p :: l' =>
    b ← bload p;
    better ← match fr with
             | None => mret (size <=? b_size b)
             | Some q =>
               bq ← bload q;
               mret ((size <=? b_size b) && (b_size b <? b_size bq))
             end;
    best_fit l' size (if (better : bool) then Some p else fr)
  end.

Definition kzalloc_buf (ok : bool) : M bufs (option ptr) := fun s =>
  if ok then
    let p := new_ptr (bf_heap s) in
    Ok (Some p) (s <| bf_heap := <[p :=
      {| b_size := 0; b_sgt := None; b_pages := None; b_va := None; b_dma_attr := 0;
         b_map_attr := 0; b_raddr := 0; b_flags := 0; b_remote := 0 |}]> (bf_heap s) |>)
  else Ok None s.

(** The part of [vfastrpc_buf_alloc] that builds a new buffer. *)
Definition buf_alloc_new (e : alloc_env) (size dma_attr rflags remote : Z) : M bufs (Z * option ptr) :=
  op ← kzalloc_buf (ae_kzalloc e);
  match op with
  | None => mret (VERIFY 0 false, None)
  | Some p =>
    b ← bload p;
    bstore p (b <| b_size := size |> <| b_va := None |> <| b_dma_attr := dma_attr |>
                <| b_map_attr := 0 |> <| b_flags := rflags |> <| b_raddr := 0 |>
                <| b_remote := 0 |>);;
    pages ← vfastrpc_alloc_buffer e p;
    b ← bload p;
    bstore p (b <| b_pages := pages |>);;
    match pages with
    | None =>
      vfastrpc_buf_free (Some p) 0;;
      mret (- ENOMEM, None)
    | Some _ =>
      when (negb (remote =? 0))
        (remote_add_head p;; b ← bload p; bstore p (b <| b_remote := remote |>));;
      mret (0, Some p)
    end
  end.

(** The error code and what [*obuf] is assigned. *)
Definition vfastrpc_buf_alloc (e : alloc_env) (size dma_attr rflags remote : Z)
    : M bufs (Z * option ptr) :=
  let err := VERIFY 0 (0 <? size) in
  if negb (err =? 0) then mret (err, None)
  else if remote =? 0 then
    l ← gets bf_cached;
    fr ← best_fit l size None;
    match fr with
    | Some p =>
      cached_del p;;
      modify (fun s => s <| bf_num_cached := bf_num_cached s - 1 |>);;
      mret (0, Some p)
    | None => buf_alloc_new e size dma_attr rflags remote
    end
  else buf_alloc_new e size dma_attr rflags remote.

(** The closing loops of virtio_fastrpc_core.c. *)
Fixpoint vfastrpc_remote_buf_list_free (fuel : nat) : M bufs () :=
  match fuel with
  | O => hang
  | S fuel =>
    l ← gets bf_remote;
    match l with
    | [] => mret ()
    | p :: _ => vfastrpc_buf_free (Some p) 0;; vfastrpc_remote_buf_list_free fuel
    end
  end.

Fixpoint vfastrpc_cached_buf_list_free (fuel : nat) : M bufs () :=
  match fuel with
  | O => hang
  | S fuel =>
    l ← gets bf_cached;
    match l with
    | [] => mret ()
    | p :: _ =>
      cached_del p;;
      modify (fun s => s <| bf_num_cached := bf_num_cached s - 1 |>);;
      vfastrpc_buf_free (Some p) 0;;
      vfastrpc_cached_buf_list_free fuel
    end
  end.
End ops.
Arguments vfastrpc_buf_free : simpl never.
Arguments buf_release : simpl never.
Arguments vfastrpc_alloc_buffer : simpl never.
Arguments vfastrpc_free_buffer : simpl never.
