(* ===== verification/BufFacts.v ===== *)
(** * What the buffer operations guarantee *)
From S2P Require Import Prelude Shared Pages Buf.

(** ** Pages owned by the live buffers *)

Definition buf_pages (b : vfastrpc_buf) : gmultiset Z := list_to_set_disj (default [] (b_pages b)).
Definition heap_pages (h : gmap ptr vfastrpc_buf) : gmultiset Z := hsum buf_pages h.

Lemma heap_pages_insert h p b :
  h !! p = None -> heap_pages (<[p := b]> h) = buf_pages b ⊎ heap_pages h.
Proof. apply hsum_insert. Qed.

Lemma heap_pages_delete h p b :
  h !! p = Some b -> heap_pages h = buf_pages b ⊎ heap_pages (delete p h).
Proof. apply hsum_delete. Qed.

Lemma heap_pages_update h p b b' :
  h !! p = Some b -> b_pages b' = b_pages b -> heap_pages (<[p := b']> h) = heap_pages h.
Proof.
  intros Hp Eb. pose proof (hsum_update buf_pages h p b b' Hp) as E. unfold buf_pages in E at 1 3.
  rewrite Eb in E. by apply (inj _) in E.
Qed.

Definition has_pages (b : vfastrpc_buf) : bool := bool_decide (is_Some (b_pages b)).
Definition has_sgt (b : vfastrpc_buf) : bool := bool_decide (is_Some (b_sgt b)).
Definition has_va (b : vfastrpc_buf) : bool := bool_decide (is_Some (b_va b)).

Section inv.
Context `{KC : kernel_config}.

(** A buffer owns as many pages as its size asks for, or nothing at all. *)
Definition buf_ok (b : vfastrpc_buf) : Prop :=
  match b_pages b with
  | Some pages => Z.of_nat (length pages) = page_count (b_size b) /\ page_count (b_size b) < 2 ^ 31
  | None => b_sgt b = None /\ b_va b = None
  end.

Record bf_inv (s : bufs) : Prop := {
  bi_nodup_cached : NoDup (bf_cached s);
  bi_nodup_remote : NoDup (bf_remote s);
  bi_cached p : p ∈ bf_cached s -> exists b, bf_heap s !! p = Some b /\ b_remote b = 0;
  bi_remote p : p ∈ bf_remote s <-> exists b, bf_heap s !! p = Some b /\ b_remote b <> 0;
  bi_num : bf_num_cached s = Z.of_nat (length (bf_cached s));
  bi_bound : bf_num_cached s <= MAX_CACHED_BUFS + 1;
  bi_ok p b : bf_heap s !! p = Some b -> buf_ok b;
  bi_pages : pg_live (bf_pages s) = heap_pages (bf_heap s);
  bi_arrays : pg_arrays (bf_pages s) = hcount has_pages (bf_heap s);
  bi_sgts : bf_sgts s = hcount has_sgt (bf_heap s);
  bi_vmaps : bf_vmaps s = hcount has_va (bf_heap s);
}.
End inv.

(** ** Closed forms *)

Ltac run_bufs :=
  unfold mbind, M_bind, mret, M_ret, gets, modify, when, bload, bstore, bkfree,
    cached_del, remote_del, on_pages, zoom;
  simpl;
  repeat (first
    [ rewrite lookup_insert_eq
    | rewrite insert_insert_eq
    | rewrite delete_insert_eq
    | match goal with H : ?h !! ?p = Some _ |- context [?h !! ?p] => rewrite H end ];
    simpl).

Section closed.
Context `{HS : adsprpc_shared, KC : kernel_config}.

(** The state after [p] is freed for good. *)
Definition buf_gone (p : ptr) (b : vfastrpc_buf) (s : bufs) : bufs :=
  {| bf_heap := delete p (bf_heap s);
     bf_cached := bf_cached s; bf_num_cached := bf_num_cached s;
     bf_remote := hlist_del p (bf_remote s);
     bf_pages := {| pg_live := heap_pages (delete p (bf_heap s));
                    pg_arrays := pg_arrays (bf_pages s) - b2z (has_pages b);
                    pg_calls := pg_calls (bf_pages s) |};
     bf_sgts := bf_sgts s - b2z (has_sgt b);
     bf_vmaps := bf_vmaps s - b2z (has_va b) |}.

Lemma not_remote s p b : bf_inv s -> bf_heap s !! p = Some b -> b_remote b = 0 -> p ∉ bf_remote s.
Proof. intros Hinv Hp Hr (b' & Hb' & Hr')%(bi_remote s Hinv). naive_solver. Qed.

Lemma free_buffer_eq p b pages L s :
  bf_heap s !! p = Some b -> b_pages b = Some pages ->
  Z.of_nat (length pages) = page_count (b_size b) -> page_count (b_size b) < 2 ^ 31 ->
  pg_live (bf_pages s) = list_to_set_disj pages ⊎ L ->
  vfastrpc_free_buffer p s =
    Ok () (s <| bf_heap := <[p := b <| b_sgt := None |>]> (bf_heap s) |>
             <| bf_pages := {| pg_live := L; pg_arrays := pg_arrays (bf_pages s) - 1;
                               pg_calls := pg_calls (bf_pages s) |} |>
             <| bf_sgts := bf_sgts s - b2z (has_sgt b) |>
             <| bf_vmaps := bf_vmaps s - b2z (has_va b) |>).
Proof.
  intros Hp Epg Hlen Hmax Hlive. unfold vfastrpc_free_buffer, has_sgt, has_va. run_bufs.
  rewrite Epg, <- Hlen.
  destruct (b_va b), (b_sgt b); run_bufs; rewrite (free_pages_ok pages L);
    rewrite ?Hlen, ?Z.sub_0_r; simpl; try done; by rewrite Hlive, (comm_L (⊎)).
Qed.

Lemma buf_release_eq p b s :
  bf_inv s -> bf_heap s !! p = Some b -> buf_release p s = Ok () (buf_gone p b s).
Proof.
  intros Hinv Hp. pose proof (bi_ok s Hinv p b Hp) as Hok.
  pose proof (heap_pages_delete _ _ _ Hp) as Hhp. rewrite <- (bi_pages s Hinv) in Hhp.
  set (b1 := if b_remote b =? 0 then b else b <| b_remote := 0 |> <| b_raddr := 0 |>).
  set (s1 := s <| bf_heap := <[p := b1]> (bf_heap s) |> <| bf_remote := hlist_del p (bf_remote s) |>).
  assert (buf_release p s = (when (has_pages b1) (vfastrpc_free_buffer p);; bkfree p) s1) as ->.
  { subst s1 b1. unfold buf_release, has_pages. run_bufs.
    destruct (Z.eqb_spec (b_remote b) 0) as [Hr|Hr]; run_bufs; [|done].
    rewrite (hlist_del_id p (bf_remote s)) by by eapply not_remote.
    rewrite insert_id by done. by destruct s. }
  assert (b_pages b1 = b_pages b /\ b_sgt b1 = b_sgt b /\ b_va b1 = b_va b /\ b_size b1 = b_size b)
    as (E1 & E2 & E3 & E4) by (subst b1; by destruct (_ =? 0)).
  unfold buf_ok, buf_gone, has_pages, has_sgt, has_va, buf_pages in *. rewrite E1.
  destruct (b_pages b) as [pages|] eqn:Epg; simpl in Hhp.
  - unfold when, mbind, M_bind. simpl.
    rewrite (free_buffer_eq p b1 pages (heap_pages (delete p (bf_heap s))));
      [|simpl; apply lookup_insert_eq|by rewrite E1|rewrite E4; apply Hok|rewrite E4; apply Hok|done].
    unfold has_sgt, has_va. rewrite E2, E3. subst s1. run_bufs. by rewrite ?delete_insert_eq.
  - destruct Hok as [-> ->]. subst s1. run_bufs. f_equal. f_equal; [|lia..].
    rewrite (left_id_L ∅ (⊎)) in Hhp. rewrite <- Hhp. destruct (bf_pages s). simpl. f_equal. lia.
Qed.

Lemma buf_free_uncached p s :
  bf_inv s -> is_Some (bf_heap s !! p) -> vfastrpc_buf_free (Some p) 0 s = buf_release p s.
Proof. intros Hinv [b Hp]. unfold vfastrpc_buf_free. by run_bufs. Qed.

Lemma buf_free_cases p b cache s :
  bf_inv s -> bf_heap s !! p = Some b -> p ∉ bf_cached s ->
  vfastrpc_buf_free (Some p) cache s =
    if negb (cache =? 0) && (b_size b <? MAX_CACHE_BUF_SIZE) && (bf_num_cached s <=? MAX_CACHED_BUFS)
    then Ok () (s <| bf_cached := p :: bf_cached s |> <| bf_num_cached := bf_num_cached s + 1 |>)
    else Ok () (buf_gone p b s).
Proof.
  intros Hinv Hp Hc. unfold vfastrpc_buf_free. run_bufs.
  destruct (negb (cache =? 0) && (b_size b <? MAX_CACHE_BUF_SIZE)); simpl; [|by apply buf_release_eq].
  destruct (Z.leb_spec (bf_num_cached s) MAX_CACHED_BUFS).
  - zdec. unfold cached_add_head. rewrite decide_False by done.
    pose proof (bi_num s Hinv). unfold MAX_CACHED_BUFS in *. simpl. by rewrite s32_id by lia.
  - zdec. by apply buf_release_eq.
Qed.
End closed.

(** ** The invariant under the elementary changes *)

Section changes.
Context `{HS : adsprpc_shared, KC : kernel_config}.

Lemma inv_gone p b s :
  bf_inv s -> bf_heap s !! p = Some b -> p ∉ bf_cached s -> bf_inv (buf_gone p b s).
Proof.
  intros [Hnc Hnr Hc Hr Hnum Hbd Hok Hpg Har Hsg Hvm] Hp Hnin.
  split; simpl; try done.
  - by apply NoDup_hlist_del.
  - intros q Hq. destruct (Hc q Hq) as (bq & Hbq & ?). exists bq.
    rewrite lookup_delete_ne by naive_solver. done.
  - intros q. rewrite elem_of_hlist_del, Hr. setoid_rewrite lookup_delete_Some. naive_solver.
  - intros q bq. rewrite lookup_delete_Some. naive_solver.
  - rewrite (hcount_delete _ _ _ b) by done. lia.
  - rewrite (hcount_delete _ _ _ b) by done. lia.
  - rewrite (hcount_delete _ _ _ b) by done. lia.
Qed.

Lemma inv_cache p b s :
  bf_inv s -> bf_heap s !! p = Some b -> b_remote b = 0 -> p ∉ bf_cached s ->
  bf_num_cached s <= MAX_CACHED_BUFS ->
  bf_inv (s <| bf_cached := p :: bf_cached s |> <| bf_num_cached := bf_num_cached s + 1 |>).
Proof.
  intros [Hnc Hnr Hc Hr Hnum Hbd Hok Hpg Har Hsg Hvm] Hp Hrem Hnin Hle.
  split; simpl; try done; [by apply NoDup_cons| |lia..].
  intros q [->|Hq]%elem_of_cons; [by exists b|by apply Hc].
Qed.

Lemma length_hlist_del p l : NoDup l -> p ∈ l -> S (length (hlist_del p l)) = length l.
Proof.
  intros Hnd (l1 & l2 & ->)%list_elem_of_split. unfold hlist_del.
  apply NoDup_app in Hnd as (_ & Hd & [Hp Hnd2]%NoDup_cons).
  rewrite filter_app, filter_cons_False by naive_solver.
  rewrite <- (hlist_del_id p l1), <- (hlist_del_id p l2) at 2 by set_solver.
  unfold hlist_del. rewrite !length_app. simpl. lia.
Qed.

Lemma inv_uncache p s :
  bf_inv s -> p ∈ bf_cached s ->
  bf_inv (s <| bf_cached := hlist_del p (bf_cached s) |> <| bf_num_cached := bf_num_cached s - 1 |>).
Proof.
  intros [Hnc Hnr Hc Hr Hnum Hbd Hok Hpg Har Hsg Hvm] Hin.
  pose proof (length_hlist_del p (bf_cached s) Hnc Hin).
  split; simpl; try done; [by apply NoDup_hlist_del| |lia..].
  intros q [Hq _]%elem_of_hlist_del. by apply Hc.
Qed.

(** A buffer just built: linked into the remote list exactly when it is remote. *)
Definition buf_new (p : ptr) (b : vfastrpc_buf) (n : nat) (s : bufs) : bufs :=
  {| bf_heap := <[p := b]> (bf_heap s);
     bf_cached := bf_cached s; bf_num_cached := bf_num_cached s;
     bf_remote := if b_remote b =? 0 then bf_remote s else p :: bf_remote s;
     bf_pages := {| pg_live := pg_live (bf_pages s) ⊎ buf_pages b;
                    pg_arrays := pg_arrays (bf_pages s) + b2z (has_pages b);
                    pg_calls := n |};
     bf_sgts := bf_sgts s + b2z (has_sgt b);
     bf_vmaps := bf_vmaps s + b2z (has_va b) |}.

Lemma inv_buf_new p b n s :
  bf_inv s -> bf_heap s !! p = None -> buf_ok b -> bf_inv (buf_new p b n s).
Proof.
  intros [Hnc Hnr Hc Hr Hnum Hbd Hok Hpg Har Hsg Hvm] Hp Hb.
  assert (p ∉ bf_remote s) as Hpr by (rewrite Hr; naive_solver).
  split; simpl; try done.
  - destruct (_ =? 0); [done|by apply NoDup_cons].
  - intros q Hq. destruct (Hc q Hq) as (bq & Hbq & ?). exists bq.
    rewrite lookup_insert_ne by naive_solver. done.
  - intros q. destruct (decide (q = p)) as [->|Hne].
    + rewrite lookup_insert_eq. destruct (Z.eqb_spec (b_remote b) 0).
      * naive_solver.
      * split; [by eauto|by left].
    + rewrite lookup_insert_ne by done. rewrite <- Hr.
      destruct (_ =? 0); [done|]. rewrite elem_of_cons. naive_solver.
  - intros q bq. rewrite lookup_insert. case_decide; [by intros [= <-]|by apply Hok].
  - rewrite heap_pages_insert, Hpg by done. by rewrite (comm_L (⊎)).
  - rewrite hcount_insert_new by done. lia.
  - rewrite hcount_insert_new by done. lia.
  - rewrite hcount_insert_new by done. lia.
Qed.

(** Only the allocator's call counter differs. *)
Definition with_calls (n : nat) (s : bufs) : bufs :=
  s <| bf_pages := {| pg_live := pg_live (bf_pages s); pg_arrays := pg_arrays (bf_pages s);
                      pg_calls := n |} |>.

Lemma inv_with_calls n s : bf_inv s -> bf_inv (with_calls n s).
Proof. by intros [Hnc Hnr Hc Hr Hnum Hbd Hok Hpg Har Hsg Hvm]; split. Qed.

Lemma gone_new p b n s :
  bf_inv s -> bf_heap s !! p = None -> buf_gone p b (buf_new p b n s) = with_calls n s.
Proof.
  intros Hinv Hp. unfold buf_gone, buf_new, with_calls. simpl.
  rewrite delete_insert_eq, delete_id by done. rewrite <- (bi_pages s Hinv).
  assert (p ∉ bf_remote s) as Hpr by (rewrite (bi_remote s Hinv); naive_solver).
  destruct s as [h c nc r [live arr cl] sg vm]; simpl in *.
  assert (hlist_del p (if b_remote b =? 0 then r else p :: r) = r) as ->.
  { destruct (_ =? 0); [by apply hlist_del_id|apply hlist_del_head, NoDup_cons]. 
    split; [done|]. apply (bi_nodup_remote _ Hinv). }
  repeat f_equal; lia.
Qed.
End changes.

(** ** Allocation *)

Section alloc.
Context `{HS : adsprpc_shared, !adsprpc_shared_ok HS}.
Context `{KC : kernel_config, !kernel_config_ok KC}.

(** A zeroed buffer with its parameters set, before it has pages. *)
Definition bare_buf (size dma_attr rflags : Z) : vfastrpc_buf :=
  {| b_size := size; b_sgt := None; b_pages := None; b_va := None; b_dma_attr := dma_attr;
     b_map_attr := 0; b_raddr := 0; b_flags := rflags; b_remote := 0 |}.

Lemma page_count_range size : 0 <= page_count size < 2 ^ 32.
Proof. apply u32_range. Qed.

Lemma with_calls_bare p size dma_attr rflags n s :
  with_calls n (s <| bf_heap := <[p := bare_buf size dma_attr rflags]> (bf_heap s) |>) =
  buf_new p (bare_buf size dma_attr rflags) n s.
Proof.
  unfold with_calls, buf_new, buf_pages. simpl. by rewrite !Z.add_0_r, (right_id_L ∅ (⊎)).
Qed.

(** [vfastrpc_alloc_buffer] on a bare buffer undoes itself or fills it in. *)
Lemma alloc_buffer_cases e p size dma_attr rflags s :
  let b := bare_buf size dma_attr rflags in
  let s0 := s <| bf_heap := <[p := b]> (bf_heap s) |> in
  exists n,
    vfastrpc_alloc_buffer e p s0 = Ok None (buf_new p b n s) \/
    exists pages t v,
      vfastrpc_alloc_buffer e p s0 =
        Ok (Some pages) ((buf_new p (b <| b_sgt := Some t |> <| b_va := v |> <| b_pages := Some pages |>) n s)
          <| bf_heap := <[p := b <| b_sgt := Some t |> <| b_va := v |>]> (bf_heap s) |>) /\
      Z.of_nat (length pages) = page_count size /\ page_count size < 2 ^ 31 /\ ae_sgt e = Some t /\
      (has_bit dma_attr DMA_ATTR_NO_KERNEL_MAPPING = false -> is_Some v).
Proof.
  intros b s0.
  destruct (alloc_pages_spec (ae_pages e) (ae_kvzalloc e) (page_count size) (bf_pages s)
    (page_count_range size)) as (r & ps & Hrun & Hr).
  exists (pg_calls ps). unfold vfastrpc_alloc_buffer. subst s0 b.
  assert (Hnone : r = None -> ps = {| pg_live := pg_live (bf_pages s);
    pg_arrays := pg_arrays (bf_pages s); pg_calls := pg_calls ps |}).
  { intros ->. destruct Hr as [<- <-]. by destruct ps. }
  run_bufs. rewrite Hrun. destruct r as [pages|].
  2: { left. rewrite (Hnone eq_refl) at 1. rewrite <- with_calls_bare. done. }
  destruct Hr as (Hlen & Hmax & Hlive & Harr).
  assert (page_count size < 2 ^ 31) as Hmax' by lia. rewrite <- Hlen in Hmax' |- *.
  assert (vfastrpc_free_pages pages (Z.of_nat (length pages)) ps = Ok () {| pg_live := pg_live (bf_pages s);
    pg_arrays := pg_arrays (bf_pages s); pg_calls := pg_calls ps |}) as Hfree.
  { rewrite (free_pages_ok _ (pg_live (bf_pages s))) by done.
    do 2 f_equal. lia. }
  assert (ps = {| pg_live := pg_live (bf_pages s) ⊎ list_to_set_disj pages;
    pg_arrays := pg_arrays (bf_pages s) + 1; pg_calls := pg_calls ps |}) as Hps.
  { rewrite <- Hlive, <- Harr. by destruct ps. }
  destruct (ae_sgt e) as [t|].
  2: { left. run_bufs. rewrite Hfree. simpl. by rewrite <- with_calls_bare. }
  destruct (has_bit dma_attr _) eqn:Hbit; simpl; run_bufs.
  { right. exists pages, t, None. split; [|by split_and!]. unfold buf_new, buf_pages. simpl.
    rewrite <- Hps, Z.add_0_r. done. }
  destruct (ae_vmap e) as [v|]; run_bufs.
  - right. exists pages, t, (Some v). split; [|by split_and!]. unfold buf_new, buf_pages. simpl.
    rewrite <- Hps. done.
  - left. rewrite Hfree. simpl. rewrite <- with_calls_bare. unfold with_calls. simpl.
    do 2 f_equal. lia.
Qed.

(** A new buffer, or nothing. *)
Lemma buf_alloc_new_cases e size dma_attr rflags remote s :
  bf_inv s ->
  (exists err n, err <> 0 /\
    buf_alloc_new e size dma_attr rflags remote s = Ok (err, None) (with_calls n s)) \/
  (exists p b n, buf_alloc_new e size dma_attr rflags remote s = Ok (0, Some p) (buf_new p b n s) /\
    bf_heap s !! p = None /\ buf_ok b /\ b_size b = size /\ b_flags b = rflags /\
    b_remote b = remote /\ b_raddr b = 0 /\ is_Some (b_pages b) /\
    is_Some (b_sgt b) /\ b_sgt b = ae_sgt e /\
    (has_bit dma_attr DMA_ATTR_NO_KERNEL_MAPPING = false -> is_Some (b_va b))).
Proof.
  intros Hinv. unfold buf_alloc_new, kzalloc_buf. unfold mbind at 1, M_bind at 1.
  destruct (ae_kzalloc e).
  2: { left. exists (VERIFY 0 false), (pg_calls (bf_pages s)). split; [apply VERIFY_err_nonzero|].
       unfold mret, M_ret, with_calls. by destruct s as [? ? ? ? []]. }
  cbv zeta. set (p := new_ptr (bf_heap s)). assert (bf_heap s !! p = None) as Hp by apply new_ptr_None.
  destruct (alloc_buffer_cases e p size dma_attr rflags s)
    as [n [Hrun|(pages & t & v & Hrun & Hlen & Hmax & Hsgt & Hva)]].
  - left. exists (- ENOMEM), n. split; [done|]. run_bufs. fold p. unfold bare_buf in Hrun. simpl in Hrun.
    rewrite Hrun. run_bufs. fold (bare_buf size dma_attr rflags).
    set (b := bare_buf size dma_attr rflags).
    assert (bf_inv (buf_new p b n s)) as Hinv' by by apply inv_buf_new.
    replace (Build_bufs _ _ _ _ _ _ _) with (buf_new p b n s); [|done].
    rewrite buf_free_uncached; [|done|simpl; rewrite lookup_insert_eq; by eexists].
    erewrite buf_release_eq by (done || apply lookup_insert_eq). by rewrite gone_new.
  - right. set (b := (bare_buf size dma_attr rflags) <| b_sgt := Some t |> <| b_va := v |>
      <| b_pages := Some pages |> <| b_remote := remote |>).
    exists p, b, n. split; [|by split_and!]. run_bufs. fold p. unfold bare_buf in Hrun. simpl in Hrun.
    rewrite Hrun. run_bufs. unfold buf_new, b, buf_pages. simpl.
    destruct (Z.eqb_spec remote 0) as [->|Hr]; simpl; [done|].
    assert (p ∉ bf_remote s) as Hpr by (rewrite (bi_remote s Hinv); naive_solver).
    unfold remote_add_head. run_bufs. rewrite decide_False by done. by run_bufs.
Qed.
End alloc.

(** ** Properties *)

Inductive bf_op : Type :=
| BAlloc (e : alloc_env) (size dma_attr rflags remote : Z)
| BFree (p : ptr) (cache : Z)
| BSetMapAttr (p : ptr) (v : Z)
| BSetRaddr (p : ptr) (v : Z).

Section facts.
Context `{HS : adsprpc_shared, !adsprpc_shared_ok HS}.
Context `{KC : kernel_config, !kernel_config_ok KC}.

Definition run_bop (o : bf_op) : M bufs () :=
  match o with
  | BAlloc e size dma_attr rflags remote => vfastrpc_buf_alloc e size dma_attr rflags remote;; mret ()
  | BFree p cache => vfastrpc_buf_free (Some p) cache
  | BSetMapAttr p v => b ← bload p; bstore p (b <| b_map_attr := v |>)
  | BSetRaddr p v => b ← bload p; bstore p (b <| b_raddr := v |>)
  end.

(** The caller holds the buffer, it is not in the cache, and only buffers
    that are not remote are offered to the cache. *)
Definition bop_pre (o : bf_op) (s : bufs) : Prop :=
  match o with
  | BAlloc _ _ _ _ _ => True
  | BFree p cache => (p ∉ bf_cached s) /\
      exists b, bf_heap s !! p = Some b /\ (cache = 0 \/ b_remote b = 0)
  | BSetMapAttr p _ | BSetRaddr p _ => is_Some (bf_heap s !! p)
  end.

Inductive bf_reach : bufs -> Prop :=
| breach_open : bf_reach empty_bufs
| breach_step s o s' : bf_reach s -> bop_pre o s -> run_bop o s = Ok () s' -> bf_reach s'.

Lemma inv_bf_empty : bf_inv empty_bufs.
Proof.
  split; simpl; rewrite ?hcount_empty; try done; try apply NoDup_nil_2.
  - by intros p ?%not_elem_of_nil.
  - intros p. rewrite elem_of_nil. setoid_rewrite lookup_empty. naive_solver.
Qed.

Lemma inv_bset p b b' s :
  bf_inv s -> bf_heap s !! p = Some b ->
  b_size b' = b_size b -> b_pages b' = b_pages b -> b_sgt b' = b_sgt b -> b_va b' = b_va b ->
  b_remote b' = b_remote b ->
  bf_inv (s <| bf_heap := <[p := b']> (bf_heap s) |>).
Proof.
  intros [Hnc Hnr Hc Hr Hnum Hbd Hok Hpg Har Hsg Hvm] Hp E1 E2 E3 E4 E5.
  split; simpl; try done.
  - intros q Hq. destruct (Hc q Hq) as (bq & Hbq & ?). destruct (decide (p = q)) as [<-|].
    + exists b'. rewrite lookup_insert_eq, E5. naive_solver.
    + exists bq. by rewrite lookup_insert_ne.
  - intros q. rewrite Hr. destruct (decide (p = q)) as [<-|].
    + rewrite lookup_insert_eq. split; intros (? & ? & ?); simplify_eq; eexists; (split; [done|]); congruence.
    + by rewrite lookup_insert_ne.
  - intros q bq. rewrite lookup_insert. case_decide; [|by apply Hok]. intros [= <-].
    pose proof (Hok _ _ Hp) as Hb. unfold buf_ok in *. by rewrite E1, E2, E3, E4.
  - by rewrite (heap_pages_update _ _ b).
  - rewrite (hcount_update _ _ _ b) by done. unfold has_pages at 2 3. rewrite E2. lia.
  - rewrite (hcount_update _ _ _ b) by done. unfold has_sgt at 2 3. rewrite E3. lia.
  - rewrite (hcount_update _ _ _ b) by done. unfold has_va at 2 3. rewrite E4. lia.
Qed.

(** The cache search changes nothing and picks a smallest buffer that fits. *)
Lemma best_fit_spec l size fr s :
  (forall p, p ∈ l -> is_Some (bf_heap s !! p)) ->
  (forall q, fr = Some q -> exists bq, bf_heap s !! q = Some bq /\ size <= b_size bq) ->
  exists r, best_fit l size fr s = Ok r s /\
    (r = None -> fr = None /\ forall p b, p ∈ l -> bf_heap s !! p = Some b -> b_size b < size) /\
    (forall p, r = Some p -> (p ∈ l \/ fr = Some p) /\
      exists b, bf_heap s !! p = Some b /\ size <= b_size b /\
      forall q bq, q ∈ l \/ fr = Some q -> bf_heap s !! q = Some bq -> size <= b_size bq ->
        b_size b <= b_size bq).
Proof.
  revert fr. induction l as [|p l IH]; intros fr Hl Hfr.
  { exists fr. split; [done|]. split.
    - intros ->. split; [done|]. by intros p b ?%not_elem_of_nil.
    - intros p ->. split; [by right|]. destruct (Hfr p) as (b & ? & ?); [done|].
      exists b. split_and!; [done..|]. intros q bq [?%not_elem_of_nil|?] ? ?; [done|]. naive_solver lia. }
  destruct (Hl p) as [b Hb]; [by left|].
  set (better := match fr with
    | None => size <=? b_size b
    | Some q => match bf_heap s !! q with
                | Some bq => (size <=? b_size b) && (b_size b <? b_size bq)
                | None => false end
    end).
  assert (best_fit (p :: l) size fr s = best_fit l size (if better then Some p else fr) s) as ->.
  { cbn [best_fit]. unfold mbind, M_bind, bload. rewrite Hb. subst better.
    destruct fr as [q|]; [|done]. destruct (Hfr q) as (bq & -> & _); done. }
  destruct (IH (if better then Some p else fr)) as (r & Hrun & Hnone & Hsome).
  { intros q Hq. apply Hl. by right. }
  { intros q Hq. subst better. destruct fr as [f|].
    - destruct (Hfr f) as (bf & Hbf & Hsz); [done|]. rewrite Hbf in Hq.
      destruct (Z.leb_spec size (b_size b)), (Z.ltb_spec (b_size b) (b_size bf)); naive_solver.
    - destruct (Z.leb_spec size (b_size b)); naive_solver. }
  exists r. split; [done|]. split.
  - intros ->. destruct (Hnone eq_refl) as [Hfr' Hall]. subst better. destruct fr as [f|].
    { destruct (Hfr f) as (bf & Hbf & _); [done|]. rewrite Hbf in Hfr'. by destruct (_ && _). }
    split; [done|]. intros q bq [->|Hq]%elem_of_cons Hbq; [|by eapply Hall].
    destruct (Z.leb_spec size (b_size b)); [done|]. naive_solver.
  - intros q ->. destruct (Hsome q eq_refl) as (Hin & bq & Hbq & Hsz & Hmin). split.
    { destruct Hin as [?|Hin]; [left; by right|]. destruct better; simplify_eq; [left; by left|by right]. }
    exists bq. split_and!; [done..|]. intros q' bq' Hq' Hbq' Hsz'.
    subst better. destruct Hq' as [[->|Hq']%elem_of_cons|Hq'].
    + simplify_eq. destruct fr as [f|].
      * destruct (Hfr f) as (bf & Hbf & Hszf); [done|]. rewrite Hbf in Hmin.
        destruct (Z.leb_spec size (b_size b)), (Z.ltb_spec (b_size b) (b_size bf)); simpl in Hmin; try lia.
        -- apply (Hmin p); by auto.
        -- etrans; [apply (Hmin f bf); by auto|lia].
      * destruct (Z.leb_spec size (b_size b)); [|lia]. apply (Hmin p); by auto.
    + apply (Hmin q'); by auto.
    + subst fr. rewrite Hbq' in Hmin.
      destruct (Z.leb_spec size (b_size b)), (Z.ltb_spec (b_size b) (b_size bq')); simpl in Hmin.
      * etrans; [apply (Hmin p b); by auto|lia].
      * apply (Hmin q'); by auto.
      * apply (Hmin q'); by auto.
      * apply (Hmin q'); by auto.
Qed.

Lemma cached_is_Some s p : bf_inv s -> p ∈ bf_cached s -> is_Some (bf_heap s !! p).
Proof. intros Hinv Hp. destruct (bi_cached s Hinv p Hp) as (b & -> & _). by eexists. Qed.

(** The three ways [vfastrpc_buf_alloc] ends. *)
Lemma buf_alloc_cases e size dma_attr rflags remote s :
  bf_inv s ->
  let run := vfastrpc_buf_alloc e size dma_attr rflags remote s in
  (exists err n, err <> 0 /\ run = Ok (err, None) (with_calls n s)) \/
  (exists p b, remote = 0 /\ p ∈ bf_cached s /\ bf_heap s !! p = Some b /\ size <= b_size b /\
    (forall q bq, q ∈ bf_cached s -> bf_heap s !! q = Some bq -> size <= b_size bq ->
       b_size b <= b_size bq) /\
    run = Ok (0, Some p) (s <| bf_cached := hlist_del p (bf_cached s) |>
                            <| bf_num_cached := bf_num_cached s - 1 |>)) \/
  (exists p b n, (remote = 0 -> forall q bq, q ∈ bf_cached s -> bf_heap s !! q = Some bq -> b_size bq < size) /\
    bf_heap s !! p = None /\ buf_ok b /\ b_size b = size /\ b_flags b = rflags /\
    b_remote b = remote /\ is_Some (b_pages b) /\ (is_Some (b_sgt b) /\ b_sgt b = ae_sgt e /\ b_raddr b = 0 /\
      (has_bit dma_attr DMA_ATTR_NO_KERNEL_MAPPING = false -> is_Some (b_va b))) /\
    run = Ok (0, Some p) (buf_new p b n s)).
Proof.
  intros Hinv run. subst run. unfold vfastrpc_buf_alloc.
  destruct (Z.ltb_spec 0 size) as [Hs|Hs]; unfold VERIFY; simpl.
  2: { rewrite VERIFY_err_eqb. left. exists (VERIFY_err 0), (pg_calls (bf_pages s)).
       split; [apply VERIFY_err_nonzero|]. unfold mret, M_ret, with_calls. by destruct s as [? ? ? ? []]. }
  pose proof (buf_alloc_new_cases e size dma_attr rflags remote s Hinv) as Hnew.
  destruct (Z.eqb_spec remote 0) as [->|Hr].
  - unfold mbind, M_bind, gets. destruct (best_fit_spec (bf_cached s) size None s)
      as (r & -> & Hnone & Hsome); [by intros; apply cached_is_Some|done|].
    destruct r as [p|].
    + right. left. destruct (Hsome p eq_refl) as ([Hp|?] & b & Hb & Hsz & Hmin); [|done].
      exists p, b. split_and!; try done. intros q bq Hq. apply Hmin. by left.
    + destruct (Hnone eq_refl) as [_ Hall]. destruct Hnew as [?|(p & b & n & Hrun & Hnew)]; [by left|].
      right. right. exists p, b, n. naive_solver.
  - destruct Hnew as [?|(p & b & n & Hrun & Hnew)]; [by left|].
    right. right. exists p, b, n. naive_solver.
Qed.

Lemma bop_inv o s : bf_inv s -> bop_pre o s -> wp (run_bop o) (fun _ s' => bf_inv s') s.
Proof.
  intros Hinv Hpre. unfold wp. destruct o as [e size da rf rem|p cache|p v|p v]; simpl in *.
  - unfold mbind, M_bind.
    destruct (buf_alloc_cases e size da rf rem s Hinv)
      as [(? & n & _ & ->)|[(p & b & _ & Hp & _ & _ & _ & ->)|(p & b & n & _ & Hp & Hok & _ & _ & _ & _ & _ & ->)]].
    + by apply inv_with_calls.
    + by apply inv_uncache.
    + by apply inv_buf_new.
  - destruct Hpre as (Hnc & b & Hb & Hcache). rewrite (buf_free_cases p b) by done.
    destruct (Z.eqb_spec cache 0); simpl; [by apply inv_gone|].
    destruct (_ && _) eqn:E; [|by apply inv_gone].
    apply andb_prop in E as [_ E%Z.leb_le]. destruct Hcache; [done|]. by eapply inv_cache.
  - destruct Hpre as [b Hb]. run_bufs. by eapply inv_bset.
  - destruct Hpre as [b Hb]. run_bufs. by eapply inv_bset.
Qed.

(** C28: buffers stay well formed.  In every state reachable by allocating,
    freeing and annotating buffers, neither list has a duplicate or a freed
    entry, a buffer is on [remote_bufs] exactly when it is remote and never
    on both lists, [num_cached_buf] is the length of the cache and at most
    33, and the pages, page arrays, scatter tables and kernel mappings the
    driver owns are exactly those of its live buffers; no operation faults. *)
Theorem buf_ops_safe s :
  bf_reach s ->
  bf_inv s /\ forall o, bop_pre o s -> exists s', run_bop o s = Ok () s' /\ bf_inv s'.
Proof.
  intros Hr. assert (bf_inv s) as Hinv.
  { induction Hr as [|s o s' Hr IH Hpre Hrun]; [apply inv_bf_empty|].
    pose proof (bop_inv o s IH Hpre) as H. unfold wp in H. by rewrite Hrun in H. }
  split; [done|]. intros o Hpre.
  destruct (proj1 (wp_iff _ _ _) (bop_inv o s Hinv Hpre)) as ([] & s' & ? & ?). eauto.
Qed.

(** C36: allocation is best fit and leak free.  [vfastrpc_buf_alloc] always
    returns.  On error it hands out nothing and leaves every buffer, page
    and list as it was.  On success it returns either a cached buffer at
    least as large as asked for and no larger than any other cached buffer
    that fits, which it takes out of the cache, or, only if a local request
    fits no cached buffer, a new one of exactly the requested size, flags
    and remoteness with its pages. *)
Theorem buf_alloc_correct e size dma_attr rflags remote s :
  bf_inv s ->
  exists err r s', vfastrpc_buf_alloc e size dma_attr rflags remote s = Ok (err, r) s' /\
    (err <> 0 -> r = None /\ exists n, s' = with_calls n s) /\
    (err = 0 -> exists p b, r = Some p /\ bf_heap s' !! p = Some b /\ (p ∉ bf_cached s') /\
      size <= b_size b /\ b_remote b = remote /\
      ((remote = 0 /\ p ∈ bf_cached s /\ bf_heap s' = bf_heap s /\
        forall q bq, q ∈ bf_cached s -> bf_heap s !! q = Some bq -> size <= b_size bq ->
          b_size b <= b_size bq) \/
       (bf_heap s !! p = None /\ b_size b = size /\ b_flags b = rflags /\ is_Some (b_pages b) /\
        (remote = 0 -> forall q bq, q ∈ bf_cached s -> bf_heap s !! q = Some bq -> b_size bq < size)))).
Proof.
  intros Hinv.
  destruct (buf_alloc_cases e size dma_attr rflags remote s Hinv)
    as [(err & n & Herr & ->)|[(p & b & -> & Hp & Hb & Hsz & Hmin & ->)|
        (p & b & n & Hno & Hp & Hok & Hsz & Hfl & Hrem & Hpg & _ & ->)]]; eexists _, _, _; (split; [done|]).
  - split; [|done]. intros _. split; [done|]. by exists n.
  - split; [done|]. intros _. exists p, b. simpl. rewrite elem_of_hlist_del.
    destruct (bi_cached s Hinv p Hp) as (b' & Hb' & Hr'). simplify_eq.
    split_and!; [done|done|naive_solver|done|done|]. left. done.
  - split; [done|]. intros _. exists p, b. simpl. rewrite lookup_insert_eq.
    split_and!; [done|done| |lia|done|].
    + intros Hin. destruct (cached_is_Some s p Hinv Hin). naive_solver.
    + right. naive_solver.
Qed.

(** A new buffer and its release are inverse.  A buffer that
    [vfastrpc_buf_alloc] built, freed without caching, leaves every list,
    page and ledger entry as before the allocation. *)
Theorem buf_alloc_free_roundtrip e size dma_attr rflags remote s p s' :
  bf_inv s -> bf_heap s !! p = None ->
  vfastrpc_buf_alloc e size dma_attr rflags remote s = Ok (0, Some p) s' ->
  exists n, vfastrpc_buf_free (Some p) 0 s' = Ok () (with_calls n s).
Proof.
  intros Hinv Hp Hrun.
  destruct (buf_alloc_cases e size dma_attr rflags remote s Hinv)
    as [(err & n & Herr & E)|[(q & b & _ & Hq & Hb & _ & _ & E)|(q & b & n & _ & Hq & Hok & _ & _ & _ & _ & _ & E)]];
    rewrite E in Hrun; simplify_eq.
  exists n. rewrite buf_free_uncached; [|by apply inv_buf_new|simpl; rewrite lookup_insert_eq; by eexists].
  erewrite buf_release_eq by (by apply inv_buf_new || apply lookup_insert_eq). by rewrite gone_new.
Qed.

(** ** Closing a file's buffers *)

Lemma remote_not_cached s p : bf_inv s -> p ∈ bf_remote s -> p ∉ bf_cached s.
Proof.
  intros Hinv (b & Hb & Hr)%(bi_remote s Hinv) Hc.
  destruct (bi_cached s Hinv p Hc) as (b' & Hb' & Hr'). naive_solver.
Qed.

Lemma remote_list_free_ok l s :
  bf_inv s -> bf_remote s = l ->
  exists s', vfastrpc_remote_buf_list_free (S (length l)) s = Ok () s' /\ bf_inv s' /\
    bf_remote s' = [] /\ bf_cached s' = bf_cached s /\
    forall q, bf_heap s' !! q = if decide (q ∈ l) then None else bf_heap s !! q.
Proof.
  revert s. induction l as [|p l IH]; intros s Hinv El.
  { exists s. cbn [vfastrpc_remote_buf_list_free length]. unfold mbind, M_bind, gets. rewrite El. done. }
  assert (p ∈ bf_remote s) as Hp by (rewrite El; by left).
  pose proof (remote_not_cached s p Hinv Hp) as Hnc.
  destruct (proj1 (bi_remote s Hinv p) Hp) as (b & Hb & _).
  pose proof (bi_nodup_remote s Hinv) as Hnd. rewrite El in Hnd.
  destruct (IH (buf_gone p b s)) as (s' & Hrun & Hinv' & Hr & Hc & Hh).
  { by apply inv_gone. }
  { simpl. rewrite El. by apply hlist_del_head. }
  exists s'. split.
  - change (vfastrpc_remote_buf_list_free (S (length (p :: l))) s) with
      ((l0 ← gets bf_remote; match l0 with [] => mret () | q :: _ =>
          vfastrpc_buf_free (Some q) 0;; vfastrpc_remote_buf_list_free (S (length l)) end) s).
    unfold mbind, M_bind, gets. rewrite El.
    rewrite buf_free_uncached by (done || by eexists). by rewrite (buf_release_eq p b).
  - split_and!; [done..|]. intros q. rewrite Hh. simpl.
    apply NoDup_cons in Hnd as [Hpl _].
    destruct (decide (q = p)) as [->|Hne].
    + rewrite lookup_delete_eq. destruct (decide (p ∈ l)), (decide (p ∈ p :: l)); set_solver.
    + rewrite lookup_delete_ne by done.
      destruct (decide (q ∈ l)), (decide (q ∈ p :: l)); set_solver.
Qed.

Lemma cached_list_free_ok l s :
  bf_inv s -> bf_cached s = l ->
  exists s', vfastrpc_cached_buf_list_free (S (length l)) s = Ok () s' /\ bf_inv s' /\
    bf_cached s' = [] /\ bf_remote s' = bf_remote s /\
    forall q, bf_heap s' !! q = if decide (q ∈ l) then None else bf_heap s !! q.
Proof.
  revert s. induction l as [|p l IH]; intros s Hinv El.
  { exists s. cbn [vfastrpc_cached_buf_list_free length]. unfold mbind, M_bind, gets. rewrite El. done. }
  assert (p ∈ bf_cached s) as Hp by (rewrite El; by left).
  destruct (bi_cached s Hinv p Hp) as (b & Hb & Hrem).
  pose proof (bi_nodup_cached s Hinv) as Hnd. rewrite El in Hnd.
  pose proof (inv_uncache p s Hinv Hp) as Hinv1.
  set (s1 := s <| bf_cached := hlist_del p (bf_cached s) |> <| bf_num_cached := bf_num_cached s - 1 |>)
    in *.
  assert (p ∉ bf_cached s1) as Hp1 by (simpl; rewrite elem_of_hlist_del; naive_solver).
  destruct (IH (buf_gone p b s1)) as (s' & Hrun & Hinv' & Hc & Hr & Hh).
  { by apply inv_gone. }
  { simpl. rewrite El. by apply hlist_del_head. }
  exists s'. split.
  - destruct s as [h c nc r ps sg vm]. simpl in El. subst c.
    change (match vfastrpc_buf_free (Some p) 0 s1 with
            | Ok _ s2 => vfastrpc_cached_buf_list_free (S (length l)) s2
            | Fault f => Fault f
            | Hang h => Hang h
            end = Ok () s').
    rewrite buf_free_uncached by (done || by eexists). by rewrite (buf_release_eq p b).
  - split_and!; [done|done| |].
    + rewrite Hr. simpl. by apply hlist_del_id, (not_remote s p b).
    + intros q. rewrite Hh. simpl. apply NoDup_cons in Hnd as [Hpl _].
      destruct (decide (q = p)) as [->|Hne].
      * rewrite lookup_delete_eq. destruct (decide (p ∈ l)), (decide (p ∈ p :: l)); set_solver.
      * rewrite lookup_delete_ne by done.
        destruct (decide (q ∈ l)), (decide (q ∈ p :: l)); set_solver.
Qed.

(** Closing releases every listed buffer.  The two closing loops stop
    after one pass over their lists, leave both lists empty and the cache
    counter zero, free exactly the buffers that were on the lists and keep
    the ledgers exact, so that no page of a listed buffer survives. *)
Theorem buf_lists_close s :
  bf_inv s ->
  exists s', (vfastrpc_cached_buf_list_free (S (length (bf_cached s)));;
              vfastrpc_remote_buf_list_free (S (length (bf_remote s)))) s = Ok () s' /\
    bf_inv s' /\ bf_cached s' = [] /\ bf_remote s' = [] /\ bf_num_cached s' = 0 /\
    forall q, bf_heap s' !! q =
      if decide (q ∈ bf_cached s ++ bf_remote s) then None else bf_heap s !! q.
Proof.
  intros Hinv.
  destruct (cached_list_free_ok _ s Hinv eq_refl) as (s1 & Hrun1 & Hinv1 & Hc1 & Hr1 & Hh1).
  destruct (remote_list_free_ok _ s1 Hinv1 eq_refl) as (s2 & Hrun2 & Hinv2 & Hr2 & Hc2 & Hh2).
  exists s2. rewrite Hr1 in Hrun2. split.
  { unfold mbind, M_bind. by rewrite Hrun1. }
  split_and!; [done|by rewrite Hc2|done|by rewrite (bi_num _ Hinv2), Hc2, Hc1|].
  intros q. rewrite Hh2, Hh1, Hr1.
  destruct (decide (q ∈ bf_remote s)), (decide (q ∈ bf_cached s)),
    (decide (q ∈ bf_cached s ++ bf_remote s)); set_solver.
Qed.

(** ** The page count *)

Lemma PAGE_SIZE_range : 1 < PAGE_SIZE < 2 ^ 32.
Proof.
  unfold PAGE_SIZE. pose proof PAGE_SHIFT_range. split.
  - apply Z.pow_gt_1; lia.
  - apply Z.pow_lt_mono_r; lia.
Qed.

Lemma page_count_eq size :
  0 <= size -> size + PAGE_SIZE - 1 < 2 ^ 64 ->
  page_count size = u32 ((size + PAGE_SIZE - 1) / PAGE_SIZE).
Proof.
  intros Hs Hle. pose proof PAGE_SIZE_range as HP. pose proof PAGE_SHIFT_range.
  unfold page_count, PAGE_ALIGN. rewrite u64_id by lia. f_equal.
  assert (PAGE_SIZE - 1 = Z.ones PAGE_SHIFT) as E
    by (unfold PAGE_SIZE; rewrite Z.ones_equiv; lia).
  rewrite E, Z.ldiff_ones_r by lia.
  rewrite Z.shiftr_shiftl_l by lia. rewrite Z.sub_diag, Z.shiftl_0_r.
  rewrite Z.shiftr_div_pow2 by lia. done.
Qed.

(** The page count of a buffer.  For every size up to [2^32 - 1]
    pages the [unsigned int] count is the size rounded up to pages: the
    pages cover the buffer and one page less would not.  One page more and
    the count wraps to zero, so that the driver would build a buffer of
    [2^32] pages that owns none. *)
Theorem page_count_covers size :
  (0 < size <= (2 ^ 32 - 1) * PAGE_SIZE ->
   size <= page_count size * PAGE_SIZE /\ (page_count size - 1) * PAGE_SIZE < size) /\
  page_count (2 ^ 32 * PAGE_SIZE) = 0.
Proof.
  pose proof PAGE_SIZE_range as HP. split.
  - intros Hs. assert (size + PAGE_SIZE - 1 < 2 ^ 64) by nia.
    rewrite page_count_eq by lia.
    assert (PAGE_SIZE <> 0 /\ 0 < PAGE_SIZE) as [Hne Hpos] by lia.
    pose proof (Z.div_mod (size + PAGE_SIZE - 1) PAGE_SIZE Hne) as Hdm.
    pose proof (Z.mod_pos_bound (size + PAGE_SIZE - 1) PAGE_SIZE Hpos) as Hmb.
    rewrite u32_id by (split; [apply Z.div_pos; lia|apply Z.div_lt_upper_bound; nia]). nia.
  - destruct (decide (2 ^ 32 * PAGE_SIZE + PAGE_SIZE - 1 < 2 ^ 64)).
    + rewrite page_count_eq by lia.
      replace ((2 ^ 32 * PAGE_SIZE + PAGE_SIZE - 1) / PAGE_SIZE) with (2 ^ 32); [done|].
      apply Z.div_unique with (PAGE_SIZE - 1); lia.
    + lia.
Qed.

(** ** Freeing, branch by branch *)

(** Freeing a buffer.  A live buffer outside the cache that is freed
    with caching goes to the head of the cache, untouched, exactly when it
    is smaller than 8 MiB and at most 32 buffers are cached; otherwise, and
    always without caching, it leaves the heap and both lists and exactly
    its pages, page array, scatter table and mapping are given back. *)
Theorem buf_free_correct p b cache s :
  bf_inv s -> bf_heap s !! p = Some b -> p ∉ bf_cached s ->
  exists s', vfastrpc_buf_free (Some p) cache s = Ok () s' /\
    ((cache <> 0 /\ b_size b < MAX_CACHE_BUF_SIZE /\ bf_num_cached s <= MAX_CACHED_BUFS /\
      bf_heap s' = bf_heap s /\ bf_cached s' = p :: bf_cached s /\
      bf_num_cached s' = bf_num_cached s + 1 /\ bf_pages s' = bf_pages s) \/
     ((cache = 0 \/ MAX_CACHE_BUF_SIZE <= b_size b \/ MAX_CACHED_BUFS < bf_num_cached s) /\
      bf_heap s' = delete p (bf_heap s) /\ bf_cached s' = bf_cached s /\
      bf_remote s' = hlist_del p (bf_remote s) /\
      pg_live (bf_pages s) = buf_pages b ⊎ pg_live (bf_pages s') /\
      bf_sgts s' = bf_sgts s - b2z (has_sgt b) /\ bf_vmaps s' = bf_vmaps s - b2z (has_va b))).
Proof.
  intros Hinv Hp Hc. rewrite (buf_free_cases p b) by done.
  destruct (Z.eqb_spec cache 0) as [->|Hne]; [|destruct (Z.ltb_spec (b_size b) MAX_CACHE_BUF_SIZE);
    [destruct (Z.leb_spec (bf_num_cached s) MAX_CACHED_BUFS)|]]; simpl.
  2: { eexists. split; [done|]. left. by split_and!. }
  all: eexists; (split; [done|]); right; (split; [tauto|]); simpl.
  all: split_and!; try done; rewrite (bi_pages s Hinv); by apply heap_pages_delete.
Qed.
End facts.

(** ** A run to the limit of the cache *)

Section overshoot.
Import Example.

Definition bop_preb (o : bf_op) (s : bufs) : bool :=
  match o with
  | BAlloc _ _ _ _ _ => true
  | BFree p cache => negb (bool_decide (p ∈ bf_cached s)) &&
      match bf_heap s !! p with Some b => (cache =? 0) || (b_remote b =? 0) | None => false end
  | BSetMapAttr p _ | BSetRaddr p _ => bool_decide (is_Some (bf_heap s !! p))
  end.

Fixpoint run_bops (l : list bf_op) (s : bufs) : option bufs :=
  match l with
  | [] => Some s
  | o :: l' => if bop_preb o s then
                 match run_bop o s with Ok _ s' => run_bops l' s' | _ => None end
               else None
  end.

Lemma bop_preb_ok o s : bop_preb o s = true -> bop_pre o s.
Proof.
  destruct o as [| p cache | |]; simpl; try done; try by intros ?%bool_decide_eq_true.
  intros [H1 H2]%andb_prop. apply negb_true_iff, bool_decide_eq_false in H1. split; [done|].
  destruct (bf_heap s !! p) as [b|]; [|done]. exists b. split; [done|].
  apply orb_prop in H2 as [?%Z.eqb_eq|?%Z.eqb_eq]; auto.
Qed.

Lemma run_bops_reach l s s' : bf_reach s -> run_bops l s = Some s' -> bf_reach s'.
Proof.
  revert s. induction l as [|o l IH]; intros s Hs; simpl; [by intros [= <-]|].
  destruct (bop_preb o s) eqn:Hpre; [|done].
  destruct (run_bop o s) as [[] s1| |] eqn:Hrun; [|done..]. apply IH.
  eapply breach_step; [done|by apply bop_preb_ok|done].
Qed.

Definition good_alloc : alloc_env :=
  {| ae_kzalloc := true; ae_kvzalloc := true; ae_pages := fun n _ _ => Some (Z.of_nat n * 2 ^ 20);
     ae_sgt := Some (SgTable (Sg 0 0 0 0) []); ae_vmap := Some 1 |}.

Definition overshoot_ops : list bf_op :=
  replicate 34 (BAlloc good_alloc 4096 0 0 0) ++
  map (fun n => BFree (Pos.of_nat n) 1) (seq 1 34).

(** The cache holds one buffer more than its stated maximum.  A file
    that allocates 34 page-sized buffers and frees them with caching ends
    with 33 cached buffers: [MAX_CACHED_BUFS] is 32, but the test in
    [vfastrpc_buf_free] is [num_cached_buf > MAX_CACHED_BUFS]. *)
Theorem cache_overshoots :
  exists s, bf_reach s /\ bf_num_cached s = MAX_CACHED_BUFS + 1 /\
    length (bf_cached s) = 33%nat.
Proof.
  assert (match run_bops overshoot_ops empty_bufs with
          | Some s => bf_num_cached s = MAX_CACHED_BUFS + 1 /\ length (bf_cached s) = 33%nat
          | None => False end) as H by (vm_compute; split; reflexivity).
  destruct (run_bops overshoot_ops empty_bufs) as [s|] eqn:E; [|contradiction].
  exists s. split; [|exact H]. eapply run_bops_reach; [constructor|exact E].
Qed.
End overshoot.
