(* ===== verification/Apps.v ===== *)
(** * The device: virtqueues, message buffers and the message table

    [struct vfastrpc_apps] with the operations of virtio_fastrpc_queue.c and
    [virt_alloc_msg] / [virt_free_msg] of virtio_fastrpc_core.c.  The
    virtqueue belongs to the kernel's virtio core: the class [virtqueue] holds
    the calls the driver makes, [virtqueue_ok] what virtio guarantees about
    the buffers in a queue.  Operations run under the locks the code takes
    ([svq.vq_lock], [rvq.vq_lock], [msglock]), so each is one step. *)
From S2P Require Import Prelude Shared.

Definition FASTRPC_MSG_MAX : nat := 256.

(** ** The virtqueue interface *)

Class virtqueue := {
  vq : Type;
  (** [virtqueue_add_outbuf], [virtqueue_add_inbuf]: the error code. *)
  virtqueue_add_outbuf : vq -> ptr -> Z -> Z * vq;
  virtqueue_add_inbuf : vq -> ptr -> Z -> Z * vq;
  (** [virtqueue_get_buf]: a used buffer and the length the device wrote. *)
  virtqueue_get_buf : vq -> option (ptr * Z) * vq;
  virtqueue_kick : vq -> vq;
  (** What the device can do to a queue on its own. *)
  dev_action : Type;
  vq_dev : dev_action -> vq -> vq;
  (** The buffers in the queue: added and not yet got back. *)
  vq_owned : vq -> gmultiset ptr;
}.

Class virtqueue_ok (V : virtqueue) : Prop := {
  add_outbuf_owned q p len err q' :
    virtqueue_add_outbuf q p len = (err, q') ->
    vq_owned q' = if err =? 0 then {[+ p +]} ⊎ vq_owned q else vq_owned q;
  add_inbuf_owned q p len err q' :
    virtqueue_add_inbuf q p len = (err, q') ->
    vq_owned q' = if err =? 0 then {[+ p +]} ⊎ vq_owned q else vq_owned q;
  get_buf_owned q r q' :
    virtqueue_get_buf q = (r, q') ->
    vq_owned q = match r with Some (p, _) => {[+ p +]} ⊎ vq_owned q' | None => vq_owned q' end;
  kick_owned q : vq_owned (virtqueue_kick q) = vq_owned q;
  dev_owned a q : vq_owned (vq_dev a q) = vq_owned q;
}.

(** ** Messages on the wire *)

Record virt_msg_hdr := Hdr {
  h_pid : Z; h_tid : Z; h_cid : Z; h_cmd : Z; h_len : Z; h_msgid : Z; h_result : Z;
}.

#[export] Instance eta_hdr : Eta virt_msg_hdr := fun h =>
  {| h_pid := h_pid h; h_tid := h_tid h; h_cid := h_cid h; h_cmd := h_cmd h; h_len := h_len h;
     h_msgid := h_msgid h; h_result := h_result h |}.

Record virt_fastrpc_sgl := Sgl { s_pv : Z; s_len : Z }.

Record virt_fastrpc_mapping := {
  mp_fd : Z; mp_refcount : Z; mp_va : Z; mp_len : Z; mp_attr : Z; mp_nents : Z;
}.

Record virt_fastrpc_buf := {
  vb_attrs : Z; vb_crc : Z; vb_pv : Z; vb_buf_len : Z; vb_offset : Z; vb_payload_len : Z;
}.

(** A part of an invoke message's payload: a mapping with its scatter list,
    bytes copied from user memory, or room left for an output buffer. *)
Inductive payload_part : Type :=
| PMapping (m : virt_fastrpc_mapping) (sgl : list virt_fastrpc_sgl)
| PCopied (pv len : Z)
| PRoom (len : Z).

(** Requests, as the driver writes them into a tx buffer.  An argument of an
    invocation that the driver does not write keeps what the buffer held. *)
Inductive vmsg : Type :=
| VirtOpen (h : virt_msg_hdr) (domain pd attrs : Z)
| VirtClose (h : virt_msg_hdr)
| VirtInvoke (h : virt_msg_hdr) (handle sc attrs seq_num : Z) (pra : list (option virt_fastrpc_buf))
    (payload : list payload_part)
| VirtMmap (h : virt_msg_hdr) (flags vdsp : Z) (m : virt_fastrpc_mapping) (sgl : list virt_fastrpc_sgl)
| VirtMunmap (h : virt_msg_hdr) (vdsp size : Z)
| VirtControl (h : virt_msg_hdr) (enable latency : Z)
| VirtCap (h : virt_msg_hdr) (domain : Z)
| VirtMunmapFd (h : virt_msg_hdr) (fd flags map_entries va len : Z)
| VirtMemMap (h : virt_msg_hdr) (offset flags attrs raddr : Z) (m : virt_fastrpc_mapping)
    (sgl : list virt_fastrpc_sgl)
| VirtMemUnmap (h : virt_msg_hdr) (fd len raddr : Z).

Definition vmsg_hdr (v : vmsg) : virt_msg_hdr :=
  match v with
  | VirtOpen h _ _ _ | VirtClose h | VirtInvoke h _ _ _ _ _ _ | VirtMmap h _ _ _ _ | VirtMunmap h _ _ | VirtControl h _ _
  | VirtCap h _ | VirtMunmapFd h _ _ _ _ _ | VirtMemMap h _ _ _ _ _ _ | VirtMemUnmap h _ _ _ => h
  end.

(** A response, with the fields the driver reads after the header: [vdsp] of
    a map response, [raddr] of a mem-map response, [dsp_caps], and the
    arguments and the fd list of an invoke response; the arrays as functions
    from the index to the word the device left there. *)
Record virt_rsp := {
  r_hdr : virt_msg_hdr;
  r_vdsp : Z;
  r_raddr : Z;
  r_dsp_caps : nat -> Z;
  r_pra : nat -> virt_fastrpc_buf;
  r_fdlist : nat -> Z;
}.

(** Sizes of the packed structures. *)
Definition sizeof_hdr : Z := 26.
Definition sizeof_sgl : Z := 16.
Definition sizeof_mapping : Z := 32.
Definition sizeof_buf : Z := 40.
Definition sizeof_invoke_msg : Z := sizeof_hdr + 4 + 4 + 4 + 8.
Definition sizeof_mmap_msg : Z := sizeof_hdr + 4 + 8 + sizeof_mapping.
Definition sizeof_munmap_msg : Z := sizeof_hdr + 8 + 8.
Definition sizeof_mem_map_msg : Z := sizeof_hdr + 4 + 4 + 4 + 8 + sizeof_mapping.
Definition sizeof_mem_unmap_msg : Z := sizeof_hdr + 4 + 8 + 8.
Definition sizeof_munmap_fd_msg : Z := sizeof_hdr + 4 + 4 + 4 + 8 + 8.
Definition sizeof_open_msg : Z := sizeof_hdr + 4 + 4 + 4.
Definition sizeof_control_msg : Z := sizeof_hdr + 4 + 4.

(** ** State *)

Record virt_fastrpc_msg := {
  work_done : Z;             (* the completion's counter *)
  msg_ctx : option ptr;
  msgid : Z;
  txbuf : option ptr;
  rxbuf : option ptr;
}.
#[export] Instance eta_msg : Eta virt_fastrpc_msg := fun m =>
  {| work_done := work_done m; msg_ctx := msg_ctx m; msgid := msgid m;
     txbuf := txbuf m; rxbuf := rxbuf m |}.

Record apps `{virtqueue} := {
  num_bufs : Z;
  buf_size : Z;
  last_sbuf : Z;
  sbufs : list ptr;
  svq : vq;
  rvq : vq;
  msgtable : list (option ptr);
  msgs : gmap ptr virt_fastrpc_msg;    (* live virt_fastrpc_msg objects *)
  txmem : gmap ptr vmsg;               (* what the tx buffers hold *)
  rxmem : ptr -> virt_rsp;             (* what the rx buffers hold *)
  tx_held : gmultiset ptr;             (* ledger: tx buffers got and not queued *)
  rx_held : gmultiset ptr;             (* ledger: rx buffers got and not queued *)
}.
#[export] Instance eta_apps `{virtqueue} : Eta apps := fun a =>
  {| num_bufs := num_bufs a; buf_size := buf_size a; last_sbuf := last_sbuf a; sbufs := sbufs a;
     svq := svq a; rvq := rvq a; msgtable := msgtable a; msgs := msgs a; txmem := txmem a;
     rxmem := rxmem a; tx_held := tx_held a; rx_held := rx_held a |}.

Section ops.
Context `{V : virtqueue}.

(** ** virtio_fastrpc_queue.c *)

Definition get_a_tx_buf : M apps (option ptr) :=
  a ← get;
  if u32 (last_sbuf a) <? num_bufs a then
    match sbufs a !! Z.to_nat (last_sbuf a) with
    | None => fail OutOfBounds
    | Some p =>
      put (a <| last_sbuf := s32 (last_sbuf a + 1) |> <| tx_held := {[+ p +]} ⊎ tx_held a |>);;
      mret (Some p)
    end
  else
    let '(r, q) := virtqueue_get_buf (svq a) in
    match r with
    | None => put (a <| svq := q |>);; mret None
    | Some (p, _) =>
      put (a <| svq := q |> <| tx_held := {[+ p +]} ⊎ tx_held a |>);; mret (Some p)
    end.

Definition vfastrpc_txbuf_send (data : ptr) (len : Z) : M apps Z :=
  a ← get;
  let '(err, q) := virtqueue_add_outbuf (svq a) data len in
  if negb (err =? 0) then put (a <| svq := q |>);; mret err
  else
    put (a <| svq := virtqueue_kick q |> <| tx_held := tx_held a ∖ {[+ data +]} |>);;
    mret err.

Definition vfastrpc_rxbuf_send (data : ptr) (len : Z) : M apps () :=
  a ← get;
  let '(err, q) := virtqueue_add_inbuf (rvq a) data len in
  if negb (err =? 0) then put (a <| rvq := q |>)
  else put (a <| rvq := virtqueue_kick q |> <| rx_held := rx_held a ∖ {[+ data +]} |>).

(** [virtqueue_get_buf] on the receive queue, as [recv_done] calls it. *)
Definition rvq_get_buf : M apps (option (ptr * Z)) :=
  a ← get;
  let '(r, q) := virtqueue_get_buf (rvq a) in
  match r with
  | None => put (a <| rvq := q |>);; mret None
  | Some (p, len) =>
    put (a <| rvq := q |> <| rx_held := {[+ p +]} ⊎ rx_held a |>);; mret (Some (p, len))
  end.

(** ** The message table *)

Definition msg_load (p : ptr) : M apps virt_fastrpc_msg := fun a =>
  match msgs a !! p with
  | Some m => Ok m a
  | None => Fault UseAfterFree
  end.

Definition msg_store (p : ptr) (m : virt_fastrpc_msg) : M apps () := fun a =>
  match msgs a !! p with
  | Some _ => Ok () (a <| msgs := <[p := m]> (msgs a) |>)
  | None => Fault UseAfterFree
  end.

Definition msg_kfree (p : ptr) : M apps () := fun a =>
  match msgs a !! p with
  | Some _ => Ok () (a <| msgs := delete p (msgs a) |>)
  | None => Fault DoubleFree
  end.

Definition virt_free_msg (p : ptr) : M apps () :=
  m ← msg_load p;
  a ← get;
  match msgtable a !! Z.to_nat (msgid m) with
  | None => fail OutOfBounds
  | Some slot =>
    when (bool_decide (slot = Some p))
      (put (a <| msgtable := <[Z.to_nat (msgid m) := None]> (msgtable a) |>));;
    msg_kfree p
  end.

(** The loop that looks for the first empty slot. *)
Fixpoint find_slot (t : list (option ptr)) (i : nat) : option nat :=
  match t with
  | [] => None
  | None :: _ => Some i
  | Some _ :: t' => find_slot t' (S i)
  end.

Definition virt_alloc_msg (kzalloc : bool) (size : Z) : M apps (option ptr) :=
  a ← get;
  if buf_size a <? u32 size then mret None
  else if negb kzalloc then mret None
  else
    let p := new_ptr (msgs a) in
    put (a <| msgs := <[p := {| work_done := 0; msg_ctx := None; msgid := 0;
                                txbuf := None; rxbuf := None |}]> (msgs a) |>);;
    match find_slot (msgtable a) 0 with
    | None => msg_kfree p;; mret None
    | Some i =>
      modify (fun a => a <| msgtable := <[i := Some p]> (msgtable a) |>);;
      m ← msg_load p;
      msg_store p (m <| msgid := u16 (Z.of_nat i) |>);;
      b ← get_a_tx_buf;
      match b with
      | None => virt_free_msg p;; mret None
      | Some buf =>
        m ← msg_load p;
        msg_store p (m <| txbuf := Some buf |>);;
        mret (Some p)
      end
    end.

(** Writing a request of [extent] bytes into the message's tx buffer. *)
Definition tx_fill (p : ptr) (extent : Z) (v : vmsg) : M apps () :=
  m ← msg_load p;
  a ← get;
  match txbuf m with
  | None => fail NullDeref
  | Some buf =>
    if buf_size a <? extent then fail OutOfBounds
    else put (a <| txmem := <[buf := v]> (txmem a) |>)
  end.
End ops.
Arguments virt_alloc_msg : simpl never.
Arguments virt_free_msg : simpl never.
Arguments get_a_tx_buf : simpl never.
Arguments vfastrpc_txbuf_send : simpl never.
Arguments vfastrpc_rxbuf_send : simpl never.

(** ** A virtqueue that satisfies the interface

    Buffers wait in [avail] until the device moves them, in order, to [used]
    with the length it wrote. *)
Module Ring.
Record ring := { avail : list (ptr * Z); used : list (ptr * Z); room : nat }.

Definition tokens (l : list (ptr * Z)) : gmultiset ptr := list_to_set_disj (map fst l).

Definition add (q : ring) (p : ptr) (len : Z) : Z * ring :=
  if decide (length (avail q) + length (used q) < room q)%nat
  then (0, {| avail := avail q ++ [(p, len)]; used := used q; room := room q |})
  else (- ENOMEM, q).

Definition get_used (q : ring) : option (ptr * Z) * ring :=
  match used q with
  | [] => (None, q)
  | x :: l => (Some x, {| avail := avail q; used := l; room := room q |})
  end.

(** The device finishes one buffer for each length. *)
Fixpoint finish (lens : list Z) (q : ring) : ring :=
  match lens, avail q with
  | len :: lens, (p, _) :: l =>
    finish lens {| avail := l; used := used q ++ [(p, len)]; room := room q |}
  | _, _ => q
  end.

#[export] Instance ring_vq : virtqueue := {|
  vq := ring;
  virtqueue_add_outbuf := add;
  virtqueue_add_inbuf := add;
  virtqueue_get_buf := get_used;
  virtqueue_kick q := q;
  dev_action := list Z;
  vq_dev := finish;
  vq_owned q := tokens (avail q) ⊎ tokens (used q);
|}.

Lemma tokens_app l k : tokens (l ++ k) = tokens l ⊎ tokens k.
Proof. unfold tokens. by rewrite map_app, list_to_set_disj_app. Qed.

Lemma add_owned q p len err q' :
  add q p len = (err, q') ->
  tokens (avail q') ⊎ tokens (used q') =
    if err =? 0 then {[+ p +]} ⊎ (tokens (avail q) ⊎ tokens (used q))
    else tokens (avail q) ⊎ tokens (used q).
Proof.
  unfold add. destruct (decide _); intros [= <- <-]; simpl; [|done].
  rewrite tokens_app. unfold tokens at 2. simpl. multiset_solver.
Qed.

Lemma finish_owned lens q :
  tokens (avail (finish lens q)) ⊎ tokens (used (finish lens q)) =
  tokens (avail q) ⊎ tokens (used q).
Proof.
  revert q. induction lens as [|len lens IH]; intros [av us rm]; simpl; [done|].
  destruct av as [|[p n] l]; [done|]. rewrite IH. simpl. rewrite tokens_app.
  unfold tokens at 3. unfold tokens at 3. simpl. fold (tokens l). multiset_solver.
Qed.

#[export] Instance ring_ok : virtqueue_ok ring_vq.
Proof.
  split; simpl.
  - apply add_owned.
  - apply add_owned.
  - intros [av [|[p len] us] rm] r q'; unfold get_used; simpl; intros [= <- <-]; simpl; [done|].
    unfold tokens. simpl. multiset_solver.
  - done.
  - intros lens q. apply finish_owned.
Qed.
End Ring.
