(* ===== verification/AppsFacts.v ===== *)
(** * What the device layer guarantees

    Ownership of the tx and rx buffers, the message table as a bijection
    between live messages and their ids, and what [virt_alloc_msg] and
    [virt_free_msg] do on every branch. *)
From S2P Require Import Prelude Shared Apps.

(** ** The first empty slot *)

Lemma find_slot_Some t i n :
  find_slot t i = Some n <->
  (i <= n)%nat /\ t !! (n - i)%nat = Some None /\
  forall k, (k < n - i)%nat -> exists p, t !! k = Some (Some p).
Proof.
  revert i. induction t as [|[p|] t IH]; intros i; simpl.
  - split; [done|]. intros (_ & H & _). by rewrite lookup_nil in H.
  - rewrite IH. split.
    + intros (H1 & H2 & H3). replace (n - i)%nat with (S (n - S i)) by lia.
      split_and!; [lia|done|]. intros [|k] Hk; [by exists p|]. apply H3. lia.
    + intros (H1 & H2 & H3). destruct (decide (n = i)) as [->|].
      { rewrite Nat.sub_diag in H2. done. }
      replace (n - i)%nat with (S (n - S i)) in * by lia.
      split_and!; [lia|done|]. intros k Hk. apply (H3 (S k)). lia.
  - split.
    + intros [= ->]. rewrite Nat.sub_diag. split_and!; [lia|done|]. intros; lia.
    + intros (H1 & H2 & H3). destruct (decide (n = i)) as [->|]; [done|].
      destruct (H3 0%nat) as [p Hp]; [lia|done].
Qed.

Lemma find_slot_None t i : find_slot t i = None <-> forall k x, t !! k = Some x -> is_Some x.
Proof.
  revert i. induction t as [|[p|] t IH]; intros i; simpl.
  - split; [|done]. intros _ k x. by rewrite lookup_nil.
  - rewrite IH. split.
    + intros H [|k] x; simpl; [intros [= <-]; by eexists|apply H].
    + intros H k x Hk. apply (H (S k) x Hk).
  - split; [done|]. intros H. by destruct (H 0%nat None eq_refl).
Qed.

(** ** The invariant *)

Record apps_inv `{virtqueue} (a : apps) : Prop := {
  ai_table : length (msgtable a) = FASTRPC_MSG_MAX;
  ai_slot i p : msgtable a !! i = Some (Some p) ->
    exists m, msgs a !! p = Some m /\ msgid m = Z.of_nat i;
  ai_live p m : msgs a !! p = Some m ->
    0 <= msgid m /\ msgtable a !! Z.to_nat (msgid m) = Some (Some p);
  ai_bufs : Z.of_nat (length (sbufs a)) = num_bufs a;
  ai_num : num_bufs a < 2 ^ 31;
  ai_last : 0 <= last_sbuf a <= num_bufs a;
  ai_nodup : NoDup (sbufs a);
  ai_tx : (list_to_set_disj (sbufs a) : gmultiset ptr) =
    tx_held a ⊎ vq_owned (svq a) ⊎ list_to_set_disj (drop (Z.to_nat (last_sbuf a)) (sbufs a));
}.

(** The rx buffers the driver and the device have between them. *)
Definition rx_all `{virtqueue} (a : apps) : gmultiset ptr := rx_held a ⊎ vq_owned (rvq a).

(** The receive side of the device. *)
Definition rx_part `{virtqueue} (a : apps) := (rvq a, rx_held a, rxmem a).

Lemma rx_part_all `{virtqueue} (a a' : apps) : rx_part a' = rx_part a -> rx_all a' = rx_all a.
Proof. unfold rx_part, rx_all. by intros [= -> -> _]. Qed.

Lemma disj_nodup_mult (l : list ptr) (x : ptr) :
  NoDup l -> (multiplicity x (list_to_set_disj l : gmultiset ptr) <= 1)%nat.
Proof.
  induction 1 as [|y l Hy Hl IH]; simpl.
  - rewrite multiplicity_empty. lia.
  - rewrite multiplicity_disj_union. destruct (decide (x = y)) as [->|Hne].
    + rewrite multiplicity_singleton, decide_True by done.
      assert (multiplicity y (list_to_set_disj l : gmultiset ptr) = 0%nat) as ->; [|lia].
      apply not_elem_of_multiplicity. by rewrite elem_of_list_to_set_disj.
    + rewrite multiplicity_singleton, decide_False by done. lia.
Qed.

Lemma size_list_to_set_disj (l : list ptr) : size (list_to_set_disj l : gmultiset ptr) = length l.
Proof.
  induction l as [|x l IH]; [apply gmultiset_size_empty|].
  simpl. by rewrite gmultiset_size_disj_union, gmultiset_size_singleton, IH.
Qed.

Ltac run_apps :=
  unfold mbind, M_bind, mret, M_ret, get, put, modify, when, msg_load, msg_store, msg_kfree;
  simpl;
  repeat (first
    [ rewrite lookup_insert_eq
    | rewrite insert_insert_eq
    | rewrite delete_insert_eq
    | match goal with H : ?h !! ?p = Some _ |- context [?h !! ?p] => rewrite H end ];
    simpl).

Section queue.
Context `{V : virtqueue, !virtqueue_ok V}.
Implicit Types (a : apps) (p : ptr).

(** A tx buffer that some holder has is in nobody else's hands. *)
Lemma held_exclusive a p :
  apps_inv a -> p ∈ tx_held a ->
  p ∈ sbufs a /\ (p ∉ vq_owned (svq a)) /\ (p ∉ drop (Z.to_nat (last_sbuf a)) (sbufs a)) /\
  multiplicity p (tx_held a) = 1%nat.
Proof.
  intros Hinv Hp. pose proof (disj_nodup_mult _ p (ai_nodup a Hinv)) as Hm.
  assert (p ∈ (list_to_set_disj (sbufs a) : gmultiset ptr)) as Hin
    by (rewrite (ai_tx a Hinv); multiset_solver).
  rewrite elem_of_list_to_set_disj in Hin.
  rewrite (ai_tx a Hinv), !multiplicity_disj_union in Hm.
  rewrite elem_of_multiplicity in Hp. split_and!; [done| | |lia].
  - rewrite elem_of_multiplicity. lia.
  - rewrite <- elem_of_list_to_set_disj, elem_of_multiplicity. lia.
Qed.

(** The three results of [get_a_tx_buf]. *)
Lemma get_a_tx_buf_cases a :
  apps_inv a ->
  (exists p, sbufs a !! Z.to_nat (last_sbuf a) = Some p /\ last_sbuf a < num_bufs a /\
    get_a_tx_buf a = Ok (Some p) (a <| last_sbuf := last_sbuf a + 1 |>
                                    <| tx_held := {[+ p +]} ⊎ tx_held a |>)) \/
  (last_sbuf a = num_bufs a /\ exists p len q, virtqueue_get_buf (svq a) = (Some (p, len), q) /\
    get_a_tx_buf a = Ok (Some p) (a <| svq := q |> <| tx_held := {[+ p +]} ⊎ tx_held a |>)) \/
  (last_sbuf a = num_bufs a /\ exists q, virtqueue_get_buf (svq a) = (None, q) /\
    get_a_tx_buf a = Ok None (a <| svq := q |>)).
Proof.
  intros Hinv. pose proof (ai_last a Hinv). pose proof (ai_num a Hinv). pose proof (ai_bufs a Hinv).
  unfold get_a_tx_buf. run_apps. rewrite u32_id by lia.
  destruct (Z.ltb_spec (last_sbuf a) (num_bufs a)).
  - left. destruct (lookup_lt_is_Some_2 (sbufs a) (Z.to_nat (last_sbuf a))) as [p Hp]; [lia|].
    exists p. rewrite Hp, s32_id by lia. done.
  - right. destruct (virtqueue_get_buf (svq a)) as [[[p len]|] q] eqn:E.
    + left. split; [lia|]. by exists p, len, q.
    + right. split; [lia|]. by exists q.
Qed.

(** A tx buffer is to be had: one was never used, or the device has finished
    with one; the send queue once it is taken. *)
Definition tx_ready (a : apps) : Prop := last_sbuf a < num_bufs a \/ is_Some (fst (virtqueue_get_buf (svq a))).
Definition svq_next (a : apps) : vq :=
  if last_sbuf a <? num_bufs a then svq a else snd (virtqueue_get_buf (svq a)).

Lemma get_a_tx_buf_ok a :
  apps_inv a ->
  exists r a', get_a_tx_buf a = Ok r a' /\ apps_inv a' /\
    msgtable a' = msgtable a /\ msgs a' = msgs a /\ txmem a' = txmem a /\
    rx_part a' = rx_part a /\ buf_size a' = buf_size a /\ sbufs a' = sbufs a /\
    svq a' = svq_next a /\
    match r with
    | Some p => (p ∉ tx_held a) /\ tx_held a' = {[+ p +]} ⊎ tx_held a
    | None => tx_held a' = tx_held a /\ vq_owned (svq a') = vq_owned (svq a) /\
        last_sbuf a = num_bufs a
    end.
Proof.
  intros Hinv. pose proof Hinv as [Ht Hs Hl Hb Hn Hla Hnd Htx].
  assert (forall p, p ∈ tx_held a ->
    (p ∉ vq_owned (svq a)) /\ p ∉ drop (Z.to_nat (last_sbuf a)) (sbufs a)) as Hex
    by (intros p Hp; destruct (held_exclusive a p Hinv Hp) as (_ & ? & ? & _); done).
  destruct (get_a_tx_buf_cases a Hinv) as
    [(p & Hp & Hlt & E)|[(Heq & p & len & q & Eq & E)|(Heq & q & Eq & E)]];
    rewrite E; eexists _, _; (split; [done|]).
  - assert (svq_next a = svq a) as Esv by (unfold svq_next; by zdec). pose proof (drop_S _ _ _ Hp) as Hdrop.
    assert (p ∉ tx_held a) as Hph.
    { intros Hin. destruct (Hex p Hin) as [_ Hd]. apply Hd. rewrite Hdrop. by left. }
    split_and!; try done. split; simpl; try done; [lia|].
    rewrite Htx, Hdrop. replace (Z.to_nat (last_sbuf a + 1)) with (S (Z.to_nat (last_sbuf a))) by lia.
    simpl. multiset_solver.
  - assert (svq_next a = q) as Esv by (unfold svq_next; zdec; by rewrite Eq). apply get_buf_owned in Eq. simpl in Eq.
    assert (p ∉ tx_held a) as Hph.
    { intros Hin. destruct (Hex p Hin) as [Hd _]. apply Hd. multiset_solver. }
    split_and!; try done. split; simpl; try done. rewrite Htx, Eq. multiset_solver.
  - assert (svq_next a = q) as Esv by (unfold svq_next; zdec; by rewrite Eq).
    apply get_buf_owned in Eq. simpl in Eq. split_and!; try done.
    split; simpl; try done. by rewrite Htx, Eq.
Qed.
End queue.

(** ** The message table *)

Section table.
Context `{V : virtqueue, !virtqueue_ok V}.
Implicit Types (a : apps) (p : ptr).

(** The state after message [p] is freed. *)
Definition msg_gone (p : ptr) (m : virt_fastrpc_msg) (a : apps) : apps :=
  a <| msgtable := <[Z.to_nat (msgid m) := None]> (msgtable a) |> <| msgs := delete p (msgs a) |>.

Lemma free_msg_eq p m a :
  apps_inv a -> msgs a !! p = Some m -> virt_free_msg p a = Ok () (msg_gone p m a).
Proof.
  intros Hinv Hp. destruct (ai_live a Hinv p m Hp) as [_ Hslot].
  unfold virt_free_msg. run_apps. rewrite bool_decide_true by done. by run_apps.
Qed.

Lemma inv_msg_gone p m a : apps_inv a -> msgs a !! p = Some m -> apps_inv (msg_gone p m a).
Proof.
  intros Hinv Hp. pose proof (ai_live a Hinv p m Hp) as [_ Hslot].
  destruct Hinv as [Ht Hs Hl Hb Hn Hla Hnd Htx]. split; simpl; try done.
  - by rewrite length_insert.
  - intros i q. rewrite list_lookup_insert_Some. intros [(_ & ? & _)|[Hi Hq]]; [done|].
    destruct (Hs i q Hq) as (mq & Hmq & Hid). exists mq. rewrite lookup_delete_ne; [done|].
    intros <-. simplify_eq. lia.
  - intros q mq [Hne Hq]%lookup_delete_Some. destruct (Hl q mq Hq) as [Hr Hsq]. split; [done|].
    rewrite list_lookup_insert_ne; [done|]. intros Heq. rewrite Heq in Hslot. naive_solver.
Qed.

(** Updating fields of a live message other than its id. *)
Lemma inv_msg_update p m m' a :
  apps_inv a -> msgs a !! p = Some m -> msgid m' = msgid m ->
  apps_inv (a <| msgs := <[p := m']> (msgs a) |>).
Proof.
  intros [Ht Hs Hl Hb Hn Hla Hnd Htx] Hp Hid. split; simpl; try done.
  - intros i q Hq. destruct (Hs i q Hq) as (mq & Hmq & Hi).
    destruct (decide (p = q)) as [<-|]; [|exists mq; by rewrite lookup_insert_ne].
    exists m'. rewrite lookup_insert_eq. simplify_eq. split; [done|congruence].
  - intros q mq. rewrite lookup_insert. case_decide as E; [|by apply Hl].
    subst q. intros [= <-]. rewrite Hid. by apply Hl.
Qed.

(** A new message in slot [i]. *)
Definition msg_new (p : ptr) (i : nat) (buf : option ptr) (a : apps) : apps :=
  a <| msgs := <[p := {| work_done := 0; msg_ctx := None; msgid := Z.of_nat i;
                         txbuf := buf; rxbuf := None |}]> (msgs a) |>
    <| msgtable := <[i := Some p]> (msgtable a) |>.

Lemma inv_msg_new p i buf a :
  apps_inv a -> msgs a !! p = None -> msgtable a !! i = Some None -> apps_inv (msg_new p i buf a).
Proof.
  intros [Ht Hs Hl Hb Hn Hla Hnd Htx] Hp Hi. split; simpl; try done.
  - by rewrite length_insert.
  - intros j q. rewrite list_lookup_insert_Some. intros [(<- & [= <-] & _)|[Hj Hq]].
    { eexists. by rewrite lookup_insert_eq. }
    destruct (Hs j q Hq) as (mq & Hmq & Hid). exists mq.
    rewrite lookup_insert_ne by naive_solver. done.
  - intros q mq. rewrite lookup_insert. case_decide as E.
    + subst q. intros [= <-]. simpl. split; [lia|]. rewrite Nat2Z.id.
      rewrite list_lookup_insert_eq; [done|]. by eapply lookup_lt_Some.
    + intros Hq. destruct (Hl q mq Hq) as [Hr Hsq]. split; [done|].
      rewrite list_lookup_insert_ne; [done|]. intros ->. naive_solver.
Qed.

Lemma gone_new_msg p i buf a m :
  msgs a !! p = None -> msgtable a !! i = Some None -> msgid m = Z.of_nat i ->
  msg_gone p m (msg_new p i buf a) = a.
Proof.
  intros Hp Hi Hid. unfold msg_gone, msg_new. simpl. rewrite Hid, Nat2Z.id.
  rewrite list_insert_insert_eq, list_insert_id by done. rewrite delete_insert_id by done.
  by destruct a.
Qed.

(** The outcome of [virt_alloc_msg], with the tx buffer's origin left to
    [get_a_tx_buf]. *)
Lemma alloc_msg_eq kz size a :
  apps_inv a ->
  virt_alloc_msg kz size a =
    if (buf_size a <? u32 size) || negb kz then Ok None a
    else let p := new_ptr (msgs a) in
      match find_slot (msgtable a) 0 with
      | None => Ok None a
      | Some i =>
        match get_a_tx_buf (msg_new p i None a) with
        | Ok None a' => (virt_free_msg p;; mret None) a'
        | Ok (Some buf) a' => (m ← msg_load p; msg_store p (m <| txbuf := Some buf |>);; mret (Some p)) a'
        | Fault f => Fault f
        | Hang h => Hang h
        end
      end.
Proof.
  intros Hinv. unfold virt_alloc_msg. run_apps.
  destruct (_ <? _); simpl; [done|]. destruct kz; simpl; [|done].
  assert (msgs a !! new_ptr (msgs a) = None) as Hp by apply new_ptr_None.
  destruct (find_slot (msgtable a) 0) as [i|] eqn:Ei; run_apps.
  - apply find_slot_Some in Ei as (_ & Hi & _). rewrite Nat.sub_0_r in Hi.
    assert (Z.of_nat i < 2 ^ 16) as Hlt.
    { apply lookup_lt_Some in Hi. rewrite (ai_table a Hinv) in Hi. unfold FASTRPC_MSG_MAX in Hi. lia. }
    unfold u16. rewrite Z.mod_small by lia. unfold msg_new. simpl.
    by destruct (get_a_tx_buf _) as [[buf|] a'| |].
  - rewrite delete_id by done. by destruct a.
Qed.

(** The two ways [virt_alloc_msg] ends. *)
Lemma alloc_msg_cases kz size a :
  apps_inv a ->
  (exists a', virt_alloc_msg kz size a = Ok None a' /\ apps_inv a' /\
    msgtable a' = msgtable a /\ msgs a' = msgs a /\ tx_held a' = tx_held a /\
    txmem a' = txmem a /\ rx_part a' = rx_part a /\ buf_size a' = buf_size a /\ sbufs a' = sbufs a /\
    (buf_size a < u32 size \/ kz = false \/ find_slot (msgtable a) 0 = None \/
     last_sbuf a = num_bufs a /\ fst (virtqueue_get_buf (svq a)) = None)) \/
  (exists p i buf a', virt_alloc_msg kz size a = Ok (Some p) a' /\ apps_inv a' /\
    u32 size <= buf_size a /\ msgs a !! p = None /\ find_slot (msgtable a) 0 = Some i /\
    msgs a' = <[p := {| work_done := 0; msg_ctx := None; msgid := Z.of_nat i;
                        txbuf := Some buf; rxbuf := None |}]> (msgs a) /\
    msgtable a' = <[i := Some p]> (msgtable a) /\
    (buf ∉ tx_held a) /\ tx_held a' = {[+ buf +]} ⊎ tx_held a /\
    txmem a' = txmem a /\ rx_part a' = rx_part a /\ buf_size a' = buf_size a /\ sbufs a' = sbufs a /\
    svq a' = svq_next a).
Proof.
  intros Hinv. rewrite alloc_msg_eq by done.
  destruct (Z.ltb_spec (buf_size a) (u32 size)); simpl.
  { left. exists a. split_and!; auto. }
  destruct kz; simpl. 2: { left. exists a. split_and!; auto. }
  set (p := new_ptr (msgs a)). assert (msgs a !! p = None) as Hp by apply new_ptr_None.
  destruct (find_slot (msgtable a) 0) as [i|] eqn:Ei.
  2: { left. exists a. split_and!; auto. }
  pose proof Ei as (_ & Hi & _)%find_slot_Some. rewrite Nat.sub_0_r in Hi.
  pose proof (inv_msg_new p i None a Hinv Hp Hi) as Hinv1.
  destruct (get_a_tx_buf_ok _ Hinv1) as (r & a' & E & Hinv' & Et & Em & Etx & Erx & Ebs & Esb & Esv & Hr).
  rewrite E. destruct r as [buf|].
  - right. destruct Hr as [Hnh Hh]. simpl in *.
    exists p, i, buf. assert (msgs a' !! p = Some {| work_done := 0; msg_ctx := None;
      msgid := Z.of_nat i; txbuf := None; rxbuf := None |}) as Hpm
      by (rewrite Em; apply lookup_insert_eq).
    run_apps. eexists. split; [done|]. split; [by eapply inv_msg_update|].
    simpl. rewrite Em, insert_insert_eq. split_and!; done.
  - left. destruct Hr as (Hh & Ho & Hlast). simpl in *.
    assert (msgs a' !! p = Some {| work_done := 0; msg_ctx := None;
      msgid := Z.of_nat i; txbuf := None; rxbuf := None |}) as Hpm
      by (rewrite Em; apply lookup_insert_eq).
    unfold mbind, M_bind. rewrite (free_msg_eq p _ a' Hinv' Hpm). eexists. split; [done|].
    split; [by apply inv_msg_gone|]. simpl. rewrite Em, Et, Nat2Z.id.
    rewrite list_insert_insert_eq, list_insert_id, delete_insert_id by done.
    split_and!; try done. right. right. right. split; [done|].
    destruct (get_a_tx_buf_cases _ Hinv1) as
      [(q & _ & _ & E')|[(_ & q & len & vq' & Eq & E')|(_ & vq' & Eq & E')]]; rewrite E in E'; try done.
    simpl in Eq. by rewrite Eq.
Qed.
End table.

(** ** Properties *)

Section facts.
Context `{V : virtqueue, !virtqueue_ok V}.
Implicit Types (a : apps) (p : ptr).

Inductive apps_op : Type :=
| OAlloc (kzalloc : bool) (size : Z)
| OFree (p : ptr)
| OSend (p : ptr) (len : Z)
| ORxGet
| ORxSend (buf : ptr) (len : Z)
| ODevice (s r : dev_action).

Definition run_aop (o : apps_op) : M apps () :=
  match o with
  | OAlloc kz size => virt_alloc_msg kz size;; mret ()
  | OFree p => virt_free_msg p
  | OSend p len =>
    m ← msg_load p;
    match txbuf m with
    | None => fail NullDeref
    | Some buf => vfastrpc_txbuf_send buf len;; mret ()
    end
  | ORxGet => rvq_get_buf;; mret ()
  | ORxSend buf len => vfastrpc_rxbuf_send buf len
  | ODevice s r => modify (fun a => a <| svq := vq_dev s (svq a) |> <| rvq := vq_dev r (rvq a) |>)
  end.

(** A caller frees and sends only messages it has, sends a message's buffer
    once, and gives back only rx buffers it got. *)
Definition aop_pre (o : apps_op) a : Prop :=
  match o with
  | OAlloc _ _ | ORxGet | ODevice _ _ => True
  | OFree p => is_Some (msgs a !! p)
  | OSend p _ => exists m buf, msgs a !! p = Some m /\ txbuf m = Some buf /\ buf ∈ tx_held a
  | ORxSend buf _ => buf ∈ rx_held a
  end.

Inductive apps_reach (a0 : apps) : apps -> Prop :=
| areach_start : apps_reach a0 a0
| areach_step a o a' : apps_reach a0 a -> aop_pre o a -> run_aop o a = Ok () a' -> apps_reach a0 a'.

Lemma txbuf_send_ok buf len a :
  apps_inv a -> buf ∈ tx_held a ->
  exists err q, virtqueue_add_outbuf (svq a) buf len = (err, q) /\
    vfastrpc_txbuf_send buf len a = Ok err (if err =? 0
      then a <| svq := virtqueue_kick q |> <| tx_held := tx_held a ∖ {[+ buf +]} |>
      else a <| svq := q |>) /\
    apps_inv (if err =? 0
      then a <| svq := virtqueue_kick q |> <| tx_held := tx_held a ∖ {[+ buf +]} |>
      else a <| svq := q |>).
Proof.
  intros [Ht Hs Hl Hb Hn Hla Hnd Htx] Hbuf. unfold vfastrpc_txbuf_send. run_apps.
  destruct (virtqueue_add_outbuf (svq a) buf len) as [err q] eqn:E. exists err, q.
  apply add_outbuf_owned in E. split; [done|]. destruct (err =? 0); simpl; (split; [done|]).
  - split; simpl; try done. rewrite kick_owned, E, Htx. multiset_solver.
  - split; simpl; try done. by rewrite E.
Qed.

Lemma rxbuf_send_ok buf len a :
  apps_inv a -> buf ∈ rx_held a ->
  exists a', vfastrpc_rxbuf_send buf len a = Ok () a' /\ apps_inv a' /\ rx_all a' = rx_all a /\
    msgtable a' = msgtable a /\ msgs a' = msgs a /\ tx_held a' = tx_held a /\
    (rx_held a' = rx_held a \/ rx_held a = {[+ buf +]} ⊎ rx_held a').
Proof.
  intros [Ht Hs Hl Hb Hn Hla Hnd Htx] Hbuf. unfold vfastrpc_rxbuf_send, rx_all. run_apps.
  destruct (virtqueue_add_inbuf (rvq a) buf len) as [err q] eqn:E. apply add_inbuf_owned in E.
  destruct (err =? 0); simpl; eexists; (split; [done|]); (split; [by split|]); simpl; split_and!; try done.
  - rewrite kick_owned, E. multiset_solver.
  - right. multiset_solver.
  - by rewrite E.
  - by left.
Qed.

Lemma rvq_get_ok a :
  apps_inv a ->
  exists r a', rvq_get_buf a = Ok r a' /\ apps_inv a' /\ rx_all a' = rx_all a /\
    msgtable a' = msgtable a /\ msgs a' = msgs a /\ tx_held a' = tx_held a /\ rxmem a' = rxmem a /\
    rx_held a' = match r with Some (p, _) => {[+ p +]} ⊎ rx_held a | None => rx_held a end.
Proof.
  intros [Ht Hs Hl Hb Hn Hla Hnd Htx]. unfold rvq_get_buf, rx_all. run_apps.
  destruct (virtqueue_get_buf (rvq a)) as [[[p len]|] q] eqn:E; apply get_buf_owned in E;
    eexists _, _; (split; [done|]); (split; [by split|]); simpl; split_and!; try done; multiset_solver.
Qed.

Lemma aop_ok o a :
  apps_inv a -> aop_pre o a ->
  wp (run_aop o) (fun _ a' => apps_inv a' /\ rx_all a' = rx_all a) a.
Proof.
  intros Hinv Hpre. unfold wp. destruct o as [kz size|p|p len| |buf len|s r]; simpl in *.
  - unfold mbind, M_bind.
    destruct (alloc_msg_cases kz size a Hinv) as
      [(a' & -> & H)|(p & i & buf & a' & -> & H)].
    + destruct H as (? & _ & _ & _ & _ & ?%rx_part_all & _). done.
    + destruct H as (? & _ & _ & _ & _ & _ & _ & _ & _ & ?%rx_part_all & _). done.
  - destruct Hpre as [m Hm]. rewrite (free_msg_eq p m) by done. split; [by apply inv_msg_gone|done].
  - destruct Hpre as (m & buf & Hm & Hb & Hh). run_apps. rewrite Hb.
    destruct (txbuf_send_ok buf len a Hinv Hh) as (err & q & _ & -> & Hinv').
    split; [done|]. by destruct (err =? 0).
  - unfold mbind, M_bind. destruct (rvq_get_ok a Hinv) as (r & a' & -> & H). naive_solver.
  - destruct (rxbuf_send_ok buf len a Hinv Hpre) as (a' & -> & H). naive_solver.
  - destruct Hinv as [Ht Hs Hl Hb Hn Hla Hnd Htx]. split.
    + split; simpl; try done. by rewrite dev_owned.
    + unfold rx_all. simpl. by rewrite dev_owned.
Qed.

(** C29: the buffers and the message table stay consistent.  From any
    consistent start, whatever the device does, message allocation, release,
    sending and receiving keep every live message in the table slot of its
    id, every tx buffer exactly once in the hands of a sender, the device or
    the unused tail of [sbufs], and the set of rx buffers unchanged; no
    operation faults. *)
Theorem apps_ops_safe a0 a :
  apps_inv a0 -> apps_reach a0 a ->
  apps_inv a /\ rx_all a = rx_all a0 /\
  forall o, aop_pre o a -> exists a', run_aop o a = Ok () a' /\ apps_inv a' /\ rx_all a' = rx_all a0.
Proof.
  intros H0 Hr. assert (apps_inv a /\ rx_all a = rx_all a0) as [Hinv Hrx].
  { induction Hr as [|a o a' Hr [IH1 IH2] Hpre Hrun]; [done|].
    pose proof (aop_ok o a IH1 Hpre) as H. unfold wp in H. rewrite Hrun in H.
    destruct H as [? ->]. done. }
  split_and!; [done..|]. intros o Hpre.
  destruct (proj1 (wp_iff _ _ _) (aop_ok o a Hinv Hpre)) as ([] & a' & ? & ? & E).
  exists a'. split_and!; [done..|]. by rewrite E.
Qed.

(** C37: a new message.  [virt_alloc_msg] always returns.  It fails exactly
    when the request, as an unsigned number, is larger than a buffer, there
    is no memory, all 256 slots are taken or no tx buffer is free, and then
    leaves the table, the live messages and the buffers held as they were.
    Otherwise the message is new, its id is the first empty slot and at most
    255, no other live message has that id, its completion is pending, and
    its tx buffer was held by nobody. *)
Theorem alloc_msg_correct kz size a :
  apps_inv a ->
  exists r a', virt_alloc_msg kz size a = Ok r a' /\ apps_inv a' /\
    match r with
    | None =>
      msgtable a' = msgtable a /\ msgs a' = msgs a /\ tx_held a' = tx_held a /\
      (buf_size a < u32 size \/ kz = false \/ (forall i x, msgtable a !! i = Some x -> is_Some x) \/
       last_sbuf a = num_bufs a /\ fst (virtqueue_get_buf (svq a)) = None)
    | Some p =>
      u32 size <= buf_size a /\ kz = true /\ msgs a !! p = None /\
      exists i buf, (i < 256)%nat /\ msgtable a !! i = Some None /\
        (forall k, (k < i)%nat -> exists q, msgtable a !! k = Some (Some q)) /\
        msgtable a' = <[i := Some p]> (msgtable a) /\
        msgs a' = <[p := {| work_done := 0; msg_ctx := None; msgid := Z.of_nat i;
                            txbuf := Some buf; rxbuf := None |}]> (msgs a) /\
        (forall q m, msgs a !! q = Some m -> msgid m <> Z.of_nat i) /\
        (buf ∉ tx_held a) /\ tx_held a' = {[+ buf +]} ⊎ tx_held a
    end.
Proof.
  intros Hinv. destruct (alloc_msg_cases kz size a Hinv) as
    [(a' & E & Hinv' & Et & Em & Eh & _ & _ & _ & _ & Hwhy)|
     (p & i & buf & a' & E & Hinv' & Hsz & Hp & Ei & Em & Et & Hnh & Eh & _)];
    eexists _, _; (split; [done|]); (split; [done|]).
  - split_and!; try done. rewrite <- (find_slot_None _ 0). done.
  - assert (kz = true) as ->.
    { destruct kz; [done|]. rewrite alloc_msg_eq in E by done. by rewrite orb_true_r in E. }
    apply find_slot_Some in Ei as (_ & Hi & Hbefore). rewrite Nat.sub_0_r in *.
    split_and!; [done..|]. exists i, buf. split_and!; try done.
    + pose proof (lookup_lt_Some _ _ _ Hi) as Hlt. by rewrite (ai_table a Hinv) in Hlt.
    + intros q m Hq Hid. destruct (ai_live a Hinv q m Hq) as [_ Hsl].
      rewrite Hid, Nat2Z.id in Hsl. congruence.
Qed.

Lemma free_msg_spec p m a :
  apps_inv a -> msgs a !! p = Some m ->
  exists a', virt_free_msg p a = Ok () a' /\ apps_inv a' /\
    msgs a' = delete p (msgs a) /\ msgtable a' = <[Z.to_nat (msgid m) := None]> (msgtable a) /\
    tx_held a' = tx_held a /\
    (forall kz size a0, apps_inv a0 -> virt_alloc_msg kz size a0 = Ok (Some p) a ->
       msgs a' = msgs a0 /\ msgtable a' = msgtable a0 /\
       exists buf, txbuf m = Some buf /\ tx_held a' = {[+ buf +]} ⊎ tx_held a0).
Proof.
  intros Hinv Hp. rewrite (free_msg_eq p m) by done. eexists. split; [done|].
  split; [by apply inv_msg_gone|]. split_and!; [done..|]. intros kz size a0 Hinv0 Halloc.
  destruct (alloc_msg_cases kz size a0 Hinv0) as
    [(? & E & _)|(q & i & buf & a' & E & _ & _ & Hq & Ei & Em & Et & _ & Eh & _)];
    rewrite E in Halloc; simplify_eq. simpl.
  rewrite Em, lookup_insert_eq in Hp. simplify_eq. simpl.
  apply find_slot_Some in Ei as (_ & Hi & _). rewrite Nat.sub_0_r in Hi.
  rewrite Em, Et, Nat2Z.id, list_insert_insert_eq, list_insert_id, delete_insert_id by done.
  split_and!; [done..|]. by exists buf.
Qed.

(** Freeing a message.  [virt_free_msg] on a live message empties
    exactly the slot of its id and drops exactly that message; freeing a
    message just allocated gives back the table and the messages, but the
    tx buffer stays taken. *)
Theorem free_msg_correct p m a :
  apps_inv a -> msgs a !! p = Some m ->
  exists a', virt_free_msg p a = Ok () a' /\ apps_inv a' /\
    msgs a' = delete p (msgs a) /\ msgtable a' = <[Z.to_nat (msgid m) := None]> (msgtable a) /\
    tx_held a' = tx_held a /\
    (forall kz size a0, apps_inv a0 -> virt_alloc_msg kz size a0 = Ok (Some p) a ->
       msgs a' = msgs a0 /\ msgtable a' = msgtable a0 /\
       exists buf, txbuf m = Some buf /\ tx_held a' = {[+ buf +]} ⊎ tx_held a0).
Proof. apply free_msg_spec. Qed.

(** One message per round of device activity, each freed without being sent. *)
Fixpoint alloc_free_cycle (size : Z) (acts : list (dev_action * dev_action)) : M apps bool :=
  match acts with
  | [] => mret true
  | (s, r) :: acts =>
    run_aop (ODevice s r);;
    o ← virt_alloc_msg true size;
    match o with
    | None => mret false
    | Some p => virt_free_msg p;; alloc_free_cycle size acts
    end
  end.

Lemma held_bound a : apps_inv a -> (size (tx_held a) <= length (sbufs a))%nat.
Proof.
  intros Hinv. pose proof (f_equal size (ai_tx a Hinv)) as E.
  rewrite !gmultiset_size_disj_union, !size_list_to_set_disj in E. lia.
Qed.

Lemma alloc_free_cycle_ok sz acts a :
  apps_inv a ->
  exists b a', alloc_free_cycle sz acts a = Ok b a' /\ apps_inv a' /\ sbufs a' = sbufs a /\
    msgtable a' = msgtable a /\ msgs a' = msgs a /\
    (b = true -> size (tx_held a') = (size (tx_held a) + length acts)%nat).
Proof.
  revert a. induction acts as [|[s r] acts IH]; intros a Hinv.
  { exists true, a. split_and!; [done..|]. intros _. simpl. lia. }
  destruct (aop_ok (ODevice s r) a Hinv I) as [Hinv1 _].
  cbn [alloc_free_cycle]. unfold mbind at 1, M_bind at 1.
  change (run_aop (ODevice s r) a) with
    (Ok (S := apps) () (a <| svq := vq_dev s (svq a) |> <| rvq := vq_dev r (rvq a) |>)).
  set (a1 := a <| svq := vq_dev s (svq a) |> <| rvq := vq_dev r (rvq a) |>) in *.
  unfold mbind, M_bind.
  destruct (alloc_msg_cases true sz a1 Hinv1) as
    [(a' & -> & Hinv' & Et & Em & Eh & _ & _ & _ & Esb & _)|
     (p & i & buf & a2 & Ea & Hinv2 & _ & Hp & Ei & Em & Et & _ & Eh & _ & _ & _ & Esb & _)].
  { exists false, a'. split_and!; try done. }
  rewrite Ea. destruct (free_msg_spec p {| work_done := 0; msg_ctx := None; msgid := Z.of_nat i;
    txbuf := Some buf; rxbuf := None |} a2 Hinv2) as (a3 & Ef & Hinv3 & _ & _ & Eh3 & Hback).
  { rewrite Em. apply lookup_insert_eq. }
  destruct (Hback true sz a1 Hinv1 Ea) as (Em3 & Et3 & _).
  assert (sbufs a3 = sbufs a2) as Esb3.
  { rewrite (free_msg_eq p {| work_done := 0; msg_ctx := None; msgid := Z.of_nat i;
      txbuf := Some buf; rxbuf := None |}) in Ef; [by simplify_eq|done|].
    rewrite Em. apply lookup_insert_eq. }
  rewrite Ef. destruct (IH a3 Hinv3) as (b & a' & -> & Hinv' & Esb' & Et' & Em' & Hsz).
  exists b, a'. split_and!; try done.
  - by rewrite Esb', Esb3, Esb.
  - by rewrite Et', Et3.
  - by rewrite Em', Em3.
  - intros Hb. rewrite (Hsz Hb), Eh3, Eh, gmultiset_size_disj_union, gmultiset_size_singleton.
    simpl. lia.
Qed.

(** Messages freed without being sent use up the tx buffers.  Nothing
    in the driver takes back the tx buffer of a message that is freed before
    it is queued: a run of more than [num_bufs] such messages, whatever the
    device does between them, ends with an allocation that fails although
    the table has room and memory is available. *)
Theorem unsent_messages_exhaust sz acts a :
  apps_inv a -> num_bufs a < Z.of_nat (length acts) ->
  exists a', alloc_free_cycle sz acts a = Ok false a' /\
    msgtable a' = msgtable a /\ msgs a' = msgs a.
Proof.
  intros Hinv Hlen. destruct (alloc_free_cycle_ok sz acts a Hinv) as
    (b & a' & E & Hinv' & Esb & Et & Em & Hsz).
  exists a'. split_and!; try done. rewrite E. destruct b; [|done]. exfalso.
  pose proof (held_bound a' Hinv') as Hb. rewrite (Hsz eq_refl), Esb in Hb.
  pose proof (ai_bufs a Hinv). lia.
Qed.
End facts.
