(* ===== verification/World.v ===== *)
(** * One open file, the device, and the receive path

    The world is the device ([vfastrpc_apps], Apps.v) together with one open
    [struct vfastrpc_file]: its mappings (Mmap.v), its buffers (Buf.v), its
    invoke contexts and its own fields.  This file has the world, the
    interrupt side of the driver ([recv_done], [recv_single],
    [vfastrpc_queue_completed_async_job]) and what happens while a thread
    waits for a completion. *)
From S2P Require Import Prelude Shared Mmap Pages Buf Apps.

Definition SESSION_ID_INDEX : Z := 30.

Definition VIRTIO_FASTRPC_CMD_OPEN : Z := 1.
Definition VIRTIO_FASTRPC_CMD_CLOSE : Z := 2.
Definition VIRTIO_FASTRPC_CMD_INVOKE : Z := 3.
Definition VIRTIO_FASTRPC_CMD_MMAP : Z := 4.
Definition VIRTIO_FASTRPC_CMD_MUNMAP : Z := 5.
Definition VIRTIO_FASTRPC_CMD_CONTROL : Z := 6.
Definition VIRTIO_FASTRPC_CMD_GET_DSP_INFO : Z := 7.
Definition VIRTIO_FASTRPC_CMD_MUNMAP_FD : Z := 8.
Definition VIRTIO_FASTRPC_CMD_MEM_MAP : Z := 9.
Definition VIRTIO_FASTRPC_CMD_MEM_UNMAP : Z := 10.

(** ** State *)

(** [struct virt_fastrpc_cmd], a command interrupted while it waited. *)
Record virt_fastrpc_cmd := { vc_msg : ptr; vc_tid : Z; vc_cmd : Z }.

Record file := {
  fl_tgid : Z;
  fl_cid : Z;
  fl_sessionid : Z;
  fl_dsp_proc_init : Z;
  fl_file_close : Z;
  fl_profile : Z;
  fl_mode : Z;
  fl_pd : Z;
  fl_domain : Z;
  fl_procattrs : Z;
  fl_seq_num : Z;
  fl_async_queue_job_count : Z;
  fl_interrupted_cmds : list virt_fastrpc_cmd;
}.
#[export] Instance eta_file : Eta file := fun f =>
  {| fl_tgid := fl_tgid f; fl_cid := fl_cid f; fl_sessionid := fl_sessionid f;
     fl_dsp_proc_init := fl_dsp_proc_init f; fl_file_close := fl_file_close f;
     fl_profile := fl_profile f; fl_mode := fl_mode f; fl_pd := fl_pd f;
     fl_domain := fl_domain f; fl_procattrs := fl_procattrs f; fl_seq_num := fl_seq_num f;
     fl_async_queue_job_count := fl_async_queue_job_count f;
     fl_interrupted_cmds := fl_interrupted_cmds f |}.

(** [remote_arg_t], with the fields the driver uses. *)
Record remote_arg := { ra_pv : Z; ra_len : Z }.

Inductive vfastrpc_buf_type : Type :=
| VFASTRPC_BUF_TYPE_NORMAL
| VFASTRPC_BUF_TYPE_ION
| VFASTRPC_BUF_TYPE_INTERNAL.

Record vfastrpc_buf_desc := { d_type : vfastrpc_buf_type; d_buf : option ptr }.

Record vfastrpc_invoke_ctx := {
  c_msg : option ptr;
  c_size : Z;
  c_desc : option (list vfastrpc_buf_desc);
  c_maps : list (option ptr);
  c_lpra : list remote_arg;
  c_fds : option (list Z);
  c_outbufs_offset : Z;
  c_attrs : list Z;
  c_pid : Z;
  c_tgid : Z;
  c_sc : Z;
  c_handle : Z;
  c_seq_num : Z;
  c_crc : bool;             (* the user passed a crc list *)
  c_perf : bool;            (* a perf record was allocated *)
  c_isasyncjob : bool;
  c_jobid : Z;
}.
#[export] Instance eta_ctx : Eta vfastrpc_invoke_ctx := fun c =>
  {| c_msg := c_msg c; c_size := c_size c; c_desc := c_desc c; c_maps := c_maps c;
     c_lpra := c_lpra c; c_fds := c_fds c; c_outbufs_offset := c_outbufs_offset c;
     c_attrs := c_attrs c; c_pid := c_pid c; c_tgid := c_tgid c; c_sc := c_sc c;
     c_handle := c_handle c; c_seq_num := c_seq_num c; c_crc := c_crc c; c_perf := c_perf c;
     c_isasyncjob := c_isasyncjob c; c_jobid := c_jobid c |}.

(** The contexts and [fl->clst]. *)
Record ctxs := {
  cx_heap : gmap ptr vfastrpc_invoke_ctx;
  cx_pending : list ptr;
  cx_interrupted : list ptr;
  cx_async_queue : list ptr;
  cx_perfs : Z;                  (* ledger: perf records allocated and not freed *)
}.
#[export] Instance eta_ctxs : Eta ctxs := fun s =>
  {| cx_heap := cx_heap s; cx_pending := cx_pending s; cx_interrupted := cx_interrupted s;
     cx_async_queue := cx_async_queue s; cx_perfs := cx_perfs s |}.

Record world `{virtqueue} := {
  w_apps : apps;
  w_mm : mmaps;
  w_bf : bufs;
  w_cx : ctxs;
  w_fl : file;
}.
#[export] Instance eta_world `{virtqueue} : Eta world := fun w =>
  {| w_apps := w_apps w; w_mm := w_mm w; w_bf := w_bf w; w_cx := w_cx w; w_fl := w_fl w |}.

Section ops.
Context `{V : virtqueue}.

Definition on_apps {A} (m : M apps A) : M world A := zoom w_apps (fun a w => w <| w_apps := a |>) m.
Definition on_mm {A} (m : M mmaps A) : M world A := zoom w_mm (fun s w => w <| w_mm := s |>) m.
Definition on_bf {A} (m : M bufs A) : M world A := zoom w_bf (fun s w => w <| w_bf := s |>) m.
Definition on_cx {A} (m : M ctxs A) : M world A := zoom w_cx (fun s w => w <| w_cx := s |>) m.
Definition on_fl {A} (m : M file A) : M world A := zoom w_fl (fun f w => w <| w_fl := f |>) m.

(** ** Contexts *)

Definition ctx_load (p : ptr) : M ctxs vfastrpc_invoke_ctx := fun s =>
  match cx_heap s !! p with
  | Some c => Ok c s
  | None => Fault UseAfterFree
  end.

Definition ctx_store (p : ptr) (c : vfastrpc_invoke_ctx) : M ctxs () := fun s =>
  match cx_heap s !! p with
  | Some _ => Ok () (s <| cx_heap := <[p := c]> (cx_heap s) |>)
  | None => Fault UseAfterFree
  end.

Definition async_add_tail (p : ptr) : M ctxs () := fun s =>
  if decide (p ∈ cx_async_queue s) then Fault (Device SecondAnswer)
  else Ok () (s <| cx_async_queue := cx_async_queue s ++ [p] |>).

Definition vfastrpc_queue_completed_async_job (p : ptr) : M world () :=
  on_cx (async_add_tail p);;
  on_fl (modify (fun f => f <| fl_async_queue_job_count := s32 (fl_async_queue_job_count f + 1) |>)).

(** ** Receiving *)

(** [complete(&msg->work)]. *)
Definition complete (mp : ptr) : M apps () :=
  m ← msg_load mp; msg_store mp (m <| work_done := work_done m + 1 |>).

(** The asynchronous branch's condition, [msg->ctx && msg->ctx->asyncjob.isasyncjob]. *)
Definition is_async (oc : option ptr) : M world bool :=
  match oc with
  | None => mret false
  | Some c => x ← on_cx (ctx_load c); mret (c_isasyncjob x)
  end.

Definition recv_single (rsp : ptr) (len : Z) : M world Z :=
  a ← gets w_apps;
  let h := r_hdr (rxmem a rsp) in
  if negb (len =? u32 (h_len h)) then mret (- EINVAL)
  else
    match msgtable a !! Z.to_nat (u16 (h_msgid h)) with
    | None => fail (Device BadId)
    | Some None => mret (- EINVAL)
    | Some (Some mp) =>
      m ← on_apps (msg_load mp);
      on_apps (msg_store mp (m <| rxbuf := Some rsp |>));;
      async ← is_async (msg_ctx m);
      (if (async : bool) then
         match msg_ctx m with
         | Some c => vfastrpc_queue_completed_async_job c
         | None => mret ()
         end
       else on_apps (complete mp));;
      mret 0
    end.

(** The loop of [recv_done]: it stops at the first response that
    [recv_single] refuses, or when the queue has no used buffer. *)
Fixpoint recv_loop (fuel : nat) (rsp : ptr) (len : Z) : M world () :=
  match fuel with
  | O => hang
  | S fuel =>
    err ← recv_single rsp len;
    if negb (err =? 0) then mret ()
    else
      r ← on_apps rvq_get_buf;
      match r with
      | None => mret ()
      | Some (rsp, len) => recv_loop fuel rsp len
      end
  end.

(** Every round takes a buffer out of the queue, so one round more than the
    queue has buffers is enough. *)
Definition recv_done : M world () :=
  a ← gets w_apps;
  r ← on_apps rvq_get_buf;
  match r with
  | None => mret ()
  | Some (rsp, len) => recv_loop (S (size (vq_owned (rvq a)))) rsp len
  end.

(** ** Waiting

    While a thread waits, the device works on the queues, writes responses
    into rx buffers it owns, and interrupts. *)

Inductive dev_event : Type :=
| EvDevice (s r : dev_action) (writes : list (ptr * virt_rsp))
| EvInterrupt.

Definition dev_write (a : apps) (w : ptr * virt_rsp) : apps :=
  if decide (w.1 ∈ vq_owned (rvq a))
  then a <| rxmem := fun p => if decide (p = w.1) then w.2 else rxmem a p |> else a.

Definition run_event (e : dev_event) : M world () :=
  match e with
  | EvDevice s r writes => on_apps (modify (fun a =>
      (foldl dev_write a writes) <| svq := vq_dev s (svq a) |> <| rvq := vq_dev r (rvq a) |>))
  | EvInterrupt => recv_done
  end.

Fixpoint run_events (l : list dev_event) : M world () :=
  match l with
  | [] => mret ()
  | e :: l' => run_event e;; run_events l'
  end.

(** [wait_for_completion]: returns once the completion is done; in a wait the
    device never ends the thread sleeps for ever. *)
Definition wait_for_completion (evs : list dev_event) (mp : ptr) : M world () :=
  run_events evs;;
  m ← on_apps (msg_load mp);
  if 0 <? work_done m then on_apps (msg_store mp (m <| work_done := work_done m - 1 |>))
  else sleep (Some mp).

(** [wait_for_completion_interruptible]: a signal ends a wait that is not done. *)
Definition wait_for_completion_interruptible (evs : list dev_event) (signal : bool) (mp : ptr)
    : M world Z :=
  run_events evs;;
  m ← on_apps (msg_load mp);
  if 0 <? work_done m then
    on_apps (msg_store mp (m <| work_done := work_done m - 1 |>));; mret 0
  else if signal then mret (- ERESTARTSYS)
  else sleep (Some mp).
End ops.
Arguments recv_done : simpl never.
Arguments recv_single : simpl never.
