(* ===== verification/WorldFacts.v ===== *)
(** * What the receive path guarantees

    Responses change only the message they name, the interrupt handler
    terminates, and waiting leaves everything but the receive state alone. *)
From S2P Require Import Prelude Shared Mmap Pages Buf Apps AppsFacts World.

(** ** The frame of the receive path *)

(** Two states of one message that differ at most in what a response changes. *)
Record same_msg (m m' : virt_fastrpc_msg) : Prop := {
  sm_id : msgid m' = msgid m;
  sm_ctx : msg_ctx m' = msg_ctx m;
  sm_tx : txbuf m' = txbuf m;
}.

#[export] Instance same_msg_preorder : PreOrder same_msg.
Proof.
  split; [by split|]. intros x y z [] []. split; congruence.
Qed.

(** The contexts up to the queue of completed jobs, the file up to their number. *)
Definition cx_rest (s : ctxs) := (cx_heap s, cx_pending s, cx_interrupted s, cx_perfs s).
Definition fl_rest (f : file) := f <| fl_async_queue_job_count := 0 |>.

Section frame.
Context `{V : virtqueue}.

Record rx_frame (w w' : world) : Prop := {
  rf_mm : w_mm w' = w_mm w;
  rf_bf : w_bf w' = w_bf w;
  rf_cx : cx_rest (w_cx w') = cx_rest (w_cx w);
  rf_fl : fl_rest (w_fl w') = fl_rest (w_fl w);
  rf_table : msgtable (w_apps w') = msgtable (w_apps w);
  rf_msgs p : option_Forall2 same_msg (msgs (w_apps w) !! p) (msgs (w_apps w') !! p);
  rf_size : buf_size (w_apps w') = buf_size (w_apps w);
  rf_sbufs : sbufs (w_apps w') = sbufs (w_apps w);
  rf_held : tx_held (w_apps w') = tx_held (w_apps w);
  rf_txmem : txmem (w_apps w') = txmem (w_apps w);
  rf_rx : rx_all (w_apps w') = rx_all (w_apps w);
}.

#[export] Instance rx_frame_preorder : PreOrder rx_frame.
Proof.
  split.
  - intros w. by split.
  - intros x y z H1 H2. pose proof (rf_msgs _ _ H1) as M1. pose proof (rf_msgs _ _ H2) as M2.
    destruct H1, H2. split; try congruence. intros p. specialize (M1 p). specialize (M2 p).
    destruct M1; inversion M2; subst; constructor. by etrans.
Qed.

(** The rx buffers stored in live messages. *)
Definition msg_rx (m : virt_fastrpc_msg) : gmultiset ptr :=
  match rxbuf m with Some p => {[+ p +]} | None => ∅ end.
Definition stored_rx (a : apps) : gmultiset ptr := hsum msg_rx (msgs a).

(** A completed message has a response, and a response carries the id of
    the message it is stored in. *)
Definition msg_ok (a : apps) (m : virt_fastrpc_msg) : Prop :=
  (0 < work_done m -> is_Some (rxbuf m)) /\
  forall r, rxbuf m = Some r -> u16 (h_msgid (r_hdr (rxmem a r))) = msgid m.

(** A live message's context is live, the responses in the messages are rx
    buffers the driver holds, no rx buffer is in two places, and the
    messages agree with their responses. *)
Record rx_inv (w : world) : Prop := {
  ri_apps : apps_inv (w_apps w);
  ri_ctx p m c : msgs (w_apps w) !! p = Some m -> msg_ctx m = Some c ->
    is_Some (cx_heap (w_cx w) !! c);
  ri_rx : stored_rx (w_apps w) ⊆ rx_held (w_apps w);
  ri_set p : (multiplicity p (rx_all (w_apps w)) <= 1)%nat;
  ri_msg p m : msgs (w_apps w) !! p = Some m -> msg_ok (w_apps w) m;
}.

(** [rsp] was got from the queue and is not yet stored. *)
Definition in_hand (rsp : ptr) (w : world) : Prop :=
  {[+ rsp +]} ⊎ stored_rx (w_apps w) ⊆ rx_held (w_apps w).

(** [w'] after [w] in the receive path. *)
Definition rx_ok (w w' : world) : Prop := rx_frame w w' /\ rx_inv w'.

Lemma rx_inv_frame w w' :
  rx_inv w -> apps_inv (w_apps w') -> stored_rx (w_apps w') ⊆ rx_held (w_apps w') ->
  (forall p m, msgs (w_apps w') !! p = Some m -> msg_ok (w_apps w') m) ->
  rx_frame w w' -> rx_inv w'.
Proof.
  intros [Ha Hc _ Hs _] Ha' Hr Hm Hf. split; [done| |done|by rewrite (rf_rx _ _ Hf)|done].
  intros p m' c Hp Hmc.
  pose proof (rf_msgs _ _ Hf p) as H. rewrite Hp in H. inversion H as [m ? [_ E _] Em|]; subst.
  pose proof (rf_cx _ _ Hf) as Ecx. unfold cx_rest in Ecx. injection Ecx as -> _ _ _.
  apply (Hc p m c); [done|]. congruence.
Qed.
End frame.

Ltac run_world :=
  unfold mbind, M_bind, mret, M_ret, gets, modify, on_apps, on_mm, on_bf, on_cx, on_fl, zoom, fail;
  simpl.

(** A message's fields the receive path may touch are updated. *)
Lemma frame_msg_update `{V : virtqueue} w mp m m' :
  msgs (w_apps w) !! mp = Some m -> same_msg m m' ->
  rx_frame w (w <| w_apps := (w_apps w) <| msgs := <[mp := m']> (msgs (w_apps w)) |> |>).
Proof.
  intros Hm Hs. split; simpl; try done. intros p. rewrite lookup_insert. case_decide as E.
  - subst p. rewrite Hm. by constructor.
  - done.
Qed.

Section recv.
Context `{V : virtqueue, !virtqueue_ok V}.
Implicit Types w : world.

(** The state in which response [rsp] has been stored in message [mp]. *)
Definition rsp_stored (mp rsp : ptr) (m : virt_fastrpc_msg) (d : Z) (w : world) : world :=
  w <| w_apps := (w_apps w) <| msgs := <[mp := m <| work_done := d |> <| rxbuf := Some rsp |>]>
         (msgs (w_apps w)) |> |>.

Lemma rsp_stored_ok mp rsp m d w :
  rx_inv w -> in_hand rsp w -> msgs (w_apps w) !! mp = Some m ->
  u16 (h_msgid (r_hdr (rxmem (w_apps w) rsp))) = msgid m -> rx_ok w (rsp_stored mp rsp m d w).
Proof.
  intros Hinv Hh Hm Hid. assert (rx_frame w (rsp_stored mp rsp m d w)) as Hf
    by (by eapply frame_msg_update).
  split; [done|]. eapply rx_inv_frame; [done| | | |done].
  - simpl. by eapply inv_msg_update; [apply Hinv| |].
  - unfold in_hand, stored_rx in *. simpl.
    pose proof (hsum_update msg_rx _ mp m (m <| work_done := d |> <| rxbuf := Some rsp |>) Hm) as E.
    unfold msg_rx in E at 3. simpl in E. multiset_solver.
  - intros p mm. simpl. rewrite lookup_insert. case_decide; [|by apply Hinv].
    intros [= <-]. split; simpl; [by eexists|]. by intros ? [= <-].
Qed.

(** [recv_single], branch by branch. *)
Lemma recv_single_cases rsp len w :
  rx_inv w ->
  let h := r_hdr (rxmem (w_apps w) rsp) in
  let i := Z.to_nat (u16 (h_msgid h)) in
  (len <> u32 (h_len h) /\ recv_single rsp len w = Ok (- EINVAL) w) \/
  (len = u32 (h_len h) /\
    (((256 <= i)%nat /\ recv_single rsp len w = Fault (Device BadId)) \/
     (msgtable (w_apps w) !! i = Some None /\ recv_single rsp len w = Ok (- EINVAL) w) \/
     exists mp m, msgtable (w_apps w) !! i = Some (Some mp) /\ msgs (w_apps w) !! mp = Some m /\
       msgid m = Z.of_nat i /\
       ((exists c x, msg_ctx m = Some c /\ cx_heap (w_cx w) !! c = Some x /\ c_isasyncjob x = true /\
         ((c ∈ cx_async_queue (w_cx w) /\ recv_single rsp len w = Fault (Device SecondAnswer)) \/
          ((c ∉ cx_async_queue (w_cx w)) /\
           recv_single rsp len w = Ok 0 ((rsp_stored mp rsp m (work_done m) w)
             <| w_cx := (w_cx w) <| cx_async_queue := cx_async_queue (w_cx w) ++ [c] |> |>
             <| w_fl := (w_fl w) <| fl_async_queue_job_count :=
                  s32 (fl_async_queue_job_count (w_fl w) + 1) |> |>)))) \/
        ((forall c x, msg_ctx m = Some c -> cx_heap (w_cx w) !! c = Some x -> c_isasyncjob x = false) /\
         recv_single rsp len w = Ok 0 (rsp_stored mp rsp m (work_done m + 1) w))))).
Proof.
  intros Hinv h i. unfold recv_single. run_world. fold h.
  destruct (Z.eqb_spec len (u32 (h_len h))) as [->|Hne]; simpl; [right|by left].
  split; [done|]. fold i.
  destruct (msgtable (w_apps w) !! i) as [[mp|]|] eqn:Ei.
  2: { right. by left. }
  2: { left. apply lookup_ge_None in Ei. rewrite (ai_table _ (ri_apps _ Hinv)) in Ei. done. }
  right. right. destruct (ai_slot _ (ri_apps _ Hinv) i mp Ei) as (m & Hm & Hid).
  exists mp, m. split_and!; [done..|]. unfold msg_load, msg_store, rsp_stored. rewrite Hm. simpl. rewrite Hm. simpl.
  unfold is_async. destruct (msg_ctx m) as [c|] eqn:Ec.
  - destruct (ri_ctx _ Hinv mp m c Hm Ec) as [x Hx]. run_world. unfold ctx_load. rewrite Hx. simpl.
    destruct (c_isasyncjob x) eqn:Ea.
    + left. exists c, x. split_and!; [done..|]. unfold vfastrpc_queue_completed_async_job, async_add_tail.
      run_world. destruct (decide (c ∈ cx_async_queue (w_cx w))); [by left|right; by split].
    + right. split; [intros; congruence|]. unfold complete, msg_load, msg_store. run_world.
      rewrite lookup_insert_eq. simpl. rewrite lookup_insert_eq. simpl.
      by rewrite insert_insert_eq.
  - right. split; [done|]. unfold complete, msg_load, msg_store. run_world.
    rewrite lookup_insert_eq. simpl. rewrite lookup_insert_eq. simpl. by rewrite insert_insert_eq.
Qed.

(** The two faults a response can cause when it is received, and those the
    device can cause in all. *)
Definition rx_fault (f : fault) : Prop := f = Device BadId \/ f = Device SecondAnswer.
Definition device_fault (f : fault) : Prop := exists d, f = Device d.

Lemma rx_fault_device f : rx_fault f -> device_fault f.
Proof. intros [-> | ->]; by eexists. Qed.

(** Runs of the receive path: a good state, or a fault the device is to blame for. *)
Definition rx_safe {A} (m : M world A) (w : world) : Prop :=
  match m w with
  | Ok _ w' => rx_ok w w'
  | Fault f => rx_fault f
  | Hang _ => False
  end.

Lemma recv_single_safe rsp len w :
  rx_inv w -> in_hand rsp w -> rx_safe (recv_single rsp len) w.
Proof.
  intros Hinv Hh. unfold rx_safe, rx_fault.
  destruct (recv_single_cases rsp len w Hinv) as [(_ & ->)|(_ & [(_ & ->)|[(_ & ->)|
    (mp & m & _ & Hm & Hid & Hc)]])]; auto; try by split.
  assert (u16 (h_msgid (r_hdr (rxmem (w_apps w) rsp))) = msgid m) as Hid'.
  { rewrite Hid. pose proof (u16_range (h_msgid (r_hdr (rxmem (w_apps w) rsp)))). lia. }
  destruct Hc as [(c & x & Hc & Hx & _ & [(_ & ->)|(_ & ->)])|(_ & ->)]; [by auto| |by apply rsp_stored_ok].
  destruct (rsp_stored_ok mp rsp m (work_done m) w Hinv Hh Hm Hid') as [Hf Hi]. split.
  - etrans; [exact Hf|]. by split.
  - destruct Hi as [Ha Hl Hr Hse Hmm]. by split.
Qed.

Lemma rvq_get_frame w :
  rx_inv w ->
  exists r a', rvq_get_buf (w_apps w) = Ok r a' /\ rx_ok w (w <| w_apps := a' |>) /\
    match r with
    | Some (p, _) => vq_owned (rvq (w_apps w)) = {[+ p +]} ⊎ vq_owned (rvq a') /\
        in_hand p (w <| w_apps := a' |>)
    | None => vq_owned (rvq a') = vq_owned (rvq (w_apps w))
    end.
Proof.
  intros Hinv. destruct (rvq_get_ok (w_apps w) (ri_apps w Hinv)) as
    (r & a' & E & Ha & Erx & Et & Em & Eh & Erm & Ehd). exists r, a'. split; [done|].
  assert (buf_size a' = buf_size (w_apps w) /\ sbufs a' = sbufs (w_apps w) /\
    txmem a' = txmem (w_apps w)) as (E1 & E2 & E3).
  { clear -E. unfold rvq_get_buf in E. revert E. run_apps.
    destruct (virtqueue_get_buf _) as [[[p len]|] q]; intros; by simplify_eq. }
  split.
  - assert (rx_frame w (w <| w_apps := a' |>)) as Hf.
    { split; simpl; try done. intros p. by rewrite Em. }
    split; [done|]. eapply rx_inv_frame; [done..| | |done].
    2: { intros p m. simpl. unfold msg_ok. rewrite Em, Erm. apply Hinv. }
    pose proof (ri_rx _ Hinv). unfold stored_rx in *. simpl. rewrite Em, Ehd.
    destruct r as [[p len]|]; multiset_solver.
  - unfold rx_all in Erx. rewrite Ehd in Erx. pose proof (ri_rx _ Hinv).
    unfold in_hand, stored_rx in *. simpl. rewrite Em, Ehd.
    destruct r as [[p len]|]; [split|]; multiset_solver.
Qed.

Lemma recv_loop_safe fuel rsp len w :
  rx_inv w -> in_hand rsp w -> (size (vq_owned (rvq (w_apps w))) < fuel)%nat ->
  rx_safe (recv_loop fuel rsp len) w.
Proof.
  revert rsp len w. induction fuel as [|fuel IH]; intros rsp len w Hinv Hh Hfuel; [lia|].
  unfold rx_safe. cbn [recv_loop]. unfold mbind, M_bind, mret, M_ret.
  pose proof (recv_single_safe rsp len w Hinv Hh) as Hs. unfold rx_safe in Hs.
  destruct (recv_single rsp len w) as [err w1| |] eqn:Es; [|done..].
  destruct Hs as [Hf1 Hi1]. destruct (negb (err =? 0)); [by split|].
  assert (rvq (w_apps w1) = rvq (w_apps w)) as Ervq.
  { destruct (recv_single_cases rsp len w Hinv) as [(_ & E)|(_ & [(_ & E)|[(_ & E)|
      (mp & m & _ & Hm & _ & [(c & x & Hc & Hx & _ & [(_ & E)|(_ & E)])|(_ & E)])]])];
      rewrite E in Es; by simplify_eq. }
  destruct (rvq_get_frame w1 Hi1) as (r & a' & Eg & [Hf2 Hi2] & Ho).
  unfold on_apps, zoom. rewrite Eg. destruct r as [[p l]|].
  - destruct Ho as [Ho Hh2]. specialize (IH p l _ Hi2 Hh2). unfold rx_safe in IH. simpl in IH.
    rewrite Ervq in Ho. rewrite Ho, gmultiset_size_disj_union, gmultiset_size_singleton in Hfuel.
    assert (size (vq_owned (rvq a')) < fuel)%nat as Hlt by lia. specialize (IH Hlt).
    destruct (recv_loop fuel p l _) as [[] w3| |]; [|done..]. destruct IH as [Hf3 Hi3].
    split; [|done]. etrans; [exact Hf1|]. by etrans.
  - split; [by etrans|done].
Qed.
Lemma recv_done_safe w : rx_inv w -> rx_safe recv_done w.
Proof.
  intros Hinv. unfold rx_safe, recv_done, mbind at 1, M_bind at 1, gets.
  assert (size (vq_owned (rvq (w_apps w))) < S (size (vq_owned (rvq (w_apps w)))))%nat as Hlt by lia.
  revert Hlt. generalize (S (size (vq_owned (rvq (w_apps w))))) as fuel. intros fuel Hlt. run_world.
  destruct (rvq_get_frame w Hinv) as (r & a' & -> & [Hf Hi] & Ho).
  destruct r as [[p l]|]; [|by split].
  destruct Ho as [Ho Hh2]. assert (size (vq_owned (rvq a')) < fuel)%nat as Hlt'.
  { rewrite Ho, gmultiset_size_disj_union in Hlt. lia. }
  pose proof (recv_loop_safe fuel p l (w <| w_apps := a' |>) Hi Hh2 Hlt') as Hl.
  unfold rx_safe in Hl. simpl in Hl.
  destruct (recv_loop fuel p l _) as [[] w3| |]; [|done..]. destruct Hl as [Hf3 Hi3].
  split; [by etrans|done].
Qed.

Lemma dev_write_fields a l :
  exists f, foldl dev_write a l = a <| rxmem := f |> /\
    forall p, p ∉ vq_owned (rvq a) -> f p = rxmem a p.
Proof.
  revert a. induction l as [|[p r] l IH]; intros a; simpl.
  - exists (rxmem a). by destruct a.
  - unfold dev_write at 2. simpl. case_decide as Hin; [|apply IH].
    match goal with |- exists _, foldl _ ?x _ = _ /\ _ => destruct (IH x) as (f & -> & Hf) end.
    exists f. split; [done|]. intros q Hq. rewrite Hf by done. simpl.
    rewrite decide_False; [done|]. by intros ->.
Qed.

(** A stored response is not the device's to write. *)
Lemma stored_not_owned w p m r :
  rx_inv w -> msgs (w_apps w) !! p = Some m -> rxbuf m = Some r ->
  r ∈ rx_held (w_apps w) /\ r ∉ vq_owned (rvq (w_apps w)).
Proof.
  intros Hinv Hm Hr. assert (r ∈ rx_held (w_apps w)) as Hin.
  { pose proof (ri_rx _ Hinv) as Hsub. unfold stored_rx in Hsub.
    rewrite (hsum_delete msg_rx _ p m Hm) in Hsub. unfold msg_rx in Hsub at 1. rewrite Hr in Hsub.
    multiset_solver. }
  split; [done|]. pose proof (ri_set _ Hinv r) as Hs. unfold rx_all in Hs.
  rewrite multiplicity_disj_union in Hs. rewrite elem_of_multiplicity in Hin |- *. lia.
Qed.

Lemma run_event_safe e w : rx_inv w -> rx_safe (run_event e) w.
Proof.
  intros Hinv. destruct e as [s r wr|]; [|by apply recv_done_safe].
  unfold rx_safe, run_event. run_world.
  destruct (dev_write_fields (w_apps w) wr) as (f & -> & Hw). simpl.
  match goal with |- rx_ok _ ?x => set (w' := x) end.
  assert (rx_frame w w') as Hf.
  { split; simpl; try done. unfold rx_all. simpl. by rewrite dev_owned. }
  split; [done|]. eapply rx_inv_frame; [done| |apply Hinv| |done].
  - destruct Hinv as [[Ht Hs Hl Hb Hn Hla Hnd Htx] _]. split; simpl; try done. by rewrite dev_owned.
  - intros p m Hm. destruct (ri_msg _ Hinv p m Hm) as [Hd Hid]. split; [done|].
    intros q Hq. simpl. rewrite Hw; [by apply Hid|]. by eapply stored_not_owned.
Qed.

Lemma run_events_safe l w : rx_inv w -> rx_safe (run_events l) w.
Proof.
  revert w. induction l as [|e l IH]; intros w Hinv; unfold rx_safe; simpl; [by split|].
  unfold mbind, M_bind. pose proof (run_event_safe e w Hinv) as He. unfold rx_safe in He.
  destruct (run_event e w) as [[] w1| |]; [|done..]. destruct He as [Hf1 Hi1].
  specialize (IH w1 Hi1). unfold rx_safe in IH.
  destruct (run_events l w1) as [[] w2| |]; [|done..]. destruct IH as [Hf2 Hi2].
  split; [by etrans|done].
Qed.
End recv.

(** ** A device that respects the protocol *)

Section polite.
Context `{V : virtqueue, !virtqueue_ok V}.
Implicit Types w : world.

Definition id_ok (r : virt_rsp) : Prop := u16 (h_msgid (r_hdr r)) < 256.
Definition polite_event (e : dev_event) : Prop :=
  match e with
  | EvDevice _ _ writes => Forall (fun x => id_ok x.2) writes
  | EvInterrupt => True
  end.

(** Rx buffers hold ids of the table, and no asynchronous job is in flight. *)
Record polite w : Prop := {
  po_ids p : id_ok (rxmem (w_apps w) p);
  po_sync p m c x : msgs (w_apps w) !! p = Some m -> msg_ctx m = Some c ->
    cx_heap (w_cx w) !! c = Some x -> c_isasyncjob x = false;
}.

Lemma polite_frame w w' :
  polite w -> rx_frame w w' -> (forall p, id_ok (rxmem (w_apps w') p)) -> polite w'.
Proof.
  intros [_ Hs] Hf Hid. split; [done|]. intros p m' c x Hp Hc Hx.
  pose proof (rf_msgs _ _ Hf p) as H. rewrite Hp in H. inversion H as [m ? [_ E _] Em|]; subst.
  pose proof (rf_cx _ _ Hf) as Ecx. unfold cx_rest in Ecx. injection Ecx as Eh _ _ _.
  apply (Hs p m c x); [done|congruence|congruence].
Qed.

(** A run that returns and keeps the device's promise. *)
Definition rx_runs {A} (m : M world A) w : Prop :=
  exists r w', m w = Ok r w' /\ rx_ok w w' /\ polite w'.

Lemma recv_single_runs rsp len w :
  rx_inv w -> in_hand rsp w -> polite w -> rx_runs (recv_single rsp len) w.
Proof.
  intros Hinv Hh Hp. pose proof (recv_single_safe rsp len w Hinv Hh) as Hs. unfold rx_safe in Hs.
  destruct (recv_single_cases rsp len w Hinv) as [(_ & E)|(_ & [(Hi & E)|[(_ & E)|
    (mp & m & _ & Hm & _ & [(c & x & Hc & Hx & Ha & _)|(_ & E)])]])]; try rewrite E in Hs.
  - by exists (- EINVAL), w.
  - pose proof (po_ids _ Hp rsp) as Hid. unfold id_ok in Hid. lia.
  - by exists (- EINVAL), w.
  - rewrite (po_sync _ Hp mp m c x) in Ha by done. done.
  - eexists _, _. split; [exact E|]. split; [done|]. eapply polite_frame; [done|apply Hs|].
    apply Hp.
Qed.

Lemma recv_loop_runs fuel rsp len w :
  rx_inv w -> in_hand rsp w -> polite w -> (size (vq_owned (rvq (w_apps w))) < fuel)%nat ->
  rx_runs (recv_loop fuel rsp len) w.
Proof.
  revert rsp len w. induction fuel as [|fuel IH]; intros rsp len w Hinv Hh Hp Hfuel; [lia|].
  pose proof (recv_loop_safe (S fuel) rsp len w Hinv Hh Hfuel) as Hsafe. unfold rx_safe in Hsafe.
  unfold rx_runs. cbn [recv_loop] in *. unfold mbind, M_bind, mret, M_ret in *.
  destruct (recv_single_runs rsp len w Hinv Hh Hp) as (err & w1 & E1 & [Hf1 Hi1] & Hp1).
  rewrite E1 in Hsafe |- *.
  destruct (negb (err =? 0)); [by exists (), w1|].
  assert (rvq (w_apps w1) = rvq (w_apps w)) as Ervq.
  { destruct (recv_single_cases rsp len w Hinv) as [(_ & E)|(_ & [(_ & E)|[(_ & E)|
      (mp & m & _ & Hm & _ & [(c & x & Hc & Hx & _ & [(_ & E)|(_ & E)])|(_ & E)])]])];
      rewrite E in E1; by simplify_eq. }
  destruct (rvq_get_frame w1 Hi1) as (r & a' & Eg & [Hf2 Hi2] & Ho).
  destruct (rvq_get_ok _ (ri_apps _ Hi1)) as (r' & a'' & Eg' & _ & _ & _ & _ & _ & Erm & _).
  rewrite Eg in Eg'. simplify_eq. unfold on_apps, zoom in *. rewrite Eg in Hsafe |- *.
  assert (polite (w1 <| w_apps := a'' |>)) as Hp2.
  { eapply polite_frame; [exact Hp1|done|]. simpl. rewrite Erm. apply Hp1. }
  destruct r' as [[p l]|]; [|by eexists _, _].
  destruct Ho as [Ho Hh2].
  rewrite Ervq in Ho. rewrite Ho, gmultiset_size_disj_union, gmultiset_size_singleton in Hfuel.
  destruct (IH p l _ Hi2 Hh2 Hp2) as (? & w3 & E3 & _ & Hp3); [simpl; lia|].
  rewrite E3 in Hsafe |- *. by eexists _, _.
Qed.

Lemma recv_done_runs w : rx_inv w -> polite w -> rx_runs recv_done w.
Proof.
  intros Hinv Hp. pose proof (recv_done_safe w Hinv) as Hsafe. unfold rx_safe, rx_runs, recv_done in *.
  unfold gets, mbind, M_bind in *.
  destruct (rvq_get_frame w Hinv) as (r & a' & Eg & [Hf Hi] & Ho).
  destruct (rvq_get_ok _ (ri_apps _ Hinv)) as (r' & a'' & Eg' & _ & _ & _ & _ & _ & Erm & _).
  rewrite Eg in Eg'. simplify_eq.
  assert (polite (w <| w_apps := a'' |>)) as Hp2.
  { eapply polite_frame; [exact Hp|done|]. simpl. rewrite Erm. apply Hp. }
  destruct r' as [[p l]|].
  - destruct Ho as [Ho Hh2].
    destruct (recv_loop_runs (S (size (vq_owned (rvq (w_apps w))))) p l _ Hi Hh2 Hp2)
      as (? & w3 & E3 & _ & Hp3).
    { simpl. rewrite Ho, gmultiset_size_disj_union. lia. }
    unfold on_apps, zoom in Hsafe |- *. rewrite Eg in Hsafe |- *.
    rewrite E3 in Hsafe |- *. by eexists _, _.
  - unfold on_apps, zoom in Hsafe |- *. rewrite Eg in Hsafe |- *. by eexists _, _.
Qed.

Lemma dev_write_ids l a :
  (forall p, id_ok (rxmem a p)) -> Forall (fun x => id_ok x.2) l ->
  forall p, id_ok (rxmem (foldl dev_write a l) p).
Proof.
  intros Ha Hl. revert a Ha. induction Hl as [|[q r] l Hr Hl IH]; intros a Ha; [done|].
  simpl. apply IH. intros p. unfold dev_write. simpl. case_decide; [|done]. simpl. by case_decide.
Qed.

Lemma run_events_runs l w :
  rx_inv w -> polite w -> Forall polite_event l -> rx_runs (run_events l) w.
Proof.
  intros Hinv Hp Hl. revert w Hinv Hp.
  induction Hl as [|e l He Hl IH]; intros w Hinv Hp; [by exists (), w|].
  assert (rx_runs (run_event e) w) as (? & w1 & E1 & [Hf1 Hi1] & Hp1).
  { destruct e as [s r wr|]; [|by apply recv_done_runs].
    pose proof (run_event_safe (EvDevice s r wr) w Hinv) as Hs. unfold rx_safe in Hs.
    eexists _, _. split; [done|]. split; [exact Hs|].
    eapply polite_frame; [done|apply Hs|]. simpl. apply dev_write_ids; [apply Hp|done]. }
  destruct (IH w1 Hi1 Hp1) as (? & w2 & E2 & [Hf2 Hi2] & Hp2).
  eexists _, w2. split; [|split; [split|]; [by etrans|done|done]].
  simpl. unfold mbind, M_bind. by rewrite E1, E2.
Qed.
End polite.

(** ** Properties *)

Section facts.
Context `{V : virtqueue, !virtqueue_ok V}.
Implicit Types w : world.

(** C31: a response reaches the message it names and nothing else.
    [recv_single] refuses, without any change, a response whose length
    field differs from the received length or whose slot is empty; a
    response for a live synchronous message is stored in it and completes
    it once; one for an asynchronous job appends the job's context to the
    completed queue and counts it.  Everything else stays as it was.  An id
    of 256 or more reads past the message table. *)
Theorem recv_single_correct rsp len w :
  rx_inv w -> in_hand rsp w ->
  let h := r_hdr (rxmem (w_apps w) rsp) in
  let i := Z.to_nat (u16 (h_msgid h)) in
  (len <> u32 (h_len h) -> recv_single rsp len w = Ok (- EINVAL) w) /\
  (len = u32 (h_len h) ->
    ((256 <= i)%nat -> recv_single rsp len w = Fault (Device BadId)) /\
    (msgtable (w_apps w) !! i = Some None -> recv_single rsp len w = Ok (- EINVAL) w) /\
    (forall mp m, msgtable (w_apps w) !! i = Some (Some mp) -> msgs (w_apps w) !! mp = Some m ->
      (msg_ctx m = None -> recv_single rsp len w = Ok 0 (rsp_stored mp rsp m (work_done m + 1) w)) /\
      (forall c x, msg_ctx m = Some c -> cx_heap (w_cx w) !! c = Some x ->
        (c_isasyncjob x = false ->
           recv_single rsp len w = Ok 0 (rsp_stored mp rsp m (work_done m + 1) w)) /\
        (c_isasyncjob x = true -> c ∉ cx_async_queue (w_cx w) ->
           exists w', recv_single rsp len w = Ok 0 w' /\ rx_frame w w' /\
             cx_async_queue (w_cx w') = cx_async_queue (w_cx w) ++ [c] /\
             fl_async_queue_job_count (w_fl w') = s32 (fl_async_queue_job_count (w_fl w) + 1))))).
Proof.
  intros Hinv Hh h i. pose proof (recv_single_safe rsp len w Hinv Hh) as Hs. unfold rx_safe in Hs.
  destruct (recv_single_cases rsp len w Hinv) as [(Hl & E)|(Hl & Hc)]; fold h in Hl; [by split|].
  split; [done|]. intros _. pose proof (ai_table _ (ri_apps _ Hinv)) as Hlen.
  destruct Hc as [(Hi & E)|[(Hi & E)|(mp & m & Hi & Hm & _ & Hc)]]; fold h i in Hi.
  - split_and!; [done| |].
    + intros Hx%lookup_lt_Some. rewrite Hlen in Hx. unfold FASTRPC_MSG_MAX in Hx. lia.
    + intros mp m Hx%lookup_lt_Some. rewrite Hlen in Hx. unfold FASTRPC_MSG_MAX in Hx. lia.
  - split_and!; [|done|congruence]. intros Hge. apply lookup_lt_Some in Hi.
    rewrite Hlen in Hi. unfold FASTRPC_MSG_MAX in Hi. lia.
  - split_and!; [|congruence|].
    { intros Hge. apply lookup_lt_Some in Hi. rewrite Hlen in Hi. unfold FASTRPC_MSG_MAX in Hi. lia. }
    intros mp' m' Hmp Hm'. assert (mp' = mp) as -> by congruence. assert (m' = m) as -> by congruence.
    destruct Hc as [(c & x & Hmc & Hx & Ha & Hc)|(Hsync & E)].
    + split; [congruence|]. intros c' x' Hc' Hx'. assert (c' = c) as -> by congruence.
      assert (x' = x) as -> by congruence. split; [congruence|]. intros _ Hnin.
      destruct Hc as [(Hin & _)|(_ & E)]; [done|]. rewrite E in Hs |- *.
      eexists. split; [done|]. split; [apply Hs|]. done.
    + split; [done|]. intros c' x' Hc' Hx'. split; [done|]. intros Ha.
      by rewrite (Hsync c' x') in Ha.
Qed.

(** C32: interrupt handling is total and framed.  Whatever the device does
    while a thread waits, the interrupt handler terminates; it either
    returns with every mapping, buffer, context list, table slot, tx buffer
    and the set of rx buffers as before, every live message keeping its id,
    context and tx buffer, or it faults on a response with an id outside the
    table or a second answer to an asynchronous job.  If the ids are inside
    the table and no job is asynchronous it does return. *)
Theorem interrupts_framed evs w :
  rx_inv w ->
  match run_events evs w with
  | Ok _ w' => rx_frame w w' /\ rx_inv w'
  | Fault f => f = Device BadId \/ f = Device SecondAnswer
  | Hang _ => False
  end /\
  (polite w -> Forall polite_event evs -> exists w', run_events evs w = Ok () w').
Proof.
  intros Hinv. split; [apply (run_events_safe evs w Hinv)|].
  intros Hp Hl. destruct (run_events_runs evs w Hinv Hp Hl) as ([] & w' & E & _). by exists w'.
Qed.
End facts.
