(* ===== verification/Transact.v ===== *)
(** * One request to the device

    Every [virt_fastrpc_*] command of virtio_fastrpc_core.c but the invoke has
    one shape: allocate a message, write the header and the body into its tx
    buffer, queue it, wait, read the result out of the response, give the rx
    buffer back and free the message.  [transact] is that shape; the commands
    are instances of it. *)
From S2P Require Import Prelude Shared Mmap Pages Buf Apps AppsFacts World WorldFacts.

Section ops.
Context `{V : virtqueue}.

(** What the kernel and the device answer during one request: whether
    [kzalloc] succeeds, [current->pid], and what happens during the wait. *)
Record msg_env := {
  me_kzalloc : bool;
  me_pid : Z;
  me_events : list dev_event;
}.

(** The header of a request; the session bit is set by the commands that
    look at [fl->sessionid]. *)
Definition mk_hdr (session : bool) (f : file) (pid cmd len id : Z) : virt_msg_hdr :=
  {| h_pid := u32 (fl_tgid f);
     h_tid := if session && negb (fl_sessionid f =? 0)
              then Z.lor (u32 pid) (Z.shiftl 1 SESSION_ID_INDEX) else u32 pid;
     h_cid := fl_cid f;
     h_cmd := cmd;
     h_len := u32 len;
     h_msgid := id;
     h_result := 2 ^ 32 - 1 |}.

(** [if (rsp) vfastrpc_rxbuf_send(...); virt_free_msg(...)]: the end of a message. *)
Definition release_msg (mp : ptr) (rsp : option ptr) : M apps () :=
  match rsp with
  | None => mret ()
  | Some r => a ← get; vfastrpc_rxbuf_send r (buf_size a)
  end;;
  virt_free_msg mp.

(** From [rsp = msg->rxbuf] to the end; [err] is the result of sending. *)
Definition take_response {A} (mp : ptr) (err : Z) (dflt : A) (read : virt_rsp -> Z * A)
    : M world (Z * A) :=
  m ← on_apps (msg_load mp);
  a ← gets w_apps;
  let res := match rxbuf m with
             | None => (err, dflt)
             | Some r => read (rxmem a r)
             end in
  on_apps (release_msg mp (rxbuf m));;
  mret res.

(** [size] is the [int] passed to [virt_alloc_msg], [extent] the number of
    bytes the command writes; [build] fails when it runs off a scatter table;
    [read] reads the error code and the answer. *)
Definition transact {A} (e : msg_env) (session : bool) (cmd size extent : Z)
    (build : virt_msg_hdr -> option vmsg) (dflt : A) (read : virt_rsp -> Z * A) : M world (Z * A) :=
  op ← on_apps (virt_alloc_msg (me_kzalloc e) size);
  match op with
  | None => mret (- ENOMEM, dflt)
  | Some mp =>
    m ← on_apps (msg_load mp);
    f ← gets w_fl;
    match build (mk_hdr session f (me_pid e) cmd size (msgid m)), txbuf m with
    | Some v, Some buf =>
      on_apps (tx_fill mp extent v);;
      err ← on_apps (vfastrpc_txbuf_send buf (u32 size));
      if negb (err =? 0) then
        on_apps (release_msg mp None);; mret (err, dflt)
      else
        wait_for_completion (me_events e) mp;;
        take_response mp err dflt read
    | _, _ => fail NullDeref
    end
  end.
End ops.
Arguments transact : simpl never.
Arguments take_response : simpl never.
Arguments wait_for_completion : simpl never.

(** ** The frame of a request *)

Section frame.
Context `{V : virtqueue, !virtqueue_ok V}.
Implicit Types w : world.

Record xfer (w w' : world) : Prop := {
  xf_mm : w_mm w' = w_mm w;
  xf_bf : w_bf w' = w_bf w;
  xf_cx : cx_rest (w_cx w') = cx_rest (w_cx w);
  xf_fl : fl_rest (w_fl w') = fl_rest (w_fl w);
  xf_table : msgtable (w_apps w') = msgtable (w_apps w);
  xf_msgs p : option_Forall2 same_msg (msgs (w_apps w) !! p) (msgs (w_apps w') !! p);
  xf_size : buf_size (w_apps w') = buf_size (w_apps w);
  xf_sbufs : sbufs (w_apps w') = sbufs (w_apps w);
  xf_rx : rx_all (w_apps w') = rx_all (w_apps w);
}.

#[export] Instance xfer_preorder : PreOrder xfer.
Proof.
  split; [intros w; by split|].
  intros x y z H1 H2. pose proof (xf_msgs _ _ H1) as M1. pose proof (xf_msgs _ _ H2) as M2.
  destruct H1, H2. split; try congruence. intros p. specialize (M1 p). specialize (M2 p).
  destruct M1; inversion M2; subst; constructor. by etrans.
Qed.

Lemma rx_frame_xfer w w' : rx_frame w w' -> xfer w w'.
Proof. intros []. by split. Qed.

(** The device after the end of a message: its slot is empty, and the rx
    buffer of its response, if any, was offered to the receive queue. *)
Definition rx_returned (r : ptr) (a : apps) : apps :=
  let '(err, q) := virtqueue_add_inbuf (rvq a) r (buf_size a) in
  if err =? 0 then a <| rvq := virtqueue_kick q |> <| rx_held := rx_held a ∖ {[+ r +]} |> else a <| rvq := q |>.
Definition msg_ended (mp : ptr) (m : virt_fastrpc_msg) (a : apps) : apps :=
  (match rxbuf m with Some r => rx_returned r a | None => a end)
    <| msgtable := <[Z.to_nat (msgid m) := None]> (msgtable a) |> <| msgs := delete mp (msgs a) |>.

Lemma release_msg_eq mp m a :
  apps_inv a -> msgs a !! mp = Some m -> release_msg mp (rxbuf m) a = Ok () (msg_ended mp m a).
Proof.
  intros Hi Hm. destruct (ai_live _ Hi mp m Hm) as [_ Hs].
  assert (forall a1, msgs a1 = msgs a -> msgtable a1 = msgtable a -> virt_free_msg mp a1 =
    Ok () (a1 <| msgtable := <[Z.to_nat (msgid m) := None]> (msgtable a) |> <| msgs := delete mp (msgs a) |>)) as Hf.
  { intros a1 Em Et. unfold virt_free_msg, mbind, M_bind, msg_load, msg_kfree, get. rewrite Em, Hm, Et, Hs.
    rewrite bool_decide_eq_true_2 by done. unfold when, put. simpl. by rewrite Em, Hm. }
  unfold release_msg, msg_ended, mbind, M_bind, mret, M_ret, get. destruct (rxbuf m) as [r|]; [|by apply Hf].
  unfold vfastrpc_rxbuf_send, rx_returned, mbind, M_bind, get, put.
  destruct (virtqueue_add_inbuf _ _ _) as [err q]. destruct (Z.eqb_spec err 0); simpl; by apply Hf.
Qed.

(** The end of a live message. *)
Lemma release_msg_ok mp m w :
  rx_inv w -> msgs (w_apps w) !! mp = Some m ->
  exists a', release_msg mp (rxbuf m) (w_apps w) = Ok () a' /\ rx_inv (w <| w_apps := a' |>) /\
    msgs a' = delete mp (msgs (w_apps w)) /\
    msgtable a' = <[Z.to_nat (msgid m) := None]> (msgtable (w_apps w)) /\
    buf_size a' = buf_size (w_apps w) /\ sbufs a' = sbufs (w_apps w) /\
    tx_held a' = tx_held (w_apps w) /\ rx_all a' = rx_all (w_apps w).
Proof.
  intros Hinv Hm. unfold release_msg, mbind, M_bind, mret, M_ret, get.
  assert (exists a1, match rxbuf m with
      | Some r => fun s => vfastrpc_rxbuf_send r (buf_size s) s
      | None => fun s => Ok () s end (w_apps w) = Ok () a1 /\ apps_inv a1 /\
      rx_all a1 = rx_all (w_apps w) /\ msgtable a1 = msgtable (w_apps w) /\
      msgs a1 = msgs (w_apps w) /\ tx_held a1 = tx_held (w_apps w) /\
      rxmem a1 = rxmem (w_apps w) /\ buf_size a1 = buf_size (w_apps w) /\
      sbufs a1 = sbufs (w_apps w) /\
      stored_rx (w_apps w) ⊆ msg_rx m ⊎ rx_held a1)
    as (a1 & E1 & Hi1 & Erx & Et & Em & Eh & Erm & Ebs & Esb & Hsub).
  { destruct (rxbuf m) as [r|] eqn:Er.
    - destruct (stored_not_owned w mp m r Hinv Hm Er) as [Hr _].
      destruct (rxbuf_send_ok r (buf_size (w_apps w)) (w_apps w) (ri_apps _ Hinv) Hr)
        as (a1 & E & Hi & Erx & Et & Em & Eh & Hrx).
      exists a1. split; [exact E|]. split_and!; try done.
      1-3: clear -E; unfold vfastrpc_rxbuf_send in E; revert E; run_apps;
        destruct (virtqueue_add_inbuf _ _ _) as [err q]; destruct (negb _); intros; by simplify_eq.
      pose proof (ri_rx _ Hinv) as Hs. unfold msg_rx. rewrite Er.
      destruct Hrx as [->|E2]; multiset_solver.
    - exists (w_apps w). split_and!; try done; [apply Hinv|].
      pose proof (ri_rx _ Hinv). multiset_solver. }
  assert (msgs a1 !! mp = Some m) as Hm1 by by rewrite Em.
  exists (msg_gone mp m a1). split.
  { destruct (rxbuf m); [rewrite E1|injection E1 as E1; rewrite E1]; by apply free_msg_eq. }
  simpl. rewrite Em, Et. split_and!; try done. split; simpl.
  - by apply inv_msg_gone.
  - intros p m' c [_ Hp]%lookup_delete_Some. rewrite Em in Hp. by apply (ri_ctx _ Hinv p m' c).
  - unfold stored_rx in *. simpl. rewrite Em.
    rewrite (hsum_delete msg_rx _ mp m Hm) in Hsub. multiset_solver.
  - intros p. change (rx_all (msg_gone mp m a1)) with (rx_all a1). rewrite Erx. apply Hinv.
  - intros p m' [_ Hp]%lookup_delete_Some. rewrite Em in Hp. unfold msg_ok. simpl. rewrite Erm.
    by apply (ri_msg _ Hinv p m').
Qed.
End frame.

(** ** A request in flight *)

Section flight.
Context `{V : virtqueue, !virtqueue_ok V}.
Implicit Types w : world.

(** [w1] is [w] with one more message, [mp], in the empty slot [i]. *)
Record in_flight (w w1 : world) (mp : ptr) (i : nat) : Prop := {
  in_inv : rx_inv w1;
  in_slot : msgtable (w_apps w) !! i = Some None;
  in_new : msgs (w_apps w) !! mp = None;
  in_msg : exists m, msgs (w_apps w1) !! mp = Some m /\ msgid m = Z.of_nat i;
  in_table : msgtable (w_apps w1) = <[i := Some mp]> (msgtable (w_apps w));
  in_msgs p : p <> mp -> option_Forall2 same_msg (msgs (w_apps w) !! p) (msgs (w_apps w1) !! p);
  in_mm : w_mm w1 = w_mm w;
  in_bf : w_bf w1 = w_bf w;
  in_cx : cx_rest (w_cx w1) = cx_rest (w_cx w);
  in_fl : fl_rest (w_fl w1) = fl_rest (w_fl w);
  in_size : buf_size (w_apps w1) = buf_size (w_apps w);
  in_sbufs : sbufs (w_apps w1) = sbufs (w_apps w);
  in_rx : rx_all (w_apps w1) = rx_all (w_apps w);
}.

Lemma in_flight_frame w w1 w2 mp i :
  in_flight w w1 mp i -> rx_ok w1 w2 -> in_flight w w2 mp i.
Proof.
  intros [Hi Hsl Hnew (m & Hm & Hid) Ht Hms Hmm Hbf Hcx Hfl Hsz Hsb Hrx] [Hf Hi2].
  pose proof (rf_msgs _ _ Hf) as Hr. pose proof (Hr mp) as Hmp. rewrite Hm in Hmp.
  inversion Hmp as [? m2 [Eid _ _] E1 E2|]; subst. destruct Hf. split; try done; try congruence.
  - exists m2. split; [done|]. congruence.
  - intros p Hp. specialize (Hms p Hp). specialize (Hr p).
    destruct Hms; inversion Hr; subst; constructor. by etrans.
Qed.

Lemma in_flight_release w w1 mp i m :
  in_flight w w1 mp i -> msgs (w_apps w1) !! mp = Some m ->
  exists a', release_msg mp (rxbuf m) (w_apps w1) = Ok () a' /\
    xfer w (w1 <| w_apps := a' |>) /\ rx_inv (w1 <| w_apps := a' |>) /\
    tx_held a' = tx_held (w_apps w1).
Proof.
  intros [Hi Hsl Hnew (m' & Hm' & Hid) Ht Hms Hmm Hbf Hcx Hfl Hsz Hsb Hrx] Hm.
  assert (m' = m) as -> by congruence. destruct (release_msg_ok mp m w1 Hi Hm) as
    (a' & E & Hi' & Em & Et & Ebs & Esb & Eh & Erx). exists a'. split; [done|].
  split; [|by split]. split; simpl; try done; try congruence.
  - rewrite Et, Hid, Ht, Nat2Z.id, list_insert_insert_eq, list_insert_id; done.
  - intros p. rewrite Em. destruct (decide (p = mp)) as [->|Hne].
    + rewrite Hnew, lookup_delete_eq. constructor.
    + rewrite lookup_delete_ne by done. by apply Hms.
Qed.

(** Allocating a message: nothing changes, or it is in flight, unsent. *)
Lemma alloc_in_flight kz size w :
  rx_inv w ->
  (exists a', virt_alloc_msg kz size (w_apps w) = Ok None a' /\
    xfer w (w <| w_apps := a' |>) /\ rx_inv (w <| w_apps := a' |>) /\
    tx_held a' = tx_held (w_apps w) /\ msgs a' = msgs (w_apps w) /\
    (buf_size (w_apps w) < u32 size \/ kz = false \/ find_slot (msgtable (w_apps w)) 0 = None \/
     ~ tx_ready (w_apps w))) \/
  (exists mp i buf a', virt_alloc_msg kz size (w_apps w) = Ok (Some mp) a' /\
    in_flight w (w <| w_apps := a' |>) mp i /\
    msgs a' !! mp = Some {| work_done := 0; msg_ctx := None; msgid := Z.of_nat i;
                            txbuf := Some buf; rxbuf := None |} /\
    delete mp (msgs a') = msgs (w_apps w) /\ u32 size <= buf_size a' /\ tx_held a' = {[+ buf +]} ⊎ tx_held (w_apps w) /\
    find_slot (msgtable (w_apps w)) 0 = Some i /\ rx_part a' = rx_part (w_apps w) /\
    svq a' = svq_next (w_apps w)).
Proof.
  intros Hinv. destruct (alloc_msg_cases kz size (w_apps w) (ri_apps _ Hinv)) as
    [(a' & E & Ha & Et & Em & Eh & Etx & Erx & Ebs & Esb & Hwhy)|
     (mp & i & buf & a' & E & Ha & Hsz & Hmp & Ei & Em & Et & Hnh & Eh & Etx & Erx & Ebs & Esb & Esv)].
  - left. exists a'. pose proof (rx_part_all _ _ Erx) as Eall.
    unfold rx_part in Erx. injection Erx as Er1 Er2 Er3. split; [done|]. split; [|split; [|split; [done|split; [done|]]]].
    3:{ destruct Hwhy as [?|[?|[?|[? Hn]]]]; auto. right. right. right. intros [?|[x Hx]]; [lia|congruence]. }
    + split; simpl; try done. intros p. by rewrite Em.
    + destruct Hinv as [_ Hc Hrx Hset Hmsg]. split; simpl; try done; unfold stored_rx, msg_ok in *;
        simpl; rewrite ?Em, ?Er2, ?Er3, ?Eall; done.
  - right. exists mp, i, buf, a'. pose proof (rx_part_all _ _ Erx) as Eall. pose proof Erx as Erx'.
    unfold rx_part in Erx. injection Erx as Er1 Er2 Er3. split; [done|].
    pose proof Ei as (_ & Hi & _)%find_slot_Some. rewrite Nat.sub_0_r in Hi.
    split; [|rewrite Em, lookup_insert_eq, delete_insert_id, Ebs by done; by split_and!]. split; simpl; try done.
    + destruct Hinv as [_ Hc Hrx Hset Hmsg]. split; simpl; try done.
      * intros p m c. rewrite Em, lookup_insert. case_decide; [by intros [= <-]|]. apply Hc.
      * unfold stored_rx in *. rewrite Em, hsum_insert, Er2 by done. unfold msg_rx at 1. simpl.
        multiset_solver.
      * by rewrite Eall.
      * intros p m. rewrite Em, lookup_insert. case_decide; [intros [= <-]; by split|].
        unfold msg_ok. rewrite Er3. apply Hmsg.
    + eexists. by rewrite Em, lookup_insert_eq.
    + intros p Hp. by rewrite Em, lookup_insert_ne.
Qed.

(** Writing and queueing keep a message in flight. *)
Lemma in_flight_apps w w1 mp i a' :
  in_flight w w1 mp i -> apps_inv a' -> msgs a' = msgs (w_apps w1) ->
  msgtable a' = msgtable (w_apps w1) -> rx_part a' = rx_part (w_apps w1) ->
  buf_size a' = buf_size (w_apps w1) -> sbufs a' = sbufs (w_apps w1) ->
  in_flight w (w1 <| w_apps := a' |>) mp i.
Proof.
  intros [Hi Hsl Hnew (m' & Hm' & Hid) Ht Hms Hmm Hbf Hcx Hfl Hsz Hsb Hrx] Ha Em Et Erx Ebs Esb.
  pose proof (rx_part_all _ _ Erx) as Eall. unfold rx_part in Erx. injection Erx as Er1 Er2 Er3.
  split; simpl; try done; try congruence.
  - destruct Hi as [_ Hc Hr Hset Hmsg]. split; simpl; try done; unfold stored_rx, msg_ok in *;
      rewrite ?Em, ?Er2, ?Er3, ?Eall; done.
  - rewrite Em. eauto.
  - intros p Hp. rewrite Em. by apply Hms.
Qed.
End flight.

(** ** The outcome of a request *)

(** ** Sleeping for ever

    What holds of a state in which a thread sleeps and nothing more happens:
    the file is consistent, and the message it waits for is live, is in the
    table where a response would find it, and has not been completed; a thread
    that waits for an asynchronous job finds none counted. *)
Class sleeper (S : Type) := asleep : option ptr -> S -> Prop.

Definition unanswered `{virtqueue} (mp : ptr) (a : apps) : Prop :=
  exists m, msgs a !! mp = Some m /\ work_done m <= 0 /\ msgtable a !! Z.to_nat (msgid m) = Some (Some mp).

#[export] Instance sleeper_world `{virtqueue} : sleeper world := fun o w => rx_inv w /\
  match o with
  | Some mp => unanswered mp (w_apps w)
  | None => fl_async_queue_job_count (w_fl w) = 0
  end.

Section outcome.
Context `{V : virtqueue, !virtqueue_ok V}.
Implicit Types w : world.

Lemma tx_fill_eq mp m buf extent v a :
  msgs a !! mp = Some m -> txbuf m = Some buf -> extent <= buf_size a ->
  tx_fill mp extent v a = Ok () (a <| txmem := <[buf := v]> (txmem a) |>).
Proof. intros Hm Hb Hle. unfold tx_fill. run_apps. rewrite Hb. by zdec. Qed.

(** A waiter takes a completion. *)
Definition took_work (mp : ptr) (m : virt_fastrpc_msg) w : world :=
  w <| w_apps := (w_apps w) <| msgs := <[mp := m <| work_done := work_done m - 1 |>]> (msgs (w_apps w)) |> |>.

Lemma took_work_ok mp m w :
  rx_inv w -> msgs (w_apps w) !! mp = Some m -> 0 < work_done m ->
  rx_ok w (took_work mp m w) /\ is_Some (rxbuf m).
Proof.
  intros Hi Hm Hlt. destruct (ri_msg _ Hi mp m Hm) as [Hd Hrid]. split; [|by apply Hd].
  assert (rx_frame w (took_work mp m w)) as Hf by by eapply frame_msg_update.
  split; [done|]. eapply rx_inv_frame; [done| | | |done]; simpl.
  - by eapply inv_msg_update; [apply Hi| |].
  - unfold stored_rx. simpl. pose proof (hsum_update msg_rx _ mp m (m <| work_done := work_done m - 1 |>) Hm) as E.
    unfold msg_rx in E at 1 3. simpl in E. apply (inj _) in E. rewrite E. apply Hi.
  - intros p mm. rewrite lookup_insert. case_decide; [|by apply Hi].
    intros [= <-]. split; simpl; [intros _; by apply Hd|]. apply Hrid.
Qed.

(** A thread sleeps for a live message that is not completed. *)
Lemma asleep_msg mp m w :
  rx_inv w -> msgs (w_apps w) !! mp = Some m -> work_done m <= 0 ->
  asleep (Some mp) (w <| w_apps := w_apps w |>).
Proof.
  intros Hi Hm Hd. split; [by destruct w|]. exists m. split_and!; [done..|].
  by apply (ai_live _ (ri_apps _ Hi)).
Qed.

(** Waiting for a message in flight. *)
Lemma wait_in_flight evs w w1 mp i :
  in_flight w w1 mp i ->
  match wait_for_completion evs mp w1 with
  | Fault f => device_fault f
  | Hang Loops => False
  | Hang (Sleeps o s) => asleep o s
  | Ok _ w2 => in_flight w w2 mp i /\ tx_held (w_apps w2) = tx_held (w_apps w1) /\
      exists m r, msgs (w_apps w2) !! mp = Some m /\ rxbuf m = Some r
  end.
Proof.
  intros Hin. pose proof (run_events_safe evs w1 (in_inv _ _ _ _ Hin)) as Hs. unfold rx_safe in Hs.
  unfold wait_for_completion, mbind, M_bind. destruct (run_events evs w1) as [[] w2| |];
    [|by apply rx_fault_device|done].
  pose proof (in_flight_frame _ _ _ _ _ Hin Hs) as Hin2. destruct Hs as [Hf Hi2].
  destruct (in_msg _ _ _ _ Hin2) as (m & Hm & Hid).
  unfold on_apps, zoom, msg_load. rewrite Hm. simpl.
  destruct (Z.ltb_spec 0 (work_done m)) as [Hlt|Hge].
  2:{ by apply (asleep_msg mp m). }
  unfold msg_store. simpl. rewrite Hm. simpl.
  destruct (took_work_ok mp m w2 Hi2 Hm Hlt) as [Hok [r Hr]].
  split; [by eapply (in_flight_frame _ w2 (took_work mp m w2))|]. split; [apply Hf|].
  exists (m <| work_done := work_done m - 1 |>), r. by rewrite lookup_insert_eq.
Qed.

Lemma transact_cases {A} e session cmd size extent build (dflt : A) read w :
  rx_inv w -> extent <= u32 size -> (forall h, is_Some (build h)) ->
  match transact e session cmd size extent build dflt read w with
  | Fault f => device_fault f
  | Hang Loops => False
  | Hang (Sleeps o s) => asleep o s
  | Ok res w' => xfer w w' /\ rx_inv w' /\
      ((res = (- ENOMEM, dflt) /\ tx_held (w_apps w') = tx_held (w_apps w)) \/
       (exists err buf, err <> 0 /\ res = (err, dflt) /\
          tx_held (w_apps w') = {[+ buf +]} ⊎ tx_held (w_apps w)) \/
       (exists rsp, res = read rsp /\ tx_held (w_apps w') = tx_held (w_apps w) /\
          msgtable (w_apps w) !! Z.to_nat (u16 (h_msgid (r_hdr rsp))) = Some None))
  end.
Proof.
  intros Hinv Hext Hbuild. unfold transact, mbind, M_bind, mret, M_ret, on_apps at 1, zoom.
  destruct (alloc_in_flight (me_kzalloc e) size w Hinv) as
    [(a' & -> & Hx & Hi & Eh & _)|(mp & i & buf & a' & -> & Hin & Hm & _ & Hsz & Eh & _)].
  { split_and!; [done..|]. by left. }
  unfold on_apps, zoom, gets, msg_load. simpl. rewrite Hm. simpl.
  destruct (Hbuild (mk_hdr session (w_fl w) (me_pid e) cmd size (Z.of_nat i))) as [v ->].
  erewrite tx_fill_eq by (done || simpl; lia). simpl.
  match goal with |- context [vfastrpc_txbuf_send _ _ ?x] => set (a2 := x) end.
  assert (in_flight w (w <| w_apps := a' |> <| w_apps := a2 |>) mp i) as Hin2.
  { apply in_flight_apps; try done. destruct (ri_apps _ (in_inv _ _ _ _ Hin)). by split. }
  destruct (txbuf_send_ok buf (u32 size) a2) as (err & q & Eq & Es & Ha3).
  { apply (in_inv _ _ _ _ Hin2). }
  { simpl. rewrite Eh. multiset_solver. }
  rewrite Es. destruct (Z.eqb_spec err 0) as [->|Hne]; simpl.
  - set (a3 := a2 <| svq := virtqueue_kick q |> <| tx_held := tx_held a2 ∖ {[+ buf +]} |>) in *.
    assert (in_flight w (w <| w_apps := a' |> <| w_apps := a2 |> <| w_apps := a3 |>) mp i) as Hin3
      by by apply in_flight_apps.
    assert (tx_held a3 = tx_held (w_apps w)) as Eh3 by (simpl; rewrite Eh; multiset_solver).
    pose proof (wait_in_flight (me_events e) _ _ _ _ Hin3) as Hw.
    change (w <| w_apps := a' |> <| w_apps := a2 |> <| w_apps := a3 |>) with (w <| w_apps := a3 |>) in Hw.
    match goal with |- context [wait_for_completion _ _ ?z] => change z with (w <| w_apps := a3 |>) end.
    destruct (wait_for_completion _ mp _) as [[] w4| |]; [|done..].
    destruct Hw as (Hin4 & Eh4 & m4 & r & Hm4 & Hr). change (tx_held (w_apps w4) = tx_held a3) in Eh4.
    unfold take_response, mbind, M_bind, on_apps, zoom, gets, msg_load. rewrite Hm4. simpl.
    destruct (in_flight_release _ _ _ _ _ Hin4 Hm4) as (a5 & E5 & Hx & Hi & Eh5).
    rewrite E5. simpl. split_and!; [done..|]. right. right. rewrite Hr.
    exists (rxmem (w_apps w4) r). rewrite Eh5, Eh4, Eh3. split_and!; [done..|].
    destruct (ri_msg _ (in_inv _ _ _ _ Hin4) mp m4 Hm4) as [_ Hid]. rewrite (Hid r Hr).
    destruct (in_msg _ _ _ _ Hin4) as (m' & Hm' & Eid). simplify_eq. rewrite Eid, Nat2Z.id.
    apply (in_slot _ _ _ _ Hin4).
  - set (a3 := a2 <| svq := q |>) in *.
    assert (in_flight w (w <| w_apps := a' |> <| w_apps := a2 |> <| w_apps := a3 |>) mp i) as Hin3
      by by apply in_flight_apps.
    destruct (in_flight_release _ _ _ _ _ Hin3 Hm) as (a5 & E5 & Hx & Hi & Eh5).
    match goal with |- context [release_msg mp None ?x] => change x with a3 end.
    change (release_msg mp None a3 = Ok () a5) in E5.
    rewrite E5. simpl. split_and!; [done..|]. right. left. exists err, buf.
    split_and!; [done..|]. rewrite Eh5. simpl. done.
Qed.
End outcome.

(** ** Runs that depend on the device

    [swp m Q w]: [m] run from [w] returns in [Q], or sleeps for ever for want
    of an answer of the device, or faults on a response the device should not
    have sent. *)

Definition swp {S} `{sleeper S} {A} (m : M S A) (Q : A -> S -> Prop) (s : S) : Prop :=
  match m s with
  | Ok a s' => Q a s'
  | Fault f => device_fault f
  | Hang Loops => False
  | Hang (Sleeps o s) => asleep o s
  end.

Section swp.
Context {W : Type} `{sleeper W}.
Implicit Types w : W.

Lemma swp_ret {A} (a : A) (Q : A -> W -> Prop) w : Q a w -> swp (mret a) Q w.
Proof. done. Qed.

Lemma swp_bind {A B} (m : M W A) (k : A -> M W B) R Q w :
  swp m R w -> (forall a w', R a w' -> swp (k a) Q w') -> swp (m ≫= k) Q w.
Proof. unfold swp, mbind, M_bind. intros Hm Hk. destruct (m w); [by apply Hk|done..]. Qed.

Lemma swp_mono {A} (m : M W A) (Q Q' : A -> W -> Prop) w :
  swp m Q w -> (forall a w', Q a w' -> Q' a w') -> swp m Q' w.
Proof. unfold swp. destruct (m w); auto. Qed.

(** A step of one component that returns. *)
Lemma swp_zoom {S A B} (rd : W -> S) wr (m : M S A) (k : A -> M W B) R Q w :
  wp m R (rd w) -> (forall a s, R a s -> swp (k a) Q (wr s w)) -> swp (zoom rd wr m ≫= k) Q w.
Proof.
  unfold swp, wp, zoom, mbind, M_bind. intros Hm Hk. destruct (m (rd w)); [by apply Hk|done..].
Qed.

Lemma swp_zoom_eq {S A B} (rd : W -> S) wr (m : M S A) (k : A -> M W B) a s Q w :
  m (rd w) = Ok a s -> swp (k a) Q (wr s w) -> swp (zoom rd wr m ≫= k) Q w.
Proof. unfold swp, zoom, mbind, M_bind. by intros ->. Qed.

(** A step of one component that depends on the device. *)
Lemma swp_on {S} `{sleeper S} {A} (rd : W -> S) wr (m : M S A) Q w :
  (forall o s, asleep o s -> asleep o (wr s w)) ->
  swp m (fun a s => Q a (wr s w)) (rd w) -> swp (zoom rd wr m) Q w.
Proof. unfold swp, zoom. intros Hs. destruct (m (rd w)) as [| |[]]; simpl; auto. Qed.

Lemma swp_on_bind {S} `{sleeper S} {A B} (rd : W -> S) wr (m : M S A) (k : A -> M W B) R Q w :
  (forall o s, asleep o s -> asleep o (wr s w)) ->
  swp m R (rd w) -> (forall a s, R a s -> swp (k a) Q (wr s w)) -> swp (zoom rd wr m ≫= k) Q w.
Proof.
  unfold swp, zoom, mbind, M_bind. intros Hs Hm Hk. destruct (m (rd w)) as [| |[]]; simpl;
    [by apply Hk|done|done|by apply Hs].
Qed.

Lemma swp_gets {A B} (f : W -> A) (k : A -> M W B) Q w :
  swp (k (f w)) Q w -> swp (gets f ≫= k) Q w.
Proof. done. Qed.
End swp.

(** What the device does during a wait. *)
Lemma run_events_swp `{V : virtqueue, !virtqueue_ok V} evs (w : world) :
  rx_inv w -> swp (run_events evs) (fun _ w' => rx_ok w w') w.
Proof.
  intros Hi. pose proof (run_events_safe evs w Hi) as Hs. unfold rx_safe in Hs. unfold swp.
  destruct (run_events evs w); [done|by apply rx_fault_device|done].
Qed.

(** ** A request the device answers *)

Section answered.
Context `{V : virtqueue, !virtqueue_ok V}.
Implicit Types w : world.

Lemma run_events_app before after w w2 :
  run_events before w = Ok () w2 -> run_events (before ++ after) w = run_events after w2.
Proof.
  revert w. induction before as [|ev l IH]; intros w; [by intros [= <-]|].
  cbn [run_events app]. unfold mbind, M_bind. by destruct (run_event ev w) as [[] w1| |]; [apply IH|..].
Qed.

(** The next response in the receive queue is [rsp]; [only] says that it is
    the last one. *)
Definition answer_ready (a : apps) (rsp : virt_rsp) (only : Prop) : Prop :=
  exists p q1, virtqueue_get_buf (rvq a) = (Some (p, u32 (h_len (r_hdr rsp))), q1) /\ rxmem a p = rsp /\
    (only -> fst (virtqueue_get_buf q1) = None).

(** The message [mp] was completed at least [d] times. *)
Definition completed (d : Z) (mp : ptr) w : Prop := exists m, msgs (w_apps w) !! mp = Some m /\ d <= work_done m.

Lemma recv_single_answered d mp rsp len w err w' :
  rx_inv w -> completed d mp w -> recv_single rsp len w = Ok err w' -> completed d mp w'.
Proof.
  intros Hinv (m & Hm & Hd) E.
  assert (forall mq mqm dq x f, msgs (w_apps w) !! mq = Some mqm -> work_done mqm <= dq ->
    completed d mp ((rsp_stored mq rsp mqm dq w) <| w_cx := x |> <| w_fl := f |>)) as Hst.
  { intros mq mqm dq x f Hq Hle. unfold completed. simpl. rewrite lookup_insert. case_decide; [|by eauto].
    subst. simplify_eq. eexists. split; [done|]. simpl. lia. }
  destruct (recv_single_cases rsp len w Hinv) as [(_ & E')|(_ & [(_ & E')|[(_ & E')|
    (mq & mqm & _ & Hq & _ & [(c & x & _ & _ & _ & [(_ & E')|(_ & E')])|(_ & E')])]])];
    rewrite E' in E; simplify_eq; try by eexists.
  - by apply Hst.
  - destruct (Hst mq mqm (work_done mqm + 1) (w_cx w) (w_fl w)) as (m' & ? & ?); [done|lia|]. by eexists.
Qed.

Lemma rvq_get_answered d mp w r a' : completed d mp w -> rvq_get_buf (w_apps w) = Ok r a' -> completed d mp (w <| w_apps := a' |>).
Proof.
  intros (m & Hm & Hd). unfold rvq_get_buf. run_apps. destruct (virtqueue_get_buf _) as [[[p l]|] q].
  all: intros [= <- <-]; by exists m.
Qed.

Lemma recv_loop_answered d mp fuel rsp len w w' :
  rx_inv w -> in_hand rsp w -> completed d mp w -> recv_loop fuel rsp len w = Ok () w' -> completed d mp w'.
Proof.
  revert rsp len w. induction fuel as [|fuel IH]; intros rsp len w Hinv Hh Ha; [done|].
  cbn [recv_loop]. unfold mbind, M_bind, mret, M_ret, on_apps, zoom.
  pose proof (recv_single_safe rsp len w Hinv Hh) as Hs. unfold rx_safe in Hs.
  destruct (recv_single rsp len w) as [err w1| |] eqn:Es; [|done..]. destruct Hs as [_ Hi1].
  pose proof (recv_single_answered d mp rsp len w err w1 Hinv Ha Es) as Ha1.
  destruct (negb (err =? 0)); [by intros [= <-]|].
  destruct (rvq_get_frame w1 Hi1) as (r & a' & Eg & [_ Hi2] & Ho). rewrite Eg.
  pose proof (rvq_get_answered d mp w1 r a' Ha1 Eg) as Ha2. destruct r as [[p l]|]; [|by intros [= <-]].
  by apply IH; [|destruct Ho|].
Qed.

Lemma run_events_answered d mp l w w' : rx_inv w -> completed d mp w -> run_events l w = Ok () w' -> completed d mp w'.
Proof.
  revert w. induction l as [|ev l IH]; intros w Hinv Ha; [by intros [= <-]|].
  cbn [run_events]. unfold mbind, M_bind. pose proof (run_event_safe ev w Hinv) as Hs. unfold rx_safe in Hs.
  destruct (run_event ev w) as [[] w1| |] eqn:E; [|done..]. destruct Hs as [_ Hi1]. apply IH; [done|].
  destruct ev as [s r wr|]; cbn [run_event] in E.
  - unfold on_apps, zoom, modify in E. injection E as <-. destruct Ha as (m & Hm & Hd). exists m. simpl.
    by destruct (dev_write_fields (w_apps w) wr) as (f & -> & _).
  - revert E. unfold recv_done, gets, mbind, M_bind, on_apps, zoom.
    destruct (rvq_get_frame w Hinv) as (r & a' & Eg & [_ Hi2] & Ho). rewrite Eg.
    pose proof (rvq_get_answered d mp w r a' Ha Eg) as Ha2. destruct r as [[p l']|]; [|by intros [= <-]].
    by apply recv_loop_answered; [|destruct Ho|].
Qed.

(** The interrupt that finds the answer completes the message. *)
Lemma interrupt_answers rsp only w mp m i w' :
  rx_inv w -> answer_ready (w_apps w) rsp only -> u16 (h_msgid (r_hdr rsp)) = Z.of_nat i ->
  msgtable (w_apps w) !! i = Some (Some mp) -> msgs (w_apps w) !! mp = Some m -> msg_ctx m = None ->
  recv_done w = Ok () w' ->
  completed (work_done m + 1) mp w' /\
  (only -> exists m' p, msgs (w_apps w') !! mp = Some m' /\ rxbuf m' = Some p /\ rxmem (w_apps w') p = rsp).
Proof.
  intros Hinv (p & q1 & Eg & Erm & Hon) Hid Hslot Hm Hctx.
  set (w2 := w <| w_apps := (w_apps w) <| rvq := q1 |> <| rx_held := {[+ p +]} ⊎ rx_held (w_apps w) |> |>).
  assert (rvq_get_buf (w_apps w) = Ok (Some (p, u32 (h_len (r_hdr rsp)))) (w_apps w2)) as E2.
  { unfold rvq_get_buf. run_apps. by rewrite Eg. }
  destruct (rvq_get_frame w Hinv) as (r2 & a2 & E2' & [_ Hi2] & Ho). rewrite E2 in E2'. injection E2' as <- <-.
  destruct Ho as [_ Hh]. set (w3 := rsp_stored mp p m (work_done m + 1) w2).
  assert (rx_inv w2) as Hi2' by exact Hi2.
  assert (recv_single p (u32 (h_len (r_hdr rsp))) w2 = Ok 0 w3) as E3.
  { destruct (recv_single_cases p (u32 (h_len (r_hdr rsp))) w2 Hi2') as [(Hl & _)|(_ & Hc)]; simpl in *; rewrite Erm in *; [done|].
    rewrite Hid, Nat2Z.id in Hc.
    destruct Hc as [(Hge & _)|[(Hno & _)|(mp' & m' & Hsl & Hm' & _ & Hc)]].
    - apply lookup_lt_Some in Hslot. rewrite (ai_table _ (ri_apps _ Hinv)) in Hslot. unfold FASTRPC_MSG_MAX in Hslot. lia.
    - congruence.
    - assert (mp' = mp) as -> by congruence. assert (m' = m) as -> by congruence.
      destruct Hc as [(c & x & Hx & _)|(_ & E)]; [congruence|done]. }
  assert (rx_inv w3) as Hi3.
  { pose proof (recv_single_safe p (u32 (h_len (r_hdr rsp))) w2 Hi2' Hh) as Hs. unfold rx_safe in Hs. rewrite E3 in Hs. apply Hs. }
  assert (completed (work_done m + 1) mp w3) as Ha3 by (eexists; split; [apply lookup_insert_eq|simpl; lia]).
  unfold recv_done, mbind, M_bind, gets, on_apps, zoom. rewrite E2. cbn [recv_loop]. unfold mbind, M_bind.
  change (w <| w_apps := w_apps w2 |>) with w2. rewrite E3. cbn [negb Z.eqb]. unfold on_apps, zoom.
  destruct (rvq_get_frame w3 Hi3) as (r3 & a3 & E4 & [_ Hi4] & Ho4). rewrite E4.
  pose proof (rvq_get_answered _ _ _ _ _ Ha3 E4) as Ha4. destruct r3 as [[p' l']|].
  - intros E. split; [by eapply recv_loop_answered; [|destruct Ho4| |exact E]|]. intros H. exfalso.
    revert E4. unfold rvq_get_buf. run_apps. specialize (Hon H). by destruct (virtqueue_get_buf q1) as [[]].
  - intros [= <-]. split; [done|]. intros _. revert E4. unfold rvq_get_buf. run_apps.
    destruct (virtqueue_get_buf q1) as [[[]|] q2]; [done|]. intros [= <-]. simpl. rewrite lookup_insert_eq.
    by eexists _, p.
Qed.

(** A request that was sent and answered returns and leaves no trace. *)
Lemma answered_returns {A} evs w w1 w3 mp i m (dflt : A) read :
  in_flight w w1 mp i -> tx_held (w_apps w1) = tx_held (w_apps w) -> run_events evs w1 = Ok () w3 ->
  msgs (w_apps w3) !! mp = Some m -> 0 < work_done m ->
  exists r w', rxbuf m = Some r /\ u16 (h_msgid (r_hdr (rxmem (w_apps w3) r))) = Z.of_nat i /\
    (wait_for_completion evs mp;; take_response mp 0 dflt read) w1 = Ok (read (rxmem (w_apps w3) r)) w' /\
    xfer w w' /\ rx_inv w' /\ tx_held (w_apps w') = tx_held (w_apps w).
Proof.
  intros Hin Eh E Hm Hd. pose proof (wait_in_flight evs _ _ _ _ Hin) as Hw.
  pose proof (run_events_safe evs w1 (in_inv _ _ _ _ Hin)) as Hs. unfold rx_safe in Hs. rewrite E in Hs.
  set (m4 := m <| work_done := work_done m - 1 |>).
  set (w4 := w3 <| w_apps := (w_apps w3) <| msgs := <[mp := m4]> (msgs (w_apps w3)) |> |>).
  assert (wait_for_completion evs mp w1 = Ok () w4) as Ew.
  { unfold wait_for_completion, mbind, M_bind. rewrite E. unfold on_apps, zoom, msg_load. rewrite Hm. zdec.
    unfold msg_store. simpl. by rewrite Hm. }
  rewrite Ew in Hw. destruct Hw as (Hin4 & Eh4 & m' & r & Hm4 & Hr).
  assert (m' = m4) as -> by (unfold w4 in Hm4; simpl in Hm4; rewrite lookup_insert_eq in Hm4; by injection Hm4 as <-).
  destruct (in_flight_release _ _ _ _ _ Hin4 Hm4) as (a5 & E5 & Hx & Hi & Eh5). rewrite Hr in E5.
  exists r. eexists. split; [done|]. split.
  - destruct (ri_msg _ (proj2 Hs) mp m Hm) as [_ Hid]. rewrite (Hid r Hr).
    destruct (in_msg _ _ _ _ (in_flight_frame _ _ _ _ _ Hin Hs)) as (m' & Hm' & Eid). congruence.
  - unfold mbind at 1, M_bind at 1. rewrite Ew. assert (rxmem (w_apps w4) r = rxmem (w_apps w3) r) as <- by done.
    clearbody w4 m4. unfold take_response, mbind, M_bind, on_apps, zoom, gets, msg_load. rewrite Hm4, Hr. simpl. rewrite E5.
    split; [done|]. split; [done|]. split; [done|]. simpl. by rewrite Eh5, Eh4.
Qed.

(** [mp] holds the request [v], in the send queue, and nothing else differs. *)
Definition request_out (v : vmsg) (mp : ptr) (i : nat) w w1 : Prop :=
  in_flight w w1 mp i /\ tx_held (w_apps w1) = tx_held (w_apps w) /\ rx_part (w_apps w1) = rx_part (w_apps w) /\
  w1 = w <| w_apps := w_apps w1 |> /\
  exists buf, msgs (w_apps w1) !! mp = Some {| work_done := 0; msg_ctx := None; msgid := Z.of_nat i;
                                              txbuf := Some buf; rxbuf := None |} /\
    txmem (w_apps w1) !! buf = Some v /\ buf ∈ vq_owned (svq (w_apps w1)).

Lemma transact_sent {A} e session cmd size extent build (dflt : A) read w i :
  rx_inv w -> extent <= u32 size <= buf_size (w_apps w) -> (forall h, is_Some (build h)) ->
  me_kzalloc e = true -> find_slot (msgtable (w_apps w)) 0 = Some i -> tx_ready (w_apps w) ->
  (forall buf, fst (virtqueue_add_outbuf (svq_next (w_apps w)) buf (u32 size)) = 0) ->
  exists mp w1 v, build (mk_hdr session (w_fl w) (me_pid e) cmd size (Z.of_nat i)) = Some v /\
    request_out v mp i w w1 /\
    transact e session cmd size extent build dflt read w =
      (wait_for_completion (me_events e) mp;; take_response mp 0 dflt read) w1.
Proof.
  intros Hinv [Hext Hsize] Hbuild Hkz Hslot Htx Hadd. unfold transact, mbind at 1, M_bind at 1, on_apps at 1, zoom.
  destruct (alloc_in_flight (me_kzalloc e) size w Hinv) as
    [(a' & _ & _ & _ & _ & _ & Hwhy)|(mp & i' & buf & a' & -> & Hin & Hm & _ & Hsz & Eh & Hslot' & Ervq & Esvq)].
  { exfalso. destruct Hwhy as [?|[?|[?|?]]]; [lia|congruence|congruence|done]. }
  assert (i' = i) as -> by congruence. unfold mbind, M_bind, mret, M_ret, on_apps, zoom, gets, msg_load. simpl. rewrite Hm. simpl.
  destruct (Hbuild (mk_hdr session (w_fl w) (me_pid e) cmd size (Z.of_nat i))) as [v Ev]. rewrite Ev.
  erewrite tx_fill_eq by (done || simpl; lia). simpl.
  match goal with |- context [vfastrpc_txbuf_send _ _ ?x] => set (a2 := x) end.
  assert (in_flight w (w <| w_apps := a' |> <| w_apps := a2 |>) mp i) as Hin2.
  { apply in_flight_apps; try done. destruct (ri_apps _ (in_inv _ _ _ _ Hin)). by split. }
  destruct (txbuf_send_ok buf (u32 size) a2) as (err & q & Eq & Es & Ha3).
  { apply (in_inv _ _ _ _ Hin2). } { simpl. rewrite Eh. multiset_solver. }
  assert (err = 0) as ->. { specialize (Hadd buf). simpl in Eq. rewrite Esvq in Eq. by rewrite Eq in Hadd. }
  rewrite Es. cbn [Z.eqb negb] in Es, Ha3 |- *.
  set (a3 := a2 <| svq := virtqueue_kick q |> <| tx_held := tx_held a2 ∖ {[+ buf +]} |>) in *.
  exists mp, (w <| w_apps := a3 |>), v. split; [done|]. split; [|done]. split_and!; [|simpl; rewrite Eh; multiset_solver|done|done|].
  { exact (in_flight_apps _ _ _ _ _ Hin2 Ha3 eq_refl eq_refl eq_refl eq_refl eq_refl). }
  exists buf. split; [exact Hm|]. split; [apply lookup_insert_eq|]. simpl. rewrite kick_owned.
  apply add_outbuf_owned in Eq. simpl in Eq. rewrite Eq. multiset_solver.
Qed.

(** C30: a request the device answers returns the device's answer.  Take a
    command whose request fits a tx buffer, an empty slot in the table, a tx
    buffer that was never used or that the device has finished with, memory,
    and a send queue that takes the request.  Then the request goes out with
    the id of the first empty slot, and for every trace of device events
    during the wait that breaks no rule of the protocol (the interrupt
    handler runs through it): if some interrupt of the trace finds a response
    with that id and the right length first in the receive queue, the request
    returns what it reads out of a response with that id, and out of that
    very response when it was the last one delivered; the message table, the
    live messages, the tx buffers taken and the set of rx buffers are as
    before the request. *)
Theorem request_answered {A} e session cmd size extent build (dflt : A) read w i :
  rx_inv w -> extent <= u32 size <= buf_size (w_apps w) -> (forall h, is_Some (build h)) ->
  me_kzalloc e = true -> find_slot (msgtable (w_apps w)) 0 = Some i -> tx_ready (w_apps w) ->
  (forall buf, fst (virtqueue_add_outbuf (svq_next (w_apps w)) buf (u32 size)) = 0) ->
  exists mp w1 v, build (mk_hdr session (w_fl w) (me_pid e) cmd size (Z.of_nat i)) = Some v /\
    request_out v mp i w w1 /\
    forall before after w2 w3 rsp,
      me_events e = before ++ EvInterrupt :: after -> run_events before w1 = Ok () w2 ->
      run_events (me_events e) w1 = Ok () w3 ->
      answer_ready (w_apps w2) rsp (after = []) -> u16 (h_msgid (r_hdr rsp)) = Z.of_nat i ->
      exists rsp' w', transact e session cmd size extent build dflt read w = Ok (read rsp') w' /\
        u16 (h_msgid (r_hdr rsp')) = Z.of_nat i /\ (after = [] -> rsp' = rsp) /\
        xfer w w' /\ rx_inv w' /\ tx_held (w_apps w') = tx_held (w_apps w).
Proof.
  intros Hinv Hext Hbuild Hkz Hslot Htx Hadd.
  destruct (transact_sent e session cmd size extent build dflt read w i) as (mp & w1 & v & Ev & Hout & Et); try done.
  exists mp, w1, v. split; [done|]. split; [done|]. intros before after w2 w3 rsp Eev E2 E3 Hrdy Hid.
  destruct Hout as (Hin & Eh & _ & _ & buf & Hm & _). rewrite Et.
  assert (completed 0 mp w1) as Ha1 by (eexists; split; [exact Hm|done]).
  pose proof (run_events_safe before w1 (in_inv _ _ _ _ Hin)) as Hs2. unfold rx_safe in Hs2. rewrite E2 in Hs2.
  pose proof (in_flight_frame _ _ _ _ _ Hin Hs2) as Hin2.
  destruct (run_events_answered 0 mp before w1 w2 (in_inv _ _ _ _ Hin) Ha1 E2) as (m2 & Hm2 & Hd2).
  assert (msg_ctx m2 = None) as Hc2.
  { pose proof (rf_msgs _ _ (proj1 Hs2) mp) as Hf. rewrite Hm, Hm2 in Hf. inversion Hf as [? ? [_ Hc _]|]; subst. exact Hc. }
  assert (msgtable (w_apps w2) !! i = Some (Some mp)) as Hsl2.
  { rewrite (in_table _ _ _ _ Hin2), list_lookup_insert_eq; [done|]. eapply lookup_lt_Some, (in_slot _ _ _ _ Hin2). }
  assert (run_events (EvInterrupt :: after) w2 = Ok () w3) as E23.
  { by rewrite Eev, (run_events_app _ _ _ _ E2) in E3. }
  cbn [run_events run_event] in E23. unfold mbind, M_bind in E23.
  pose proof (recv_done_safe w2 (in_inv _ _ _ _ Hin2)) as Hs4. unfold rx_safe in Hs4.
  destruct (recv_done w2) as [[] w4| |] eqn:E4; [|done..].
  destruct (interrupt_answers rsp (after = []) w2 mp m2 i w4 (in_inv _ _ _ _ Hin2) Hrdy Hid Hsl2 Hm2 Hc2 E4) as [Ha4 Hlast].
  destruct (run_events_answered _ mp after w4 w3 (proj2 Hs4) Ha4 E23) as (m3 & Hm3 & Hd3).
  destruct (answered_returns (me_events e) w w1 w3 mp i m3 dflt read Hin Eh E3 Hm3)
    as (r & w' & Hr & Hidr & E & Hx & Hi & Ehx); [lia|].
  exists (rxmem (w_apps w3) r), w'. split_and!; try done. intros ->.
  cbn [run_events] in E23. injection E23 as <-. destruct (Hlast eq_refl) as (m' & p & Hm' & Hp & Erm). congruence.
Qed.
End answered.
