(* ===== verification/MapOps.v ===== *)
(** * Mapping memory into the DSP (virtio_fastrpc_core.c)

    The map and unmap commands sent to the device, and the ioctl handlers
    [vfastrpc_internal_mmap], [vfastrpc_internal_munmap],
    [vfastrpc_internal_munmap_fd], [vfastrpc_internal_mem_map] and
    [vfastrpc_internal_mem_unmap].  The handlers run under
    [fl->internal_map_mutex]. *)
From S2P Require Import Prelude Shared Mmap Pages Buf Apps World Transact.

Definition VFASTRPC_MAP_ATTR_CACHED : Z := 1.

Section ops.
Context `{HS : adsprpc_shared, KC : kernel_config, V : virtqueue}.

(** [err = rsp->hdr.result], an [int] from a [u32]. *)
Definition rsp_err (r : virt_rsp) : Z := s32 (h_result (r_hdr r)).

(** ** Commands *)

Definition virt_fastrpc_munmap (e : msg_env) (raddr size : Z) : M world Z :=
  r ← transact e true VIRTIO_FASTRPC_CMD_MUNMAP sizeof_munmap_msg sizeof_munmap_msg
        (fun h => Some (VirtMunmap h raddr size)) () (fun r => (rsp_err r, ()));
  mret r.1.

(** The entries [for_each_sg] visits; [None] if it runs off the table. *)
Definition first_sg (table : list scatterlist) (n : Z) : option (list scatterlist) :=
  if Z.of_nat (length table) <? n then None else Some (take (Z.to_nat n) table).

(** [sgbuf_size] and [total_size], computed in [int]. *)
Definition map_msg_size (fixed nents : Z) : Z := s32 (fixed + s32 (nents * sizeof_sgl)).

Definition mmap_sgl (g : scatterlist) : virt_fastrpc_sgl :=
  if negb (sg_dma_len g =? 0) then Sgl (sg_dma_address g) (sg_dma_len g)
  else Sgl (sg_phys g) (sg_length g).

(** The error code and, on success, what [*raddr] is assigned. *)
Definition virt_fastrpc_mmap (e : msg_env) (flags : Z) (table : list scatterlist)
    (mmap : virt_fastrpc_mapping) : M world (Z * option Z) :=
  let total_size := map_msg_size sizeof_mmap_msg (mp_nents mmap) in
  transact e true VIRTIO_FASTRPC_CMD_MMAP total_size
    (sizeof_mmap_msg + mp_nents mmap * sizeof_sgl)
    (fun h => (fun sgs => VirtMmap h flags 0 mmap (map mmap_sgl sgs)) <$>
              first_sg table (mp_nents mmap)) None
    (fun r => (rsp_err r, if rsp_err r =? 0 then Some (r_vdsp r) else None)).

Definition virt_fastrpc_mem_map (e : msg_env) (offset flags attrs : Z)
    (vmmap : virt_fastrpc_mapping) (table : list scatterlist) : M world (Z * option Z) :=
  let total_size := map_msg_size sizeof_mem_map_msg (mp_nents vmmap) in
  transact e false VIRTIO_FASTRPC_CMD_MEM_MAP total_size
    (sizeof_mem_map_msg + mp_nents vmmap * sizeof_sgl)
    (fun h => (fun sgs => VirtMemMap h offset flags attrs 0 vmmap
                (map (fun g => Sgl (sg_dma_address g) (sg_dma_len g)) sgs)) <$>
              first_sg table (mp_nents vmmap)) None
    (fun r => (rsp_err r, if rsp_err r =? 0 then Some (r_raddr r) else None)).

Definition virt_fastrpc_mem_unmap (e : msg_env) (fd size raddr : Z) : M world Z :=
  r ← transact e false VIRTIO_FASTRPC_CMD_MEM_UNMAP sizeof_mem_unmap_msg sizeof_mem_unmap_msg
        (fun h => Some (VirtMemUnmap h fd size raddr)) () (fun r => (rsp_err r, ()));
  mret r.1.

(** ** [vfastrpc_internal_mmap] *)

(** Adding pages for the DSP heap: a remote buffer.  The result is the error
    code and what [ud->vaddrout] is assigned. *)
Definition mmap_add_pages (ae : alloc_env) (me : msg_env) (vaddrin size flags : Z)
    : M world (Z * option Z) :=
  if negb (vaddrin =? 0) then mret (- EINVAL, None)
  else
    r ← on_bf (vfastrpc_buf_alloc ae size DMA_ATTR_NO_KERNEL_MAPPING flags 1);
    if negb (r.1 =? 0) then mret (r.1, None)
    else match r.2 with
    | None => fail NullDeref
    | Some p =>
      b ← on_bf (bload p);
      match b_sgt b with
      | None => fail NullDeref
      | Some t =>
        x ← virt_fastrpc_mmap me flags (sg_entries t)
              {| mp_fd := -1; mp_refcount := 1; mp_va := 0; mp_attr := 0;
                 mp_len := b_size b; mp_nents := nents t |};
        if negb (x.1 =? 0) then mret (x.1, None)
        else
          let raddr := default 0 x.2 in
          b ← on_bf (bload p);
          on_bf (bstore p (b <| b_raddr := raddr |>));;
          mret (0, Some raddr)
      end
    end.

(** Mapping the caller's dma-buf. *)
Definition mmap_user_fd (ce : create_env) (me : msg_env) (fd vaddrin size flags : Z)
    : M world (Z * option Z) :=
  r ← on_mm (vfastrpc_mmap_create ce fd 0 vaddrin size flags);
  let err := VERIFY 0 (r.1 =? 0) in
  if negb (err =? 0) then mret (err, None)
  else match r.2 with
  | None => fail NullDeref
  | Some p =>
    m ← on_mm (load p);
    match m_table m with
    | None => fail NullDeref
    | Some t =>
      x ← virt_fastrpc_mmap me flags (sg_entries t)
            {| mp_fd := m_fd m; mp_refcount := m_refs m;
               mp_va := if is_heap_addr flags then 0 else m_va m;
               mp_len := m_size m; mp_attr := VFASTRPC_MAP_ATTR_CACHED; mp_nents := nents t |};
      let err := VERIFY 0 (x.1 =? 0) in
      if negb (err =? 0) then
        on_mm (vfastrpc_mmap_free (Some p) 0);; mret (err, None)
      else
        let raddr := default 0 x.2 in
        m ← on_mm (load p);
        on_mm (store p (m <| m_raddr := raddr |>));;
        mret (0, Some raddr)
    end
  end.

Definition vfastrpc_internal_mmap (ce : create_env) (ae : alloc_env) (me : msg_env)
    (fd vaddrin size flags : Z) : M world (Z * option Z) :=
  f ← gets w_fl;
  if negb (VERIFY 0 (fl_dsp_proc_init f =? 1) =? 0) then mret (- EBADR, None)
  else if flags =? ADSP_MMAP_ADD_PAGES then mmap_add_pages ae me vaddrin size flags
  else mmap_user_fd ce me fd vaddrin size flags.

(** ** [vfastrpc_internal_munmap] *)

(** The search of [fl->remote_bufs] for the pages at [vaddrout]. *)
Fixpoint find_remote (l : list ptr) (vaddrout size : Z) : M bufs (option ptr) :=
  match l with
  | [] => mret None
  | p :: l' =>
    b ← bload p;
    if negb (b_raddr b =? 0) && (b_flags b =? ADSP_MMAP_ADD_PAGES) &&
       ((b_raddr b =? vaddrout) && (b_size b =? size))
    then mret (Some p)
    else find_remote l' vaddrout size
  end.

Definition munmap_map (me : msg_env) (vaddrout size : Z) : M world Z :=
  r ← on_mm (vfastrpc_mmap_remove (-1) vaddrout size);
  let err := VERIFY 0 (r.1 =? 0) in
  if negb (err =? 0) then mret err
  else match r.2 with
  | None => fail NullDeref
  | Some p =>
    m ← on_mm (load p);
    res ← virt_fastrpc_munmap me (m_raddr m) (m_size m);
    let err := VERIFY 0 (res =? 0) in
    if negb (err =? 0) then on_mm (vfastrpc_mmap_add p);; mret err
    else on_mm (vfastrpc_mmap_free (Some p) 0);; mret err
  end.

Definition vfastrpc_internal_munmap (me : msg_env) (vaddrout size : Z) : M world Z :=
  f ← gets w_fl;
  if negb (VERIFY 0 (fl_dsp_proc_init f =? 1) =? 0) then mret (- EBADR)
  else
    l ← gets (fun w => bf_remote (w_bf w));
    fr ← on_bf (find_remote l vaddrout size);
    match fr with
    | Some p =>
      b ← on_bf (bload p);
      res ← virt_fastrpc_munmap me (b_raddr b) (b_size b);
      let err := VERIFY 0 (res =? 0) in
      if negb (err =? 0) then mret err
      else on_bf (vfastrpc_buf_free (Some p) 0);; mret err
    | None => munmap_map me vaddrout size
    end.

(** ** [vfastrpc_internal_mem_map] and [vfastrpc_internal_mem_unmap] *)

Definition vfastrpc_internal_mem_map (ce : create_env) (me : msg_env)
    (fd attrs vaddrin length flags offset : Z) : M world (Z * option Z) :=
  f ← gets w_fl;
  if negb (VERIFY 0 (fl_dsp_proc_init f =? 1) =? 0) then mret (EBADR, None)
  else
    r ← on_mm (vfastrpc_mmap_create ce fd attrs vaddrin length flags);
    let err := VERIFY 0 (r.1 =? 0) in
    if negb (err =? 0) then mret (err, None)
    else match r.2 with
    | None => fail NullDeref
    | Some p =>
      m ← on_mm (load p);
      if negb (m_raddr m =? 0) then
        on_mm (vfastrpc_mmap_free (Some p) 0);; mret (- EEXIST, None)
      else match m_table m with
      | None => fail NullDeref
      | Some t =>
        x ← virt_fastrpc_mem_map me offset flags attrs
              {| mp_fd := m_fd m; mp_refcount := m_refs m; mp_va := m_va m; mp_len := m_size m;
                 mp_attr := VFASTRPC_MAP_ATTR_CACHED; mp_nents := nents t |} (sg_entries t);
        match x.2 with
        | Some v => m ← on_mm (load p); on_mm (store p (m <| m_raddr := v |>))
        | None => mret ()
        end;;
        if negb (x.1 =? 0) then on_mm (vfastrpc_mmap_free (Some p) 0);; mret (x.1, None)
        else m ← on_mm (load p); mret (0, Some (m_raddr m))
      end
    end.

(** The error exit of [vfastrpc_internal_mem_unmap]: the map goes back. *)
Definition mem_unmap_restore (p : ptr) : M mmaps () :=
  m ← load p;
  when (keep_map m) (store p (m <| m_refs := s32 (m_refs m + 1) |>));;
  vfastrpc_mmap_add p.

Definition vfastrpc_internal_mem_unmap (me : msg_env) (fd vaddr length : Z) : M world Z :=
  f ← gets w_fl;
  if negb (VERIFY 0 (fl_dsp_proc_init f =? 1) =? 0) then mret EBADR
  else
    r ← on_mm (vfastrpc_mmap_remove fd vaddr length);
    let err := VERIFY 0 (r.1 =? 0) in
    if negb (err =? 0) then mret err
    else match r.2 with
    | None => fail NullDeref
    | Some p =>
      m ← on_mm (load p);
      let err := VERIFY 0 ((m_flags m =? FASTRPC_MAP_FD) || (m_flags m =? FASTRPC_MAP_FD_DELAYED) ||
                           (m_flags m =? FASTRPC_MAP_STATIC)) in
      if negb (err =? 0) then on_mm (mem_unmap_restore p);; mret (- EBADMSG)
      else
        err ← virt_fastrpc_mem_unmap me (m_fd m) (m_size m) (m_raddr m);
        if negb (err =? 0) then on_mm (mem_unmap_restore p);; mret err
        else on_mm (vfastrpc_mmap_free (Some p) 0);; mret 0
    end.

(** ** [vfastrpc_internal_munmap_fd] *)

Fixpoint find_cmd (l : list virt_fastrpc_cmd) (pid cmd : Z)
    : option ptr * list virt_fastrpc_cmd :=
  match l with
  | [] => (None, [])
  | c :: l' =>
    if (vc_tid c =? u32 pid) && (vc_cmd c =? cmd) then (Some (vc_msg c), l')
    else let '(r, k) := find_cmd l' pid cmd in (r, c :: k)
  end.

(** The message of a command this thread was interrupted in, taken off the list. *)
Definition find_interrupted_cmds (pid cmd : Z) : M world (option ptr) :=
  f ← gets w_fl;
  let '(r, l) := find_cmd (fl_interrupted_cmds f) pid cmd in
  on_fl (put (f <| fl_interrupted_cmds := l |>));;
  mret r.

Definition save_interrupted_cmds (kzalloc : bool) (mp : ptr) (pid cmd : Z) : M world Z :=
  let err := VERIFY 0 kzalloc in
  if negb (err =? 0) then mret err
  else
    on_fl (modify (fun f => f <| fl_interrupted_cmds :=
      {| vc_msg := mp; vc_tid := u32 pid; vc_cmd := cmd |} :: fl_interrupted_cmds f |>));;
    mret 0.

(** What is added to [msg_env] by an interruptible wait: whether a signal
    ends it, and whether the [kzalloc] of [save_interrupted_cmds] succeeds. *)
Record fd_env := { fe_msg : msg_env; fe_signal : bool; fe_kzalloc : bool }.

(** From the label [wait] of [virt_fastrpc_munmap_fd]. *)
Definition munmap_fd_wait (e : fd_env) (mp : ptr) : M world Z :=
  interrupted ← wait_for_completion_interruptible (me_events (fe_msg e)) (fe_signal e) mp;
  if negb (interrupted =? 0) then
    save_interrupted_cmds (fe_kzalloc e) mp (me_pid (fe_msg e)) VIRTIO_FASTRPC_CMD_MUNMAP_FD
  else
    r ← take_response mp 0 () (fun r => (rsp_err r, ()));
    mret r.1.

Definition virt_fastrpc_munmap_fd (e : fd_env) (fd flags va len map_entries : Z)
    (interrupted_msg : option ptr) : M world Z :=
  match interrupted_msg with
  | Some mp => munmap_fd_wait e mp
  | None =>
    op ← on_apps (virt_alloc_msg (me_kzalloc (fe_msg e)) sizeof_munmap_fd_msg);
    match op with
    | None => mret (- ENOMEM)
    | Some mp =>
      m ← on_apps (msg_load mp);
      f ← gets w_fl;
      on_apps (tx_fill mp sizeof_munmap_fd_msg
        (VirtMunmapFd (mk_hdr true f (me_pid (fe_msg e)) VIRTIO_FASTRPC_CMD_MUNMAP_FD
           sizeof_munmap_fd_msg (msgid m)) fd flags map_entries va len));;
      match txbuf m with
      | None => fail NullDeref
      | Some buf =>
        err ← on_apps (vfastrpc_txbuf_send buf sizeof_munmap_fd_msg);
        if negb (err =? 0) then on_apps (release_msg mp None);; mret err
        else munmap_fd_wait e mp
      end
    end
  end.

Definition vfastrpc_internal_munmap_fd (e : fd_env) (fd flags va len : Z) : M world Z :=
  f ← gets w_fl;
  if negb (VERIFY 0 (fl_dsp_proc_init f =? 1) =? 0) then mret (- EBADR)
  else
    msg ← find_interrupted_cmds (me_pid (fe_msg e)) VIRTIO_FASTRPC_CMD_MUNMAP_FD;
    match msg with
    | Some mp =>
      err1 ← virt_fastrpc_munmap_fd e fd flags va len 0 (Some mp);
      mret (if negb (err1 =? 0) then err1 else 0)
    | None =>
      r ← on_mm (vfastrpc_mmap_remove_fd fd);
      if r.2 =? 0 then mret r.1
      else
        err1 ← virt_fastrpc_munmap_fd e fd flags va len r.2 None;
        mret (if negb (err1 =? 0) then err1 else r.1)
    end.
End ops.
Arguments virt_fastrpc_mmap : simpl never.
Arguments virt_fastrpc_munmap : simpl never.
Arguments virt_fastrpc_mem_map : simpl never.
Arguments virt_fastrpc_mem_unmap : simpl never.
