(* ===== verification/MapFacts.v ===== *)
(** * What the map handlers guarantee *)
From S2P Require Import Prelude Shared Mmap MmapFacts Pages Buf BufFacts Apps AppsFacts World WorldFacts Transact MapOps.

(** ** Scatter tables that fit a message

    Up to this size the [int] arithmetic of the message size does not wrap. *)

Definition small_table (t : sg_table) : Prop := sizeof_mem_map_msg + nents t * sizeof_sgl < 2 ^ 31.

Lemma map_msg_size_small fixed t :
  0 <= fixed <= sizeof_mem_map_msg -> small_table t ->
  map_msg_size fixed (nents t) = fixed + nents t * sizeof_sgl /\
  u32 (map_msg_size fixed (nents t)) = fixed + nents t * sizeof_sgl.
Proof.
  unfold small_table, map_msg_size, sizeof_mem_map_msg, sizeof_hdr, sizeof_mapping, sizeof_sgl.
  intros Hf Ht. assert (0 <= nents t) by (unfold nents; lia).
  rewrite (s32_id (nents t * 16)) by lia. rewrite s32_id by lia. rewrite u32_id; lia.
Qed.

(** Every table of the file's maps is small. *)
Definition small_maps (s : mmaps) : Prop :=
  forall p m t, mm_heap s !! p = Some m -> m_table m = Some t -> small_table t.

Section tables.
Context `{HS : adsprpc_shared, !adsprpc_shared_ok HS}.

Lemma small_set_map s p m m' :
  small_maps s -> mm_heap s !! p = Some m -> m_table m' = m_table m -> small_maps (set_map p m' s).
Proof.
  intros Hs Hp E q mq t. simpl. rewrite lookup_insert. case_decide; [|by apply Hs].
  intros [= <-]. rewrite E. by apply (Hs p).
Qed.

Lemma small_with_new s p m l :
  small_maps s -> (forall t, m_table m = Some t -> small_table t) ->
  small_maps ((with_new p m s) <| mm_list := l |>).
Proof.
  intros Hs Hm q mq t. simpl. rewrite lookup_insert. case_decide; [|by apply Hs].
  intros [= <-]. apply Hm.
Qed.

Lemma free_small om force s :
  mm_inv s -> (forall p, om = Some p -> is_Some (mm_heap s !! p)) -> small_maps s ->
  wp (vfastrpc_mmap_free om force) (fun _ s' => mm_inv s' /\ small_maps s') s.
Proof.
  intros Hinv Hom Hs. pose proof (free_inv om force s Hinv Hom) as Hi. revert Hi. unfold wp.
  destruct om as [p|]; [|done]. destruct (Hom p) as [m Hm]; [done|].
  destruct (inv_counts s Hinv p m Hm) as [Hr Hc].
  destruct (is_heap_addr (m_flags m)) eqn:Hf; [by rewrite (mmap_free_skip _ m) by eauto|].
  destruct (Z.le_gt_cases (m_refs m) 0); [by rewrite (mmap_free_skip _ m) by eauto|].
  destruct (decide (force <> 0 \/ (m_refs m = 1 /\ m_ctx_refs m = 0))) as [Hl|Hl].
  - rewrite (mmap_free_last _ m) by (done || lia). intros ?. split; [done|].
    intros q mq t. simpl. rewrite lookup_delete_Some. intros [_ ?]. by eapply Hs.
  - assert (force = 0) as -> by lia. rewrite (mmap_free_drop _ m) by (done || lia).
    intros ?. split; [done|]. by eapply small_set_map.
Qed.

Lemma small_map_new fd attr mflags b a :
  forall t, m_table (new_map fd attr mflags b a None) = Some t -> small_table t.
Proof. done. Qed.

(** Every map is as it was; there may be new ones, which no context holds and
    which have no address yet. *)
Definition grown (s s' : mmaps) : Prop :=
  forall q, mm_heap s' !! q = mm_heap s !! q \/
    (mm_heap s !! q = None /\ exists m, mm_heap s' !! q = Some m /\ m_ctx_refs m = 0 /\
       m_table m = None /\ m_va m = 0 /\ m_len m = 0).

Lemma grown_new p m s :
  mm_heap s !! p = None -> m_ctx_refs m = 0 -> m_table m = None -> m_va m = 0 -> m_len m = 0 ->
  grown s (with_new p m s).
Proof.
  intros Hp ? ? ? ? q. simpl. rewrite lookup_insert. case_decide; [|by left]. subst. right. eauto 10.
Qed.

(** The undo of a half-built map without a table. *)
Lemma undo_new p fd attr mflags b a s :
  mm_inv s -> mm_heap s !! p = None -> is_heap_addr mflags = false ->
  exists s', vfastrpc_mmap_free (Some p) 0 (with_new p (new_map fd attr mflags b a None) s) = Ok () s' /\
    mm_inv s' /\ (small_maps s -> small_maps s') /\
    (has_bit attr FASTRPC_ATTR_KEEP_MAP = false -> s' = s) /\ grown s s'.
Proof.
  intros Hinv Hp Hf. assert (p ∉ mm_list s) as Hpl by by apply inv_fresh_unlisted.
  set (m := new_map fd attr mflags b a None).
  assert (mm_inv (with_new p m s)) as Hinv1.
  { apply inv_new; try done. unfold counts_ok. simpl. destruct (has_bit _ _); by vm_compute. }
  destruct (has_bit attr FASTRPC_ATTR_KEEP_MAP) eqn:Hk.
  - rewrite (mmap_free_drop p m); [|apply lookup_insert_eq|done|simpl; rewrite Hk; lia|done|
      simpl; rewrite Hk; lia].
    eexists. split; [done|]. split_and!; [|intros Hs|done|].
    + apply (inv_set_map _ p m); try done; [apply lookup_insert_eq|].
      unfold counts_ok. simpl. rewrite Hk. by vm_compute.
    + apply (small_set_map _ p m); [|apply lookup_insert_eq|done].
      by apply (small_with_new s p m (mm_list s)).
    + intros q. simpl. rewrite insert_insert_eq, lookup_insert. case_decide; [|by left].
      subst. right. split; [done|]. by eexists.
  - rewrite (mmap_free_last p m); [|apply lookup_insert_eq|done|simpl; rewrite Hk; lia|done|
      simpl; rewrite Hk; lia].
    rewrite release_with_new by done. exists s. split_and!; try done. intros q. by left.
Qed.

(** How [vfastrpc_mmap_create] ends: an existing map with one more reference,
    a new map at the head of the list, or an error. *)
Lemma create_cases e fd attr va len mflags s :
  mm_inv s ->
  let run := vfastrpc_mmap_create e fd attr va len mflags s in
  (exists p m, first_map (find_match fd va len) (mm_heap s) (mm_list s) = Some (p, m) /\
    m_refs m + 1 < INT_MAX /\ is_heap_addr mflags = false /\ va <= u64 (va + len) /\
    run = Ok (0, Some p) (set_map p (m <| m_refs := m_refs m + 1 |>) s)) \/
  (exists p m, mm_heap s !! p = None /\ is_heap_addr mflags = false /\
    linkable m /\ counts_ok m /\ m_table m = ce_table e /\ m_fd m = fd /\ m_flags m = mflags /\
    m_attr m = attr /\ m_va m = va /\ m_len m = len /\ m_raddr m = 0 /\ m_ctx_refs m = 0 /\
    m_refs m = (if has_bit attr FASTRPC_ATTR_KEEP_MAP then 2 else 1) /\
    run = Ok (0, Some p) ((with_new p m s) <| mm_list := p :: mm_list s |>)) \/
  (exists err s', err <> 0 /\ run = Ok (err, None) s' /\ mm_inv s' /\
    (small_maps s -> small_maps s') /\
    (is_heap_addr mflags = false -> has_bit attr FASTRPC_ATTR_KEEP_MAP = false -> s' = s) /\
    grown s s').
Proof.
  intros Hinv run. subst run.
  assert ((exists p m, first_map (find_match fd va len) (mm_heap s) (mm_list s) = Some (p, m) /\
      m_refs m + 1 < INT_MAX /\ is_heap_addr mflags = false /\ va <= u64 (va + len) /\
      vfastrpc_mmap_find fd va len mflags 1 s =
        Ok (0, Some p) (set_map p (m <| m_refs := m_refs m + 1 |>) s)) \/
    exists r, vfastrpc_mmap_find fd va len mflags 1 s = Ok r s /\ r.1 <> 0)
    as [(p & m & Hfm & Hlt & Hf & Hov & Efind)|(r & Efind & Hne)].
  { unfold vfastrpc_mmap_find. destruct (Z.ltb_spec (u64 (va + len)) va); [right; by eexists|].
    destruct (is_heap_addr mflags); [right; by eexists|]. unfold mbind, M_bind, gets.
    rewrite find_loop_spec by (intros; by apply inv_is_Some).
    destruct (first_map _ _ _) as [[p m]|] eqn:E; [|right; by eexists].
    pose proof E as (_ & Hm & _)%first_map_Some. destruct (inv_counts s Hinv p m Hm) as [Hr _].
    simpl. destruct (Z.eqb_spec (m_refs m + 1) INT_MAX); [right; by eexists|].
    left. exists p, m. rewrite s32_id by (unfold INT_MAX in *; lia). split_and!; [done|lia|done..]. }
  { left. exists p, m. split_and!; [done..|]. unfold vfastrpc_mmap_create, mbind, M_bind.
    by rewrite Efind. }
  right. destruct (ce_kzalloc e) eqn:Hkz.
  2: { right. exists (VERIFY 0 false), s. split; [apply VERIFY_err_nonzero|].
       split; [|split_and!; try done; intros q; by left].
       unfold vfastrpc_mmap_create, mbind, M_bind, kzalloc_map. rewrite Efind, Hkz. by zdec. }
  rewrite (create_unfold _ _ _ _ _ _ _ r) by done.
  set (p := new_ptr (mm_heap s)). assert (mm_heap s !! p = None) as Hp by apply new_ptr_None.
  assert (p ∉ mm_list s) as Hpl by by apply inv_fresh_unlisted.
  destruct (is_heap_addr mflags) eqn:Hf.
  { right. rewrite create_body_heap by done. simpl.
    rewrite (mmap_free_skip p (zero_mmap <| m_flags := mflags |> <| m_refs := 1 |>
      <| m_fd := fd |> <| m_attr := attr |>)) by (apply lookup_insert_eq || by left).
    eexists (- EINVAL), _. split; [done|]. split; [done|]. split_and!; [|intros|done|by apply grown_new].
    - by apply inv_new.
    - by apply (small_with_new s p _ (mm_list s)). }
  rewrite create_body_spec by done.
  destruct (ce_dma_buf e) as [b|]; [destruct (ce_attach e) as [a|]; [destruct (ce_table e) as [t|] eqn:Et|]|];
    rewrite ?VERIFY_err_eqb; [left|right..].
  - match goal with |- context [upd mm_list _ (with_new p ?m s)] => exists p, m end.
    assert (forall x, linkable x <-> is_heap_addr (m_flags x) = false /\
      has_buf x = true /\ has_attach x = true /\ has_table x = true) as Hlk by done.
    rewrite Hlk. split_and!; try done.
    unfold counts_ok. simpl. destruct (has_bit _ _); split; by vm_compute.
  - destruct (undo_new p fd attr mflags (Some b) (Some a) s) as (s' & -> & ?); [done..|].
    exists (VERIFY_err 0), s'. split; [apply VERIFY_err_nonzero|]. naive_solver.
  - destruct (undo_new p fd attr mflags (Some b) None s) as (s' & -> & ?); [done..|].
    exists (VERIFY_err 0), s'. split; [apply VERIFY_err_nonzero|]. naive_solver.
  - destruct (undo_new p fd attr mflags None None s) as (s' & -> & ?); [done..|].
    exists (VERIFY_err 0), s'. split; [apply VERIFY_err_nonzero|]. naive_solver.
Qed.
End tables.

Lemma hlist_del_perm p l : NoDup l -> p ∈ l -> l ≡ₚ p :: hlist_del p l.
Proof.
  intros Hnd (l1 & l2 & ->)%list_elem_of_split.
  apply NoDup_app in Hnd as (_ & Hd & [Hp Hnd2]%NoDup_cons).
  assert (hlist_del p (l1 ++ p :: l2) = l1 ++ l2) as ->; [|by rewrite Permutation_middle].
  unfold hlist_del. rewrite filter_app, filter_cons_False by naive_solver.
  f_equal; apply hlist_del_id; set_solver.
Qed.

(** Freeing links nothing. *)
Lemma mmap_free_list `{adsprpc_shared} p force s s' :
  vfastrpc_mmap_free (Some p) force s = Ok () s' -> forall q, q ∈ mm_list s' -> q ∈ mm_list s.
Proof.
  intros E q Hq. destruct (mm_heap s !! p) as [m|] eqn:Hm.
  2: { unfold vfastrpc_mmap_free, mbind, M_bind, load in E. by rewrite Hm in E. }
  destruct (is_heap_addr (m_flags m)) eqn:Hf; [rewrite (mmap_free_skip _ m) in E by eauto; by simplify_eq|].
  destruct (decide (m_refs m <= 0 \/ m_ctx_refs m < 0)).
  { rewrite (mmap_free_skip _ m) in E by eauto. by simplify_eq. }
  destruct (decide (force <> 0 \/ (m_refs m = 1 /\ m_ctx_refs m = 0))) as [Hl|Hl].
  - rewrite (mmap_free_last _ m) in E by (done || lia). simplify_eq. by apply elem_of_hlist_del in Hq as [? _].
  - assert (force = 0) as -> by lia. rewrite (mmap_free_drop _ m) in E by (done || lia). by simplify_eq.
Qed.

(** ** The invariant of an open file *)

Section file.
Context `{HS : adsprpc_shared, !adsprpc_shared_ok HS}.
Context `{KC : kernel_config, !kernel_config_ok KC}.
Context `{V : virtqueue, !virtqueue_ok V}.
Implicit Types w : world.

(** Saved commands name distinct live messages. *)
Definition cmds_ok (l : list virt_fastrpc_cmd) (h : gmap ptr virt_fastrpc_msg) : Prop :=
  NoDup (map vc_msg l) /\ forall p, p ∈ map vc_msg l -> is_Some (h !! p).

Record file_inv w : Prop := {
  fi_rx : rx_inv w;
  fi_mm : mm_inv (w_mm w);
  fi_small : small_maps (w_mm w);
  fi_bf : bf_inv (w_bf w);
  fi_cmds : cmds_ok (fl_interrupted_cmds (w_fl w)) (msgs (w_apps w));
}.

Lemma same_live (h h' : gmap ptr virt_fastrpc_msg) p :
  (forall q, option_Forall2 same_msg (h !! q) (h' !! q)) -> is_Some (h !! p) -> is_Some (h' !! p).
Proof. intros H [m Hm]. specialize (H p). rewrite Hm in H. inversion H; subst. by eexists. Qed.

Lemma fl_rest_cmds f f' : fl_rest f' = fl_rest f -> fl_interrupted_cmds f' = fl_interrupted_cmds f.
Proof. destruct f, f'. unfold fl_rest. simpl. by intros [=]. Qed.

Lemma file_inv_xfer w w' : file_inv w -> xfer w w' -> rx_inv w' -> file_inv w'.
Proof.
  intros [Hr Hm Hs Hb [Hnd Hc]] Hx Hr'.
  split; rewrite ?(xf_mm _ _ Hx), ?(xf_bf _ _ Hx); try done.
  rewrite (fl_rest_cmds (w_fl w)) by apply Hx. split; [done|]. intros p Hp.
  eapply same_live; [apply Hx|]. by apply Hc.
Qed.

Lemma file_inv_mm w s : file_inv w -> mm_inv s -> small_maps s -> file_inv (w <| w_mm := s |>).
Proof. intros [Hr Hm Hs Hb Hc] ? ?. split; try done. destruct Hr. by split. Qed.

Lemma file_inv_bf w s : file_inv w -> bf_inv s -> file_inv (w <| w_bf := s |>).
Proof. intros [Hr Hm Hs Hb Hc] ?. split; try done. destruct Hr. by split. Qed.

(** ** Commands *)

(** A command whose message size does not wrap. *)
Lemma transact_swp {A} e session cmd size extent build (dflt : A) read w :
  file_inv w -> extent <= u32 size -> (forall h, is_Some (build h)) ->
  swp (transact e session cmd size extent build dflt read)
    (fun res w' => xfer w w' /\ file_inv w' /\
       ((res.1 <> 0 /\ res.2 = dflt) \/ exists rsp, res = read rsp)) w.
Proof.
  intros Hinv Hx Hb. pose proof (transact_cases e session cmd size extent build dflt read w
    (fi_rx _ Hinv) Hx Hb) as Ht. unfold swp.
  destruct (transact e session cmd size extent build dflt read w) as [res w'| |]; [|done..].
  destruct Ht as (Hf & Hi & Hres). split_and!; [done|by eapply file_inv_xfer|].
  destruct Hres as [(-> & _)|[(err & buf & Hne & -> & _)|(rsp & -> & _)]]; [by left|by left|].
  right. by exists rsp.
Qed.

Lemma virt_munmap_swp e raddr size w :
  file_inv w -> swp (virt_fastrpc_munmap e raddr size) (fun _ w' => xfer w w' /\ file_inv w') w.
Proof.
  intros Hinv. unfold virt_fastrpc_munmap. eapply swp_bind; [apply transact_swp; by eauto|].
  intros [err []] w' (Hx & Hi & _). by apply swp_ret.
Qed.

Lemma virt_mem_unmap_swp e fd size raddr w :
  file_inv w -> swp (virt_fastrpc_mem_unmap e fd size raddr) (fun _ w' => xfer w w' /\ file_inv w') w.
Proof.
  intros Hinv. unfold virt_fastrpc_mem_unmap. eapply swp_bind; [apply transact_swp; by eauto|].
  intros [err []] w' (Hx & Hi & _). by apply swp_ret.
Qed.

Lemma first_sg_all t : first_sg (sg_entries t) (nents t) = Some (sg_entries t).
Proof.
  unfold first_sg, nents. rewrite (proj2 (Z.ltb_ge _ _)) by lia. by rewrite Nat2Z.id, firstn_all.
Qed.

(** A map command either fails or brings an address. *)
Definition addr_result (r : Z * option Z) : Prop := (r.1 = 0 <-> is_Some r.2).

Lemma virt_mmap_swp e flags t vm w :
  file_inv w -> small_table t -> mp_nents vm = nents t ->
  swp (virt_fastrpc_mmap e flags (sg_entries t) vm)
    (fun r w' => xfer w w' /\ file_inv w' /\ addr_result r) w.
Proof.
  intros Hinv Ht En. unfold virt_fastrpc_mmap. rewrite En.
  destruct (map_msg_size_small sizeof_mmap_msg t) as [E1 E2]; [done|done|].
  eapply swp_mono; [apply transact_swp; [done|by rewrite E2|intros h; rewrite first_sg_all; by eexists]|].
  intros [err o] w' (Hx & Hi & Hr). split_and!; [done..|]. unfold addr_result. simpl in *.
  destruct Hr as [[Hne ->]|[rsp [= -> ->]]]; [by split; [|intros []]|].
  destruct (Z.eqb_spec (rsp_err rsp) 0); by split.
Qed.

Lemma virt_mem_map_swp e offset flags attrs t vm w :
  file_inv w -> small_table t -> mp_nents vm = nents t ->
  swp (virt_fastrpc_mem_map e offset flags attrs vm (sg_entries t))
    (fun r w' => xfer w w' /\ file_inv w' /\ addr_result r) w.
Proof.
  intros Hinv Ht En. unfold virt_fastrpc_mem_map. rewrite En.
  destruct (map_msg_size_small sizeof_mem_map_msg t) as [E1 E2]; [done|done|].
  eapply swp_mono; [apply transact_swp; [done|by rewrite E2|intros h; rewrite first_sg_all; by eexists]|].
  intros [err o] w' (Hx & Hi & Hr). split_and!; [done..|]. unfold addr_result. simpl in *.
  destruct Hr as [[Hne ->]|[rsp [= -> ->]]]; [by split; [|intros []]|].
  destruct (Z.eqb_spec (rsp_err rsp) 0); by split.
Qed.
End file.

(** ** Mapping *)

Section mapping.
Context `{HS : adsprpc_shared, !adsprpc_shared_ok HS}.
Context `{KC : kernel_config, !kernel_config_ok KC}.
Context `{V : virtqueue, !virtqueue_ok V}.
Implicit Types w : world.

(** Every listed map has a reference. *)
Definition refs_pos (s : mmaps) : Prop :=
  forall p m, p ∈ mm_list s -> mm_heap s !! p = Some m -> 0 < m_refs m.

(** What a handler holds between a successful create and its end: a listed
    map with a small table, and how freeing it once ends. *)
Record held_map (s s1 : mmaps) (p : ptr) (m : vfastrpc_mmap) (t : sg_table) : Prop := {
  hm_inv : mm_inv s1;
  hm_small : small_maps s1;
  hm_listed : p ∈ mm_list s1;
  hm_map : mm_heap s1 !! p = Some m;
  hm_table : m_table m = Some t;
  hm_linkable : linkable m;
}.

(** The maps after a create that is undone: as before, unless the request was
    served by a listed map that nobody referred to, which is then released. *)
Definition undone (fd va len : Z) (s s' : mmaps) : Prop :=
  s' = s \/ exists p m, first_map (find_match fd va len) (mm_heap s) (mm_list s) = Some (p, m) /\
    m_refs m = 0 /\ m_ctx_refs m = 0 /\ s' = release p m s.

Lemma undone_pos fd va len s s' : refs_pos s -> undone fd va len s s' -> s' = s.
Proof.
  intros Hp [->|(p & m & (Hin & Hm & _)%first_map_Some & Hr & _)]; [done|]. specialize (Hp p m Hin Hm). lia.
Qed.

Lemma free_undone fd va len p m s :
  mm_inv s -> first_map (find_match fd va len) (mm_heap s) (mm_list s) = Some (p, m) ->
  exists s', vfastrpc_mmap_free (Some p) 0 (set_map p (m <| m_refs := m_refs m + 1 |>) s) = Ok () s' /\
    undone fd va len s s'.
Proof.
  intros Hinv Hfm. pose proof (first_map_Some _ _ _ _ _ Hfm) as (Hin & Hm & _).
  destruct (inv_listed s Hinv p Hin) as (m' & Hm' & Hlk). simplify_eq.
  destruct (inv_counts s Hinv p m Hm) as [Hr Hcr].
  destruct (decide (m_refs m = 0 /\ m_ctx_refs m = 0)) as [[Er Ec]|Hne].
  - exists (release p m s). split; [|right; by exists p, m].
    rewrite (mmap_free_last p (m <| m_refs := m_refs m + 1 |>));
      [|apply lookup_insert_eq|apply Hlk|simpl; lia|simpl; lia|right; simpl; lia].
    unfold release. simpl. by rewrite delete_insert_eq.
  - exists s. split; [|by left].
    rewrite (mmap_free_drop p (m <| m_refs := m_refs m + 1 |>));
      [|apply lookup_insert_eq|apply Hlk|simpl; lia|simpl; lia|simpl; lia].
    unfold set_map. destruct s; simpl in *. do 2 f_equal. rewrite insert_insert_eq.
    apply insert_id. rewrite Hm. destruct m; simpl. do 2 f_equal. lia.
Qed.

Lemma create_held e fd attr va len mflags s :
  mm_inv s -> small_maps s -> (forall t, ce_table e = Some t -> small_table t) ->
  (exists err s', err <> 0 /\ vfastrpc_mmap_create e fd attr va len mflags s = Ok (err, None) s' /\
    mm_inv s' /\ small_maps s' /\
    (is_heap_addr mflags = false -> has_bit attr FASTRPC_ATTR_KEEP_MAP = false -> s' = s)) \/
  (exists p m t s1, vfastrpc_mmap_create e fd attr va len mflags s = Ok (0, Some p) s1 /\
    held_map s s1 p m t /\
    (is_heap_addr mflags = false -> has_bit attr FASTRPC_ATTR_KEEP_MAP = false ->
      exists s', vfastrpc_mmap_free (Some p) 0 s1 = Ok () s' /\ undone fd va len s s') /\
    ((exists m0, first_map (find_match fd va len) (mm_heap s) (mm_list s) = Some (p, m0) /\
        m = m0 <| m_refs := m_refs m0 + 1 |> /\ s1 = set_map p m s) \/
     (mm_heap s !! p = None /\ m_attr m = attr /\ m_raddr m = 0 /\ m_len m = len /\ m_fd m = fd /\
      m_ctx_refs m = 0 /\ m_refs m = (if has_bit attr FASTRPC_ATTR_KEEP_MAP then 2 else 1) /\
      s1 = (with_new p m s) <| mm_list := p :: mm_list s |>))).
Proof.
  intros Hinv Hs Ht. destruct (create_cases e fd attr va len mflags s Hinv) as
    [(p & m & Hfm & Hlt & Hf & _ & E)|[(p & m & Hp & Hf & Hlk & Hc & Etab & Efd & Efl & Eat & Eva & Eln & Era & Ecr & Erf & E)|
     (err & s' & Hne & E & Hi & Hsm & Hx & _)]].
  - right. pose proof (first_map_Some _ _ _ _ _ Hfm) as (Hin & Hm & _).
    destruct (inv_listed s Hinv p Hin) as (m' & Hm' & Hlk). simplify_eq.
    destruct (inv_counts s Hinv p m Hm) as [Hr Hcr].
    pose proof Hlk as (Hfl & _ & _ & Htab). unfold has_table in Htab. apply bool_decide_eq_true in Htab as [t Et].
    eexists p, (m <| m_refs := m_refs m + 1 |>), t, _. split; [exact E|].
    split; [|split; [by intros _ _; apply free_undone|left; by exists m]].
    split; try done.
    + apply (inv_set_map _ p m); try done. unfold counts_ok. simpl. lia.
    + by apply (small_set_map _ p m).
    + apply lookup_insert_eq.
  - right. assert (p ∉ mm_list s) as Hpl by by apply inv_fresh_unlisted.
    pose proof Hlk as (Hfl & _ & _ & Htab). unfold has_table in Htab. apply bool_decide_eq_true in Htab as [t Et].
    exists p, m, t. eexists. split; [exact E|].
    split; [|split; [|right; by rewrite Erf]].
    2:{ intros _ Hk. rewrite Hk in Erf. exists s. split; [|by left].
        rewrite (mmap_free_last p m); [|apply lookup_insert_eq|done|lia|lia|lia].
        rewrite release_linked_new; [done..|apply Hinv]. }
    assert (mm_inv (with_new p m s)) as Hin1 by by apply inv_new.
    split; try done.
    + apply (inv_link (with_new p m s) p m); try done. apply lookup_insert_eq.
    + apply small_with_new; [done|]. rewrite Etab. done.
    + by left.
    + apply lookup_insert_eq.
  - left. exists err, s'. split_and!; try done. by apply Hsm.
Qed.

(** The handler's own exits from a held map. *)
Lemma held_free s s1 p m t :
  held_map s s1 p m t -> wp (vfastrpc_mmap_free (Some p) 0) (fun _ s' => mm_inv s' /\ small_maps s') s1.
Proof.
  intros [Hi Hs Hl Hm _ _]. apply free_small; [done| |done]. intros q [= <-]. by eexists.
Qed.

Lemma held_store_raddr s s1 p m t v :
  held_map s s1 p m t ->
  mm_inv (set_map p (m <| m_raddr := v |>) s1) /\ small_maps (set_map p (m <| m_raddr := v |>) s1).
Proof.
  intros [Hi Hs Hl Hm _ _]. split.
  - apply (inv_set_map _ p m); try done. destruct (inv_counts s1 Hi p m Hm). done.
  - by apply (small_set_map _ p m).
Qed.

(** What stays when only the mappings and the receive state change. *)
Definition only_mm w w' : Prop := xfer (w <| w_mm := w_mm w' |>) w'.

Lemma only_mm_xfer w w1 s s' w2 :
  w1 = w <| w_mm := s |> -> xfer w1 w2 -> only_mm w (w2 <| w_mm := s' |>).
Proof. intros -> []. by split. Qed.

Lemma mmap_user_fd_swp ce me fd va size flags w :
  file_inv w -> (forall t, ce_table ce = Some t -> small_table t) ->
  swp (mmap_user_fd ce me fd va size flags)
    (fun r w' => file_inv w' /\ only_mm w w' /\
      (r.1 <> 0 -> r.2 = None /\
        (is_heap_addr flags = false -> undone fd va size (w_mm w) (w_mm w'))) /\
      (r.1 = 0 -> exists raddr p m, r.2 = Some raddr /\ p ∈ mm_list (w_mm w') /\
        mm_heap (w_mm w') !! p = Some m /\ m_raddr m = raddr /\
        ((exists m0, first_map (find_match fd va size) (mm_heap (w_mm w)) (mm_list (w_mm w)) = Some (p, m0) /\
           m = m0 <| m_refs := m_refs m0 + 1 |> <| m_raddr := raddr |> /\ w_mm w' = set_map p m (w_mm w)) \/
         mm_heap (w_mm w) !! p = None /\ m_len m = size /\ m_refs m = 1 /\ m_ctx_refs m = 0 /\
         linkable m /\ keep_map m = false /\
         w_mm w' = (with_new p m (w_mm w)) <| mm_list := p :: mm_list (w_mm w) |>))) w.
Proof.
  intros Hinv Ht. unfold mmap_user_fd, on_mm at 1.
  destruct (create_held ce fd 0 va size flags (w_mm w) (fi_mm _ Hinv) (fi_small _ Hinv) Ht) as
    [(err & s' & Hne & E & Hi & Hs & Hx)|(p & m & t & s1 & E & Hh & Hun & Hwhere)];
    (eapply swp_zoom_eq; [exact E|]); cbn [fst snd].
  - unfold VERIFY. zdec. rewrite VERIFY_err_eqb. simpl. apply swp_ret.
    split; [by apply file_inv_mm|]. split; [by eapply only_mm_xfer|].
    cbn [fst snd]. split; [|intros H; by apply VERIFY_err_nonzero in H].
    intros _. split; [done|]. intros Hf. left. apply Hx; [done|apply has_bit_0].
  - simpl. assert (file_inv (w <| w_mm := s1 |>)) as Hinv1
      by (apply file_inv_mm; [done|apply (hm_inv _ _ _ _ _ Hh)|apply (hm_small _ _ _ _ _ Hh)]).
    eapply swp_zoom_eq; [unfold load; simpl; by rewrite (hm_map _ _ _ _ _ Hh)|].
    rewrite (hm_table _ _ _ _ _ Hh). eapply swp_bind.
    { apply virt_mmap_swp; [|eapply (hm_small _ _ _ _ _ Hh); apply Hh|done]. done. }
    intros [err o] w2 (Hx2 & Hi2 & Hres). cbn [fst snd]. pose proof (xf_mm _ _ Hx2) as Emm. simpl in Emm.
    destruct (Z.eqb_spec err 0) as [->|Hne]; unfold VERIFY; simpl.
    + unfold addr_result in Hres. simpl in Hres. destruct (proj1 Hres eq_refl) as [raddr ->]. simpl.
      eapply swp_zoom_eq; [unfold load; rewrite Emm, (hm_map _ _ _ _ _ Hh); done|].
      eapply swp_zoom_eq; [unfold store; simpl; rewrite (hm_map _ _ _ _ _ Hh); done|].
      apply swp_ret. destruct (held_store_raddr _ _ _ _ _ raddr Hh) as [Hi3 Hs3].
      pose proof (file_inv_mm w2 _ Hi2 Hi3 Hs3) as Hinv3.
      pose proof (only_mm_xfer w _ s1 (set_map p (m <| m_raddr := raddr |>) s1) w2 eq_refl Hx2) as Hx3.
      simpl in *. split; [exact Hinv3|]. split; [exact Hx3|]. split; [done|]. intros _.
      exists raddr, p, (m <| m_raddr := raddr |>). rewrite lookup_insert_eq.
      split_and!; [done|apply Hh|done|done|].
      destruct Hwhere as [(m0 & Hfm & -> & ->)|(Hp & Eat & _ & Eln & _ & Ecr & Erf & ->)].
      { left. exists m0. split_and!; [done..|]. unfold set_map. simpl. by rewrite insert_insert_eq. }
      right.
      split_and!; try done.
      * apply Hh.
      * unfold keep_map. simpl. rewrite Eat. apply has_bit_0.
      * unfold with_new. simpl. f_equal. apply insert_insert_eq.
    + rewrite VERIFY_err_eqb. simpl. 
      destruct (proj1 (wp_iff _ _ _) (held_free _ _ _ _ _ Hh)) as ([] & s3 & E3 & Hi3 & Hs3).
      eapply swp_zoom_eq; [rewrite Emm; exact E3|]. apply swp_ret.
      split; [by apply file_inv_mm|]. split; [by eapply (only_mm_xfer w _ s1)|].
      simpl. split; [|intros H; by apply VERIFY_err_nonzero in H]. intros _. split; [done|].
      intros Hf. destruct (Hun Hf (has_bit_0 _)) as (s' & Eu & Hu). rewrite Eu in E3. by injection E3 as <-.
Qed.
(** The same for the buffers. *)
Definition only_bf w w' : Prop := xfer (w <| w_bf := w_bf w' |>) w'.

Lemma only_bf_xfer w w1 s s' w2 :
  w1 = w <| w_bf := s |> -> xfer w1 w2 -> only_bf w (w2 <| w_bf := s' |>).
Proof. intros -> []. by split. Qed.

Lemma mmap_add_pages_swp ae me vaddrin size w :
  file_inv w -> (forall t, ae_sgt ae = Some t -> small_table t) ->
  swp (mmap_add_pages ae me vaddrin size ADSP_MMAP_ADD_PAGES)
    (fun r w' => file_inv w' /\ only_bf w w' /\ w_mm w' = w_mm w /\
      ((r.1 <> 0 /\ r.2 = None /\ exists n, w_bf w' = with_calls n (w_bf w)) \/
       (exists p b, bf_heap (w_bf w) !! p = None /\ bf_heap (w_bf w') !! p = Some b /\
          bf_remote (w_bf w') = p :: bf_remote (w_bf w) /\ b_size b = size /\
          b_flags b = ADSP_MMAP_ADD_PAGES /\ b_remote b = 1 /\
          ((r.1 <> 0 /\ r.2 = None /\ b_raddr b = 0) \/
           (exists raddr, r = (0, Some raddr) /\ b_raddr b = raddr))))) w.
Proof.
  intros Hinv Ht. unfold mmap_add_pages. destruct (Z.eqb_spec vaddrin 0) as [_|Hv]; cbn [negb].
  2: { apply swp_ret. split_and!; try done. left. split_and!; try done.
       exists (pg_calls (bf_pages (w_bf w))). unfold with_calls. by destruct (w_bf w) as [? ? ? ? []]. }
  unfold on_bf at 1.
  destruct (buf_alloc_cases ae size DMA_ATTR_NO_KERNEL_MAPPING ADSP_MMAP_ADD_PAGES 1 (w_bf w) (fi_bf _ Hinv))
    as [(err & n & Hne & E)|[(p & b & ? & _)|(p & b & n & _ & Hp & Hok & Hsz & Hfl & Hrem & _ & ([t Et] & Es & Hra & _) & E)]];
    [|done|]; (eapply swp_zoom_eq; [exact E|]); cbn [fst snd].
  { zdec. apply swp_ret. split; [apply file_inv_bf; [done|]; by apply inv_with_calls, Hinv|].
    split_and!; try done. left. split_and!; try done. by exists n. }
  set (s1 := buf_new p b n (w_bf w)) in *.
  assert (bf_inv s1) as Hbi by (apply inv_buf_new; [apply Hinv|done..]).
  assert (file_inv (w <| w_bf := s1 |>)) as Hinv1 by by apply file_inv_bf.
  assert (bf_heap s1 !! p = Some b) as Hp1 by apply lookup_insert_eq.
  assert (bf_remote s1 = p :: bf_remote (w_bf w)) as Erem by (simpl; by rewrite Hrem).
  clearbody s1. cbn [negb Z.eqb]. eapply swp_zoom_eq; [unfold bload; simpl; by rewrite Hp1|].
  rewrite Et. eapply swp_bind; [apply virt_mmap_swp; [exact Hinv1|apply Ht; by rewrite <- Es|done]|].
  intros [err o] w2 (Hx2 & Hi2 & Hres). cbn [fst snd]. pose proof (xf_bf _ _ Hx2) as Ebf. simpl in Ebf.
  pose proof (xf_mm _ _ Hx2) as Emm. simpl in Emm.
  destruct (Z.eqb_spec err 0) as [->|Hne]; cbn [negb].
  - unfold addr_result in Hres. simpl in Hres. destruct (proj1 Hres eq_refl) as [raddr ->].
    eapply swp_zoom_eq; [unfold bload; rewrite Ebf, Hp1; done|].
    eapply swp_zoom_eq; [unfold bstore; simpl; rewrite Hp1; done|].
    apply swp_ret. set (s2 := s1 <| bf_heap := <[p := b <| b_raddr := raddr |>]> (bf_heap s1) |>).
    assert (bf_inv s2) as Hbi2 by by apply (inv_bset p b).
    pose proof (file_inv_bf w2 _ Hi2 Hbi2) as Hinv3.
    pose proof (only_bf_xfer w _ s1 s2 w2 eq_refl Hx2) as Hx3.
    split; [exact Hinv3|]. split; [exact Hx3|]. split; [exact Emm|]. right.
    exists p, (b <| b_raddr := raddr |>). split_and!; try done; [apply lookup_insert_eq|].
    right. by exists raddr.
  - apply swp_ret. split; [done|].
    split; [|split; [done|]].
    { pose proof (only_bf_xfer w _ s1 (w_bf w2) w2 eq_refl Hx2) as Hx3. by destruct w2. }
    right. exists p, b. rewrite Ebf. split_and!; try done. left.
    split_and!; [done| |done]. simpl. destruct o; [|done]. unfold addr_result in Hres. simpl in Hres.
    exfalso. apply Hne. apply Hres. by eexists.
Qed.
End mapping.

(** ** Unmapping *)

Section unmapping.
Context `{HS : adsprpc_shared, !adsprpc_shared_ok HS}.
Context `{KC : kernel_config, !kernel_config_ok KC}.
Context `{V : virtqueue, !virtqueue_ok V}.
Implicit Types w : world.

Lemma find_remote_ok l va size s :
  (forall p, p ∈ l -> is_Some (bf_heap s !! p)) ->
  exists r, find_remote l va size s = Ok r s /\
    match r with
    | None => forall p b, p ∈ l -> bf_heap s !! p = Some b ->
        ~ (b_raddr b <> 0 /\ b_flags b = ADSP_MMAP_ADD_PAGES /\ b_raddr b = va /\ b_size b = size)
    | Some p => p ∈ l /\ exists b, bf_heap s !! p = Some b /\ b_raddr b <> 0 /\
        b_flags b = ADSP_MMAP_ADD_PAGES /\ b_raddr b = va /\ b_size b = size
    end.
Proof.
  induction l as [|q l IH]; intros Hl.
  { exists None. split; [done|]. by intros p b ?%not_elem_of_nil. }
  destruct (Hl q) as [b Hb]; [by left|]. cbn [find_remote]. unfold mbind, M_bind, bload. rewrite Hb.
  destruct IH as (r & E & Hr); [intros p Hp; apply Hl; by right|].
  destruct (Z.eqb_spec (b_raddr b) 0) as [H0|H0], (Z.eqb_spec (b_flags b) ADSP_MMAP_ADD_PAGES) as [H1|H1],
    (Z.eqb_spec (b_raddr b) va) as [H2|H2], (Z.eqb_spec (b_size b) size) as [H3|H3]; cbn [negb andb];
    try (exists (Some q); split; [done|]; split; [by left|]; by exists b).
  all: exists r; split; [exact E|]; destruct r as [p|];
    [destruct Hr as [Hp Hx]; split; [by right|done]|].
  all: intros p b' [->|Hp]%elem_of_cons Hb'; [|by eapply Hr]; rewrite Hb in Hb'; simplify_eq; tauto.
Qed.

(** How [vfastrpc_mmap_remove] ends. *)
Lemma remove_cases fd va len s :
  mm_inv s ->
  (first_map (remove_match fd va len) (mm_heap s) (mm_list s) = None /\
    vfastrpc_mmap_remove fd va len s = Ok (- ETOOMANYREFS, None) s) \/
  (exists p m, first_map (remove_match fd va len) (mm_heap s) (mm_list s) = Some (p, m) /\
    p ∈ mm_list s /\ mm_heap s !! p = Some m /\ linkable m /\ m_ctx_refs m = 0 /\
    (m_refs m = 1 \/ m_refs m = 2 /\ keep_map m = true) /\
    let m1 := if keep_map m then m <| m_refs := m_refs m - 1 |> else m in
    vfastrpc_mmap_remove fd va len s =
      Ok (0, Some p) ((set_map p m1 s) <| mm_list := hlist_del p (mm_list s) |>)).
Proof.
  intros Hinv. unfold vfastrpc_mmap_remove, mbind, M_bind, gets.
  rewrite remove_loop_spec by (intros; by apply inv_is_Some).
  destruct (first_map _ _ _) as [[p m]|] eqn:E; [right|by left].
  pose proof E as (Hp & Hm & Hk)%first_map_Some. exists p, m.
  destruct (inv_listed s Hinv p Hp) as (m' & Hm' & Hlk). simplify_eq.
  unfold remove_match in Hk. apply andb_prop in Hk as [Hk Hc%Z.eqb_eq].
  apply andb_prop in Hk as [_ Hr].
  split_and!; try done.
  - apply orb_prop in Hr as [?%Z.eqb_eq|[?%Z.eqb_eq ?]%andb_prop]; [by left|by right].
  - destruct (keep_map m); [done|]. unfold mret, M_ret, set_map. do 2 f_equal.
    destruct s; simpl in *. by rewrite insert_id.
Qed.

(** The state with [p] taken off the list. *)
Lemma remove_state s p m m1 :
  mm_inv s -> small_maps s -> mm_heap s !! p = Some m -> m1 = m <| m_refs := m_refs m1 |> ->
  0 <= m_refs m1 < INT_MAX ->
  let s1 := (set_map p m1 s) <| mm_list := hlist_del p (mm_list s) |> in
  mm_inv s1 /\ small_maps s1 /\ mm_heap s1 !! p = Some m1 /\ (p ∉ mm_list s1).
Proof.
  intros Hinv Hs Hm E Hr s1. destruct (inv_counts s Hinv p m Hm) as [_ Hc]. split_and!.
  - apply (inv_unlink (set_map p m1 s)). rewrite E. apply (inv_set_map _ p m); try done.
  - pose proof (small_set_map s p m m1 Hs Hm) as Hx. apply Hx. by rewrite E.
  - apply lookup_insert_eq.
  - simpl. rewrite elem_of_hlist_del. naive_solver.
Qed.

Lemma munmap_map_swp me va size w :
  file_inv w ->
  swp (munmap_map me va size)
    (fun err w' => file_inv w' /\ only_mm w w' /\
      ((err <> 0 /\ w_mm w' = w_mm w /\
        first_map (remove_match (-1) va size) (mm_heap (w_mm w)) (mm_list (w_mm w)) = None) \/
       (exists p m, first_map (remove_match (-1) va size) (mm_heap (w_mm w)) (mm_list (w_mm w)) = Some (p, m) /\
         let m1 := if keep_map m then m <| m_refs := m_refs m - 1 |> else m in
         let s1 := (set_map p m1 (w_mm w)) <| mm_list := hlist_del p (mm_list (w_mm w)) |> in
         ((err <> 0 /\ w_mm w' = s1 <| mm_list := p :: hlist_del p (mm_list (w_mm w)) |>) \/
          (err = 0 /\ vfastrpc_mmap_free (Some p) 0 s1 = Ok () (w_mm w')))))) w.
Proof.
  intros Hinv. unfold munmap_map, on_mm at 1.
  destruct (remove_cases (-1) va size (w_mm w) (fi_mm _ Hinv)) as
    [[Enone E]|(p & m & Efm & Hp & Hm & Hlk & Hc & Hr & E)]; (eapply swp_zoom_eq; [exact E|]); cbn [fst snd].
  { unfold VERIFY. simpl. rewrite VERIFY_err_eqb. apply swp_ret. pose proof (VERIFY_err_nonzero 0).
    split; [by destruct w|]. split; [by destruct w|]. left. done. }
  set (m1 := if keep_map m then m <| m_refs := m_refs m - 1 |> else m) in *.
  assert (m1 = m <| m_refs := m_refs m1 |>) as Em1 by (subst m1; by destruct m, (keep_map _)).
  assert (0 <= m_refs m1 <= 1) as Hr1 by (subst m1; destruct (keep_map m); simpl; naive_solver lia).
  destruct (remove_state (w_mm w) p m m1) as (Hi1 & Hs1 & Hm1 & Hnl);
    [apply Hinv|apply Hinv|done|done|unfold INT_MAX; lia|].
  set (s1 := (set_map p m1 (w_mm w)) <| mm_list := hlist_del p (mm_list (w_mm w)) |>) in *.
  assert (linkable m1) as Hlk1 by (rewrite Em1; done).
  cut (swp (m ← on_mm (load p); res ← virt_fastrpc_munmap me (m_raddr m) (m_size m);
            let err := VERIFY 0 (res =? 0) in
            if negb (err =? 0) then on_mm (vfastrpc_mmap_add p);; mret err
            else on_mm (vfastrpc_mmap_free (Some p) 0);; mret err)
         (fun err w' => file_inv w' /\ only_mm w w' /\
           ((err <> 0 /\ w_mm w' = s1 <| mm_list := p :: mm_list s1 |>) \/
            (err = 0 /\ vfastrpc_mmap_free (Some p) 0 s1 = Ok () (w_mm w')))) (w <| w_mm := s1 |>)).
  { intros Hs. eapply swp_mono; [exact Hs|]. intros err w' (? & ? & ?). split_and!; [done..|].
    right. exists p, m. by split. }
  clearbody m1.
  assert (mm_list s1 = hlist_del p (mm_list (w_mm w))) as El1 by done. clearbody s1.
  assert (file_inv (w <| w_mm := s1 |>)) as Hinv1 by by apply file_inv_mm.
  simpl. eapply swp_zoom_eq; [unfold load; simpl; by rewrite Hm1|].
  eapply swp_bind; [apply virt_munmap_swp, Hinv1|]. intros res w2 [Hx2 Hi2].
  pose proof (xf_mm _ _ Hx2) as Emm. change (w_mm w2 = s1) in Emm.
  destruct (Z.eqb_spec res 0) as [->|Hne]; unfold VERIFY; simpl.
  - destruct (proj1 (wp_iff _ _ _) (free_small (Some p) 0 s1 Hi1
      ltac:(intros q [= <-]; by eexists) Hs1)) as ([] & s3 & E3 & Hi3 & Hs3).
    eapply swp_zoom_eq; [rewrite Emm; exact E3|]. apply swp_ret.
    split; [by apply file_inv_mm|].
    split; [exact (only_mm_xfer w _ s1 s3 w2 eq_refl Hx2)|]. by right.
  - rewrite VERIFY_err_eqb. simpl.
    eapply swp_zoom_eq.
    { unfold vfastrpc_mmap_add, mbind, M_bind, load. rewrite Emm, Hm1.
      rewrite (proj1 Hlk1). unfold maps_add_head. rewrite decide_False by done. done. }
    apply swp_ret. pose proof (inv_link s1 p m1 Hi1 Hnl Hm1 Hlk1) as Hi3.
    split; [apply file_inv_mm; [done|exact Hi3|exact Hs1]|].
    split; [exact (only_mm_xfer w _ s1 _ w2 eq_refl Hx2)|]. left.
    split; [apply VERIFY_err_nonzero|]. done.
Qed.

(** Only the maps and the buffers differ, beside what a request does. *)
Definition only_mem w w' : Prop := xfer (w <| w_mm := w_mm w' |> <| w_bf := w_bf w' |>) w'.

Lemma internal_munmap_swp me va size w :
  file_inv w ->
  swp (vfastrpc_internal_munmap me va size)
    (fun err w' => file_inv w' /\ only_mem w w' /\
      ((err <> 0 /\ w_mm w' = w_mm w /\ w_bf w' = w_bf w) \/
       (exists p b, bf_heap (w_bf w) !! p = Some b /\ p ∈ bf_remote (w_bf w) /\ b_raddr b = va /\
          b_size b = size /\ err = 0 /\ w_mm w' = w_mm w /\ w_bf w' = buf_gone p b (w_bf w)) \/
       (w_bf w' = w_bf w /\ exists p m,
         first_map (remove_match (-1) va size) (mm_heap (w_mm w)) (mm_list (w_mm w)) = Some (p, m) /\
         let m1 := if keep_map m then m <| m_refs := m_refs m - 1 |> else m in
         let s1 := (set_map p m1 (w_mm w)) <| mm_list := hlist_del p (mm_list (w_mm w)) |> in
         ((err <> 0 /\ w_mm w' = s1 <| mm_list := p :: hlist_del p (mm_list (w_mm w)) |>) \/
          (err = 0 /\ vfastrpc_mmap_free (Some p) 0 s1 = Ok () (w_mm w')))))) w.
Proof.
  intros Hinv. unfold vfastrpc_internal_munmap. apply swp_gets.
  destruct (fl_dsp_proc_init (w_fl w) =? 1); unfold VERIFY; simpl.
  2: { rewrite VERIFY_err_eqb. apply swp_ret. split; [done|]. split; [by destruct w|]. by left. }
  apply swp_gets.
  destruct (find_remote_ok (bf_remote (w_bf w)) va size (w_bf w)) as (r & Er & Hr).
  { intros q (b & -> & _)%(bi_remote _ (fi_bf _ Hinv)). by eexists. }
  eapply swp_zoom_eq; [exact Er|]. replace (w <| w_bf := w_bf w |>) with w by by destruct w.
  destruct r as [p|].
  - destruct Hr as (Hp & b & Hb & Hra & Hfl & <- & <-).
    eapply swp_zoom_eq; [unfold bload; by rewrite Hb|].
    replace (w <| w_bf := w_bf w |>) with w by by destruct w.
    eapply swp_bind; [by apply virt_munmap_swp|]. intros res w2 [Hx Hi].
    pose proof (xf_bf _ _ Hx) as Ebf. pose proof (xf_mm _ _ Hx) as Emm.
    destruct (Z.eqb_spec res 0) as [->|Hne]; simpl.
    + eapply swp_zoom_eq.
      { rewrite Ebf. rewrite (buf_free_cases p b); [|apply Hinv|done|].
        - simpl. done.
        - apply remote_not_cached; [apply Hinv|done]. }
      apply swp_ret. split.
      { apply file_inv_bf; [done|]. apply inv_gone; [apply Hinv|done|].
        apply remote_not_cached; [apply Hinv|done]. }
      split; [by destruct Hx; split|]. right. left. exists p, b. by split_and!.
    + rewrite VERIFY_err_eqb. apply swp_ret. split; [done|].
      split; [unfold only_mem; rewrite Emm, Ebf; by destruct w|]. left.
      split; [apply VERIFY_err_nonzero|by split].
  - eapply swp_mono; [by apply munmap_map_swp|]. intros err w' (Hi & Ho & Hcase). split; [done|].
    pose proof (xf_bf _ _ Ho) as Ebf. simpl in Ebf.
    split; [unfold only_mem; rewrite Ebf; by destruct w|].
    destruct Hcase as [(? & ? & _)|Hcase]; [by left|]. right. right. by split.
Qed.

Lemma mem_map_swp ce me fd attrs va len flags offset w :
  file_inv w -> (forall t, ce_table ce = Some t -> small_table t) ->
  swp (vfastrpc_internal_mem_map ce me fd attrs va len flags offset)
    (fun r w' => file_inv w' /\ only_mm w w' /\
      (r.1 <> 0 -> r.2 = None /\
        (refs_pos (w_mm w) -> is_heap_addr flags = false ->
         has_bit attrs FASTRPC_ATTR_KEEP_MAP = false -> w_mm w' = w_mm w)) /\
      (r.1 = 0 -> exists raddr p m, r.2 = Some raddr /\ p ∈ mm_list (w_mm w') /\
        mm_heap (w_mm w') !! p = Some m /\ m_raddr m = raddr)) w.
Proof.
  intros Hinv Ht. unfold vfastrpc_internal_mem_map. apply swp_gets.
  destruct (fl_dsp_proc_init (w_fl w) =? 1); unfold VERIFY at 1; simpl.
  2: { rewrite VERIFY_err_eqb. apply swp_ret. split; [done|]. split; [by destruct w|]. done. }
  unfold on_mm at 1.
  destruct (create_held ce fd attrs va len flags (w_mm w) (fi_mm _ Hinv) (fi_small _ Hinv) Ht) as
    [(err & s' & Hne & E & Hi & Hs & Hx)|(p & m & t & s1 & E & Hh & Hun & _)];
    (eapply swp_zoom_eq; [exact E|]); cbn [fst snd].
  { unfold VERIFY. zdec. rewrite VERIFY_err_eqb. simpl. apply swp_ret.
    split; [by apply file_inv_mm|]. split; [by eapply only_mm_xfer|].
    cbn [fst snd]. split; [|intros H; by apply VERIFY_err_nonzero in H].
    intros _. split; [done|]. intros _ Hf Hk. by apply Hx. }
  unfold VERIFY. cbn [Z.eqb negb]. clear E.
  assert (file_inv (w <| w_mm := s1 |>)) as Hinv1
    by (apply file_inv_mm; [done|apply (hm_inv _ _ _ _ _ Hh)|apply (hm_small _ _ _ _ _ Hh)]).
  pose proof (hm_map _ _ _ _ _ Hh) as Hm.
  assert (forall w2 err, err <> 0 -> xfer (w <| w_mm := s1 |>) w2 -> file_inv w2 ->
    swp (on_mm (vfastrpc_mmap_free (Some p) 0);; mret (err, None))
      (fun r w' => file_inv w' /\ only_mm w w' /\
      (r.1 <> 0 -> r.2 = None /\
        (refs_pos (w_mm w) -> is_heap_addr flags = false ->
         has_bit attrs FASTRPC_ATTR_KEEP_MAP = false -> w_mm w' = w_mm w)) /\
      (r.1 = 0 -> exists raddr p m, r.2 = Some raddr /\ p ∈ mm_list (w_mm w') /\
        mm_heap (w_mm w') !! p = Some m /\ m_raddr m = raddr)) w2) as Hundo.
  { intros w2 err Hne Hx2 Hi2. pose proof (xf_mm _ _ Hx2) as Emm. change (w_mm w2 = s1) in Emm.
    destruct (proj1 (wp_iff _ _ _) (held_free _ _ _ _ _ Hh)) as ([] & s3 & E3 & Hi3 & Hs3).
    eapply swp_zoom_eq; [rewrite Emm; exact E3|]. apply swp_ret.
    split; [by apply file_inv_mm|]. split; [exact (only_mm_xfer w _ s1 s3 w2 eq_refl Hx2)|].
    cbn [fst snd]. split; [|done]. intros _. split; [done|]. intros Hpos Hf Hk.
    destruct (Hun Hf Hk) as (s' & Eu & Hu). rewrite Eu in E3. injection E3 as <-. by eapply undone_pos. }
  eapply swp_zoom_eq; [unfold load; simpl; rewrite Hm; done|].
  destruct (Z.eqb_spec (m_raddr m) 0) as [Hra|Hra]; cbn [negb]; [|by apply Hundo].
  rewrite (hm_table _ _ _ _ _ Hh). eapply swp_bind.
  { apply virt_mem_map_swp; [exact Hinv1|eapply (hm_small _ _ _ _ _ Hh); apply Hh|done]. }
  intros [err o] w2 (Hx2 & Hi2 & Hres). cbn [fst snd].
  pose proof (xf_mm _ _ Hx2) as Emm. change (w_mm w2 = s1) in Emm.
  unfold addr_result in Hres. simpl in Hres. destruct (Z.eqb_spec err 0) as [->|Hne]; cbn [negb].
  - destruct (proj1 Hres eq_refl) as [raddr ->].
    destruct (held_store_raddr _ _ _ _ _ raddr Hh) as [Hi3 Hs3].
    set (s3 := set_map p (m <| m_raddr := raddr |>) s1) in *.
    eapply (swp_bind _ _ (fun _ w3 => w3 = w2 <| w_mm := s3 |>)).
    { eapply swp_zoom_eq; [unfold load; rewrite Emm, Hm; done|].
      unfold swp, on_mm, zoom, store. simpl. rewrite Hm. done. }
    intros _ w3 ->. eapply swp_zoom_eq; [unfold load; simpl; rewrite lookup_insert_eq; done|].
    apply swp_ret. split; [exact (file_inv_mm w2 s3 Hi2 Hi3 Hs3)|].
    split; [exact (only_mm_xfer w _ s1 s3 w2 eq_refl Hx2)|]. split; [done|]. intros _. simpl.
    exists raddr, p, (m <| m_raddr := raddr |>). rewrite lookup_insert_eq. split_and!; try done. apply Hh.
  - destruct o as [v|]; [exfalso; apply Hne, Hres; by eexists|].
    eapply (swp_bind _ _ (fun _ w3 => w3 = w2)); [done|]. intros _ w3 ->. by apply Hundo.
Qed.

(** The error exit of [vfastrpc_internal_mem_unmap] undoes the removal. *)
Lemma mem_unmap_restore_eq s p m :
  mm_heap s !! p = Some m -> linkable m ->
  (m_refs m = 1 \/ m_refs m = 2 /\ keep_map m = true) ->
  let m1 := if keep_map m then m <| m_refs := m_refs m - 1 |> else m in
  let s1 := (set_map p m1 s) <| mm_list := hlist_del p (mm_list s) |> in
  mem_unmap_restore p s1 = Ok () (s <| mm_list := p :: hlist_del p (mm_list s) |>).
Proof.
  intros Hm Hlk Hr m1 s1.
  assert (keep_map m1 = keep_map m) as Ek by (subst m1; destruct (keep_map m) eqn:E; exact E).
  assert ((if keep_map m then m1 <| m_refs := s32 (m_refs m1 + 1) |> else m1) = m) as Eback.
  { subst m1. destruct (keep_map m); [|done]. destruct m; simpl in *. f_equal.
    rewrite s32_id; lia. }
  assert (p ∉ hlist_del p (mm_list s)) as Hnl by (rewrite elem_of_hlist_del; naive_solver).
  assert (mem_unmap_restore p s1 =
    vfastrpc_mmap_add p ((set_map p m s) <| mm_list := hlist_del p (mm_list s) |>)) as ->.
  { unfold mem_unmap_restore, mbind, M_bind, load, when, store. subst s1. clearbody m1. simpl. rewrite lookup_insert_eq.
    rewrite Ek. destruct (keep_map m); simpl in *.
    - rewrite lookup_insert_eq. simpl. by rewrite insert_insert_eq, Eback.
    - by rewrite Eback. }
  unfold vfastrpc_mmap_add, mbind, M_bind, load. simpl. rewrite lookup_insert_eq.
  rewrite (proj1 Hlk). unfold maps_add_head. simpl. rewrite decide_False by done.
  destruct s; simpl in *. by rewrite insert_id.
Qed.

Lemma mem_unmap_swp me fd va len w :
  file_inv w ->
  swp (vfastrpc_internal_mem_unmap me fd va len)
    (fun err w' => file_inv w' /\ only_mm w w' /\
      (err <> 0 -> mm_heap (w_mm w') = mm_heap (w_mm w) /\ mm_list (w_mm w') ≡ₚ mm_list (w_mm w)) /\
      (err = 0 -> exists p m,
        first_map (remove_match fd va len) (mm_heap (w_mm w)) (mm_list (w_mm w)) = Some (p, m) /\
        (p ∉ mm_list (w_mm w')) /\
        (keep_map m = false \/ m_refs m = 2 -> w_mm w' = release p m (w_mm w)))) w.
Proof.
  intros Hinv. unfold vfastrpc_internal_mem_unmap. apply swp_gets.
  destruct (fl_dsp_proc_init (w_fl w) =? 1); unfold VERIFY at 1; simpl.
  2: { rewrite VERIFY_err_eqb. apply swp_ret. split; [done|]. split; [by destruct w|]. done. }
  unfold on_mm at 1.
  destruct (remove_cases fd va len (w_mm w) (fi_mm _ Hinv)) as
    [[Enone E]|(p & m & Efm & Hp & Hm & Hlk & Hc & Hr & E)]; (eapply swp_zoom_eq; [exact E|]); cbn [fst snd].
  { unfold VERIFY. simpl. rewrite VERIFY_err_eqb. apply swp_ret.
    split; [by destruct w|]. split; [by destruct w|]. split; [done|].
    intros H; by apply VERIFY_err_nonzero in H. }
  pose proof (mem_unmap_restore_eq (w_mm w) p m Hm Hlk Hr) as Erest. cbv zeta in Erest.
  set (m1 := if keep_map m then m <| m_refs := m_refs m - 1 |> else m) in *.
  assert (m1 = m <| m_refs := m_refs m1 |>) as Em1 by (subst m1; by destruct m, (keep_map _)).
  assert (0 <= m_refs m1 <= 1) as Hr1 by (subst m1; destruct (keep_map m); simpl; naive_solver lia).
  destruct (remove_state (w_mm w) p m m1) as (Hi1 & Hs1 & Hm1 & Hnl);
    [apply Hinv|apply Hinv|done|done|unfold INT_MAX; lia|].
  set (s1 := (set_map p m1 (w_mm w)) <| mm_list := hlist_del p (mm_list (w_mm w)) |>) in *.
  set (s0 := (w_mm w) <| mm_list := p :: hlist_del p (mm_list (w_mm w)) |>) in *.
  assert (mm_heap s0 = mm_heap (w_mm w) /\ mm_list s0 ≡ₚ mm_list (w_mm w)) as Hs0.
  { split; [done|]. simpl. symmetry. by apply hlist_del_perm; [apply Hinv|]. }
  assert (mm_inv s0) as Hi0.
  { pose proof (inv_unlink (w_mm w) p (fi_mm _ Hinv)) as Hu.
    exact (inv_link _ p m Hu Hnl Hm Hlk). }
  assert (small_maps s0) as Hsm0 by apply Hinv.
  assert (keep_map m = false \/ m_refs m = 2 ->
    vfastrpc_mmap_free (Some p) 0 s1 = Ok () (release p m (w_mm w))) as Hfree.
  { intros Hk. assert (m_refs m1 = 1 /\ m_ctx_refs m1 = 0) as [Hr' Hc'].
    { subst m1. destruct (keep_map m); simpl; naive_solver lia. }
    rewrite (mmap_free_last p m1); [|done|rewrite Em1; apply Hlk|lia|lia|by right].
    subst s1. f_equal. unfold release. simpl. rewrite delete_insert_eq. rewrite Em1. simpl.
    f_equal. rewrite hlist_del_id; [done|]. rewrite elem_of_hlist_del. naive_solver. }
  clearbody m1 s1 s0.
  assert (forall w2 err, err <> 0 -> xfer (w <| w_mm := s1 |>) w2 -> file_inv w2 ->
    swp (on_mm (mem_unmap_restore p);; mret err)
      (fun err w' => file_inv w' /\ only_mm w w' /\ err <> 0 /\ w_mm w' = s0) w2) as Hundo.
  { intros w2 err Hne Hx2 Hi2. pose proof (xf_mm _ _ Hx2) as Emm. change (w_mm w2 = s1) in Emm.
    eapply swp_zoom_eq; [rewrite Emm; exact Erest|]. apply swp_ret.
    split; [by apply file_inv_mm|]. split; [exact (only_mm_xfer w _ s1 s0 w2 eq_refl Hx2)|]. done. }
  assert (file_inv (w <| w_mm := s1 |>)) as Hinv1 by by apply file_inv_mm.
  unfold VERIFY. simpl. eapply swp_zoom_eq; [unfold load; simpl; rewrite Hm1; done|].
  destruct (_ || _); simpl.
  2: { rewrite VERIFY_err_eqb. simpl. eapply swp_mono; [by apply (Hundo _ (- EBADMSG))|].
       intros err w' (? & ? & ? & E0). rewrite E0. split_and!; [done..|tauto|done]. }
  eapply swp_bind; [apply virt_mem_unmap_swp, Hinv1|]. intros res w2 [Hx2 Hi2].
  pose proof (xf_mm _ _ Hx2) as Emm. change (w_mm w2 = s1) in Emm.
  destruct (Z.eqb_spec res 0) as [->|Hne]; cbn [negb].
  - destruct (proj1 (wp_iff _ _ _) (free_small (Some p) 0 s1 Hi1
      ltac:(intros q [= <-]; by eexists) Hs1)) as ([] & s3 & E3 & Hi3 & Hs3).
    eapply swp_zoom_eq; [rewrite Emm; exact E3|]. apply swp_ret.
    split; [by apply file_inv_mm|]. split; [exact (only_mm_xfer w _ s1 s3 w2 eq_refl Hx2)|].
    split; [done|]. intros _. exists p, m. split; [done|]. simpl. split.
    + pose proof (mmap_free_list p 0 s1 s3 E3) as Hl. intros Hin. apply Hnl. by apply Hl.
    + intros Hk. rewrite Hfree in E3 by done. by injection E3.
  - eapply swp_mono; [by apply Hundo|].
    intros err w' (? & ? & ? & E0). rewrite E0. split_and!; [done..|tauto|done].
Qed.
End unmapping.

(** ** Unmapping by file descriptor *)

Section munmap_fd.
Context `{HS : adsprpc_shared, !adsprpc_shared_ok HS}.
Context `{KC : kernel_config, !kernel_config_ok KC}.
Context `{V : virtqueue, !virtqueue_ok V}.
Implicit Types w : world.

Lemma find_cmd_spec l pid cmd :
  (find_cmd l pid cmd = (None, l) /\
   forall c, c ∈ l -> ~ (vc_tid c = u32 pid /\ vc_cmd c = cmd)) \/
  (exists l1 c l2, l = l1 ++ c :: l2 /\ vc_tid c = u32 pid /\ vc_cmd c = cmd /\
    find_cmd l pid cmd = (Some (vc_msg c), l1 ++ l2)).
Proof.
  induction l as [|c l IH]; [left; split; [done|]; by intros c ?%not_elem_of_nil|]. simpl.
  destruct (Z.eqb_spec (vc_tid c) (u32 pid)) as [H1|H1], (Z.eqb_spec (vc_cmd c) cmd) as [H2|H2]; simpl.
  1: { right. by exists [], c, l. }
  all: destruct IH as [[-> Hn]|(l1 & c' & l2 & -> & ? & ? & ->)];
    [left; split; [done|]; intros c' [->|?]%elem_of_cons; [tauto|by apply Hn]
    |right; by exists (c :: l1), c', l2].
Qed.

Lemma cmds_ok_remove l1 c l2 h :
  cmds_ok (l1 ++ c :: l2) h ->
  cmds_ok (l1 ++ l2) h /\ (vc_msg c ∉ map vc_msg (l1 ++ l2)) /\ is_Some (h !! vc_msg c).
Proof.
  intros [Hnd Hl]. rewrite map_app in Hnd, Hl. simpl in *.
  apply NoDup_app in Hnd as (Hn1 & Hd & [Hc Hn2]%NoDup_cons). unfold cmds_ok. rewrite map_app.
  split_and!.
  - apply NoDup_app. split_and!; [done| |done]. intros x Hx Hx2. apply (Hd x); set_solver.
  - intros p Hp. apply Hl. set_solver.
  - rewrite elem_of_app. intros [Hx|Hx]; [|done]. apply (Hd _ Hx). by left.
  - apply Hl. set_solver.
Qed.

(** The wait of an interruptible command. *)
Lemma wait_interruptible_swp evs sig mp w :
  file_inv w -> is_Some (msgs (w_apps w) !! mp) ->
  swp (wait_for_completion_interruptible evs sig mp)
    (fun r w' => xfer w w' /\ file_inv w' /\ (r = 0 \/ r = - ERESTARTSYS)) w.
Proof.
  intros Hinv Hm. pose proof (run_events_safe evs w (fi_rx _ Hinv)) as Hs. unfold rx_safe in Hs.
  unfold swp, wait_for_completion_interruptible, mbind, M_bind.
  destruct (run_events evs w) as [[] w2| |]; [|by apply rx_fault_device|done]. destruct Hs as [Hf Hi2].
  assert (file_inv w2) as Hinv2 by (eapply file_inv_xfer; [done|by apply rx_frame_xfer|done]).
  destruct (same_live (msgs (w_apps w)) (msgs (w_apps w2)) mp) as [m Hm2]; [apply Hf|done|].
  unfold on_apps, zoom, msg_load. rewrite Hm2. simpl.
  destruct (ri_msg _ Hi2 mp m Hm2) as [Hd Hrid].
  destruct (Z.ltb_spec 0 (work_done m)) as [Hlt|].
  - unfold msg_store. simpl. rewrite Hm2. simpl.
    set (w3 := w2 <| w_apps := (w_apps w2) <| msgs :=
      <[mp := m <| work_done := work_done m - 1 |>]> (msgs (w_apps w2)) |> |>).
    assert (rx_frame w2 w3) as Hf3 by by eapply frame_msg_update.
    assert (rx_inv w3) as Hi3.
    { eapply rx_inv_frame; [exact Hi2| | | |exact Hf3]; simpl.
      - by eapply inv_msg_update; [apply Hi2| |].
      - unfold stored_rx. simpl.
        pose proof (hsum_update msg_rx _ mp m (m <| work_done := work_done m - 1 |>) Hm2) as E.
        unfold msg_rx in E at 1 3. simpl in E. apply (inj _) in E. rewrite E. apply Hi2.
      - intros p mm. rewrite lookup_insert. case_decide; [|by apply Hi2].
        intros [= <-]. split; simpl; [intros _; by apply Hd|]. apply Hrid. }
    assert (xfer w2 w3) as Hx3 by by apply rx_frame_xfer.
    split; [etrans; [|exact Hx3]; by apply rx_frame_xfer|].
    split; [exact (file_inv_xfer _ _ Hinv2 Hx3 Hi3)|by left].
  - destruct sig; [|by apply (asleep_msg mp m)]. destruct w2.
    split; [by apply rx_frame_xfer|]. split; [done|by right].
Qed.

(** The end of a message that is not saved. *)
Lemma take_response_swp {A} mp err (dflt : A) read w :
  file_inv w -> is_Some (msgs (w_apps w) !! mp) -> (mp ∉ map vc_msg (fl_interrupted_cmds (w_fl w))) ->
  swp (take_response mp err dflt read)
    (fun _ w' => file_inv w' /\ w_mm w' = w_mm w /\ w_bf w' = w_bf w /\
      msgs (w_apps w') = delete mp (msgs (w_apps w)) /\
      fl_interrupted_cmds (w_fl w') = fl_interrupted_cmds (w_fl w)) w.
Proof.
  intros [Hr Hmm Hsm Hbf Hc] [m Hm] Hn.
  destruct (release_msg_ok mp m w Hr Hm) as (a' & E & Hi & Em & _).
  unfold take_response. eapply swp_zoom_eq; [unfold msg_load; rewrite Hm; done|].
  apply swp_gets. eapply swp_zoom_eq; [exact E|]. apply swp_ret. split; [|done].
  replace (w <| w_apps := w_apps w |>) with w by by destruct w.
  destruct Hc as [Hnd Hl]. split; try done. split; [done|]. intros p Hp. simpl. rewrite Em.
  rewrite lookup_delete_ne by (intros ->; done). by apply Hl.
Qed.

Lemma munmap_fd_wait_swp e mp w :
  file_inv w -> is_Some (msgs (w_apps w) !! mp) -> (mp ∉ map vc_msg (fl_interrupted_cmds (w_fl w))) ->
  swp (munmap_fd_wait e mp) (fun err w' => file_inv w' /\ w_mm w' = w_mm w /\ w_bf w' = w_bf w) w.
Proof.
  intros Hinv Hm Hn. unfold munmap_fd_wait. eapply swp_bind; [by apply wait_interruptible_swp|].
  intros r w1 (Hx & Hinv1 & Hr).
  assert (is_Some (msgs (w_apps w1) !! mp)) as Hm1 by (eapply same_live; [apply Hx|done]).
  assert (fl_interrupted_cmds (w_fl w1) = fl_interrupted_cmds (w_fl w)) as Ec by apply fl_rest_cmds, Hx.
  destruct Hr as [->| ->]; cbn [negb Z.eqb].
  - eapply swp_bind; [apply take_response_swp; [done|done|by rewrite Ec]|].
    intros res w2 (Hi2 & E1 & E2 & _). apply swp_ret.
    rewrite E1, E2, (xf_mm _ _ Hx), (xf_bf _ _ Hx). done.
  - unfold save_interrupted_cmds. destruct (fe_kzalloc e); unfold VERIFY; simpl.
    + eapply swp_zoom_eq; [done|]. apply swp_ret.
      rewrite <- (xf_mm _ _ Hx), <- (xf_bf _ _ Hx). split; [|done].
      destruct Hinv1 as [Hr1 Hmm Hsm Hbf [Hnd Hl]]. split; try done.
      * destruct Hr1. by split.
      * split; simpl; [apply NoDup_cons; by rewrite Ec in *|].
        intros p [->|Hp]%elem_of_cons; [done|by apply Hl].
    + rewrite VERIFY_err_eqb. apply swp_ret. by rewrite (xf_mm _ _ Hx), (xf_bf _ _ Hx).
Qed.

Lemma remove_fd_ok fd w :
  file_inv w -> exists r s', vfastrpc_mmap_remove_fd fd (w_mm w) = Ok r s' /\ mm_inv s' /\ small_maps s'.
Proof.
  intros Hinv. destruct (remove_fd_loop_spec fd (mm_list (w_mm w)) (w_mm w) 0 0) as (s' & Hrun & Hh);
    [apply Hinv|intros; apply inv_is_Some; [apply Hinv|done]|lia|].
  eexists _, s'. split; [exact Hrun|]. split.
  - pose proof (remove_fd_inv fd (w_mm w) (fi_mm _ Hinv)) as Hi.
    unfold wp, vfastrpc_mmap_remove_fd, mbind, M_bind, gets in Hi. by rewrite Hrun in Hi.
  - intros p m t Hp Et. rewrite Hh in Hp. destruct (decide _); [|by eapply (fi_small _ Hinv)].
    destruct (mm_heap (w_mm w) !! p) as [m0|] eqn:Hm0; [|done]. simpl in Hp.
    eapply (fi_small _ Hinv); [exact Hm0|]. rewrite <- Et. unfold drop_fd, free_one in Hp.
    repeat case_match; by simplify_eq.
Qed.

Lemma in_flight_file w w1 mp i :
  file_inv w -> in_flight w w1 mp i ->
  file_inv w1 /\ is_Some (msgs (w_apps w1) !! mp) /\ mp ∉ map vc_msg (fl_interrupted_cmds (w_fl w1)).
Proof.
  intros [Hr Hmm Hsm Hbf [Hnd Hl]] Hin.
  assert (fl_interrupted_cmds (w_fl w1) = fl_interrupted_cmds (w_fl w)) as Ec by apply fl_rest_cmds, Hin.
  assert (mp ∉ map vc_msg (fl_interrupted_cmds (w_fl w))) as Hnc.
  { intros [m Hm]%Hl. rewrite (in_new _ _ _ _ Hin) in Hm. done. }
  split_and!; [|destruct (in_msg _ _ _ _ Hin) as (m & Hm & _); by eexists|by rewrite Ec].
  split; rewrite ?(in_mm _ _ _ _ Hin), ?(in_bf _ _ _ _ Hin), ?Ec; try done; [apply Hin|].
  split; [done|]. intros p Hp. pose proof (in_msgs _ _ _ _ Hin p) as Hs.
  destruct (Hl p Hp) as [m Hm]. rewrite Hm in Hs.
  assert (p <> mp) as Hne by (intros ->; done). specialize (Hs Hne). inversion Hs; subst. by eexists.
Qed.

Lemma munmap_fd_swp e fd flags va len w :
  file_inv w -> swp (vfastrpc_internal_munmap_fd e fd flags va len)
    (fun _ w' => file_inv w' /\ w_bf w' = w_bf w) w.
Proof.
  intros Hinv. unfold vfastrpc_internal_munmap_fd. apply swp_gets.
  destruct (fl_dsp_proc_init (w_fl w) =? 1); unfold VERIFY; simpl.
  2: { rewrite VERIFY_err_eqb. by apply swp_ret. }
  destruct (find_cmd_spec (fl_interrupted_cmds (w_fl w)) (me_pid (fe_msg e)) VIRTIO_FASTRPC_CMD_MUNMAP_FD)
    as [[E Hno]|(l1 & c & l2 & El & _ & _ & E)].
  - eapply (swp_bind _ _ (fun r w' => r = None /\ w' = w)).
    { unfold find_interrupted_cmds. apply swp_gets. rewrite E. unfold swp, mbind, M_bind, on_fl, zoom, put.
      simpl. split; [done|]. by destruct w as [? ? ? ? []]. }
    intros r w' [-> ->]. destruct (remove_fd_ok fd w Hinv) as ([err n] & s' & Erun & Hi & Hs).
    eapply swp_zoom_eq; [exact Erun|]. cbn [fst snd].
    assert (file_inv (w <| w_mm := s' |>)) as Hinv1 by by apply file_inv_mm.
    destruct (n =? 0); [by apply swp_ret|].
    set (w1 := w <| w_mm := s' |>) in *. assert (w_bf w1 = w_bf w) as <- by done. clearbody w1.
    eapply (swp_bind _ _ (fun _ w' => file_inv w' /\ w_bf w' = w_bf w1)); [|intros; by apply swp_ret].
    unfold virt_fastrpc_munmap_fd. unfold on_apps at 1.
    destruct (alloc_in_flight (me_kzalloc (fe_msg e)) sizeof_munmap_fd_msg w1 (fi_rx _ Hinv1)) as
      [(a' & Ea & Hx & Hri & Eh & _)|(mp & i & buf & a' & Ea & Hin & Hm & _ & Hsz & Eh & _)];
      (eapply swp_zoom_eq; [exact Ea|]).
    { apply swp_ret. split; [by eapply file_inv_xfer|done]. }
    eapply swp_zoom_eq; [unfold msg_load; simpl; rewrite Hm; done|]. apply swp_gets.
    eapply swp_zoom_eq; [by eapply tx_fill_eq|]. cbn [txbuf].
    match goal with |- swp _ _ ?x => set (w2 := x) end.
    assert (in_flight w1 w2 mp i) as Hin2.
    { apply (in_flight_apps _ (w1 <| w_apps := a' |>)); try done.
      destruct (ri_apps _ (in_inv _ _ _ _ Hin)). by split. }
    destruct (txbuf_send_ok buf sizeof_munmap_fd_msg (w_apps w2)) as (err2 & q & _ & Es & Ha3);
      [apply (in_inv _ _ _ _ Hin2)|simpl; rewrite Eh; multiset_solver|].
    assert (txbuf_of : msgs (w_apps w2) !! mp = Some {| work_done := 0; msg_ctx := None;
      msgid := Z.of_nat i; txbuf := Some buf; rxbuf := None |}) by exact Hm.
    clearbody w2. eapply swp_zoom_eq; [exact Es|].
    match goal with |- swp _ _ (upd w_apps (fun _ => ?a3) w2) =>
      assert (in_flight w1 (w2 <| w_apps := a3 |>) mp i) as Hin3
        by (apply in_flight_apps; try done; by destruct (err2 =? 0));
      assert (msgs a3 = msgs (w_apps w2)) as Em3 by (by destruct (err2 =? 0)); set (w3 := w2 <| w_apps := a3 |>) in * end.
    destruct (in_flight_file _ _ _ _ Hinv1 Hin3) as (Hinv3 & Hm3 & Hnc).
    destruct (Z.eqb_spec err2 0) as [->|Hne]; cbn [negb].
    + eapply swp_mono; [by apply munmap_fd_wait_swp|]. intros ? w4 (? & _ & Hb). split; [done|].
      rewrite Hb. apply (in_bf _ _ _ _ Hin3).
    + assert (msgs (w_apps w3) !! mp = Some {| work_done := 0; msg_ctx := None;
        msgid := Z.of_nat i; txbuf := Some buf; rxbuf := None |}) as Hmm3 by exact txbuf_of.
      destruct (in_flight_release _ _ _ _ _ Hin3 Hmm3) as (a5 & E5 & Hx & Hri & _). cbn [rxbuf] in E5.
      eapply swp_zoom_eq; [exact E5|]. apply swp_ret.
      split; [exact (file_inv_xfer _ _ Hinv1 Hx Hri)|]. apply (in_bf _ _ _ _ Hin3).
  - assert (cmds_ok (l1 ++ c :: l2) (msgs (w_apps w))) as Hc0 by (rewrite <- El; apply Hinv).
    destruct (cmds_ok_remove _ _ _ _ Hc0) as (Hc1 & Hn & Hlive).
    set (w1 := w <| w_fl := (w_fl w) <| fl_interrupted_cmds := l1 ++ l2 |> |>).
    assert (file_inv w1) as Hinv1.
    { destruct Hinv as [Hr Hmm Hsm Hbf _]. split; try done. destruct Hr. by split. }
    eapply (swp_bind _ _ (fun r w' => r = Some (vc_msg c) /\ w' = w1)).
    { unfold find_interrupted_cmds. apply swp_gets. by rewrite E. }
    intros r w' [-> ->].
    eapply (swp_bind _ _ (fun _ w' => file_inv w' /\ w_bf w' = w_bf w)); [|intros; by apply swp_ret].
    cbn [virt_fastrpc_munmap_fd].
    eapply swp_mono; [apply munmap_fd_wait_swp; [exact Hinv1|exact Hlive|exact Hn]|].
    intros ? ? (? & _ & ->). done.
Qed.
End munmap_fd.
