(* ===== verification/MapProps.v ===== *)
(** * The properties of the map handlers *)
From S2P Require Import Prelude Shared Mmap MmapFacts Pages Buf BufFacts Apps AppsFacts World WorldFacts Transact MapOps MapFacts.

Section props.
Context `{HS : adsprpc_shared, !adsprpc_shared_ok HS}.
Context `{KC : kernel_config, !kernel_config_ok KC}.
Context `{V : virtqueue, !virtqueue_ok V}.
Implicit Types w : world.

Inductive map_op : Type :=
| MMmap (ce : create_env) (ae : alloc_env) (me : msg_env) (fd vaddrin size flags : Z)
| MMunmap (me : msg_env) (vaddrout size : Z)
| MMemMap (ce : create_env) (me : msg_env) (fd attrs vaddrin length flags offset : Z)
| MMemUnmap (me : msg_env) (fd vaddr length : Z)
| MMunmapFd (e : fd_env) (fd flags va len : Z).

Definition run_map_op (o : map_op) : M world Z :=
  match o with
  | MMmap ce ae me fd va size flags => r ← vfastrpc_internal_mmap ce ae me fd va size flags; mret r.1
  | MMunmap me va size => vfastrpc_internal_munmap me va size
  | MMemMap ce me fd attrs va len flags off =>
    r ← vfastrpc_internal_mem_map ce me fd attrs va len flags off; mret r.1
  | MMemUnmap me fd va len => vfastrpc_internal_mem_unmap me fd va len
  | MMunmapFd e fd flags va len => vfastrpc_internal_munmap_fd e fd flags va len
  end.

(** The scatter tables the kernel answers with keep the message size within an [int]. *)
Definition map_op_small (o : map_op) : Prop :=
  match o with
  | MMmap ce ae _ _ _ _ _ => (forall t, ce_table ce = Some t -> small_table t) /\
      forall t, ae_sgt ae = Some t -> small_table t
  | MMemMap ce _ _ _ _ _ _ _ => forall t, ce_table ce = Some t -> small_table t
  | _ => True
  end.

Lemma map_op_swp o w : file_inv w -> map_op_small o -> swp (run_map_op o) (fun _ w' => file_inv w') w.
Proof.
  intros Hinv Hs.
  destruct o as [ce ae me fd va size flags|me va size|ce me fd attrs va len flags off|me fd va len|
                 e fd flags va len]; simpl in *.
  - destruct Hs as [Hs1 Hs2].
    eapply (swp_bind _ _ (fun _ w' => file_inv w')); [|intros; by apply swp_ret].
    unfold vfastrpc_internal_mmap. apply swp_gets. destruct (negb _); [by apply swp_ret|].
    destruct (Z.eqb_spec flags ADSP_MMAP_ADD_PAGES) as [->|].
    + eapply swp_mono; [by apply mmap_add_pages_swp|]. by intros ? ? (? & _).
    + eapply swp_mono; [by apply mmap_user_fd_swp|]. by intros ? ? (? & _).
  - eapply swp_mono; [by apply internal_munmap_swp|]. by intros ? ? (? & _).
  - eapply (swp_bind _ _ (fun _ w' => file_inv w')); [|intros; by apply swp_ret].
    eapply swp_mono; [by apply mem_map_swp|]. by intros ? ? (? & _).
  - eapply swp_mono; [by apply mem_unmap_swp|]. by intros ? ? (? & _).
  - eapply swp_mono; [by apply munmap_fd_swp|]. by intros ? ? (? & _).
Qed.

(** C3: the map handlers keep an open file consistent.  Take a consistent
    file and a kernel that builds no scatter table so large that the size of
    its message leaves an [int] ([map_op_small]).  Then each of the five map
    and unmap ioctls, whatever its arguments, the other answers of the kernel
    and the device do, returns to a consistent file (the message table, the rx
    buffers, the list of mappings with its ledgers, the buffers and the saved
    commands), or sleeps for ever on a message that is in the table and was
    never completed.  It faults only on a response the device should not have
    sent; in particular no write leaves a tx buffer, nothing is freed twice
    and no list is corrupted by the driver. *)
Theorem map_handlers_safe o w :
  file_inv w -> map_op_small o ->
  match run_map_op o w with
  | Ok _ w' => file_inv w'
  | Fault f => device_fault f
  | Hang Loops => False
  | Hang (Sleeps on w') => asleep on w'
  end.
Proof. apply map_op_swp. Qed.

(** C33: mapping is all or nothing.  [vfastrpc_internal_mmap] of a dma-buf
    (no heap flags) that reports an error leaves the buffers and the message
    table exactly as they were, reports no address, and leaves the mappings as
    they were, with one exception: if a listed map without any reference
    covers the range, it is released.  One that succeeds reports the address
    stored in a listed map, and that map is the only change: either the first
    listed map that covers the range, with one reference more, or a new map of
    the requested length at the head. *)
Theorem internal_mmap_atomic ce ae me fd vaddrin size flags w :
  file_inv w -> map_op_small (MMmap ce ae me fd vaddrin size flags) ->
  is_heap_addr flags = false -> flags <> ADSP_MMAP_ADD_PAGES ->
  match vfastrpc_internal_mmap ce ae me fd vaddrin size flags w with
  | Ok r w' =>
    w_bf w' = w_bf w /\ msgtable (w_apps w') = msgtable (w_apps w) /\
    (r.1 <> 0 -> r.2 = None /\
      (w_mm w' = w_mm w \/
       exists p m, first_map (find_match fd vaddrin size) (mm_heap (w_mm w)) (mm_list (w_mm w)) = Some (p, m) /\
         m_refs m = 0 /\ m_ctx_refs m = 0 /\ w_mm w' = release p m (w_mm w))) /\
    (r.1 = 0 -> exists raddr p m, r.2 = Some raddr /\ p ∈ mm_list (w_mm w') /\ m_raddr m = raddr /\
      ((exists m0, first_map (find_match fd vaddrin size) (mm_heap (w_mm w)) (mm_list (w_mm w)) = Some (p, m0) /\
         m = m0 <| m_refs := m_refs m0 + 1 |> <| m_raddr := raddr |> /\ w_mm w' = set_map p m (w_mm w)) \/
       (mm_heap (w_mm w) !! p = None /\ m_len m = size /\ m_refs m = 1 /\ m_ctx_refs m = 0 /\
        w_mm w' = (with_new p m (w_mm w)) <| mm_list := p :: mm_list (w_mm w) |>)))
  | Fault f => device_fault f
  | Hang Loops => False
  | Hang (Sleeps on w') => asleep on w'
  end.
Proof.
  intros Hinv [Hs1 Hs2] Hf Hne.
  lazymatch goal with |- match ?m w with Ok r w' => ?Q | Fault _ => _ | Hang _ => _ end =>
    change (swp m (fun r w' => Q) w) end.
  unfold vfastrpc_internal_mmap. apply swp_gets.
  destruct (negb _); [apply swp_ret; split_and!; try done; by intros _; split; [|left]|].
  rewrite (proj2 (Z.eqb_neq _ _) Hne).
  eapply swp_mono; [by apply mmap_user_fd_swp|].
  intros r w' (_ & Ho & Herr & Hok). pose proof (xf_bf _ _ Ho). pose proof (xf_table _ _ Ho).
  split_and!; [done..|intros Hz; destruct (Herr Hz); naive_solver|]. intros Hz.
  destruct (Hok Hz) as (raddr & p & m & ? & ? & ? & ? & Hc). exists raddr, p, m.
  split_and!; [done..|]. naive_solver.
Qed.

(** C34: unmapping undoes mapping.  If [vfastrpc_internal_mmap] of a dma-buf
    adds a new map and returns its DSP address, and later (the mappings not
    having changed) [vfastrpc_internal_munmap] of that address and size
    finds no heap pages there and returns success, then the mappings are
    exactly those before the first call. *)
Theorem mmap_munmap_roundtrip ce ae me me' fd vaddrin size flags raddr w w1 w2 :
  file_inv w -> map_op_small (MMmap ce ae me fd vaddrin size flags) ->
  flags <> ADSP_MMAP_ADD_PAGES -> is_heap_addr flags = false ->
  vfastrpc_internal_mmap ce ae me fd vaddrin size flags w = Ok (0, Some raddr) w1 ->
  mm_list (w_mm w1) <> mm_list (w_mm w) ->
  bf_remote (w_bf w) = [] ->
  vfastrpc_internal_munmap me' raddr size w1 = Ok 0 w2 ->
  w_mm w2 = w_mm w.
Proof.
  intros Hinv [Hs1 Hs2] Hne Hf Hmap Hnew Hrem Hunmap.
  assert (file_inv w1 /\ w_bf w1 = w_bf w /\ exists p m, m_raddr m = raddr /\
    mm_heap (w_mm w) !! p = None /\ m_len m = size /\ m_refs m = 1 /\ m_ctx_refs m = 0 /\
    linkable m /\ keep_map m = false /\
    w_mm w1 = (with_new p m (w_mm w)) <| mm_list := p :: mm_list (w_mm w) |>)
    as (Hinv1 & Ebf & p & m & Hra & Hp & Hlen & Hrf & Hcr & Hlk & Hk & Emm).
  { revert Hmap. unfold vfastrpc_internal_mmap, mbind at 1, M_bind at 1, gets.
    destruct (negb _); [done|]. rewrite (proj2 (Z.eqb_neq _ _) Hne). intros Hmap.
    pose proof (mmap_user_fd_swp ce me fd vaddrin size flags w Hinv Hs1) as Hm. unfold swp in Hm.
    rewrite Hmap in Hm. destruct Hm as (Hi & Ho & _ & Hok). split; [done|].
    split; [apply (xf_bf _ _ Ho)|].
    destruct (Hok eq_refl) as (r & p & m & [= <-] & _ & _ & Hra & [(m0 & _ & _ & E)|Hc]); [by rewrite E in Hnew|].
    exists p, m. naive_solver. }
  assert (p ∉ mm_list (w_mm w)) as Hpl by (apply inv_fresh_unlisted; [apply Hinv|done]).
  pose proof (internal_munmap_swp me' raddr size w1 Hinv1) as Hu. unfold swp in Hu. rewrite Hunmap in Hu.
  destruct Hu as (_ & _ & [[? _]|[(q & b & _ & Hq & _)|(_ & q & mq & Efm & Hcase)]]); [done| |].
  { rewrite Ebf, Hrem in Hq. by apply not_elem_of_nil in Hq. }
  rewrite Emm in Efm. simpl in Efm. rewrite lookup_insert_eq in Efm.
  assert (remove_match (-1) raddr size m = true) as Ematch.
  { unfold remove_match. by rewrite Hra, Hlen, Hrf, Hcr, !Z.eqb_refl. }
  rewrite Ematch in Efm. injection Efm as <- <-. rewrite Hk in Hcase.
  destruct Hcase as [[? _]|[_ Efree]]; [done|].
  assert ((set_map p m (w_mm w1)) <| mm_list := hlist_del p (mm_list (w_mm w1)) |> =
    with_new p m (w_mm w)) as E1.
  { rewrite Emm. simpl. rewrite hlist_del_head by (apply NoDup_cons; split; [done|apply Hinv]).
    unfold set_map, with_new. simpl. by rewrite insert_insert_eq. }
  rewrite E1 in Efree. rewrite (mmap_free_last p m) in Efree;
    [|apply lookup_insert_eq|apply Hlk|lia|lia|by right].
  rewrite release_with_new in Efree by done. by injection Efree.
Qed.

(** C26: a failed [FASTRPC_IOCTL_MEM_UNMAP] changes no mapping.  Whatever
    goes wrong, the map objects are exactly as before, reference counts
    included, and the list holds the same maps; on success the map is off
    the list and, unless it was a KEEP_MAP map down to its last reference,
    released with its dma-buf resources. *)
Theorem mem_unmap_restores me fd vaddr length w :
  file_inv w ->
  match vfastrpc_internal_mem_unmap me fd vaddr length w with
  | Ok err w' =>
    w_bf w' = w_bf w /\ msgtable (w_apps w') = msgtable (w_apps w) /\
    (err <> 0 -> mm_heap (w_mm w') = mm_heap (w_mm w) /\ mm_list (w_mm w') ≡ₚ mm_list (w_mm w)) /\
    (err = 0 -> exists p m,
      first_map (remove_match fd vaddr length) (mm_heap (w_mm w)) (mm_list (w_mm w)) = Some (p, m) /\
      (p ∉ mm_list (w_mm w')) /\
      (keep_map m = false \/ m_refs m = 2 -> w_mm w' = release p m (w_mm w)))
  | Fault f => device_fault f
  | Hang Loops => False
  | Hang (Sleeps on w') => asleep on w'
  end.
Proof.
  intros Hinv. pose proof (mem_unmap_swp me fd vaddr length w Hinv) as Hu. unfold swp in Hu.
  destruct (vfastrpc_internal_mem_unmap me fd vaddr length w) as [err w'| |]; [|done..].
  destruct Hu as (_ & Ho & Herr & Hok). pose proof (xf_bf _ _ Ho). pose proof (xf_table _ _ Ho).
  by split_and!.
Qed.

(** A failed [FASTRPC_IOCTL_MUNMAP] of a KEEP_MAP map loses a
    reference.  When the device refuses to unmap, the handler puts the map
    back on the list, but unlike [vfastrpc_internal_mem_unmap] it does not
    give back the reference [vfastrpc_mmap_remove] took: the map is listed
    with one reference less than before, zero if it had one. *)
Theorem munmap_failure_drops_ref me vaddrout size w p m :
  file_inv w -> bf_remote (w_bf w) = [] ->
  first_map (remove_match (-1) vaddrout size) (mm_heap (w_mm w)) (mm_list (w_mm w)) = Some (p, m) ->
  keep_map m = true -> fl_dsp_proc_init (w_fl w) = 1 ->
  match vfastrpc_internal_munmap me vaddrout size w with
  | Ok err w' => err <> 0 ->
      p ∈ mm_list (w_mm w') /\ mm_heap (w_mm w') !! p = Some (m <| m_refs := m_refs m - 1 |>)
  | Fault f => device_fault f
  | Hang Loops => False
  | Hang (Sleeps on w') => asleep on w'
  end.
Proof.
  intros Hinv Hrem Hfm Hk Hinit.
  pose proof (munmap_map_swp me vaddrout size w Hinv) as Hu. unfold swp in Hu.
  assert (vfastrpc_internal_munmap me vaddrout size w = munmap_map me vaddrout size w) as ->.
  { unfold vfastrpc_internal_munmap, mbind, M_bind, gets, VERIFY. rewrite Hinit. simpl.
    unfold on_bf, zoom. rewrite Hrem. simpl. by destruct w. }
  destruct (munmap_map me vaddrout size w) as [err w'| |]; [|done..].
  destruct Hu as (_ & _ & [(_ & _ & ?)|(q & mq & Efm & Hcase)]); [congruence|]. intros Herr.
  rewrite Hfm in Efm. injection Efm as <- <-. rewrite Hk in Hcase.
  destruct Hcase as [[_ ->]|[? _]]; [|done]. simpl. rewrite lookup_insert_eq. split; [by left|done].
Qed.
End props.
