(* ===== verification/Demo.v ===== *)
(** * A small concrete device and file

    Two tx buffers, two rx buffers, the virtqueues of [Apps.Ring] and the
    parameters of [Shared.Example].  The file is open and initialised.  It is
    the input of the evaluated examples. *)
From S2P Require Import Prelude Shared Mmap MmapFacts Pages Buf BufFacts Apps AppsFacts World WorldFacts Transact MapOps MapFacts.
Export Shared.Example Apps.Ring.

Definition zero_pra : virt_fastrpc_buf :=
  {| vb_attrs := 0; vb_crc := 0; vb_pv := 0; vb_buf_len := 0; vb_offset := 0; vb_payload_len := 0 |}.

Definition zero_rsp : virt_rsp :=
  {| r_hdr := Hdr 0 0 0 0 0 0 0; r_vdsp := 0; r_raddr := 0; r_dsp_caps := fun _ => 0; r_pra := fun _ => zero_pra;
     r_fdlist := fun _ => 0 |}.

Definition demo_apps : apps :=
  {| num_bufs := 2; buf_size := 4096; last_sbuf := 0; sbufs := [1%positive; 2%positive];
     svq := {| avail := []; used := []; room := 2 |} : vq;
     rvq := {| avail := [(3%positive, 4096); (4%positive, 4096)]; used := []; room := 2 |} : vq;
     msgtable := replicate 256 None; msgs := ∅; txmem := ∅; rxmem := fun _ => zero_rsp;
     tx_held := ∅; rx_held := ∅ |}.

Definition demo_file : file :=
  {| fl_tgid := 100; fl_cid := 7; fl_sessionid := 0; fl_dsp_proc_init := 1; fl_file_close := 0;
     fl_profile := 0; fl_mode := 0; fl_pd := 1; fl_domain := 0; fl_procattrs := 0; fl_seq_num := 0;
     fl_async_queue_job_count := 0; fl_interrupted_cmds := [] |}.

Definition empty_ctxs : ctxs :=
  {| cx_heap := ∅; cx_pending := []; cx_interrupted := []; cx_async_queue := []; cx_perfs := 0 |}.

Definition demo_world : world :=
  {| w_apps := demo_apps; w_mm := empty_mmaps; w_bf := empty_bufs; w_cx := empty_ctxs;
     w_fl := demo_file |}.

(** ** It is consistent *)

Lemma demo_apps_inv : apps_inv demo_apps.
Proof.
  split; cbn [demo_apps msgtable msgs num_bufs sbufs last_sbuf tx_held svq]; try done.
  - intros i p Hi. apply lookup_replicate in Hi as [? _]. done.
  - repeat constructor; set_solver.
Qed.

Lemma demo_rx_inv : rx_inv demo_world.
Proof.
  split; simpl; try done.
  - apply demo_apps_inv.
  - intros p. unfold rx_all. simpl. unfold tokens. simpl.
    rewrite !multiplicity_disj_union, !multiplicity_singleton, !multiplicity_empty.
    repeat case_decide; simplify_eq; lia.
Qed.

Lemma demo_file_inv : file_inv demo_world.
Proof.
  split; simpl.
  - apply demo_rx_inv.
  - apply inv_empty.
  - by intros p m t Hm.
  - apply inv_bf_empty.
  - split; simpl; [apply NoDup_nil_2|]. by intros p ?%not_elem_of_nil.
Qed.

(** ** Environments in which everything succeeds *)

Definition demo_table : sg_table := SgTable (Sg 4096 4096 4096 4096) [].

Definition demo_create : create_env :=
  {| ce_kzalloc := true; ce_dma_buf := Some 1%positive; ce_attach := Some 1%positive;
     ce_table := Some demo_table |}.

(** The device answers the request in slot [id] through rx buffer [p]. *)
Definition demo_answer (p : ptr) (id len result vdsp : Z) : list dev_event :=
  [EvDevice [0] [len] [(p, {| r_hdr := Hdr 0 0 0 0 len id result; r_vdsp := vdsp; r_raddr := vdsp;
                              r_dsp_caps := fun _ => 0; r_pra := fun _ => zero_pra;
                              r_fdlist := fun _ => 0 |})];
   EvInterrupt].

Definition demo_msg (p : ptr) (len result vdsp : Z) : msg_env :=
  {| me_kzalloc := true; me_pid := 200; me_events := demo_answer p 0 len result vdsp |}.

Lemma demo_table_small : small_table demo_table.
Proof. by vm_compute. Qed.

(** The state a run ends in. *)
Definition end_state {S A} (d : S) (r : outcome S A) : S :=
  match r with Ok _ s => s | _ => d end.
