(* ===== verification/Witnesses.v ===== *)
(** * The properties at concrete inputs

    Each lemma applies one property of the development to a concrete input on
    which its hypotheses hold. *)
From S2P Require Import Prelude Shared Mmap MmapFacts Pages Buf BufFacts Apps AppsFacts World WorldFacts Transact MapOps MapFacts MapProps Demo.

(** A file with one KEEP_MAP mapping. *)
Lemma one_inv : mm_inv (one_state 2 0).
Proof.
  pose proof (op_inv (OpCreate good_env 5 FASTRPC_ATTR_KEEP_MAP 0 4096 0) empty_mmaps inv_empty I) as H.
  unfold wp in H. by rewrite one_create in H.
Qed.

Definition bad_dma_buf : create_env :=
  {| ce_kzalloc := true; ce_dma_buf := None; ce_attach := None; ce_table := None |}.
Definition bad_attach : create_env :=
  {| ce_kzalloc := true; ce_dma_buf := Some 1%positive; ce_attach := None; ce_table := None |}.

(** ** Mappings *)

Lemma mmap_ops_safe_witness :
  mm_inv (one_state 2 0) /\ exists s', run_op (OpRemoveFd 5) (one_state 2 0) = Ok () s' /\ mm_inv s'.
Proof.
  assert (mm_reach (one_state 2 0)) as Hr by (apply (reach_step empty_mmaps (OpCreate good_env 5 FASTRPC_ATTR_KEEP_MAP 0 4096 0));
      [apply reach_open|exact I|apply one_create]).
  destruct (mmap_ops_safe (one_state 2 0) Hr) as [Hi Hop]. split; [exact Hi|]. by apply Hop.
Defined.

Lemma mmap_create_failure_exact_witness :
  vfastrpc_mmap_create bad_dma_buf 6 0 0 4096 0 (one_state 2 0) = Ok (-1, None) (one_state 2 0) /\
  one_state 2 0 = one_state 2 0 /\ @None ptr = None.
Proof.
  assert (vfastrpc_mmap_create bad_dma_buf 6 0 0 4096 0 (one_state 2 0) =
    Ok (-1, None) (one_state 2 0)) as E by (vm_compute; reflexivity).
  split; [exact E|].
  exact (mmap_create_failure_exact bad_dma_buf 6 0 0 4096 0 _ _ _ _ one_inv eq_refl eq_refl E
    ltac:(discriminate)).
Defined.

Lemma mmap_create_keep_map_leaks_witness :
  exists p m s', vfastrpc_mmap_create bad_attach 6 8 0 4096 0 (one_state 2 0) = Ok (VERIFY_err 0, None) s' /\
    mm_heap (one_state 2 0) !! p = None /\ mm_heap s' !! p = Some m /\ (p ∉ mm_list s') /\
    m_refs m = 1 /\ mm_bufs s' = mm_bufs (one_state 2 0) + 1.
Proof.
  apply (mmap_create_keep_map_leaks bad_attach 6 8 0 4096 0 (one_state 2 0) 1%positive);
    [exact one_inv|reflexivity..].
Defined.

Lemma mmap_create_free_roundtrip_witness :
  exists p s', vfastrpc_mmap_create demo_create 6 0 0 4096 0 (one_state 2 0) = Ok (0, Some p) s' /\
    vfastrpc_mmap_free (Some p) 0 s' = Ok () (one_state 2 0).
Proof.
  eexists _, _. split; [vm_compute; reflexivity|].
  apply (mmap_create_free_roundtrip demo_create 6 0 0 4096 0 (one_state 2 0)).
  - exact one_inv.
  - reflexivity.
  - reflexivity.
  - intros q m [->|Hq]%elem_of_cons; [|by apply not_elem_of_nil in Hq].
    rewrite one_lookup. intros [= <-]. done.
  - vm_compute. reflexivity.
Defined.

Lemma free_all_maps_empties_witness :
  exists s', free_all_maps 2 (one_state 2 0) = Ok () s' /\ mm_list s' = [] /\ s' = empty_mmaps.
Proof.
  destruct (free_all_maps_empties (one_state 2 0)) as (s' & E & El & _ & _ & Hall).
  - exact one_inv.
  - intros q m [->|Hq]%elem_of_cons; [|by apply not_elem_of_nil in Hq].
    rewrite one_lookup. intros [= <-]. done.
  - exists s'. split; [exact E|]. split; [exact El|]. apply Hall.
    intros p [m Hp]. simpl in Hp. apply lookup_singleton_Some in Hp as [<- _]. by left.
Defined.

Lemma free_all_maps_can_hang_witness :
  exists s, mm_reach s /\ free_all_maps 1000 s = Hang Loops.
Proof. destruct free_all_maps_can_hang as (s & Hr & Hh). exists s. split; [exact Hr|apply Hh]. Defined.

Lemma mmap_find_correct_witness :
  exists err r s', vfastrpc_mmap_find 5 1024 2048 0 0 (one_state 2 0) = Ok (err, r) s' /\
    (err = - EOVERFLOW <-> 2 ^ 64 <= 1024 + 2048).
Proof.
  destruct (mmap_find_correct 5 1024 2048 0 0 (one_state 2 0) one_inv ltac:(lia) ltac:(lia))
    as (err & r & s' & E & Ho & _). exists err, r, s'. split; [exact E|exact Ho].
Defined.

Lemma mmap_remove_then_free_witness :
  exists p s', vfastrpc_mmap_remove 5 0 4096 (one_state 2 0) = Ok (0, Some p) s' /\
    (p ∉ mm_list s').
Proof.
  destruct (mmap_remove_then_free 5 0 4096 (one_state 2 0) one_inv) as
    [[E _]|(p & m & s' & E & _ & _ & _ & Hn & _)].
  - exfalso. vm_compute in E. discriminate E.
  - exists p, s'. split; [exact E|exact Hn].
Defined.

Lemma mmap_remove_fd_correct_witness :
  exists s', vfastrpc_mmap_remove_fd 5 (one_state 2 0) = Ok (- ETOOMANYREFS, 1) s' /\ mm_inv s'.
Proof.
  destruct (mmap_remove_fd_correct 5 (one_state 2 0) one_inv) as (s' & E & Hi & _).
  exists s'. split; [|exact Hi]. etransitivity; [exact E|]. vm_compute. reflexivity.
Defined.

(** ** Pages and buffers *)

Lemma alloc_pages_exact_witness :
  exists r s', vfastrpc_alloc_pages (fun n _ _ => Some (Z.of_nat n * 2 ^ 20)) true 5
                 (bf_pages empty_bufs) = Ok r s' /\ is_Some r.
Proof.
  destruct (alloc_pages_exact (fun n _ _ => Some (Z.of_nat n * 2 ^ 20)) true 5 (bf_pages empty_bufs)
    ltac:(lia)) as [(r & s' & E & Hr) _]. exists r, s'. split; [exact E|].
  destruct r; [by eexists|]. vm_compute in E. discriminate E.
Defined.

(** One cached page-sized buffer. *)
Definition one_cached : bufs :=
  end_state empty_bufs ((vfastrpc_buf_alloc good_alloc 4096 0 0 0;; vfastrpc_buf_free (Some 1%positive) 1)
                          empty_bufs).

Lemma one_cached_reach : bf_reach one_cached.
Proof.
  eapply (run_bops_reach [BAlloc good_alloc 4096 0 0 0; BFree 1 1] empty_bufs); [constructor|].
  vm_compute. reflexivity.
Qed.

Lemma one_cached_inv : bf_inv one_cached.
Proof.
  assert (forall l s s', bf_inv s -> run_bops l s = Some s' -> bf_inv s') as H.
  { induction l as [|o l IH]; intros s s' Hs; simpl; [by intros [= <-]|].
    destruct (bop_preb o s) eqn:Hpre; [|done]. pose proof (bop_inv o s Hs (bop_preb_ok _ _ Hpre)) as Hi.
    unfold wp in Hi. destruct (run_bop o s) as [[] s1| |]; [|done..]. by apply IH. }
  apply (H [BAlloc good_alloc 4096 0 0 0; BFree 1 1] empty_bufs); [apply inv_bf_empty|].
  vm_compute. reflexivity.
Qed.

Lemma buf_ops_safe_witness :
  bf_inv one_cached /\ exists s', run_bop (BAlloc good_alloc 100 0 0 0) one_cached = Ok () s' /\ bf_inv s'.
Proof.
  destruct (buf_ops_safe one_cached one_cached_reach) as [Hi Ho]. split; [exact Hi|]. by apply Ho.
Defined.

Lemma buf_alloc_correct_witness :
  exists err r s', vfastrpc_buf_alloc good_alloc 100 0 0 0 one_cached = Ok (err, r) s' /\
    exists p, r = Some p /\ p ∈ bf_cached one_cached.
Proof.
  destruct (buf_alloc_correct good_alloc 100 0 0 0 one_cached one_cached_inv)
    as (err & r & s' & E & _ & Hok). exists err, r, s'. split; [exact E|].
  assert (err = 0) as H0 by (vm_compute in E; injection E as <- _ _; reflexivity).
  destruct (Hok H0) as (p & b & -> & _ & _ & _ & _ & [(_ & Hin & _)|(Hp & Hs & _)]).
  - exists p. split; [reflexivity|exact Hin].
  - exfalso. vm_compute in E. injection E as _ <- _. vm_compute in Hp. discriminate Hp.
Defined.

Lemma buf_alloc_free_roundtrip_witness :
  exists p s' n, vfastrpc_buf_alloc good_alloc 8192 0 0 1 one_cached = Ok (0, Some p) s' /\
    vfastrpc_buf_free (Some p) 0 s' = Ok () (with_calls n one_cached).
Proof.
  destruct (buf_alloc_free_roundtrip good_alloc 8192 0 0 1 one_cached 2%positive
    (end_state empty_bufs (vfastrpc_buf_alloc good_alloc 8192 0 0 1 one_cached))) as [n E].
  - exact one_cached_inv.
  - vm_compute. reflexivity.
  - vm_compute. reflexivity.
  - eexists _, _, n. split; [|exact E]. vm_compute. reflexivity.
Defined.

Lemma buf_lists_close_witness :
  exists s', (vfastrpc_cached_buf_list_free 2;; vfastrpc_remote_buf_list_free 1) one_cached = Ok () s' /\
    bf_cached s' = [] /\ bf_num_cached s' = 0.
Proof.
  destruct (buf_lists_close one_cached one_cached_inv) as (s' & E & _ & Ec & _ & En & _).
  exists s'. split; [exact E|]. split; [exact Ec|exact En].
Defined.

Lemma page_count_covers_witness : page_count 5000 = 2 /\ page_count (2 ^ 32 * PAGE_SIZE) = 0.
Proof.
  destruct (page_count_covers 5000) as [H1 H2]. split; [|exact H2].
  assert (0 < 5000 <= (2 ^ 32 - 1) * PAGE_SIZE) as Hr by (unfold PAGE_SIZE; simpl; lia).
  specialize (H1 Hr). change PAGE_SIZE with 4096 in H1. lia.
Defined.

Lemma buf_free_correct_witness :
  exists b s', bf_heap empty_bufs !! 1%positive = None /\
    bf_heap (end_state empty_bufs (vfastrpc_buf_alloc good_alloc 8192 0 0 0 one_cached)) !! 2%positive = Some b /\
    vfastrpc_buf_free (Some 2%positive) 1
      (end_state empty_bufs (vfastrpc_buf_alloc good_alloc 8192 0 0 0 one_cached)) = Ok () s' /\
    bf_cached s' = [2%positive; 1%positive].
Proof.
  set (s := end_state empty_bufs (vfastrpc_buf_alloc good_alloc 8192 0 0 0 one_cached)).
  destruct (bf_heap s !! 2%positive) as [b|] eqn:Hb; [|vm_compute in Hb; discriminate Hb].
  destruct (buf_free_correct 2%positive b 1 s) as (s' & E & Hc).
  - pose proof (bop_inv (BAlloc good_alloc 8192 0 0 0) one_cached one_cached_inv I) as Hi.
    assert (run_bop (BAlloc good_alloc 8192 0 0 0) one_cached = Ok () s) as Er by (vm_compute; reflexivity).
    unfold wp in Hi. rewrite Er in Hi. exact Hi.
  - exact Hb.
  - intros Hin. vm_compute in Hin. repeat (inversion Hin as [|? ? ? Hin']; subst; clear Hin; rename Hin' into Hin).
  - exists b, s'. split; [reflexivity|]. split; [reflexivity|]. split; [exact E|].
    destruct Hc as [(_ & _ & _ & _ & Ec & _)|([?|[Hs|Hs]] & _)]; [rewrite Ec; reflexivity|discriminate|..].
    + vm_compute in Hb. injection Hb as <-. vm_compute in Hs. contradiction.
    + vm_compute in Hs. discriminate Hs.
Defined.

(** ** The device *)

Lemma apps_ops_safe_witness :
  exists a, apps_reach demo_apps a /\ msgs a !! 1%positive <> None /\ apps_inv a.
Proof.
  set (a := end_state demo_apps (run_aop (OAlloc true 42) demo_apps)).
  assert (apps_reach demo_apps a) as Hr.
  { eapply (areach_step demo_apps demo_apps (OAlloc true 42)); [constructor|exact I|].
    vm_compute. reflexivity. }
  exists a. split; [exact Hr|]. split; [vm_compute; discriminate|].
  apply (apps_ops_safe demo_apps a demo_apps_inv Hr).
Defined.

Lemma alloc_msg_correct_witness :
  exists p a', virt_alloc_msg true 42 demo_apps = Ok (Some p) a' /\ msgtable a' !! 0%nat = Some (Some p).
Proof.
  destruct (alloc_msg_correct true 42 demo_apps demo_apps_inv) as (r & a' & E & _ & Hr).
  assert (match virt_alloc_msg true 42 demo_apps with Ok (Some _) _ => True | _ => False end) as Hs
    by (vm_compute; exact I).
  rewrite E in Hs. destruct r as [p|]; [|contradiction].
  exists p, a'. split; [exact E|].
  destruct Hr as (_ & _ & _ & i & buf & Hi & _ & Hbefore & Et & _). rewrite Et.
  destruct i as [|i]; [reflexivity|]. destruct (Hbefore 0%nat ltac:(lia)) as [q Hq].
  vm_compute in Hq. discriminate Hq.
Defined.

Lemma demo_alloc_inv : apps_inv (end_state demo_apps (virt_alloc_msg true 42 demo_apps)).
Proof.
  destruct (alloc_msg_cases true 42 demo_apps demo_apps_inv) as
    [(a' & -> & Hi & _)|(p & i & buf & a' & -> & Hi & _)]; exact Hi.
Qed.

Lemma free_msg_correct_witness :
  exists a', virt_free_msg 1 (end_state demo_apps (virt_alloc_msg true 42 demo_apps)) = Ok () a' /\
    msgs a' = ∅.
Proof.
  set (a := end_state demo_apps (virt_alloc_msg true 42 demo_apps)).
  destruct (msgs a !! 1%positive) as [m|] eqn:Hm; [|vm_compute in Hm; discriminate Hm].
  destruct (free_msg_correct 1%positive m a) as (a' & E & _ & Em & _).
  - exact demo_alloc_inv.
  - exact Hm.
  - exists a'. split; [exact E|]. rewrite Em. vm_compute. reflexivity.
Defined.

Definition idle3 : list (dev_action * dev_action) := replicate 3 ([] : list Z, [] : list Z).

Lemma unsent_messages_exhaust_witness :
  exists a', alloc_free_cycle 42 idle3 demo_apps = Ok false a' /\ msgs a' = ∅.
Proof.
  destruct (unsent_messages_exhaust 42 idle3 demo_apps demo_apps_inv ltac:(simpl; lia))
    as (a' & E & _ & Em). exists a'. split; [exact E|exact Em].
Defined.

(** ** Receiving *)

(** Rx buffer 3 just got from the queue. *)
Definition demo_hand : world :=
  demo_world <| w_apps := demo_apps <| rx_held := {[+ 3%positive +]} |>
    <| rvq := {| avail := [(4%positive, 4096)]; used := []; room := 2 |} : vq |> |>.

Lemma demo_hand_inv : rx_inv demo_hand.
Proof.
  destruct demo_rx_inv as [Ha ? ? ? ?]. split; try done.
  - destruct Ha. by split.
  - apply gmultiset_empty_subseteq.
Qed.

Lemma recv_single_correct_witness : recv_single 3 10 demo_hand = Ok (- EINVAL) demo_hand.
Proof.
  assert (in_hand 3 demo_hand) as Hh.
  { unfold in_hand, stored_rx, hsum. simpl. multiset_solver. }
  destruct (recv_single_correct 3 10 demo_hand demo_hand_inv Hh) as [H _]. apply H. discriminate.
Defined.

Lemma interrupts_framed_witness :
  exists w', run_events (demo_answer 3 9 42 0 0) demo_world = Ok () w' /\ w_mm w' = w_mm demo_world.
Proof.
  destruct (interrupts_framed (demo_answer 3 9 42 0 0) demo_world demo_rx_inv) as [H1 H2].
  destruct H2 as [w' E].
  - by split.
  - repeat constructor.
  - exists w'. split; [exact E|]. rewrite E in H1. apply H1.
Defined.

Lemma demo_request_polite w1 v mp i : request_out v mp i demo_world w1 -> polite w1.
Proof.
  intros (_ & _ & Erx & Ew & _). unfold rx_part in Erx. injection Erx as _ _ Erm. split.
  - intros p. by rewrite Erm.
  - intros p m c x _ _ Hx. rewrite Ew in Hx. done.
Qed.

Lemma request_answered_witness :
  exists w', virt_fastrpc_munmap (demo_msg 3 42 0 0) 4096 4096 demo_world = Ok 0 w' /\
    msgs (w_apps w') = ∅.
Proof.
  set (rsp := {| r_hdr := Hdr 0 0 0 0 42 0 0; r_vdsp := 0; r_raddr := 0; r_dsp_caps := fun _ => 0;
                 r_pra := fun _ => zero_pra; r_fdlist := fun _ => 0 |}).
  destruct (request_answered (demo_msg 3 42 0 0) true VIRTIO_FASTRPC_CMD_MUNMAP sizeof_munmap_msg
    sizeof_munmap_msg (fun h => Some (VirtMunmap h 4096 4096)) () (fun r => (rsp_err r, ())) demo_world
    0%nat) as (mp & w1 & v & _ & Hout & H).
  - exact demo_rx_inv.
  - vm_compute. split; discriminate.
  - intros h. by eexists.
  - reflexivity.
  - reflexivity.
  - left. reflexivity.
  - intros buf. reflexivity.
  - pose proof (demo_request_polite _ _ _ _ Hout) as Hpo. destruct Hout as (Hin & _ & Erx & _).
    destruct (run_events_runs (demo_answer 3 0 42 0 0) w1 (in_inv _ _ _ _ Hin) Hpo) as ([] & w3 & E3 & _);
      [repeat constructor|].
    unfold rx_part in Erx. injection Erx as Erv _ Erm.
    destruct (H (take 1 (demo_answer 3 0 42 0 0)) [] _ w3 rsp eq_refl eq_refl E3) as (r & w' & E & _ & Er & Hx & _).
    + eexists 3%positive, _. simpl. rewrite Erv. split; [reflexivity|]. split; [|intros _; reflexivity].
      unfold dev_write. simpl. rewrite Erv, decide_True by (simpl; unfold tokens; simpl; multiset_solver).
      simpl. reflexivity.
    + reflexivity.
    + exists w'. rewrite (Er eq_refl) in E. split.
      * unfold virt_fastrpc_munmap, mbind, M_bind. rewrite E. reflexivity.
      * apply map_eq. intros p. pose proof (xf_msgs _ _ Hx p) as Hp. rewrite lookup_empty in Hp |- *.
        inversion Hp. reflexivity.
Defined.

(** ** The map handlers *)

Lemma demo_small : (forall t, ce_table demo_create = Some t -> small_table t) /\
  (forall t, ae_sgt good_alloc = Some t -> small_table t).
Proof.
  split.
  - intros t [= <-]. exact demo_table_small.
  - intros t [= <-]. by vm_compute.
Qed.

(** The mmap of 4096 bytes of fd 6, answered with DSP address 65536. *)
Definition demo_mmap : M world (Z * option Z) :=
  vfastrpc_internal_mmap demo_create good_alloc (demo_msg 3 86 0 65536) 6 0 4096 0.

Lemma map_handlers_safe_witness :
  exists w', run_map_op (MMmap demo_create good_alloc (demo_msg 3 86 0 65536) 6 0 4096 0) demo_world = Ok 0 w' /\
    file_inv w'.
Proof.
  pose proof (map_handlers_safe (MMmap demo_create good_alloc (demo_msg 3 86 0 65536) 6 0 4096 0) demo_world
    demo_file_inv demo_small) as H.
  assert (match run_map_op (MMmap demo_create good_alloc (demo_msg 3 86 0 65536) 6 0 4096 0) demo_world with
          | Ok r _ => r = 0 | _ => False end) as E by (vm_compute; reflexivity).
  destruct (run_map_op (MMmap demo_create good_alloc (demo_msg 3 86 0 65536) 6 0 4096 0) demo_world)
    as [r w'| |]; [|contradiction..].
  subst r. exists w'. split; [reflexivity|exact H].
Defined.

Lemma internal_mmap_atomic_witness :
  exists raddr w' p m, demo_mmap demo_world = Ok (0, Some raddr) w' /\ p ∈ mm_list (w_mm w') /\
    m_raddr m = raddr /\ mm_heap (w_mm demo_world) !! p = None /\
    w_mm w' = (with_new p m (w_mm demo_world)) <| mm_list := p :: mm_list (w_mm demo_world) |>.
Proof.
  pose proof (internal_mmap_atomic demo_create good_alloc (demo_msg 3 86 0 65536) 6 0 4096 0 demo_world
    demo_file_inv demo_small eq_refl ltac:(discriminate)) as H.
  assert (match demo_mmap demo_world with Ok r _ => r.1 = 0 | _ => False end) as E by (vm_compute; reflexivity).
  fold demo_mmap in H. destruct (demo_mmap demo_world) as [[err o] w'| |]; [|contradiction..].
  simpl in E. subst err. destruct H as (_ & _ & _ & Hok).
  destruct (Hok eq_refl) as (raddr & p & m & Eo & Hp & Hr & Hc). simpl in Eo. subst o.
  destruct Hc as [(m0 & Hfm & _)|(Hn & _ & _ & _ & Ew)]; [vm_compute in Hfm; discriminate Hfm|].
  exists raddr, w', p, m. split; [reflexivity|]. split; [exact Hp|]. split; [exact Hr|]. split; [exact Hn|exact Ew].
Defined.

Lemma mmap_munmap_roundtrip_witness :
  exists w1 w2, demo_mmap demo_world = Ok (0, Some 65536) w1 /\
    vfastrpc_internal_munmap (demo_msg 4 42 0 0) 65536 4096 w1 = Ok 0 w2 /\ w_mm w2 = w_mm demo_world.
Proof.
  set (w1 := end_state demo_world (demo_mmap demo_world)).
  set (w2 := end_state demo_world (vfastrpc_internal_munmap (demo_msg 4 42 0 0) 65536 4096 w1)).
  assert (demo_mmap demo_world = Ok (0, Some 65536) w1) as E1 by (vm_compute; reflexivity).
  assert (vfastrpc_internal_munmap (demo_msg 4 42 0 0) 65536 4096 w1 = Ok 0 w2) as E2 by (vm_compute; reflexivity).
  exists w1, w2. split; [exact E1|]. split; [exact E2|].
  apply (mmap_munmap_roundtrip demo_create good_alloc (demo_msg 3 86 0 65536) (demo_msg 4 42 0 0) 6 0 4096 0
    65536 demo_world w1 w2 demo_file_inv demo_small).
  - discriminate.
  - reflexivity.
  - exact E1.
  - vm_compute. discriminate.
  - reflexivity.
  - exact E2.
Defined.

(** The demo file with one KEEP_MAP mapping. *)
Definition demo_kept : world := demo_world <| w_mm := one_state 2 0 |>.

Lemma demo_kept_inv : file_inv demo_kept.
Proof.
  apply (file_inv_mm demo_world (one_state 2 0) demo_file_inv one_inv).
  intros p m t Hp Ht. simpl in Hp. apply lookup_singleton_Some in Hp as [_ <-]. simpl in Ht.
  injection Ht as <-. by vm_compute.
Qed.

Lemma mem_unmap_restores_witness :
  exists w', vfastrpc_internal_mem_unmap (demo_msg 3 46 5 0) 5 0 4096 demo_kept = Ok 5 w' /\
    mm_heap (w_mm w') = mm_heap (w_mm demo_kept).
Proof.
  pose proof (mem_unmap_restores (demo_msg 3 46 5 0) 5 0 4096 demo_kept demo_kept_inv) as H.
  assert (match vfastrpc_internal_mem_unmap (demo_msg 3 46 5 0) 5 0 4096 demo_kept with
          | Ok r _ => r = 5 | _ => False end) as E by (vm_compute; reflexivity).
  destruct (vfastrpc_internal_mem_unmap (demo_msg 3 46 5 0) 5 0 4096 demo_kept) as [r w'| |]; [|contradiction..].
  subst r. exists w'. split; [reflexivity|]. apply H. discriminate.
Defined.

Lemma munmap_failure_drops_ref_witness :
  exists err w' m, vfastrpc_internal_munmap (demo_msg 3 42 5 0) 0 4096 demo_kept = Ok err w' /\ err <> 0 /\
    mm_heap (w_mm w') !! one_ptr = Some m /\ m_refs m = 1.
Proof.
  pose proof (munmap_failure_drops_ref (demo_msg 3 42 5 0) 0 4096 demo_kept one_ptr (one_map 2 0)
    demo_kept_inv) as H.
  specialize (H eq_refl). specialize (H ltac:(vm_compute; reflexivity)).
  specialize (H ltac:(vm_compute; reflexivity)). specialize (H eq_refl).
  assert (match vfastrpc_internal_munmap (demo_msg 3 42 5 0) 0 4096 demo_kept with
          | Ok r _ => r <> 0 | _ => False end) as E by (vm_compute; discriminate).
  destruct (vfastrpc_internal_munmap (demo_msg 3 42 5 0) 0 4096 demo_kept) as [r w'| |]; [|contradiction..].
  destruct (H E) as [_ Hm]. eexists r, w', _. split; [reflexivity|]. split; [exact E|]. split; [exact Hm|].
  reflexivity.
Defined.
