(* ===== verification/Session.v ===== *)
(** * Sessions: open, close, modes, process information, DSP capabilities

    The commands [virt_fastrpc_open], [virt_fastrpc_close],
    [virt_fastrpc_control] and [virt_fastrpc_get_dsp_info]
    (virtio_fastrpc_core.c), the handlers above them, and the ioctls of
    virtio_fastrpc_base.c that only reach these handlers.  The state adds to
    the world the channels, the features of the device and the fields of
    [struct fastrpc_file] the other components do not use. *)
From S2P Require Import Prelude Shared Mmap Pages Buf Apps World Transact MapOps.

Definition DYNAMIC_PD : Z := 1.
Definition UNSIGNED_PD_SUPPORT : Z := 1.
Definition PERF_CAPABILITY : Z := Z.shiftl 1 1.
Definition FASTRPC_MODE_UNSIGNED_MODULE : Z := Z.shiftl 1 3.
Definition MINOR_NUM_DEV : Z := 0.
Definition MINOR_NUM_SECURE_DEV : Z := 1.
Definition CDSP1_DOMAIN_ID : Z := 4.
Definition INIT_FILELEN_MAX : Z := 2 * 1024 * 1024.
Definition INIT_MEMLEN_MAX : Z := 8 * 1024 * 1024.

(** ** State *)

(** [dsp_cap_kernel] of the channel is its last two fields. *)
Record vfastrpc_channel_ctx := {
  ch_secure : bool;
  ch_unsigned_support : bool;
  ch_is_cached : bool;
  ch_dsp_attributes : list Z;
}.
#[export] Instance eta_channel : Eta vfastrpc_channel_ctx := fun c =>
  {| ch_secure := ch_secure c; ch_unsigned_support := ch_unsigned_support c;
     ch_is_cached := ch_is_cached c; ch_dsp_attributes := ch_dsp_attributes c |}.

Record driver `{virtqueue} := {
  dr_world : world;
  dr_num_channels : Z;
  dr_channel : list vfastrpc_channel_ctx;
  dr_has_invoke_attr : bool;
  dr_has_invoke_crc : bool;
  dr_has_mmap : bool;
  dr_has_control : bool;
  dr_has_mem_map : bool;
  dr_debugfs_root : bool;
  (* the rest of the file *)
  dr_dev_minor : Z;
  dr_tgid_open : Z;
  dr_untrusted_process : bool;
  dr_debug_buf_alloced_attempted : bool;
  dr_debug_buf : bool;
  dr_debugfs_file : bool;
}.
#[export] Instance eta_driver `{virtqueue} : Eta driver := fun d =>
  {| dr_world := dr_world d; dr_num_channels := dr_num_channels d; dr_channel := dr_channel d;
     dr_has_invoke_attr := dr_has_invoke_attr d; dr_has_invoke_crc := dr_has_invoke_crc d;
     dr_has_mmap := dr_has_mmap d; dr_has_control := dr_has_control d;
     dr_has_mem_map := dr_has_mem_map d; dr_debugfs_root := dr_debugfs_root d;
     dr_dev_minor := dr_dev_minor d; dr_tgid_open := dr_tgid_open d;
     dr_untrusted_process := dr_untrusted_process d;
     dr_debug_buf_alloced_attempted := dr_debug_buf_alloced_attempted d;
     dr_debug_buf := dr_debug_buf d; dr_debugfs_file := dr_debugfs_file d |}.

(** [struct fastrpc_ioctl_control], [fastrpc_ioctl_init_attrs] and
    [fastrpc_ioctl_capability], with the fields the driver uses. *)
Record ioctl_control := { cp_req : Z; cp_enable : Z; cp_latency : Z; cp_kalloc_support : Z }.
#[export] Instance eta_control : Eta ioctl_control := fun c =>
  {| cp_req := cp_req c; cp_enable := cp_enable c; cp_latency := cp_latency c;
     cp_kalloc_support := cp_kalloc_support c |}.
Record init_attrs := { in_flags : Z; in_attrs : Z; in_filelen : Z; in_memlen : Z }.
Record capability := { cap_domain : Z; cap_attribute_ID : Z }.

(** [current->tgid], and whether the [kzalloc] and the [debugfs_create_file] of
    [vfastrpc_set_process_info] succeed. *)
Record proc_env := { pe_tgid : Z; pe_kzalloc : bool; pe_debugfs : bool }.

Section ops.
Context `{HS : adsprpc_shared, KC : kernel_config, V : virtqueue}.

Definition sizeof_cap_msg : Z := sizeof_hdr + 4 + 4 * FASTRPC_MAX_DSP_ATTRIBUTES.

Definition on_w {A} (m : M world A) : M driver A := zoom dr_world (fun w d => d <| dr_world := w |>) m.
Definition on_file {A} (m : M file A) : M driver A := on_w (on_fl m).

(** [&me->channel[domain]], dereferenced. *)
Definition channel_at (i : Z) : M driver vfastrpc_channel_ctx := fun d =>
  if i <? 0 then Fault OutOfBounds
  else match dr_channel d !! Z.to_nat i with
       | Some c => Ok c d
       | None => Fault OutOfBounds
       end.

Definition channel_store (i : Z) (c : vfastrpc_channel_ctx) : M driver () :=
  channel_at i;;
  modify (fun d => d <| dr_channel := <[Z.to_nat i := c]> (dr_channel d) |>).

(** [K_COPY_FROM_USER]: what is read, or [None] if the copy fails. *)
Definition copy_from_user {A} (user : option A) (k : A -> M driver Z) : M driver Z :=
  match user with
  | None => mret (VERIFY_err 0)
  | Some a => k a
  end.

(** ** Commands *)

Definition virt_fastrpc_open (e : msg_env) (attrs : Z) : M world Z :=
  f ← gets w_fl;
  r ← transact e true VIRTIO_FASTRPC_CMD_OPEN sizeof_open_msg sizeof_open_msg
        (fun h => Some (VirtOpen (h <| h_cid := -1 |>) (u32 (fl_domain f)) (fl_pd f) attrs)) None
        (fun r => if negb (rsp_err r =? 0) then (rsp_err r, None)
                  else if h_cid (r_hdr r) <? 0 then (- EINVAL, None)
                  else (0, Some (h_cid (r_hdr r))));
  match r.2 with
  | Some cid => on_fl (modify (fun f => f <| fl_cid := cid |>))
  | None => mret ()
  end;;
  mret r.1.

Definition virt_fastrpc_close (e : msg_env) : M world Z :=
  f ← gets w_fl;
  if fl_cid f <? 0 then mret (- EINVAL)
  else
    r ← transact e true VIRTIO_FASTRPC_CMD_CLOSE sizeof_hdr sizeof_hdr
          (fun h => Some (VirtClose h)) () (fun r => (rsp_err r, ()));
    mret r.1.

Definition virt_fastrpc_control (e : msg_env) (enable latency : Z) : M world Z :=
  r ← transact e true VIRTIO_FASTRPC_CMD_CONTROL sizeof_control_msg sizeof_control_msg
        (fun h => Some (VirtControl h enable latency)) () (fun r => (rsp_err r, ()));
  mret r.1.

(** The error code and, on success, the [memcpy] of the response's words. *)
Definition virt_fastrpc_get_dsp_info (e : msg_env) : M world (Z * option (list Z)) :=
  f ← gets w_fl;
  transact e true VIRTIO_FASTRPC_CMD_GET_DSP_INFO sizeof_cap_msg sizeof_cap_msg
    (fun h => Some (VirtCap (h <| h_cid := -1 |>) (u32 (fl_domain f)))) None
    (fun r => (rsp_err r, if rsp_err r =? 0
                          then Some (r_dsp_caps r <$> seq 0 (Z.to_nat FASTRPC_MAX_DSP_ATTRIBUTES))
                          else None)).

(** ** Handlers *)

Definition vfastrpc_internal_control (e : msg_env) (cp : ioctl_control) : M driver (Z * ioctl_control) :=
  d ← get;
  if cp_req cp =? FASTRPC_CONTROL_LATENCY then
    if negb (dr_has_control d) then mret (- ENOTTY, cp)
    else on_w (virt_fastrpc_control e (cp_enable cp) (cp_latency cp));; mret (0, cp)
  else if cp_req cp =? FASTRPC_CONTROL_KALLOC then mret (0, cp <| cp_kalloc_support := 1 |>)
  else mret (- ENOTTY, cp).

Definition vfastrpc_set_process_info (e : proc_env) : M driver Z :=
  on_file (modify (fun f => f <| fl_tgid := pe_tgid e |>));;
  d ← get;
  when (negb (pe_tgid e =? dr_tgid_open d)) (modify (fun d => d <| dr_untrusted_process := true |>));;
  if dr_debugfs_root d then
    if dr_debug_buf_alloced_attempted d then mret 0
    else
      modify (fun d => d <| dr_debug_buf_alloced_attempted := true |>);;
      if negb (pe_kzalloc e) then
        modify (fun d => d <| dr_debug_buf := false |> <| dr_debug_buf_alloced_attempted := false |>);;
        mret (- ENOMEM)
      else
        modify (fun d => d <| dr_debug_buf := true |>);;
        if pe_debugfs e then modify (fun d => d <| dr_debugfs_file := true |>);; mret 0
        else
          modify (fun d => d <| dr_debugfs_file := false |> <| dr_debug_buf := false |>
                             <| dr_debug_buf_alloced_attempted := false |>);;
          mret 0
  else mret 0.

(** The error code and what [*info] holds at the end. *)
Definition vfastrpc_internal_get_info (e : proc_env) (info : Z) : M driver (Z * Z) :=
  err ← vfastrpc_set_process_info e;
  if negb (err =? 0) then mret (err, info)
  else
    d ← get;
    if fl_domain (w_fl (dr_world d)) =? -1 then
      let domain := u32 info in
      let err := VERIFY 0 (domain <? dr_num_channels d) in
      if negb (err =? 0) then mret (err, info)
      else
        chan ← channel_at domain;
        if (dr_dev_minor d =? MINOR_NUM_DEV) && (ch_secure chan && negb (ch_unsigned_support chan))
        then mret (- EACCES, info)
        else on_file (modify (fun f => f <| fl_domain := s32 domain |>));; mret (0, 1)
    else mret (0, 1).

(** From the [switch] of [vfastrpc_internal_init_process]. *)
Definition init_process_switch (me : msg_env) (uproc : init_attrs) : M driver Z :=
  if in_flags uproc =? FASTRPC_INIT_CREATE then
    on_file (modify (fun f => f <| fl_pd := DYNAMIC_PD |>));;
    d ← get;
    if dr_untrusted_process d &&
       negb (VERIFY 0 (has_bit (in_attrs uproc) FASTRPC_MODE_UNSIGNED_MODULE) =? 0)
    then mret (- ECONNREFUSED)
    else
      on_file (modify (fun f => f <| fl_procattrs := s32 (in_attrs uproc) |>));;
      err ← on_w (virt_fastrpc_open me (u32 (in_attrs uproc)));
      if negb (err =? 0) then mret err
      else on_file (modify (fun f => f <| fl_dsp_proc_init := 1 |>));; mret 0
  else if (in_flags uproc =? FASTRPC_INIT_CREATE_STATIC) || (in_flags uproc =? FASTRPC_INIT_ATTACH) ||
          (in_flags uproc =? FASTRPC_INIT_ATTACH_SENSORS)
  then mret (- ECONNREFUSED)
  else mret (- ENOTTY).

Definition vfastrpc_internal_init_process (me : msg_env) (uproc : init_attrs) : M driver Z :=
  d ← get;
  chan ← channel_at (fl_domain (w_fl (dr_world d)));
  if ch_unsigned_support chan && (dr_dev_minor d =? MINOR_NUM_DEV) then
    if ch_secure chan && negb (has_bit (in_attrs uproc) FASTRPC_MODE_UNSIGNED_MODULE)
    then mret (- ECONNREFUSED)
    else init_process_switch me uproc
  else if negb (ch_unsigned_support chan) && has_bit (in_attrs uproc) FASTRPC_MODE_UNSIGNED_MODULE
  then mret (- ECONNREFUSED)
  else init_process_switch me uproc.

(** [kernel_capabilities], an array of
    [FASTRPC_MAX_ATTRIBUTES - FASTRPC_MAX_DSP_ATTRIBUTES] words. *)
Definition kernel_capabilities (i : Z) : Z := if i =? 0 then PERF_CAPABILITY else 0.

(** Word [i] of a channel's attributes. *)
Definition attribute (c : vfastrpc_channel_ctx) (i : Z) : M driver Z :=
  match ch_dsp_attributes c !! Z.to_nat i with
  | Some v => mret v
  | None => fail OutOfBounds
  end.

(** The error code and [cap->capability], 0 on entry. *)
Definition vfastrpc_get_info_from_kernel (me : msg_env) (cap : capability) : M driver (Z * Z) :=
  let domain := u32 (cap_domain cap) in
  let attribute_ID := u32 (cap_attribute_ID cap) in
  if FASTRPC_MAX_ATTRIBUTES <=? attribute_ID then mret (- EOVERFLOW, 0)
  else if FASTRPC_MAX_DSP_ATTRIBUTES <=? attribute_ID then
    mret (0, kernel_capabilities (attribute_ID - FASTRPC_MAX_DSP_ATTRIBUTES))
  else
    chan ← channel_at domain;
    if negb (ch_is_cached chan) then
      r ← on_w (virt_fastrpc_get_dsp_info me);
      if negb (r.1 =? 0) then mret (r.1, 0)
      else
        chan ← channel_at domain;
        let caps := default (ch_dsp_attributes chan) r.2 in
        let unsigned := negb (default 0 (caps !! Z.to_nat UNSIGNED_PD_SUPPORT) =? 0) in
        let chan := chan <| ch_unsigned_support := unsigned |>
                         <| ch_dsp_attributes := <[Z.to_nat ASYNC_FASTRPC_CAP := 1]> caps |> in
        channel_store domain chan;;
        v ← attribute chan attribute_ID;
        channel_store domain (chan <| ch_is_cached := true |>);;
        mret (0, v)
    else
      v ← attribute chan attribute_ID;
      mret (0, v).

(** ** ioctls of virtio_fastrpc_base.c *)

(** [user] is what the caller's structure holds and [out] whether the copy of
    the answer to user space succeeds. *)
Definition vfastrpc_internal_get_dsp_info (me : msg_env) (user : option capability) (out : bool)
    : M driver Z :=
  copy_from_user user (fun cap =>
    d ← get;
    if negb (VERIFY 0 (u32 (cap_domain cap) <? dr_num_channels d) =? 0) then mret (- ECHRNG)
    else
      r ← vfastrpc_get_info_from_kernel me cap;
      if negb (r.1 =? 0) then mret r.1
      else mret (VERIFY 0 out)).

Definition vfastrpc_setmode_ioctl (ioctl_param : Z) : M driver Z :=
  let mode := u32 ioctl_param in
  if (mode =? FASTRPC_MODE_PARALLEL) || (mode =? FASTRPC_MODE_SERIAL) then
    on_file (modify (fun f => f <| fl_mode := mode |>));; mret 0
  else if mode =? FASTRPC_MODE_SESSION then
    d ← get;
    if dr_untrusted_process d then mret (- EPERM)
    else
      on_file (modify (fun f => f <| fl_sessionid := 1 |>
                                  <| fl_tgid := Z.lor (fl_tgid f) (Z.shiftl 1 SESSION_ID_INDEX) |>));;
      mret 0
  else if mode =? FASTRPC_MODE_PROFILE then
    on_file (modify (fun f => f <| fl_profile := mode |>));; mret 0
  else mret (- ENOTTY).

Definition vfastrpc_control_ioctl (me : msg_env) (user : option ioctl_control) (out : bool) : M driver Z :=
  copy_from_user user (fun cp =>
    r ← vfastrpc_internal_control me cp;
    let err := VERIFY r.1 (r.1 =? 0) in
    if negb (err =? 0) then mret err
    else if cp_req r.2 =? FASTRPC_CONTROL_KALLOC then mret (VERIFY 0 out)
    else mret err).

Definition vfastrpc_get_info_ioctl (e : proc_env) (user : option Z) (out : bool) : M driver Z :=
  copy_from_user user (fun info =>
    r ← vfastrpc_internal_get_info e info;
    let err := VERIFY r.1 (r.1 =? 0) in
    if negb (err =? 0) then mret err else mret (VERIFY 0 out)).

Definition vfastrpc_init_ioctl (me : msg_env) (user : option init_attrs) : M driver Z :=
  copy_from_user user (fun init =>
    let err := VERIFY 0 ((0 <=? in_filelen init) && (in_filelen init <? INIT_FILELEN_MAX)) in
    if negb (err =? 0) then mret err
    else
      let err := VERIFY 0 ((0 <=? in_memlen init) && (in_memlen init <? INIT_MEMLEN_MAX)) in
      if negb (err =? 0) then mret err
      else
        err ← vfastrpc_internal_init_process me init;
        mret (VERIFY err (err =? 0))).

(** ** Opening the device node *)

(** [vfastrpc_channel_init]. *)
Definition channel_init (i : nat) : vfastrpc_channel_ctx :=
  let open := (Z.of_nat i =? CDSP_DOMAIN_ID) || (Z.of_nat i =? CDSP1_DOMAIN_ID) in
  {| ch_secure := negb open; ch_unsigned_support := open; ch_is_cached := false;
     ch_dsp_attributes := replicate (Z.to_nat FASTRPC_MAX_DSP_ATTRIBUTES) 0 |}.

(** The fields [vfastrpc_file_alloc] gives a new file. *)
Definition new_file (tgid : Z) : file :=
  {| fl_tgid := tgid; fl_cid := -1; fl_sessionid := 0; fl_dsp_proc_init := 0; fl_file_close := 0;
     fl_profile := 0; fl_mode := FASTRPC_MODE_SERIAL; fl_pd := 0; fl_domain := -1;
     fl_procattrs := 0; fl_seq_num := 0; fl_async_queue_job_count := 0; fl_interrupted_cmds := [] |}.

Definition new_ctxs : ctxs :=
  {| cx_heap := ∅; cx_pending := []; cx_interrupted := []; cx_async_queue := []; cx_perfs := 0 |}.

(** [vfastrpc_open] on the device [d]: the file part of the state is a new
    file.  [kzalloc] is the one of [vfastrpc_file_alloc]. *)
Definition vfastrpc_open (dev_minor tgid : Z) (kzalloc : bool) : M driver Z :=
  let err := VERIFY 0 ((dev_minor =? MINOR_NUM_DEV) || (dev_minor =? MINOR_NUM_SECURE_DEV)) in
  if negb (err =? 0) then mret err
  else
    let err := VERIFY 0 kzalloc in
    if negb (err =? 0) then mret err
    else
      modify (fun d => d
        <| dr_world := {| w_apps := w_apps (dr_world d); w_mm := empty_mmaps; w_bf := empty_bufs;
                          w_cx := new_ctxs; w_fl := new_file tgid |} |>
        <| dr_dev_minor := dev_minor |> <| dr_tgid_open := tgid |> <| dr_untrusted_process := false |>
        <| dr_debug_buf_alloced_attempted := false |> <| dr_debug_buf := false |>
        <| dr_debugfs_file := false |>);;
      mret 0.
End ops.
Arguments virt_fastrpc_open : simpl never.
Arguments virt_fastrpc_get_dsp_info : simpl never.
Arguments virt_fastrpc_control : simpl never.
