(* ===== verification/SessionFacts.v ===== *)
(** * What the session handlers guarantee

    A file stays consistent under every session ioctl; a process is only
    started on the DSP under the access policy of its device node; DSP
    capabilities are cached once. *)
From S2P Require Import Prelude Shared Mmap Pages Buf BufFacts Apps AppsFacts World WorldFacts Transact MapOps MapFacts Session.

Section facts.
Context `{HS : adsprpc_shared, !adsprpc_shared_ok HS, KC : kernel_config, !kernel_config_ok KC}.
Context `{V : virtqueue, !virtqueue_ok V}.
Implicit Types (w : world) (d : driver).

(** ** The invariant *)

(** A channel's attributes fill their array, and a secure channel is known to
    support unsigned processes only from a cached answer of the device. *)
Definition chan_ok (c : vfastrpc_channel_ctx) : Prop :=
  length (ch_dsp_attributes c) = Z.to_nat FASTRPC_MAX_DSP_ATTRIBUTES /\
  (ch_secure c = true -> ch_unsigned_support c = true -> ch_is_cached c = true).

(** The file's domain, if set, names a channel that the device node may use. *)
Definition domain_ok d : Prop :=
  let dom := fl_domain (w_fl (dr_world d)) in
  dom = -1 \/ exists c, 0 <= dom /\ dr_channel d !! Z.to_nat dom = Some c /\
    (dr_dev_minor d = MINOR_NUM_DEV -> ch_secure c = true -> ch_unsigned_support c = true).

(** A file with a process on the DSP has a domain and a channel id. *)
Definition proc_ok (f : file) : Prop :=
  fl_dsp_proc_init f = 1 -> fl_domain f <> -1 /\ 0 <= fl_cid f.

Record session_inv d : Prop := {
  si_file : file_inv (dr_world d);
  si_num : dr_num_channels d = Z.of_nat (length (dr_channel d));
  si_small : dr_num_channels d < 2 ^ 31;
  si_chan : Forall chan_ok (dr_channel d);
  si_domain : domain_ok d;
  si_proc : proc_ok (w_fl (dr_world d));
}.

(** ** The file's fields *)

(** Changing fields of the file that neither the handlers of the maps nor the
    domain depend on. *)
Lemma file_inv_fl w f :
  file_inv w -> fl_interrupted_cmds f = fl_interrupted_cmds (w_fl w) -> file_inv (w <| w_fl := f |>).
Proof.
  intros [Hr Hm Hs Hb Hc] E. split; try done; simpl; [destruct Hr; by split|by rewrite E].
Qed.

Lemma session_fl d f :
  session_inv d -> fl_interrupted_cmds f = fl_interrupted_cmds (w_fl (dr_world d)) ->
  fl_domain f = fl_domain (w_fl (dr_world d)) -> proc_ok f ->
  session_inv (d <| dr_world := (dr_world d) <| w_fl := f |> |>).
Proof.
  intros [] E Ed Hp. split; simpl; try done; [by apply file_inv_fl|].
  unfold domain_ok in *. simpl. by rewrite Ed.
Qed.

Lemma fl_rest_fields f f' : fl_rest f' = fl_rest f ->
  fl_domain f' = fl_domain f /\ fl_dsp_proc_init f' = fl_dsp_proc_init f /\ fl_cid f' = fl_cid f /\
  fl_interrupted_cmds f' = fl_interrupted_cmds f.
Proof. destruct f, f'. unfold fl_rest. simpl. by intros [=]. Qed.

(** A command leaves the session as it is. *)
Lemma session_xfer d w' :
  session_inv d -> xfer (dr_world d) w' -> file_inv w' -> session_inv (d <| dr_world := w' |>).
Proof.
  intros [] Hx Hw. destruct (fl_rest_fields _ _ (xf_fl _ _ Hx)) as (Ed & Ei & Ec & _).
  split; simpl; try done.
  - unfold domain_ok in *. simpl. by rewrite Ed.
  - unfold proc_ok in *. by rewrite Ed, Ei, Ec.
Qed.

(** ** Commands *)

Lemma sizeof_cap_msg_u32 : u32 sizeof_cap_msg = sizeof_cap_msg.
Proof. pose proof DSP_ATTRIBUTES_range. unfold sizeof_cap_msg, sizeof_hdr in *. apply u32_id. lia. Qed.

Lemma virt_open_swp e attrs w :
  file_inv w ->
  swp (virt_fastrpc_open e attrs)
    (fun err w' => exists w1, xfer w w1 /\ file_inv w1 /\ w' = w1 <| w_fl := w_fl w' |> /\
       ((err <> 0 /\ w_fl w' = w_fl w1) \/
        (err = 0 /\ exists cid, 0 <= cid /\ w_fl w' = (w_fl w1) <| fl_cid := cid |>))) w.
Proof.
  intros Hinv. unfold virt_fastrpc_open. apply swp_gets. eapply swp_bind.
  { apply transact_swp; [done|by vm_compute|by eexists]. }
  intros [err o] w1 (Hx & Hi & Hres). simpl in *.
  destruct Hres as [[Hne ->]|(rsp & E)].
  { simpl. exists w1. destruct w1. simpl. by eauto 10. }
  destruct (Z.eqb_spec (rsp_err rsp) 0) as [E0|Hne]; simpl in E.
  - destruct (Z.ltb_spec (h_cid (r_hdr rsp)) 0); simplify_eq.
    + exists w1. destruct w1. simpl. split_and!; try done. by left.
    + simpl. exists w1. destruct w1. simpl. split_and!; try done. right. split; [done|]. by eexists.
  - simplify_eq. exists w1. destruct w1. simpl. split_and!; try done. by left.
Qed.

Lemma virt_control_swp e enable latency w :
  file_inv w -> swp (virt_fastrpc_control e enable latency) (fun _ w' => xfer w w' /\ file_inv w') w.
Proof.
  intros Hinv. unfold virt_fastrpc_control. eapply swp_bind.
  { apply transact_swp; [done|by vm_compute|by eexists]. }
  by intros r w1 (Hx & Hi & _).
Qed.

Lemma virt_dsp_info_swp e w :
  file_inv w ->
  swp (virt_fastrpc_get_dsp_info e)
    (fun r w' => xfer w w' /\ file_inv w' /\
       (r.1 = 0 -> exists caps, r.2 = Some caps /\
          length caps = Z.to_nat FASTRPC_MAX_DSP_ATTRIBUTES)) w.
Proof.
  intros Hinv. unfold virt_fastrpc_get_dsp_info. apply swp_gets. eapply swp_mono.
  { apply transact_swp; [done|by rewrite sizeof_cap_msg_u32|by eexists]. }
  intros r w1 (Hx & Hi & [[Hne _]|(rsp & ->)]); split_and!; try done.
  simpl. intros ->. eexists. split; [done|]. by rewrite length_fmap, length_seq.
Qed.

Lemma virt_close_swp e w :
  file_inv w -> swp (virt_fastrpc_close e) (fun _ w' => xfer w w' /\ file_inv w') w.
Proof.
  intros Hinv. unfold virt_fastrpc_close. apply swp_gets. destruct (fl_cid _ <? 0); [by split|].
  eapply swp_bind.
  { apply transact_swp; [done|by vm_compute|by eexists]. }
  by intros r w1 (Hx & Hi & _).
Qed.

(** ** Handlers *)

(** Changes outside the channels, the node and the world. *)
Lemma session_misc d d' :
  session_inv d -> dr_world d' = dr_world d -> dr_num_channels d' = dr_num_channels d ->
  dr_channel d' = dr_channel d -> dr_dev_minor d' = dr_dev_minor d -> session_inv d'.
Proof.
  intros [] Ew En Ec Em. split; rewrite ?Ew, ?En, ?Ec; try done.
  unfold domain_ok in *. by rewrite Ew, Ec, Em.
Qed.

(** A thread sleeps in the file it works on. *)
#[export] Instance sleeper_driver : sleeper driver := fun o d => asleep o (dr_world d).

Lemma session_command {A} (m : M world A) d :
  session_inv d -> (forall w, file_inv w -> swp m (fun _ w' => xfer w w' /\ file_inv w') w) ->
  swp (on_w m) (fun _ d' => session_inv d') d.
Proof.
  intros Hinv Hm. apply swp_on; [done|]. eapply swp_mono; [apply Hm, Hinv|].
  intros ? w' [Hx Hi]. by apply session_xfer.
Qed.

Lemma internal_control_swp e cp d :
  session_inv d -> swp (vfastrpc_internal_control e cp) (fun _ d' => session_inv d') d.
Proof.
  intros Hinv. unfold vfastrpc_internal_control. apply (swp_gets id). simpl.
  repeat case_match; try done. eapply swp_bind; [|by intros ? d' H'; apply H'].
  apply session_command; [done|]. intros. by apply virt_control_swp.
Qed.

Lemma set_process_info_ok e d :
  session_inv d ->
  exists err d', vfastrpc_set_process_info e d = Ok err d' /\ session_inv d' /\
    dr_num_channels d' = dr_num_channels d /\ dr_channel d' = dr_channel d /\
    dr_dev_minor d' = dr_dev_minor d /\
    fl_domain (w_fl (dr_world d')) = fl_domain (w_fl (dr_world d)).
Proof.
  intros Hinv. assert (session_inv (d <| dr_world := (dr_world d)
      <| w_fl := (w_fl (dr_world d)) <| fl_tgid := pe_tgid e |> |> |>)) as Hi
    by (apply session_fl; [done..|]; apply Hinv).
  unfold vfastrpc_set_process_info, mbind, M_bind, mret, M_ret, on_file, on_w, on_fl, zoom, modify, get,
    when. simpl.
  destruct (dr_debugfs_root d), (dr_debug_buf_alloced_attempted d), (negb (pe_tgid e =? dr_tgid_open d)),
    (pe_kzalloc e), (pe_debugfs e); simpl; (do 2 eexists; split; [done|]);
    (split; [|done]); by eapply session_misc; [apply Hi|..].
Qed.

(** [&me->channel[i]] for a channel that exists. *)
Lemma channel_at_Some i c d :
  0 <= i -> dr_channel d !! Z.to_nat i = Some c -> channel_at i d = Ok c d.
Proof. intros Hi Hc. unfold channel_at. zdec. by rewrite Hc. Qed.

Lemma channel_lookup i d :
  session_inv d -> 0 <= i < dr_num_channels d ->
  exists c, dr_channel d !! Z.to_nat i = Some c /\ chan_ok c.
Proof.
  intros Hinv Hi. rewrite (si_num _ Hinv) in Hi.
  destruct (lookup_lt_is_Some_2 (dr_channel d) (Z.to_nat i)) as [c Hc]; [lia|].
  exists c. split; [done|]. by eapply Forall_lookup_1; [apply Hinv|].
Qed.

Lemma VERIFY_case (b : bool) : (VERIFY 0 b =? 0) = b.
Proof. destruct b; simpl; [done|]. apply VERIFY_err_eqb. Qed.

Lemma internal_get_info_ok e info d :
  session_inv d ->
  exists r d', vfastrpc_internal_get_info e info d = Ok r d' /\ session_inv d'.
Proof.
  intros Hinv. destruct (set_process_info_ok e d Hinv) as (err & d1 & E & Hi & En & Ec & Em & Ed).
  unfold vfastrpc_internal_get_info, mbind, M_bind, mret, M_ret. rewrite E.
  destruct (err =? 0); simpl; [|by eauto]. destruct (Z.eqb_spec (fl_domain (w_fl (dr_world d1))) (-1)) as [E1|];
    [|by eauto].
  rewrite VERIFY_case. destruct (Z.ltb_spec (u32 info) (dr_num_channels d1)) as [Hlt|]; simpl; [|by eauto].
  pose proof (u32_range info) as Hr. destruct (channel_lookup (u32 info) d1 Hi) as (c & Hc & Hok); [lia|].
  rewrite (channel_at_Some _ c) by (done || lia).
  destruct ((dr_dev_minor d1 =? MINOR_NUM_DEV) && (ch_secure c && negb (ch_unsigned_support c))) eqn:Hden;
    [by eauto|].
  do 2 eexists. split; [done|]. pose proof (si_small _ Hi) as Hsm. rewrite s32_id by lia.
  destruct Hi as [Hf Hn Hs Hch Hd Hp]. split; simpl; try done.
  - by apply file_inv_fl.
  - unfold domain_ok. simpl. right. exists c. split_and!; [lia|done|]. intros Hm Hsec. rewrite Hm, Hsec in Hden.
    simpl in Hden. by destruct (ch_unsigned_support c).
  - unfold proc_ok in *. simpl. intros H1. destruct (Hp H1). lia.
Qed.

(** ** Starting a process *)

(** What a successful start means for the file. *)
Definition started (uproc : init_attrs) d d' : Prop :=
  let f := w_fl (dr_world d') in
  in_flags uproc = FASTRPC_INIT_CREATE /\ fl_dsp_proc_init f = 1 /\ fl_pd f = DYNAMIC_PD /\
  fl_procattrs f = s32 (in_attrs uproc) /\ 0 <= fl_cid f /\
  fl_domain f = fl_domain (w_fl (dr_world d)) /\
  (dr_untrusted_process d = true -> has_bit (in_attrs uproc) FASTRPC_MODE_UNSIGNED_MODULE = true).

Lemma fl_rest_pd f f' : fl_rest f' = fl_rest f ->
  fl_pd f' = fl_pd f /\ fl_procattrs f' = fl_procattrs f.
Proof. destruct f, f'. unfold fl_rest. simpl. by intros [=]. Qed.

Lemma init_switch_swp me u d :
  session_inv d -> fl_domain (w_fl (dr_world d)) <> -1 ->
  swp (init_process_switch me u) (fun err d' => session_inv d' /\ (err = 0 -> started u d d')) d.
Proof.
  intros Hinv Hdom. unfold init_process_switch.
  destruct (Z.eqb_spec (in_flags u) FASTRPC_INIT_CREATE) as [Hfl|].
  2:{ destruct (_ || _); by apply swp_ret. }
  eapply swp_zoom_eq; [done|]. apply (swp_gets id). simpl. rewrite VERIFY_case.
  set (f1 := (w_fl (dr_world d)) <| fl_pd := DYNAMIC_PD |>).
  set (d1 := d <| dr_world := (dr_world d) <| w_fl := f1 |> |>).
  assert (session_inv d1) as Hi1 by (apply session_fl; [done..|]; apply Hinv).
  destruct (dr_untrusted_process d && negb (has_bit (in_attrs u) FASTRPC_MODE_UNSIGNED_MODULE)) eqn:Hu.
  { apply swp_ret. by split. }
  eapply swp_zoom_eq; [done|].
  set (f2 := f1 <| fl_procattrs := s32 (in_attrs u) |>).
  set (d2 := d <| dr_world := (dr_world d) <| w_fl := f2 |> |>).
  match goal with |- swp _ _ ?x => change x with d2 end.
  assert (session_inv d2) as Hi2 by (apply session_fl; [done..|]; apply Hinv).
  eapply swp_on_bind; [done|apply virt_open_swp, Hi2|].
  intros err w2 (w1 & Hx & Hw1 & Ew & Hres). simpl in Hx.
  destruct (fl_rest_fields _ _ (xf_fl _ _ Hx)) as (Ed & Ei & Ec & Ecmd).
  destruct (fl_rest_pd _ _ (xf_fl _ _ Hx)) as (Epd & Epa). simpl in Ed, Ei, Ec, Ecmd, Epd, Epa.
  pose proof (session_xfer d2 w1 Hi2 Hx Hw1) as Hi3.
  destruct Hres as [[Hne Ef]|[-> (cid & Hcid & Ef)]].
  { zdec. apply swp_ret. split; [|done]. rewrite Ew, Ef. by destruct w1. }
  simpl. apply swp_ret. split.
  - set (f3 := (w_fl w1) <| fl_cid := cid |> <| fl_dsp_proc_init := 1 |>).
    assert (session_inv (d2 <| dr_world := w1 <| w_fl := f3 |> |>)) as Hi4.
    { apply (session_fl _ f3 Hi3); try done. intros _. simpl. by rewrite Ed. }
    rewrite Ew, Ef. exact Hi4.
  - intros _. unfold started. simpl. rewrite Ef. simpl. rewrite Epd, Epa, Ed. split_and!; try done.
    intros Hun. rewrite Hun in Hu. simpl in Hu. by destruct (has_bit _ _).
Qed.

Lemma init_process_swp me u d :
  session_inv d -> fl_domain (w_fl (dr_world d)) <> -1 ->
  swp (vfastrpc_internal_init_process me u)
    (fun err d' => session_inv d' /\ (err = 0 -> started u d d' /\
       exists c, dr_channel d !! Z.to_nat (fl_domain (w_fl (dr_world d))) = Some c /\
         (ch_secure c = true -> dr_dev_minor d = MINOR_NUM_DEV ->
            has_bit (in_attrs u) FASTRPC_MODE_UNSIGNED_MODULE = true) /\
         (has_bit (in_attrs u) FASTRPC_MODE_UNSIGNED_MODULE = true -> ch_unsigned_support c = true))) d.
Proof.
  intros Hinv Hdom. destruct (si_domain _ Hinv) as [?|(c & H0 & Hc & Hpol)]; [done|].
  unfold vfastrpc_internal_init_process. apply (swp_gets id). simpl.
  unfold swp at 1, mbind, M_bind. rewrite (channel_at_Some _ c) by done.
  change (swp (if ch_unsigned_support c && (dr_dev_minor d =? MINOR_NUM_DEV) then
    if ch_secure c && negb (has_bit (in_attrs u) FASTRPC_MODE_UNSIGNED_MODULE)
    then mret (- ECONNREFUSED) else init_process_switch me u
    else if negb (ch_unsigned_support c) && has_bit (in_attrs u) FASTRPC_MODE_UNSIGNED_MODULE
    then mret (- ECONNREFUSED) else init_process_switch me u)
    (fun err d' => session_inv d' /\ (err = 0 -> started u d d' /\
       exists c, dr_channel d !! Z.to_nat (fl_domain (w_fl (dr_world d))) = Some c /\
         (ch_secure c = true -> dr_dev_minor d = MINOR_NUM_DEV ->
            has_bit (in_attrs u) FASTRPC_MODE_UNSIGNED_MODULE = true) /\
         (has_bit (in_attrs u) FASTRPC_MODE_UNSIGNED_MODULE = true -> ch_unsigned_support c = true))) d).
  destruct (ch_unsigned_support c) eqn:Hun, (Z.eqb_spec (dr_dev_minor d) MINOR_NUM_DEV) as [Hmin|Hmin],
    (ch_secure c) eqn:Hsec, (has_bit (in_attrs u) FASTRPC_MODE_UNSIGNED_MODULE) eqn:Hb; simpl;
    try (by apply swp_ret); try (by specialize (Hpol Hmin eq_refl));
    (eapply swp_mono; [by apply init_switch_swp|]); intros err d' [Hi Hs]; (split; [done|]);
    intros E; (split; [by apply Hs|]); exists c; rewrite ?Hun, ?Hsec; naive_solver.
Qed.

(** ** Capabilities *)

Lemma channel_store_Some i c c' d :
  0 <= i -> dr_channel d !! Z.to_nat i = Some c ->
  channel_store i c' d = Ok () (d <| dr_channel := <[Z.to_nat i := c']> (dr_channel d) |>).
Proof.
  intros Hi Hc. unfold channel_store, mbind, M_bind. by rewrite (channel_at_Some i c).
Qed.

Lemma attribute_ok c i d :
  chan_ok c -> 0 <= i < FASTRPC_MAX_DSP_ATTRIBUTES -> exists v, attribute c i d = Ok v d /\
    ch_dsp_attributes c !! Z.to_nat i = Some v.
Proof.
  intros [Hl _] Hi. unfold attribute.
  destruct (lookup_lt_is_Some_2 (ch_dsp_attributes c) (Z.to_nat i)) as [v Hv]; [lia|].
  rewrite Hv. by eauto.
Qed.

(** Caching the answer for a channel that was not cached. *)
Lemma session_chan d i c c' :
  session_inv d -> dr_channel d !! i = Some c -> ch_is_cached c = false ->
  ch_secure c' = ch_secure c -> chan_ok c' ->
  session_inv (d <| dr_channel := <[i := c']> (dr_channel d) |>).
Proof.
  intros [Hf Hn Hs Hch Hd Hp] Hc Hnc Hsec Hok. split; simpl; try done.
  - by rewrite length_insert.
  - by apply Forall_insert.
  - unfold domain_ok in *. simpl. destruct Hd as [?|(c0 & H0 & Hc0 & Hpol)]; [by left|]. right.
    destruct (decide (i = Z.to_nat (fl_domain (w_fl (dr_world d))))) as [->|Hne].
    + exists c'. rewrite list_lookup_insert_eq by (by eapply lookup_lt_Some). split_and!; try done.
      intros Hm Hs'. assert (c0 = c) as -> by congruence. rewrite Hsec in Hs'.
      pose proof (proj2 (Forall_lookup_1 _ _ _ _ Hch Hc) Hs' (Hpol Hm Hs')). congruence.
    + exists c0. by rewrite list_lookup_insert_ne.
Qed.

Lemma get_info_kernel_swp me cap d :
  session_inv d -> u32 (cap_domain cap) < dr_num_channels d ->
  swp (vfastrpc_get_info_from_kernel me cap) (fun r d' => session_inv d' /\
    (r.1 = 0 -> u32 (cap_attribute_ID cap) < FASTRPC_MAX_DSP_ATTRIBUTES ->
     exists c, dr_channel d' !! Z.to_nat (u32 (cap_domain cap)) = Some c /\ ch_is_cached c = true /\
       ch_dsp_attributes c !! Z.to_nat (u32 (cap_attribute_ID cap)) = Some r.2)) d.
Proof.
  intros Hinv Hdom. set (dom := u32 (cap_domain cap)) in *. set (id := u32 (cap_attribute_ID cap)).
  pose proof (u32_range (cap_domain cap)) as Hd. fold dom in Hd.
  pose proof (u32_range (cap_attribute_ID cap)) as Hid. fold id in Hid.
  unfold vfastrpc_get_info_from_kernel. fold dom id.
  destruct (Z.leb_spec FASTRPC_MAX_ATTRIBUTES id); [by apply swp_ret|].
  destruct (Z.leb_spec FASTRPC_MAX_DSP_ATTRIBUTES id); [apply swp_ret; simpl; split; [done|lia]|].
  destruct (channel_lookup dom d Hinv) as (c & Hc & Hok); [lia|].
  unfold swp at 1, mbind at 1, M_bind at 1. rewrite (channel_at_Some dom c) by (done || lia).
  destruct (ch_is_cached c) eqn:Hca; simpl.
  { destruct (attribute_ok c id d) as (v & Ev & Hv); [done|lia|]. unfold mbind, M_bind. rewrite Ev. simpl. eauto. }
  match goal with |- match ?m d with _ => _ end => change (swp m (fun r d' => session_inv d' /\
    (r.1 = 0 -> id < FASTRPC_MAX_DSP_ATTRIBUTES -> exists c, dr_channel d' !! Z.to_nat dom = Some c /\
       ch_is_cached c = true /\ ch_dsp_attributes c !! Z.to_nat id = Some r.2)) d) end.
  eapply swp_on_bind; [done|apply virt_dsp_info_swp, Hinv|]. intros [err o] w1 (Hx & Hw1 & Hres).
  simpl in Hres. pose proof (session_xfer d w1 Hinv Hx Hw1) as Hi1.
  cbn [fst snd]. destruct (Z.eqb_spec err 0) as [->|Hne]; simpl negb; cbv iota;
    [|apply swp_ret; split; [exact Hi1|simpl; lia]].
  destruct (Hres eq_refl) as (caps & -> & Hlen). set (d1 := d <| dr_world := w1 |>) in *.
  assert (dr_channel d1 !! Z.to_nat dom = Some c) as Hc1 by done. clearbody d1.
  unfold swp, mbind, M_bind. rewrite (channel_at_Some dom c) by (done || lia). simpl.
  match goal with |- context [channel_store dom ?x d1] => set (c1 := x) end.
  assert (length (ch_dsp_attributes c1) = Z.to_nat FASTRPC_MAX_DSP_ATTRIBUTES) as Hl1
    by (simpl; by rewrite length_insert).
  rewrite (channel_store_Some dom c) by (done || lia).
  unfold attribute. destruct (lookup_lt_is_Some_2 (ch_dsp_attributes c1) (Z.to_nat id)) as [v Hv]; [lia|].
  rewrite Hv. simpl. rewrite (channel_store_Some dom c1); [|lia|simpl; apply list_lookup_insert_eq;
    by eapply lookup_lt_Some]. simpl. rewrite list_insert_insert_eq.
  set (c2 := c1 <| ch_is_cached := true |>). split.
  - by apply (session_chan d1 _ c c2).
  - intros _ _. exists c2. rewrite list_lookup_insert_eq by (by eapply lookup_lt_Some). done.
Qed.

(** ** The session ioctls *)

Inductive session_op : Type :=
| SSetmode (param : Z)
| SControl (me : msg_env) (user : option ioctl_control) (out : bool)
| SGetInfo (e : proc_env) (user : option Z) (out : bool)
| SInit (me : msg_env) (user : option init_attrs)
| SDspInfo (me : msg_env) (user : option capability) (out : bool).

Definition run_session_op (o : session_op) : M driver Z :=
  match o with
  | SSetmode param => vfastrpc_setmode_ioctl param
  | SControl me user out => vfastrpc_control_ioctl me user out
  | SGetInfo e user out => vfastrpc_get_info_ioctl e user out
  | SInit me user => vfastrpc_init_ioctl me user
  | SDspInfo me user out => vfastrpc_internal_get_dsp_info me user out
  end.

Lemma setmode_ok param d :
  session_inv d -> swp (vfastrpc_setmode_ioctl param) (fun _ d' => session_inv d') d.
Proof.
  intros Hinv. assert (forall g : file -> file,
    fl_interrupted_cmds (g (w_fl (dr_world d))) = fl_interrupted_cmds (w_fl (dr_world d)) ->
    fl_domain (g (w_fl (dr_world d))) = fl_domain (w_fl (dr_world d)) ->
    proc_ok (g (w_fl (dr_world d))) ->
    swp (on_file (modify g);; mret 0) (fun _ d' => session_inv d') d) as Hset.
  { intros g ? ? ?. eapply swp_zoom_eq; [done|]. apply swp_ret. by apply session_fl. }
  pose proof (si_proc _ Hinv) as Hp. unfold vfastrpc_setmode_ioctl.
  destruct (_ || _); [by apply Hset|]. destruct (_ =? FASTRPC_MODE_SESSION).
  { apply (swp_gets id). simpl. destruct (dr_untrusted_process d); [by apply swp_ret|by apply Hset]. }
  destruct (_ =? FASTRPC_MODE_PROFILE); [by apply Hset|by apply swp_ret].
Qed.

Lemma init_ioctl_swp me u d :
  session_inv d -> fl_domain (w_fl (dr_world d)) <> -1 ->
  swp (vfastrpc_init_ioctl me u) (fun err d' => session_inv d') d.
Proof.
  intros Hinv Hdom. destruct u as [u|]; [|by apply swp_ret]. unfold vfastrpc_init_ioctl, copy_from_user.
  rewrite !VERIFY_case. do 2 (destruct (_ && _); [|by apply swp_ret]). simpl.
  eapply swp_bind; [by apply init_process_swp|]. intros err d' [Hi _]. by apply swp_ret.
Qed.

Lemma session_op_swp o d :
  session_inv d -> (match o with SInit _ _ => fl_domain (w_fl (dr_world d)) <> -1 | _ => True end) ->
  swp (run_session_op o) (fun _ d' => session_inv d') d.
Proof.
  intros Hinv Hdom. destruct o as [param|me [cp|] out|e [info|] out|me u|me [cap|] out]; try (by apply swp_ret).
  - by apply setmode_ok.
  - eapply swp_bind; [by apply internal_control_swp|]. intros r d' Hi. simpl.
    repeat case_match; by apply swp_ret.
  - destruct (internal_get_info_ok e info d Hinv) as (r & d' & E & Hi). unfold swp.
    simpl. unfold vfastrpc_get_info_ioctl, copy_from_user, mbind, M_bind. rewrite E.
    by destruct (negb _).
  - by apply init_ioctl_swp.
  - simpl. unfold vfastrpc_internal_get_dsp_info, copy_from_user. apply (swp_gets id). simpl.
    rewrite VERIFY_case. destruct (Z.ltb_spec (u32 (cap_domain cap)) (dr_num_channels d)); [|by apply swp_ret].
    simpl. eapply swp_bind; [by apply get_info_kernel_swp|]. intros r d' [Hi _]. case_match; by apply swp_ret.
Qed.

(** The session ioctls keep a file consistent.  From a consistent state,
    setting a mode, latency control, reading process information, starting a
    process on a file whose domain is set, and querying capabilities, for all
    arguments, kernel answers and device behaviour, lead to a consistent
    state: the file's maps, buffers and messages, the channels, a domain that
    the device node may use, and a channel id for every started process.
    They wait for ever only if the device never answers and fault only on a
    response it should not have sent. *)
Theorem session_ops_safe o d :
  session_inv d -> (match o with SInit _ _ => fl_domain (w_fl (dr_world d)) <> -1 | _ => True end) ->
  match run_session_op o d with
  | Ok _ d' => session_inv d'
  | Fault f => device_fault f
  | Hang Loops => False
  | Hang (Sleeps on d') => asleep on d'
  end.
Proof. apply session_op_swp. Qed.

(** Session states reachable from a file just opened on one device node. *)
Inductive session_reach (d0 : driver) : driver -> Prop :=
| reach_open : session_reach d0 d0
| reach_op d o err d' : session_reach d0 d -> run_session_op o d = Ok err d' -> session_reach d0 d'.

(** Running an ioctl that returns keeps the invariant, a start included: it
    returns only if the domain is set. *)
Lemma init_domain_unset me u d :
  fl_domain (w_fl (dr_world d)) = -1 -> vfastrpc_internal_init_process me u d = Fault OutOfBounds.
Proof.
  intros E. unfold vfastrpc_internal_init_process, mbind, M_bind, get, channel_at. by rewrite E.
Qed.

Lemma init_ioctl_Ok me u d err d' :
  vfastrpc_init_ioctl me (Some u) d = Ok err d' ->
  (err <> 0 /\ d' = d) \/ vfastrpc_internal_init_process me u d = Ok err d'.
Proof.
  unfold vfastrpc_init_ioctl, copy_from_user. rewrite !VERIFY_case. intros E.
  do 2 (destruct (_ && _); simpl negb in E; cbv iota in E;
        [|left; injection E as <- <-; split; [apply VERIFY_err_nonzero|reflexivity]]).
  right. unfold mbind, M_bind in E. cbn [negb] in E. cbv beta iota in E.
  destruct (vfastrpc_internal_init_process me u d) as [e d1| |]; [|done..].
  injection E as <- <-. by rewrite VERIFY_assign.
Qed.

Lemma session_op_Ok o d err d' :
  session_inv d -> run_session_op o d = Ok err d' -> session_inv d'.
Proof.
  intros Hinv E. destruct (decide (fl_domain (w_fl (dr_world d)) = -1)) as [Hd|Hd].
  - destruct o as [| | |me [u|]|].
    4: { destruct (init_ioctl_Ok _ _ _ _ _ E) as [[_ ->]|E']; [done|].
         by rewrite init_domain_unset in E'. }
    4: { by injection E as _ <-. }
    all: match type of E with run_session_op ?o _ = _ =>
           pose proof (session_op_swp o d Hinv I) as H end; unfold swp in H; by rewrite E in H.
  - pose proof (session_op_swp o d Hinv) as H. unfold swp in H. rewrite E in H. apply H. by destruct o.
Qed.

(** The state [vfastrpc_open] leaves on a device whose channels are new. *)
Lemma session_reach_inv d0 d : session_inv d0 -> session_reach d0 d -> session_inv d.
Proof. intros H0. induction 1; [done|]. by eapply session_op_Ok. Qed.

(** C39: the access policy of the device nodes.  In every state a file can
    reach from a consistent one by session ioctls, a start of a process that
    reports success was a [FASTRPC_INIT_CREATE]; the file then has a domain, a
    non-negative channel id and the requested attributes; if it was opened on
    the non-secure node and the channel is secure, or if it was opened on
    behalf of another process, the process is an unsigned one; and an unsigned
    process runs only on a channel that supports it. *)
Theorem init_process_policy me u d0 d d' :
  session_inv d0 -> session_reach d0 d -> run_session_op (SInit me (Some u)) d = Ok 0 d' ->
  started u d d' /\
  exists c, dr_channel d !! Z.to_nat (fl_domain (w_fl (dr_world d))) = Some c /\
    (ch_secure c = true -> dr_dev_minor d = MINOR_NUM_DEV ->
       has_bit (in_attrs u) FASTRPC_MODE_UNSIGNED_MODULE = true) /\
    (has_bit (in_attrs u) FASTRPC_MODE_UNSIGNED_MODULE = true -> ch_unsigned_support c = true).
Proof.
  intros H0 Hr E. pose proof (session_reach_inv _ _ H0 Hr) as Hinv.
  destruct (init_ioctl_Ok _ _ _ _ _ E) as [[? _]|E']; [done|].
  destruct (decide (fl_domain (w_fl (dr_world d)) = -1)) as [Hd|Hd]; [by rewrite init_domain_unset in E'|].
  pose proof (init_process_swp me u d Hinv Hd) as Hs. unfold swp in Hs. rewrite E' in Hs. by apply Hs.
Qed.

(** Capabilities are asked for once.  A successful query of a DSP
    attribute leaves the channel cached with the reported value; every later
    query of a DSP attribute of that channel, whatever the device would
    answer, returns the cached word without sending a message. *)
Theorem capability_cached me me' cap cap' d v d' :
  session_inv d -> u32 (cap_domain cap) < dr_num_channels d ->
  u32 (cap_attribute_ID cap) < FASTRPC_MAX_DSP_ATTRIBUTES ->
  vfastrpc_get_info_from_kernel me cap d = Ok (0, v) d' ->
  cap_domain cap' = cap_domain cap -> u32 (cap_attribute_ID cap') < FASTRPC_MAX_DSP_ATTRIBUTES ->
  (exists v', vfastrpc_get_info_from_kernel me' cap' d' = Ok (0, v') d') /\
  vfastrpc_get_info_from_kernel me' cap d' = Ok (0, v) d'.
Proof.
  intros Hinv Hdom Hid E Ecap Hid'. pose proof (get_info_kernel_swp me cap d Hinv Hdom) as Hs.
  unfold swp in Hs. rewrite E in Hs. destruct Hs as [Hi Hc].
  destruct (Hc eq_refl Hid) as (c & Hl & Hca & Hv). simpl in Hv.
  pose proof (Forall_lookup_1 _ _ _ _ (si_chan _ Hi) Hl) as Hok.
  pose proof (u32_range (cap_domain cap)) as Hd. pose proof ATTRIBUTES_range as Ha.
  pose proof (u32_range (cap_attribute_ID cap')) as Hi'.
  unfold vfastrpc_get_info_from_kernel, mbind, M_bind, attribute. rewrite Ecap. zdec.
  rewrite (channel_at_Some _ c), Hca by (done || lia). simpl. rewrite Hv. split; [|done].
  destruct (lookup_lt_is_Some_2 (ch_dsp_attributes c) (Z.to_nat (u32 (cap_attribute_ID cap')))) as [v' ->];
    [destruct Hok as [-> _]; lia|]. by exists v'.
Qed.

(** C40: starting a process before GETINFO reads outside the channels.  A file
    just opened has domain -1; [vfastrpc_internal_init_process] takes
    [&channel[domain]] before any check, so that a well-formed INIT as the
    first ioctl of a file faults. *)
Theorem init_before_getinfo_faults me u dev_minor tgid d d' :
  vfastrpc_open dev_minor tgid true d = Ok 0 d' ->
  0 <= in_filelen u < INIT_FILELEN_MAX -> 0 <= in_memlen u < INIT_MEMLEN_MAX ->
  run_session_op (SInit me (Some u)) d' = Fault OutOfBounds.
Proof.
  intros E Hf Hm. assert (fl_domain (w_fl (dr_world d')) = -1) as Hd.
  { unfold vfastrpc_open in E. rewrite !VERIFY_case in E. destruct (_ || _); [by injection E as <-|].
    injection E as E _. by apply VERIFY_err_nonzero in E. }
  simpl. unfold vfastrpc_init_ioctl, copy_from_user. rewrite !VERIFY_case. zdec. simpl.
  unfold mbind, M_bind. by rewrite init_domain_unset.
Qed.
End facts.
