(* ===== verification/SessionDemo.v ===== *)
(** * A concrete session

    Five channels as [vfastrpc_channel_init] sets them up, and the file of
    Demo.v, opened on the non-secure node with domain 3. *)
From S2P Require Import Prelude Shared Mmap Pages Buf BufFacts Apps AppsFacts World WorldFacts Transact MapOps MapFacts Demo Session SessionFacts.

Definition demo_driver : driver :=
  {| dr_world := demo_world <| w_fl := demo_file <| fl_domain := 3 |> |>;
     dr_num_channels := 5; dr_channel := channel_init <$> seq 0 5;
     dr_has_invoke_attr := true; dr_has_invoke_crc := true; dr_has_mmap := true;
     dr_has_control := true; dr_has_mem_map := true; dr_debugfs_root := false;
     dr_dev_minor := MINOR_NUM_DEV; dr_tgid_open := 100; dr_untrusted_process := false;
     dr_debug_buf_alloced_attempted := false; dr_debug_buf := false; dr_debugfs_file := false |}.

Lemma demo_session_inv : session_inv demo_driver.
Proof.
  split.
  - by apply (file_inv_fl demo_world); [apply demo_file_inv|].
  - reflexivity.
  - by vm_compute.
  - repeat constructor; simpl; done.
  - right. exists (channel_init 3). split; [by vm_compute|]. split; [reflexivity|by vm_compute].
  - intros _. by vm_compute.
Qed.

(** The same file before GETINFO, and before INIT. *)
Definition demo_opened : driver :=
  demo_driver <| dr_world := demo_world <| w_fl := new_file 100 |> |>.

Lemma demo_opened_inv : session_inv demo_opened.
Proof.
  split.
  - by apply (file_inv_fl demo_world); [apply demo_file_inv|].
  - reflexivity.
  - by vm_compute.
  - apply demo_session_inv.
  - by left.
  - by vm_compute.
Qed.

(** The device answers with the channel id [cid]. *)
Definition demo_rsp (len cid : Z) (caps : nat -> Z) : virt_rsp :=
  {| r_hdr := Hdr 0 0 cid 0 len 0 0; r_vdsp := 0; r_raddr := 0; r_dsp_caps := caps;
     r_pra := fun _ => zero_pra; r_fdlist := fun _ => 0 |}.

Definition demo_session_msg (p : ptr) (len cid : Z) (caps : nat -> Z) : msg_env :=
  {| me_kzalloc := true; me_pid := 200;
     me_events := [EvDevice [0] [len] [(p, demo_rsp len cid caps)]; EvInterrupt] |}.

(** Only attribute 1, support for unsigned processes, is set. *)
Definition unsigned_caps (i : nat) : Z := if decide (i = 1%nat) then 1 else 0.

Definition cap_env : msg_env :=
  {| me_kzalloc := true; me_pid := 200;
     me_events := [EvDevice [0] [sizeof_cap_msg] [(3%positive, demo_rsp sizeof_cap_msg 7 unsigned_caps)];
                   EvInterrupt] |}.

(** Capabilities are cached for a channel they do not describe.  The
    query sends [vfl->domain] but stores the answer under the domain of the
    request: here a file on the non-secure node with domain 3 asks for the
    capabilities of secure channel 0; the device is asked about domain 3, and
    its support for unsigned processes opens channel 0 to the non-secure
    node. *)
Theorem dsp_info_cross_domain :
  exists d d' c c', session_inv d /\ fl_domain (w_fl (dr_world d)) = 3 /\
    dr_dev_minor d = MINOR_NUM_DEV /\
    dr_channel d !! 0%nat = Some c /\ ch_secure c = true /\ ch_unsigned_support c = false /\
    run_session_op (SDspInfo cap_env (Some {| cap_domain := 0; cap_attribute_ID := 2 |}) true) d = Ok 0 d' /\
    (exists buf h, txmem (w_apps (dr_world d')) !! buf = Some (VirtCap h 3)) /\
    dr_channel d' !! 0%nat = Some c' /\ ch_secure c' = true /\ ch_unsigned_support c' = true.
Proof.
  set (d' := end_state demo_driver (run_session_op (SDspInfo cap_env
    (Some {| cap_domain := 0; cap_attribute_ID := 2 |}) true) demo_driver)).
  assert (match dr_channel d' !! 0%nat with Some c => ch_secure c && ch_unsigned_support c | None => false end
    = true) as Hc by (vm_compute; reflexivity).
  destruct (dr_channel d' !! 0%nat) as [c'|] eqn:Ec; [|done]. apply andb_true_iff in Hc as [Hs Hu].
  exists demo_driver, d', (channel_init 0), c'.
  split; [apply demo_session_inv|]. do 2 (split; [reflexivity|]).
  split; [vm_compute; reflexivity|]. do 2 (split; [vm_compute; reflexivity|]).
  split; [vm_compute; reflexivity|].
  split; [|split; [exact Ec|by split]].
  exists 1%positive, (Hdr 100 200 (-1) 7 1054 0 (2 ^ 32 - 1)). vm_compute. reflexivity.
Qed.

(** ** Witnesses *)

Definition demo_getinfo : session_op := SGetInfo {| pe_tgid := 100; pe_kzalloc := true; pe_debugfs := true |} (Some 3) true.

Lemma session_ops_safe_witness :
  exists d', run_session_op demo_getinfo demo_opened = Ok 0 d' /\ session_inv d' /\
    fl_domain (w_fl (dr_world d')) = 3.
Proof.
  pose proof (session_ops_safe demo_getinfo demo_opened demo_opened_inv I) as H.
  assert (match run_session_op demo_getinfo demo_opened with
          | Ok err d' => (err =? 0) && (fl_domain (w_fl (dr_world d')) =? 3) | _ => false end = true) as E
    by (vm_compute; reflexivity).
  destruct (run_session_op demo_getinfo demo_opened) as [err d'| |]; [|discriminate..].
  apply andb_true_iff in E as [E1 E2]. apply Z.eqb_eq in E1, E2. subst err.
  exists d'. split; [reflexivity|]. split; [exact H|exact E2].
Defined.

Definition demo_init : init_attrs :=
  {| in_flags := FASTRPC_INIT_CREATE; in_attrs := FASTRPC_MODE_UNSIGNED_MODULE; in_filelen := 0; in_memlen := 0 |}.

Definition open_env : msg_env := demo_session_msg 3 sizeof_open_msg 7 (fun _ => 0).

Definition demo_ready : driver := end_state demo_opened (run_session_op demo_getinfo demo_opened).

Lemma demo_ready_reach : session_reach demo_opened demo_ready.
Proof. apply (reach_op _ demo_opened demo_getinfo 0); [constructor|vm_compute; reflexivity]. Qed.

Lemma init_process_policy_witness :
  exists d', run_session_op (SInit open_env (Some demo_init)) demo_ready = Ok 0 d' /\
    started demo_init demo_ready d'.
Proof.
  set (d' := end_state demo_ready (run_session_op (SInit open_env (Some demo_init)) demo_ready)).
  assert (run_session_op (SInit open_env (Some demo_init)) demo_ready = Ok 0 d') as E by (vm_compute; reflexivity).
  exists d'. split; [exact E|].
  exact (proj1 (init_process_policy open_env demo_init demo_opened demo_ready d' demo_opened_inv demo_ready_reach E)).
Defined.

Definition demo_cap : capability := {| cap_domain := 3; cap_attribute_ID := 1 |}.

Lemma capability_cached_witness :
  exists d', vfastrpc_get_info_from_kernel cap_env demo_cap demo_driver = Ok (0, 1) d' /\
    vfastrpc_get_info_from_kernel open_env demo_cap d' = Ok (0, 1) d'.
Proof.
  set (d' := end_state demo_driver (vfastrpc_get_info_from_kernel cap_env demo_cap demo_driver)).
  assert (vfastrpc_get_info_from_kernel cap_env demo_cap demo_driver = Ok (0, 1) d') as E
    by (vm_compute; reflexivity).
  exists d'. split; [exact E|].
  refine (proj2 (capability_cached cap_env open_env demo_cap demo_cap demo_driver 1 d' demo_session_inv
    _ _ E eq_refl _)); vm_compute; reflexivity.
Defined.

Lemma init_before_getinfo_faults_witness :
  run_session_op (SInit open_env (Some demo_init)) (end_state demo_driver (vfastrpc_open 0 100 true demo_driver))
    = Fault OutOfBounds.
Proof.
  apply (init_before_getinfo_faults open_env demo_init 0 100 demo_driver).
  - reflexivity.
  - vm_compute. split; [discriminate|reflexivity].
  - vm_compute. split; [discriminate|reflexivity].
Defined.
