(* ===== verification/Invoke.v ===== *)
(** * Remote invocation (virtio_fastrpc_core.c)

    Invoke contexts and the path of [FASTRPC_IOCTL_INVOKE*]: [context_alloc],
    [get_args] (mapping the arguments, laying out and writing the message),
    [virt_fastrpc_invoke], the wait, [put_args], [context_free], the
    interrupted contexts, and the queue of completed asynchronous jobs. *)
From S2P Require Import Prelude Shared Mmap Pages Buf Apps World Transact MapOps.

Definition M_FDLIST : Z := 16.
Definition M_CRCLIST : Z := 64.
Definition M_DSP_PERF_LIST : Z := 12.
Definition FASTRPC_DMAHANDLE_NOMAP : Z := 16.
Definition FASTRPC_STATIC_HANDLE_KERNEL : Z := 1.
Definition VIRTIO_FASTRPC_INVOKE_CRC : Z := Z.shiftl 1 0.
Definition VFASTRPC_BUF_ATTR_ION : Z := Z.shiftl 1 0.
Definition VFASTRPC_BUF_ATTR_INTERNAL : Z := Z.shiftl 1 1.
Definition VFASTRPC_BUF_ATTR_KEEP_MAP : Z := Z.shiftl 1 2.

(** [SIZE_OF_MAPPING(nents)]. *)
Definition SIZE_OF_MAPPING (n : Z) : Z := u64 (sizeof_mapping + n * sizeof_sgl).

(** [struct fastrpc_ioctl_invoke_async] with the user memory it points to: an
    array that cannot be read is [None]; a pointer that may be NULL is [None]
    then, and [Some None] if it cannot be read. *)
Record invoke_args := {
  ia_handle : Z;
  ia_sc : Z;
  ia_pra : option (nat -> remote_arg);
  ia_fds : option (option (nat -> Z));
  ia_attrs : option (option (nat -> Z));
  ia_crc : bool;                           (* a crc list was passed *)
  ia_job : option (option (bool * Z));     (* isasyncjob and jobid *)
}.

(** What the kernel and the device answer during one invocation. *)
Record invoke_env `{virtqueue} := {
  ie_pid : Z;                       (* current->pid *)
  ie_kzalloc_ctx : bool;
  ie_kzalloc_perf : bool;
  ie_create : nat -> create_env;    (* the mapping of argument i *)
  ie_kcalloc_desc : bool;
  ie_alloc : nat -> alloc_env;      (* the internal buffer of argument i *)
  ie_kzalloc_msg : bool;
  ie_vma : nat -> option Z;         (* vm_start of find_vma for argument i *)
  ie_copy_in : nat -> bool;         (* copy_from_user of argument i succeeds *)
  ie_crc32 : nat -> Z;              (* crc32_be of the payload of argument i *)
  ie_events : list dev_event;
  ie_signal : bool;
  ie_copy_out : nat -> bool;        (* copy_to_user of argument i succeeds *)
  ie_copy_crc : bool;
}.

Section ops.
Context `{HS : adsprpc_shared, KC : kernel_config, V : virtqueue}.

(** The number of buffers, and of all arguments. *)
Definition nbufs (sc : Z) : nat := Z.to_nat (REMOTE_SCALARS_INBUFS sc + REMOTE_SCALARS_OUTBUFS sc).
Definition ninbufs (sc : Z) : nat := Z.to_nat (REMOTE_SCALARS_INBUFS sc).
Definition nargs (sc : Z) : nat := Z.to_nat (REMOTE_SCALARS_LENGTH sc).

(** Element [i] of an array. *)
Definition at_index {S A} (l : list A) (i : nat) : M S A :=
  match l !! i with
  | Some a => mret a
  | None => fail OutOfBounds
  end.

Definition ctx_upd (p : ptr) (g : vfastrpc_invoke_ctx -> vfastrpc_invoke_ctx) : M world () :=
  c ← on_cx (ctx_load p); on_cx (ctx_store p (g c)).

Definition ctx_kfree (p : ptr) : M ctxs () := fun s =>
  match cx_heap s !! p with
  | Some _ => Ok () (s <| cx_heap := delete p (cx_heap s) |>)
  | None => Fault DoubleFree
  end.

(** [hlist_del_init(&ctx->hn)]: the node is on one list, or fake. *)
Definition ctx_unlink (p : ptr) : M ctxs () := modify (fun s =>
  s <| cx_pending := hlist_del p (cx_pending s) |> <| cx_interrupted := hlist_del p (cx_interrupted s) |>).
Definition pending_add_head (p : ptr) : M ctxs () := fun s =>
  if decide (p ∈ cx_pending s ++ cx_interrupted s) then Fault ListCorruption
  else Ok () (s <| cx_pending := p :: cx_pending s |>).
Definition interrupted_add_head (p : ptr) : M ctxs () := fun s =>
  if decide (p ∈ cx_pending s ++ cx_interrupted s) then Fault ListCorruption
  else Ok () (s <| cx_interrupted := p :: cx_interrupted s |>).

(** ** [context_free] *)

(** [if (map && map->ctx_refs) map->ctx_refs--; vfastrpc_mmap_free(vfl, map, 0)]. *)
Definition drop_ctx_map (om : option ptr) : M mmaps () :=
  match om with
  | Some q => ctx_ref_dec q
  | None => mret ()
  end;;
  vfastrpc_mmap_free om 0.

Fixpoint drop_ctx_maps (l : list (option ptr)) : M mmaps () :=
  match l with
  | [] => mret ()
  | om :: l' => drop_ctx_map om;; drop_ctx_maps l'
  end.

Fixpoint free_descs (l : list vfastrpc_buf_desc) : M bufs () :=
  match l with
  | [] => mret ()
  | d :: l' =>
    match d_buf d with
    | Some b => vfastrpc_buf_free (Some b) 1
    | None => mret ()
    end;;
    free_descs l'
  end.

(** The first [n] elements of an array of at least [n]. *)
Definition prefix {S A} (l : list A) (n : nat) : M S (list A) :=
  if decide (length l < n)%nat then fail OutOfBounds else mret (take n l).

Definition context_free (p : ptr) : M world () :=
  c ← on_cx (ctx_load p);
  on_cx (ctx_unlink p);;
  maps ← prefix (c_maps c) (nbufs (c_sc c));
  on_mm (drop_ctx_maps maps);;
  match c_msg c with
  | Some mp => m ← on_apps (msg_load mp); on_apps (release_msg mp (rxbuf m))
  | None => mret ()
  end;;
  match c_desc c with
  | Some desc => ds ← prefix desc (nbufs (c_sc c)); on_bf (free_descs ds)
  | None => mret ()
  end;;
  f ← gets w_fl;
  on_cx (when (negb (fl_profile f =? 0) && c_perf c) (modify (fun s => s <| cx_perfs := cx_perfs s - 1 |>)));;
  on_cx (ctx_kfree p).

(** ** Allocating, saving and restoring contexts *)

Definition context_save_interrupted (p : ptr) : M world () :=
  on_cx (ctx_unlink p);; on_cx (interrupted_add_head p).

(** The search of [fl->clst.interrupted] for a context of this thread. *)
Fixpoint find_ctx (l : list ptr) (pid : Z) : M ctxs (option ptr) :=
  match l with
  | [] => mret None
  | p :: l' =>
    c ← ctx_load p;
    if c_pid c =? pid then mret (Some p) else find_ctx l' pid
  end.

(** The error code and [*po]. *)
Definition context_restore_interrupted (pid sc : Z) : M ctxs (Z * option ptr) :=
  l ← gets cx_interrupted;
  r ← find_ctx l pid;
  match r with
  | None => mret (0, None)
  | Some p =>
    c ← ctx_load p;
    if negb (sc =? c_sc c) then mret (- EINVAL, None)
    else ctx_unlink p;; pending_add_head p;; mret (0, Some p)
  end.

Definition zero_ctx (n : nat) : vfastrpc_invoke_ctx :=
  {| c_msg := None; c_size := 0; c_desc := None; c_maps := replicate n None;
     c_lpra := replicate n {| ra_pv := 0; ra_len := 0 |}; c_fds := Some (replicate n 0);
     c_outbufs_offset := 0; c_attrs := replicate n 0; c_pid := 0; c_tgid := 0; c_sc := 0;
     c_handle := 0; c_seq_num := 0; c_crc := false; c_perf := false; c_isasyncjob := false;
     c_jobid := 0 |}.

(** [bail] of [context_alloc]. *)
Definition alloc_bail (p : ptr) (err : Z) : M world (Z * option ptr) :=
  context_free p;; mret (err, None).

(** From the copy of the job descriptor on. *)
Definition context_alloc_job (p : ptr) (ia : invoke_args) : M world (Z * option ptr) :=
  match ia_job ia with
  | Some None => alloc_bail p (VERIFY_err 0)
  | job =>
    match job with
    | Some (Some (isasync, jobid)) =>
      ctx_upd p (fun c => c <| c_isasyncjob := isasync |> <| c_jobid := jobid |>)
    | _ => mret ()
    end;;
    on_cx (pending_add_head p);;
    mret (0, Some p)
  end.

(** From [ctx->sc = invoke->sc] on. *)
Definition context_alloc_tail (e : invoke_env) (seq_num : Z) (p : ptr) (ia : invoke_args)
    : M world (Z * option ptr) :=
  f ← gets w_fl;
  ctx_upd p (fun c => c <| c_sc := ia_sc ia |> <| c_handle := ia_handle ia |> <| c_seq_num := seq_num |>
    <| c_pid := ie_pid e |> <| c_tgid := fl_tgid f |> <| c_crc := ia_crc ia |>);;
  if negb (fl_profile f =? 0) then
    if negb (ie_kzalloc_perf e) then alloc_bail p (- ENOMEM)
    else
      on_cx (modify (fun s => s <| cx_perfs := cx_perfs s + 1 |>));;
      ctx_upd p (fun c => c <| c_perf := true |>);;
      context_alloc_job p ia
  else context_alloc_job p ia.

Definition context_alloc (e : invoke_env) (seq_num : Z) (ia : invoke_args) : M world (Z * option ptr) :=
  let n := nargs (ia_sc ia) in
  if negb (ie_kzalloc_ctx e) then mret (VERIFY_err 0, None)
  else
    s ← gets w_cx;
    let p := new_ptr (cx_heap s) in
    on_cx (put (s <| cx_heap := <[p := zero_ctx n]> (cx_heap s) |>));;
    match ia_pra ia with
    | None => alloc_bail p (VERIFY_err 0)
    | Some pra =>
      ctx_upd p (fun c => c <| c_lpra := pra <$> seq 0 n |>);;
      match ia_fds ia with
      | Some None => alloc_bail p (VERIFY_err 0)
      | fds =>
        ctx_upd p (fun c => c <| c_fds := match fds with
                                          | Some (Some g) => Some (g <$> seq 0 n)
                                          | _ => None
                                          end |>);;
        match ia_attrs ia with
        | Some None => alloc_bail p (VERIFY_err 0)
        | Some (Some g) =>
          ctx_upd p (fun c => c <| c_attrs := g <$> seq 0 n |>);; context_alloc_tail e seq_num p ia
        | None => context_alloc_tail e seq_num p ia
        end
      end
    end.

(** ** [get_args]: mapping the arguments *)

(** [SIZE_OF_MAPPING(map->table->nents)]. *)
Definition mapping_len (q : ptr) : M world Z :=
  m ← on_mm (load q);
  match m_table m with
  | Some t => mret (SIZE_OF_MAPPING (nents t))
  | None => fail NullDeref
  end.

(** The fd of argument [i], unless [fds] is NULL or the fd is -1. *)
Definition arg_fd (c : vfastrpc_invoke_ctx) (i : nat) : M world (option Z) :=
  match c_fds c with
  | None => mret None
  | Some fds => fd ← at_index fds i; mret (if fd =? -1 then None else Some fd)
  end.

Definition set_ctx_map (p : ptr) (i : nat) (q : ptr) : M world () :=
  ctx_upd p (fun c => c <| c_maps := <[i := Some q]> (c_maps c) |>).

(** A buffer argument of non-zero length: the error code and the length of
    what goes into the message. *)
Definition map_buf (e : invoke_env) (p : ptr) (i : nat) (ra : remote_arg) : M world (Z * Z) :=
  c ← on_cx (ctx_load p);
  ofd ← arg_fd c i;
  match ofd with
  | None => mret (0, ra_len ra)
  | Some fd =>
    attr ← at_index (c_attrs c) i;
    r ← on_mm (vfastrpc_mmap_create (ie_create e i) fd attr (ra_pv ra) (ra_len ra) 0);
    match r.2 with
    | Some q => set_ctx_map p i q;; on_mm (ctx_ref_inc q)
    | None => mret ()
    end;;
    if negb (r.1 =? 0) then mret (r.1, 0)
    else match r.2 with
    | Some q => len ← mapping_len q; mret (0, len)
    | None => fail NullDeref
    end
  end.

Definition add_out_offset (p : ptr) (i inbufs : nat) (len : Z) : M world () :=
  if decide (i < inbufs)%nat
  then ctx_upd p (fun c => c <| c_outbufs_offset := u32 (c_outbufs_offset c + len) |>)
  else mret ().

(** The loop over the buffers: the error code and [copylen].  [n] arguments
    are left from argument [i] on. *)
Fixpoint map_bufs (e : invoke_env) (p : ptr) (inbufs n i : nat) (copylen : Z) : M world (Z * Z) :=
  match n with
  | O => mret (0, copylen)
  | S n' =>
    c ← on_cx (ctx_load p);
    ra ← at_index (c_lpra c) i;
    if ra_len ra =? 0 then map_bufs e p inbufs n' (S i) copylen
    else
      r ← map_buf e p i ra;
      if negb (r.1 =? 0) then mret (r.1, copylen)
      else
        add_out_offset p i inbufs r.2;;
        map_bufs e p inbufs n' (S i) (u64 (copylen + r.2))
  end.

(** The loop over the dma handles: the error code and [handlelen]; on error
    the handles mapped so far, from [bufs] on, are given back. *)
Fixpoint map_handles (e : invoke_env) (p : ptr) (bufs n i : nat) (handlelen : Z) : M world (Z * Z) :=
  match n with
  | O => mret (0, handlelen)
  | S n' =>
    c ← on_cx (ctx_load p);
    attr ← at_index (c_attrs c) i;
    let dmaflags := if has_bit attr FASTRPC_ATTR_NOMAP then FASTRPC_DMAHANDLE_NOMAP else 0 in
    ofd ← arg_fd c i;
    match ofd with
    | None => map_handles e p bufs n' (S i) handlelen
    | Some fd =>
      let attr := Z.ldiff attr FASTRPC_ATTR_KEEP_MAP in
      ctx_upd p (fun c => c <| c_attrs := <[i := attr]> (c_attrs c) |>);;
      r ← on_mm (vfastrpc_mmap_create (ie_create e i) fd attr 0 0 dmaflags);
      match r.2 with
      | Some q => set_ctx_map p i q;; when (r.1 =? 0) (on_mm (ctx_ref_inc q))
      | None => mret ()
      end;;
      if negb (r.1 =? 0) then
        c ← on_cx (ctx_load p);
        on_mm (drop_ctx_maps (drop bufs (take i (c_maps c))));;
        mret (r.1, handlelen)
      else match r.2 with
      | Some q => len ← mapping_len q; map_handles e p bufs n' (S i) (u64 (handlelen + len))
      | None => fail NullDeref
      end
    end
  end.

(** ** [get_args]: internal buffers *)

Definition set_desc (p : ptr) (i : nat) (d : vfastrpc_buf_desc) : M world () :=
  ctx_upd p (fun c => c <| c_desc := (fun ds => <[i := d]> ds) <$> c_desc c |>).

(** The descriptor of buffer [i] when the message would be too big. *)
Definition make_desc (e : invoke_env) (p : ptr) (i : nat) (ra : remote_arg) : M world (Z * Z) :=
  c ← on_cx (ctx_load p);
  om ← at_index (c_maps c) i;
  match om with
  | Some q =>
    len ← mapping_len q;
    set_desc p i {| d_type := VFASTRPC_BUF_TYPE_ION; d_buf := None |};;
    mret (0, len)
  | None =>
    if ra_len ra <? PAGE_SIZE then
      set_desc p i {| d_type := VFASTRPC_BUF_TYPE_NORMAL; d_buf := None |};;
      mret (0, ra_len ra)
    else
      r ← on_bf (vfastrpc_buf_alloc (ie_alloc e i) (PAGE_ALIGN (ra_len ra)) 0 0 0);
      set_desc p i {| d_type := VFASTRPC_BUF_TYPE_INTERNAL; d_buf := r.2 |};;
      if negb (r.1 =? 0) then mret (r.1, 0)
      else match r.2 with
      | None => fail NullDeref
      | Some bp =>
        b ← on_bf (bload bp);
        on_bf (bstore bp (b <| b_map_attr := VFASTRPC_MAP_ATTR_CACHED |>));;
        match b_sgt b with
        | Some t => mret (0, SIZE_OF_MAPPING (nents t))
        | None => fail NullDeref
        end
      end
  end.

Fixpoint make_descs (e : invoke_env) (p : ptr) (inbufs n i : nat) (copylen : Z) : M world (Z * Z) :=
  match n with
  | O => mret (0, copylen)
  | S n' =>
    c ← on_cx (ctx_load p);
    ra ← at_index (c_lpra c) i;
    r ← make_desc e p i ra;
    if negb (r.1 =? 0) then mret (r.1, copylen)
    else
      add_out_offset p i inbufs r.2;;
      make_descs e p inbufs n' (S i) (u64 (copylen + r.2))
  end.

(** ** [get_args]: writing the message *)

(** A write of [n] bytes at [off] into a tx buffer. *)
Definition tx_write (off n : Z) : M world () :=
  a ← gets w_apps;
  if buf_size a <? off + n then fail OutOfBounds else mret ().

(** [calc_compare_crc] with no remote crc. *)
Definition arg_crc (e : invoke_env) (c : vfastrpc_invoke_ctx) (i : nat) : Z :=
  if c_crc c then u32 (ie_crc32 e i) else 0.

(** An argument written at [off]: the entry of [pra], the payload and the
    offset after it; or the error code. *)
Abbreviation filled := (virt_fastrpc_buf * payload_part * Z)%type.

Definition dma_sgl (g : scatterlist) : virt_fastrpc_sgl := Sgl (sg_dma_address g) (sg_dma_len g).
Definition phys_sgl (g : scatterlist) : virt_fastrpc_sgl := Sgl (sg_phys g) (sg_length g).

(** [vmmap] and its scatter list at [off]. *)
Definition write_mapping (off : Z) (vm : virt_fastrpc_mapping) (sgs : list virt_fastrpc_sgl)
    : M world payload_part :=
  tx_write off (sizeof_mapping + Z.of_nat (length sgs) * sizeof_sgl);;
  mret (PMapping vm sgs).

Definition fill_ion (e : invoke_env) (c : vfastrpc_invoke_ctx) (i : nat) (off : Z) (q : ptr)
    (ra : remote_arg) : M world (Z + filled) :=
  m ← on_mm (load q);
  attr ← at_index (c_attrs c) i;
  match m_table m, ie_vma e i with
  | None, _ => fail NullDeref
  | Some _, None => mret (inl (VERIFY_err 0))
  | Some t, Some vm_start =>
    let offset := u64 (ra_pv ra - vm_start) in
    if negb (VERIFY 0 (u64 (offset + ra_len ra) <=? m_size m) =? 0) then mret (inl (- EFAULT))
    else
      let plen := SIZE_OF_MAPPING (nents t) in
      part ← write_mapping off
        {| mp_fd := m_fd m; mp_refcount := m_refs m; mp_va := m_va m; mp_len := m_len m;
           mp_attr := VFASTRPC_MAP_ATTR_CACHED; mp_nents := nents t |} (dma_sgl <$> sg_entries t);
      mret (inr ({| vb_attrs := if has_bit attr FASTRPC_ATTR_KEEP_MAP
                                then Z.lor VFASTRPC_BUF_ATTR_ION VFASTRPC_BUF_ATTR_KEEP_MAP
                                else VFASTRPC_BUF_ATTR_ION;
                    vb_crc := arg_crc e c i; vb_pv := ra_pv ra; vb_buf_len := ra_len ra;
                    vb_offset := offset; vb_payload_len := plen |}, part, off + plen))
  end.

(** The bytes of a buffer's kernel mapping. *)
Definition mapped_bytes (b : vfastrpc_buf) : Z := page_count (b_size b) * PAGE_SIZE.

Definition fill_internal (e : invoke_env) (c : vfastrpc_invoke_ctx) (inbufs i : nat) (off : Z) (bp : ptr)
    (ra : remote_arg) : M world (Z + filled) :=
  b ← on_bf (bload bp);
  match b_sgt b with
  | None => fail NullDeref
  | Some t =>
    let plen := SIZE_OF_MAPPING (nents t) in
    part ← write_mapping off
      {| mp_fd := -1; mp_refcount := 1; mp_va := default 0 (b_va b); mp_len := b_size b;
         mp_attr := b_map_attr b; mp_nents := nents t |} (phys_sgl <$> sg_entries t);
    let done := inr ({| vb_attrs := VFASTRPC_BUF_ATTR_INTERNAL; vb_crc := arg_crc e c i;
                        vb_pv := ra_pv ra; vb_buf_len := ra_len ra; vb_offset := 0;
                        vb_payload_len := plen |}, part, off + plen) in
    if bool_decide (i < inbufs)%nat && negb (ra_len ra =? 0) then
      match b_va b with
      | None => fail NullDeref
      | Some _ =>
        if mapped_bytes b <? ra_len ra then fail OutOfBounds
        else if ie_copy_in e i then mret done
        else mret (inl (VERIFY_err 0))
      end
    else mret done
  end.

Definition fill_copy (e : invoke_env) (c : vfastrpc_invoke_ctx) (inbufs i : nat) (off : Z)
    (ra : remote_arg) : M world (Z + filled) :=
  let entry crc := {| vb_attrs := 0; vb_crc := crc; vb_pv := ra_pv ra; vb_buf_len := ra_len ra;
                      vb_offset := 0; vb_payload_len := ra_len ra |} in
  if bool_decide (i < inbufs)%nat && negb (ra_len ra =? 0) then
    tx_write off (ra_len ra);;
    if ie_copy_in e i
    then mret (inr (entry (arg_crc e c i), PCopied (ra_pv ra) (ra_len ra), off + ra_len ra))
    else mret (inl (VERIFY_err 0))
  else mret (inr (entry 0, PRoom (ra_len ra), off + ra_len ra)).

(** The internal buffer of argument [i], if the argument has one. *)
Definition internal_buf (c : vfastrpc_invoke_ctx) (i : nat) : M world (option (option ptr)) :=
  match c_desc c with
  | None => mret None
  | Some ds =>
    d ← at_index ds i;
    mret match d_type d with
         | VFASTRPC_BUF_TYPE_INTERNAL => Some (d_buf d)
         | _ => None
         end
  end.

Definition fill_buf (e : invoke_env) (p : ptr) (inbufs i : nat) (off : Z) : M world (Z + filled) :=
  c ← on_cx (ctx_load p);
  ra ← at_index (c_lpra c) i;
  om ← at_index (c_maps c) i;
  match om with
  | Some q => fill_ion e c i off q ra
  | None =>
    ob ← internal_buf c i;
    match ob with
    | Some (Some bp) => fill_internal e c inbufs i off bp ra
    | Some None => fail NullDeref
    | None => fill_copy e c inbufs i off ra
    end
  end.

Fixpoint fill_bufs (e : invoke_env) (p : ptr) (inbufs n i : nat) (off : Z)
    : M world (Z + list (option virt_fastrpc_buf) * list payload_part * Z) :=
  match n with
  | O => mret (inr ([], [], off))
  | S n' =>
    r ← fill_buf e p inbufs i off;
    match r with
    | inl err => mret (inl err)
    | inr (b, part, off) =>
      r ← fill_bufs e p inbufs n' (S i) off;
      mret match r with
           | inl err => inl err
           | inr (bs, parts, off) => inr (Some b :: bs, part :: parts, off)
           end
    end
  end.

(** A dma handle that was mapped. *)
Definition fill_handle (e : invoke_env) (c : vfastrpc_invoke_ctx) (i : nat) (off : Z) (q : ptr)
    (ra : remote_arg) : M world filled :=
  m ← on_mm (load q);
  match m_table m with
  | None => fail NullDeref
  | Some t =>
    let plen := SIZE_OF_MAPPING (nents t) in
    part ← write_mapping off
      {| mp_fd := m_fd m; mp_refcount := m_refs m; mp_va := m_va m; mp_len := ra_len ra;
         mp_attr := VFASTRPC_MAP_ATTR_CACHED; mp_nents := nents t |} (dma_sgl <$> sg_entries t);
    mret ({| vb_attrs := VFASTRPC_BUF_ATTR_ION; vb_crc := arg_crc e c i; vb_pv := 0;
             vb_buf_len := ra_len ra; vb_offset := ra_pv ra; vb_payload_len := plen |}, part, off + plen)
  end.

Fixpoint fill_handles (e : invoke_env) (p : ptr) (n i : nat) (off : Z)
    : M world (list (option virt_fastrpc_buf) * list payload_part) :=
  match n with
  | O => mret ([], [])
  | S n' =>
    c ← on_cx (ctx_load p);
    ra ← at_index (c_lpra c) i;
    om ← at_index (c_maps c) i;
    match c_fds c, om with
    | Some _, Some q =>
      r ← fill_handle e c i off q ra;
      let '(b, part, off) := r in
      r ← fill_handles e p n' (S i) off;
      mret (Some b :: r.1, part :: r.2)
    | _, _ =>
      r ← fill_handles e p n' (S i) off;
      mret (None :: r.1, r.2)
    end
  end.

(** ** [get_args] *)

Definition metalen (total : nat) : Z :=
  sizeof_invoke_msg + Z.of_nat total * sizeof_buf + 8 * M_FDLIST + 4 * M_CRCLIST + 4 + 8 * M_DSP_PERF_LIST.

(** From [ctx->msg = virt_alloc_msg(vfl, size)] on. *)
Definition build_msg (e : invoke_env) (p : ptr) (size : Z) : M world Z :=
  om ← on_apps (virt_alloc_msg (ie_kzalloc_msg e) size);
  match om with
  | None => mret (- ENOMEM)
  | Some mp =>
    ctx_upd p (fun c => c <| c_msg := Some mp |>);;
    m ← on_apps (msg_load mp);
    on_apps (msg_store mp (m <| msg_ctx := Some p |>));;
    ctx_upd p (fun c => c <| c_size := size |>);;
    c ← on_cx (ctx_load p);
    f ← gets w_fl;
    let total := nargs (c_sc c) in
    let bufs := nbufs (c_sc c) in
    tx_write 0 (metalen total);;
    r ← fill_bufs e p (ninbufs (c_sc c)) bufs 0 (metalen total);
    match r with
    | inl err => mret err
    | inr (bs, parts, off) =>
      h ← fill_handles e p (total - bufs) bufs off;
      on_apps (tx_fill mp (metalen total)
        (VirtInvoke (mk_hdr true f (ie_pid e) VIRTIO_FASTRPC_CMD_INVOKE size (msgid m))
           (c_handle c) (c_sc c) (if c_crc c then VIRTIO_FASTRPC_INVOKE_CRC else 0) (c_seq_num c)
           (bs ++ h.1) (parts ++ h.2)));;
      mret 0
    end
  end.

(** Internal buffers for a message that does not fit: the error code and the
    new size. *)
Definition shrink_msg (e : invoke_env) (p : ptr) (metalen handlelen : Z) : M world (Z * Z) :=
  c ← on_cx (ctx_load p);
  ctx_upd p (fun c => c <| c_outbufs_offset := 0 |>);;
  if negb (ie_kcalloc_desc e) then mret (- ENOMEM, 0)
  else
    ctx_upd p (fun c => c <| c_desc := Some (replicate (nbufs (c_sc c))
                              {| d_type := VFASTRPC_BUF_TYPE_NORMAL; d_buf := None |}) |>);;
    r ← make_descs e p (ninbufs (c_sc c)) (nbufs (c_sc c)) 0 0;
    if negb (r.1 =? 0) then mret (r.1, 0)
    else mret (0, u64 (metalen + r.2 + handlelen)).

Definition get_args (e : invoke_env) (p : ptr) : M world Z :=
  c ← on_cx (ctx_load p);
  let bufs := nbufs (c_sc c) in
  let total := nargs (c_sc c) in
  r ← map_bufs e p (ninbufs (c_sc c)) bufs 0 0;
  if negb (r.1 =? 0) then mret r.1
  else
    h ← map_handles e p bufs (total - bufs) bufs 0;
    if negb (h.1 =? 0) then mret h.1
    else
      a ← gets w_apps;
      let size := u64 (metalen total + r.2 + h.2) in
      if buf_size a <? size then
        s ← shrink_msg e p (metalen total) h.2;
        if negb (s.1 =? 0) then mret s.1 else build_msg e p s.2
      else build_msg e p size.

(** ** Sending *)

Definition virt_fastrpc_invoke (p : ptr) : M world Z :=
  c ← on_cx (ctx_load p);
  match c_msg c with
  | None => mret (- EINVAL)
  | Some mp =>
    m ← on_apps (msg_load mp);
    match txbuf m with
    | None => mret (- EINVAL)
    | Some buf => on_apps (vfastrpc_txbuf_send buf (u32 (c_size c)))
    end
  end.

(** ** [put_args] *)

(** A read of [n] bytes at [off] of an rx buffer. *)
Definition rx_read (off n : Z) : M world () :=
  a ← gets w_apps;
  if buf_size a <? off + n then fail (Device LongPayload) else mret ().

(** The loop over the output buffers; [off] is the place in the payload. *)
Fixpoint put_bufs (e : invoke_env) (p : ptr) (rsp : virt_rsp) (n i : nat) (off : Z) : M world Z :=
  match n with
  | O => mret 0
  | S n' =>
    c ← on_cx (ctx_load p);
    om ← at_index (c_maps c) i;
    match om with
    | Some q =>
      on_mm (drop_ctx_map (Some q));;
      ctx_upd p (fun c => c <| c_maps := <[i := None]> (c_maps c) |>);;
      put_bufs e p rsp n' (S i) (off + vb_payload_len (r_pra rsp i))
    | None =>
      ob ← internal_buf c i;
      match ob with
      | Some None => fail NullDeref
      | Some (Some bp) =>
        b ← on_bf (bload bp);
        ra ← at_index (c_lpra c) i;
        if mapped_bytes b <? ra_len ra then fail OutOfBounds else mret ()
      | None => rx_read off (vb_buf_len (r_pra rsp i))
      end;;
      if ie_copy_out e i then put_bufs e p rsp n' (S i) (off + vb_payload_len (r_pra rsp i))
      else mret (VERIFY_err 0)
    end
  end.

(** The loop over the fds the DSP has released. *)
Fixpoint put_fds (rsp : virt_rsp) (n i : nat) : M mmaps () :=
  match n with
  | O => mret ()
  | S n' =>
    if r_fdlist rsp i =? 0 then mret ()
    else
      r ← vfastrpc_mmap_find (s32 (r_fdlist rsp i)) 0 0 0 0;
      when (r.1 =? 0) (drop_ctx_map r.2);;
      put_fds rsp n' (S i)
  end.

Definition put_args (e : invoke_env) (p : ptr) : M world Z :=
  c ← on_cx (ctx_load p);
  match c_msg c with
  | None => mret (- EINVAL)
  | Some mp =>
    m ← on_apps (msg_load mp);
    a ← gets w_apps;
    match rxbuf m with
    | None => mret (- EINVAL)
    | Some r =>
      let rsp := rxmem a r in
      if negb (rsp_err rsp =? 0) then mret (rsp_err rsp)
      else
        let inbufs := ninbufs (c_sc c) in
        err ← put_bufs e p rsp (nbufs (c_sc c) - inbufs) inbufs
                (metalen (nargs (c_sc c)) + c_outbufs_offset c);
        if negb (err =? 0) then mret err
        else
          on_mm (put_fds rsp (Z.to_nat M_FDLIST) 0);;
          mret (VERIFY 0 (negb (c_crc c) || ie_copy_crc e))
    end
  end.

(** ** [vfastrpc_internal_invoke] *)

(** [bail] for a context that was not interrupted. *)
Definition invoke_bail (p : ptr) (err : Z) : M world Z := context_free p;; mret err.

(** From the label [wait]. *)
Definition invoke_wait (e : invoke_env) (p : ptr) : M world Z :=
  c ← on_cx (ctx_load p);
  match c_msg c with
  | None => fail NullDeref
  | Some mp =>
    interrupted ← wait_for_completion_interruptible (ie_events e) (ie_signal e) mp;
    if negb (interrupted =? 0) then context_save_interrupted p;; mret interrupted
    else
      err ← put_args e p;
      invoke_bail p (VERIFY 0 (err =? 0))
  end.

Definition vfastrpc_internal_invoke (num_channels : Z) (e : invoke_env) (ia : invoke_args) : M world Z :=
  f ← gets w_fl;
  let lseq_num := fl_seq_num f in
  on_fl (put (f <| fl_seq_num := s64 (fl_seq_num f + 1) |>));;
  let err := VERIFY 0 (negb (ia_handle ia =? FASTRPC_STATIC_HANDLE_KERNEL)) in
  if negb (err =? 0) then mret err
  else if negb (VERIFY 0 ((0 <=? fl_domain f) && (fl_domain f <? num_channels)) =? 0) then mret (- EBADR)
  else
    r ← on_cx (context_restore_interrupted (ie_pid e) (ia_sc ia));
    let err := VERIFY 0 (r.1 =? 0) in
    if negb (err =? 0) then mret err
    else match r.2 with
    | Some p => invoke_wait e p
    | None =>
      r ← context_alloc e lseq_num ia;
      let err := VERIFY 0 (r.1 =? 0) in
      if negb (err =? 0) then mret err
      else match r.2 with
      | None => fail NullDeref
      | Some p =>
        c ← on_cx (ctx_load p);
        err ← get_args e p;
        let err := VERIFY 0 (err =? 0) in
        if negb (err =? 0) then invoke_bail p err
        else
          err ← virt_fastrpc_invoke p;
          let err := VERIFY 0 (err =? 0) in
          if negb (err =? 0) then invoke_bail p err
          else if c_isasyncjob c then mret err
          else invoke_wait e p
      end
    end.

(** ** Completed asynchronous jobs *)

(** [struct fastrpc_ioctl_async_response]. *)
Record async_response := { ar_jobid : Z; ar_result : Z; ar_handle : Z; ar_sc : Z }.

(** One [wait_event_interruptible] on the queue; events as for a completion. *)
Definition wait_async (evs : list dev_event) (signal : bool) : M world Z :=
  run_events evs;;
  f ← gets w_fl;
  if negb (fl_async_queue_job_count f =? 0) then mret 0
  else if signal then mret (- ERESTARTSYS)
  else sleep None.

(** The context taken off the queue. *)
Definition async_done (e : invoke_env) (p : ptr) : M world (Z * option async_response) :=
  c ← on_cx (ctx_load p);
  match c_msg c with
  | None => fail NullDeref
  | Some mp =>
    m ← on_apps (msg_load mp);
    a ← gets w_apps;
    match rxbuf m with
    | None => fail NullDeref
    | Some r =>
      let res := rsp_err (rxmem a r) in
      ierr ← (if negb (res =? 0) then mret 0 else put_args e p);
      context_free p;;
      mret (0, Some {| ar_jobid := c_jobid c; ar_handle := c_handle c; ar_sc := c_sc c;
                       ar_result := if negb (ierr =? 0) then ierr else res |})
    end
  end.

(** Each turn of [read_async_job] waits once; [waits] holds what the device
    does during each. *)
Fixpoint vfastrpc_wait_on_async_queue (e : invoke_env) (waits : list (list dev_event))
    : M world (Z * option async_response) :=
  match waits with
  | [] => hang
  | evs :: waits =>
    interrupted ← wait_async evs (ie_signal e);
    f ← gets w_fl;
    if 1 <=? fl_file_close f then mret (- EBADF, None)
    else if negb (interrupted =? 0) then mret (interrupted, None)
    else
      l ← gets (fun w => cx_async_queue (w_cx w));
      match l with
      | [] => vfastrpc_wait_on_async_queue e waits
      | p :: l =>
        on_cx (modify (fun s => s <| cx_async_queue := l |>));;
        on_fl (modify (fun f => f <| fl_async_queue_job_count := s32 (fl_async_queue_job_count f - 1) |>));;
        async_done e p
      end
  end.

(** [out] is whether the response can be copied to user space. *)
Definition vfastrpc_get_async_response (e : invoke_env) (waits : list (list dev_event)) (out : bool)
    : M world (Z * option async_response) :=
  r ← vfastrpc_wait_on_async_queue e waits;
  if negb (r.1 =? 0) then mret (r.1, None)
  else if out then mret (0, r.2) else mret (VERIFY_err 0, None).
End ops.
Arguments get_args : simpl never.
Arguments put_args : simpl never.
Arguments context_free : simpl never.
Arguments context_alloc : simpl never.
Arguments build_msg : simpl never.
