(* ===== verification/CtxFacts.v ===== *)
(** * What invoke contexts hold

    A context holds maps (each counted in [ctx_refs]), internal buffers and a
    message.  This file says when the maps and buffers of a file cover what
    its contexts hold, and that giving a map or a buffer back keeps the rest
    covered. *)
From S2P Require Import Prelude Shared Mmap MmapFacts Pages Buf BufFacts Apps AppsFacts World WorldFacts Transact MapOps MapFacts Invoke.

(** ** Maps *)

(** The maps in [H], with multiplicity, are live and counted. *)
Definition covers (H : gmultiset ptr) (s : mmaps) : Prop :=
  forall q, q ∈ H -> exists m, mm_heap s !! q = Some m /\ Z.of_nat (multiplicity q H) <= m_ctx_refs m.

(** None of the maps in [H] is at address 0, where dma handles are mapped. *)
Definition nonzero (H : gmultiset ptr) (s : mmaps) : Prop :=
  forall q m, q ∈ H -> mm_heap s !! q = Some m -> m_va m <> 0.

(** Addresses are not negative, and a map at address 0 is a handle's, of
    length 0. *)
Definition handles_only (s : mmaps) : Prop :=
  forall q m, mm_heap s !! q = Some m -> 0 <= m_va m /\ (m_va m = 0 -> m_len m = 0).

(** Scatter tables of less than [2^18] entries, and [k] more references to
    each map before its count overflows. *)
Definition tiny (t : sg_table) : Prop := nents t < 2 ^ 18.
Definition tiny_maps (s : mmaps) : Prop :=
  forall p m t, mm_heap s !! p = Some m -> m_table m = Some t -> tiny t.
Definition ref_room (k : Z) (s : mmaps) : Prop :=
  forall p m, mm_heap s !! p = Some m -> m_ctx_refs m + k < 2 ^ 31.

Record maps_ok (H : gmultiset ptr) (k : Z) (s : mmaps) : Prop := {
  mo_inv : mm_inv s;
  mo_small : small_maps s;
  mo_tiny : tiny_maps s;
  mo_zero : handles_only s;
  mo_covers : covers H s;
  mo_room : ref_room k s;
}.

Lemma covers_weaken H H' s : H' ⊆ H -> covers H s -> covers H' s.
Proof.
  intros Hs Hc q Hq. destruct (Hc q) as (m & Hm & Hle); [multiset_solver|].
  exists m. split; [done|]. specialize (Hs q). lia.
Qed.

Lemma maps_ok_weaken H H' k k' s : H' ⊆ H -> k' <= k -> maps_ok H k s -> maps_ok H' k' s.
Proof.
  intros Hs Hk []. split; try done; [by eapply covers_weaken|].
  intros p m Hp. specialize (mo_room0 p m Hp). lia.
Qed.

Section maps.
Context `{HS : adsprpc_shared, !adsprpc_shared_ok HS}.

(** *** What dropping holds leaves *)

(** One hold on a map dropped: what is left of the map. *)
Definition drop1 (m : vfastrpc_mmap) : option vfastrpc_mmap :=
  let c := if m_ctx_refs m =? 0 then 0 else m_ctx_refs m - 1 in
  if is_heap_addr (m_flags m) || (m_refs m <=? 0) then Some (m <| m_ctx_refs := c |>)
  else if (m_refs m =? 1) && (c =? 0) then None
  else Some (m <| m_refs := m_refs m - 1 |> <| m_ctx_refs := c |>).

Definition with_drop1 (q : ptr) (m : vfastrpc_mmap) (s : mmaps) : mmaps :=
  match drop1 m with
  | Some m' => set_map q m' s
  | None => release q m s
  end.

Lemma drop_ctx_map_eq q m s :
  mm_heap s !! q = Some m -> counts_ok m -> drop_ctx_map (Some q) s = Ok () (with_drop1 q m s).
Proof.
  intros Hm [Hr Hc]. set (c := if m_ctx_refs m =? 0 then 0 else m_ctx_refs m - 1).
  assert (0 <= c) as Hc0 by (unfold c; destruct (Z.eqb_spec (m_ctx_refs m) 0); lia).
  set (m1 := m <| m_ctx_refs := c |>). set (s1 := set_map q m1 s).
  assert (drop_ctx_map (Some q) s = vfastrpc_mmap_free (Some q) 0 s1) as ->.
  { unfold drop_ctx_map, mbind, M_bind. rewrite (ctx_ref_dec_eq q m) by done. unfold s1, m1, c.
    destruct (Z.eqb_spec (m_ctx_refs m) 0) as [E|]; [|done]. f_equal. unfold set_map. destruct s; simpl in *.
    f_equal. symmetry. apply insert_id. rewrite Hm. destruct m; simpl in *. by subst. }
  assert (mm_heap s1 !! q = Some m1) as Hm1 by apply lookup_insert_eq.
  unfold with_drop1, drop1. fold c. destruct (is_heap_addr (m_flags m)) eqn:Hf; simpl.
  { by rewrite (mmap_free_skip q m1) by (done || by left). }
  destruct (Z.leb_spec (m_refs m) 0); simpl.
  { by rewrite (mmap_free_skip q m1) by (done || by right; left). }
  destruct (Z.eqb_spec (m_refs m) 1), (Z.eqb_spec c 0); simpl.
  1: { rewrite (mmap_free_last q m1) by (done || by right). unfold s1, release. simpl. by rewrite delete_insert_eq. }
  all: rewrite (mmap_free_drop q m1) by (done || (simpl; lia)); unfold s1, set_map; simpl; by rewrite insert_insert_eq.
Qed.

(** [n] holds on a map dropped, when it counts as many. *)
Definition dropped (n : Z) (m : vfastrpc_mmap) : option vfastrpc_mmap :=
  if n =? 0 then Some m
  else if is_heap_addr (m_flags m) then Some (m <| m_ctx_refs := m_ctx_refs m - n |>)
  else if (m_refs m =? n) && (m_ctx_refs m =? n) then None
  else Some (m <| m_refs := Z.max 0 (m_refs m - n) |> <| m_ctx_refs := m_ctx_refs m - n |>).

Lemma drop1_dropped m : counts_ok m -> 1 <= m_ctx_refs m -> drop1 m = dropped 1 m.
Proof.
  intros [Hr Hc] Hn. unfold drop1, dropped. zdec. simpl. destruct (is_heap_addr (m_flags m)); simpl; [done|].
  destruct (Z.leb_spec (m_refs m) 0); simpl.
  { zdec. simpl. destruct m; simpl in *. do 2 f_equal. lia. }
  destruct (Z.eqb_spec (m_refs m) 1), (Z.eqb_spec (m_ctx_refs m) 1); zdec; simpl; try done.
  all: destruct m; simpl in *; do 2 f_equal; lia.
Qed.

Lemma dropped_add a b m :
  counts_ok m -> 0 <= a -> 0 <= b -> a + b <= m_ctx_refs m -> dropped a m ≫= dropped b = dropped (a + b) m.
Proof.
  intros [Hr Hc] Ha Hb Hn. destruct m as [fd fl bu ta at_ ph sz va len ra r att c]. unfold counts_ok, INT_MAX in *.
  simpl in *. unfold dropped. simpl. destruct (Z.eqb_spec a 0) as [->|]; simpl; [done|].
  rewrite (proj2 (Z.eqb_neq (a + b) 0)) by lia. destruct (is_heap_addr fl) eqn:Hf; simpl.
  { rewrite Hf. destruct (Z.eqb_spec b 0); do 2 f_equal; lia. }
  destruct (Z.eqb_spec r a), (Z.eqb_spec c a); simpl; rewrite ?Hf.
  1:{ replace b with 0 by lia. rewrite Z.add_0_r. by zdec. }
  all: destruct (Z.eqb_spec b 0).
  all: destruct (Z.eqb_spec r (a + b)), (Z.eqb_spec c (a + b)); simpl; try lia; zdec; simpl; try done; do 2 f_equal; lia.
Qed.

(** [s'] is [s] after the holds in [H] were dropped. *)
Record maps_dropped (H : gmultiset ptr) (s s' : mmaps) : Prop := {
  md_heap q : mm_heap s' !! q = mm_heap s !! q ≫= dropped (Z.of_nat (multiplicity q H));
  md_list : mm_list s' = filter (fun q => is_Some (mm_heap s' !! q)) (mm_list s);
}.

Lemma filter_live s : mm_inv s -> filter (fun q => is_Some (mm_heap s !! q)) (mm_list s) = mm_list s.
Proof.
  intros Hi. assert (forall q, q ∈ mm_list s -> is_Some (mm_heap s !! q)) as Hl by (intros; by apply inv_is_Some).
  induction (mm_list s) as [|q l IH]; [done|]. rewrite filter_cons_True by (apply Hl; by left).
  f_equal. apply IH. intros x Hx. apply Hl. by right.
Qed.

Lemma maps_dropped_none s : mm_inv s -> maps_dropped ∅ s s.
Proof.
  intros Hi. split; [|by rewrite filter_live]. intros q. rewrite multiplicity_empty. by destruct (mm_heap s !! q).
Qed.

Lemma maps_dropped_one q m s :
  mm_inv s -> mm_heap s !! q = Some m -> 1 <= m_ctx_refs m -> maps_dropped {[+ q +]} s (with_drop1 q m s).
Proof.
  intros Hi Hm Hc. pose proof (inv_counts s Hi q m Hm) as Hct. unfold with_drop1. rewrite drop1_dropped by done.
  assert (forall x s', x <> q -> mm_heap s' !! x = mm_heap s !! x ->
    mm_heap s' !! x = mm_heap s !! x ≫= dropped (Z.of_nat (multiplicity x {[+ q +]}))) as Hne.
  { intros x s' Hx E. rewrite multiplicity_singleton_ne by done. rewrite E. by destruct (mm_heap s !! x). }
  split.
  - intros x. destruct (decide (x = q)) as [->|Hx].
    + rewrite multiplicity_singleton_eq, Hm. simpl. change (Z.of_nat 1) with 1.
      destruct (dropped 1 m); simpl; [apply lookup_insert_eq|apply lookup_delete_eq].
    + destruct (dropped 1 m); apply Hne; simpl; [done|by rewrite lookup_insert_ne|done|by rewrite lookup_delete_ne].
  - destruct (dropped 1 m) as [m'|]; simpl.
    + rewrite <- (filter_live s Hi) at 1. apply list_filter_iff. intros x. rewrite lookup_insert. case_decide; [|done].
      subst. rewrite Hm. split; by eexists.
    + unfold hlist_del. rewrite <- (filter_live s Hi) at 1. rewrite list_filter_filter. apply list_filter_iff.
      intros x. destruct (decide (x = q)) as [->|Hx]; [|by rewrite lookup_delete_ne; naive_solver].
      rewrite lookup_delete_eq. split; [naive_solver|]. by intros [].
Qed.

Lemma maps_dropped_trans H1 H2 s s1 s2 :
  mm_inv s -> covers (H1 ⊎ H2) s -> maps_dropped H1 s s1 -> maps_dropped H2 s1 s2 -> maps_dropped (H1 ⊎ H2) s s2.
Proof.
  intros Hi Hc [Hh1 Hl1] [Hh2 Hl2].
  assert (forall q, mm_heap s2 !! q = mm_heap s !! q ≫= dropped (Z.of_nat (multiplicity q (H1 ⊎ H2)))) as Hh.
  { intros q. rewrite Hh2, Hh1, multiplicity_disj_union, Nat2Z.inj_add.
    destruct (mm_heap s !! q) as [m|] eqn:Hm; [|done]. simpl.
    destruct (decide (q ∈ H1 ⊎ H2)) as [Hq|Hq].
    - destruct (Hc q Hq) as (m' & Hm' & Hle). simplify_eq. rewrite multiplicity_disj_union in Hle.
      apply dropped_add; [by apply (inv_counts s Hi q)|lia..].
    - assert (multiplicity q H1 = 0 /\ multiplicity q H2 = 0)%nat as [-> ->]; [|done].
      assert (multiplicity q (H1 ⊎ H2) = 0)%nat as E; [|rewrite multiplicity_disj_union in E; lia].
      destruct (multiplicity q (H1 ⊎ H2)) eqn:E; [done|]. destruct Hq. apply elem_of_multiplicity. lia. }
  split; [done|]. rewrite Hl2, Hl1, list_filter_filter. apply list_filter_iff. intros q. split; [naive_solver|].
  intros Hs. split; [done|]. rewrite Hh2 in Hs. by destruct (mm_heap s1 !! q).
Qed.

(** *** Accounting

    The part of a count of map [q] that the holds in [H] do not explain;
    references to a map with heap flags are never given back. *)
Definition unheld (f : vfastrpc_mmap -> Z) (H : gmultiset ptr) (s : mmaps) (q : ptr) : Z :=
  match mm_heap s !! q with
  | Some m => Z.max 0 (f m - Z.of_nat (multiplicity q H))
  | None => 0
  end.
Definition counted_refs (m : vfastrpc_mmap) : Z := if is_heap_addr (m_flags m) then 0 else m_refs m.

(** From holds [H] on [s] to holds [H'] on [s'] nothing was taken that [H']
    does not account for; [K] is the condition for the references. *)
Record acct (K : Prop) (H : gmultiset ptr) (s : mmaps) (H' : gmultiset ptr) (s' : mmaps) : Prop := {
  ac_ctx q : unheld m_ctx_refs H' s' q <= unheld m_ctx_refs H s q;
  ac_refs : K -> forall q, unheld counted_refs H' s' q <= unheld counted_refs H s q;
}.

Lemma acct_refl K H s : acct K H s H s.
Proof. by split. Qed.

Lemma acct_trans K H s H1 s1 H2 s2 : acct K H s H1 s1 -> acct K H1 s1 H2 s2 -> acct K H s H2 s2.
Proof. intros [C1 R1] [C2 R2]. split; [intros q|intros HK q]; etrans; [apply C2|apply C1|by apply R2|by apply R1]. Qed.

Lemma acct_weaken (K K' : Prop) H s H' s' : (K' -> K) -> acct K H s H' s' -> acct K' H s H' s'.
Proof. intros HK [C R]. split; auto. Qed.

(** Holds beside those looked at. *)
Lemma unheld_add f D H s H' s' q :
  unheld f H' s' q <= unheld f H s q -> unheld f (D ⊎ H') s' q <= unheld f (D ⊎ H) s q.
Proof. unfold unheld. rewrite !multiplicity_disj_union. repeat case_match; lia. Qed.

Lemma acct_add K D H s H' s' : acct K H s H' s' -> acct K (D ⊎ H) s (D ⊎ H') s'.
Proof. intros [C R]. split; [intros q|intros HK q]; apply unheld_add; auto. Qed.

Lemma unheld_nonneg f H s q : 0 <= unheld f H s q.
Proof. unfold unheld. case_match; lia. Qed.

(** A change at one map. *)
Lemma acct_at K H s H' s' q :
  (forall x, x <> q -> mm_heap s' !! x = mm_heap s !! x) ->
  (forall x, x <> q -> (multiplicity x H <= multiplicity x H')%nat) ->
  (forall m', mm_heap s' !! q = Some m' ->
    m_ctx_refs m' - Z.of_nat (multiplicity q H') <= unheld m_ctx_refs H s q /\
    (K -> counted_refs m' - Z.of_nat (multiplicity q H') <= unheld counted_refs H s q)) ->
  acct K H s H' s'.
Proof.
  intros Hne Hm Hq.
  assert (forall f x, x <> q -> unheld f H' s' x <= unheld f H s x) as Hx.
  { intros f x Hx. unfold unheld. rewrite Hne by done. specialize (Hm x Hx). case_match; lia. }
  pose proof (unheld_nonneg m_ctx_refs H s q). pose proof (unheld_nonneg counted_refs H s q).
  split; [intros x|intros HK x]; (destruct (decide (x = q)) as [->|]; [|by apply Hx]); unfold unheld at 1;
    destruct (mm_heap s' !! q) as [m'|] eqn:E; try done; destruct (Hq m' eq_refl) as [? Hr]; [lia|].
  specialize (Hr HK). lia.
Qed.

Lemma acct_dropped K L H s s' : mm_inv s -> maps_dropped L s s' -> acct K (L ⊎ H) s H s'.
Proof.
  intros Hi [Hh _].
  assert (forall f q, (forall n m m', mm_heap s !! q = Some m -> 0 <= n -> dropped n m = Some m' -> f m' <= Z.max 0 (f m - n)) ->
    unheld f H s' q <= unheld f (L ⊎ H) s q) as Hg.
  { intros f q Hf. unfold unheld at 1. rewrite Hh. pose proof (unheld_nonneg f (L ⊎ H) s q) as H0. unfold unheld in *.
    destruct (mm_heap s !! q) as [m|]; simpl; [|done].
    destruct (dropped _ m) as [m'|] eqn:E; [|done]. specialize (Hf _ m m' eq_refl (Nat2Z.is_nonneg _) E).
    rewrite multiplicity_disj_union. lia. }
  split; [intros q|intros _ q]; apply Hg; intros n m m' Hm Hn; destruct (inv_counts s Hi q m Hm) as [Hr Hc];
    unfold dropped, counted_refs.
  all: destruct (Z.eqb_spec n 0) as [->|]; [intros [= <-]; lia|].
  all: destruct (is_heap_addr (m_flags m)) eqn:Hf; [|destruct (_ && _); [done|]]; intros [= <-]; simpl; rewrite ?Hf; lia.
Qed.

Lemma acct_unheld H s q m :
  mm_inv s -> mm_heap s !! q = Some m -> forall K, acct K H s H (with_drop1 q m s).
Proof.
  intros Hi Hm K. destruct (inv_counts s Hi q m Hm) as [Hr Hc]. apply (acct_at _ _ _ _ _ q); [|done|].
  - intros x Hx. unfold with_drop1. destruct (drop1 m); simpl; [by rewrite lookup_insert_ne|by rewrite lookup_delete_ne].
  - intros m'. unfold unheld, with_drop1, drop1, counted_refs. rewrite Hm.
    destruct (is_heap_addr (m_flags m)) eqn:Hf; simpl.
    { rewrite lookup_insert_eq. intros [= <-]. simpl. rewrite Hf. destruct (m_ctx_refs m =? 0); split; intros; lia. }
    destruct (Z.leb_spec (m_refs m) 0); simpl.
    { rewrite lookup_insert_eq. intros [= <-]. simpl. rewrite Hf. destruct (m_ctx_refs m =? 0); split; intros; lia. }
    destruct (_ && _); simpl; [by rewrite lookup_delete_eq|].
    rewrite lookup_insert_eq. intros [= <-]. simpl. rewrite Hf. destruct (m_ctx_refs m =? 0); split; intros; lia.
Qed.

(** A hold and a reference were added to map [q]. *)
Lemma acct_hold K H s s' q m :
  mm_heap s !! q = Some m -> (forall x, x <> q -> mm_heap s' !! x = mm_heap s !! x) ->
  (forall m', mm_heap s' !! q = Some m' ->
    m_ctx_refs m' = m_ctx_refs m + 1 /\ m_refs m' = m_refs m + 1 /\ m_flags m' = m_flags m) ->
  acct K H s ({[+ q +]} ⊎ H) s'.
Proof.
  intros Hm Hx Hq. apply (acct_at _ _ _ _ _ q); [done| |].
  - intros x Hne. rewrite multiplicity_disj_union. lia.
  - intros m' Hm'. destruct (Hq m' Hm') as (Ec & Er & Ef). unfold unheld, counted_refs. rewrite Hm, Ec, Er, Ef.
    rewrite multiplicity_disj_union, multiplicity_singleton_eq. split; [lia|]. case_match; lia.
Qed.

(** *** The invariant *)

(** A change of one map that keeps its table and address. *)
Lemma maps_ok_set H k k' s q m m' :
  maps_ok H k s -> mm_heap s !! q = Some m -> counts_ok m' ->
  m_flags m' = m_flags m -> m_buf m' = m_buf m -> m_attach m' = m_attach m -> m_table m' = m_table m ->
  m_va m' = m_va m -> m_len m' = m_len m -> k' <= k -> m_ctx_refs m' + k' < 2 ^ 31 ->
  forall H', (forall x, x ∈ H' -> x <> q -> (multiplicity x H' <= multiplicity x H)%nat) ->
    (q ∈ H' -> Z.of_nat (multiplicity q H') <= m_ctx_refs m') ->
  maps_ok H' k' (set_map q m' s).
Proof.
  intros [Hi Hs Ht Hz Hc Hr] Hq Hct Hfl Hb Ha Htab Hva Hlen Hk Hlt H' Hx Hqc. split.
  - apply (inv_set_map _ q m); try done; unfold has_buf, has_attach, has_table; by rewrite ?Hb, ?Ha, ?Htab.
  - by apply (small_set_map _ q m).
  - intros p mp t. simpl. rewrite lookup_insert. case_decide; [|by apply Ht].
    intros [= <-]. rewrite Htab. by apply (Ht q).
  - intros p mp. simpl. rewrite lookup_insert. case_decide; [|by apply Hz].
    intros [= <-]. rewrite Hva, Hlen. by apply (Hz q).
  - intros p Hp. simpl. destruct (decide (p = q)) as [->|Hne].
    + exists m'. split; [apply lookup_insert_eq|]. by apply Hqc.
    + destruct (Hc p) as (mp & Hmp & Hle); [specialize (Hx p Hp Hne); multiset_solver|].
      exists mp. rewrite lookup_insert_ne by done. split; [done|]. specialize (Hx p Hp Hne). lia.
  - intros p mp. simpl. rewrite lookup_insert. case_decide; [by intros [= <-]|].
    intros Hp. specialize (Hr p mp Hp). lia.
Qed.

(** Maps may have gone, none has a new table or address. *)
Definition shrunk (s s' : mmaps) : Prop :=
  forall x m', mm_heap s' !! x = Some m' ->
    exists m, mm_heap s !! x = Some m /\ m_va m' = m_va m /\ m_table m' = m_table m.

#[export] Instance shrunk_preorder : PreOrder shrunk.
Proof.
  split; [intros s x m; eauto|]. intros a b c Hab Hbc x m Hx.
  destruct (Hbc x m Hx) as (m1 & H1 & E1 & E2). destruct (Hab x m1 H1) as (m2 & H2 & E3 & E4).
  exists m2. split; [done|]. split; congruence.
Qed.

Lemma shrunk_set q m m' s :
  mm_heap s !! q = Some m -> m_va m' = m_va m -> m_table m' = m_table m -> shrunk s (set_map q m' s).
Proof.
  intros Hq Hv Ht x mx. simpl. rewrite lookup_insert. case_decide; [|by eauto].
  subst. intros [= <-]. by eauto.
Qed.

Lemma nonzero_shrunk H s s' : nonzero H s -> shrunk s s' -> nonzero H s'.
Proof.
  intros Hn Hs q m' Hq Hm'. destruct (Hs q m' Hm') as (m & Hm & -> & _). by apply (Hn q).
Qed.

(** Freeing a map that the contexts do not hold, or still hold afterwards. *)
Lemma free_maps_ok H k s q :
  maps_ok H k s -> 0 <= k -> is_Some (mm_heap s !! q) ->
  exists s', vfastrpc_mmap_free (Some q) 0 s = Ok () s' /\ maps_ok H k s' /\ shrunk s s'.
Proof.
  intros Hok Hk0 [m Hm]. destruct (inv_counts s (mo_inv _ _ _ Hok) q m Hm) as [Hr Hc].
  destruct (is_heap_addr (m_flags m)) eqn:Hf.
  { exists s. rewrite (mmap_free_skip q m) by eauto. by split_and!. }
  destruct (Z.le_gt_cases (m_refs m) 0).
  { exists s. rewrite (mmap_free_skip q m) by eauto. by split_and!. }
  destruct (decide (m_refs m = 1 /\ m_ctx_refs m = 0)) as [[Hr1 Hc0]|Hmore].
  - exists (release q m s). rewrite (mmap_free_last q m) by (done || lia || by right).
    assert (forall x mx, mm_heap (release q m s) !! x = Some mx -> mm_heap s !! x = Some mx) as Hrel.
    { intros x mx. simpl. rewrite lookup_delete_Some. by intros [_ ?]. }
    assert (shrunk s (release q m s)) as Hsh by (intros x mx ?%Hrel; eauto).
    split_and!; try done. destruct Hok as [Hi Hs Ht Hz Hcv Hrm]. split.
    + by apply inv_release.
    + intros p mp t Hp%Hrel. by apply (Hs p mp).
    + intros p mp t Hp%Hrel. by apply (Ht p mp).
    + intros p mp Hp%Hrel. by apply (Hz p).
    + intros x Hx. destruct (Hcv x Hx) as (mx & Hmx & Hle). exists mx. split; [|done]. simpl.
      rewrite lookup_delete_ne; [done|]. intros <-. simplify_eq.
      pose proof (proj1 (elem_of_multiplicity q H) Hx). lia.
    + intros p mp Hp%Hrel. by apply (Hrm p).
  - exists (set_map q (m <| m_refs := m_refs m - 1 |>) s).
    rewrite (mmap_free_drop q m) by (done || lia). split; [done|].
    split; [|by apply (shrunk_set q m)].
    apply (maps_ok_set H k k s q m); try done.
    + unfold counts_ok. simpl. lia.
    + apply (mo_room _ _ _ Hok q m Hm).
    + intros Hq. destruct (mo_covers _ _ _ Hok q Hq) as (m0 & Hm0 & Hle). by simplify_eq.
Qed.

(** Giving back one hold of a map. *)
Lemma drop_ctx_map_ok H k s q :
  maps_ok ({[+ q +]} ⊎ H) k s -> 0 <= k ->
  exists s', drop_ctx_map (Some q) s = Ok () s' /\ maps_ok H k s' /\ shrunk s s' /\ maps_dropped {[+ q +]} s s'.
Proof.
  intros Hok Hk0. destruct (mo_covers _ _ _ Hok q) as (m & Hm & Hle); [multiset_solver|].
  rewrite multiplicity_disj_union, multiplicity_singleton_eq in Hle.
  destruct (inv_counts s (mo_inv _ _ _ Hok) q m Hm) as [Hr Hc].
  set (s1 := set_map q (m <| m_ctx_refs := m_ctx_refs m - 1 |>) s).
  assert (maps_ok H k s1) as Hok1.
  { apply (maps_ok_set ({[+ q +]} ⊎ H) k k s q m); try done.
    - unfold counts_ok. simpl. lia.
    - simpl. pose proof (mo_room _ _ _ Hok q m Hm). lia.
    - intros x Hx Hne. rewrite multiplicity_disj_union. lia.
    - intros _. simpl. lia. }
  assert (shrunk s s1) as Hs1 by by apply (shrunk_set q m).
  destruct (free_maps_ok H k s1 q Hok1 Hk0) as (s' & E & Hok' & Hs').
  { eexists. apply lookup_insert_eq. }
  assert (drop_ctx_map (Some q) s = Ok () s') as Ed.
  { unfold drop_ctx_map, mbind, M_bind. rewrite (ctx_ref_dec_eq q m) by done.
    rewrite (proj2 (Z.eqb_neq _ 0)) by lia. exact E. }
  exists s'. split_and!; [done..|by etrans|]. rewrite (drop_ctx_map_eq q m) in Ed by done. injection Ed as <-.
  apply maps_dropped_one; [apply Hok|done|lia].
Qed.

(** Dropping a hold that the contexts do not count. *)
Lemma drop_unheld_ok H k s q :
  maps_ok H k s -> 0 <= k -> q ∉ H -> is_Some (mm_heap s !! q) ->
  exists s', drop_ctx_map (Some q) s = Ok () s' /\ maps_ok H k s' /\ shrunk s s' /\ forall K, acct K H s H s'.
Proof.
  intros Hok Hk0 Hq [m Hm].
  enough (exists s', drop_ctx_map (Some q) s = Ok () s' /\ maps_ok H k s' /\ shrunk s s') as (s' & Ed & Ho & Hs).
  { exists s'. split_and!; [done..|]. rewrite (drop_ctx_map_eq q m) in Ed; [|done|by apply (inv_counts s (mo_inv _ _ _ Hok) q)].
    injection Ed as <-. apply acct_unheld; [apply Hok|done]. } destruct (inv_counts s (mo_inv _ _ _ Hok) q m Hm) as [Hr Hc].
  unfold drop_ctx_map, mbind, M_bind. rewrite (ctx_ref_dec_eq q m) by done.
  destruct (Z.eqb_spec (m_ctx_refs m) 0) as [|Hne]; [by apply free_maps_ok|].
  set (s1 := set_map q (m <| m_ctx_refs := m_ctx_refs m - 1 |>) s).
  assert (maps_ok H k s1) as Hok1.
  { apply (maps_ok_set H k k s q m); try done.
    - unfold counts_ok. simpl. lia.
    - simpl. pose proof (mo_room _ _ _ Hok q m Hm). lia. }
  destruct (free_maps_ok H k s1 q Hok1 Hk0) as (s' & E & Hok' & Hs').
  { eexists. apply lookup_insert_eq. }
  exists s'. split; [exact E|]. split; [done|]. etrans; [|done]. by apply (shrunk_set q m).
Qed.

Definition maps_of (l : list (option ptr)) : gmultiset ptr := list_to_set_disj (omap id l).

Lemma drop_ctx_maps_ok l H k s :
  maps_ok (maps_of l ⊎ H) k s -> 0 <= k ->
  exists s', drop_ctx_maps l s = Ok () s' /\ maps_ok H k s' /\ shrunk s s' /\ maps_dropped (maps_of l) s s'.
Proof.
  intros Hok Hk0. revert s Hok. induction l as [|[q|] l IH]; intros s Hok; simpl.
  - exists s. split_and!; try done; [|apply maps_dropped_none, Hok].
    eapply maps_ok_weaken; [..|exact Hok]; [multiset_solver|lia].
  - assert (maps_of (Some q :: l) = {[+ q +]} ⊎ maps_of l) as Eq by done. rewrite Eq in *.
    assert (maps_ok ({[+ q +]} ⊎ (maps_of l ⊎ H)) k s) as Hok' by (by rewrite (assoc_L (⊎))).
    destruct (drop_ctx_map_ok (maps_of l ⊎ H) k s q Hok' Hk0) as (s1 & E1 & Hok1 & Hs1 & Hd1).
    destruct (IH s1 Hok1) as (s2 & E2 & Hok2 & Hs2 & Hd2). exists s2.
    unfold mbind, M_bind. rewrite E1. split_and!; [done..|by etrans|].
    eapply maps_dropped_trans; [apply Hok| |done..]. eapply covers_weaken; [|apply (mo_covers _ _ _ Hok)]. multiset_solver.
  - destruct (IH s Hok) as (s2 & E2 & Hok2 & Hs2 & Hd2). exists s2. by split_and!.
Qed.

(** Maps may be new; those that were there keep their address, table and size. *)
Definition extends (s s' : mmaps) : Prop :=
  forall x m, mm_heap s !! x = Some m -> exists m', mm_heap s' !! x = Some m' /\
    m_va m' = m_va m /\ m_table m' = m_table m /\ m_size m' = m_size m.

#[export] Instance extends_preorder : PreOrder extends.
Proof.
  split; [intros s x m; eauto|]. intros a b c Hab Hbc x m Hx.
  destruct (Hab x m Hx) as (m1 & Hx1 & ? & ? & ?). destruct (Hbc x m1 Hx1) as (m2 & Hx2 & ? & ? & ?).
  exists m2. split_and!; congruence.
Qed.

Lemma extends_set q m m' s :
  mm_heap s !! q = Some m -> m_va m' = m_va m -> m_table m' = m_table m -> m_size m' = m_size m ->
  extends s (set_map q m' s).
Proof.
  intros Hq ? ? ? x mx Hx. simpl. rewrite lookup_insert. case_decide; [|by eauto].
  subst. simplify_eq. by eauto.
Qed.

Lemma nonzero_extends H s s' : covers H s -> nonzero H s -> extends s s' -> nonzero H s'.
Proof.
  intros Hc Hn He q m' Hq Hm'. destruct (Hc q Hq) as (m & Hm & _).
  destruct (He q m Hm) as (m1 & Hm1 & Ev & _). simplify_eq. rewrite Ev. by apply (Hn q).
Qed.

Lemma grown_extends s s' : grown s s' -> extends s s'.
Proof.
  intros Hg x m Hx. destruct (Hg x) as [E|[E _]]; [|congruence]. exists m. by rewrite E.
Qed.

Lemma grown_ok H k s s' :
  maps_ok H k s -> k < 2 ^ 31 -> grown s s' -> mm_inv s' -> small_maps s' -> maps_ok H k s'.
Proof.
  intros [Hi Hs Ht Hz Hc Hr] Hk Hg Hi' Hs'. split; try done.
  - intros p m t Hp Et. destruct (Hg p) as [E|(_ & m0 & E & _ & Et0 & _)]; simplify_eq.
    apply (Ht p m); congruence.
  - intros p m Hp. destruct (Hg p) as [E|(_ & m0 & E & _ & _ & Ev & El)]; [apply (Hz p); congruence|].
    simplify_eq. split; [lia|done].
  - intros q Hq. destruct (Hc q Hq) as (m & Hm & Hle). exists m. split; [|done].
    destruct (Hg q) as [->|[E _]]; [done|congruence].
  - intros p m Hp. destruct (Hg p) as [E|(_ & m0 & E & Ec & _)]; [apply (Hr p); congruence|].
    simplify_eq. lia.
Qed.

(** A hold is added to a map. *)
Lemma add_hold_ok H k s q m :
  maps_ok H (k + 1) s -> 0 <= k -> mm_heap s !! q = Some m ->
  exists s', ctx_ref_inc q s = Ok () s' /\ maps_ok ({[+ q +]} ⊎ H) k s' /\ extends s s' /\
    mm_heap s' !! q = Some (m <| m_ctx_refs := m_ctx_refs m + 1 |>).
Proof.
  intros Hok Hk Hm. pose proof (mo_room _ _ _ Hok q m Hm) as Hr.
  destruct (inv_counts s (mo_inv _ _ _ Hok) q m Hm) as [Hrf Hc].
  rewrite (ctx_ref_inc_eq q m) by done. rewrite s32_id by lia.
  eexists. split; [done|]. split; [|split; [by apply (extends_set q m)|apply lookup_insert_eq]].
  apply (maps_ok_set H (k + 1) k s q m); try done; try lia.
  - unfold counts_ok, INT_MAX in *. simpl. lia.
  - simpl. lia.
  - intros x _ Hne. rewrite multiplicity_disj_union, multiplicity_singleton_ne by done. lia.
  - intros _. rewrite multiplicity_disj_union, multiplicity_singleton_eq. simpl.
    destruct (decide (q ∈ H)) as [Hq|Hq].
    + destruct (mo_covers _ _ _ Hok q Hq) as (m0 & Hm0 & Hle). simplify_eq. lia.
    + assert (multiplicity q H = 0)%nat as ->; [|lia].
      destruct (multiplicity q H) eqn:E; [done|]. destruct Hq. apply elem_of_multiplicity. lia.
Qed.

(** A new map of its own kind is linked. *)
Lemma new_map_ok H k s q m t :
  maps_ok H k s -> k < 2 ^ 31 -> mm_heap s !! q = None -> linkable m -> counts_ok m ->
  m_table m = Some t -> tiny t -> 0 <= m_va m /\ (m_va m = 0 -> m_len m = 0) -> m_ctx_refs m = 0 ->
  maps_ok H k ((with_new q m s) <| mm_list := q :: mm_list s |>) /\
  extends s ((with_new q m s) <| mm_list := q :: mm_list s |>).
Proof.
  intros [Hi Hs Ht Hz Hc Hr] Hk Hq Hlk Hct Et Hti Hva Hcr.
  assert (q ∉ mm_list s) as Hql by by apply inv_fresh_unlisted.
  assert (small_table t) as Hst.
  { unfold tiny in Hti. unfold small_table, sizeof_mem_map_msg, sizeof_hdr, sizeof_mapping, sizeof_sgl. lia. }
  split; [split|].
  - apply (inv_link (with_new q m s) q m); [by apply inv_new|done|apply lookup_insert_eq|done].
  - apply small_with_new; [done|]. intros ? E. congruence.
  - intros p mp tp. simpl. rewrite lookup_insert. case_decide; [|by apply Ht].
    intros [= <-] E. congruence.
  - intros p mp. simpl. rewrite lookup_insert. case_decide; [by intros [= <-]|by apply Hz].
  - intros x Hx. destruct (Hc x Hx) as (mx & Hmx & Hle). exists mx. simpl.
    rewrite lookup_insert_ne; [done|]. intros ->. congruence.
  - intros p mp. simpl. rewrite lookup_insert. case_decide; [intros [= <-]; lia|by apply Hr].
  - intros x mx Hx. exists mx. simpl. rewrite lookup_insert_ne; [done|]. intros ->. congruence.
Qed.

(** A request that an existing map serves. *)
Lemma found_ok H k s q m fd va len :
  maps_ok H k s -> first_map (find_match fd va len) (mm_heap s) (mm_list s) = Some (q, m) ->
  m_refs m + 1 < INT_MAX -> va <= u64 (va + len) -> 0 <= va < 2 ^ 64 -> 0 <= len < 2 ^ 31 ->
  exists t, m_table m = Some t /\ tiny t /\ (0 < va -> m_va m <> 0) /\ mm_heap s !! q = Some m /\
    maps_ok H k (set_map q (m <| m_refs := m_refs m + 1 |>) s) /\
    extends s (set_map q (m <| m_refs := m_refs m + 1 |>) s).
Proof.
  intros Hok (Hin & Hm & Hma)%first_map_Some Hlt Hov Hva Hlen.
  destruct (inv_counts s (mo_inv _ _ _ Hok) q m Hm) as [Hr Hc].
  destruct (inv_listed s (mo_inv _ _ _ Hok) q Hin) as (m0 & Hm0 & (_ & _ & _ & Htab)). simplify_eq.
  unfold has_table in Htab. apply bool_decide_eq_true in Htab as [t Et].
  exists t. split; [done|]. split; [by apply (mo_tiny _ _ _ Hok q m)|]. split.
  { intros Hpos Hz. unfold find_match in Hma. rewrite Hz, (proj2 (mo_zero _ _ _ Hok q m Hm) Hz) in Hma.
    apply andb_true_iff in Hma as [[_ H2]%andb_true_iff _]. apply Z.leb_le in H2.
    change (u64 (0 + 0)) with 0 in H2. lia. }
  split; [done|]. split; [|by apply (extends_set q m)].
  apply (maps_ok_set H k k s q m); try done.
  - unfold counts_ok. simpl. lia.
  - apply (mo_room _ _ _ Hok q m Hm).
  - intros Hq. destruct (mo_covers _ _ _ Hok q Hq) as (m0 & Hm1 & Hle). by simplify_eq.
Qed.

(** [vfastrpc_mmap_create], and the hold that [get_args] puts on its map. *)
Lemma create_hold e fd attr va len mflags H k s :
  maps_ok H (k + 1) s -> 0 <= k < 2 ^ 30 -> (forall t, ce_table e = Some t -> tiny t) ->
  is_heap_addr mflags = false -> 0 <= va < 2 ^ 64 -> 0 <= len < 2 ^ 31 -> (va = 0 -> len = 0) ->
  (exists err s', err <> 0 /\ vfastrpc_mmap_create e fd attr va len mflags s = Ok (err, None) s' /\
    maps_ok H (k + 1) s' /\ extends s s' /\ acct (has_bit attr FASTRPC_ATTR_KEEP_MAP = false) H s H s') \/
  (exists q s1 s2 m t, vfastrpc_mmap_create e fd attr va len mflags s = Ok (0, Some q) s1 /\
    ctx_ref_inc q s1 = Ok () s2 /\ maps_ok ({[+ q +]} ⊎ H) k s2 /\ extends s s2 /\
    mm_heap s2 !! q = Some m /\ m_table m = Some t /\ tiny t /\ (0 < va -> m_va m <> 0) /\
    acct (has_bit attr FASTRPC_ATTR_KEEP_MAP = false) H s ({[+ q +]} ⊎ H) s2).
Proof.
  intros Hok Hk Ht Hfl Hva Hlen Hz.
  destruct (create_cases e fd attr va len mflags s (mo_inv _ _ _ Hok)) as
    [(q & m & Hfm & Hlt & _ & Hov & E)|[(q & m & Hq & _ & Hlk & Hct & Etab & Efd & Efl & Eat & Eva & Eln & Era & Ecr & Erf & E)|
     (err & s' & Hne & E & Hi & Hsm & Hx & Hg)]].
  - right. destruct (found_ok H (k + 1) s q m fd va len Hok Hfm Hlt Hov Hva Hlen)
      as (t & Et & Hti & Hnz & Hm & Hok1 & Hx1).
    destruct (add_hold_ok H k _ q (m <| m_refs := m_refs m + 1 |>) Hok1) as (s2 & E2 & Hok2 & Hx2 & Hm2);
      [lia|apply lookup_insert_eq|].
    eexists q, _, s2, _, t. split; [exact E|]. split; [exact E2|]. split_and!; try done; [by etrans|].
    rewrite (ctx_ref_inc_eq q (m <| m_refs := m_refs m + 1 |>)) in E2 by apply lookup_insert_eq. injection E2 as <-.
    pose proof (mo_room _ _ _ Hok q m Hm). destruct (inv_counts s (mo_inv _ _ _ Hok) q m Hm) as [? ?].
    apply (acct_hold _ _ _ _ q m).
    + done.
    + intros x Hne. simpl. by rewrite !lookup_insert_ne.
    + simpl. rewrite lookup_insert_eq. intros m' [= <-]. simpl. rewrite s32_id by lia. done.
  - right. pose proof Hlk as (_ & _ & _ & Htab). unfold has_table in Htab.
    apply bool_decide_eq_true in Htab as [t Et].
    destruct (new_map_ok H (k + 1) s q m t) as [Hok1 Hx1]; try done; try lia.
    { apply Ht. congruence. }
    destruct (add_hold_ok H k _ q m Hok1) as (s2 & E2 & Hok2 & Hx2 & Hm2); [lia|apply lookup_insert_eq|].
    eexists q, _, s2, _, t. split; [exact E|]. split; [exact E2|]. split_and!; try done.
    + by etrans.
    + apply Ht. congruence.
    + simpl. lia.
    + rewrite (ctx_ref_inc_eq q m) in E2 by apply lookup_insert_eq. injection E2 as <-.
      apply (acct_at _ _ _ _ _ q).
      * intros x Hx. simpl. by rewrite !lookup_insert_ne.
      * intros x Hx. rewrite multiplicity_disj_union. lia.
      * simpl. rewrite lookup_insert_eq. intros m' [= <-]. rewrite multiplicity_disj_union, multiplicity_singleton_eq.
        unfold unheld, counted_refs. rewrite Hq, Ecr, Erf. simpl. rewrite s32_id, Efl, Hfl by lia.
        split; [lia|]. intros ->. lia.
  - left. exists err, s'. split_and!; try done; [|by apply grown_extends|].
    + eapply grown_ok; [done|lia|done..|]. apply Hsm, Hok.
    + split; [intros q|intros HK q; by rewrite (Hx Hfl HK)]. unfold unheld.
      destruct (Hg q) as [->|(-> & m & -> & -> & _)]; [done|]. lia.
Qed.
End maps.

(** ** Buffers *)

(** The buffers in [D] are live, each in one place, and on neither list. *)
Definition owned (D : gmultiset ptr) (s : bufs) : Prop :=
  forall q, q ∈ D -> multiplicity q D = 1%nat /\ (q ∉ bf_cached s) /\
    exists b, bf_heap s !! q = Some b /\ b_remote b = 0.

(** Buffers that are not remote are mapped, small and have a small table. *)
Definition local_buf (b : vfastrpc_buf) : Prop :=
  is_Some (b_va b) /\ 0 <= b_size b < 2 ^ 32 /\ exists t, b_sgt b = Some t /\ tiny t.
Definition local_bufs (s : bufs) : Prop :=
  forall p b, bf_heap s !! p = Some b -> b_remote b = 0 -> local_buf b.

Section bufs.
Context `{HS : adsprpc_shared, !adsprpc_shared_ok HS, KC : kernel_config, !kernel_config_ok KC}.

Record bufs_ok (D : gmultiset ptr) (s : bufs) : Prop := {
  bo_inv : bf_inv s;
  bo_local : local_bufs s;
  bo_owned : owned D s;
}.

(** Buffers of [D] that stay as they are. *)
Definition keeps (D : gmultiset ptr) (s s' : bufs) : Prop :=
  forall q, q ∈ D -> bf_heap s' !! q = bf_heap s !! q.

Lemma owned_one D q s : owned ({[+ q +]} ⊎ D) s -> q ∉ D.
Proof.
  intros Ho Hq. destruct (Ho q) as [H1 _]; [multiset_solver|].
  rewrite multiplicity_disj_union, multiplicity_singleton_eq in H1.
  pose proof (proj1 (elem_of_multiplicity q D) Hq). lia.
Qed.

Lemma owned_sub D q s : owned ({[+ q +]} ⊎ D) s -> owned D s.
Proof.
  intros Ho x Hx. destruct (Ho x) as (H1 & Hc & Hb); [multiset_solver|]. split_and!; try done.
  pose proof (proj1 (elem_of_multiplicity x D) Hx). rewrite multiplicity_disj_union in H1. lia.
Qed.

(** The buffers in [D] were given back: each is in the cache or gone, and
    nothing happened to any other. *)
Record bufs_given (D : gmultiset ptr) (s s' : bufs) : Prop := {
  bg_back q : q ∈ D -> (q ∈ bf_cached s' /\ bf_heap s' !! q = bf_heap s !! q) \/ bf_heap s' !! q = None;
  bg_heap q : q ∉ D -> bf_heap s' !! q = bf_heap s !! q;
  bg_cached q : q ∉ D -> (q ∈ bf_cached s' <-> q ∈ bf_cached s);
  bg_remote : bf_remote s' = bf_remote s;
}.

Lemma bufs_given_trans D1 D2 s s1 s2 :
  (forall q, q ∈ D1 -> q ∉ D2) -> bufs_given D1 s s1 -> bufs_given D2 s1 s2 -> bufs_given (D1 ⊎ D2) s s2.
Proof.
  intros Hd [B1 H1 C1 R1] [B2 H2 C2 R2]. split; [|intros q Hq..|congruence].
  - intros q [Hq|Hq]%gmultiset_elem_of_disj_union.
    + pose proof (Hd q Hq) as Hn. rewrite (H2 q Hn). destruct (B1 q Hq) as [[Hc E]|E]; [left|by right].
      split; [by apply C2|done].
    + assert (q ∉ D1) as Hn by (intros Hx; by apply (Hd q)). rewrite <- (H1 q Hn). by apply B2.
  - rewrite H2, H1; [done|multiset_solver..].
  - rewrite C2, C1; [done|multiset_solver..].
Qed.

(** Every live buffer is on a list or in [D]. *)
Definition placed (D : gmultiset ptr) (s : bufs) : Prop :=
  forall q, is_Some (bf_heap s !! q) -> q ∈ bf_cached s ++ bf_remote s \/ q ∈ D.

Lemma placed_given D E s s' : bufs_given D s s' -> placed (D ⊎ E) s -> placed E s'.
Proof.
  intros [B H C R] Hp q Hq. destruct (decide (q ∈ D)) as [HD|HD].
  - destruct (B q HD) as [[Hc _]|E0]; [left; set_solver|]. rewrite E0 in Hq. by destruct Hq.
  - rewrite (H q HD) in Hq. rewrite R. destruct (Hp q Hq) as [[Hl|Hl]%elem_of_app|Hl].
    + left. apply elem_of_app. left. by apply C.
    + left. apply elem_of_app. by right.
    + right. multiset_solver.
Qed.

(** An internal buffer is given back to the cache or freed. *)
Lemma free_buf_ok D q s :
  bufs_ok ({[+ q +]} ⊎ D) s ->
  exists s', vfastrpc_buf_free (Some q) 1 s = Ok () s' /\ bufs_ok D s' /\ keeps D s s' /\ bufs_given {[+ q +]} s s'.
Proof.
  intros [Hi Ht Ho]. destruct (Ho q) as (_ & Hc & b & Hb & Hrem); [multiset_solver|].
  pose proof (owned_one _ _ _ Ho) as Hq. pose proof (owned_sub _ _ _ Ho) as Ho'.
  rewrite (buf_free_cases q b) by done.
  destruct (_ && _ && _) eqn:Hca.
  - eexists. split; [done|]. split; [|split; [done|]].
    2:{ split; simpl; try done; [intros x ->%gmultiset_elem_of_singleton; left; split; [by left|done]|].
        intros x Hx. rewrite elem_of_cons. multiset_solver. }
    split.
    + apply andb_true_iff in Hca as [_ Hle%Z.leb_le]. by apply (inv_cache q b).
    + intros p bp. simpl. apply Ht.
    + intros x Hx. destruct (Ho' x Hx) as (? & ? & ?). split_and!; try done. simpl.
      rewrite elem_of_cons. intros [->|?]; done.
  - eexists. split; [done|]. split; [split|split].
    + by apply inv_gone.
    + intros p bp. simpl. rewrite lookup_delete_Some. intros [_ ?]. by apply (Ht p).
    + intros x Hx. destruct (Ho' x Hx) as (? & ? & bx & Hbx & ?). split_and!; try done.
      exists bx. simpl. rewrite lookup_delete_ne by (intros ->; done). done.
    + intros x Hx. simpl. rewrite lookup_delete_ne by (intros ->; done). done.
    + split; simpl.
      * intros x ->%gmultiset_elem_of_singleton. right. apply lookup_delete_eq.
      * intros x Hx. rewrite lookup_delete_ne; [done|]. multiset_solver.
      * done.
      * apply hlist_del_id. by eapply not_remote.
Qed.

Definition bufs_of (l : list vfastrpc_buf_desc) : gmultiset ptr := list_to_set_disj (omap d_buf l).

Lemma bufs_ok_weaken D D' s : D' ≡ D -> bufs_ok D s -> bufs_ok D' s.
Proof. intros E%leibniz_equiv. by subst. Qed.

Lemma free_descs_ok l D s :
  bufs_ok (bufs_of l ⊎ D) s ->
  exists s', free_descs l s = Ok () s' /\ bufs_ok D s' /\ keeps D s s' /\ bufs_given (bufs_of l) s s'.
Proof.
  revert s. induction l as [|d l IH]; intros s Hok; simpl.
  - exists s. split_and!; try done; [|split; done || multiset_solver]. eapply bufs_ok_weaken; [|exact Hok]. unfold bufs_of. simpl. multiset_solver.
  - unfold bufs_of in Hok |- *. simpl in Hok |- *. destruct (d_buf d) as [q|].
    + assert (bufs_ok ({[+ q +]} ⊎ (bufs_of l ⊎ D)) s) as Hok'.
      { eapply bufs_ok_weaken; [|exact Hok]. unfold bufs_of. simpl. multiset_solver. }
      destruct (free_buf_ok (bufs_of l ⊎ D) q s Hok') as (s1 & E1 & Hok1 & Hk1 & Hg1).
      destruct (IH s1 Hok1) as (s2 & E2 & Hok2 & Hk2 & Hg2). exists s2. unfold mbind, M_bind. rewrite E1.
      split_and!; try done.
      * intros x Hx. rewrite Hk2 by done. apply Hk1. multiset_solver.
      * eapply bufs_given_trans; [|done..]. intros x ->%gmultiset_elem_of_singleton Hx.
        apply (owned_one _ _ _ (bo_owned _ _ Hok')). multiset_solver.
    + destruct (IH s Hok) as (s2 & E2 & Hok2 & Hk2 & Hg2). exists s2. by split_and!.
Qed.
End bufs.
