(* ===== verification/CtxInv.v ===== *)
(** * The invariant of a file with invocations, and [context_free]

    [ctx_inv] ties the contexts of a file to the maps, buffers and messages
    they hold; freeing a context gives exactly those back. *)
From S2P Require Import Prelude Shared Mmap MmapFacts Pages Buf BufFacts Apps AppsFacts World WorldFacts Transact MapOps MapFacts Invoke CtxFacts.

Section inv.
Context `{HS : adsprpc_shared, !adsprpc_shared_ok HS}.
Context `{KC : kernel_config, !kernel_config_ok KC}.
Context `{V : virtqueue, !virtqueue_ok V}.
Implicit Types (w : world) (c : vfastrpc_invoke_ctx) (h : gmap ptr vfastrpc_invoke_ctx).

(** What a context holds: the maps of its buffer arguments and its internal
    buffers.  The maps of dma handles are left for the DSP to release. *)
Definition ctx_maps c : gmultiset ptr := maps_of (take (nbufs (c_sc c)) (c_maps c)).
Definition ctx_bufs c : gmultiset ptr :=
  match c_desc c with
  | Some ds => bufs_of ds
  | None => ∅
  end.

(** The arrays of a context are as long as the scalars say. *)
Record ctx_shape c : Prop := {
  sh_maps : (nargs (c_sc c) <= length (c_maps c))%nat;
  sh_lpra : (nargs (c_sc c) <= length (c_lpra c))%nat;
  sh_attrs : (nargs (c_sc c) <= length (c_attrs c))%nat;
  sh_fds l : c_fds c = Some l -> (nargs (c_sc c) <= length l)%nat;
  sh_desc ds : c_desc c = Some ds -> length ds = nbufs (c_sc c);
}.

(** Every internal buffer of a context is live and large enough. *)
Definition descs_ok (s : bufs) c : Prop :=
  forall ds i d, c_desc c = Some ds -> ds !! i = Some d -> d_type d = VFASTRPC_BUF_TYPE_INTERNAL ->
    exists bp b ra, d_buf d = Some bp /\ bf_heap s !! bp = Some b /\ c_lpra c !! i = Some ra /\
      ra_len ra <= mapped_bytes b.

(** A context's message points back to it, and no other context's does. *)
Definition linked h (ms : gmap ptr virt_fastrpc_msg) : Prop :=
  (forall q c mp, h !! q = Some c -> c_msg c = Some mp ->
    exists m, ms !! mp = Some m /\ msg_ctx m = Some q) /\
  (forall mp m q, ms !! mp = Some m -> msg_ctx m = Some q ->
    exists c, h !! q = Some c /\ c_msg c = Some mp).

(** Saved commands have messages of their own. *)
Definition apart (l : list virt_fastrpc_cmd) (ms : gmap ptr virt_fastrpc_msg) : Prop :=
  forall p, p ∈ map vc_msg l -> exists m, ms !! p = Some m /\ msg_ctx m = None.

(** The lists hold live contexts, each once; an interrupted one has sent its
    message. *)
Record lists_ok h (pending interrupted : list ptr) : Prop := {
  li_nodup : NoDup (pending ++ interrupted);
  li_live q : q ∈ pending ++ interrupted -> is_Some (h !! q);
  li_sent q c : q ∈ interrupted -> h !! q = Some c -> is_Some (c_msg c);
}.

(** [H] holds maps beyond those of the contexts, [k] is the room for more
    references. *)
Record ctx_inv (H : gmultiset ptr) (k : Z) w : Prop := {
  ci_rx : rx_inv w;
  ci_maps : maps_ok (H ⊎ hsum ctx_maps (cx_heap (w_cx w))) k (w_mm w);
  ci_nonzero : nonzero (hsum ctx_maps (cx_heap (w_cx w))) (w_mm w);
  ci_bufs : bufs_ok (hsum ctx_bufs (cx_heap (w_cx w))) (w_bf w);
  ci_nodup : NoDup (map vc_msg (fl_interrupted_cmds (w_fl w)));
  ci_apart : apart (fl_interrupted_cmds (w_fl w)) (msgs (w_apps w));
  ci_shape q c : cx_heap (w_cx w) !! q = Some c -> ctx_shape c;
  ci_linked : linked (cx_heap (w_cx w)) (msgs (w_apps w));
  ci_descs q c : cx_heap (w_cx w) !! q = Some c -> is_Some (c_msg c) -> descs_ok (w_bf w) c;
  ci_lists : lists_ok (cx_heap (w_cx w)) (cx_pending (w_cx w)) (cx_interrupted (w_cx w));
  ci_size : 0 <= buf_size (w_apps w) < 2 ^ 32;
}.

Lemma ctx_inv_file H k w : ctx_inv H k w -> file_inv w.
Proof.
  intros []. split; try done; [apply ci_maps0..|apply ci_bufs0|]. split; [done|].
  intros p (m & Hm & _)%ci_apart0. by eexists.
Qed.

Lemma nbufs_le sc : (nbufs sc <= nargs sc)%nat.
Proof.
  unfold nbufs, nargs. rewrite LENGTH_sum.
  pose proof (INBUFS_range sc). pose proof (OUTBUFS_range sc).
  pose proof (INHANDLES_range sc). pose proof (OUTHANDLES_range sc). lia.
Qed.

Lemma prefix_eq {S A} (l : list A) n (s : S) : (n <= length l)%nat -> prefix l n s = Ok (take n l) s.
Proof. intros Hle. unfold prefix. by rewrite decide_False by lia. Qed.

(** The receive side does not look at maps, buffers or lists. *)
Lemma rx_inv_cx w w' :
  rx_inv w -> w_apps w' = w_apps w ->
  (forall q, is_Some (cx_heap (w_cx w) !! q) -> is_Some (cx_heap (w_cx w') !! q)) -> rx_inv w'.
Proof.
  intros [Ha Hc Hr Hs Hm] E Hd. split; rewrite E; try done. intros p m c Hp Hmc. apply Hd. by apply (Hc p m c).
Qed.

Lemma linked_free h ms p c :
  linked h ms -> h !! p = Some c ->
  linked (delete p h) (match c_msg c with Some mp => delete mp ms | None => ms end).
Proof.
  intros [Hl1 Hl2] Hp. split.
  - intros q cq mq [Hne Hq]%lookup_delete_Some Hmq. destruct (Hl1 q cq mq Hq Hmq) as (m & Hm & Hmc).
    exists m. split; [|done]. destruct (c_msg c) as [mp|] eqn:Ec; [|done].
    rewrite lookup_delete_ne; [done|]. intros ->.
    destruct (Hl1 p c mq Hp Ec) as (m' & Hm' & Hmc'). simplify_eq.
  - intros mq m q Hm Hmc. assert (ms !! mq = Some m /\ c_msg c <> Some mq) as [Hm0 Hne].
    { destruct (c_msg c) as [mp|]; [|done]. apply lookup_delete_Some in Hm as [? ?]. by split; [|intros [= ->]]. }
    destruct (Hl2 mq m q Hm0 Hmc) as (cq & Hq & Ecq). exists cq. split; [|done].
    rewrite lookup_delete_ne; [done|]. intros ->. simplify_eq.
Qed.

Lemma apart_free h ms p c cmds :
  linked h ms -> h !! p = Some c -> apart cmds ms ->
  apart cmds (match c_msg c with Some mp => delete mp ms | None => ms end).
Proof.
  intros [Hl1 _] Hp Ha q Hq. destruct (Ha q Hq) as (m & Hm & Hc). exists m. split; [|done].
  destruct (c_msg c) as [mp|] eqn:Ec; [|done]. rewrite lookup_delete_ne; [done|]. intros ->.
  destruct (Hl1 p c q Hp Ec) as (m' & Hm' & Hmc'). simplify_eq.
Qed.

Lemma hlist_del_app p l k : hlist_del p (l ++ k) = hlist_del p l ++ hlist_del p k.
Proof. apply filter_app. Qed.

Lemma lists_free h p pend intr :
  lists_ok h pend intr -> lists_ok (delete p h) (hlist_del p pend) (hlist_del p intr).
Proof.
  intros [Hnd Hl Hs]. split; rewrite <- ?hlist_del_app.
  - by apply NoDup_hlist_del.
  - intros q [Hq Hne]%elem_of_hlist_del. rewrite lookup_delete_ne by done. by apply Hl.
  - intros q c [Hq Hne]%elem_of_hlist_del [_ Hc]%lookup_delete_Some. by apply (Hs q).
Qed.

(** The device without the message of a context. *)
Definition ctx_msg_ended c (a : apps) : apps :=
  match c_msg c with
  | Some mp => match msgs a !! mp with Some m => msg_ended mp m a | None => a end
  | None => a
  end.

(** The message of a context is released. *)
Lemma release_ctx_msg p c w :
  rx_inv w -> linked (cx_heap (w_cx w)) (msgs (w_apps w)) -> cx_heap (w_cx w) !! p = Some c ->
  exists a', (match c_msg c with
      | Some mp => m ← on_apps (msg_load mp); on_apps (release_msg mp (rxbuf m))
      | None => mret ()
      end) w = Ok () (w <| w_apps := a' |>) /\ rx_inv (w <| w_apps := a' |>) /\
    msgs a' = (match c_msg c with Some mp => delete mp (msgs (w_apps w)) | None => msgs (w_apps w) end) /\
    buf_size a' = buf_size (w_apps w) /\ sbufs a' = sbufs (w_apps w) /\
    tx_held a' = tx_held (w_apps w) /\ rx_all a' = rx_all (w_apps w) /\ a' = ctx_msg_ended c (w_apps w).
Proof.
  intros Hi [Hl _] Hp. unfold ctx_msg_ended. destruct (c_msg c) as [mp|] eqn:Ec.
  - destruct (Hl p c mp Hp Ec) as (m & Hm & _). pose proof (release_msg_eq mp m _ (ri_apps _ Hi) Hm) as Eq.
    rewrite Hm. destruct (release_msg_ok mp m w Hi Hm) as (a' & E & Hi' & Em & _ & Eb & Es & Et & Er).
    exists a'. unfold mbind, M_bind, on_apps, zoom, msg_load. rewrite Hm. simpl. rewrite E. rewrite E in Eq. injection Eq as ->. by split_and!.
  - exists (w_apps w). unfold mret, M_ret. destruct w; simpl in *. by split_and!.
Qed.

Lemma bufs_ok_keeps_descs D s s' c :
  keeps D s s' -> ctx_bufs c ⊆ D -> descs_ok s c -> descs_ok s' c.
Proof.
  intros Hk Hs Hd ds i d Ed Ei Ety. destruct (Hd ds i d Ed Ei Ety) as (bp & b & ra & Eb & Hb & Hra & Hle).
  exists bp, b, ra. split_and!; try done. rewrite Hk; [done|].
  assert (bp ∈ ctx_bufs c); [|multiset_solver].
  unfold ctx_bufs, bufs_of. rewrite Ed. apply elem_of_list_to_set_disj, list_elem_of_omap.
  exists d. split; [by eapply list_elem_of_lookup_2|done].
Qed.

Lemma hsum_sub {A} (f : A -> gmultiset ptr) (hp : gmap ptr A) q a : hp !! q = Some a -> f a ⊆ hsum f hp.
Proof. intros Hq. rewrite (hsum_delete f hp q a Hq). multiset_solver. Qed.

Lemma free_ctx_descs c w s2 :
  ctx_shape c -> free_descs (default [] (c_desc c)) (w_bf w) = Ok () s2 ->
  (match c_desc c with
   | Some desc => ds ← prefix desc (nbufs (c_sc c)); on_bf (free_descs ds)
   | None => mret ()
   end) w = Ok () (w <| w_bf := s2 |>).
Proof.
  intros Hc E. destruct (c_desc c) as [ds|] eqn:Ed; simpl in E.
  - pose proof (sh_desc _ Hc ds Ed) as Hl. unfold mbind, M_bind. rewrite prefix_eq, firstn_all2 by lia.
    unfold on_bf, zoom. simpl. by rewrite E.
  - unfold mret, M_ret in *. simplify_eq. by destruct w.
Qed.

(** Once its message is gone, nothing points to a context. *)
Lemma rx_inv_gone w w' :
  rx_inv w -> w_apps w' = w_apps w -> linked (cx_heap (w_cx w')) (msgs (w_apps w')) -> rx_inv w'.
Proof.
  intros [Ha Hc Hr Hs Hm] E [_ Hl]. rewrite E in Hl. split; rewrite ?E; try done.
  intros p m c Hp Hmc. destruct (Hl p m c) as (x & Hx & _); [done..|]. by eexists.
Qed.

Definition perf_left (f : file) c : Z := if negb (fl_profile f =? 0) && c_perf c then 1 else 0.

(** Freeing a context gives back its maps, message and buffers, and nothing
    else; the last facts say what became of them. *)
Lemma context_free_runs p c H k w :
  ctx_inv H k w -> 0 <= k -> cx_heap (w_cx w) !! p = Some c ->
  exists w', context_free p w = Ok () w' /\ ctx_inv H k w' /\
    w_cx w' = (w_cx w) <| cx_heap := delete p (cx_heap (w_cx w)) |>
                <| cx_pending := hlist_del p (cx_pending (w_cx w)) |>
                <| cx_interrupted := hlist_del p (cx_interrupted (w_cx w)) |>
                <| cx_perfs := cx_perfs (w_cx w) - perf_left (w_fl w) c |> /\
    w_fl w' = w_fl w /\ shrunk (w_mm w) (w_mm w') /\
    msgs (w_apps w') = (match c_msg c with
                        | Some mp => delete mp (msgs (w_apps w)) | None => msgs (w_apps w) end) /\
    buf_size (w_apps w') = buf_size (w_apps w) /\ tx_held (w_apps w') = tx_held (w_apps w) /\
    rx_all (w_apps w') = rx_all (w_apps w) /\
    drop_ctx_maps (take (nbufs (c_sc c)) (c_maps c)) (w_mm w) = Ok () (w_mm w') /\
    maps_dropped (ctx_maps c) (w_mm w) (w_mm w') /\ bufs_given (ctx_bufs c) (w_bf w) (w_bf w') /\
    w_apps w' = ctx_msg_ended c (w_apps w).
Proof.
  intros [Hrx Hmp Hnz Hbf Hnd Hap Hsh Hlk Hds Hls Hsz] Hk Hp. pose proof (Hsh p c Hp) as Hc.
  pose proof (nbufs_le (c_sc c)) as Hle.
  rewrite (hsum_delete ctx_maps _ p c Hp) in Hmp, Hnz. rewrite (hsum_delete ctx_bufs _ p c Hp) in Hbf.
  destruct (drop_ctx_maps_ok (take (nbufs (c_sc c)) (c_maps c)) (H ⊎ hsum ctx_maps (delete p (cx_heap (w_cx w)))) k (w_mm w))
    as (s1 & E1 & Hmp1 & Hsh1 & Hdr1); [|done|].
  { eapply maps_ok_weaken; [|reflexivity|exact Hmp]. unfold ctx_maps. multiset_solver. }
  destruct (free_descs_ok (default [] (c_desc c)) (hsum ctx_bufs (delete p (cx_heap (w_cx w)))) (w_bf w))
    as (s2 & E2 & Hbf2 & Hk2 & Hgv2).
  { eapply bufs_ok_weaken; [|exact Hbf]. unfold ctx_bufs. by destruct (c_desc c). }
  set (w1 := w <| w_cx := (w_cx w) <| cx_pending := hlist_del p (cx_pending (w_cx w)) |>
    <| cx_interrupted := hlist_del p (cx_interrupted (w_cx w)) |> |> <| w_mm := s1 |>).
  assert (rx_inv w1) as Hrx1 by (eapply rx_inv_cx; [exact Hrx|done|done]).
  destruct (release_ctx_msg p c w1 Hrx1 Hlk Hp) as (a' & E3 & Hrx3 & Em & Ebs & Esb & Eth & Erx & Eap).
  assert (bufs_given (ctx_bufs c) (w_bf w) s2) as Hgv by (unfold ctx_bufs; by destruct (c_desc c)).
  set (w' := w <| w_apps := a' |> <| w_mm := s1 |> <| w_bf := s2 |>
    <| w_cx := (w_cx w) <| cx_heap := delete p (cx_heap (w_cx w)) |>
                <| cx_pending := hlist_del p (cx_pending (w_cx w)) |>
                <| cx_interrupted := hlist_del p (cx_interrupted (w_cx w)) |>
                <| cx_perfs := cx_perfs (w_cx w) - perf_left (w_fl w) c |> |>).
  exists w'. split; [|split; [|by split_and!]].
  - unfold context_free. unfold mbind at 1, M_bind at 1, on_cx at 1, zoom at 1, ctx_load. rewrite Hp.
    unfold mbind at 1, M_bind at 1, on_cx at 1, zoom at 1, ctx_unlink, modify.
    unfold mbind at 1, M_bind at 1. rewrite prefix_eq by (pose proof (sh_maps _ Hc); lia).
    unfold mbind at 1, M_bind at 1, on_mm, zoom at 1. simpl. rewrite E1.
    unfold mbind at 1, M_bind at 1.
    match goal with |- context [(match c_msg c with Some _ => _ | None => _ end) ?x] => change x with w1 end.
    rewrite E3. unfold mbind at 1, M_bind at 1. rewrite (free_ctx_descs c _ s2) by done.
    unfold mbind, M_bind, gets, on_cx, zoom, when, modify, mret, M_ret, w', perf_left, ctx_kfree. simpl.
    destruct (negb _ && c_perf c); simpl; rewrite Hp; by rewrite ?Z.sub_0_r.
  - split; simpl; try done.
    + eapply rx_inv_gone; [exact Hrx3|done|]. simpl. rewrite Em. by apply linked_free.
    + eapply nonzero_shrunk; [|exact Hsh1]. intros q m Hq. apply Hnz. multiset_solver.
    + rewrite Em. by apply (apart_free (cx_heap (w_cx w)) _ p).
    + intros q cq [_ Hq]%lookup_delete_Some. by apply (Hsh q).
    + rewrite Em. by apply linked_free.
    + intros q cq Hq Hm. eapply bufs_ok_keeps_descs; [exact Hk2|by eapply hsum_sub|].
      apply lookup_delete_Some in Hq as [_ Hq]. by apply (Hds q).
    + by apply lists_free.
    + by rewrite Ebs.
Qed.

(** ** Accounting

    Between [w] and [w'] the maps gained no hold (and, under [K], no
    reference) that is not a live context's or in [D], and no buffer was lost:
    if every live buffer could be found on a list or in a context, every live
    buffer still can. *)
Definition holds w : gmultiset ptr := hsum ctx_maps (cx_heap (w_cx w)).
Definition bholds w : gmultiset ptr := hsum ctx_bufs (cx_heap (w_cx w)).

Record balanced (K : Prop) (D : gmultiset ptr) w w' : Prop := {
  ba_maps : acct K (holds w) (w_mm w) (D ⊎ holds w') (w_mm w');
  ba_bufs : placed (bholds w) (w_bf w) -> placed (bholds w') (w_bf w');
}.

Lemma balanced_holds K w w' :
  w_mm w' = w_mm w -> w_bf w' = w_bf w -> holds w' = holds w -> bholds w' = bholds w -> balanced K ∅ w w'.
Proof. intros Em Eb Eh Eg. split; rewrite ?Em, ?Eb, ?Eh, ?Eg, ?(left_id_L ∅ (⊎)); [apply acct_refl|done]. Qed.

Lemma balanced_same K w w' :
  w_mm w' = w_mm w -> w_bf w' = w_bf w -> cx_heap (w_cx w') = cx_heap (w_cx w) -> balanced K ∅ w w'.
Proof. intros Em Eb Eh. apply balanced_holds; unfold holds, bholds; by rewrite ?Eh. Qed.

Lemma balanced_trans K D1 D2 w w1 w2 :
  balanced K D1 w w1 -> balanced K D2 w1 w2 -> balanced K (D1 ⊎ D2) w w2.
Proof.
  intros [M1 B1] [M2 B2]. split; [|by auto]. eapply acct_trans; [exact M1|].
  rewrite <- (assoc_L (⊎)). by apply acct_add.
Qed.

Lemma balanced_then K D w w1 w2 : balanced K D w w1 -> balanced K ∅ w1 w2 -> balanced K D w w2.
Proof. intros H1 H2. rewrite <- (right_id_L ∅ (⊎) D). by eapply balanced_trans. Qed.

Lemma balanced_first K D w w1 w2 : balanced K ∅ w w1 -> balanced K D w1 w2 -> balanced K D w w2.
Proof. intros H1 H2. rewrite <- (left_id_L ∅ (⊎) D). by eapply balanced_trans. Qed.

Lemma context_free_balanced K p c w w' :
  mm_inv (w_mm w) -> cx_heap (w_cx w) !! p = Some c -> cx_heap (w_cx w') = delete p (cx_heap (w_cx w)) ->
  maps_dropped (ctx_maps c) (w_mm w) (w_mm w') -> bufs_given (ctx_bufs c) (w_bf w) (w_bf w') -> balanced K ∅ w w'.
Proof.
  intros Hi Hp Eh Hd Hg. split; unfold holds, bholds; rewrite Eh.
  - rewrite (hsum_delete ctx_maps _ p c Hp), (left_id_L ∅ (⊎)). by apply acct_dropped.
  - rewrite (hsum_delete ctx_bufs _ p c Hp). by apply placed_given.
Qed.
Lemma context_free_ok p c H k w :
  ctx_inv H k w -> 0 <= k -> cx_heap (w_cx w) !! p = Some c ->
  exists w', context_free p w = Ok () w' /\ ctx_inv H k w' /\
    w_cx w' = (w_cx w) <| cx_heap := delete p (cx_heap (w_cx w)) |>
                <| cx_pending := hlist_del p (cx_pending (w_cx w)) |>
                <| cx_interrupted := hlist_del p (cx_interrupted (w_cx w)) |>
                <| cx_perfs := cx_perfs (w_cx w) - perf_left (w_fl w) c |> /\
    w_fl w' = w_fl w /\ shrunk (w_mm w) (w_mm w') /\
    msgs (w_apps w') = (match c_msg c with
                        | Some mp => delete mp (msgs (w_apps w)) | None => msgs (w_apps w) end) /\
    buf_size (w_apps w') = buf_size (w_apps w) /\ tx_held (w_apps w') = tx_held (w_apps w) /\
    rx_all (w_apps w') = rx_all (w_apps w) /\ forall K, balanced K ∅ w w'.
Proof.
  intros Hi Hk Hp. destruct (context_free_runs p c H k w Hi Hk Hp)
    as (w' & E & Hi' & Ecx & Ef & Em & Es & Eb & Et & Er & _ & Hd & Hg & _).
  exists w'. split_and!; try done. intros K. eapply context_free_balanced; [apply (ci_maps _ _ _ Hi)|done| |done..].
  by rewrite Ecx.
Qed.
End inv.
