(* ===== verification/ArgFacts.v ===== *)
(** * Mapping the arguments of an invocation

    The loops of [get_args] over the buffers and the dma handles: they never
    fault, what they map is counted, the length they add up is the length of
    what will be written into the message, and on an error the maps they took
    stay with the context or are given back. *)
From S2P Require Import Prelude Shared Mmap MmapFacts Pages Buf BufFacts Apps AppsFacts World WorldFacts Transact MapOps MapFacts Invoke CtxFacts CtxInv.

(** ** Sums of lengths *)

Definition sumZ (l : list Z) : Z := foldr Z.add 0 l.

Lemma sumZ_app l k : sumZ (l ++ k) = sumZ l + sumZ k.
Proof. unfold sumZ. induction l as [|x l IH]; simpl; [done|]. rewrite IH. lia. Qed.

Lemma sumZ_bound b l : 0 <= b -> Forall (fun x => 0 <= x <= b) l -> 0 <= sumZ l <= Z.of_nat (length l) * b.
Proof. intros Hb. unfold sumZ. induction 1 as [|x l Hx Hl IH]; simpl; lia. Qed.

Lemma maps_of_app l k : maps_of (l ++ k) = maps_of l ⊎ maps_of k.
Proof. unfold maps_of. by rewrite omap_app, list_to_set_disj_app. Qed.

(** One entry of an array of maps, or of internal buffers, is replaced. *)
Lemma omap_set {A} (f : A -> option ptr) (l : list A) i x y :
  l !! i = Some x ->
  (list_to_set_disj (omap f (<[i := y]> l)) : gmultiset ptr) ⊎ list_to_set_disj (omap f [x]) =
  list_to_set_disj (omap f l) ⊎ list_to_set_disj (omap f [y]).
Proof.
  intros Hi. replace (omap f l) with (omap f (take i l ++ [x] ++ drop (S i) l))
    by (f_equal; by apply take_drop_middle).
  rewrite insert_take_drop by by eapply lookup_lt_Some. rewrite (cons_middle y).
  rewrite !omap_app, !list_to_set_disj_app. multiset_solver.
Qed.

Lemma maps_of_set l i n q :
  l !! i = Some None -> (i < n)%nat -> maps_of (take n (<[i := Some q]> l)) = {[+ q +]} ⊎ maps_of (take n l).
Proof.
  intros Hi Hn. rewrite take_insert_lt by done. unfold maps_of.
  pose proof (omap_set id (take n l) i None (Some q)) as E. rewrite lookup_take_lt in E by done.
  specialize (E Hi). simpl in E. multiset_solver.
Qed.

Lemma maps_of_unset l i n q :
  l !! i = Some (Some q) -> (i < n)%nat -> maps_of (take n l) = {[+ q +]} ⊎ maps_of (take n (<[i := None]> l)).
Proof.
  intros Hi Hn. rewrite take_insert_lt by done. unfold maps_of.
  pose proof (omap_set id (take n l) i (Some q) None) as E. rewrite lookup_take_lt in E by done.
  specialize (E Hi). simpl in E. multiset_solver.
Qed.

Lemma maps_of_snoc l b i q :
  (b <= i)%nat -> (i < length l)%nat ->
  maps_of (drop b (take (S i) (<[i := Some q]> l))) = {[+ q +]} ⊎ maps_of (drop b (take i l)).
Proof.
  intros Hb Hi. rewrite (take_S_r _ i (Some q)) by by apply list_lookup_insert_eq.
  rewrite take_insert_ge, drop_app_le by (rewrite ?length_take; lia).
  rewrite maps_of_app. unfold maps_of at 2. simpl. multiset_solver.
Qed.

Lemma maps_of_skip l b i :
  l !! i = Some None -> maps_of (drop b (take (S i) l)) = maps_of (drop b (take i l)).
Proof.
  intros Hi. rewrite (take_S_r _ i None) by done. rewrite drop_app, maps_of_app.
  destruct (b - length (take i l))%nat as [|k]; [|destruct k]; unfold maps_of at 2; simpl; multiset_solver.
Qed.

(** ** The state of [get_args] *)

Section args.
Context `{HS : adsprpc_shared, !adsprpc_shared_ok HS}.
Context `{KC : kernel_config, !kernel_config_ok KC}.
Context `{V : virtqueue, !virtqueue_ok V}.
Implicit Types (w : world) (c : vfastrpc_invoke_ctx) (s : mmaps) (b : bufs).

(** [w0] with context [p] and the maps and buffers replaced. *)
Definition with_args (w0 : world) (p : ptr) c s b : world :=
  {| w_apps := w_apps w0; w_mm := s; w_bf := b;
     w_cx := (w_cx w0) <| cx_heap := <[p := c]> (cx_heap (w_cx w0)) |>; w_fl := w_fl w0 |}.

(** What the loops leave alone in a context. *)
Record args_eq c c' : Prop := {
  ae_msg : c_msg c' = c_msg c;
  ae_sc : c_sc c' = c_sc c;
  ae_lpra : c_lpra c' = c_lpra c;
  ae_fds : c_fds c' = c_fds c;
  ae_async : c_isasyncjob c' = c_isasyncjob c;
  ae_perf : c_perf c' = c_perf c;
  ae_maps : length (c_maps c') = length (c_maps c);
  ae_attrs : length (c_attrs c') = length (c_attrs c);
}.

#[export] Instance args_eq_preorder : PreOrder args_eq.
Proof. split; [by split|]. intros x y z [] []. split; congruence. Qed.

(** The internal buffer of an argument. *)
Definition internal_of c (i : nat) : option (option ptr) :=
  ds ← c_desc c; d ← ds !! i;
  match d_type d with
  | VFASTRPC_BUF_TYPE_INTERNAL => Some (d_buf d)
  | _ => None
  end.

Definition sized (ot : option sg_table) (l : Z) : Prop :=
  exists t, ot = Some t /\ tiny t /\ l = SIZE_OF_MAPPING (nents t).

(** [l] bytes of the message are for buffer [i]. *)
Definition plen s b c (i : nat) (l : Z) : Prop :=
  exists ra, c_lpra c !! i = Some ra /\
  match c_maps c !! i, internal_of c i with
  | Some (Some q), _ => exists m, mm_heap s !! q = Some m /\ sized (m_table m) l
  | Some None, Some (Some bp) => exists x, bf_heap b !! bp = Some x /\ sized (b_sgt x) l /\
      is_Some (b_va x) /\ ra_len ra <= mapped_bytes x
  | Some None, None => l = ra_len ra
  | _, _ => False
  end.

(** [l] bytes of the message are for handle [i]. *)
Definition hlen s c (i : nat) (l : Z) : Prop :=
  match c_maps c !! i with
  | Some (Some q) => exists m, mm_heap s !! q = Some m /\ sized (m_table m) l
  | Some None => l = 0
  | None => False
  end.

Lemma sized_range ot l : sized ot l -> 0 <= l <= 2 ^ 22 + 2 ^ 5.
Proof.
  intros (t & _ & Ht & ->). unfold tiny, nents in *. unfold SIZE_OF_MAPPING, sizeof_mapping, sizeof_sgl.
  rewrite u64_id by lia. lia.
Qed.

Lemma plen_extends s s' b c c' i l :
  plen s b c i l -> extends s s' -> c_lpra c' = c_lpra c -> c_maps c' !! i = c_maps c !! i ->
  c_desc c' = c_desc c -> plen s' b c' i l.
Proof.
  intros (ra & Hra & Hl) Hx El Em Ed. exists ra. rewrite El. split; [done|].
  unfold internal_of in *. rewrite Em, Ed. destruct (c_maps c !! i) as [[q|]|]; [|done..].
  destruct Hl as (m & Hm & Hl). destruct (Hx q m Hm) as (m' & Hm' & _ & Et & _).
  exists m'. split; [done|]. by rewrite Et.
Qed.

Lemma hlen_extends s s' c c' i l :
  hlen s c i l -> extends s s' -> c_maps c' !! i = c_maps c !! i -> hlen s' c' i l.
Proof.
  unfold hlen. intros Hl Hx ->. destruct (c_maps c !! i) as [[q|]|]; [|done..].
  destruct Hl as (m & Hm & Hl). destruct (Hx q m Hm) as (m' & Hm' & _ & Et & _).
  exists m'. split; [done|]. by rewrite Et.
Qed.

(** What the user may pass: a buffer of less than 2 GiB, not at address 0. *)
Definition arg_ok (ra : remote_arg) : Prop :=
  0 <= ra_pv ra < 2 ^ 64 /\ 0 <= ra_len ra < 2 ^ 31 /\ (ra_pv ra = 0 -> ra_len ra = 0).

(** What the kernel may answer: scatter tables of less than [2^18] entries. *)
Definition env_ok (e : invoke_env) : Prop :=
  (forall i t, ce_table (ie_create e i) = Some t -> tiny t) /\
  (forall i t, ae_sgt (ie_alloc e i) = Some t -> tiny t).

(** No argument asks for its map to be kept. *)
Definition no_keep (l : list Z) : Prop := Forall (fun a => has_bit a FASTRPC_ATTR_KEEP_MAP = false) l.

Lemma has_bit_ldiff a k : has_bit (Z.ldiff a k) k = false.
Proof. unfold has_bit. by rewrite Z.land_ldiff. Qed.

Lemma size_maps_of l : (size (maps_of l) <= length l)%nat.
Proof.
  unfold maps_of. induction l as [|[q|] l IH]; simpl; [done| |by etrans; [exact IH|lia]].
  rewrite gmultiset_size_disj_union, gmultiset_size_singleton. apply le_n_S. exact IH.
Qed.

(** ** The loops *)

Section loops.
Variable (w0 : world) (p : ptr).
#[local] Abbreviation W := (with_args w0 p).

Lemma load_args c s b : on_cx (ctx_load p) (W c s b) = Ok c (W c s b).
Proof. unfold on_cx, zoom, ctx_load, with_args. simpl. by rewrite lookup_insert_eq. Qed.

Lemma upd_args c s b g : ctx_upd p g (W c s b) = Ok () (W (g c) s b).
Proof.
  unfold ctx_upd, mbind, M_bind. rewrite load_args. unfold on_cx, zoom, ctx_store, with_args. simpl.
  rewrite lookup_insert_eq. simpl. by rewrite insert_insert_eq.
Qed.

Lemma on_mm_args {A} (m : M mmaps A) c s b a s' :
  m s = Ok a s' -> on_mm m (W c s b) = Ok a (W c s' b).
Proof. unfold on_mm, zoom. simpl. by intros ->. Qed.

Lemma on_bf_args {A} (m : M bufs A) c s b a b' :
  m b = Ok a b' -> on_bf m (W c s b) = Ok a (W c s b').
Proof. unfold on_bf, zoom. simpl. by intros ->. Qed.

Lemma at_index_eq {S A} (l : list A) i x (st : S) : l !! i = Some x -> at_index l i st = Ok x st.
Proof. unfold at_index. by intros ->. Qed.

(** The maps of [p] and of the other contexts are counted, with [H] beside. *)
Definition others : gmultiset ptr := hsum ctx_maps (delete p (cx_heap (w_cx w0))).
Definition held (H : gmultiset ptr) (k : Z) c s : Prop :=
  maps_ok (H ⊎ (ctx_maps c ⊎ others)) k s /\ nonzero (ctx_maps c ⊎ others) s.

(** Nothing was taken that the holds at the end do not account for. *)
Definition held_acct (K : Prop) H c s H' c' s' : Prop :=
  acct K (H ⊎ (ctx_maps c ⊎ others)) s (H' ⊎ (ctx_maps c' ⊎ others)) s'.

Lemma held_weaken H k k' c s : k' <= k -> held H k c s -> held H k' c s.
Proof. intros Hk [Hm Hn]. split; [|done]. by eapply maps_ok_weaken; [reflexivity|..]. Qed.

Lemma held_covers H k c s : held H k c s -> covers (ctx_maps c ⊎ others) s.
Proof. intros [Hm _]. eapply covers_weaken; [|apply (mo_covers _ _ _ Hm)]. multiset_solver. Qed.

Lemma held_extends H H' k k' c s s' :
  held H k c s -> extends s s' -> maps_ok (H' ⊎ (ctx_maps c ⊎ others)) k' s' -> held H' k' c s'.
Proof.
  intros Hh Hx Hm. split; [done|]. eapply nonzero_extends; [by eapply held_covers|apply Hh|done].
Qed.

(** Contexts that differ in nothing the maps depend on. *)
Lemma held_eq H k c c' s : ctx_maps c' = ctx_maps c -> held H k c s -> held H k c' s.
Proof. unfold held. by intros ->. Qed.

Lemma shape_eq c c' : args_eq c c' -> c_desc c' = c_desc c -> ctx_shape c -> ctx_shape c'.
Proof.
  intros [E1 E2 E3 E4 E5 E6 E7 E8] Ed [H1 H2 H3 H4 H5].
  split; rewrite E2, ?E3, ?E4, ?E7, ?E8, ?Ed; done.
Qed.

Lemma arg_fd_eq c s b i :
  ctx_shape c -> (i < nargs (c_sc c))%nat -> exists r, arg_fd c i (W c s b) = Ok r (W c s b).
Proof.
  intros Hc Hi. unfold arg_fd. destruct (c_fds c) as [fds|] eqn:E; [|by eexists].
  pose proof (sh_fds _ Hc _ E). destruct (lookup_lt_is_Some_2 fds i) as [fd Hfd]; [lia|].
  unfold mbind, M_bind. rewrite (at_index_eq _ _ _ _ Hfd). by eexists.
Qed.

Lemma mapping_len_eq q m t c s b :
  mm_heap s !! q = Some m -> m_table m = Some t ->
  mapping_len q (W c s b) = Ok (SIZE_OF_MAPPING (nents t)) (W c s b).
Proof.
  intros Hm Ht. unfold mapping_len. erewrite bind_eq; [|apply (on_mm_args _ _ _ _ m s); unfold load; by rewrite Hm].
  by rewrite Ht.
Qed.

(** A map is put into a slot of the context that was empty. *)
Definition put_map c i q : vfastrpc_invoke_ctx := c <| c_maps := <[i := Some q]> (c_maps c) |>.

Lemma args_eq_put c i q : args_eq c (put_map c i q).
Proof. split; simpl; try done. by rewrite length_insert. Qed.

Lemma held_put c i q s s' m k k' :
  held ∅ k c s -> (i < nbufs (c_sc c))%nat -> c_maps c !! i = Some None -> mm_heap s' !! q = Some m ->
  m_va m <> 0 -> extends s s' -> maps_ok ({[+ q +]} ⊎ (ctx_maps c ⊎ others)) k' s' ->
  held ∅ k' (put_map c i q) s'.
Proof.
  intros Hh Hi Hi0 Hq Hv Hx Hm.
  assert (ctx_maps (put_map c i q) = {[+ q +]} ⊎ ctx_maps c) as E by by apply maps_of_set.
  split; rewrite E.
  - eapply maps_ok_weaken; [|reflexivity|exact Hm]. multiset_solver.
  - assert (nonzero (ctx_maps c ⊎ others) s') as Hn
      by (eapply nonzero_extends; [by eapply held_covers|apply Hh|done]).
    intros x mx Hxx Hmx. destruct (decide (x = q)) as [->|Hne]; [congruence|].
    apply (Hn x mx); [multiset_solver|done].
Qed.

Lemma map_buf_ok e c s b k i ra :
  env_ok e -> held ∅ (k + 1) c s -> 0 <= k < 2 ^ 30 -> ctx_shape c -> (i < nbufs (c_sc c))%nat ->
  c_maps c !! i = Some None -> c_lpra c !! i = Some ra -> arg_ok ra -> ra_len ra <> 0 -> c_desc c = None ->
  exists err len c' s', map_buf e p i ra (W c s b) = Ok (err, len) (W c' s' b) /\ held ∅ k c' s' /\
    args_eq c c' /\ c_desc c' = None /\ extends s s' /\
    (forall j, j <> i -> c_maps c' !! j = c_maps c !! j) /\
    (err = 0 -> plen s' b c' i len /\ 0 <= len <= 2 ^ 31) /\ c_attrs c' = c_attrs c /\
    forall K : Prop, (K -> no_keep (c_attrs c)) -> held_acct K ∅ c s ∅ c' s'.
Proof.
  intros [He _] [Hm Hn] Hk Hc Hi Hi0 Hra (Hpv & Hlen & Hz) Hne Hd.
  pose proof (nbufs_le (c_sc c)). unfold map_buf. rewrite (bind_eq _ _ _ _ _ (load_args c s b)).
  destruct (arg_fd_eq c s b i Hc) as [[fd|] Efd]; [lia| |]; rewrite (bind_eq _ _ _ _ _ Efd).
  2: { exists 0, (ra_len ra), c, s. split; [done|]. split; [by eapply held_weaken; [|by split]; lia|].
       split_and!; try done. intros _. split; [|lia]. exists ra. split; [done|].
       unfold internal_of. by rewrite Hi0, Hd. }
  destruct (lookup_lt_is_Some_2 (c_attrs c) i) as [attr Hat]; [pose proof (sh_attrs _ Hc); lia|].
  rewrite (bind_eq _ _ _ _ _ (at_index_eq _ _ _ _ Hat)).
  assert (no_keep (c_attrs c) -> has_bit attr FASTRPC_ATTR_KEEP_MAP = false) as Hat'
    by (intros Hnk; exact (Forall_lookup_1 _ _ _ _ Hnk Hat)).
  destruct (create_hold (ie_create e i) fd attr (ra_pv ra) (ra_len ra) 0 (ctx_maps c ⊎ others) k s) as
    [(err & s' & Herr & E & Hok & Hx & Hac)|
     (q & s1 & s2 & m & t & E & E2 & Hok & Hx & Hq & Ht & Hti & Hv & Hac)]; try done.
  { eapply maps_ok_weaken; [..|exact Hm]; [multiset_solver|lia]. }
  { by apply He. }
  { rewrite (bind_eq _ _ _ _ _ (on_mm_args _ c s b _ _ E)). simpl. erewrite bind_eq by done. zdec.
    exists err, 0, c, s'. split; [done|].
    split; [|split_and!; try done]. 
    - eapply held_extends; [by split|done|]. eapply maps_ok_weaken; [..|exact Hok]; [multiset_solver|lia].
    - intros K HK. unfold held_acct. rewrite !(left_id_L ∅ (⊎)). eapply acct_weaken; [|exact Hac]. auto. }
  rewrite (bind_eq _ _ _ _ _ (on_mm_args _ c s b _ _ E)). simpl. unfold set_ctx_map.
  erewrite bind_eq; [|erewrite bind_eq by apply upd_args; apply (on_mm_args _ _ _ _ _ _ E2)].
  fold (put_map c i q). erewrite bind_eq by by apply (mapping_len_eq q m t).
  eexists 0, _, (put_map c i q), s2. split; [done|].
  split; [eapply (held_put c i q s s2 m (k + 1)); try done; apply Hv; lia|].
  split; [apply args_eq_put|]. split_and!; try done.
  { intros j Hj. simpl. by rewrite list_lookup_insert_ne. }
  2:{ intros K HK. unfold held_acct. rewrite !(left_id_L ∅ (⊎)).
      assert (ctx_maps (put_map c i q) = {[+ q +]} ⊎ ctx_maps c) as -> by by apply maps_of_set.
      rewrite <- (assoc_L (⊎)). eapply acct_weaken; [|exact Hac]. auto. }
  intros _. assert (sized (m_table m) (SIZE_OF_MAPPING (nents t))) as Hsz by by exists t.
  split; [|pose proof (sized_range _ _ Hsz); lia]. exists ra. split; [done|]. simpl.
  rewrite list_lookup_insert_eq by (pose proof (sh_maps _ Hc); lia). by exists m.
Qed.

Lemma nargs_bound sc : Z.of_nat (nargs sc) <= 540.
Proof.
  unfold nargs. rewrite LENGTH_sum.
  pose proof (INBUFS_range sc). pose proof (OUTBUFS_range sc).
  pose proof (INHANDLES_range sc). pose proof (OUTHANDLES_range sc). lia.
Qed.

Definition set_out c o : vfastrpc_invoke_ctx := c <| c_outbufs_offset := o |>.

Lemma add_out_eq i inb len c s b :
  exists o, add_out_offset p i inb len (W c s b) = Ok () (W (set_out c o) s b).
Proof.
  unfold add_out_offset. destruct (decide _).
  - exists (u32 (c_outbufs_offset c + len)). by rewrite upd_args.
  - exists (c_outbufs_offset c). by destruct c.
Qed.

(** The first [n] buffers take [L] bytes of the message, each at most [bd]. *)
Record laid (bd : Z) s b c (n : nat) (L : list Z) : Prop := {
  la_len : length L = n;
  la_bd : Forall (fun x => 0 <= x <= bd) L;
  la_part j l : L !! j = Some l -> plen s b c j l;
}.

Lemma laid_snoc bd s s' b c c' n L l :
  laid bd s b c n L -> extends s s' -> c_lpra c' = c_lpra c -> c_desc c' = c_desc c ->
  (forall j, j <> n -> c_maps c' !! j = c_maps c !! j) ->
  plen s' b c' n l -> 0 <= l <= bd -> laid bd s' b c' (S n) (L ++ [l]).
Proof.
  intros [Hl Hb Hp] Hx El Ed Em Hn Hlb. split.
  - rewrite length_app, Hl. simpl. lia.
  - apply Forall_app. split; [done|]. by constructor.
  - intros j x [Hj|[Hge Hj]]%lookup_app_Some.
    + eapply plen_extends; [by apply Hp|done..| |done]. apply Em. apply lookup_lt_Some in Hj. lia.
    + apply list_lookup_singleton_Some in Hj as [Hj <-]. by replace j with n by lia.
Qed.

Lemma sum_small bd L : 0 <= bd <= 2 ^ 31 -> (length L <= 540)%nat -> Forall (fun x => 0 <= x <= bd) L ->
  0 <= sumZ L <= 540 * bd.
Proof.
  intros Hbd Hl Hf. pose proof (sumZ_bound bd L) as Hs. specialize (Hs ltac:(lia) Hf). nia.
Qed.

Definition bufs_args c : Prop :=
  forall j ra, (j < nbufs (c_sc c))%nat -> c_lpra c !! j = Some ra -> arg_ok ra.
Definition unmapped c (i : nat) : Prop :=
  forall j, (i <= j < nargs (c_sc c))%nat -> c_maps c !! j = Some None.

Lemma map_bufs_ok e inb b k n c s i copylen L :
  env_ok e -> held ∅ (k + Z.of_nat n) c s -> 0 <= k -> k + Z.of_nat n < 2 ^ 30 -> ctx_shape c ->
  (i + n = nbufs (c_sc c))%nat -> c_desc c = None -> unmapped c i -> bufs_args c ->
  laid (2 ^ 31) s b c i L -> copylen = sumZ L ->
  exists err copylen' c' s', map_bufs e p inb n i copylen (W c s b) = Ok (err, copylen') (W c' s' b) /\
    held ∅ k c' s' /\ args_eq c c' /\ c_desc c' = None /\
    (err = 0 -> exists L', laid (2 ^ 31) s' b c' (nbufs (c_sc c)) L' /\ copylen' = sumZ L' /\
      unmapped c' (nbufs (c_sc c))) /\
    forall K : Prop, (K -> no_keep (c_attrs c)) -> held_acct K ∅ c s ∅ c' s'.
Proof.
  intros He. revert c s i copylen L. induction n as [|n IH]; intros c s i copylen L Hh Hk0 Hk Hc Hin Hd Hu Ha Hl Hcl.
  { exists 0, copylen, c, s. rewrite Nat.add_0_r in Hin. subst i. split; [done|].
    split; [eapply held_weaken; [|done]; lia|].
    split_and!; try done. intros _. by exists L. }
  pose proof (nbufs_le (c_sc c)) as Hle. pose proof (nargs_bound (c_sc c)) as Hnb.
  simpl. rewrite (bind_eq _ _ _ _ _ (load_args c s b)).
  destruct (lookup_lt_is_Some_2 (c_lpra c) i) as [ra Hra]; [pose proof (sh_lpra _ Hc); lia|].
  rewrite (bind_eq _ _ _ _ _ (at_index_eq _ _ _ _ Hra)).
  assert (c_maps c !! i = Some None) as Hi0 by (apply Hu; lia).
  destruct (Z.eqb_spec (ra_len ra) 0) as [E0|E0].
  { destruct (IH c s (S i) copylen (L ++ [0])) as (err & cl & c' & s' & Hrun); try done; try lia.
    - eapply held_weaken; [|done]. lia.
    - intros j Hj. apply Hu. lia.
    - eapply laid_snoc; try done. exists ra. split; [done|]. unfold internal_of. by rewrite Hi0, Hd.
    - rewrite sumZ_app. simpl. lia.
    - by exists err, cl, c', s'. }
  destruct (map_buf_ok e c s b (k + Z.of_nat n) i ra) as
    (err & len & c1 & s1 & E1 & Hh1 & Ha1 & Hd1 & Hx1 & Hm1 & Hp1 & Eat1 & Hac1); try done; try lia.
  { eapply held_weaken; [|done]. lia. }
  { apply (Ha i); [lia|done]. }
  rewrite (bind_eq _ _ _ _ _ E1). simpl. destruct (Z.eqb_spec err 0) as [->|Hne]; simpl.
  2: { exists err, copylen, c1, s1. split; [done|]. split; [eapply held_weaken; [|done]; lia|]. by split_and!. }
  destruct (Hp1 eq_refl) as [Hp2 Hlen]. destruct (add_out_eq i inb len c1 s1 b) as [o Eo].
  rewrite (bind_eq _ _ _ _ _ Eo).
  assert (args_eq c (set_out c1 o)) as Ha2 by (etrans; [done|]; by split).
  assert (0 <= sumZ (L ++ [len]) <= 540 * 2 ^ 31) as Hs.
  { apply sum_small; [lia|rewrite length_app, (la_len _ _ _ _ _ _ Hl); simpl; lia|].
    apply Forall_app. split; [apply Hl|by constructor]. }
  destruct (IH (set_out c1 o) s1 (S i) (u64 (copylen + len)) (L ++ [len]))
    as (err & cl & c' & s' & Erun & Hh' & Ha' & Hd' & Hres & Hac'); try done; rewrite ?(ae_sc _ _ Ha2); try lia.
  - eapply shape_eq; [exact Ha2| |done]. simpl. congruence.
  - intros j Hj. rewrite (ae_sc _ _ Ha2) in Hj. simpl. rewrite Hm1 by lia. apply Hu. lia.
  - intros j rj Hj Hrj. rewrite (ae_sc _ _ Ha2) in Hj. simpl in Hrj. rewrite (ae_lpra _ _ Ha1) in Hrj.
    by apply (Ha j).
  - eapply laid_snoc; [done|exact Hx1|apply Ha1|simpl; congruence|exact Hm1| |done].
    destruct Hp2 as (r & ? & ?). by exists r.
  - rewrite sumZ_app in *. simpl in *. rewrite u64_id by lia. lia.
  - exists err, cl, c', s'. rewrite (ae_sc _ _ Ha2) in Hres. split; [done|].
    split_and!; try done; [by etrans|]. intros K HK. eapply acct_trans; [by apply Hac1|]. apply Hac'. simpl. by rewrite Eat1.
Qed.

(** ** Handles *)

(** The handles from [bufs] to [i] take [L] bytes of the message. *)
Record hlaid s c (bufs i : nat) (L : list Z) : Prop := {
  hl_len : (bufs + length L = i)%nat;
  hl_bd : Forall (fun x => 0 <= x <= 2 ^ 22 + 2 ^ 5) L;
  hl_part j l : L !! j = Some l -> hlen s c (bufs + j) l;
}.

Lemma hlaid_snoc s s' c c' bufs i L l :
  hlaid s c bufs i L -> extends s s' -> (forall j, j <> i -> c_maps c' !! j = c_maps c !! j) ->
  hlen s' c' i l -> 0 <= l <= 2 ^ 22 + 2 ^ 5 -> hlaid s' c' bufs (S i) (L ++ [l]).
Proof.
  intros [Hl Hb Hp] Hx Em Hn Hlb. split.
  - rewrite length_app. simpl. lia.
  - apply Forall_app. split; [done|]. by constructor.
  - intros j x [Hj|[Hge Hj]]%lookup_app_Some.
    + eapply hlen_extends; [by apply Hp|done|]. apply Em. apply lookup_lt_Some in Hj. lia.
    + apply list_lookup_singleton_Some in Hj as [Hj <-]. by replace (bufs + j)%nat with i by lia.
Qed.

Lemma laid_handle bd s s' b c c' n L :
  laid bd s b c n L -> extends s s' -> c_lpra c' = c_lpra c -> c_desc c' = c_desc c ->
  (forall j, (j < n)%nat -> c_maps c' !! j = c_maps c !! j) -> laid bd s' b c' n L.
Proof.
  intros [Hl Hb Hp] Hx El Ed Em. split; [done..|]. intros j l Hj.
  eapply plen_extends; [by apply Hp|done..| |done]. apply Em. apply lookup_lt_Some in Hj. lia.
Qed.

Lemma held_drop H k c s : held H k c s -> held ∅ k c s.
Proof. intros [Hm Hn]. split; [|done]. eapply maps_ok_weaken; [|reflexivity|exact Hm]. multiset_solver. Qed.

(** The handle maps taken up to [i]. *)
Definition hmaps c (i : nat) : gmultiset ptr := maps_of (drop (nbufs (c_sc c)) (take i (c_maps c))).

Lemma hmaps_put c i q :
  (nbufs (c_sc c) <= i)%nat -> (i < length (c_maps c))%nat -> hmaps (put_map c i q) (S i) = {[+ q +]} ⊎ hmaps c i.
Proof. intros. by apply maps_of_snoc. Qed.

Lemma handle_create_ok e c s k i fd attr mflags :
  env_ok e -> held (hmaps c i) (k + 1) c s -> 0 <= k < 2 ^ 30 -> is_heap_addr mflags = false ->
  has_bit attr FASTRPC_ATTR_KEEP_MAP = false -> (nbufs (c_sc c) <= i < nargs (c_sc c))%nat -> ctx_shape c -> unmapped c i ->
  (exists err s', err <> 0 /\ vfastrpc_mmap_create (ie_create e i) fd attr 0 0 mflags s = Ok (err, None) s' /\
    held (hmaps c i) (k + 1) c s' /\ forall K, held_acct K (hmaps c i) c s (hmaps c i) c s') \/
  (exists q s1 s2 m t, vfastrpc_mmap_create (ie_create e i) fd attr 0 0 mflags s = Ok (0, Some q) s1 /\
    ctx_ref_inc q s1 = Ok () s2 /\ held (hmaps (put_map c i q) (S i)) k (put_map c i q) s2 /\ extends s s2 /\
    mm_heap s2 !! q = Some m /\ m_table m = Some t /\ tiny t /\
    forall K, held_acct K (hmaps c i) c s (hmaps (put_map c i q) (S i)) (put_map c i q) s2).
Proof.
  intros [He _] Hh Hk Hfl Hnk Hi Hc Hu. pose proof Hh as [Hm Hn].
  destruct (create_hold (ie_create e i) fd attr 0 0 mflags (hmaps c i ⊎ (ctx_maps c ⊎ others)) k s) as
    [(err & s' & Herr & E & Hok & Hx & Hac)|
     (q & s1 & s2 & m & t & E & E2 & Hok & Hx & Hq & Ht & Hti & Hv & Hac)]; try done; [by apply He| |].
  - left. exists err, s'. split_and!; try done; [by eapply held_extends|]. intros K. by eapply acct_weaken; [|exact Hac].
  - right. exists q, s1, s2, m, t. pose proof (sh_maps _ Hc).
    assert (ctx_maps (put_map c i q) = ctx_maps c) as Ec
      by (unfold ctx_maps; simpl; by rewrite take_insert_ge by lia).
    split_and!; try done.
    2:{ intros K. unfold held_acct. rewrite Ec, hmaps_put, <- (assoc_L (⊎) {[+ q +]}) by lia. by eapply acct_weaken; [|exact Hac]. }
    eapply held_eq; [exact Ec|]. rewrite hmaps_put by lia. eapply held_extends; [exact Hh|exact Hx|].
    eapply maps_ok_weaken; [|reflexivity|exact Hok]. multiset_solver.
Qed.

Lemma map_handles_ok e b k n c s i hl L HL :
  env_ok e -> held (hmaps c i) (k + Z.of_nat n) c s -> 0 <= k -> k + Z.of_nat n < 2 ^ 30 -> ctx_shape c ->
  (i + n = nargs (c_sc c))%nat -> (nbufs (c_sc c) <= i)%nat -> c_desc c = None -> unmapped c i ->
  laid (2 ^ 31) s b c (nbufs (c_sc c)) L -> hlaid s c (nbufs (c_sc c)) i HL -> hl = sumZ HL ->
  exists err hl' c' s', map_handles e p (nbufs (c_sc c)) n i hl (W c s b) = Ok (err, hl') (W c' s' b) /\
    held ∅ k c' s' /\ args_eq c c' /\ c_desc c' = None /\
    (err = 0 -> held (hmaps c' (nargs (c_sc c))) k c' s' /\ laid (2 ^ 31) s' b c' (nbufs (c_sc c)) L /\
      exists HL', hlaid s' c' (nbufs (c_sc c)) (nargs (c_sc c)) HL' /\ hl' = sumZ HL') /\
    forall K, held_acct K (hmaps c i) c s (if err =? 0 then hmaps c' (nargs (c_sc c)) else ∅) c' s'.
Proof.
  intros He. revert c s i hl HL. induction n as [|n IH]; intros c s i hl HL Hh Hk0 Hk Hc Hin Hb Hd Hu Hl Hhl Ehl.
  { exists 0, hl, c, s. rewrite Nat.add_0_r in Hin. rewrite <- Hin. split; [done|].
    split; [eapply held_drop, held_weaken; [|done]; lia|]. split_and!; try done. intros _.
    split; [eapply held_weaken; [|done]; lia|]. eauto. }
  pose proof (nargs_bound (c_sc c)) as Hnb. pose proof (sh_maps _ Hc) as Hlm.
  cbn [map_handles]. rewrite (bind_eq _ _ _ _ _ (load_args c s b)).
  destruct (lookup_lt_is_Some_2 (c_attrs c) i) as [attr Hat]; [pose proof (sh_attrs _ Hc); lia|].
  rewrite (bind_eq _ _ _ _ _ (at_index_eq _ _ _ _ Hat)). cbv zeta.
  assert (c_maps c !! i = Some None) as Hi0 by (apply Hu; lia).
  destruct (arg_fd_eq c s b i Hc) as [[fd|] Efd]; [lia| |]; rewrite (bind_eq _ _ _ _ _ Efd).
  2: { assert (hmaps c (S i) = hmaps c i) as Ehm by by apply maps_of_skip.
    destruct (IH c s (S i) hl (HL ++ [0])) as (err & h' & c' & s' & Hrun); rewrite ?Ehm; try done; try lia.
    - eapply held_weaken; [|done]. lia.
    - intros j Hj. apply Hu. lia.
    - eapply hlaid_snoc; try done. unfold hlen. by rewrite Hi0.
    - rewrite sumZ_app. simpl. lia.
    - rewrite Ehm in Hrun. by exists err, h', c', s'. }
  rewrite (bind_eq _ _ _ _ _ (upd_args _ _ _ _)).
  set (c1 := c <| c_attrs := _ |>).
  assert (args_eq c c1) as Ha1 by (split; simpl; try done; by rewrite length_insert).
  assert (ctx_shape c1) as Hc1 by by eapply shape_eq.
  destruct (handle_create_ok e c1 s (k + Z.of_nat n) i fd (Z.ldiff attr FASTRPC_ATTR_KEEP_MAP)
    (if has_bit attr FASTRPC_ATTR_NOMAP then FASTRPC_DMAHANDLE_NOMAP else 0)) as
    [(err & s' & Herr & E & Hh1 & Hac)|(q & s1 & s2 & m & t & E & E2 & Hh1 & Hx & Hq & Ht & Hti & Hac)];
    try done; try (simpl; lia).
  { eapply held_weaken; [|exact Hh]. lia. }
  { by destruct (has_bit _ _). }
  { apply has_bit_ldiff. }
  - rewrite (bind_eq _ _ _ _ _ (on_mm_args _ c1 s b _ _ E)). simpl. erewrite bind_eq by done. zdec. simpl.
    rewrite (bind_eq _ _ _ _ _ (load_args c1 s' b)).
    destruct (drop_ctx_maps_ok (drop (nbufs (c_sc c)) (take i (c_maps c1))) (ctx_maps c1 ⊎ others)
      (k + Z.of_nat n + 1) s') as (s2 & E2 & Hok & Hsh & Hdr); [apply Hh1|lia|].
    rewrite (bind_eq _ _ _ _ _ (on_mm_args _ c1 s' b _ _ E2)).
    exists err, hl, c1, s2. split; [done|]. split; [|split_and!; try done].
    + split; [|eapply nonzero_shrunk; [apply Hh1|done]].
      eapply maps_ok_weaken; [..|exact Hok]; [multiset_solver|lia].
    + intros K. zdec. eapply acct_trans; [apply Hac|]. rewrite (left_id_L ∅ (⊎)).
      apply acct_dropped; [apply Hh1|exact Hdr].
  - rewrite (bind_eq _ _ _ _ _ (on_mm_args _ c1 s b _ _ E)). simpl. unfold set_ctx_map.
    erewrite bind_eq; [|erewrite bind_eq by apply upd_args; apply (on_mm_args _ _ _ _ _ _ E2)].
    fold (put_map c1 i q). simpl. erewrite bind_eq by by apply (mapping_len_eq q m t).
    assert (args_eq c (put_map c1 i q)) as Ha2 by (etrans; [done|apply args_eq_put]).
    assert (sized (m_table m) (SIZE_OF_MAPPING (nents t))) as Hsz by by exists t.
    pose proof (sized_range _ _ Hsz) as Hr.
    assert (Forall (fun x => 0 <= x <= 2 ^ 22 + 2 ^ 5) (HL ++ [SIZE_OF_MAPPING (nents t)])) as Hf.
    { apply Forall_app. split; [apply Hhl|]. constructor; [lia|done]. }
    assert (0 <= sumZ (HL ++ [SIZE_OF_MAPPING (nents t)]) <= 540 * (2 ^ 22 + 2 ^ 5)) as Hs.
    { apply sum_small; [lia| |done]. rewrite length_app. simpl. pose proof (hl_len _ _ _ _ _ Hhl). lia. }
    destruct (IH (put_map c1 i q) s2 (S i) (u64 (hl + SIZE_OF_MAPPING (nents t)))
      (HL ++ [SIZE_OF_MAPPING (nents t)])) as (err & h' & c' & s' & Erun & Hh' & Ha' & Hd' & Hres & Hac');
      try done; try (simpl; lia).
    + by eapply shape_eq.
    + intros j Hj. simpl in Hj. simpl. rewrite list_lookup_insert_ne by lia. apply Hu. lia.
    + eapply laid_handle; try done. intros j Hj. simpl in *. by rewrite list_lookup_insert_ne by lia.
    + eapply hlaid_snoc; try done; [|unfold hlen; simpl].
      * intros j Hj. simpl. by rewrite list_lookup_insert_ne.
      * rewrite list_lookup_insert_eq by lia. by exists m.
    + rewrite sumZ_app in *. simpl in *. rewrite u64_id by lia. lia.
    + exists err, h', c', s'. split; [done|]. split_and!; try done; [by etrans|].
      intros K. eapply acct_trans; [apply Hac|apply Hac'].
Qed.
End loops.
End args.
