(* ===== verification/DescFacts.v ===== *)
(** * Internal buffers for a message that does not fit

    The second pass of [get_args]: arguments of a page or more move into
    internal buffers, so that the message keeps only their scatter lists. *)
From S2P Require Import Prelude Shared Mmap MmapFacts Pages Buf BufFacts Apps AppsFacts World WorldFacts Transact MapOps MapFacts Invoke CtxFacts CtxInv ArgFacts.

Section descs.
Context `{HS : adsprpc_shared, !adsprpc_shared_ok HS}.
Context `{KC : kernel_config, !kernel_config_ok KC}.
Context `{V : virtqueue, !virtqueue_ok V}.
Implicit Types (w : world) (c : vfastrpc_invoke_ctx) (s : mmaps) (b : bufs).

(** ** Sizes *)

Lemma page_align_eq x : 0 <= x < 2 ^ 32 -> PAGE_ALIGN x = (x + PAGE_SIZE - 1) / PAGE_SIZE * PAGE_SIZE.
Proof.
  intros Hx. pose proof PAGE_SIZE_range as HP. pose proof PAGE_SHIFT_range.
  unfold PAGE_ALIGN. rewrite u64_id by lia.
  assert (PAGE_SIZE - 1 = Z.ones PAGE_SHIFT) as E
    by (unfold PAGE_SIZE; rewrite Z.ones_equiv; lia).
  rewrite E, Z.ldiff_ones_r, Z.shiftl_mul_pow2, Z.shiftr_div_pow2 by lia. done.
Qed.

Lemma PAGE_SIZE_small : 1 < PAGE_SIZE <= 2 ^ 16.
Proof.
  pose proof PAGE_SIZE_range. pose proof PAGE_SHIFT_range. split; [lia|].
  unfold PAGE_SIZE. apply Z.pow_le_mono_r; lia.
Qed.

Lemma page_align_range x : 0 <= x < 2 ^ 31 -> x <= PAGE_ALIGN x < 2 ^ 32.
Proof.
  intros Hx. pose proof PAGE_SIZE_small. rewrite page_align_eq by lia.
  pose proof (Z.div_mod (x + PAGE_SIZE - 1) PAGE_SIZE) as Hd.
  pose proof (Z.mod_pos_bound (x + PAGE_SIZE - 1) PAGE_SIZE). nia.
Qed.

Lemma mapped_ge (x : vfastrpc_buf) : 0 <= b_size x < 2 ^ 32 -> b_size x <= mapped_bytes x.
Proof.
  intros Hx. pose proof PAGE_SIZE_small. unfold mapped_bytes. rewrite page_count_eq by lia.
  pose proof (Z.div_mod (b_size x + PAGE_SIZE - 1) PAGE_SIZE) as Hd.
  pose proof (Z.mod_pos_bound (b_size x + PAGE_SIZE - 1) PAGE_SIZE).
  rewrite u32_id; [nia|]. split; [apply Z.div_pos; lia|]. apply Z.div_lt_upper_bound; nia.
Qed.

(** ** One internal buffer *)

(** The buffer [q] goes to a context. *)
Lemma hand_out D q x y b b' :
  bufs_ok D b -> bf_inv b' -> q ∉ D -> q ∉ bf_cached b' ->
  (forall z, z ∈ bf_cached b' -> z ∈ bf_cached b) ->
  bf_heap b' = <[q := x]> (bf_heap b) -> b_remote x = 0 -> local_buf x ->
  y = x <| b_map_attr := VFASTRPC_MAP_ATTR_CACHED |> ->
  bufs_ok ({[+ q +]} ⊎ D) (b' <| bf_heap := <[q := y]> (bf_heap b') |>).
Proof.
  intros [Hi Hl Ho] Hi' Hq Hc Hsub Eh Hr Hlx ->. split.
  - apply (inv_bset q x); try done. by rewrite Eh, lookup_insert_eq.
  - intros z bz. simpl. rewrite Eh, insert_insert_eq, lookup_insert. case_decide; [by intros [= <-]|apply Hl].
  - intros z Hz. rewrite multiplicity_disj_union. simpl. destruct (decide (z = q)) as [->|Hne].
    + rewrite multiplicity_singleton_eq. split_and!; [|done|].
      * destruct (multiplicity q D) eqn:E; [done|]. destruct Hq. apply elem_of_multiplicity. lia.
      * eexists. by rewrite lookup_insert_eq.
    + rewrite multiplicity_singleton_ne by done. destruct (Ho z) as (Hm & Hcz & bz & Hbz & Hrz); [multiset_solver|].
      split_and!; [done|naive_solver|]. exists bz. rewrite Eh, insert_insert_eq, lookup_insert_ne; done.
Qed.

Lemma alloc_local e size D b :
  bufs_ok D b -> (forall t, ae_sgt e = Some t -> tiny t) -> 0 <= size < 2 ^ 32 ->
  (exists err b', err <> 0 /\ vfastrpc_buf_alloc e size 0 0 0 b = Ok (err, None) b' /\ bufs_ok D b' /\
    bf_heap b' = bf_heap b /\ (placed D b -> placed D b')) \/
  (exists q x b', vfastrpc_buf_alloc e size 0 0 0 b = Ok (0, Some q) b' /\ bf_heap b' !! q = Some x /\
    local_buf x /\ size <= mapped_bytes x /\ (q ∉ D) /\
    let y := x <| b_map_attr := VFASTRPC_MAP_ATTR_CACHED |> in
    bufs_ok ({[+ q +]} ⊎ D) (b' <| bf_heap := <[q := y]> (bf_heap b') |>) /\
    (forall z, z <> q -> bf_heap b' !! z = bf_heap b !! z) /\
    (placed D b -> placed ({[+ q +]} ⊎ D) (b' <| bf_heap := <[q := y]> (bf_heap b') |>))).
Proof.
  intros Hok Ht Hsz. pose proof Hok as [Hi Hl Ho].
  destruct (buf_alloc_cases e size 0 0 0 b Hi) as
    [(err & n & Hne & E)|[(q & x & _ & Hq & Hx & Hle & _ & E)|
     (q & x & n & _ & Hq & Hbo & Hs & Hfl & Hr & _ & ([t Et] & Es & _ & Hva) & E)]].
  - left. exists err, (with_calls n b). split_and!; try done. split; [by apply inv_with_calls|done..].
  - right. destruct (bi_cached b Hi q Hq) as (x' & Hx' & Hr). simplify_eq.
    assert (q ∉ D) as HqD by (intros HD; by destruct (Ho q HD) as (_ & ? & _)).
    pose proof (Hl q x Hx Hr) as Hlx. eexists q, x, _. split; [exact E|]. cbv zeta. split_and!; try done.
    + pose proof (mapped_ge x). destruct Hlx as (_ & ? & _). lia.
    + apply (hand_out D q x (x <| b_map_attr := VFASTRPC_MAP_ATTR_CACHED |>) b (b <| bf_cached := hlist_del q (bf_cached b) |>
        <| bf_num_cached := bf_num_cached b - 1 |>)); try done.
      * by apply inv_uncache.
      * simpl. rewrite elem_of_hlist_del. naive_solver.
      * intros z. simpl. rewrite elem_of_hlist_del. naive_solver.
      * simpl. by rewrite insert_id.
    + intros Hp z Hz. destruct (decide (z = q)) as [->|Hne]; [right; multiset_solver|]. simpl in Hz |- *.
      rewrite lookup_insert_ne in Hz by done. destruct (Hp z Hz) as [Hll|Hll]; [left|right; multiset_solver].
      apply elem_of_app. apply elem_of_app in Hll as [Hll|Hll]; [left; by apply elem_of_hlist_del|by right].
  - right. assert (q ∉ D) as HqD by (intros HD; destruct (Ho q HD) as (_ & _ & ? & ? & _); congruence).
    assert (local_buf x) as Hlx.
    { split_and!; [by apply Hva|lia..|]. exists t. split; [done|]. apply Ht. congruence. }
    eexists q, x, _. split; [exact E|]. cbv zeta. split; [apply lookup_insert_eq|]. split_and!; try done.
    + rewrite <- Hs. apply mapped_ge. lia.
    + apply (hand_out D q x (x <| b_map_attr := VFASTRPC_MAP_ATTR_CACHED |>) b (buf_new q x n b)); try done; [by apply inv_buf_new|].
      intros (xq & Hxq & _)%(bi_cached b Hi). congruence.
    + intros z Hz. simpl. by rewrite lookup_insert_ne.
    + intros Hp z Hz. destruct (decide (z = q)) as [->|Hne]; [right; multiset_solver|]. simpl in Hz |- *.
      rewrite !lookup_insert_ne in Hz by done. destruct (Hp z Hz) as [Hll|Hll]; [left|right; multiset_solver].
      rewrite Hr. exact Hll.
Qed.

(** ** The loop *)

Section loop.
Variable (w0 : world) (p : ptr).
#[local] Abbreviation W := (with_args w0 p).

Definition dothers : gmultiset ptr := hsum ctx_bufs (delete p (cx_heap (w_cx w0))).
Definition bheld c b : Prop := bufs_ok (ctx_bufs c ⊎ dothers) b /\ keeps dothers (w_bf w0) b.

Definition normal : vfastrpc_buf_desc := {| d_type := VFASTRPC_BUF_TYPE_NORMAL; d_buf := None |}.
Definition put_desc c (i : nat) (d : vfastrpc_buf_desc) : vfastrpc_invoke_ctx :=
  c <| c_desc := (fun ds => <[i := d]> ds) <$> c_desc c |>.

Lemma args_eq_desc c i d : args_eq c (put_desc c i d).
Proof. by split. Qed.

(** From [i] on the descriptors are as [kcalloc] left them. *)
Definition fresh_descs c (i : nat) : Prop :=
  exists ds, c_desc c = Some ds /\ length ds = nbufs (c_sc c) /\
    forall j, (i <= j < nbufs (c_sc c))%nat -> ds !! j = Some normal.

Lemma fresh_put c i d : fresh_descs c i -> fresh_descs (put_desc c i d) (S i).
Proof.
  intros (ds & Ed & El & Hj). exists (<[i := d]> ds). unfold put_desc. rewrite Ed. simpl.
  rewrite length_insert. split_and!; [done..|]. intros j Hij. rewrite list_lookup_insert_ne by lia. apply Hj. lia.
Qed.

Lemma ctx_bufs_put c i d :
  fresh_descs c i -> (i < nbufs (c_sc c))%nat ->
  ctx_bufs (put_desc c i d) = (match d_buf d with Some q => {[+ q +]} | None => ∅ end) ⊎ ctx_bufs c.
Proof.
  intros (ds & Ed & El & Hj) Hi. unfold ctx_bufs, put_desc, bufs_of. rewrite Ed. simpl.
  pose proof (omap_set d_buf ds i normal d (Hj i ltac:(lia))) as E. simpl in E.
  destruct (d_buf d); multiset_solver.
Qed.

Lemma internal_put c i d :
  fresh_descs c i -> (i < nbufs (c_sc c))%nat ->
  internal_of (put_desc c i d) i =
    match d_type d with VFASTRPC_BUF_TYPE_INTERNAL => Some (d_buf d) | _ => None end.
Proof.
  intros (ds & Ed & El & Hj) Hi. unfold internal_of, put_desc. rewrite Ed. simpl.
  by rewrite list_lookup_insert_eq by lia.
Qed.

Lemma internal_put_ne c i j d : j <> i -> internal_of (put_desc c i d) j = internal_of c j.
Proof.
  intros Hne. unfold internal_of, put_desc. simpl. destruct (c_desc c) as [ds|]; simpl; [|done].
  by rewrite list_lookup_insert_ne.
Qed.

Lemma descs_put b b' c i d :
  descs_ok b c -> (forall z, z ∈ ctx_bufs c -> bf_heap b' !! z = bf_heap b !! z) ->
  (d_type d = VFASTRPC_BUF_TYPE_INTERNAL -> exists bp x ra, d_buf d = Some bp /\ bf_heap b' !! bp = Some x /\
    c_lpra c !! i = Some ra /\ ra_len ra <= mapped_bytes x) ->
  descs_ok b' (put_desc c i d).
Proof.
  intros Hd Hk Hi ds j dj. unfold put_desc. simpl. destruct (c_desc c) as [ds0|] eqn:Ed; simpl; [|done].
  intros [= <-] [(<- & <- & Hlt)|[Hne Hj]]%list_lookup_insert_Some Hty; [by apply Hi|].
  destruct (Hd ds0 j dj Ed Hj Hty) as (bp & x & ra & Eb & Hx & Hra & Hle).
  exists bp, x, ra. split_and!; try done. rewrite Hk; [done|].
  unfold ctx_bufs, bufs_of. rewrite Ed. apply elem_of_list_to_set_disj, list_elem_of_omap.
  exists dj. split; [by eapply list_elem_of_lookup_2|done].
Qed.

(** The maps of the buffers have small tables. *)
Definition maps_sized s c : Prop :=
  forall i q, (i < nbufs (c_sc c))%nat -> c_maps c !! i = Some (Some q) ->
    exists m l, mm_heap s !! q = Some m /\ sized (m_table m) l.

Lemma set_desc_eq c s b i d : set_desc p i d (W c s b) = Ok () (W (put_desc c i d) s b).
Proof. unfold set_desc. by rewrite upd_args. Qed.

Lemma make_desc_ok e c s b i ra :
  env_ok e -> bheld c b -> ctx_shape c -> fresh_descs c i -> (i < nbufs (c_sc c))%nat ->
  c_lpra c !! i = Some ra -> arg_ok ra -> maps_sized s c -> descs_ok b c ->
  exists err len d b', make_desc e p i ra (W c s b) = Ok (err, len) (W (put_desc c i d) s b') /\
    bheld (put_desc c i d) b' /\ (forall z, z ∈ ctx_bufs c -> bf_heap b' !! z = bf_heap b !! z) /\
    (placed (ctx_bufs c ⊎ dothers) b -> placed (ctx_bufs (put_desc c i d) ⊎ dothers) b') /\
    (err = 0 -> plen s b' (put_desc c i d) i len /\ 0 <= len <= 2 ^ 22 + 2 ^ 5 /\ descs_ok b' (put_desc c i d)).
Proof.
  intros [_ He] [Hb Hk] Hc Hf Hi Hra (Hpv & Hlen & _) Hms Hd. pose proof (nbufs_le (c_sc c)).
  unfold make_desc. rewrite (bind_eq _ _ _ _ _ (load_args w0 p c s b)).
  destruct (lookup_lt_is_Some_2 (c_maps c) i) as [om Hom]; [pose proof (sh_maps _ Hc); lia|].
  rewrite (bind_eq _ _ _ _ _ (at_index_eq _ _ _ _ Hom)).
  assert (forall d, d_buf d = None -> ctx_bufs (put_desc c i d) = ctx_bufs c) as Ebp.
  { intros d Ed. rewrite ctx_bufs_put by done. rewrite Ed. multiset_solver. }
  assert (forall d, d_buf d = None -> bheld (put_desc c i d) b) as Hsame.
  { intros d Ed. split; [|done]. by rewrite Ebp. }
  destruct om as [q|].
  { destruct (Hms i q Hi Hom) as (m & l & Hm & (t & Ht & Hti & ->)).
    erewrite bind_eq by by apply (mapping_len_eq w0 p q m t).
    rewrite (bind_eq _ _ _ _ _ (set_desc_eq _ _ _ _ _)).
    eexists 0, _, _, b. split; [done|]. split; [by apply Hsame|]. split; [done|]. split; [by rewrite Ebp|]. intros _.
    assert (sized (m_table m) (SIZE_OF_MAPPING (nents t))) as Hsz by by exists t.
    split; [|split; [pose proof (sized_range _ _ Hsz); lia|by eapply descs_put]].
    exists ra. split; [done|]. simpl. rewrite Hom. by exists m. }
  destruct (Z.ltb_spec (ra_len ra) PAGE_SIZE) as [Hlt|Hge].
  { rewrite (bind_eq _ _ _ _ _ (set_desc_eq _ _ _ _ _)).
    eexists 0, _, _, b. split; [done|]. split; [by apply Hsame|]. split; [done|]. split; [by rewrite Ebp|]. intros _.
    pose proof PAGE_SIZE_small. split; [|split; [lia|by eapply descs_put]].
    exists ra. split; [done|]. rewrite internal_put by done. simpl. by rewrite Hom. }
  pose proof (page_align_range (ra_len ra) Hlen).
  destruct (alloc_local (ie_alloc e i) (PAGE_ALIGN (ra_len ra)) (ctx_bufs c ⊎ dothers) b) as
    [(err & b' & Hne & E & Hb' & Eh & Hpl)|(q & x & b' & E & Hq & Hlx & Hle & HqD & Hb' & Hz & Hpl)]; try done; try lia.
  { by apply He. }
  - rewrite (bind_eq _ _ _ _ _ (on_bf_args w0 p _ c s b _ _ E)). simpl.
    rewrite (bind_eq _ _ _ _ _ (set_desc_eq _ _ _ _ _)). zdec.
    eexists err, 0, _, b'. split; [done|].
    split; [|split; [by intros; rewrite Eh|split; [by rewrite Ebp|done]]].
    split; [|intros z Hzz; rewrite Eh; by apply Hk]. by rewrite Ebp.
  - rewrite (bind_eq _ _ _ _ _ (on_bf_args w0 p _ c s b _ _ E)). cbn [fst snd].
    rewrite (bind_eq _ _ _ _ _ (set_desc_eq _ _ _ _ _)). cbn [negb Z.eqb].
    erewrite bind_eq by (apply on_bf_args; unfold bload; by rewrite Hq).
    erewrite bind_eq by (apply on_bf_args; unfold bstore; by rewrite Hq).
    destruct Hlx as (Hva & Hsz & t & Ht & Hti). rewrite Ht.
    set (b2 := b' <| bf_heap := _ |>) in *. set (d := {| d_type := _; d_buf := Some q |}).
    assert (forall z, z <> q -> bf_heap b2 !! z = bf_heap b !! z) as Hz2
      by (intros z Hzq; simpl; rewrite lookup_insert_ne by done; by apply Hz).
    assert (ctx_bufs (put_desc c i d) = {[+ q +]} ⊎ ctx_bufs c) as Ebq by by rewrite ctx_bufs_put.
    eexists 0, _, d, b2. split; [done|]. split; [|split; [|split]].
    3:{ rewrite Ebq, <- (assoc_L (⊎)). exact Hpl. }
    + split; [|intros z Hzz; rewrite Hz2; [by apply Hk|set_solver]]. rewrite ctx_bufs_put by done. simpl.
      eapply bufs_ok_weaken; [|exact Hb']. multiset_solver.
    + intros z Hzz. apply Hz2. set_solver.
    + intros _.
      set (y := x <| b_map_attr := VFASTRPC_MAP_ATTR_CACHED |>).
      assert (bf_heap b2 !! q = Some y) as Hy by apply lookup_insert_eq.
      assert (ra_len ra <= mapped_bytes y) as Hmb by (change (mapped_bytes y) with (mapped_bytes x); lia).
      assert (sized (b_sgt y) (SIZE_OF_MAPPING (nents t))) as Hsy by by exists t.
      split; [|split; [pose proof (sized_range _ _ Hsy); lia|]].
      * exists ra. split; [done|]. rewrite internal_put by done. simpl. rewrite Hom. by exists y.
      * eapply descs_put; [done| |].
        -- intros z Hzz. apply Hz2. set_solver.
        -- intros _. exists q, y, ra. by split_and!.
Qed.

Lemma plen_bufs s b b' c c' i l :
  plen s b c i l -> c_lpra c' = c_lpra c -> c_maps c' !! i = c_maps c !! i ->
  internal_of c' i = internal_of c i ->
  (forall z, internal_of c i = Some (Some z) -> bf_heap b' !! z = bf_heap b !! z) -> plen s b' c' i l.
Proof.
  intros (ra & Hra & Hl) El Em Ei Hz. exists ra. rewrite El, Em, Ei. split; [done|].
  destruct (c_maps c !! i) as [[q|]|]; [done| |done].
  destruct (internal_of c i) as [[z|]|] eqn:E; [|done..]. by rewrite Hz.
Qed.

Lemma internal_held c i z : internal_of c i = Some (Some z) -> z ∈ ctx_bufs c.
Proof.
  unfold internal_of, ctx_bufs, bufs_of. destruct (c_desc c) as [ds|]; simpl; [|done].
  destruct (ds !! i) as [d|] eqn:Hd; simpl; [|done]. destruct (d_type d); try done. intros [= E].
  apply elem_of_list_to_set_disj, list_elem_of_omap. exists d. split; [by eapply list_elem_of_lookup_2|done].
Qed.

Lemma laid_desc s b b' c i d L l :
  laid (2 ^ 22 + 2 ^ 5) s b c i L -> (forall z, z ∈ ctx_bufs c -> bf_heap b' !! z = bf_heap b !! z) ->
  plen s b' (put_desc c i d) i l -> 0 <= l <= 2 ^ 22 + 2 ^ 5 ->
  laid (2 ^ 22 + 2 ^ 5) s b' (put_desc c i d) (S i) (L ++ [l]).
Proof.
  intros [Hl Hb Hp] Hz Hn Hlb. split.
  - rewrite length_app, Hl. simpl. lia.
  - apply Forall_app. split; [done|]. by constructor.
  - intros j x [Hj|[Hge Hj]]%lookup_app_Some.
    + pose proof (lookup_lt_Some _ _ _ Hj). eapply plen_bufs; [by apply Hp|done..| |].
      * apply internal_put_ne. lia.
      * intros z Hi. by eapply Hz, internal_held.
    + apply list_lookup_singleton_Some in Hj as [Hj <-]. by replace j with i by lia.
Qed.

Lemma make_descs_ok e inb s n c b i copylen L :
  env_ok e -> bheld c b -> ctx_shape c -> fresh_descs c i -> (i + n = nbufs (c_sc c))%nat ->
  bufs_args c -> maps_sized s c -> descs_ok b c ->
  laid (2 ^ 22 + 2 ^ 5) s b c i L -> copylen = sumZ L ->
  exists err copylen' c' b', make_descs e p inb n i copylen (W c s b) = Ok (err, copylen') (W c' s b') /\
    bheld c' b' /\ args_eq c c' /\ c_maps c' = c_maps c /\ ctx_shape c' /\
    (err = 0 -> descs_ok b' c' /\ exists L', laid (2 ^ 22 + 2 ^ 5) s b' c' (nbufs (c_sc c)) L' /\ copylen' = sumZ L') /\
    (placed (ctx_bufs c ⊎ dothers) b -> placed (ctx_bufs c' ⊎ dothers) b').
Proof.
  intros He. revert c b i copylen L. induction n as [|n IH]; intros c b i copylen L Hb Hc Hf Hin Ha Hms Hd Hl Hcl.
  { exists 0, copylen, c, b. rewrite Nat.add_0_r in Hin. subst i. split_and!; try done. by eauto. }
  pose proof (nbufs_le (c_sc c)) as Hle. pose proof (nargs_bound (c_sc c)) as Hnb.
  simpl. rewrite (bind_eq _ _ _ _ _ (load_args w0 p c s b)).
  destruct (lookup_lt_is_Some_2 (c_lpra c) i) as [ra Hra]; [pose proof (sh_lpra _ Hc); lia|].
  rewrite (bind_eq _ _ _ _ _ (at_index_eq _ _ _ _ Hra)).
  destruct (make_desc_ok e c s b i ra) as (err & len & d & b1 & E1 & Hb1 & Hz1 & Hpl1 & Hres); try done; try lia.
  { apply (Ha i); [lia|done]. }
  assert (ctx_shape (put_desc c i d)) as Hc1.
  { destruct Hc as [H1 H2 H3 H4 H5]. split; try done. simpl. intros ds. destruct (c_desc c) as [ds0|]; [|done].
    intros [= <-]. rewrite length_insert. by apply H5. }
  rewrite (bind_eq _ _ _ _ _ E1). simpl. destruct (Z.eqb_spec err 0) as [->|Hne]; simpl.
  2: { exists err, copylen, (put_desc c i d), b1. by split_and!. }
  destruct (Hres eq_refl) as (Hp & Hlen & Hd1). destruct (add_out_eq w0 p i inb len (put_desc c i d) s b1) as [o Eo].
  rewrite (bind_eq _ _ _ _ _ Eo).
  assert (laid (2 ^ 22 + 2 ^ 5) s b1 (put_desc c i d) (S i) (L ++ [len])) as Hl1 by by eapply laid_desc.
  assert (0 <= sumZ (L ++ [len]) <= 540 * (2 ^ 22 + 2 ^ 5)) as Hs.
  { apply sum_small; [lia|rewrite (la_len _ _ _ _ _ _ Hl1); lia|apply Hl1]. }
  destruct (IH (set_out (put_desc c i d) o) b1 (S i) (u64 (copylen + len)) (L ++ [len]))
    as (err & cl & c' & b' & Erun & Hb' & Ha' & Em' & Hc' & Hres' & Hpl'); try done; try (simpl; lia).
  - by destruct Hc1.
  - exact (fresh_put c i d Hf).
  - destruct Hl1 as [? ? Hp1]. split; [done..|]. intros j l Hj. destruct (Hp1 j l Hj) as (r & ? & ?). by exists r.
  - rewrite sumZ_app in *. simpl in *. rewrite u64_id by lia. lia.
  - exists err, cl, c', b'. split_and!; try done; [etrans; [|done]; by split|]. intros Hpp. by apply Hpl', Hpl1.
Qed.
End loop.
End descs.
