(* ===== verification/MsgFacts.v ===== *)
(** * Writing the message of an invocation

    Everything [get_args] writes lies inside the tx buffer, and writing it
    changes nothing else. *)
From S2P Require Import Prelude Shared Mmap MmapFacts Pages Buf BufFacts Apps AppsFacts World WorldFacts Transact MapOps MapFacts Invoke CtxFacts CtxInv ArgFacts DescFacts.

Section fill.
Context `{HS : adsprpc_shared, !adsprpc_shared_ok HS}.
Context `{KC : kernel_config, !kernel_config_ok KC}.
Context `{V : virtqueue, !virtqueue_ok V}.
Implicit Types (w : world) (c : vfastrpc_invoke_ctx).

Lemma tx_write_eq off n w : off + n <= buf_size (w_apps w) -> tx_write off n w = Ok () w.
Proof. intros Hle. unfold tx_write, mbind, M_bind, gets. by zdec. Qed.

Lemma write_mapping_eq off vm sgs l w :
  l = u64 (sizeof_mapping + Z.of_nat (length sgs) * sizeof_sgl) -> Z.of_nat (length sgs) < 2 ^ 18 ->
  off + l <= buf_size (w_apps w) -> write_mapping off vm sgs w = Ok (PMapping vm sgs) w.
Proof.
  intros -> Ht Hle. unfold write_mapping. rewrite u64_id in Hle by (unfold sizeof_mapping, sizeof_sgl; lia).
  by rewrite (bind_eq _ _ _ _ _ (tx_write_eq _ _ _ Hle)).
Qed.

Lemma load_ctx p c w : cx_heap (w_cx w) !! p = Some c -> on_cx (ctx_load p) w = Ok c w.
Proof. intros Hp. unfold on_cx, zoom, ctx_load. rewrite Hp. by destruct w. Qed.

Lemma load_map q m w : mm_heap (w_mm w) !! q = Some m -> on_mm (load q) w = Ok m w.
Proof. intros Hp. unfold on_mm, zoom, load. rewrite Hp. by destruct w. Qed.

Lemma on_apps_eq {A} (f : M apps A) w a a' :
  f (w_apps w) = Ok a a' -> on_apps f w = Ok a (w <| w_apps := a' |>).
Proof. unfold on_apps, zoom. by intros ->. Qed.

Lemma load_msg mp m w : msgs (w_apps w) !! mp = Some m -> on_apps (msg_load mp) w = Ok m w.
Proof. intros Hp. unfold on_apps, zoom, msg_load. rewrite Hp. by destruct w. Qed.

Lemma store_msg mp m m' w :
  msgs (w_apps w) !! mp = Some m ->
  on_apps (msg_store mp m') w = Ok () (w <| w_apps := (w_apps w) <| msgs := <[mp := m']> (msgs (w_apps w)) |> |>).
Proof. intros Hp. unfold on_apps, zoom, msg_store. by rewrite Hp. Qed.

Lemma load_buf q x w : bf_heap (w_bf w) !! q = Some x -> on_bf (bload q) w = Ok x w.
Proof. intros Hp. unfold on_bf, zoom, bload. rewrite Hp. by destruct w. Qed.

(** What filling in an argument of [l] bytes at [off] gives. *)
Definition fills (off l : Z) (r : Z + virt_fastrpc_buf * payload_part * Z) : Prop :=
  match r with
  | inl err => err <> 0
  | inr (_, _, off') => off' = off + l
  end.

Lemma fill_ion_ok e c i off q ra m l w :
  ctx_shape c -> (i < nargs (c_sc c))%nat -> mm_heap (w_mm w) !! q = Some m -> sized (m_table m) l ->
  off + l <= buf_size (w_apps w) -> exists r, fill_ion e c i off q ra w = Ok r w /\ fills off l r.
Proof.
  intros Hc Hi Hm (t & Ht & Hti & ->) Hle. unfold fill_ion. rewrite (bind_eq _ _ _ _ _ (load_map _ _ _ Hm)).
  destruct (lookup_lt_is_Some_2 (c_attrs c) i) as [attr Hat]; [pose proof (sh_attrs _ Hc); lia|].
  rewrite (bind_eq _ _ _ _ _ (at_index_eq _ _ _ _ Hat)). rewrite Ht.
  destruct (ie_vma e i) as [vm|]; [|eexists; split; [done|apply VERIFY_err_nonzero]]. cbv zeta.
  destruct (negb _); [by eexists|]. erewrite bind_eq; [by eexists|].
  eapply write_mapping_eq; [|by rewrite length_fmap|exact Hle]. by rewrite length_fmap.
Qed.

Lemma fill_internal_ok e c inb i off bp ra x l w :
  bf_heap (w_bf w) !! bp = Some x -> sized (b_sgt x) l -> is_Some (b_va x) -> ra_len ra <= mapped_bytes x ->
  off + l <= buf_size (w_apps w) -> exists r, fill_internal e c inb i off bp ra w = Ok r w /\ fills off l r.
Proof.
  intros Hx (t & Ht & Hti & ->) [v Hv] Hmb Hle. unfold fill_internal.
  rewrite (bind_eq _ _ _ _ _ (load_buf _ _ _ Hx)). rewrite Ht. cbv zeta.
  erewrite bind_eq by (eapply write_mapping_eq; [|by rewrite length_fmap|exact Hle]; by rewrite length_fmap).
  destruct (_ && _); [|by eexists]. rewrite Hv. zdec.
  destruct (ie_copy_in e i); eexists; (split; [done|]); [done|apply VERIFY_err_nonzero].
Qed.

Lemma fill_copy_ok e c inb i off ra w :
  off + ra_len ra <= buf_size (w_apps w) ->
  exists r, fill_copy e c inb i off ra w = Ok r w /\ fills off (ra_len ra) r.
Proof.
  intros Hle. unfold fill_copy. destruct (_ && _); [|by eexists].
  rewrite (bind_eq _ _ _ _ _ (tx_write_eq _ _ _ Hle)).
  destruct (ie_copy_in e i); eexists; (split; [done|]); [done|apply VERIFY_err_nonzero].
Qed.

Lemma internal_buf_eq c i w :
  ctx_shape c -> (i < nbufs (c_sc c))%nat -> internal_buf c i w = Ok (internal_of c i) w.
Proof.
  intros Hc Hi. unfold internal_buf, internal_of. destruct (c_desc c) as [ds|] eqn:Ed; [|done]. simpl.
  destruct (lookup_lt_is_Some_2 ds i) as [d Hd]; [by rewrite (sh_desc _ Hc ds Ed)|].
  rewrite (bind_eq _ _ _ _ _ (at_index_eq _ _ _ _ Hd)), Hd. by destruct d as [[] ?].
Qed.

Lemma fill_buf_ok e p c inb i off l w :
  cx_heap (w_cx w) !! p = Some c -> ctx_shape c -> (i < nbufs (c_sc c))%nat ->
  plen (w_mm w) (w_bf w) c i l -> off + l <= buf_size (w_apps w) ->
  exists r, fill_buf e p inb i off w = Ok r w /\ fills off l r.
Proof.
  intros Hp Hc Hi (ra & Hra & Hl) Hle. pose proof (nbufs_le (c_sc c)).
  unfold fill_buf. rewrite (bind_eq _ _ _ _ _ (load_ctx _ _ _ Hp)).
  rewrite (bind_eq _ _ _ _ _ (at_index_eq _ _ _ _ Hra)).
  destruct (c_maps c !! i) as [om|] eqn:Hom; [|done].
  rewrite (bind_eq _ _ _ _ _ (at_index_eq _ _ _ _ Hom)). destruct om as [q|].
  { destruct Hl as (m & Hm & Hl). eapply fill_ion_ok; [done|lia|done..]. }
  rewrite (bind_eq _ _ _ _ _ (internal_buf_eq _ _ _ Hc Hi)).
  destruct (internal_of c i) as [[bp|]|]; [|done|].
  - destruct Hl as (x & Hx & Hs & Hv & Hmb). by eapply fill_internal_ok.
  - subst l. by apply fill_copy_ok.
Qed.

Lemma fill_bufs_ok e p c inb n i off L w :
  cx_heap (w_cx w) !! p = Some c -> ctx_shape c -> (i + n <= nbufs (c_sc c))%nat -> length L = n ->
  Forall (fun x => 0 <= x) L -> (forall j l, L !! j = Some l -> plen (w_mm w) (w_bf w) c (i + j) l) ->
  off + sumZ L <= buf_size (w_apps w) ->
  exists r, fill_bufs e p inb n i off w = Ok r w /\
    match r with inl err => err <> 0 | inr (_, _, off') => off' = off + sumZ L end.
Proof.
  intros Hp Hc. revert i off L. induction n as [|n IH]; intros i off L Hi Hn Hpos HL Hle.
  { destruct L; [|done]. eexists. split; [done|]. simpl. lia. }
  destruct L as [|l L]; [done|]. apply Forall_cons in Hpos as [Hl0 Hpos]. simpl in Hle.
  assert (0 <= sumZ L) as Hs0 by (clear -Hpos; induction Hpos; simpl; lia).
  destruct (fill_buf_ok e p c inb i off l w) as (r & Er & Hr); [done|done|lia| |lia|].
  { replace i with (i + 0)%nat by lia. by apply HL. }
  cbn [fill_bufs]. rewrite (bind_eq _ _ _ _ _ Er). destruct r as [err|[[vb part] off']]; [by eexists|].
  simpl in Hr. subst off'. destruct (IH (S i) (off + l) L) as (r & Er' & Hr'); [lia|by injection Hn|done| |lia|].
  { intros j x Hj. replace (S i + j)%nat with (i + S j)%nat by lia. by apply HL. }
  rewrite (bind_eq _ _ _ _ _ Er'). eexists. split; [done|].
  destruct r as [err|[[vbs parts] off']]; [done|]. simpl in *. lia.
Qed.

Lemma fill_handle_ok e c i off q ra m t w :
  mm_heap (w_mm w) !! q = Some m -> m_table m = Some t -> tiny t ->
  off + SIZE_OF_MAPPING (nents t) <= buf_size (w_apps w) ->
  exists vb part, fill_handle e c i off q ra w = Ok (vb, part, off + SIZE_OF_MAPPING (nents t)) w.
Proof.
  intros Hm Ht Hti Hle. unfold fill_handle. rewrite (bind_eq _ _ _ _ _ (load_map _ _ _ Hm)), Ht. cbv zeta.
  erewrite bind_eq; [by eexists _, _|].
  eapply write_mapping_eq; [|by rewrite length_fmap|exact Hle]. by rewrite length_fmap.
Qed.

Lemma fill_handles_ok e p c n i off L w :
  cx_heap (w_cx w) !! p = Some c -> ctx_shape c -> (i + n <= nargs (c_sc c))%nat -> length L = n ->
  Forall (fun x => 0 <= x) L -> (forall j l, L !! j = Some l -> hlen (w_mm w) c (i + j) l) ->
  off + sumZ L <= buf_size (w_apps w) -> exists r, fill_handles e p n i off w = Ok r w.
Proof.
  intros Hp Hc. revert i off L. induction n as [|n IH]; intros i off L Hi Hn Hpos HL Hle; [by eexists|].
  destruct L as [|l L]; [done|]. apply Forall_cons in Hpos as [Hl0 Hpos]. simpl in Hle.
  assert (0 <= sumZ L) as Hs0 by (clear -Hpos; induction Hpos; simpl; lia).
  pose proof (HL 0%nat l eq_refl) as Hl. rewrite Nat.add_0_r in Hl. unfold hlen in Hl.
  assert (forall off', off' + sumZ L <= buf_size (w_apps w) ->
    exists r, fill_handles e p n (S i) off' w = Ok r w) as Hrest.
  { intros off' Hle'. apply (IH (S i) off' L); [lia|by injection Hn|done| |done].
    intros j x Hj. replace (S i + j)%nat with (i + S j)%nat by lia. by apply HL. }
  cbn [fill_handles]. rewrite (bind_eq _ _ _ _ _ (load_ctx _ _ _ Hp)).
  destruct (lookup_lt_is_Some_2 (c_lpra c) i) as [ra Hra]; [pose proof (sh_lpra _ Hc); lia|].
  rewrite (bind_eq _ _ _ _ _ (at_index_eq _ _ _ _ Hra)).
  destruct (c_maps c !! i) as [om|] eqn:Hom; [|done]. rewrite (bind_eq _ _ _ _ _ (at_index_eq _ _ _ _ Hom)).
  assert (exists r, (r ← fill_handles e p n (S i) off; mret (None :: r.1, r.2)) w = Ok r w) as Hskip.
  { destruct (Hrest off) as [r Er]; [lia|]. rewrite (bind_eq _ _ _ _ _ Er). by eexists. }
  destruct (c_fds c), om as [q|]; [|done..].
  destruct Hl as (m & Hm & (t & Ht & Hti & ->)). destruct (Hrest (off + SIZE_OF_MAPPING (nents t))) as [r Er]; [lia|].
  destruct (fill_handle_ok e c i off q ra m t w) as (vb & part & Ef); [done..|lia|].
  rewrite (bind_eq _ _ _ _ _ Ef), (bind_eq _ _ _ _ _ Er). by eexists.
Qed.
End fill.

(** ** The invariant while the arguments are built *)

Section build.
Context `{HS : adsprpc_shared, !adsprpc_shared_ok HS}.
Context `{KC : kernel_config, !kernel_config_ok KC}.
Context `{V : virtqueue, !virtqueue_ok V}.
Implicit Types (w : world) (c : vfastrpc_invoke_ctx).

Lemma hsum_set {A} (f : A -> gmultiset ptr) (h : gmap ptr A) p a :
  hsum f (<[p := a]> h) = f a ⊎ hsum f (delete p h).
Proof. rewrite <- insert_delete_eq, hsum_insert; [done|]. apply lookup_delete_eq. Qed.

Lemma lists_set h p c c' pend intr :
  lists_ok h pend intr -> h !! p = Some c -> (is_Some (c_msg c) -> is_Some (c_msg c')) ->
  lists_ok (<[p := c']> h) pend intr.
Proof.
  intros [Hn Hl Hs] Hp Hm. split; [done| |].
  - intros q Hq. rewrite lookup_insert. case_decide; [by eexists|by apply Hl].
  - intros q cq Hq. rewrite lookup_insert. case_decide as E; [|by apply Hs]. intros [= <-]. subst q.
    apply Hm. by eapply Hs.
Qed.

Lemma linked_set h ms p c c' :
  linked h ms -> h !! p = Some c -> c_msg c' = c_msg c -> linked (<[p := c']> h) ms.
Proof.
  intros [Hl1 Hl2] Hp E. split.
  - intros q cq mp. rewrite lookup_insert. case_decide as Eq; [|by apply Hl1]. intros [= <-] Hm. subst q.
    apply (Hl1 p c); [done|congruence].
  - intros mp m q Hm Hc. destruct (Hl2 mp m q Hm Hc) as (cq & Hq & Ec).
    rewrite lookup_insert. case_decide as Eq; [|by exists cq]. subst q. exists c'. split; [done|]. congruence.
Qed.

(** The context and what it holds are replaced; it has no message. *)
Lemma with_args_inv H0 k0 H k w0 p c0 c s b :
  ctx_inv H0 k0 w0 -> cx_heap (w_cx w0) !! p = Some c0 -> c_msg c0 = None -> c_msg c = None -> ctx_shape c ->
  held w0 p H k c s -> bheld w0 p c b -> ctx_inv H k (with_args w0 p c s b).
Proof.
  intros [Hrx Hmp Hnz Hbf Hnd Hap Hsh Hlk Hds Hls Hsz] Hp E0 E Hc [Hm Hn] [Hb Hk].
  assert (forall q, is_Some (cx_heap (w_cx w0) !! q) -> is_Some (<[p := c]> (cx_heap (w_cx w0)) !! q)) as Hlive.
  { intros q Hq. rewrite lookup_insert. case_decide; [by eexists|done]. }
  split; simpl; try done.
  - by eapply rx_inv_cx.
  - by rewrite hsum_set.
  - by rewrite hsum_set.
  - by rewrite hsum_set.
  - intros q cq. rewrite lookup_insert. case_decide; [by intros [= <-]|apply Hsh].
  - eapply linked_set; [done..|congruence].
  - intros q cq. rewrite lookup_insert. case_decide as Eq; [intros [= <-]; rewrite E; by intros []|].
    intros Hq Hmq. eapply bufs_ok_keeps_descs; [exact Hk| |by apply (Hds q)].
    eapply hsum_sub. by rewrite lookup_delete_ne.
  - eapply lists_set; [done..|]. rewrite E0. by intros [].
Qed.

(** Fields that nothing depends on. *)
Definition with_ctx (p : ptr) c w : world :=
  w <| w_cx := (w_cx w) <| cx_heap := <[p := c]> (cx_heap (w_cx w)) |> |>.

Lemma ctx_upd_eq p c g w : cx_heap (w_cx w) !! p = Some c -> ctx_upd p g w = Ok () (with_ctx p (g c) w).
Proof.
  intros Hp. unfold ctx_upd. rewrite (bind_eq _ _ _ _ _ (load_ctx _ _ _ Hp)).
  unfold on_cx, zoom, ctx_store. by rewrite Hp.
Qed.

(** A context changes, and the maps with it. *)
Lemma ctx_inv_upd H k H' k' w p c c' s' :
  ctx_inv H k w -> cx_heap (w_cx w) !! p = Some c ->
  maps_ok (H' ⊎ (ctx_maps c' ⊎ others w p)) k' s' -> nonzero (ctx_maps c' ⊎ others w p) s' -> ctx_shape c' ->
  c_desc c' = c_desc c -> c_lpra c' = c_lpra c -> c_msg c' = c_msg c ->
  ctx_inv H' k' (with_ctx p c' (w <| w_mm := s' |>)).
Proof.
  intros [Hrx Hmp Hnz Hbf Hnd Hap Hsh Hlk Hds Hls Hsz] Hp Hm Hn Hc Ed El Emsg.
  assert (ctx_bufs c' = ctx_bufs c) as Eb by (unfold ctx_bufs; by rewrite Ed).
  assert (forall q, is_Some (cx_heap (w_cx w) !! q) -> is_Some (<[p := c']> (cx_heap (w_cx w)) !! q)) as Hlive.
  { intros q Hq. rewrite lookup_insert. case_decide; [by eexists|done]. }
  assert (hsum ctx_bufs (<[p := c']> (cx_heap (w_cx w))) = hsum ctx_bufs (cx_heap (w_cx w))) as Es2
    by (rewrite hsum_set, Eb; symmetry; by apply hsum_delete).
  split; simpl; rewrite ?hsum_set, ?Es2; try done.
  - by eapply rx_inv_cx.
  - by rewrite <- Es2, hsum_set in Hbf.
  - intros q cq. rewrite lookup_insert. case_decide; [by intros [= <-]|apply Hsh].
  - by eapply linked_set.
  - intros q cq. rewrite lookup_insert. case_decide as Eq; [|by apply Hds]. intros [= <-] Hmsg. subst q.
    unfold descs_ok. rewrite Ed, El. apply (Hds p c); [done|congruence].
  - eapply lists_set; [done..|]. by rewrite Emsg.
Qed.

Lemma ctx_inv_set H k w p c c' :
  ctx_inv H k w -> cx_heap (w_cx w) !! p = Some c -> ctx_maps c' = ctx_maps c -> ctx_shape c' ->
  c_desc c' = c_desc c -> c_lpra c' = c_lpra c -> c_msg c' = c_msg c -> ctx_inv H k (with_ctx p c' w).
Proof.
  intros Hi Hp Em Hc Ed El Emsg. pose proof (ci_maps _ _ _ Hi) as Hm. pose proof (ci_nonzero _ _ _ Hi) as Hn.
  rewrite (hsum_delete ctx_maps _ p c Hp), <- Em in Hm, Hn.
  pose proof (ctx_inv_upd H k H k w p c c' (w_mm w) Hi Hp Hm Hn Hc Ed El Emsg) as Hr. by destruct w.
Qed.

(** The new message is tied to the context. *)
Lemma linked_msg h ms ms' p c c' mp m :
  linked h ms -> h !! p = Some c -> c_msg c = None -> c_msg c' = Some mp -> ms !! mp = None ->
  delete mp ms' = ms -> msg_ctx m = Some p -> linked (<[p := c']> h) (<[mp := m]> ms').
Proof.
  intros [Hl1 Hl2] Hp E0 E1 Hnew Hdel Em.
  assert (forall x, x <> mp -> ms' !! x = ms !! x) as Hms by (intros x Hx; rewrite <- Hdel; by rewrite lookup_delete_ne).
  split.
  - intros q cq mq. rewrite lookup_insert. case_decide as Eq.
    + intros [= <-] Hmq. subst q. exists m. assert (mq = mp) as -> by congruence. by rewrite lookup_insert_eq.
    + intros Hq Hmq. destruct (Hl1 q cq mq Hq Hmq) as (x & Hx & Hxc). exists x. split; [|done].
      rewrite lookup_insert_ne by congruence. rewrite Hms by congruence. done.
  - intros mq x q. rewrite lookup_insert. case_decide as Eq.
    + intros [= <-] Hxq. subst mq. exists c'. split; [|done]. rewrite Em in Hxq. injection Hxq as <-. apply lookup_insert_eq.
    + rewrite Hms by done. intros Hx Hxq. destruct (Hl2 mq x q Hx Hxq) as (cq & Hq & Hcq).
      exists cq. split; [|done]. rewrite lookup_insert_ne; [done|]. intros <-. congruence.
Qed.

Lemma with_msg_inv H k w p c mp i m a' :
  ctx_inv H k w -> cx_heap (w_cx w) !! p = Some c -> c_msg c = None -> descs_ok (w_bf w) c ->
  in_flight w (w <| w_apps := a' |>) mp i -> delete mp (msgs a') = msgs (w_apps w) ->
  msgs a' !! mp = Some m ->
  ctx_inv H k (with_ctx p (c <| c_msg := Some mp |>)
    (w <| w_apps := a' <| msgs := <[mp := m <| msg_ctx := Some p |>]> (msgs a') |> |>)).
Proof.
  intros [Hrx Hmp Hnz Hbf Hnd Hap Hsh Hlk Hds Hls Hsz] Hp E0 Hd Hin Hdel Hm.
  pose proof (in_new _ _ _ _ Hin) as Hnew. pose proof (in_inv _ _ _ _ Hin) as Hrx'.
  set (c' := c <| c_msg := Some mp |>).
  assert (hsum ctx_maps (<[p := c']> (cx_heap (w_cx w))) = hsum ctx_maps (cx_heap (w_cx w))) as Es1
    by (rewrite hsum_set; symmetry; exact (hsum_delete ctx_maps _ p c Hp)).
  assert (hsum ctx_bufs (<[p := c']> (cx_heap (w_cx w))) = hsum ctx_bufs (cx_heap (w_cx w))) as Es2
    by (rewrite hsum_set; symmetry; exact (hsum_delete ctx_bufs _ p c Hp)).
  assert (linked (<[p := c']> (cx_heap (w_cx w))) (<[mp := m <| msg_ctx := Some p |>]> (msgs a'))) as Hlk'
    by by eapply linked_msg.
  split; simpl; rewrite ?Es1, ?Es2; try done.
  - destruct Hrx' as [Ha _ Hr Hs Hms]. simpl in *. split; simpl; try done.
    + by eapply inv_msg_update.
    + intros x mx q Hx Hxq. destruct (proj2 Hlk' x mx q Hx Hxq) as (cq & Hq & _). by eexists.
    + unfold stored_rx in *. simpl.
      pose proof (hsum_update msg_rx (msgs a') mp m (m <| msg_ctx := Some p |>) Hm) as E.
      unfold msg_rx in E at 1 3. simpl in E. apply (inj _) in E. by rewrite E.
    + intros x mx. rewrite lookup_insert. case_decide; [intros [= <-]; exact (Hms mp m Hm)|]. by apply Hms.
  - intros x Hx. destruct (Hap x Hx) as (mx & Hmx & Ex). exists mx. split; [|done].
    rewrite lookup_insert_ne by congruence. rewrite <- Hdel in Hmx. by apply lookup_delete_Some in Hmx as [_ ?].
  - intros q cq. rewrite lookup_insert. case_decide; [intros [= <-]|apply Hsh]. by destruct (Hsh p c Hp).
  - intros q cq. rewrite lookup_insert. case_decide as Eq; [|by apply Hds]. by intros [= <-] _.
  - eapply lists_set; [done..|]. by eexists.
  - pose proof (in_size _ _ _ _ Hin) as E. simpl in E. by rewrite E.
Qed.

Lemma ctx_inv_apps H k w a' :
  ctx_inv H k w -> rx_inv (w <| w_apps := a' |>) -> msgs a' = msgs (w_apps w) ->
  buf_size a' = buf_size (w_apps w) -> ctx_inv H k (w <| w_apps := a' |>).
Proof. intros [] Hrx Em Eb. split; simpl; rewrite ?Em, ?Eb; done. Qed.

Lemma ctx_inv_weaken H H' k k' w : H' ⊆ H -> k' <= k -> ctx_inv H k w -> ctx_inv H' k' w.
Proof.
  intros Hs Hk [Hrx Hmp Hnz Hbf Hnd Hap Hsh Hlk Hds Hls Hsz]. split; try done.
  eapply maps_ok_weaken; [|exact Hk|exact Hmp]. multiset_solver.
Qed.

(** The message of a context, when it has one, is the only difference. *)
Definition msgs_but (c : vfastrpc_invoke_ctx) (ms : gmap ptr virt_fastrpc_msg) : gmap ptr virt_fastrpc_msg :=
  match c_msg c with Some mp => delete mp ms | None => ms end.

(** [w'] is [w] but for context [p], now [c'], and its message. *)
Record only_ctx (p : ptr) (w w' : world) (c c' : vfastrpc_invoke_ctx) : Prop := {
  oc_cx : w_cx w' = (w_cx w) <| cx_heap := <[p := c']> (cx_heap (w_cx w)) |>;
  oc_fl : w_fl w' = w_fl w;
  oc_msgs : msgs_but c' (msgs (w_apps w')) = msgs (w_apps w);
  oc_size : buf_size (w_apps w') = buf_size (w_apps w);
  oc_sc : c_sc c' = c_sc c;
  oc_async : c_isasyncjob c' = c_isasyncjob c;
  oc_perf : c_perf c' = c_perf c;
}.

(** The message of [c] waits to be sent. *)
Definition unsent c (a : apps) : Prop :=
  exists mp m buf, c_msg c = Some mp /\ msgs a !! mp = Some m /\ txbuf m = Some buf /\ buf ∈ tx_held a.

Lemma metalen_pos n : 0 <= metalen n.
Proof.
  unfold metalen, sizeof_invoke_msg, sizeof_hdr, sizeof_buf, M_FDLIST, M_CRCLIST, M_DSP_PERF_LIST. lia.
Qed.

Lemma sumZ_pos bd L : Forall (fun x => 0 <= x <= bd) L -> Forall (fun x => 0 <= x) L /\ 0 <= sumZ L.
Proof. induction 1 as [|x L Hx HL [IH1 IH2]]; simpl; [done|]. split; [constructor; [lia|done]|lia]. Qed.

(** A message that was allocated and tied to the context is filled in. *)
Lemma fill_msg_ok e p c bd L HL mp m buf w hdr crc :
  cx_heap (w_cx w) !! p = Some c -> ctx_shape c ->
  laid bd (w_mm w) (w_bf w) c (nbufs (c_sc c)) L -> hlaid (w_mm w) c (nbufs (c_sc c)) (nargs (c_sc c)) HL ->
  metalen (nargs (c_sc c)) + sumZ L + sumZ HL <= buf_size (w_apps w) ->
  msgs (w_apps w) !! mp = Some m -> txbuf m = Some buf ->
  exists err v, (let total := nargs (c_sc c) in
    let bufs := nbufs (c_sc c) in
    tx_write 0 (metalen total);;
    r ← fill_bufs e p (ninbufs (c_sc c)) bufs 0 (metalen total);
    match r with
    | inl err => mret err
    | inr (bs, parts, off) =>
      h ← fill_handles e p (total - bufs) bufs off;
      on_apps (tx_fill mp (metalen total)
        (VirtInvoke hdr (c_handle c) (c_sc c) crc (c_seq_num c) (bs ++ h.1) (parts ++ h.2)));;
      mret 0
    end) w = Ok err (if err =? 0 then w <| w_apps := (w_apps w) <| txmem := <[buf := v]> (txmem (w_apps w)) |> |> else w).
Proof.
  intros Hp Hc [Ll Lb Lp] [Hl Hb Hh] Hle Hm Hbuf. cbv zeta. pose proof (nbufs_le (c_sc c)).
  destruct (sumZ_pos bd L Lb) as [Lpos Ls]. destruct (sumZ_pos _ HL Hb) as [Hpos Hs].
  pose proof (metalen_pos (nargs (c_sc c))).
  assert (tx_write 0 (metalen (nargs (c_sc c))) w = Ok () w) as Et by (apply tx_write_eq; lia).
  rewrite (bind_eq _ _ _ _ _ Et).
  destruct (fill_bufs_ok e p c (ninbufs (c_sc c)) (nbufs (c_sc c)) 0 (metalen (nargs (c_sc c))) L w) as (r & Er & Hr);
    try done; try lia.
  rewrite (bind_eq _ _ _ _ _ Er). destruct r as [err|[[bs parts] off]].
  { exists err, (VirtInvoke hdr (c_handle c) (c_sc c) crc (c_seq_num c) [] []). by zdec. }
  destruct (fill_handles_ok e p c (nargs (c_sc c) - nbufs (c_sc c)) (nbufs (c_sc c)) off HL w) as [r Er'];
    try done; try lia.
  rewrite (bind_eq _ _ _ _ _ Er'). eexists 0, _. erewrite bind_eq; [done|].
  unfold on_apps, zoom. rewrite (tx_fill_eq mp m buf) by (done || lia). done.
Qed.

Lemma build_msg_ok e p c bd L HL size H k w :
  ctx_inv H k w -> cx_heap (w_cx w) !! p = Some c -> c_msg c = None -> descs_ok (w_bf w) c ->
  laid bd (w_mm w) (w_bf w) c (nbufs (c_sc c)) L -> hlaid (w_mm w) c (nbufs (c_sc c)) (nargs (c_sc c)) HL ->
  size = metalen (nargs (c_sc c)) + sumZ L + sumZ HL -> 0 <= size < 2 ^ 32 ->
  exists err w' c', build_msg e p size w = Ok err w' /\ ctx_inv H k w' /\ only_ctx p w w' c c' /\
    (err = 0 -> unsent c' (w_apps w')) /\ w_mm w' = w_mm w /\ w_bf w' = w_bf w /\
    ctx_maps c' = ctx_maps c /\ ctx_bufs c' = ctx_bufs c.
Proof.
  intros Hi Hp E0 Hd HL1 HL2 Esz Hsz. pose proof (ci_shape _ _ _ Hi p c Hp) as Hc.
  unfold build_msg. destruct (alloc_in_flight (ie_kzalloc_msg e) size w (ci_rx _ _ _ Hi)) as
    [(a' & Ea & Hx & Hri & Eh & Em & _)|(mp & i & buf & a' & Ea & Hin & Hm & Hdel & Hle & Eh & _)].
  { rewrite (bind_eq _ _ _ _ _ (on_apps_eq _ _ _ _ Ea)). pose proof (xf_size _ _ Hx) as Eb. simpl in Eb.
    eexists _, _, c. split; [done|]. split; [by apply ctx_inv_apps|]. split; [|by split].
    split; simpl; try done; [|unfold msgs_but; by rewrite E0]. rewrite insert_id by done. by destruct (w_cx w). }
  rewrite (bind_eq _ _ _ _ _ (on_apps_eq _ _ _ _ Ea)). rewrite u32_id in Hle by lia.
  set (m := Build_virt_fastrpc_msg _ _ _ _ _) in Hm.
  pose proof (with_msg_inv H k w p c mp i m a' Hi Hp E0 Hd Hin Hdel Hm) as Hi1.
  cbv beta iota. match goal with |- context [(ctx_upd p ?g ≫= _) ?x] =>
    rewrite (bind_eq _ _ _ _ _ (ctx_upd_eq p c g x Hp)) end.
  match goal with |- context [(on_apps (msg_load mp) ≫= _) ?x] => set (w2 := x) end.
  assert (msgs (w_apps w2) !! mp = Some m) as Hm2 by exact Hm.
  rewrite (bind_eq _ _ _ _ _ (load_msg _ _ _ Hm2)), (bind_eq _ _ _ _ _ (store_msg _ _ _ _ Hm2)).
  match type of Hi1 with ctx_inv _ _ ?x => set (w1 := x) in * end.
  match goal with |- context [(ctx_upd p _ ≫= _) ?x] => change x with w1 end. clear w2 Hm2.
  assert (cx_heap (w_cx w1) !! p = Some (c <| c_msg := Some mp |>)) as Hp1 by apply lookup_insert_eq.
  rewrite (bind_eq _ _ _ _ _ (ctx_upd_eq p _ _ w1 Hp1)).
  set (c2 := c <| c_msg := Some mp |> <| c_size := size |>).
  assert (ctx_inv H k (with_ctx p c2 w1)) as Hi2.
  { eapply ctx_inv_set; try done. by destruct Hc. }
  match goal with |- context [(on_cx (ctx_load p) ≫= _) ?x] => change x with (with_ctx p c2 w1) end.
  assert (cx_heap (w_cx (with_ctx p c2 w1)) !! p = Some c2) as Hp2 by apply lookup_insert_eq.
  rewrite (bind_eq _ _ _ _ _ (load_ctx _ _ _ Hp2)). erewrite bind_eq by done.
  destruct (fill_msg_ok e p c2 bd L HL mp (m <| msg_ctx := Some p |>) buf (with_ctx p c2 w1)
    (mk_hdr true (w_fl w) (ie_pid e) VIRTIO_FASTRPC_CMD_INVOKE size (msgid m))
    (if c_crc c then VIRTIO_FASTRPC_INVOKE_CRC else 0)) as (err & v & E); try done.
  { by destruct Hc. }
  { destruct HL1 as [? ? Hpl]. split; [done..|]. intros j l Hj. destruct (Hpl j l Hj) as (ra & ? & ?). by exists ra. }
  { destruct HL2 as [? ? Hpl]. by split. }
  { simpl. lia. }
  { apply lookup_insert_eq. }
  eexists _, _, c2. split; [exact E|].
  assert (msgs_but c2 (<[mp := m <| msg_ctx := Some p |>]> (msgs a')) = msgs (w_apps w)) as Emb
    by (unfold msgs_but; simpl; by rewrite delete_insert_eq).
  assert (buf_size a' = buf_size (w_apps w)) as Eb by exact (in_size _ _ _ _ Hin).
  assert (ctx_inv H k (if err =? 0 then (with_ctx p c2 w1) <| w_apps := (w_apps (with_ctx p c2 w1))
     <| txmem := <[buf := v]> (txmem (w_apps (with_ctx p c2 w1))) |> |> else with_ctx p c2 w1)) as Hi3.
  { destruct (err =? 0); [|done]. apply ctx_inv_apps; try done.
    destruct (ci_rx _ _ _ Hi2) as [[] Hr2 Hr3 Hr4 Hr5]. by split. }
  split; [exact Hi3|]. split; [|split; [|by destruct (err =? 0)]].
  - destruct (err =? 0); split; simpl; try done; by rewrite insert_insert_eq.
  - intros ->. exists mp, (m <| msg_ctx := Some p |>), buf. simpl. rewrite lookup_insert_eq.
    split_and!; try done. rewrite Eh. multiset_solver.
Qed.

(** ** [get_args] *)

(** A context just allocated: no message, map or descriptor. *)
Record blank c : Prop := {
  bl_msg : c_msg c = None;
  bl_desc : c_desc c = None;
  bl_maps : unmapped c 0;
  bl_args : bufs_args c;
}.

Lemma with_args_self w p c :
  cx_heap (w_cx w) !! p = Some c -> with_args w p c (w_mm w) (w_bf w) = w.
Proof. intros Hp. destruct w as [a m b [] f]. unfold with_args. simpl in *. by rewrite insert_id. Qed.

Lemma held_start H k w p c : ctx_inv H k w -> cx_heap (w_cx w) !! p = Some c -> held w p H k c (w_mm w).
Proof.
  intros Hi Hp. pose proof (ci_maps _ _ _ Hi) as Hm. pose proof (ci_nonzero _ _ _ Hi) as Hn.
  rewrite (hsum_delete ctx_maps _ p c Hp) in Hm, Hn. by split.
Qed.

Lemma bheld_start H k w p c : ctx_inv H k w -> cx_heap (w_cx w) !! p = Some c -> bheld w p c (w_bf w).
Proof.
  intros Hi Hp. pose proof (ci_bufs _ _ _ Hi) as Hb. rewrite (hsum_delete ctx_bufs _ p c Hp) in Hb. by split.
Qed.

Lemma only_ctx_args p w c0 c s b :
  args_eq c0 c -> c_msg c0 = None -> only_ctx p w (with_args w p c s b) c0 c.
Proof.
  intros Ha E. split; simpl; try done; try apply Ha. unfold msgs_but. by rewrite (ae_msg _ _ Ha), E.
Qed.

Lemma only_ctx_trans p w w1 w2 c0 c1 c2 :
  only_ctx p w w1 c0 c1 -> c_msg c1 = None -> only_ctx p w1 w2 c1 c2 -> only_ctx p w w2 c0 c2.
Proof.
  intros [Ex1 Ef1 Em1 Es1 Ec1 Ea1 Ep1] E [Ex2 Ef2 Em2 Es2 Ec2 Ea2 Ep2].
  unfold msgs_but in Em1. rewrite E in Em1. split; try congruence.
  rewrite Ex2, Ex1. simpl. by rewrite insert_insert_eq.
Qed.

Lemma bl_descs b c : c_desc c = None -> descs_ok b c.
Proof. intros E ds i d. congruence. Qed.

Lemma total_small L HL n m :
  length L = n -> (n + length HL = m)%nat -> Z.of_nat m <= 540 ->
  Forall (fun x => 0 <= x <= 2 ^ 22 + 2 ^ 5) L -> Forall (fun x => 0 <= x <= 2 ^ 22 + 2 ^ 5) HL ->
  0 <= sumZ L + sumZ HL <= 540 * (2 ^ 22 + 2 ^ 5).
Proof.
  intros El Eh Hm HL1 HL2. apply sumZ_bound in HL1; [|lia]. apply sumZ_bound in HL2; [|lia]. nia.
Qed.

Lemma metalen_small n : Z.of_nat n <= 540 -> metalen n <= 2 ^ 15.
Proof.
  unfold metalen, sizeof_invoke_msg, sizeof_hdr, sizeof_buf, M_FDLIST, M_CRCLIST, M_DSP_PERF_LIST. lia.
Qed.

Lemma shrink_ok e w0 p c s b ml hl :
  env_ok e -> bheld w0 p c b -> ctx_shape c -> c_desc c = None -> bufs_args c -> maps_sized s c ->
  exists err size c' b', shrink_msg e p ml hl (with_args w0 p c s b) = Ok (err, size) (with_args w0 p c' s b') /\
    bheld w0 p c' b' /\ args_eq c c' /\ c_maps c' = c_maps c /\ ctx_shape c' /\
    (err = 0 -> descs_ok b' c' /\ exists L', laid (2 ^ 22 + 2 ^ 5) s b' c' (nbufs (c_sc c)) L' /\
      size = u64 (ml + sumZ L' + hl)) /\
    (placed (ctx_bufs c ⊎ dothers w0 p) b -> placed (ctx_bufs c' ⊎ dothers w0 p) b').
Proof.
  intros He Hb Hc Hd Ha Hms. unfold shrink_msg.
  rewrite (bind_eq _ _ _ _ _ (load_args w0 p c s b)), (bind_eq _ _ _ _ _ (upd_args w0 p c s b _)).
  destruct (ie_kcalloc_desc e); simpl.
  2: { eexists _, _, _, b. split; [done|]. split; [exact Hb|]. split; [by split|]. split; [done|].
       split; [by destruct Hc|by split]. }
  rewrite (bind_eq _ _ _ _ _ (upd_args w0 p _ s b _)).
  set (c1 := c <| c_outbufs_offset := 0 |> <| c_desc := Some (replicate (nbufs (c_sc c)) normal) |>).
  match goal with |- context [with_args w0 p ?x s b] => change x with c1 end.
  assert (ctx_bufs c1 = ctx_bufs c) as Eb.
  { unfold ctx_bufs, c1. simpl. rewrite Hd. unfold bufs_of. by induction (nbufs (c_sc c)). }
  assert (ctx_shape c1) as Hc1.
  { destruct Hc. split; try done. simpl. intros ds [= <-]. by rewrite length_replicate. }
  destruct (make_descs_ok w0 p e (ninbufs (c_sc c)) s (nbufs (c_sc c)) c1 b 0 0 [])
    as (err & cl & c' & b' & E & Hb' & Ha' & Em & Hc' & Hres & Hpl); try done; try rewrite Eb in Hpl.
  - unfold bheld. by rewrite Eb.
  - eexists. split; [done|]. rewrite length_replicate. split; [done|]. intros j Hj. apply lookup_replicate_2. simpl in Hj. lia.
  - intros ds i d [= <-] [-> _]%lookup_replicate. done.
  - rewrite (bind_eq _ _ _ _ _ E). simpl. destruct (Z.eqb_spec err 0) as [->|Hne]; simpl.
    + destruct (Hres eq_refl) as (Hd' & L & HL & ->). eexists 0, _, c', b'. split; [done|].
      split; [done|]. split; [etrans; [|done]; by split|]. split; [done|]. split; [done|]. split; [eauto|done].
    + eexists err, _, c', b'. split; [done|]. split; [done|]. split; [etrans; [|done]; by split|]. by split_and!.
Qed.

Lemma laid_sized bd s b c L : laid bd s b c (nbufs (c_sc c)) L -> maps_sized s c.
Proof.
  intros [Hl _ Hp] i q Hi Hq. destruct (lookup_lt_is_Some_2 L i) as [l HLi]; [lia|].
  destruct (Hp i l HLi) as (ra & _ & Hm). rewrite Hq in Hm. destruct Hm as (m & ? & ?). by exists m, l.
Qed.

(** From the size of the message on. *)
Lemma finish_args e p w c0 c s H L HL k :
  env_ok e -> ctx_inv ∅ (540 + k) w -> cx_heap (w_cx w) !! p = Some c0 -> args_eq c0 c -> c_msg c0 = None ->
  c_desc c = None -> ctx_shape c -> held w p H k c s -> bheld w p c (w_bf w) -> bufs_args c ->
  laid (2 ^ 31) s (w_bf w) c (nbufs (c_sc c)) L -> hlaid s c (nbufs (c_sc c)) (nargs (c_sc c)) HL ->
  exists err w' c', (a ← gets w_apps;
      let size := u64 (metalen (nargs (c_sc c)) + sumZ L + sumZ HL) in
      if buf_size a <? size then
        x ← shrink_msg e p (metalen (nargs (c_sc c))) (sumZ HL);
        if negb (x.1 =? 0) then mret x.1 else build_msg e p x.2
      else build_msg e p size) (with_args w p c s (w_bf w)) = Ok err w' /\ ctx_inv ∅ k w' /\
    only_ctx p w w' c0 c' /\ (err = 0 -> unsent c' (w_apps w')) /\ w_mm w' = s /\ ctx_maps c' = ctx_maps c /\
    (placed (ctx_bufs c ⊎ dothers w p) (w_bf w) -> placed (ctx_bufs c' ⊎ dothers w p) (w_bf w')).
Proof.
  intros He Hi Hp Ha Em Hd Hc Hh Hb Hba HL1 HL2. assert (c_msg c = None) as Em' by by rewrite (ae_msg _ _ Ha).
  pose proof (nargs_bound (c_sc c)) as Hn. pose proof (nbufs_le (c_sc c)) as Hle.
  pose proof (metalen_pos (nargs (c_sc c))) as Hm0. pose proof (metalen_small _ Hn) as Hm1.
  assert (0 <= sumZ L <= 540 * 2 ^ 31) as Hs1 by (apply sum_small; [lia|rewrite (la_len _ _ _ _ _ _ HL1); lia|apply HL1]).
  assert (0 <= sumZ HL <= 540 * (2 ^ 22 + 2 ^ 5)) as Hs2.
  { apply sum_small; [lia| |apply HL2]. pose proof (hl_len _ _ _ _ _ HL2). lia. }
  erewrite bind_eq by done. cbv zeta. rewrite (u64_id (_ + _)) by lia.
  pose proof (ci_size _ _ _ Hi) as Hsz. change (buf_size (w_apps (with_args w p c s (w_bf w)))) with (buf_size (w_apps w)).
  destruct (Z.ltb_spec (buf_size (w_apps w)) (metalen (nargs (c_sc c)) + sumZ L + sumZ HL)) as [Hbig|Hfits].
  - destruct (shrink_ok e w p c s (w_bf w) (metalen (nargs (c_sc c))) (sumZ HL))
      as (err & size & c' & b' & E & Hb' & Ha' & Emaps & Hc' & Hres & Hpl); try done; [by eapply laid_sized|].
    rewrite (bind_eq _ _ _ _ _ E). simpl. assert (args_eq c0 c') as Ha0 by by etrans.
    assert (c_msg c' = None) as Em2 by by rewrite (ae_msg _ _ Ha0). assert (c_sc c' = c_sc c) as Esc by apply Ha'.
    assert (ctx_maps c' = ctx_maps c) as Ecm by (unfold ctx_maps; by rewrite Emaps, Esc).
    assert (held w p H k c' s) as Hh' by (eapply held_eq; [exact Ecm|exact Hh]).
    assert (ctx_inv H k (with_args w p c' s b')) as Hi' by by eapply with_args_inv.
    destruct (Z.eqb_spec err 0) as [->|Hne]; simpl.
    2: { eexists err, _, c'. split; [done|]. split; [eapply ctx_inv_weaken; [|reflexivity|exact Hi']; multiset_solver|].
         split; [by apply only_ctx_args|by split]. }
    destruct (Hres eq_refl) as (Hd' & L' & HL' & Esz).
    assert (0 <= sumZ L' + sumZ HL <= 540 * (2 ^ 22 + 2 ^ 5)) as Hs.
    { eapply total_small; [apply HL'|apply HL2|done|apply HL'|apply HL2]. }
    rewrite u64_id in Esz by lia. rewrite <- Esc in HL'.
    destruct (build_msg_ok e p c' (2 ^ 22 + 2 ^ 5) L' HL size H k (with_args w p c' s b'))
      as (err & w' & c'' & Eb & Hib & Ho & Hu & Emm & Ebf & Ecm' & Ecb'); try done; try (rewrite ?Esc; lia).
    + apply lookup_insert_eq.
    + rewrite Esc. destruct HL2 as [? ? Hp2]. split; try done. intros j l Hj.
      unfold hlen. rewrite Emaps. exact (Hp2 j l Hj).
    + exists err, w', c''. split; [done|]. split; [eapply ctx_inv_weaken; [|reflexivity|exact Hib]; multiset_solver|].
      split; [|split_and!; try done; [congruence|by rewrite Ebf, Ecb']].
      eapply only_ctx_trans; [by apply only_ctx_args|done|done].
  - assert (ctx_inv H k (with_args w p c s (w_bf w))) as Hi' by by eapply with_args_inv.
    destruct (build_msg_ok e p c (2 ^ 31) L HL (metalen (nargs (c_sc c)) + sumZ L + sumZ HL) H k (with_args w p c s (w_bf w)))
      as (err & w' & c'' & Eb & Hib & Ho & Hu & Emm & Ebf & Ecm' & Ecb'); try done; try lia.
    + apply lookup_insert_eq.
    + by apply bl_descs.
    + exists err, w', c''. split; [done|]. split; [eapply ctx_inv_weaken; [|reflexivity|exact Hib]; multiset_solver|].
      split; [|split_and!; try done; by rewrite Ebf, Ecb'].
      eapply only_ctx_trans; [by apply only_ctx_args|done|done].
Qed.

(** The accounts of context [p] are those of the file. *)
Lemma balanced_ctx K D p c c' w w' :
  cx_heap (w_cx w) !! p = Some c -> cx_heap (w_cx w') = <[p := c']> (cx_heap (w_cx w)) ->
  acct K (ctx_maps c ⊎ others w p) (w_mm w) (D ⊎ (ctx_maps c' ⊎ others w p)) (w_mm w') ->
  (placed (ctx_bufs c ⊎ dothers w p) (w_bf w) -> placed (ctx_bufs c' ⊎ dothers w p) (w_bf w')) -> balanced K D w w'.
Proof.
  intros Hp Eh Ha Hb. split; unfold holds, bholds; rewrite Eh, hsum_set.
  - by rewrite (hsum_delete ctx_maps _ p c Hp).
  - by rewrite (hsum_delete ctx_bufs _ p c Hp).
Qed.

(** [get_args] never faults: it prepares the message, or fails and leaves the
    context with what it took. *)
Lemma get_args_ok e p c0 k w :
  0 <= k < 2 ^ 29 -> env_ok e -> ctx_inv ∅ (540 + k) w -> cx_heap (w_cx w) !! p = Some c0 -> blank c0 ->
  exists err w' c', get_args e p w = Ok err w' /\ ctx_inv ∅ k w' /\ only_ctx p w w' c0 c' /\
    (err = 0 -> unsent c' (w_apps w')) /\
    exists D, (size D <= nargs (c_sc c0) - nbufs (c_sc c0))%nat /\
      forall K : Prop, (K -> no_keep (c_attrs c0)) -> balanced K D w w'.
Proof.
  intros Hk He Hi Hp [Bm Bd Bu Ba]. pose proof (ci_shape _ _ _ Hi p c0 Hp) as Hc.
  pose proof (held_start _ _ _ _ _ Hi Hp) as Hh. pose proof (bheld_start _ _ _ _ _ Hi Hp) as Hb.
  set (n := nbufs (c_sc c0)) in *. set (t := nargs (c_sc c0)) in *.
  assert (n <= t)%nat as Hnt by apply nbufs_le. assert (Z.of_nat t <= 540) as Ht by apply nargs_bound.
  unfold get_args. rewrite (bind_eq _ _ _ _ _ (load_ctx _ _ _ Hp)). fold n t. cbv zeta.
  destruct (map_bufs_ok w p e (ninbufs (c_sc c0)) (w_bf w) (k + Z.of_nat (t - n)) n c0 (w_mm w) 0 0 [])
    as (err & cl & c1 & s1 & E1 & Hh1 & Ha1 & Hd1 & Hr1 & Hac1); try done; try lia.
  { eapply held_weaken; [|exact Hh]. lia. }
  rewrite (with_args_self w p c0 Hp) in E1. rewrite (bind_eq _ _ _ _ _ E1). simpl. assert (c_msg c1 = None) as Em1 by by rewrite (ae_msg _ _ Ha1).
  assert (ctx_shape c1) as Hc1 by (eapply shape_eq; [done|congruence|done]).
  assert (forall c, c_desc c = None -> bheld w p c (w_bf w)) as Hbn.
  { intros c E. unfold bheld, ctx_bufs in *. by rewrite E, Bd in *. }
  assert (forall c, c_desc c = None -> ctx_bufs c = ctx_bufs c0) as Ecb by (intros c E; unfold ctx_bufs; by rewrite E, Bd).
  unfold held_acct in Hac1. rewrite !(left_id_L ∅ (⊎)) in Hac1.
  destruct (Z.eqb_spec err 0) as [->|Hne]; simpl.
  2: { eexists err, _, c1. split; [done|]. split; [|split; [by apply only_ctx_args|split; [done|]]].
       - eapply with_args_inv; try done; [|by apply Hbn]. eapply held_weaken; [|done]; lia.
       - exists ∅. split; [rewrite gmultiset_size_empty; lia|]. intros K HK.
         eapply (balanced_ctx _ _ p c0 c1); [done..| |by rewrite (Ecb c1)].
         rewrite (left_id_L ∅ (⊎)). by apply Hac1. }
  destruct (Hr1 eq_refl) as (L & HL & -> & Hu1). fold n in HL, Hu1.
  assert (c_sc c1 = c_sc c0) as Esc1 by apply Ha1.
  destruct (map_handles_ok w p e (w_bf w) k (t - n) c1 s1 n 0 L []) as
    (err & hl & c2 & s2 & E2 & Hh2 & Ha2 & Hd2 & Hr2 & Hac2); rewrite ?Esc1; fold n t; try done; try lia.
  { unfold hmaps. rewrite Esc1. fold n. rewrite drop_ge by (rewrite length_take; lia). exact Hh1. }
  rewrite Esc1 in E2, Hr2, Hac2. fold n t in E2, Hr2, Hac2. rewrite (bind_eq _ _ _ _ _ E2). simpl.
  assert (hmaps c1 n = ∅) as Eh1 by (unfold hmaps; rewrite Esc1; fold n; by rewrite drop_ge by (rewrite length_take; lia)).
  unfold held_acct in Hac2. rewrite Eh1, (left_id_L ∅ (⊎)) in Hac2.
  assert (args_eq c0 c2) as Ha02 by by etrans. assert (c_sc c2 = c_sc c0) as Esc2 by apply Ha02.
  assert (c_msg c2 = None) as Em2 by by rewrite (ae_msg _ _ Ha02).
  assert (ctx_shape c2) as Hc2 by (eapply shape_eq; [exact Ha02|congruence|done]).
  destruct (Z.eqb_spec err 0) as [->|Hne]; simpl.
  2: { eexists err, _, c2. split; [done|]. split; [|split; [by apply only_ctx_args|split; [done|]]].
       - eapply with_args_inv; try done. by apply Hbn.
       - exists ∅. split; [rewrite gmultiset_size_empty; lia|]. intros K HK.
         eapply (balanced_ctx _ _ p c0 c2); [done..| |by rewrite (Ecb c2)].
         eapply acct_trans; [by apply Hac1|apply Hac2]. }
  destruct (Hr2 eq_refl) as (Hh2' & HL2 & HL' & HH & ->).
  assert (size (hmaps c2 t) <= t - n)%nat as Hsz.
  { unfold hmaps. etrans; [apply size_maps_of|]. rewrite length_drop, length_take, Esc2. fold n. lia. }
  subst n t. rewrite <- Esc2 in HL2, HH |- *.
  destruct (finish_args e p w c0 c2 s2 (hmaps c2 (nargs (c_sc c0))) L HL' k)
    as (err & w' & c' & E & Hi' & Ho & Hu & Emm & Ecm & Hpl); try done.
  - by apply Hbn.
  - intros j ra Hj. rewrite Esc2 in Hj. rewrite (ae_lpra _ _ Ha02). by apply Ba.
  - exists err, w', c'. split; [exact E|]. split_and!; [done..|]. rewrite Esc2.
    exists (hmaps c2 (nargs (c_sc c0))). split; [done|]. intros K HK.
    eapply (balanced_ctx _ _ p c0 c'); [done|by rewrite (oc_cx _ _ _ _ _ Ho)|rewrite Emm, Ecm|by rewrite <- (Ecb c2)].
    eapply acct_trans; [by apply Hac1|apply Hac2].
Qed.

End build.
