(* ===== verification/InvokeFacts.v ===== *)
(** * Remote invocation is safe

    The wait, [put_args], the allocation, interruption and resumption of
    contexts, and [vfastrpc_internal_invoke] as a whole. *)
From S2P Require Import Prelude Shared Mmap MmapFacts Pages Buf BufFacts Apps AppsFacts World WorldFacts Transact MapOps MapFacts Invoke CtxFacts CtxInv ArgFacts DescFacts MsgFacts.

Section wait.
Context `{HS : adsprpc_shared, !adsprpc_shared_ok HS}.
Context `{KC : kernel_config, !kernel_config_ok KC}.
Context `{V : virtqueue, !virtqueue_ok V}.
Implicit Types (w : world) (c : vfastrpc_invoke_ctx) (s : mmaps).

(** The receive path keeps the invariant. *)
Lemma linked_same h ms ms' :
  linked h ms -> (forall q, option_Forall2 same_msg (ms !! q) (ms' !! q)) -> linked h ms'.
Proof.
  intros [Hl1 Hl2] Hs. split.
  - intros q c mp Hq Hm. destruct (Hl1 q c mp Hq Hm) as (m & Hmp & Hc). specialize (Hs mp). rewrite Hmp in Hs.
    inversion Hs as [? m' [_ E _] E1 E2|]; subst. exists m'. split; [done|]. congruence.
  - intros mp m' q Hm Hc. specialize (Hs mp). rewrite Hm in Hs.
    inversion Hs as [m ? [_ E _] E1 E2|]; subst. apply (Hl2 mp m q); [done|congruence].
Qed.

Lemma ctx_inv_xfer H k w w' : ctx_inv H k w -> xfer w w' -> rx_inv w' -> ctx_inv H k w'.
Proof.
  intros [Hrx Hmp Hnz Hbf Hnd Hap Hsh Hlk Hds Hls Hsz] Hf Hrx'.
  pose proof (xf_cx _ _ Hf) as Ecx. unfold cx_rest in Ecx. injection Ecx as Eh Ep Ei _.
  pose proof (fl_rest_cmds _ _ (xf_fl _ _ Hf)) as Efl.
  split; rewrite ?(xf_mm _ _ Hf), ?(xf_bf _ _ Hf), ?Eh, ?Ep, ?Ei, ?Efl, ?(xf_size _ _ Hf); try done.
  - intros q Hq. destruct (Hap q Hq) as (m & Hm & Hc). pose proof (xf_msgs _ _ Hf q) as Hs. rewrite Hm in Hs.
    inversion Hs as [? m' [_ E _] E1 E2|]; subst. exists m'. split; [done|]. congruence.
  - eapply linked_same; [done|apply Hf].
Qed.

Lemma xfer_balanced K w w' : xfer w w' -> balanced K ∅ w w'.
Proof.
  intros Hf. pose proof (xf_cx _ _ Hf) as Ecx. unfold cx_rest in Ecx. injection Ecx as Eh _ _ _.
  apply balanced_same; [apply Hf..|done].
Qed.

Lemma ctx_inv_rx H k w w' : ctx_inv H k w -> rx_ok w w' -> ctx_inv H k w'.
Proof. intros Hi [Hf Hr]. by eapply ctx_inv_xfer; [|apply rx_frame_xfer|]. Qed.

Lemma wait_swp evs sig mp w :
  rx_inv w -> is_Some (msgs (w_apps w) !! mp) ->
  swp (wait_for_completion_interruptible evs sig mp) (fun r w' => rx_ok w w' /\ (r = 0 \/ r = - ERESTARTSYS)) w.
Proof.
  intros Hi Hm. unfold wait_for_completion_interruptible.
  eapply (swp_bind _ _ (fun _ w' => rx_ok w w')).
  { by apply run_events_swp. }
  intros _ w1 [Hf Hi1]. destruct (same_live _ _ mp (rf_msgs _ _ Hf) Hm) as [m Hm1].
  unfold swp. rewrite (bind_eq _ _ _ _ _ (load_msg _ _ _ Hm1)).
  destruct (Z.ltb_spec 0 (work_done m)) as [Hlt|]; [|destruct sig; [split; [by split|auto]|]].
  2:{ pose proof (asleep_msg mp m w1 Hi1 Hm1 ltac:(lia)). by destruct w1. }
  rewrite (bind_eq _ _ _ _ _ (store_msg _ _ _ _ Hm1)).
  destruct (took_work_ok mp m w1 Hi1 Hm1 Hlt) as [[Hf2 Hi2] _].
  split; [|by left]. split; [|exact Hi2]. by etrans.
Qed.

(** ** Giving back *)

Lemma drop_step p c i q k w :
  ctx_inv ∅ k w -> 0 <= k -> cx_heap (w_cx w) !! p = Some c -> (i < nbufs (c_sc c))%nat ->
  c_maps c !! i = Some (Some q) ->
  exists s', drop_ctx_map (Some q) (w_mm w) = Ok () s' /\
    ctx_inv ∅ k (with_ctx p (c <| c_maps := <[i := None]> (c_maps c) |>) (w <| w_mm := s' |>)) /\
    forall K, balanced K ∅ w (with_ctx p (c <| c_maps := <[i := None]> (c_maps c) |>) (w <| w_mm := s' |>)).
Proof.
  intros Hi Hk Hp Hlt Hq. set (c' := c <| c_maps := <[i := None]> (c_maps c) |>).
  destruct (held_start _ _ _ _ _ Hi Hp) as [Hm Hn].
  assert (ctx_maps c = {[+ q +]} ⊎ ctx_maps c') as E by by apply maps_of_unset.
  rewrite E in Hm, Hn.
  destruct (drop_ctx_map_ok (ctx_maps c' ⊎ others w p) k (w_mm w) q) as (s' & Es & Hok & Hsh & Hdr); [|done|].
  { eapply maps_ok_weaken; [|reflexivity|exact Hm]. multiset_solver. }
  exists s'. split; [done|]. split.
  2:{ intros K. apply (balanced_ctx K ∅ p c c'); [done..| |done]. rewrite (left_id_L ∅ (⊎)), E, <- (assoc_L (⊎)).
      apply acct_dropped; [apply (ci_maps _ _ _ Hi)|done]. }
  eapply ctx_inv_upd; try done.
  - eapply maps_ok_weaken; [|reflexivity|exact Hok]. multiset_solver.
  - eapply nonzero_shrunk; [|done]. intros x mx Hx. apply Hn. multiset_solver.
  - pose proof (ci_shape _ _ _ Hi p c Hp) as []. split; try done. simpl. by rewrite length_insert.
Qed.

(** [w'] is [w] but for the maps, and the maps of context [p]. *)
Record put_frame (p : ptr) (w w' : world) c c' : Prop := {
  pf_cx : w_cx w' = (w_cx w) <| cx_heap := <[p := c']> (cx_heap (w_cx w)) |>;
  pf_fl : w_fl w' = w_fl w;
  pf_apps : w_apps w' = w_apps w;
  pf_msg : c_msg c' = c_msg c;
  pf_perf : c_perf c' = c_perf c;
  pf_bal K : balanced K ∅ w w';
}.

Lemma put_frame_refl p w c : cx_heap (w_cx w) !! p = Some c -> put_frame p w w c c.
Proof.
  intros Hp. split; try done; [|intros K; by apply balanced_same].
  rewrite insert_id by done. by destruct (w_cx w).
Qed.

Lemma put_frame_trans p w1 w2 w3 c1 c2 c3 :
  put_frame p w1 w2 c1 c2 -> put_frame p w2 w3 c2 c3 -> put_frame p w1 w3 c1 c3.
Proof.
  intros [X1 F1 A1 M1 P1 B1] [X2 F2 A2 M2 P2 B2]. split; try congruence; [|intros K; by eapply balanced_then].
  rewrite X2, X1. simpl. by rewrite insert_insert_eq.
Qed.

Lemma put_bufs_swp e p rsp n k i off c w :
  ctx_inv ∅ k w -> 0 <= k -> cx_heap (w_cx w) !! p = Some c -> is_Some (c_msg c) ->
  (i + n <= nbufs (c_sc c))%nat ->
  swp (put_bufs e p rsp n i off) (fun _ w' => ctx_inv ∅ k w' /\ exists c', put_frame p w w' c c') w.
Proof.
  revert i off c w. induction n as [|n IH]; intros i off c w Hi Hk Hp Hmsg Hn.
  { apply swp_ret. split; [done|]. exists c. by apply put_frame_refl. }
  pose proof (ci_shape _ _ _ Hi p c Hp) as Hc. pose proof (nbufs_le (c_sc c)).
  destruct (lookup_lt_is_Some_2 (c_maps c) i) as [om Hom]; [pose proof (sh_maps _ Hc); lia|].
  cbn [put_bufs]. unfold swp. rewrite (bind_eq _ _ _ _ _ (load_ctx _ _ _ Hp)).
  rewrite (bind_eq _ _ _ _ _ (at_index_eq _ _ _ _ Hom)). destruct om as [q|].
  - destruct (drop_step p c i q k w Hi Hk Hp) as (s' & Es & Hi' & Hb'); [lia|done|].
    erewrite bind_eq by (unfold on_mm, zoom; by rewrite Es).
    match goal with |- context [(ctx_upd p ?g ≫= _) ?x] => rewrite (bind_eq _ _ _ _ _ (ctx_upd_eq p c g x Hp)) end.
    set (c1 := c <| c_maps := <[i := None]> (c_maps c) |>) in *.
    match goal with |- context [put_bufs _ _ _ _ _ _ ?x] => change x with (with_ctx p c1 (w <| w_mm := s' |>)) end.
    eapply swp_mono; [apply (IH (S i) _ c1); try done; [apply lookup_insert_eq|simpl; lia]|].
    intros err w' [Hi2 [c' Hf]]. split; [done|]. exists c'. eapply put_frame_trans; [|exact Hf]. by split.
  - assert (forall w', w' = w -> swp (if ie_copy_out e i then put_bufs e p rsp n (S i) (off + vb_payload_len (r_pra rsp i))
      else mret (VERIFY_err 0)) (fun _ w' => ctx_inv ∅ k w' /\ exists c', put_frame p w w' c c') w') as Hgo.
    { intros ? ->. destruct (ie_copy_out e i); [apply IH; try done; lia|].
      apply swp_ret. split; [done|]. exists c. by apply put_frame_refl. }
    assert (i < nbufs (c_sc c))%nat as Hlt by lia.
    rewrite (bind_eq _ _ _ _ _ (internal_buf_eq c i w Hc Hlt)).
    unfold internal_of. destruct (c_desc c) as [ds|] eqn:Ed; simpl.
    2: { apply (swp_bind _ _ (fun _ w' => w' = w)); [|intros _; apply Hgo].
         unfold swp, rx_read, mbind, M_bind, gets. destruct (_ <? _); [by eexists|done]. }
    destruct (lookup_lt_is_Some_2 ds i) as [d Hd]; [by rewrite (sh_desc _ Hc ds Ed)|]. rewrite Hd. simpl.
    apply (swp_bind _ _ (fun _ w' => w' = w)); [|intros _; apply Hgo].
    destruct (d_type d) eqn:Ety.
    1-2: unfold swp, rx_read, mbind, M_bind, gets; destruct (_ <? _); [by eexists|done].
    destruct (ci_descs _ _ _ Hi p c Hp Hmsg ds i d Ed Hd Ety) as (bp & x & ra & Eb & Hx & Hra & Hle).
    rewrite Eb. unfold swp. rewrite (bind_eq _ _ _ _ _ (load_buf _ _ _ Hx)), (bind_eq _ _ _ _ _ (at_index_eq _ _ _ _ Hra)).
    by zdec.
Qed.

Lemma find_zero fd s :
  mm_inv s -> vfastrpc_mmap_find fd 0 0 0 0 s =
    Ok (match first_map (find_match fd 0 0) (mm_heap s) (mm_list s) with
        | None => (- ENOTTY, None)
        | Some (q, _) => (0, Some q)
        end) s.
Proof.
  intros Hi. unfold vfastrpc_mmap_find. change (u64 (0 + 0) <? 0) with false. change (is_heap_addr 0) with false.
  cbv iota. erewrite bind_eq by done. rewrite find_loop_spec by (intros; by apply inv_is_Some).
  by destruct (first_map _ _ _) as [[q m]|].
Qed.

(** The DSP releases handles; only maps at address 0 are touched. *)
Lemma put_fds_ok rsp n i T k s :
  maps_ok T k s -> nonzero T s -> 0 <= k ->
  exists s', put_fds rsp n i s = Ok () s' /\ maps_ok T k s' /\ shrunk s s' /\ forall K, acct K T s T s'.
Proof.
  revert i s. induction n as [|n IH]; intros i s Hok Hn Hk; [by exists s|]. cbn [put_fds].
  destruct (r_fdlist rsp i =? 0); [by exists s|].
  rewrite (bind_eq _ _ _ _ _ (find_zero _ s (mo_inv _ _ _ Hok))).
  destruct (first_map _ _ _) as [[q m]|] eqn:E; simpl.
  - apply first_map_Some in E as (Hin & Hm & Hma). unfold find_match in Hma.
    apply andb_true_iff in Hma as [[Hv%Z.leb_le _]%andb_true_iff _].
    assert (q ∉ T) as Hq.
    { intros HT. destruct (mo_zero _ _ _ Hok q m Hm). apply (Hn q m HT Hm). lia. }
    destruct (drop_unheld_ok T k s q Hok Hk Hq) as (s1 & E1 & Hok1 & Hs1 & Ha1); [by eexists|].
    destruct (IH (S i) s1 Hok1) as (s2 & E2 & Hok2 & Hs2 & Ha2); [by eapply nonzero_shrunk|done|].
    exists s2. unfold when. erewrite bind_eq by exact E1. split_and!; try done; [by etrans|]. intros K. by eapply acct_trans.
  - destruct (IH (S i) s Hok Hn Hk) as (s2 & E2 & Hr). exists s2. split; [exact E2|done].
Qed.

Lemma put_args_swp e p k c w :
  ctx_inv ∅ k w -> 0 <= k -> cx_heap (w_cx w) !! p = Some c ->
  swp (put_args e p) (fun _ w' => ctx_inv ∅ k w' /\ exists c', put_frame p w w' c c') w.
Proof.
  intros Hi Hk Hp. assert (exists c', put_frame p w w c c') as Hrefl by (exists c; by apply put_frame_refl).
  unfold put_args, swp. rewrite (bind_eq _ _ _ _ _ (load_ctx _ _ _ Hp)).
  destruct (c_msg c) as [mp|] eqn:Em; [|done].
  destruct (proj1 (ci_linked _ _ _ Hi) p c mp Hp Em) as (m & Hm & _).
  rewrite (bind_eq _ _ _ _ _ (load_msg _ _ _ Hm)). erewrite bind_eq by done.
  destruct (rxbuf m) as [r|]; [|done]. destruct (negb _); [done|]. cbv zeta.
  change (swp (err ← put_bufs e p (rxmem (w_apps w) r) (nbufs (c_sc c) - ninbufs (c_sc c)) (ninbufs (c_sc c))
      (metalen (nargs (c_sc c)) + c_outbufs_offset c);
    if negb (err =? 0) then mret err
    else on_mm (put_fds (rxmem (w_apps w) r) (Z.to_nat M_FDLIST) 0);;
         mret (VERIFY 0 (negb (c_crc c) || ie_copy_crc e)))
    (fun _ w' => ctx_inv ∅ k w' /\ exists c', put_frame p w w' c c') w).
  assert (is_Some (c_msg c)) as Hs by by eexists.
  eapply swp_bind; [apply (put_bufs_swp _ _ _ _ k _ _ c w Hi Hk Hp Hs)|].
  { unfold nbufs, ninbufs. pose proof (INBUFS_range (c_sc c)). pose proof (OUTBUFS_range (c_sc c)). lia. }
  intros err w1 [Hi1 [c1 Hf1]]. destruct (negb _); [by apply swp_ret; eauto|].
  destruct (put_fds_ok (rxmem (w_apps w) r) (Z.to_nat M_FDLIST) 0 _ k (w_mm w1) (ci_maps _ _ _ Hi1)) as (s' & Es & Hok & Hsh & Hac);
    [|done|].
  { intros q mq Hq. apply (ci_nonzero _ _ _ Hi1). multiset_solver. }
  eapply swp_zoom_eq; [exact Es|]. apply swp_ret. split.
  - pose proof (ci_rx _ _ _ Hi1) as Hrx. destruct Hi1. split; try done; [by eapply rx_inv_cx|by eapply nonzero_shrunk].
  - exists c1. destruct Hf1 as [X1 F1 A1 M1 P1 B1]. split; try done. intros K. eapply balanced_then; [apply B1|].
    split; [|done]. specialize (Hac K). by rewrite (left_id_L ∅ (⊎)) in Hac |- *.
Qed.
End wait.

(** ** Allocating a context *)

Section alloc.
Context `{HS : adsprpc_shared, !adsprpc_shared_ok HS}.
Context `{KC : kernel_config, !kernel_config_ok KC}.
Context `{V : virtqueue, !virtqueue_ok V}.
Implicit Types (w : world) (c : vfastrpc_invoke_ctx).

(** A context of [n] arguments that holds nothing. *)
Record young (n : nat) c : Prop := {
  yg_msg : c_msg c = None;
  yg_desc : c_desc c = None;
  yg_maps : c_maps c = replicate n None;
  yg_lpra : length (c_lpra c) = n;
  yg_attrs : length (c_attrs c) = n;
  yg_fds l : c_fds c = Some l -> length l = n;
  yg_sc : (nargs (c_sc c) <= n)%nat;
}.

Lemma young_maps n c : young n c -> ctx_maps c = ∅.
Proof.
  intros Hy. unfold ctx_maps, maps_of. rewrite (yg_maps _ _ Hy), take_replicate.
  by induction (nbufs (c_sc c) `min` n)%nat.
Qed.

Lemma young_shape n c : young n c -> ctx_shape c.
Proof.
  intros [Em Ed Emp El Ea Ef Es]. split; rewrite ?Emp, ?length_replicate, ?El, ?Ea; try done.
  - intros l E. by rewrite (Ef l E).
  - congruence.
Qed.

(** [w] with context [p], and with its perf record. *)
Definition grow (p : ptr) c w : world :=
  w <| w_cx := (w_cx w) <| cx_heap := <[p := c]> (cx_heap (w_cx w)) |>
                <| cx_perfs := cx_perfs (w_cx w) + perf_left (w_fl w) c |> |>.

Lemma upd_with p c g w : ctx_upd p g (with_ctx p c w) = Ok () (with_ctx p (g c) w).
Proof.
  rewrite (ctx_upd_eq p c) by apply lookup_insert_eq. unfold with_ctx. simpl. by rewrite insert_insert_eq.
Qed.

Lemma young_inv n p c k w :
  ctx_inv ∅ k w -> cx_heap (w_cx w) !! p = None -> young n c -> ctx_inv ∅ k (grow p c w).
Proof.
  intros [Hrx Hmp Hnz Hbf Hnd Hap Hsh Hlk Hds Hls Hsz] Hp Hy.
  assert (ctx_bufs c = ∅) as Eb by (unfold ctx_bufs; by rewrite (yg_desc _ _ Hy)).
  assert (hsum ctx_maps (<[p := c]> (cx_heap (w_cx w))) = hsum ctx_maps (cx_heap (w_cx w))) as E1.
  { rewrite hsum_insert, (young_maps n) by done. multiset_solver. }
  assert (hsum ctx_bufs (<[p := c]> (cx_heap (w_cx w))) = hsum ctx_bufs (cx_heap (w_cx w))) as E2.
  { rewrite hsum_insert, Eb by done. multiset_solver. }
  split; simpl; rewrite ?E1, ?E2; try done.
  - eapply rx_inv_cx; [exact Hrx|done|]. intros q Hq. simpl. rewrite lookup_insert. case_decide; [by eexists|done].
  - intros q cq. rewrite lookup_insert. case_decide; [intros [= <-]; by eapply young_shape|apply Hsh].
  - destruct Hlk as [Hl1 Hl2]. split.
    + intros q cq mp. rewrite lookup_insert. case_decide; [|apply Hl1]. intros [= <-]. by rewrite (yg_msg _ _ Hy).
    + intros mp m q Hm Hmc. destruct (Hl2 mp m q Hm Hmc) as (cq & Hq & Hcq). exists cq.
      rewrite lookup_insert_ne by congruence. done.
  - intros q cq. rewrite lookup_insert. case_decide; [|apply Hds]. intros [= <-]. rewrite (yg_msg _ _ Hy). by intros [].
  - destruct Hls as [Hn Hl Hs]. split; [done| |].
    + intros q Hq. rewrite lookup_insert. case_decide; [by eexists|by apply Hl].
    + intros q cq Hq. rewrite lookup_insert. case_decide; [|by apply Hs]. subst q.
      destruct (Hl p) as [x Hx]; [set_solver|congruence].
Qed.

Lemma grow_balanced K n p c w : cx_heap (w_cx w) !! p = None -> young n c -> balanced K ∅ w (grow p c w).
Proof.
  intros Hp Hy. apply balanced_holds; [done..| |]; unfold holds, bholds; simpl; rewrite hsum_insert by done.
  - by rewrite (young_maps n), (left_id_L ∅ (⊎)).
  - unfold ctx_bufs at 1. by rewrite (yg_desc _ _ Hy), (left_id_L ∅ (⊎)).
Qed.

Lemma unlisted p k w : ctx_inv ∅ k w -> cx_heap (w_cx w) !! p = None -> p ∉ cx_pending (w_cx w) ++ cx_interrupted (w_cx w).
Proof. intros Hi Hp Hin. destruct (li_live _ _ _ (ci_lists _ _ _ Hi) p Hin). congruence. Qed.

(** The bail of [context_alloc]: nothing is left. *)
Lemma bail_ok n p c err k w :
  ctx_inv ∅ k w -> 0 <= k -> cx_heap (w_cx w) !! p = None -> young n c ->
  exists w', alloc_bail p err (grow p c w) = Ok (err, None) w' /\ ctx_inv ∅ k w' /\ w_cx w' = w_cx w /\
    w_fl w' = w_fl w /\ msgs (w_apps w') = msgs (w_apps w) /\ buf_size (w_apps w') = buf_size (w_apps w) /\
    forall K, balanced K ∅ w w'.
Proof.
  intros Hi Hk Hp Hy. pose proof (unlisted p k w Hi Hp) as Hun.
  destruct (context_free_ok p c ∅ k (grow p c w)) as (w' & E & Hi' & Ecx & Efl & _ & Em & Eb & _ & _ & Hba); try done.
  { by eapply young_inv. } { apply lookup_insert_eq. }
  exists w'. unfold alloc_bail. rewrite (bind_eq _ _ _ _ _ E). split; [done|]. split; [done|]. split.
  - rewrite Ecx. simpl. rewrite delete_insert_id by done. rewrite !hlist_del_id by set_solver.
    replace (_ + _ - _) with (cx_perfs (w_cx w)) by lia. by destruct (w_cx w).
  - rewrite (yg_msg _ _ Hy) in Em. split_and!; try done.
    intros K. eapply balanced_then; [by eapply grow_balanced|apply Hba].
Qed.

Lemma grow_noperf p c w : c_perf c = false -> with_ctx p c w = grow p c w.
Proof.
  intros E. unfold with_ctx, grow, perf_left. rewrite E, andb_false_r, Z.add_0_r. by destruct w as [? ? ? []].
Qed.

(** What the user may pass. *)
Definition args_ok (ia : invoke_args) : Prop :=
  forall pra j, ia_pra ia = Some pra -> (j < nbufs (ia_sc ia))%nat -> arg_ok (pra j).

(** No argument has the attribute that keeps its map. *)
Definition args_keepless (ia : invoke_args) : Prop :=
  forall g j, ia_attrs ia = Some (Some g) -> has_bit (g j) FASTRPC_ATTR_KEEP_MAP = false.

(** What [context_alloc] leaves. *)
Definition alloc_post (k : Z) (ia : invoke_args) w (r : Z * option ptr) w' : Prop :=
  ctx_inv ∅ k w' /\ (forall K, balanced K ∅ w w') /\ w_fl w' = w_fl w /\ msgs (w_apps w') = msgs (w_apps w) /\
  buf_size (w_apps w') = buf_size (w_apps w) /\
  match r.2 with
  | None => r.1 <> 0 /\ w_cx w' = w_cx w
  | Some p => r.1 = 0 /\ exists c, cx_heap (w_cx w) !! p = None /\ blank c /\ c_sc c = ia_sc ia /\
      (args_keepless ia -> no_keep (c_attrs c)) /\
      w_cx w' = (w_cx w) <| cx_heap := <[p := c]> (cx_heap (w_cx w)) |>
                  <| cx_pending := p :: cx_pending (w_cx w) |>
                  <| cx_perfs := cx_perfs (w_cx w) + perf_left (w_fl w) c |>
  end.

Lemma alloc_job_ok n p c ia k w :
  ctx_inv ∅ k w -> 0 <= k -> cx_heap (w_cx w) !! p = None -> young n c -> blank c -> c_sc c = ia_sc ia ->
  (args_keepless ia -> no_keep (c_attrs c)) ->
  exists r w', context_alloc_job p ia (grow p c w) = Ok r w' /\ alloc_post k ia w r w'.
Proof.
  intros Hi Hk Hp Hy Hb Hsc Hnk. unfold context_alloc_job.
  assert (forall c, young n c -> blank c -> c_sc c = ia_sc ia -> (args_keepless ia -> no_keep (c_attrs c)) -> exists w',
    (on_cx (pending_add_head p);; mret (0, Some p)) (grow p c w) = Ok (0, Some p) w' /\
    alloc_post k ia w (0, Some p) w') as Hend.
  { clear c Hy Hb Hsc Hnk. intros c Hy Hb Hsc Hnk. pose proof (unlisted p k w Hi Hp) as Hun.
    erewrite bind_eq by (unfold on_cx, zoom, pending_add_head; simpl; by rewrite decide_False).
    eexists. split; [done|]. split.
    - destruct (young_inv n p c k w Hi Hp Hy) as [Hrx Hmp Hnz Hbf Hnd Hap Hsh Hlk Hds Hls Hsz].
      split; try done; [by eapply rx_inv_cx|]. simpl in *. destruct Hls as [Hn Hl Hs]. split; try done.
      + simpl. by apply NoDup_cons.
      + intros q [->|Hq]%elem_of_cons; [rewrite lookup_insert_eq; by eexists|by apply Hl].
    - split; [intros K; eapply balanced_then; [by eapply grow_balanced|by apply balanced_same]|].
      split_and!; try done. simpl. split; [done|]. exists c. by split_and!. }
  destruct (ia_job ia) as [[[isasync jobid]|]|].
  - set (c' := c <| c_isasyncjob := isasync |> <| c_jobid := jobid |>).
    erewrite bind_eq; [|apply (ctx_upd_eq p c); apply lookup_insert_eq].
    destruct (Hend c') as (w' & E & Hpost); [by destruct Hy|by destruct Hb|done..|].
    eexists _, w'. split; [|exact Hpost]. rewrite <- E. f_equal.
    unfold with_ctx, grow. simpl. by rewrite insert_insert_eq.
  - destruct (bail_ok n p c (VERIFY_err 0) k w Hi Hk Hp Hy) as (w' & E & Hi' & Ecx & Efl & Em & Eb & Hba).
    eexists _, w'. split; [exact E|]. split_and!; try done. simpl. split; [apply VERIFY_err_nonzero|done].
  - erewrite bind_eq by done. destruct (Hend c Hy Hb Hsc Hnk) as (w' & E & Hpost). by eexists _, w'.
Qed.

Lemma young_blank pra ia c :
  args_ok ia -> ia_pra ia = Some pra -> young (nargs (ia_sc ia)) c -> c_sc c = ia_sc ia ->
  c_lpra c = pra <$> seq 0 (nargs (ia_sc ia)) -> blank c.
Proof.
  intros Ha Ep Hy Es El. split; [apply Hy..| |].
  - intros j Hj. rewrite (yg_maps _ _ Hy). apply lookup_replicate_2. rewrite Es in Hj. lia.
  - intros j ra Hj. rewrite El, list_lookup_fmap. intros (x & Hx & ->)%fmap_Some.
    apply lookup_seq in Hx as [-> _]. rewrite Es in Hj. by apply Ha.
Qed.

Lemma alloc_tail_ok e sn p c pra ia k w :
  ctx_inv ∅ k w -> 0 <= k -> cx_heap (w_cx w) !! p = None -> young (nargs (ia_sc ia)) c -> c_perf c = false ->
  args_ok ia -> ia_pra ia = Some pra -> c_lpra c = pra <$> seq 0 (nargs (ia_sc ia)) -> (args_keepless ia -> no_keep (c_attrs c)) ->
  exists r w', context_alloc_tail e sn p ia (with_ctx p c w) = Ok r w' /\ alloc_post k ia w r w'.
Proof.
  intros Hi Hk Hp Hy Hpf Ha Ep El Hnk. unfold context_alloc_tail. erewrite bind_eq by done.
  rewrite (bind_eq _ _ _ _ _ (upd_with _ _ _ _)). set (c1 := c <| c_sc := _ |> <| c_handle := _ |> <| c_seq_num := _ |>
    <| c_pid := _ |> <| c_tgid := _ |> <| c_crc := _ |>).
  assert (young (nargs (ia_sc ia)) c1) as Hy1 by (destruct Hy; by split).
  assert (blank c1) as Hb1 by by eapply young_blank.
  change (w_fl (with_ctx p c w)) with (w_fl w).
  destruct (negb (fl_profile (w_fl w) =? 0)) eqn:Epr.
  - destruct (ie_kzalloc_perf e); simpl.
    + erewrite bind_eq by done.
      match goal with |- context [(ctx_upd p ?g ≫= _) ?x] =>
        rewrite (bind_eq _ _ _ _ _ (ctx_upd_eq p c1 g x ltac:(apply lookup_insert_eq))) end.
      set (c2 := c1 <| c_perf := true |>).
      destruct (alloc_job_ok (nargs (ia_sc ia)) p c2 ia k w) as (r & w' & E & Hpost); try done;
        [by destruct Hy1|by destruct Hb1|].
      exists r, w'. split; [|done]. rewrite <- E. f_equal. unfold with_ctx, grow, perf_left. simpl.
      by rewrite Epr, insert_insert_eq.
    + rewrite grow_noperf by done.
      destruct (bail_ok _ p c1 (- ENOMEM) k w Hi Hk Hp Hy1) as (w' & E & Hi' & Ecx & Efl & Em & Eb & Hba).
      eexists _, w'. split; [exact E|]. by split_and!.
  - rewrite grow_noperf by done. by eapply alloc_job_ok.
Qed.

Lemma context_alloc_ok e sn ia k w :
  ctx_inv ∅ k w -> 0 <= k -> args_ok ia ->
  exists r w', context_alloc e sn ia w = Ok r w' /\ alloc_post k ia w r w'.
Proof.
  intros Hi Hk Ha. unfold context_alloc. destruct (ie_kzalloc_ctx e); cbn [negb].
  2: { eexists _, w. split; [done|]. split_and!; try done; [intros K; by apply balanced_same|].
       simpl. split; [apply VERIFY_err_nonzero|done]. }
  erewrite bind_eq by done. cbv zeta. set (p := new_ptr (cx_heap (w_cx w))).
  assert (cx_heap (w_cx w) !! p = None) as Hp by apply new_ptr_None.
  set (n := nargs (ia_sc ia)). erewrite bind_eq by done.
  match goal with |- context [match ia_pra ia with Some _ => _ | None => _ end ?x] =>
    change x with (with_ctx p (zero_ctx n) w) end.
  assert (nargs 0 = 0%nat) as E0.
  { unfold nargs. by rewrite LENGTH_sum, INBUFS_0, OUTBUFS_0, INHANDLES_0, OUTHANDLES_0. }
  assert (young n (zero_ctx n)) as Hy0.
  { split; simpl; rewrite ?length_replicate; try done; [|rewrite E0; lia]. intros l [= <-]. by rewrite length_replicate. }
  assert (forall c, young n c -> c_perf c = false -> exists r w',
    alloc_bail p (VERIFY_err 0) (with_ctx p c w) = Ok r w' /\ alloc_post k ia w r w') as Hbail.
  { intros c Hy Hpf. rewrite grow_noperf by done.
    destruct (bail_ok n p c (VERIFY_err 0) k w Hi Hk Hp Hy) as (w' & E & Hi' & Ecx & Efl & Em & Eb & Hba).
    eexists _, w'. split; [exact E|]. split_and!; try done. simpl. split; [apply VERIFY_err_nonzero|done]. }
  destruct (ia_pra ia) as [pra|] eqn:Epra; [|by apply Hbail].
  rewrite (bind_eq _ _ _ _ _ (upd_with _ _ _ _)). set (c1 := (zero_ctx n) <| c_lpra := pra <$> seq 0 n |>).
  assert (young n c1) as Hy1 by (destruct Hy0; split; try done; simpl; by rewrite length_fmap, length_seq).
  assert (forall g : option (list Z), (forall l, g = Some l -> length l = n) ->
    young n (c1 <| c_fds := g |>)) as Hy2 by (intros g Hg; destruct Hy1; by split).
  assert (forall fds : option (option (nat -> Z)), fds <> Some None -> exists r w',
    (ctx_upd p (fun c => c <| c_fds := match fds with Some (Some g) => Some (g <$> seq 0 n) | _ => None end |>);;
     match ia_attrs ia with
     | Some None => alloc_bail p (VERIFY_err 0)
     | Some (Some g) => ctx_upd p (fun c => c <| c_attrs := g <$> seq 0 n |>);; context_alloc_tail e sn p ia
     | None => context_alloc_tail e sn p ia
     end) (with_ctx p c1 w) = Ok r w' /\ alloc_post k ia w r w') as Hgo.
  { intros fds _. rewrite (bind_eq _ _ _ _ _ (upd_with _ _ _ _)). set (c2 := c1 <| c_fds := match fds with Some (Some g) => Some (g <$> seq 0 n) | _ => None end |>).
    assert (young n c2) as Hyy.
    { apply Hy2. intros l. destruct fds as [[g|]|]; [|done..]. intros [= <-]. by rewrite length_fmap, length_seq. }
    destruct (ia_attrs ia) as [[g|]|] eqn:Eat.
    - rewrite (bind_eq _ _ _ _ _ (upd_with _ _ _ _)). eapply alloc_tail_ok; try done.
      + destruct Hyy. split; try done. simpl. by rewrite length_fmap, length_seq.
      + intros Hnk. apply Forall_forall. intros x (j & -> & _)%list_elem_of_fmap. by eapply Hnk.
    - by apply Hbail.
    - eapply alloc_tail_ok; try done. intros _. simpl. apply Forall_forall. by intros x (-> & _)%elem_of_replicate. }
  destruct (ia_fds ia) as [[g|]|]; [by apply (Hgo (Some (Some g)))|by apply Hbail|by apply (Hgo None)].
Qed.
End alloc.

(** ** Sending, interrupting and resuming *)

Section run.
Context `{HS : adsprpc_shared, !adsprpc_shared_ok HS}.
Context `{KC : kernel_config, !kernel_config_ok KC}.
Context `{V : virtqueue, !virtqueue_ok V}.
Implicit Types (w : world) (c : vfastrpc_invoke_ctx).

Lemma send_ok p c k w :
  ctx_inv ∅ k w -> cx_heap (w_cx w) !! p = Some c -> unsent c (w_apps w) ->
  exists err w', virt_fastrpc_invoke p w = Ok err w' /\ ctx_inv ∅ k w' /\ w_cx w' = w_cx w /\
    msgs (w_apps w') = msgs (w_apps w) /\ forall K, balanced K ∅ w w'.
Proof.
  intros Hi Hp (mp & m & buf & Em & Hm & Hb & Hh). unfold virt_fastrpc_invoke.
  rewrite (bind_eq _ _ _ _ _ (load_ctx _ _ _ Hp)), Em, (bind_eq _ _ _ _ _ (load_msg _ _ _ Hm)), Hb.
  pose proof (ci_rx _ _ _ Hi) as [Ha Hc Hr Hs Hms].
  destruct (txbuf_send_ok buf (u32 (c_size c)) (w_apps w) Ha Hh) as (err & q & _ & E & Ha').
  exists err. eexists. split; [by apply on_apps_eq|]. split; [|split; [done|split; [by destruct (err =? 0)|intros K; by apply balanced_same]]].
  apply ctx_inv_apps; [done| |by destruct (err =? 0)..].
  split; simpl; [done|..]; by destruct (err =? 0).
Qed.

Lemma lists_move h p c pend intr :
  lists_ok h pend intr -> h !! p = Some c -> is_Some (c_msg c) ->
  lists_ok h (hlist_del p pend) (p :: hlist_del p intr) /\ lists_ok h (p :: hlist_del p pend) (hlist_del p intr).
Proof.
  intros [Hn Hl Hs] Hp Hm. assert (p ∉ hlist_del p pend ++ hlist_del p intr) as Hno.
  { rewrite <- hlist_del_app, elem_of_hlist_del. naive_solver. }
  assert (NoDup (p :: hlist_del p pend ++ hlist_del p intr)) as Hnd.
  { apply NoDup_cons. split; [done|]. rewrite <- hlist_del_app. by apply NoDup_hlist_del. }
  assert (forall q, q ∈ p :: hlist_del p pend ++ hlist_del p intr -> is_Some (h !! q)) as Hlive.
  { intros q [->|Hq]%elem_of_cons; [by eexists|]. rewrite <- hlist_del_app in Hq.
    apply elem_of_hlist_del in Hq as [Hq _]. by apply Hl. }
  split; split; try done.
  - rewrite <- Permutation_middle. done.
  - intros q Hq. apply Hlive. rewrite Permutation_middle. done.
  - intros q cq [->|Hq]%elem_of_cons Hc; [by simplify_eq|]. apply elem_of_hlist_del in Hq as [Hq _]. by apply (Hs q).
  - intros q cq [Hq _]%elem_of_hlist_del Hc. by apply (Hs q).
Qed.

(** Only the lists of contexts change. *)
Lemma ctx_inv_lists k w s' :
  ctx_inv ∅ k w -> cx_heap s' = cx_heap (w_cx w) -> lists_ok (cx_heap s') (cx_pending s') (cx_interrupted s') ->
  ctx_inv ∅ k (w <| w_cx := s' |>).
Proof.
  intros [Hrx Hmp Hnz Hbf Hnd Hap Hsh Hlk Hds Hls Hsz] E Hl. split; simpl; rewrite ?E; try done.
  - eapply rx_inv_cx; [exact Hrx|done|]. simpl. by rewrite E.
  - by rewrite <- E.
Qed.

Lemma save_ok p c k w :
  ctx_inv ∅ k w -> cx_heap (w_cx w) !! p = Some c -> is_Some (c_msg c) ->
  exists w', context_save_interrupted p w = Ok () w' /\ ctx_inv ∅ k w' /\
    cx_heap (w_cx w') = cx_heap (w_cx w) /\ w_apps w' = w_apps w /\ p ∈ cx_interrupted (w_cx w') /\
    forall K, balanced K ∅ w w'.
Proof.
  intros Hi Hp Hm. destruct (lists_move _ p c _ _ (ci_lists _ _ _ Hi) Hp Hm) as [Hl _].
  unfold context_save_interrupted. erewrite bind_eq by done.
  unfold on_cx, zoom, interrupted_add_head. simpl. rewrite decide_False.
  2: { rewrite <- hlist_del_app, elem_of_hlist_del. naive_solver. }
  eexists. split; [done|]. split; [by apply ctx_inv_lists|].
  split_and!; try done; [by left|intros K; by apply balanced_same].
Qed.

Lemma find_ctx_ok l pid s :
  (forall q, q ∈ l -> is_Some (cx_heap s !! q)) ->
  exists r, find_ctx l pid s = Ok r s /\
    match r with None => True | Some p => p ∈ l /\ exists c, cx_heap s !! p = Some c /\ c_pid c = pid end.
Proof.
  induction l as [|p l IH]; intros Hl; [by exists None|]. destruct (Hl p) as [c Hc]; [by left|].
  cbn [find_ctx]. erewrite bind_eq by (unfold ctx_load; by rewrite Hc).
  destruct (Z.eqb_spec (c_pid c) pid); [exists (Some p); split; [done|]; split; [by left|by exists c]|].
  destruct IH as (r & E & Hr); [intros; apply Hl; by right|]. exists r. split; [done|].
  destruct r; [|done]. destruct Hr. split; [by right|done].
Qed.

Lemma restore_ok pid sc k w :
  ctx_inv ∅ k w ->
  exists r w', on_cx (context_restore_interrupted pid sc) w = Ok r w' /\ ctx_inv ∅ k w' /\
    cx_heap (w_cx w') = cx_heap (w_cx w) /\ w_apps w' = w_apps w /\ w_fl w' = w_fl w /\ (forall K, balanced K ∅ w w') /\
    match r.2 with
    | None => w' = w
    | Some p => r.1 = 0 /\ p ∈ cx_interrupted (w_cx w) /\ exists c, cx_heap (w_cx w) !! p = Some c /\
        c_pid c = pid /\ c_sc c = sc /\ is_Some (c_msg c)
    end.
Proof.
  intros Hi. pose proof (ci_lists _ _ _ Hi) as Hls.
  destruct (find_ctx_ok (cx_interrupted (w_cx w)) pid (w_cx w)) as (r & E & Hr).
  { intros q Hq. apply (li_live _ _ _ Hls). set_solver. }
  unfold on_cx, zoom, context_restore_interrupted. erewrite bind_eq by done. rewrite (bind_eq _ _ _ _ _ E).
  destruct r as [p|]; [|eexists (0, None), w; destruct w; split_and!; try done; intros K; by apply balanced_same].
  destruct Hr as (Hin & c & Hp & Hpid). erewrite bind_eq by (unfold ctx_load; by rewrite Hp).
  destruct (Z.eqb_spec sc (c_sc c)) as [Es|Es]; simpl; [|eexists (- EINVAL, None), w; destruct w; split_and!; try done; intros K; by apply balanced_same].
  assert (is_Some (c_msg c)) as Hm by by apply (li_sent _ _ _ Hls p c).
  destruct (lists_move _ p c _ _ Hls Hp Hm) as [_ Hl]. erewrite bind_eq by done.
  erewrite bind_eq; [|unfold pending_add_head; simpl; rewrite decide_False; [done|]].
  2: { rewrite <- hlist_del_app, elem_of_hlist_del. naive_solver. }
  eexists _, _. split; [done|]. split; [by apply ctx_inv_lists|]. split; [done|]. split; [done|]. split; [done|].
  split; [intros K; by apply balanced_same|]. split; [done|]. split; [done|]. exists c. by split_and!.
Qed.
End run.
