(* ===== verification/InvokeSafe.v ===== *)
(** * The properties of remote invocation *)
From S2P Require Import Prelude Shared Mmap MmapFacts Pages Buf BufFacts Apps AppsFacts World WorldFacts Transact MapOps MapFacts Invoke CtxFacts CtxInv ArgFacts DescFacts MsgFacts InvokeFacts.

(** [m] returns only values in [P]. *)
Definition yields {S A} (m : M S A) (P : A -> Prop) : Prop :=
  forall s, match m s with Ok a _ => P a | _ => True end.

Lemma yields_ret {S A} (a : A) (P : A -> Prop) : P a -> yields (S := S) (mret a) P.
Proof. by intros Ha s. Qed.

Lemma yields_bind {S A B} (m : M S A) (k : A -> M S B) Q P :
  yields m Q -> (forall a, Q a -> yields (k a) P) -> yields (m ≫= k) P.
Proof.
  intros Hm Hk s. unfold mbind, M_bind. specialize (Hm s). destruct (m s) as [a s'| |]; [|done..]. by apply Hk.
Qed.

Lemma yields_any {S A B} (m : M S A) (k : A -> M S B) P : (forall a, yields (k a) P) -> yields (m ≫= k) P.
Proof. intros Hk. apply (yields_bind _ _ (fun _ => True)); [|by intros; apply Hk]. intros s. by destruct (m s). Qed.

Ltac yields_if := cbv zeta; lazymatch goal with |- yields (if ?b then _ else _) _ => destruct b end.

Section safe.
Context `{HS : adsprpc_shared, !adsprpc_shared_ok HS}.
Context `{KC : kernel_config, !kernel_config_ok KC}.
Context `{V : virtqueue, !virtqueue_ok V}.
Implicit Types (w : world) (c : vfastrpc_invoke_ctx).

(** Every message of [w'] is one of [w], and not [c]'s. *)
Definition msgs_within (om : option ptr) w w' : Prop :=
  forall mp, is_Some (msgs (w_apps w') !! mp) -> is_Some (msgs (w_apps w) !! mp) /\ om <> Some mp.

(** The end of a wait: the context is gone with its message, or it is kept
    for the retry. *)
Definition waited (k : Z) (p : ptr) c w (err : Z) w' : Prop :=
  ctx_inv ∅ k w' /\ (forall K, balanced K ∅ w w') /\
  ((cx_heap (w_cx w') = delete p (cx_heap (w_cx w)) /\ msgs_within (c_msg c) w w') \/
   (err = - ERESTARTSYS /\ cx_heap (w_cx w') = cx_heap (w_cx w) /\ p ∈ cx_interrupted (w_cx w') /\
    msgs_within None w w')).

Lemma free_waited p c err k w :
  ctx_inv ∅ k w -> 0 <= k -> cx_heap (w_cx w) !! p = Some c ->
  exists w', invoke_bail p err w = Ok err w' /\ ctx_inv ∅ k w' /\
    cx_heap (w_cx w') = delete p (cx_heap (w_cx w)) /\ msgs_within (c_msg c) w w' /\ forall K, balanced K ∅ w w'.
Proof.
  intros Hi Hk Hp. destruct (context_free_ok p c ∅ k w Hi Hk Hp) as (w' & E & Hi' & Ecx & _ & _ & Em & _ & _ & _ & Hba).
  exists w'. unfold invoke_bail. rewrite (bind_eq _ _ _ _ _ E). split; [done|]. split; [done|].
  split; [by rewrite Ecx|]. split; [|done]. intros mp Hmp. rewrite Em in Hmp. destruct (c_msg c) as [x|]; [|done].
  destruct Hmp as [m [Hne Hm]%lookup_delete_Some]. split; [by eexists|congruence].
Qed.

Lemma rx_ok_heap w w' : rx_ok w w' -> cx_heap (w_cx w') = cx_heap (w_cx w) /\ msgs_within None w w'.
Proof.
  intros [Hf _]. pose proof (rf_cx _ _ Hf) as Ecx. unfold cx_rest in Ecx. injection Ecx as Eh _ _ _.
  split; [done|]. intros mp [m Hm]. split; [|done]. pose proof (rf_msgs _ _ Hf mp) as Hs. rewrite Hm in Hs.
  inversion Hs; subst. by eexists.
Qed.

Lemma invoke_wait_swp e p c k w :
  ctx_inv ∅ k w -> 0 <= k -> cx_heap (w_cx w) !! p = Some c -> is_Some (c_msg c) ->
  swp (invoke_wait e p) (waited k p c w) w.
Proof.
  intros Hi Hk Hp [mp Em]. unfold invoke_wait, swp. rewrite (bind_eq _ _ _ _ _ (load_ctx _ _ _ Hp)), Em.
  destruct (proj1 (ci_linked _ _ _ Hi) p c mp Hp Em) as (m & Hm & _).
  change (swp (interrupted ← wait_for_completion_interruptible (ie_events e) (ie_signal e) mp;
    if negb (interrupted =? 0) then context_save_interrupted p;; mret interrupted
    else err ← put_args e p; invoke_bail p (VERIFY 0 (err =? 0))) (waited k p c w) w).
  eapply swp_bind; [by apply wait_swp; [apply Hi|eexists]|]. intros r w1 [Hrx Hr].
  pose proof (ctx_inv_rx _ _ _ _ Hi Hrx) as Hi1. destruct (rx_ok_heap _ _ Hrx) as [Eh1 Hw1].
  assert (cx_heap (w_cx w1) !! p = Some c) as Hp1 by by rewrite Eh1.
  destruct (Z.eqb_spec r 0) as [->|Hne]; simpl.
  - eapply swp_bind; [by apply (put_args_swp e p k c)|]. intros err w2 [Hi2 [c2 Hf]].
    assert (cx_heap (w_cx w2) !! p = Some c2) as Hp2 by (rewrite (pf_cx _ _ _ _ _ Hf); apply lookup_insert_eq).
    destruct (free_waited p c2 (VERIFY 0 (err =? 0)) k w2 Hi2 Hk Hp2) as (w3 & E & Hi3 & Eh3 & Hm3 & Hb3).
    unfold swp. rewrite E. split; [done|]. split.
    { intros K. eapply balanced_then; [apply xfer_balanced, rx_frame_xfer, Hrx|].
      eapply balanced_then; [apply (pf_bal _ _ _ _ _ Hf)|apply Hb3]. }
    left. split.
    + rewrite Eh3, (pf_cx _ _ _ _ _ Hf). simpl. by rewrite delete_insert_eq, Eh1.
    + intros x Hx. destruct (Hm3 x Hx) as [Hx2 Hx3]. rewrite (pf_apps _ _ _ _ _ Hf) in Hx2.
      rewrite (pf_msg _ _ _ _ _ Hf) in Hx3. split; [by apply Hw1|done].
  - destruct Hr as [Hr| ->]; [done|].
    destruct (save_ok p c k w1 Hi1 Hp1) as (w2 & E & Hi2 & Eh2 & Ea2 & Hin & Hb2); [by eexists|].
    unfold swp. rewrite (bind_eq _ _ _ _ _ E). split; [done|]. split.
    { intros K. eapply balanced_then; [apply xfer_balanced, rx_frame_xfer, Hrx|apply Hb2]. }
    right. split; [done|]. split; [by rewrite Eh2|].
    split; [done|]. intros x Hx. rewrite Ea2 in Hx. by apply Hw1.
Qed.

(** What a finished call of thread [pid] leaves: every context is untouched,
    but the interrupted one this call resumed, of the same thread and scalars,
    may be gone, and a context that is new is an asynchronous job in flight or
    waits for the retry of an interrupted call; a message that is new is such
    a context's.  The maps gained no hold that is not a live
    context's, but for at most one for each dma handle of the call, which the
    DSP releases, no reference either unless an argument asked for its map to
    be kept, and no buffer was lost. *)
Record invoke_post (pid k : Z) (ia : invoke_args) w (err : Z) w' : Prop := {
  ip_inv : ctx_inv ∅ k w';
  ip_kept q c : cx_heap (w_cx w) !! q = Some c -> cx_heap (w_cx w') !! q = Some c \/
    (cx_heap (w_cx w') !! q = None /\ q ∈ cx_interrupted (w_cx w) /\ c_pid c = pid /\ c_sc c = ia_sc ia);
  ip_new q c : cx_heap (w_cx w') !! q = Some c -> cx_heap (w_cx w) !! q = None ->
    (c_isasyncjob c = true /\ err = 0) \/ (q ∈ cx_interrupted (w_cx w') /\ err = - ERESTARTSYS);
  ip_msgs mp : is_Some (msgs (w_apps w') !! mp) -> is_Some (msgs (w_apps w) !! mp) \/
    exists q c, cx_heap (w_cx w') !! q = Some c /\ cx_heap (w_cx w) !! q = None /\ c_msg c = Some mp;
  ip_bal : exists D, (size D <= nargs (ia_sc ia) - nbufs (ia_sc ia))%nat /\ balanced (args_keepless ia) D w w';
}.

(** Nothing new is left. *)
Lemma post_same D pid k ia w err w' :
  ctx_inv ∅ k w' -> cx_heap (w_cx w') = cx_heap (w_cx w) -> msgs_within None w w' ->
  (size D <= nargs (ia_sc ia) - nbufs (ia_sc ia))%nat -> balanced (args_keepless ia) D w w' -> invoke_post pid k ia w err w'.
Proof.
  intros Hi Eh Hm Hsz Hba. split; rewrite ?Eh; try done; [by left|by intros; congruence| |by exists D].
  intros mp Hx. left. by apply Hm.
Qed.

(** The context of an interrupted call is resumed. *)
Lemma size_none n : (size (∅ : gmultiset ptr) <= n)%nat.
Proof. rewrite gmultiset_size_empty. lia. Qed.

Lemma post_resumed j pid k ia p c w w1 err w' :
  k <= j -> p ∈ cx_interrupted (w_cx w) -> c_pid c = pid -> c_sc c = ia_sc ia -> cx_heap (w_cx w) !! p = Some c ->
  cx_heap (w_cx w1) = cx_heap (w_cx w) -> w_apps w1 = w_apps w -> (forall K, balanced K ∅ w w1) ->
  waited j p c w1 err w' -> invoke_post pid k ia w err w'.
Proof.
  intros Hk Hin Epid Esc Hp Eh Ea Hb1 (Hi & Hb2 & Hor).
  assert (balanced (args_keepless ia) ∅ w w') as Hba by by eapply balanced_then.
  destruct Hor as [[E Hm]|(-> & E & Hin' & Hm)]; rewrite Eh in E.
  - split.
    + eapply ctx_inv_weaken; [|exact Hk|exact Hi]. done.
    + intros q cq Hq. rewrite E. destruct (decide (q = p)) as [->|Hne]; [|left; by rewrite lookup_delete_ne].
      right. assert (cq = c) as -> by congruence. by rewrite lookup_delete_eq.
    + intros q cq. rewrite E. intros [_ Hq]%lookup_delete_Some. congruence.
    + intros mp Hx. left. rewrite <- Ea. by apply Hm.
    + exists ∅. split; [apply size_none|done].
  - apply (post_same ∅); [eapply ctx_inv_weaken; [|exact Hk|exact Hi]; done|done| |apply size_none|done].
    intros mp Hx. rewrite <- Ea. by apply Hm.
Qed.

(** A new context [p] of [w1] and what became of it in [w']. *)
Lemma post_waited D pid k ia p c w w1 err w' :
  cx_heap (w_cx w) !! p = None -> delete p (cx_heap (w_cx w1)) = cx_heap (w_cx w) ->
  cx_heap (w_cx w1) !! p = Some c ->
  (forall mp, is_Some (msgs (w_apps w1) !! mp) -> is_Some (msgs (w_apps w) !! mp) \/ c_msg c = Some mp) ->
  (size D <= nargs (ia_sc ia) - nbufs (ia_sc ia))%nat -> balanced (args_keepless ia) D w w1 ->
  waited k p c w1 err w' -> invoke_post pid k ia w err w'.
Proof.
  intros Hnew Eh Hp Hms Hsz Hb1 (Hi & Hb2 & Hor).
  assert (balanced (args_keepless ia) D w w') as Hba by by eapply balanced_then.
  destruct Hor as [[E Hm]|(-> & E & Hin & Hm)].
  - apply (post_same D); [done|by rewrite E| |done..].
    intros mp Hx. destruct (Hm mp Hx) as [H1 H2]. split; [|done]. by destruct (Hms mp H1).
  - split.
    + done.
    + intros q cq Hq. left. rewrite E. rewrite <- Eh in Hq. by apply lookup_delete_Some in Hq as [_ ?].
    + intros q cq Hq Hno. right. split; [|done]. destruct (decide (q = p)) as [->|Hne]; [done|].
      rewrite E in Hq. rewrite <- Eh, lookup_delete_ne in Hno by done. congruence.
    + intros mp Hx. destruct (Hm mp Hx) as [H1 _]. destruct (Hms mp H1) as [Hx1|Hc]; [by left|].
      right. exists p, c. by rewrite E.
    + by exists D.
Qed.

Lemma ctx_inv_fl H k w f :
  ctx_inv H k w -> fl_interrupted_cmds f = fl_interrupted_cmds (w_fl w) -> ctx_inv H k (w <| w_fl := f |>).
Proof.
  intros [Hrx Hmp Hnz Hbf Hnd Hap Hsh Hlk Hds Hls Hsz] E. split; simpl; rewrite ?E; try done. by destruct Hrx.
Qed.

(** From the allocation of a context on. *)
Definition invoke_fresh (e : invoke_env) (sn : Z) (ia : invoke_args) : M world Z :=
  r ← context_alloc e sn ia;
  let err := VERIFY 0 (r.1 =? 0) in
  if negb (err =? 0) then mret err
  else match r.2 with
  | None => fail NullDeref
  | Some p =>
    c ← on_cx (ctx_load p);
    err ← get_args e p;
    let err := VERIFY 0 (err =? 0) in
    if negb (err =? 0) then invoke_bail p err
    else
      err ← virt_fastrpc_invoke p;
      let err := VERIFY 0 (err =? 0) in
      if negb (err =? 0) then invoke_bail p err
      else if c_isasyncjob c then mret err
      else invoke_wait e p
  end.

Lemma VERIFY_same err : VERIFY 0 (err =? 0) = 0 <-> err = 0.
Proof. rewrite VERIFY_zero. by rewrite Z.eqb_eq. Qed.

Lemma bail_post D p c err pid k ia w w1 :
  0 <= k -> ctx_inv ∅ k w1 -> cx_heap (w_cx w1) !! p = Some c -> delete p (cx_heap (w_cx w1)) = cx_heap (w_cx w) ->
  (forall mp, is_Some (msgs (w_apps w1) !! mp) -> is_Some (msgs (w_apps w) !! mp) \/ c_msg c = Some mp) ->
  (size D <= nargs (ia_sc ia) - nbufs (ia_sc ia))%nat -> balanced (args_keepless ia) D w w1 ->
  swp (invoke_bail p err) (invoke_post pid k ia w) w1.
Proof.
  intros Hk Hi Hp Eh Hms Hsz Hb1. destruct (free_waited p c err k w1 Hi Hk Hp) as (w' & E & Hi' & Eh' & Hm' & Hb2).
  unfold swp. rewrite E. apply (post_same D); [done|by rewrite Eh'| |done|by eapply balanced_then].
  intros mp Hx. destruct (Hm' mp Hx) as [H1 H2]. split; [|done]. by destruct (Hms mp H1).
Qed.

Lemma invoke_fresh_swp e sn pid ia k w :
  0 <= k < 2 ^ 29 -> ctx_inv ∅ (540 + k) w -> env_ok e -> args_ok ia -> swp (invoke_fresh e sn ia) (invoke_post pid k ia w) w.
Proof.
  intros Hk Hi He Ha. unfold invoke_fresh, swp.
  assert (0 <= 540 + k) as H540 by lia. destruct (context_alloc_ok e sn ia (540 + k) w Hi H540 Ha) as ([err r] & w1 & E1 & Hi1 & Hb1 & Ef1 & Em1 & Es1 & Hr).
  rewrite (bind_eq _ _ _ _ _ E1). cbv zeta. simpl in Hr. destruct r as [p|].
  2: { destruct Hr as [Hne Ecx]. simpl. rewrite (proj2 (Z.eqb_neq (VERIFY _ _) 0)) by by rewrite VERIFY_same.
       apply (post_same ∅); [eapply ctx_inv_weaken; [..|exact Hi1]; [done|lia]|by rewrite Ecx| |apply size_none|done].
       intros mp Hx. by rewrite <- Em1. }
  destruct Hr as (-> & c & Hnew & Hb & Esc & Hnk & Ecx). simpl.
  assert (cx_heap (w_cx w1) !! p = Some c) as Hp1 by (rewrite Ecx; apply lookup_insert_eq).
  rewrite (bind_eq _ _ _ _ _ (load_ctx _ _ _ Hp1)).
  destruct (get_args_ok e p c k w1 Hk He Hi1 Hp1 Hb) as (err & w2 & c2 & E2 & Hi2 & Ho & Hu & D & HD & HbD).
  rewrite Esc in HD. assert (balanced (args_keepless ia) D w w2) as Hb2 by (eapply balanced_first; [apply Hb1|by apply HbD]).
  rewrite (bind_eq _ _ _ _ _ E2). cbv zeta.
  assert (cx_heap (w_cx w2) !! p = Some c2) as Hp2 by (rewrite (oc_cx _ _ _ _ _ Ho); apply lookup_insert_eq).
  assert (delete p (cx_heap (w_cx w2)) = cx_heap (w_cx w)) as Eh2.
  { rewrite (oc_cx _ _ _ _ _ Ho), Ecx. simpl. by rewrite insert_insert_eq, delete_insert_id. }
  assert (forall mp, is_Some (msgs (w_apps w2) !! mp) -> is_Some (msgs (w_apps w) !! mp) \/ c_msg c2 = Some mp) as Hms2.
  { intros mp Hx. rewrite <- Em1, <- (oc_msgs _ _ _ _ _ Ho). unfold msgs_but. destruct (c_msg c2) as [x|]; [|by left].
    destruct (decide (x = mp)) as [->|Hne]; [by right|]. left. by rewrite lookup_delete_ne. }
  destruct (Z.eqb_spec (VERIFY 0 (err =? 0)) 0) as [Ev|Ev]; simpl; [|apply (bail_post D p c2); try done; lia].
  apply VERIFY_same in Ev as ->.
  destruct (send_ok p c2 k w2 Hi2 Hp2 (Hu eq_refl)) as (err & w3 & E3 & Hi3 & Ecx3 & Em3 & Hb3).
  assert (balanced (args_keepless ia) D w w3) as HbD3 by by eapply balanced_then.
  rewrite (bind_eq _ _ _ _ _ E3). cbv zeta.
  assert (cx_heap (w_cx w3) !! p = Some c2) as Hp3 by by rewrite Ecx3. rewrite <- Ecx3 in Eh2. rewrite <- Em3 in Hms2.
  destruct (Z.eqb_spec (VERIFY 0 (err =? 0)) 0) as [Ev|Ev]; simpl; [|apply (bail_post D p c2); try done; lia].
  destruct (c_isasyncjob c) eqn:Eas.
  - rewrite Ev. split; [done|..].
    + intros q cq Hq. left. rewrite <- Eh2 in Hq. by apply lookup_delete_Some in Hq as [_ ?].
    + intros q cq Hq Hno. left. destruct (decide (q = p)) as [->|Hne].
      * assert (cq = c2) as -> by congruence. by rewrite (oc_async _ _ _ _ _ Ho).
      * rewrite <- Eh2, lookup_delete_ne in Hno by done. congruence.
    + intros mp Hx. destruct (Hms2 mp Hx) as [Hy|Hc]; [by left|]. right. exists p, c2. by split_and!.
    + by exists D.
  - destruct (Hu eq_refl) as (mp & _ & _ & Emp & _). eapply swp_mono; [apply (invoke_wait_swp e p c2 k); try done; lia|].
    intros err' w' Hw. by eapply (post_waited D pid k ia p c2 w w3).
Qed.

Lemma invoke_swp num_channels e ia k w :
  0 <= k < 2 ^ 29 -> ctx_inv ∅ (540 + k) w -> env_ok e -> args_ok ia -> swp (vfastrpc_internal_invoke num_channels e ia) (invoke_post (ie_pid e) k ia w) w.
Proof.
  intros Hk Hi He Ha.
  unfold vfastrpc_internal_invoke, swp. erewrite bind_eq by done. cbv zeta. erewrite bind_eq by done.
  match goal with |- context [(if _ then _ else _) ?x] => set (w1 := x) end.
  assert (ctx_inv ∅ (540 + k) w1) as Hi1 by by apply ctx_inv_fl.
  assert (forall err w', invoke_post (ie_pid e) k ia w1 err w' -> invoke_post (ie_pid e) k ia w err w') as Hback.
  { intros err w' []. split; try done. destruct ip_bal0 as (D & HD & Hm & Hp). exists D. split; [done|]. by split. }
  assert (forall err, invoke_post (ie_pid e) k ia w err w1) as Hsame.
  { intros err. apply Hback, (post_same ∅); [eapply ctx_inv_weaken; [..|exact Hi1]; [done|lia]|done| |apply size_none|by apply balanced_same].
    by intros mp. }
  destruct (negb (_ =? 0)); [apply Hsame|]. destruct (negb (_ =? 0)); [apply Hsame|].
  destruct (restore_ok (ie_pid e) (ia_sc ia) (540 + k) w1 Hi1) as ([err r] & w2 & E2 & Hi2 & Eh2 & Ea2 & Ef2 & Hb2 & Hr).
  rewrite (bind_eq _ _ _ _ _ E2). cbv zeta. simpl in Hr. cbn [fst snd]. destruct r as [p|].
  - destruct Hr as (-> & Hin & c & Hp & Epid & Esc & Hm). simpl.
    eapply swp_mono; [apply (invoke_wait_swp e p c (540 + k)); try done; [lia|by rewrite Eh2]|].
    intros err w' Hw. apply Hback. eapply (post_resumed (540 + k) (ie_pid e) k ia p c w1 w2); [lia|done..].
  - subst w2. destruct (negb (_ =? 0)); [apply Hsame|].
    eapply swp_mono; [apply (invoke_fresh_swp e (fl_seq_num (w_fl w)) (ie_pid e) ia k w1); done|]. apply Hback.
Qed.



(** The interrupted context of thread [pid] that a retry takes. *)
Definition waits_for (pid : Z) (s : ctxs) (q : ptr) : bool :=
  match cx_heap s !! q with
  | Some c => c_pid c =? pid
  | None => false
  end.

Lemma find_ctx_find l pid s :
  (forall q, q ∈ l -> is_Some (cx_heap s !! q)) -> find_ctx l pid s = Ok (List.find (waits_for pid s) l) s.
Proof.
  induction l as [|p l IH]; intros Hl; [done|]. destruct (Hl p) as [c Hc]; [by left|].
  cbn [find_ctx List.find]. unfold waits_for at 1. rewrite Hc.
  erewrite bind_eq by (unfold ctx_load; by rewrite Hc).
  destruct (c_pid c =? pid); [done|]. apply IH. intros; apply Hl; by right.
Qed.

Lemma restore_eq pid sc s :
  lists_ok (cx_heap s) (cx_pending s) (cx_interrupted s) ->
  context_restore_interrupted pid sc s =
    match List.find (waits_for pid s) (cx_interrupted s) with
    | None => Ok (0, None) s
    | Some p =>
      match cx_heap s !! p with
      | Some c =>
        if c_sc c =? sc then
          Ok (0, Some p) (s <| cx_pending := p :: hlist_del p (cx_pending s) |>
                            <| cx_interrupted := hlist_del p (cx_interrupted s) |>)
        else Ok (- EINVAL, None) s
      | None => Fault UseAfterFree
      end
    end.
Proof.
  intros Hls. unfold context_restore_interrupted. erewrite bind_eq by done.
  rewrite (bind_eq _ _ _ _ _ (find_ctx_find (cx_interrupted s) pid s ltac:(intros q Hq; apply (li_live _ _ _ Hls); set_solver))).
  destruct (List.find _ _) as [p|] eqn:Efd; [|done].
  apply List.find_some in Efd as [_ Hw]. unfold waits_for in Hw.
  destruct (cx_heap s !! p) as [c|] eqn:Hp; [|done].
  erewrite bind_eq by (unfold ctx_load; by rewrite Hp). rewrite (Z.eqb_sym sc).
  destruct (c_sc c =? sc); simpl; [|done].
  erewrite bind_eq by done. erewrite bind_eq; [|unfold pending_add_head; simpl; rewrite decide_False; [done|]].
  - done.
  - rewrite <- hlist_del_app, elem_of_hlist_del. naive_solver.
Qed.

(** The file with [p] moved from the interrupted contexts to the pending. *)
Definition resumed (p : ptr) w : world :=
  w <| w_cx := (w_cx w) <| cx_pending := p :: hlist_del p (cx_pending (w_cx w)) |>
                <| cx_interrupted := hlist_del p (cx_interrupted (w_cx w)) |> |>
    <| w_fl := (w_fl w) <| fl_seq_num := s64 (fl_seq_num (w_fl w) + 1) |> |>.

(** What the call does first. *)
Lemma invoke_restores num_channels e ia k w :
  ctx_inv ∅ k w -> ia_handle ia <> FASTRPC_STATIC_HANDLE_KERNEL -> 0 <= fl_domain (w_fl w) < num_channels ->
  let w1 := w <| w_fl := (w_fl w) <| fl_seq_num := s64 (fl_seq_num (w_fl w) + 1) |> |> in
  vfastrpc_internal_invoke num_channels e ia w =
    match List.find (waits_for (ie_pid e) (w_cx w)) (cx_interrupted (w_cx w)) with
    | None => invoke_fresh e (fl_seq_num (w_fl w)) ia w1
    | Some p =>
      match cx_heap (w_cx w) !! p with
      | Some c => if c_sc c =? ia_sc ia then invoke_wait e p (resumed p w) else Ok (VERIFY_err 0) w1
      | None => Fault UseAfterFree
      end
    end.
Proof.
  intros Hi Hh Hd w1. pose proof (ci_lists _ _ _ Hi) as Hls.
  unfold vfastrpc_internal_invoke. erewrite bind_eq by done. cbv zeta. erewrite bind_eq by done.
  rewrite (proj2 (Z.eqb_neq (ia_handle ia) _)) by done. zdec. unfold VERIFY. simpl.
  unfold mbind at 1, M_bind at 1, on_cx at 1, zoom at 1. cbn [w_cx].
  pose proof (restore_eq (ie_pid e) (ia_sc ia) (w_cx w) Hls) as Er.
  match goal with |- context [context_restore_interrupted _ _ ?x] => change x with (w_cx w) end.
  rewrite Er. destruct (List.find _ _) as [p|]; [|done]. destruct (cx_heap (w_cx w) !! p) as [c|]; [|done].
  destruct (c_sc c =? ia_sc ia); simpl; [done|by rewrite VERIFY_err_eqb].
Qed.

(** C5: a retry waits for the request already sent.  If the calling thread
    has an interrupted context, the first such on the list decides: with the
    same scalars the call is exactly the wait of that context, no argument is
    read again and no message is sent; with other scalars it fails and only
    the sequence number has changed.  Without one, the call starts afresh. *)
Theorem retry_resumes num_channels e ia k w :
  ctx_inv ∅ k w -> ia_handle ia <> FASTRPC_STATIC_HANDLE_KERNEL -> 0 <= fl_domain (w_fl w) < num_channels ->
  let w1 := w <| w_fl := (w_fl w) <| fl_seq_num := s64 (fl_seq_num (w_fl w) + 1) |> |> in
  vfastrpc_internal_invoke num_channels e ia w =
    match List.find (waits_for (ie_pid e) (w_cx w)) (cx_interrupted (w_cx w)) with
    | None => invoke_fresh e (fl_seq_num (w_fl w)) ia w1
    | Some p =>
      match cx_heap (w_cx w) !! p with
      | Some c => if c_sc c =? ia_sc ia then invoke_wait e p (resumed p w) else Ok (VERIFY_err 0) w1
      | None => Fault UseAfterFree
      end
    end.
Proof. apply invoke_restores. Qed.

(** ** Error codes *)

Lemma wait_yields evs sig mp :
  yields (wait_for_completion_interruptible evs sig mp) (fun r => r = 0 \/ r = - ERESTARTSYS).
Proof.
  apply yields_any. intros _. apply yields_any. intros m. destruct (_ <? _).
  - apply yields_any. intros _. apply yields_ret. by left.
  - destruct sig; [apply yields_ret; by right|]. by intros s.
Qed.

Lemma invoke_wait_yields e p :
  yields (invoke_wait e p) (fun r => r = 0 \/ r = VERIFY_err 0 \/ r = - ERESTARTSYS).
Proof.
  apply yields_any. intros c. destruct (c_msg c) as [mp|]; [|by intros s].
  eapply yields_bind; [apply wait_yields|]. intros r Hr. destruct (Z.eqb_spec r 0) as [->|Hne]; simpl.
  - apply yields_any. intros err. apply yields_any. intros _. apply yields_ret. unfold VERIFY.
    destruct (err =? 0); auto.
  - apply yields_any. intros _. apply yields_ret. destruct Hr; auto.
Qed.

(** C7: the result of the remote function does not reach the caller.  A
    synchronous call returns one of four values: 0, [VERIFY]'s generic error,
    -EBADR for a file without a domain, or -ERESTARTSYS; whatever error
    [context_alloc], [get_args], the queue or the DSP reported is replaced.
    An asynchronous job, in contrast, is delivered with the DSP's result. *)
Theorem invoke_error_codes num_channels e ia w p c mp m r :
  match vfastrpc_internal_invoke num_channels e ia w with
  | Ok err _ => err = 0 \/ err = VERIFY_err 0 \/ err = - EBADR \/ err = - ERESTARTSYS
  | _ => True
  end /\
  (cx_heap (w_cx w) !! p = Some c -> c_msg c = Some mp -> msgs (w_apps w) !! mp = Some m -> rxbuf m = Some r ->
   match async_done e p w with
   | Ok res _ => rsp_err (rxmem (w_apps w) r) <> 0 ->
       exists ar, res = (0, Some ar) /\ ar_result ar = rsp_err (rxmem (w_apps w) r) /\ ar_jobid ar = c_jobid c
   | _ => True
   end).
Proof.
  split.
  - set (P := fun r => r = 0 \/ r = VERIFY_err 0 \/ r = - EBADR \/ r = - ERESTARTSYS).
    assert (forall b, P (VERIFY 0 b)) as Hv by (intros []; unfold P, VERIFY; auto).
    assert (forall q, yields (invoke_wait e q) P) as Hw.
    { intros q s. pose proof (invoke_wait_yields e q s) as Hy. destruct (invoke_wait e q s); unfold P; tauto. }
    assert (forall q err, P err -> yields (invoke_bail q err) P) as Hb.
    { intros q err He. apply yields_any. intros _. by apply yields_ret. }
    cut (yields (vfastrpc_internal_invoke num_channels e ia) P); [by intros Hy; apply (Hy w)|].
    apply yields_any. intros f. apply yields_any. intros _. yields_if; [by apply yields_ret|].
    yields_if; [apply yields_ret; unfold P; auto|].
    apply yields_any. intros r1. yields_if; [by apply yields_ret|]. destruct (r1.2); [apply Hw|].
    apply yields_any. intros r2. yields_if; [by apply yields_ret|]. destruct (r2.2) as [q|]; [|by intros s].
    apply yields_any. intros cq. apply yields_any. intros e1. yields_if; [by apply Hb|].
    apply yields_any. intros e2. yields_if; [by apply Hb|]. yields_if; [by apply yields_ret|apply Hw].
  - intros Hp Em Hm Hr. unfold async_done. rewrite (bind_eq _ _ _ _ _ (load_ctx _ _ _ Hp)), Em.
    rewrite (bind_eq _ _ _ _ _ (load_msg _ _ _ Hm)). erewrite bind_eq by done. rewrite Hr. cbv zeta.
    destruct (Z.eqb_spec (rsp_err (rxmem (w_apps w) r)) 0) as [E|E]; simpl.
    + by case_match.
    + erewrite bind_eq by done. unfold mbind, M_bind. destruct (context_free p w) as [[] w'| |]; [|done..].
      intros _. eexists. split; [done|]. by split.
Qed.
End safe.
