(* ===== verification/ArgsWrap.v ===== *)
(** * Argument lengths that wrap

    [get_args] adds the lengths of the arguments, 64-bit values from user
    space, without a check.  This file shows what happens when their sum
    wraps: the message seems to fit and the copy of an input buffer runs past
    the end of the tx buffer. *)
From S2P Require Import Prelude Shared Mmap MmapFacts Pages Buf BufFacts Apps AppsFacts World WorldFacts Transact MapOps MapFacts Invoke CtxFacts CtxInv ArgFacts DescFacts MsgFacts InvokeFacts InvokeSafe.

Section wrap.
Context `{HS : adsprpc_shared, !adsprpc_shared_ok HS}.
Context `{KC : kernel_config, !kernel_config_ok KC}.
Context `{V : virtqueue, !virtqueue_ok V}.
Implicit Types (w : world) (c : vfastrpc_invoke_ctx).

(** A context of [n] arguments that have no fds: they are copied. *)
Record copied (pra : nat -> remote_arg) (n : nat) c : Prop := {
  cp_lpra : c_lpra c = pra <$> seq 0 n;
  cp_fds : c_fds c = None;
  cp_desc : c_desc c = None;
  cp_maps : c_maps c = replicate n None;
}.

(** The lengths of the first [n] arguments. *)
Definition lens (pra : nat -> remote_arg) (n : nat) : list Z := (fun j => ra_len (pra j)) <$> seq 0 n.

Lemma context_alloc_copied e sn ia pra k w :
  ctx_inv ∅ k w -> ie_kzalloc_ctx e = true -> ie_kzalloc_perf e = true -> ia_pra ia = Some pra ->
  ia_fds ia = None -> ia_attrs ia <> Some None -> ia_job ia <> Some None ->
  exists p c w1, context_alloc e sn ia w = Ok (0, Some p) w1 /\ cx_heap (w_cx w1) !! p = Some c /\
    copied pra (nargs (ia_sc ia)) c /\ c_sc c = ia_sc ia /\ w_apps w1 = w_apps w.
Proof.
  intros Hi Hk Hpf Ep Ef Ea Ej. unfold context_alloc. rewrite Hk. cbn [negb].
  erewrite bind_eq by done. cbv zeta. set (p := new_ptr (cx_heap (w_cx w))).
  assert (cx_heap (w_cx w) !! p = None) as Hp by apply new_ptr_None. pose proof (unlisted p k w Hi Hp) as Hun.
  set (n := nargs (ia_sc ia)). erewrite bind_eq by done. rewrite Ep.
  match goal with |- context [(ctx_upd _ _ ≫= _) ?x] => change x with (with_ctx p (zero_ctx n) w) end.
  rewrite (bind_eq _ _ _ _ _ (upd_with _ _ _ _)), Ef, (bind_eq _ _ _ _ _ (upd_with _ _ _ _)).
  assert (forall w2 c2, w_apps w2 = w_apps w -> cx_heap (w_cx w2) !! p = Some c2 -> copied pra n c2 -> c_sc c2 = ia_sc ia ->
    p ∉ cx_pending (w_cx w2) ++ cx_interrupted (w_cx w2) ->
    exists p0 c w1, context_alloc_job p ia w2 = Ok (0, Some p0) w1 /\ cx_heap (w_cx w1) !! p0 = Some c /\
      copied pra n c /\ c_sc c = ia_sc ia /\ w_apps w1 = w_apps w) as Hjob.
  { intros w2 c2 Ew Hp2 Hc2 Es Hno. unfold context_alloc_job.
    assert (forall w3 c3, w_apps w3 = w_apps w -> cx_heap (w_cx w3) !! p = Some c3 -> copied pra n c3 -> c_sc c3 = ia_sc ia ->
      p ∉ cx_pending (w_cx w3) ++ cx_interrupted (w_cx w3) ->
      exists p0 c w1, (on_cx (pending_add_head p);; mret (0, Some p)) w3 = Ok (0, Some p0) w1 /\
        cx_heap (w_cx w1) !! p0 = Some c /\ copied pra n c /\ c_sc c = ia_sc ia /\ w_apps w1 = w_apps w) as Hend.
    { intros w3 c3 Ew3 Hp3 Hc3 Es3 Hno3. erewrite bind_eq by (unfold on_cx, zoom, pending_add_head; by rewrite decide_False).
      by eexists p, c3, _. }
    destruct (ia_job ia) as [[[isasync jobid]|]|]; [|done|].
    - rewrite (bind_eq _ _ _ _ _ (ctx_upd_eq p c2 _ w2 Hp2)). eapply Hend; [exact Ew|apply lookup_insert_eq|by destruct Hc2|done..].
    - erewrite bind_eq by done. by eapply Hend. }
  assert (forall c2, copied pra n c2 -> exists p0 c w1, context_alloc_tail e sn p ia (with_ctx p c2 w) = Ok (0, Some p0) w1 /\
    cx_heap (w_cx w1) !! p0 = Some c /\ copied pra n c /\ c_sc c = ia_sc ia /\ w_apps w1 = w_apps w) as Htail.
  { intros c2 Hc2. unfold context_alloc_tail. erewrite bind_eq by done. rewrite (bind_eq _ _ _ _ _ (upd_with _ _ _ _)).
    destruct (negb _).
    - rewrite Hpf. cbn [negb]. erewrite bind_eq by done.
      erewrite bind_eq by (apply ctx_upd_eq; apply lookup_insert_eq).
      eapply Hjob; [done|apply lookup_insert_eq|by destruct Hc2|done..].
    - eapply Hjob; [done|apply lookup_insert_eq|by destruct Hc2|done..]. }
  destruct (ia_attrs ia) as [[g|]|]; [|done|].
  - rewrite (bind_eq _ _ _ _ _ (upd_with _ _ _ _)). by apply Htail.
  - by apply Htail.
Qed.

Lemma lens_lookup (pra : nat -> remote_arg) n j : (j < n)%nat -> (pra <$> seq 0 n) !! j = Some (pra j).
Proof. intros Hj. by rewrite list_lookup_fmap, lookup_seq_lt by lia. Qed.

(** The sum of the lengths, modulo [2^64]. *)
Lemma map_bufs_copied w0 p e inb s b pra N n i copylen c :
  copied pra N c -> (i + n <= N)%nat -> (forall j, 0 <= ra_len (pra j)) -> 0 <= copylen < 2 ^ 64 ->
  exists c', map_bufs e p inb n i copylen (with_args w0 p c s b) =
      Ok (0, u64 (copylen + sumZ ((fun j => ra_len (pra j)) <$> seq i n))) (with_args w0 p c' s b) /\
    copied pra N c' /\ c_sc c' = c_sc c.
Proof.
  intros Hc Hn Hpos. revert i copylen c Hc Hn. induction n as [|n IH]; intros i copylen c Hc Hn Hcl.
  { exists c. cbn [map_bufs seq fmap list_fmap sumZ foldr]. by rewrite u64_id by lia; rewrite Z.add_0_r. }
  cbn [map_bufs]. rewrite (bind_eq _ _ _ _ _ (load_args w0 p c s b)).
  assert (c_lpra c !! i = Some (pra i)) as Hra by (rewrite (cp_lpra _ _ _ Hc); apply lens_lookup; lia).
  rewrite (bind_eq _ _ _ _ _ (at_index_eq _ _ _ _ Hra)). cbn [seq fmap list_fmap sumZ foldr].
  destruct (Z.eqb_spec (ra_len (pra i)) 0) as [E|E].
  { destruct (IH (S i) copylen c Hc) as (c' & Er & Hr); [lia|done|]. exists c'. rewrite Er, E, Z.add_0_l. done. }
  unfold map_buf. erewrite bind_eq; [|rewrite (bind_eq _ _ _ _ _ (load_args w0 p c s b)); unfold arg_fd;
    rewrite (cp_fds _ _ _ Hc); done]. cbn [negb Z.eqb fst snd].
  destruct (add_out_eq w0 p i inb (ra_len (pra i)) c s b) as [o Eo]. rewrite (bind_eq _ _ _ _ _ Eo).
  destruct (IH (S i) (u64 (copylen + ra_len (pra i))) (set_out c o)) as (c' & Er & Hr & Es);
    [by destruct Hc|lia|apply u64_range|]. exists c'. split; [|done]. rewrite Er. do 2 f_equal. unfold u64.
  by rewrite Zplus_mod_idemp_l, Z.add_assoc.
Qed.

(** The copy of argument [i + d] runs past the end. *)
Lemma fill_bufs_overruns e p pra N c inb n d i off w :
  cx_heap (w_cx w) !! p = Some c -> copied pra N c -> (i + n <= N)%nat -> (d < n)%nat -> (i + d < inb)%nat ->
  ra_len (pra (i + d)%nat) <> 0 -> (forall j, (j < i + d)%nat -> ie_copy_in e j = true) ->
  buf_size (w_apps w) < off + sumZ ((fun j => ra_len (pra j)) <$> seq i (S d)) ->
  fill_bufs e p inb n i off w = Fault OutOfBounds.
Proof.
  intros Hp Hc. revert n i off. induction d as [|d IH]; intros [|n] i off HN Hd Hin Hne Hcp Hlt; try lia.
  all: cbn [fill_bufs]; unfold mbind at 1, M_bind at 1, fill_buf; rewrite (bind_eq _ _ _ _ _ (load_ctx _ _ _ Hp)).
  all: assert (c_lpra c !! i = Some (pra i)) as Hra by (rewrite (cp_lpra _ _ _ Hc); apply lens_lookup; lia).
  all: assert (c_maps c !! i = Some None) as Hom by (rewrite (cp_maps _ _ _ Hc); apply lookup_replicate_2; lia).
  all: rewrite (bind_eq _ _ _ _ _ (at_index_eq _ _ _ _ Hra)), (bind_eq _ _ _ _ _ (at_index_eq _ _ _ _ Hom)).
  all: unfold internal_buf; rewrite (cp_desc _ _ _ Hc); erewrite bind_eq by done; unfold fill_copy.
  - rewrite Nat.add_0_r in *. rewrite bool_decide_eq_true_2, (proj2 (Z.eqb_neq _ _)) by done. cbn [andb negb].
    cbn [seq fmap list_fmap sumZ foldr] in Hlt. unfold tx_write, mbind, M_bind, gets.
    by rewrite (proj2 (Z.ltb_lt _ _)) by lia.
  - cbn [seq fmap list_fmap sumZ foldr] in Hlt.
    assert (fill_bufs e p inb n (S i) (off + ra_len (pra i)) w = Fault OutOfBounds) as Hrest.
    { apply IH; [lia..| | |]; rewrite ?Nat.add_succ_comm.
      - done.
      - intros j Hj. apply Hcp. lia.
      - cbn [seq fmap list_fmap sumZ foldr] in Hlt |- *. lia. }
    destruct (_ && _).
    + unfold tx_write, mbind at 1 2, M_bind at 1 2, gets. destruct (_ <? _); [done|]. unfold mret at 1, M_ret at 1.
      rewrite Hcp by lia. unfold mret at 1, M_ret at 1. unfold mbind, M_bind. by rewrite Hrest.
    + unfold mret at 1, M_ret at 1. unfold mbind, M_bind. by rewrite Hrest.
Qed.

(** So does the message. *)
Lemma build_msg_overruns e p pra n c i size w :
  apps_inv (w_apps w) -> cx_heap (w_cx w) !! p = Some c -> copied pra n c ->
  nargs (c_sc c) = n -> nbufs (c_sc c) = n -> 0 <= size <= buf_size (w_apps w) -> buf_size (w_apps w) < 2 ^ 32 ->
  ie_kzalloc_msg e = true -> find_slot (msgtable (w_apps w)) 0 <> None -> tx_ready (w_apps w) ->
  (i < ninbufs (c_sc c))%nat -> ra_len (pra i) <> 0 -> (forall j, (j < i)%nat -> ie_copy_in e j = true) ->
  buf_size (w_apps w) < metalen n + sumZ (lens pra (S i)) -> build_msg e p size w = Fault OutOfBounds.
Proof.
  intros Ha Hp Hc En Eb Hsz Hbs Hkm Hsl Htx Hin Hne Hcp Hlt. unfold build_msg.
  destruct (alloc_msg_cases (ie_kzalloc_msg e) size (w_apps w) Ha) as
    [(a' & _ & _ & _ & _ & _ & _ & _ & _ & _ & Hwhy)|
     (mp & j & buf & a' & Eal & _ & _ & _ & _ & Ems & _ & _ & _ & _ & _ & Ebs & _)].
  { exfalso. rewrite u32_id in Hwhy by lia. destruct Hwhy as [?|[?|[?|[? Hn]]]]; [lia|congruence|done|].
    destruct Htx as [?|[x Hx]]; [lia|congruence]. }
  erewrite bind_eq by (apply on_apps_eq; exact Eal). cbv iota.
  match goal with |- context [(ctx_upd p ?g ≫= _) ?x] => rewrite (bind_eq _ _ _ _ _ (ctx_upd_eq p c g x Hp)) end.
  erewrite bind_eq by (apply load_msg; simpl; rewrite Ems; apply lookup_insert_eq).
  erewrite bind_eq by (eapply store_msg; simpl; rewrite Ems; apply lookup_insert_eq).
  erewrite bind_eq by (apply ctx_upd_eq; apply lookup_insert_eq).
  erewrite bind_eq by (apply load_ctx; apply lookup_insert_eq). erewrite bind_eq by done. cbv zeta.
  repeat match goal with |- context [c_sc ?x] => assert_fails (constr_eq x c); change (c_sc x) with (c_sc c) end.
  rewrite En, Eb.
  match goal with |- context [(tx_write 0 _ ≫= _) ?x] => set (w3 := x) end.
  assert (buf_size (w_apps w3) = buf_size (w_apps w)) as Ebs3 by exact Ebs.
  unfold mbind at 1, M_bind at 1. unfold tx_write, mbind at 1, M_bind at 1, gets. destruct (_ <? _); [done|].
  unfold mret at 1, M_ret at 1. unfold mbind at 1, M_bind at 1.
  rewrite (fill_bufs_overruns e p pra n (c <| c_msg := Some mp |> <| c_size := size |>) _ n i 0 (metalen n) w3); try done.
  - apply lookup_insert_eq.
  - by destruct Hc.
  - pose proof (INBUFS_range (c_sc c)). pose proof (OUTBUFS_range (c_sc c)). unfold nbufs, ninbufs in *. lia.
  - by rewrite Ebs3.
Qed.

(** C25: argument lengths that wrap overrun the tx buffer.  Take any
    consistent file with a domain and no interrupted call of this thread, a
    call of any number of buffers without fds and without handles whose
    memory allocations succeed, a free slot and a tx buffer.  If the lengths
    and the metadata add up, modulo [2^64], to no more than a tx buffer, but
    the input buffers up to some argument [i], which is not empty, do not fit,
    and the copies before [i] succeed, the driver writes past the end of the
    tx buffer.  (Two buffers, one of 8192 bytes and one of [2^64 - 8182], are
    enough.) *)
Theorem args_length_wraps num_channels e ia pra i k w :
  ctx_inv ∅ k w -> ia_handle ia <> FASTRPC_STATIC_HANDLE_KERNEL -> 0 <= fl_domain (w_fl w) < num_channels ->
  List.find (waits_for (ie_pid e) (w_cx w)) (cx_interrupted (w_cx w)) = None ->
  ie_kzalloc_ctx e = true -> ie_kzalloc_perf e = true -> ie_kzalloc_msg e = true ->
  find_slot (msgtable (w_apps w)) 0 <> None -> tx_ready (w_apps w) ->
  ia_pra ia = Some pra -> ia_fds ia = None -> ia_attrs ia <> Some None -> ia_job ia <> Some None ->
  nargs (ia_sc ia) = nbufs (ia_sc ia) -> (forall j, 0 <= ra_len (pra j)) ->
  u64 (metalen (nbufs (ia_sc ia)) + sumZ (lens pra (nbufs (ia_sc ia)))) <= buf_size (w_apps w) ->
  (i < ninbufs (ia_sc ia))%nat -> ra_len (pra i) <> 0 -> (forall j, (j < i)%nat -> ie_copy_in e j = true) ->
  buf_size (w_apps w) < metalen (nbufs (ia_sc ia)) + sumZ (lens pra (S i)) ->
  vfastrpc_internal_invoke num_channels e ia w = Fault OutOfBounds.
Proof.
  intros Hi Hh Hd Hfd Hkc Hkp Hkm Hsl Htx Ep Ef Ea Ej En Hpos Hfit Hin Hne Hcp Hlt.
  rewrite (invoke_restores num_channels e ia k w Hi Hh Hd), Hfd.
  set (w0 := w <| w_fl := _ |>). assert (ctx_inv ∅ k w0) as Hi0 by by apply ctx_inv_fl.
  unfold invoke_fresh.
  destruct (context_alloc_copied e (fl_seq_num (w_fl w)) ia pra k w0) as (p & c & w1 & E1 & Hp & Hc & Es & Ew); try done.
  rewrite (bind_eq _ _ _ _ _ E1). cbv zeta. cbn [fst snd].
  change (negb (VERIFY 0 (0 =? 0) =? 0)) with false. cbv iota. rewrite (bind_eq _ _ _ _ _ (load_ctx _ _ _ Hp)).
  enough (get_args e p w1 = Fault OutOfBounds) as E by (unfold mbind, M_bind; by rewrite E).
  set (n := nbufs (ia_sc ia)) in *. rewrite En in Hc.
  unfold get_args. rewrite (bind_eq _ _ _ _ _ (load_ctx _ _ _ Hp)), Es, En. fold n. cbv zeta.
  destruct (map_bufs_copied w1 p e (ninbufs (ia_sc ia)) (w_mm w1) (w_bf w1) pra n n 0 0 c) as (c' & Em & Hc' & Es'); [done..|].
  rewrite (with_args_self w1 p c Hp) in Em. rewrite (bind_eq _ _ _ _ _ Em). cbn [fst snd negb Z.eqb].
  rewrite Nat.sub_diag. cbn [map_handles]. erewrite bind_eq by done. cbn [fst snd negb Z.eqb]. erewrite bind_eq by done.
  set (w2 := with_args w1 p c' (w_mm w1) (w_bf w1)). assert (w_apps w2 = w_apps w) as Ew2 by exact Ew.
  set (size := u64 (_ + _ + 0)).
  assert (size = u64 (metalen n + sumZ (lens pra n))) as Esz.
  { unfold size, u64. by rewrite Z.add_0_l, Z.add_0_r, Zplus_mod_idemp_r. }
  rewrite Ew2. rewrite (proj2 (Z.ltb_ge _ _)) by lia.
  pose proof (ci_size _ _ _ Hi) as Hbs. pose proof (u64_range (metalen n + sumZ (lens pra n))) as Hur.
  apply (build_msg_overruns e p pra n c' i size w2); rewrite ?Ew2, ?Es', ?Es; try done; try lia.
  - apply (ci_rx _ _ _ Hi).
  - apply lookup_insert_eq.
Qed.
End wrap.
