(* ===== verification/InvokeDemo.v ===== *)
(** * Concrete invocations *)
From S2P Require Import Prelude Shared Mmap MmapFacts Pages Buf BufFacts Apps AppsFacts World WorldFacts Transact MapOps MapFacts Demo Invoke CtxFacts CtxInv ArgFacts DescFacts MsgFacts InvokeFacts InvokeSafe ArgsWrap.

(** One input buffer of 16 bytes, copied into the message. *)
Definition demo_args : invoke_args :=
  {| ia_handle := 5; ia_sc := 65536; ia_pra := Some (fun _ => {| ra_pv := 8192; ra_len := 16 |});
     ia_fds := None; ia_attrs := None; ia_crc := false; ia_job := None |}.

(** Everything succeeds; the device does [evs] while the thread waits. *)
Definition demo_alloc : alloc_env :=
  {| ae_kzalloc := true; ae_kvzalloc := true; ae_pages := fun n _ _ => Some (Z.of_nat n); ae_sgt := Some demo_table;
     ae_vmap := Some 65536 |}.

Definition demo_env (evs : list dev_event) (signal : bool) : invoke_env :=
  {| ie_pid := 200; ie_kzalloc_ctx := true; ie_kzalloc_perf := true; ie_create := fun _ => demo_create;
     ie_kcalloc_desc := true; ie_alloc := fun _ => demo_alloc; ie_kzalloc_msg := true;
     ie_vma := fun _ => Some 8192; ie_copy_in := fun _ => true; ie_crc32 := fun _ => 0; ie_events := evs;
     ie_signal := signal; ie_copy_out := fun _ => true; ie_copy_crc := true |}.

Lemma demo_table_tiny : tiny demo_table.
Proof. by vm_compute. Qed.

Lemma demo_env_ok evs sig : env_ok (demo_env evs sig).
Proof. split; intros i t [= <-]; apply demo_table_tiny. Qed.

Lemma demo_args_ok : args_ok demo_args.
Proof. intros pra j [= <-] _. by split_and!. Qed.

Lemma demo_ctx_inv k : k < 2 ^ 31 -> ctx_inv ∅ k demo_world.
Proof.
  intros Hk. split; simpl; try done.
  - apply demo_rx_inv.
  - unfold hsum. rewrite map_fold_empty. split; try done; [apply inv_empty|]. intros q Hq. multiset_solver.
  - unfold hsum. rewrite map_fold_empty. split; try done; [apply inv_bf_empty|]. intros q Hq. multiset_solver.
  - apply NoDup_nil_2.
  - by intros p ?%not_elem_of_nil.
  - split; [apply NoDup_nil_2|by intros q ?%not_elem_of_nil|by intros q c ?%not_elem_of_nil].
Qed.

(** The device answers. *)
Definition demo_done : outcome world Z :=
  vfastrpc_internal_invoke 5 (demo_env (demo_answer 3 0 64 0 0) false) demo_args demo_world.


(** The call is interrupted before the device answers. *)
Definition demo_interrupted : world :=
  end_state demo_world (vfastrpc_internal_invoke 5 (demo_env [] true) demo_args demo_world).

Lemma demo_interrupts :
  vfastrpc_internal_invoke 5 (demo_env [] true) demo_args demo_world = Ok (- ERESTARTSYS) demo_interrupted.
Proof. vm_compute. reflexivity. Qed.

Lemma demo_interrupted_inv : ctx_inv ∅ 0 demo_interrupted.
Proof.
  pose proof (invoke_swp 5 (demo_env [] true) demo_args 0 demo_world
    ltac:(done) (demo_ctx_inv 540 eq_refl) (demo_env_ok _ _) demo_args_ok) as H.
  unfold swp in H. rewrite demo_interrupts in H. apply H.
Qed.

(** An invocation whose buffer is mapped, interrupted before the device
    answers: a file with one map, one context and its message. *)
Definition mapped_args : invoke_args :=
  {| ia_handle := 5; ia_sc := 65536; ia_pra := Some (fun _ => {| ra_pv := 8192; ra_len := 16 |});
     ia_fds := Some (Some (fun _ => 7)); ia_attrs := None; ia_crc := false; ia_job := None |}.

Definition mapped_interrupted : world :=
  end_state demo_world (vfastrpc_internal_invoke 5 (demo_env [] true) mapped_args demo_world).

Lemma mapped_interrupts :
  vfastrpc_internal_invoke 5 (demo_env [] true) mapped_args demo_world = Ok (- ERESTARTSYS) mapped_interrupted.
Proof. vm_compute. reflexivity. Qed.

Lemma mapped_interrupted_inv : ctx_inv ∅ 0 mapped_interrupted.
Proof.
  assert (args_ok mapped_args) as Ha by (intros pra j [= <-] _; by split_and!).
  pose proof (invoke_swp 5 (demo_env [] true) mapped_args 0 demo_world
    ltac:(done) (demo_ctx_inv 540 eq_refl) (demo_env_ok _ _) Ha) as H.
  unfold swp in H. rewrite mapped_interrupts in H. apply H.
Qed.


(** The device answers during the retry. *)
Lemma retry_resumes_witness :
  exists w', vfastrpc_internal_invoke 5 (demo_env (demo_answer 3 0 64 0 0) false) demo_args demo_interrupted = Ok 0 w' /\
    cx_heap (w_cx w') = ∅ /\ last_sbuf (w_apps w') = last_sbuf (w_apps demo_interrupted).
Proof.
  rewrite (retry_resumes 5 (demo_env (demo_answer 3 0 64 0 0) false) demo_args 0 demo_interrupted
    demo_interrupted_inv); [|discriminate|vm_compute; split; [discriminate|reflexivity]].
  match goal with |- exists w', ?x = _ /\ _ => exists (end_state demo_world x) end.
  split; [vm_compute; reflexivity|]. split; vm_compute; reflexivity.
Defined.

Lemma invoke_error_codes_witness :
  match async_done (demo_env [] false) 1 (end_state demo_world (run_events (demo_answer 3 0 64 9 0) demo_interrupted)) with
  | Ok res _ => exists ar, res = (0, Some ar) /\ ar_result ar = 9
  | _ => False
  end.
Proof.
  set (w := end_state demo_world (run_events (demo_answer 3 0 64 9 0) demo_interrupted)).
  assert (exists c, cx_heap (w_cx w) !! 1%positive = Some c /\ c_msg c = Some 1%positive) as (c & Hc & Hmsg)
    by (eexists; split; vm_compute; reflexivity).
  assert (exists m, msgs (w_apps w) !! 1%positive = Some m /\ rxbuf m = Some 3%positive) as (m & Hm & Hr)
    by (eexists; split; vm_compute; reflexivity).
  destruct (invoke_error_codes 5 (demo_env [] false) demo_args w 1 c 1 m 3) as [_ H].
  specialize (H Hc Hmsg Hm Hr).
  assert (exists res w', async_done (demo_env [] false) 1 w = Ok res w') as (res & w' & E)
    by (eexists _, _; vm_compute; reflexivity).
  rewrite E in H |- *. destruct H as (ar & -> & Har & _); [vm_compute; discriminate|].
  exists ar. split; [reflexivity|]. rewrite Har. vm_compute. reflexivity.
Defined.

(** An input buffer of 8192 bytes and an output buffer of [len]; tx buffers
    have 4096 bytes. *)
Definition wide_args (len : Z) : invoke_args :=
  {| ia_handle := 5; ia_sc := 65792;
     ia_pra := Some (fun i => {| ra_pv := 8192; ra_len := if decide (i = 0%nat) then 8192 else len |});
     ia_fds := None; ia_attrs := None; ia_crc := false; ia_job := None |}.

Lemma args_length_wraps_witness :
  vfastrpc_internal_invoke 5 (demo_env [] true) (wide_args (2 ^ 64 - 8182)) demo_world = Fault OutOfBounds.
Proof.
  apply (args_length_wraps 5 (demo_env [] true) (wide_args (2 ^ 64 - 8182))
    (fun i => {| ra_pv := 8192; ra_len := if decide (i = 0%nat) then 8192 else 2 ^ 64 - 8182 |}) 0 540).
  - apply demo_ctx_inv. lia.
  - vm_compute. discriminate.
  - vm_compute. split; [discriminate|reflexivity].
  - vm_compute. reflexivity.
  - reflexivity.
  - reflexivity.
  - reflexivity.
  - vm_compute. discriminate.
  - left. vm_compute. reflexivity.
  - reflexivity.
  - reflexivity.
  - discriminate.
  - discriminate.
  - vm_compute. reflexivity.
  - intros j. simpl. case_decide; lia.
  - vm_compute. discriminate.
  - vm_compute. lia.
  - vm_compute. discriminate.
  - intros j Hj. lia.
  - vm_compute. reflexivity.
Defined.

(** With an output buffer of 10 bytes the same call moves the input into an
    internal buffer and waits for the device. *)
Example short_args_fit :
  exists w', vfastrpc_internal_invoke 5 (demo_env [] true) (wide_args 10) demo_world = Ok (- ERESTARTSYS) w'.
Proof. eexists. vm_compute. reflexivity. Qed.
