(* ===== verification/Keep.v ===== *)
(** * Operations that keep a file with invocations consistent

    The map and unmap handlers and the session commands do not know of the
    invocations in flight on the same file.  Here it is shown that none of
    them takes away a map, a buffer or a message a context holds: each keeps
    [ctx_inv].  [framed R m] says that the states before and after [m] are in
    [R]; it is compositional, so that most proofs follow the code. *)
From S2P Require Import Prelude Shared Mmap MmapFacts Pages Buf BufFacts Apps AppsFacts World WorldFacts Transact MapOps MapFacts Session SessionFacts Invoke CtxFacts CtxInv ArgFacts DescFacts MsgFacts InvokeFacts InvokeSafe.

(** What [m] does to a state in [I] is [R]. *)
Definition from {S A} (I : S -> Prop) (R : S -> S -> Prop) (m : M S A) : Prop :=
  forall s a s', I s -> m s = Ok a s' -> R s s'.
Definition framed {S A} (R : S -> S -> Prop) (m : M S A) : Prop := from (fun _ => True) R m.

Section frames.
Context {S : Type} (R : S -> S -> Prop) `{!PreOrder R}.

Lemma framed_ret {A} (a : A) : framed R (mret a).
Proof. intros s b s' _ [= <- <-]. reflexivity. Qed.
Lemma framed_get : framed R get.
Proof. intros s b s' _ [= <- <-]. reflexivity. Qed.
Lemma framed_gets {A} (f : S -> A) : framed R (gets f).
Proof. intros s b s' _ [= <- <-]. reflexivity. Qed.
Lemma framed_fail {A} f : framed R (@fail S A f).
Proof. done. Qed.
Lemma framed_hang {A} : framed R (@hang S A).
Proof. done. Qed.
Lemma framed_sleep {A} on : framed R (@sleep S A on).
Proof. done. Qed.

(** Only the first step needs the state in [I]. *)
Lemma from_bind {A B} I (m : M S A) (k : A -> M S B) : from I R m -> (forall a, framed R (k a)) -> from I R (m ≫= k).
Proof.
  intros Hm Hk s b s' Hs. unfold mbind, M_bind. destruct (m s) as [a s1| |] eqn:E; [|done..].
  intros E'. trans s1; [exact (Hm _ _ _ Hs E)|exact (Hk a _ _ _ Logic.I E')].
Qed.
Lemma framed_bind {A B} (m : M S A) (k : A -> M S B) : framed R m -> (forall a, framed R (k a)) -> framed R (m ≫= k).
Proof. apply from_bind. Qed.
Lemma framed_when b (m : M S ()) : framed R m -> framed R (when b m).
Proof. destruct b; [done|]. intros _. apply framed_ret. Qed.
Lemma from_gets {A B} I (f : S -> A) (k : A -> M S B) : (forall a, from I R (k a)) -> from I R (gets f ≫= k).
Proof. intros Hk s b s' Hs E. exact (Hk _ _ _ _ Hs E). Qed.
End frames.

Create HintDb framed.
#[export] Hint Resolve framed_ret framed_get framed_gets framed_fail framed_hang framed_sleep framed_when : framed.

(** Follows the code: binds, branches, and the hints. *)
Ltac framed :=
  repeat first
    [ progress intros
    | progress cbv zeta
    | solve [eauto with framed typeclass_instances]
    | match goal with
      | |- framed _ (_ ≫= _) => apply framed_bind; [typeclasses eauto| |]
      | |- framed _ (match ?x with _ => _ end) => destruct x eqn:?
      end ].

(** ** Maps *)

Section maps.
Context `{HS : adsprpc_shared, !adsprpc_shared_ok HS}.

(** The maps, with [H] held by contexts and room for [k] references. *)
Definition held_ok (H : gmultiset ptr) (k : Z) (s : mmaps) : Prop := maps_ok H k s /\ nonzero H s.

(** What an invocation relies on of a map. *)
Definition same_map (m m' : vfastrpc_mmap) : Prop :=
  m_ctx_refs m' = m_ctx_refs m /\ m_va m' = m_va m /\ m_len m' = m_len m /\ m_table m' = m_table m.
Definition fresh_map (m : vfastrpc_mmap) : Prop :=
  m_ctx_refs m = 0 /\ (forall t, m_table m = Some t -> tiny t) /\ 0 <= m_va m /\ (m_va m = 0 -> m_len m = 0).

(** Maps that contexts use stay as they are, and new ones are unused. *)
Record mm_step (s s' : mmaps) : Prop := {
  ms_old q m : mm_heap s !! q = Some m -> 0 < m_ctx_refs m -> exists m', mm_heap s' !! q = Some m' /\ same_map m m';
  ms_new q m' : mm_heap s' !! q = Some m' ->
    (exists m, mm_heap s !! q = Some m /\ same_map m m') \/ fresh_map m';
}.

Lemma same_map_refl m : same_map m m.
Proof. done. Qed.

Lemma mm_step_id s s' : mm_heap s' = mm_heap s -> mm_step s s'.
Proof. intros E. split; intros q m; rewrite E; [|left]; by exists m. Qed.

Lemma mm_step_set s s' p m m' :
  mm_heap s !! p = Some m -> same_map m m' -> mm_heap s' = <[p := m']> (mm_heap s) -> mm_step s s'.
Proof.
  intros Hp Hm E. split; intros q x; rewrite E, lookup_insert; case_decide; subst.
  - rewrite Hp. intros [= <-] _. by exists m'.
  - by exists x.
  - intros [= <-]. left. by exists m.
  - left. by exists x.
Qed.

Lemma mm_step_new s s' p m :
  mm_heap s !! p = None -> fresh_map m -> mm_heap s' = <[p := m]> (mm_heap s) -> mm_step s s'.
Proof.
  intros Hp Hm E. split; intros q x; rewrite E, lookup_insert; case_decide; subst.
  - by rewrite Hp.
  - by exists x.
  - intros [= <-]. by right.
  - left. by exists x.
Qed.

Lemma mm_step_gone s s' p m :
  mm_heap s !! p = Some m -> m_ctx_refs m <= 0 -> mm_heap s' = delete p (mm_heap s) -> mm_step s s'.
Proof.
  intros Hp Hm E. split; intros q x; rewrite E, lookup_delete; case_decide; subst; try done.
  - rewrite Hp. intros [= <-]. lia.
  - by exists x.
  - left. by exists x.
Qed.

Lemma tiny_small t : tiny t -> small_table t.
Proof.
  unfold tiny, small_table. let a := eval vm_compute in sizeof_mem_map_msg in change sizeof_mem_map_msg with a.
  let b := eval vm_compute in sizeof_sgl in change sizeof_sgl with b. lia.
Qed.

Lemma held_step H k s s' : 0 <= k < 2 ^ 31 -> held_ok H k s -> mm_inv s' -> mm_step s s' -> held_ok H k s'.
Proof.
  intros Hk [[Hi Hs Ht Hz Hc Hr] Hn] Hi' [Hold Hnew].
  assert (tiny_maps s') as Ht'.
  { intros p m t Hp Em. destruct (Hnew p m Hp) as [(m0 & Hm0 & _ & _ & _ & E)|(_ & Htn & _)]; [|by apply Htn].
    rewrite E in Em. by eapply Ht. }
  split.
  - split; try done.
    + intros p m t Hp Em. by eapply tiny_small, Ht'.
    + intros p m Hp. destruct (Hnew p m Hp) as [(m0 & Hm0 & _ & -> & -> & _)|(_ & _ & ?)]; [by eapply Hz|done].
    + intros q Hq. destruct (Hc q Hq) as (m & Hm & Hle).
      assert (0 < multiplicity q H)%nat by by apply elem_of_multiplicity.
      destruct (Hold q m Hm) as (m' & Hm' & E & _); [lia|]. exists m'. split; [done|]. by rewrite E.
    + intros p m Hp. destruct (Hnew p m Hp) as [(m0 & Hm0 & -> & _)|(-> & _)]; [by eapply Hr|lia].
  - intros q m Hq Hm. destruct (Hc q Hq) as (m0 & Hm0 & Hle).
    assert (0 < multiplicity q H)%nat by by apply elem_of_multiplicity.
    destruct (Hold q m0 Hm0) as (m' & Hm' & _ & E & _); [lia|]. simplify_eq. rewrite E. by eapply Hn.
Qed.

#[export] Instance mm_step_preorder : PreOrder mm_step.
Proof.
  split; [intros s; by apply mm_step_id|].
  intros s1 s2 s3 [O1 N1] [O2 N2]. split.
  - intros q m Hq Hc. destruct (O1 q m Hq Hc) as (m2 & H2 & E2). pose proof E2 as (Ec & _).
    destruct (O2 q m2 H2) as (m3 & H3 & E3); [by rewrite Ec|]. exists m3. split; [done|].
    unfold same_map in *. naive_solver congruence.
  - intros q m3 H3. destruct (N2 q m3 H3) as [(m2 & H2 & E2)|?]; [|by right].
    destruct (N1 q m2 H2) as [(m1 & H1 & E1)|Hf].
    + left. exists m1. split; [done|]. unfold same_map in *. naive_solver congruence.
    + right. unfold same_map, fresh_map in *. destruct E2 as (-> & -> & -> & ->). done.
Qed.

(** ** The operations of virtio_fastrpc_mem.c *)

Lemma free_step p : framed mm_step (vfastrpc_mmap_free (Some p) 0).
Proof.
  intros s [] s' _ E. destruct (mm_heap s !! p) as [m|] eqn:Hm.
  2: { unfold vfastrpc_mmap_free, mbind, M_bind, load in E. by rewrite Hm in E. }
  destruct (is_heap_addr (m_flags m)) eqn:Hh; [rewrite (mmap_free_skip p m) in E by eauto; by simplify_eq; apply mm_step_id|].
  destruct (decide (m_refs m <= 0 \/ m_ctx_refs m < 0)) as [Hs|Hs].
  { rewrite (mmap_free_skip p m) in E by naive_solver. by simplify_eq; apply mm_step_id. }
  destruct (decide (m_refs m = 1 /\ m_ctx_refs m = 0)) as [Hl|Hl].
  - rewrite (mmap_free_last p m) in E by (try done; try lia; by right). injection E as <-.
    apply (mm_step_gone _ _ p m); [done|lia|done].
  - rewrite (mmap_free_drop p m) in E by (try done; lia). injection E as <-.
    by apply (mm_step_set _ _ p m (m <| m_refs := m_refs m - 1 |>)).
Qed.

Lemma create_step e fd attr va len mflags :
  (forall t, ce_table e = Some t -> tiny t) -> 0 <= va -> (va = 0 -> len = 0) ->
  from mm_inv mm_step (vfastrpc_mmap_create e fd attr va len mflags).
Proof.
  intros Ht Hva Hl s a s' Hi E.
  destruct (create_cases e fd attr va len mflags s Hi) as
    [(p & m & Hf & _ & _ & _ & R)|[(p & m & Hp & _ & _ & _ & Et & _ & _ & _ & Ev & El & _ & Ec & _ & R)|(err & x & _ & R & _ & _ & _ & Hg)]];
    rewrite E in R; injection R as -> ->.
  - apply first_map_Some in Hf as (_ & Hm & _). by apply (mm_step_set _ _ p m (m <| m_refs := m_refs m + 1 |>)).
  - apply (mm_step_new _ _ p m); [done| |done]. split; [done|]. split; [by rewrite Et|]. rewrite Ev, El. done.
  - split; intros q m Hq; destruct (Hg q) as [Eq|(Eq & m0 & Eq' & Hc & Htb & Hv & Hln)]; try congruence.
    + exists m. split; [congruence|done].
    + left. exists m. split; [congruence|done].
    + right. simplify_eq. split; [done|]. rewrite Htb, Hv, Hln. naive_solver lia.
Qed.

Lemma remove_step fd va len : from mm_inv mm_step (vfastrpc_mmap_remove fd va len).
Proof.
  intros s a s' Hi E.
  destruct (remove_cases fd va len s Hi) as [[_ R]|(p & m & _ & _ & Hm & _ & _ & _ & R)]; rewrite E in R; injection R as -> ->.
  - by apply mm_step_id.
  - apply (mm_step_set _ _ p m (if keep_map m then m <| m_refs := m_refs m - 1 |> else m)); [done|by destruct (keep_map m)|done].
Qed.

Lemma load_reads p s m s' : load p s = Ok m s' -> s' = s /\ mm_heap s !! p = Some m.
Proof. unfold load. case_match; [|done]. by intros [= <- <-]. Qed.

Lemma add_step p : framed mm_step (vfastrpc_mmap_add p).
Proof.
  intros s a s' _. unfold vfastrpc_mmap_add, mbind, M_bind, load, maps_add_head.
  destruct (mm_heap s !! p); [|done]. repeat case_match; intros [= <- <-]; by apply mm_step_id.
Qed.

(** Changing what contexts do not look at. *)
Lemma update_step {A} p f (k : M mmaps A) :
  (forall m, same_map m (f m)) -> framed mm_step k -> framed mm_step (m ← load p; store p (f m);; k).
Proof.
  intros Hf Hk s a s' _. unfold mbind at 1, M_bind at 1. destruct (load p s) as [m s1| |] eqn:E; [|done..].
  apply load_reads in E as [-> Hm]. unfold mbind, M_bind, store. rewrite Hm. intros E.
  trans (s <| mm_heap := <[p := f m]> (mm_heap s) |>); [by apply (mm_step_set _ _ p m (f m))|]. exact (Hk _ _ _ Logic.I E).
Qed.

Lemma remove_fd_step fd : framed mm_step (vfastrpc_mmap_remove_fd fd).
Proof.
  apply framed_bind; [apply _|apply framed_gets, _|]. intros l. generalize 0 at 1 as err. generalize 0 as n.
  induction l as [|p l IH]; intros n err; cbn [mmap_remove_fd_loop]; [apply framed_ret, _|].
  apply framed_bind; [apply _|intros s a s' _ [-> _]%load_reads; reflexivity|]. intros m.
  destruct (_ && _); [|apply IH]. apply framed_bind; [apply _|apply free_step|]. intros _. apply IH.
Qed.
End maps.

(** ** What the device does *)

(** A relation between states of an open file that the receive path cannot
    leave: it changes the device, the contexts and the count of finished
    asynchronous jobs. *)
Class dev_frame `{V : virtqueue} (R : world -> world -> Prop) : Prop := {
  dfr_pre :: PreOrder R;
  dfr_apps w a : R w (w <| w_apps := a |>);
  dfr_cx w c : R w (w <| w_cx := c |>);
  dfr_job w n : R w (w <| w_fl := (w_fl w) <| fl_async_queue_job_count := n |> |>);
}.

Section device.
Context `{V : virtqueue} (R : world -> world -> Prop) `{HR : !dev_frame R}.

Lemma framed_on_apps {A} (m : M apps A) : framed R (on_apps m).
Proof. intros w a w' _. unfold on_apps, zoom. destruct (m (w_apps w)); [|done..]. intros [= <- <-]. apply HR. Qed.
Lemma framed_on_cx {A} (m : M ctxs A) : framed R (on_cx m).
Proof. intros w a w' _. unfold on_cx, zoom. destruct (m (w_cx w)); [|done..]. intros [= <- <-]. apply HR. Qed.
Lemma framed_job g :
  framed R (on_fl (modify (fun f => f <| fl_async_queue_job_count := g f |>))).
Proof. intros w a w' _ [= <- <-]. apply (dfr_job w). Qed.
#[local] Hint Resolve framed_on_apps framed_on_cx framed_job : framed.

Lemma framed_recv_single rsp len : framed R (recv_single rsp len).
Proof. unfold recv_single, is_async, vfastrpc_queue_completed_async_job. framed. Qed.
Lemma framed_recv_loop fuel rsp len : framed R (recv_loop fuel rsp len).
Proof.
  revert rsp len. induction fuel as [|fuel IH]; intros rsp len; cbn [recv_loop]; [apply framed_hang|].
  apply framed_bind; [apply _|apply framed_recv_single|]. framed.
Qed.
#[local] Hint Resolve framed_recv_loop : framed.
Lemma framed_run_events l : framed R (run_events l).
Proof.
  induction l as [|e l IH]; cbn [run_events]; [apply framed_ret, _|].
  apply framed_bind; [apply _| |done]. destruct e; cbn [run_event]; [apply framed_on_apps|].
  unfold recv_done. framed.
Qed.
#[local] Hint Resolve framed_run_events : framed.
Lemma framed_wait evs mp : framed R (wait_for_completion evs mp).
Proof. unfold wait_for_completion. framed. Qed.
Lemma framed_wait_interruptible evs sig mp : framed R (wait_for_completion_interruptible evs sig mp).
Proof. unfold wait_for_completion_interruptible. framed. Qed.
#[local] Hint Resolve framed_wait framed_wait_interruptible : framed.
Lemma framed_take_response {A} mp err (dflt : A) read : framed R (take_response mp err dflt read).
Proof. unfold take_response. framed. Qed.
#[local] Hint Resolve framed_take_response : framed.
Lemma framed_transact {A} e session cmd size extent build (dflt : A) read :
  framed R (transact e session cmd size extent build dflt read).
Proof. unfold transact. framed. Qed.
End device.
#[export] Hint Resolve framed_on_apps framed_on_cx framed_job framed_run_events framed_wait framed_wait_interruptible
  framed_take_response framed_transact : framed.

(** ** The map handlers leave held maps alone *)

Section handlers.
Context `{HS : adsprpc_shared, !adsprpc_shared_ok HS}.
Context `{KC : kernel_config, !kernel_config_ok KC}.
Context `{V : virtqueue, !virtqueue_ok V}.
Implicit Types w : world.

Definition mm_frame w w' : Prop := mm_step (w_mm w) (w_mm w').
#[export] Instance mm_frame_dev : dev_frame mm_frame.
Proof.
  split; unfold mm_frame; [|reflexivity..]. split; [intros w; reflexivity|]. intros x y z ? ?. by trans (w_mm y).
Qed.

Lemma from_on_mm {A} (m : M mmaps A) : from mm_inv mm_step m -> from file_inv mm_frame (on_mm m).
Proof.
  intros Hm w a w' Hw. unfold on_mm, zoom. destruct (m (w_mm w)) eqn:E; [|done..]. intros [= <- <-].
  exact (Hm _ _ _ (fi_mm _ Hw) E).
Qed.
Lemma framed_on_mm {A} (m : M mmaps A) : framed mm_step m -> framed mm_frame (on_mm m).
Proof.
  intros Hm w a w' _. unfold on_mm, zoom. destruct (m (w_mm w)) eqn:E; [|done..]. intros [= <- <-].
  exact (Hm _ _ _ Logic.I E).
Qed.
Lemma framed_load p : framed mm_frame (on_mm (load p)).
Proof. apply framed_on_mm. intros s m s' _ [-> _]%load_reads. reflexivity. Qed.
Lemma mm_framed_bf {A} (m : M bufs A) : framed mm_frame (on_bf m).
Proof. intros w a w' _. unfold on_bf, zoom. destruct (m (w_bf w)); [|done..]. intros [= <- <-]. by apply mm_step_id. Qed.
Lemma mm_framed_fl {A} (m : M file A) : framed mm_frame (on_fl m).
Proof. intros w a w' _. unfold on_fl, zoom. destruct (m (w_fl w)); [|done..]. intros [= <- <-]. by apply mm_step_id. Qed.

(** [p->raddr = v]. *)
Lemma framed_set_raddr p v : framed mm_frame (m ← on_mm (load p); on_mm (store p (m <| m_raddr := v |>))).
Proof.
  intros w a w' _. unfold mbind, M_bind, on_mm, zoom. destruct (load p (w_mm w)) as [m s1| |] eqn:E; [|done..].
  apply load_reads in E as [-> Hm]. simpl. unfold store. rewrite Hm. intros [= <- <-].
  unfold mm_frame. simpl. by apply (mm_step_set _ _ p m (m <| m_raddr := v |>)).
Qed.
Lemma framed_raddr {A} p v (k : () -> M world A) :
  (forall x, framed mm_frame (k x)) ->
  framed mm_frame (m ← on_mm (load p); on_mm (store p (m <| m_raddr := v |>)) ≫= k).
Proof.
  intros Hk w a w' _ E. apply (framed_bind mm_frame _ k (framed_set_raddr p v) Hk w a w' Logic.I).
  revert E. unfold mbind, M_bind. by destruct (on_mm (load p) w).
Qed.

#[local] Hint Resolve free_step add_step remove_fd_step framed_load mm_framed_bf mm_framed_fl framed_set_raddr framed_raddr : framed.
#[local] Hint Extern 2 (framed mm_frame (on_mm _)) => apply framed_on_mm : framed.

Lemma restore_step p : framed mm_step (mem_unmap_restore p).
Proof.
  intros s a s' _. unfold mem_unmap_restore. unfold mbind at 1, M_bind at 1.
  destruct (load p s) as [m s1| |] eqn:E; [|done..]. apply load_reads in E as [-> Hm].
  destruct (keep_map m); cbn [when]; [|intros E; exact (add_step p _ _ _ Logic.I E)].
  unfold mbind, M_bind, store. rewrite Hm. intros E. etrans; [|exact (add_step p _ _ _ Logic.I E)].
  by apply (mm_step_set _ _ p m (m <| m_refs := s32 (m_refs m + 1) |>)).
Qed.
#[local] Hint Resolve restore_step : framed.

Lemma from_framed {A} I (R : world -> world -> Prop) (m : M world A) : framed R m -> from I R m.
Proof. intros Hm w a w' _ E. exact (Hm _ _ _ Logic.I E). Qed.

(** A handler that first works on the maps of a consistent file. *)
Ltac from_first :=
  repeat first [ apply from_gets | progress cbv zeta | progress intros
    | match goal with
      | |- from _ _ (if ?b then _ else _) => destruct b; [apply from_framed; solve [framed]|]
      end ];
  apply from_bind; [apply _| |].

Lemma mmap_user_fd_frame ce me fd va size flags :
  (forall t, ce_table ce = Some t -> tiny t) -> 0 <= va -> (va = 0 -> size = 0) ->
  from file_inv mm_frame (mmap_user_fd ce me fd va size flags).
Proof.
  intros Ht Hv Hs. unfold mmap_user_fd. from_first; [by apply from_on_mm, create_step|].
  unfold virt_fastrpc_mmap. framed.
Qed.

Lemma mem_map_frame ce me fd attrs va len flags off :
  (forall t, ce_table ce = Some t -> tiny t) -> 0 <= va -> (va = 0 -> len = 0) ->
  from file_inv mm_frame (vfastrpc_internal_mem_map ce me fd attrs va len flags off).
Proof.
  intros Ht Hv Hs. unfold vfastrpc_internal_mem_map. from_first; [by apply from_on_mm, create_step|].
  unfold virt_fastrpc_mem_map. framed.
Qed.

Lemma munmap_map_frame me va size : from file_inv mm_frame (munmap_map me va size).
Proof.
  unfold munmap_map. from_first; [apply from_on_mm, remove_step|]. unfold virt_fastrpc_munmap. framed.
Qed.

Lemma mem_unmap_frame me fd va len : from file_inv mm_frame (vfastrpc_internal_mem_unmap me fd va len).
Proof.
  unfold vfastrpc_internal_mem_unmap. from_first; [apply from_on_mm, remove_step|].
  unfold virt_fastrpc_mem_unmap. framed.
Qed.

(** ** Keeping [ctx_inv] *)

Lemma ctx_inv_mm k w s :
  0 <= k < 2 ^ 31 -> ctx_inv ∅ k w -> mm_inv s -> mm_step (w_mm w) s -> ctx_inv ∅ k (w <| w_mm := s |>).
Proof.
  intros Hk [Hrx Hmp Hnz Hbf Hnd Hap Hsh Hlk Hds Hls Hsz] Hi Hs. rewrite (left_id_L ∅ (⊎)) in Hmp.
  destruct (held_step _ k (w_mm w) s Hk (conj Hmp Hnz) Hi Hs) as [Hmp' Hnz'].
  split; try done; simpl; [by destruct Hrx|by rewrite (left_id_L ∅ (⊎))].
Qed.

(** A handler of maps only. *)
Lemma only_mm_keeps k w w' :
  0 <= k < 2 ^ 31 -> ctx_inv ∅ k w -> file_inv w' -> only_mm w w' -> mm_frame w w' -> ctx_inv ∅ k w'.
Proof.
  intros Hk Hi Hi' Ho Hf. eapply ctx_inv_xfer; [|exact Ho|apply Hi']. by apply ctx_inv_mm; [..|apply Hi'|].
Qed.

(** ** The handlers leave held buffers alone *)

Definition same_buf (b b' : vfastrpc_buf) : Prop := b' = b <| b_raddr := b_raddr b' |>.

(** Buffers that are neither cached nor remote stay as they are, and no
    other buffer becomes one. *)
Record bf_step (s s' : bufs) : Prop := {
  bs_old q b : bf_heap s !! q = Some b -> b_remote b = 0 -> q ∉ bf_cached s ->
    (q ∉ bf_cached s') /\ exists b', bf_heap s' !! q = Some b' /\ same_buf b b';
  bs_new q b' : bf_heap s' !! q = Some b' -> b_remote b' = 0 -> exists b, bf_heap s !! q = Some b /\ same_buf b b';
}.

Lemma same_buf_trans b1 b2 b3 : same_buf b1 b2 -> same_buf b2 b3 -> same_buf b1 b3.
Proof. unfold same_buf. destruct b1, b2, b3. simpl. intros [=] [=]. by simplify_eq. Qed.
Lemma same_buf_remote b b' : same_buf b b' -> b_remote b' = b_remote b.
Proof. by intros ->. Qed.

Lemma bf_step_id s s' : bf_heap s' = bf_heap s -> bf_cached s' = bf_cached s -> bf_step s s'.
Proof. intros Eh Ec. split; intros q b; rewrite Eh, ?Ec; [split; [done|]|]; exists b; by destruct b. Qed.

#[export] Instance bf_step_preorder : PreOrder bf_step.
Proof.
  split; [intros s; by apply bf_step_id|]. intros s1 s2 s3 [O1 N1] [O2 N2]. split.
  - intros q b Hb Hr Hc. destruct (O1 q b Hb Hr Hc) as (Hc2 & b2 & Hb2 & E2).
    destruct (O2 q b2 Hb2) as (Hc3 & b3 & Hb3 & E3); [by rewrite (same_buf_remote _ _ E2)|done|].
    split; [done|]. exists b3. split; [done|]. by eapply same_buf_trans.
  - intros q b3 Hb3 Hr. destruct (N2 q b3 Hb3 Hr) as (b2 & Hb2 & E3).
    destruct (N1 q b2 Hb2) as (b1 & Hb1 & E2); [by rewrite <- (same_buf_remote _ _ E3)|].
    exists b1. split; [done|]. by eapply same_buf_trans.
Qed.

Lemma bf_step_remote s s' p b :
  (forall b0, bf_heap s !! p = Some b0 -> b_remote b0 <> 0) -> b_remote b <> 0 ->
  bf_heap s' = <[p := b]> (bf_heap s) -> bf_cached s' = bf_cached s -> bf_step s s'.
Proof.
  intros Hp Hb Eh Ec. split; intros q x; rewrite Eh, ?Ec.
  - intros Hq Hr Hn. split; [done|]. exists x. split; [|by destruct x].
    rewrite lookup_insert_ne; [done|]. intros ->. by apply (Hp x).
  - rewrite lookup_insert. case_decide; [|intros; exists x; split; [done|by destruct x]]. by intros [= <-] ?.
Qed.

Lemma bf_step_gone s s' p b :
  bf_heap s !! p = Some b -> b_remote b <> 0 -> bf_heap s' = delete p (bf_heap s) -> bf_cached s' = bf_cached s ->
  bf_step s s'.
Proof.
  intros Hp Hb Eh Ec. split; intros q x; rewrite Eh, ?Ec.
  - intros Hq Hr Hn. split; [done|]. exists x. split; [|by destruct x].
    rewrite lookup_delete_ne; [done|]. intros ->. by simplify_eq.
  - intros [_ Hq]%lookup_delete_Some _. exists x. split; [done|by destruct x].
Qed.

Lemma bufs_step D s s' : bufs_ok D s -> bf_inv s' -> bf_step s s' -> bufs_ok D s'.
Proof.
  intros [Hi Hl Ho] Hi' [Hold Hnew]. split; [done| |].
  - intros p b Hp Hr. destruct (Hnew p b Hp Hr) as (b0 & Hb0 & E).
    rewrite (same_buf_remote _ _ E) in Hr. rewrite E. exact (Hl p b0 Hb0 Hr).
  - intros q Hq. destruct (Ho q Hq) as (Hm & Hc & b & Hb & Hr).
    destruct (Hold q b Hb Hr Hc) as (Hc' & b' & Hb' & E). split; [done|]. split; [done|]. exists b'.
    split; [done|]. by rewrite (same_buf_remote _ _ E).
Qed.

Lemma ctx_inv_bf k w s : ctx_inv ∅ k w -> bf_inv s -> bf_step (w_bf w) s -> ctx_inv ∅ k (w <| w_bf := s |>).
Proof.
  intros [Hrx Hmp Hnz Hbf Hnd Hap Hsh Hlk Hds Hls Hsz] Hi Hs.
  split; try done; simpl; [by destruct Hrx|exact (bufs_step _ _ _ Hbf Hi Hs)|].
  intros q c Hq Hm ds i d Ed Ei Ety. destruct (Hds q c Hq Hm ds i d Ed Ei Ety) as (bp & b & ra & Eb & Hb & Hra & Hle).
  assert (bp ∈ hsum ctx_bufs (cx_heap (w_cx w))) as Hin.
  { pose proof (hsum_sub ctx_bufs _ _ _ Hq). assert (bp ∈ ctx_bufs c); [|multiset_solver].
    unfold ctx_bufs, bufs_of. rewrite Ed. apply elem_of_list_to_set_disj, list_elem_of_omap.
    exists d. split; [by eapply list_elem_of_lookup_2|done]. }
  destruct (bo_owned _ _ Hbf bp Hin) as (_ & Hc & b0 & Hb0 & Hr). simplify_eq.
  destruct (bs_old _ _ Hs bp b Hb Hr Hc) as (_ & b' & Hb' & E). exists bp, b', ra. split_and!; try done.
  unfold mapped_bytes in *. rewrite E. done.
Qed.

Definition bf_frame w w' : Prop := bf_step (w_bf w) (w_bf w').
#[export] Instance bf_frame_dev : dev_frame bf_frame.
Proof.
  split; unfold bf_frame; [|reflexivity..]. split; [intros w; reflexivity|]. intros x y z ? ?. by trans (w_bf y).
Qed.

Lemma from_on_bf {A} (m : M bufs A) : from bf_inv bf_step m -> from file_inv bf_frame (on_bf m).
Proof.
  intros Hm w a w' Hw. unfold on_bf, zoom. destruct (m (w_bf w)) eqn:E; [|done..]. intros [= <- <-].
  exact (Hm _ _ _ (fi_bf _ Hw) E).
Qed.
Lemma framed_bload p : framed bf_frame (on_bf (bload p)).
Proof.
  intros w a w' _. unfold on_bf, zoom, bload. destruct (bf_heap (w_bf w) !! p); [|done]. intros [= <- <-]. by apply bf_step_id.
Qed.
Lemma framed_set_braddr {A} p v (k : () -> M world A) :
  (forall x, framed bf_frame (k x)) ->
  framed bf_frame (b ← on_bf (bload p); on_bf (bstore p (b <| b_raddr := v |>)) ≫= k).
Proof.
  intros Hk w a w' _. unfold mbind, M_bind, on_bf, zoom, bload.
  destruct (bf_heap (w_bf w) !! p) as [b|] eqn:Hb; [|done]. simpl. unfold bstore. simpl. rewrite Hb. intros E.
  etrans; [|exact (Hk _ _ _ _ Logic.I E)]. split; simpl.
  - intros q x Hq Hr Hc. split; [done|]. rewrite lookup_insert. case_decide; [subst; simplify_eq; by eexists|].
    exists x. split; [done|by destruct x].
  - intros q x. rewrite lookup_insert. case_decide; [subst; intros [= <-] _; by exists b|].
    exists x. split; [done|by destruct x].
Qed.
#[local] Hint Resolve framed_bload framed_set_braddr : framed.

Lemma add_pages_frame ae me va size flags : from file_inv bf_frame (mmap_add_pages ae me va size flags).
Proof.
  unfold mmap_add_pages. destruct (negb _); [apply from_framed; framed|].
  apply from_bind; [apply _| |unfold virt_fastrpc_mmap; framed].
  apply from_on_bf. intros s a s' Hi E.
  destruct (buf_alloc_cases ae size DMA_ATTR_NO_KERNEL_MAPPING flags 1 s Hi)
    as [(err & n & _ & R)|[(p & b & ? & _)|(p & b & n & _ & Hp & _ & _ & _ & Hr & _ & _ & R)]];
    [|done|]; rewrite E in R; injection R as -> ->; [by apply bf_step_id|].
  apply (bf_step_remote _ _ p b); [by rewrite Hp|by rewrite Hr|done..].
Qed.

(** Mapping and unmapping keep a file with invocations consistent. *)
Lemma internal_mmap_keeps ce ae me fd va size flags k w a w' :
  0 <= k < 2 ^ 31 -> ctx_inv ∅ k w ->
  (forall t, ce_table ce = Some t -> tiny t) -> (forall t, ae_sgt ae = Some t -> tiny t) ->
  0 <= va -> (va = 0 -> flags <> ADSP_MMAP_ADD_PAGES -> size = 0) ->
  vfastrpc_internal_mmap ce ae me fd va size flags w = Ok a w' -> ctx_inv ∅ k w'.
Proof.
  intros Hk Hi Ht Hat Hva Hz. pose proof (ctx_inv_file _ _ _ Hi) as Hf. unfold vfastrpc_internal_mmap, mbind at 1, M_bind at 1, gets.
  destruct (negb _); [by intros [= _ <-]|]. destruct (Z.eqb_spec flags ADSP_MMAP_ADD_PAGES) as [->|Hfl]; intros E.
  - pose proof (mmap_add_pages_swp ae me va size w Hf ltac:(intros; by apply tiny_small, Hat)) as Hs.
    unfold swp in Hs. rewrite E in Hs. destruct Hs as (Hf' & Ho & _).
    eapply ctx_inv_xfer; [|exact Ho|apply Hf']. apply ctx_inv_bf; [done|apply Hf'|].
    exact (add_pages_frame _ _ _ _ _ _ _ _ Hf E).
  - pose proof (mmap_user_fd_swp ce me fd va size flags w Hf ltac:(intros; by apply tiny_small, Ht)) as Hs.
    unfold swp in Hs. rewrite E in Hs. destruct Hs as (Hf' & Ho & _).
    apply (only_mm_keeps k w w' Hk Hi Hf' Ho). eapply mmap_user_fd_frame; [..|exact Hf|exact E]; auto.
Qed.

Lemma mem_map_keeps ce me fd attrs va len flags off k w a w' :
  0 <= k < 2 ^ 31 -> ctx_inv ∅ k w -> (forall t, ce_table ce = Some t -> tiny t) -> 0 <= va -> (va = 0 -> len = 0) ->
  vfastrpc_internal_mem_map ce me fd attrs va len flags off w = Ok a w' -> ctx_inv ∅ k w'.
Proof.
  intros Hk Hi Ht Hva Hz E. pose proof (ctx_inv_file _ _ _ Hi) as Hf.
  pose proof (mem_map_swp ce me fd attrs va len flags off w Hf ltac:(intros; by apply tiny_small, Ht)) as Hs.
  unfold swp in Hs. rewrite E in Hs. destruct Hs as (Hf' & Ho & _).
  apply (only_mm_keeps k w w' Hk Hi Hf' Ho). eapply mem_map_frame; [..|exact Hf|exact E]; auto.
Qed.

Lemma mem_unmap_keeps me fd va len k w a w' :
  0 <= k < 2 ^ 31 -> ctx_inv ∅ k w -> vfastrpc_internal_mem_unmap me fd va len w = Ok a w' -> ctx_inv ∅ k w'.
Proof.
  intros Hk Hi E. pose proof (ctx_inv_file _ _ _ Hi) as Hf.
  pose proof (mem_unmap_swp me fd va len w Hf) as Hs.
  unfold swp in Hs. rewrite E in Hs. destruct Hs as (Hf' & Ho & _).
  apply (only_mm_keeps k w w' Hk Hi Hf' Ho). eapply mem_unmap_frame; [exact Hf|exact E].
Qed.

Lemma internal_munmap_keeps me va size k w a w' :
  0 <= k < 2 ^ 31 -> ctx_inv ∅ k w -> vfastrpc_internal_munmap me va size w = Ok a w' -> ctx_inv ∅ k w'.
Proof.
  intros Hk Hi E. pose proof (ctx_inv_file _ _ _ Hi) as Hf.
  pose proof (internal_munmap_swp me va size w Hf) as Hs. unfold swp in Hs. rewrite E in Hs.
  destruct Hs as (Hf' & Ho & Hc). eapply ctx_inv_xfer; [|exact Ho|apply Hf'].
  assert (mm_step (w_mm w) (w_mm w') /\ bf_step (w_bf w) (w_bf w')) as [Hm Hb].
  { destruct Hc as [(_ & -> & ->)|[(p & b & Hb & Hp & _ & _ & _ & -> & ->)|(-> & p & m & Hfm & Hcase)]]; [done| |].
    - split; [done|]. apply (bf_step_gone _ _ p b); [done| |done..].
      destruct (proj1 (bi_remote _ (fi_bf _ Hf) p) Hp) as (b0 & ? & ?). by simplify_eq.
    - split; [|done]. apply first_map_Some in Hfm as (_ & Hm & _).
      set (m1 := if keep_map m then _ else m) in Hcase.
      assert (forall s1, mm_heap s1 = <[p := m1]> (mm_heap (w_mm w)) -> mm_step (w_mm w) s1) as H1.
      { intros s1. apply (mm_step_set _ s1 p m m1); [done|by subst m1; destruct (keep_map m)]. }
      destruct Hcase as [[_ ->]|[_ Ef]]; [by apply H1|].
      etrans; [|exact (free_step p _ _ _ Logic.I Ef)]. by apply H1. }
  apply ctx_inv_bf; [apply ctx_inv_mm; [done|done|apply Hf'|done]|apply Hf'|done].
Qed.

(** ** Unmapping by file descriptor *)

(** A message that belongs to no context and no saved command. *)
Definition loose w mp : Prop :=
  (exists m, msgs (w_apps w) !! mp = Some m /\ msg_ctx m = None) /\ mp ∉ map vc_msg (fl_interrupted_cmds (w_fl w)).

Lemma in_flight_keeps k w w1 mp i m :
  ctx_inv ∅ k w -> in_flight w w1 mp i -> msgs (w_apps w1) !! mp = Some m -> msg_ctx m = None ->
  ctx_inv ∅ k w1 /\ loose w1 mp.
Proof.
  intros [Hrx Hmp Hnz Hbf Hnd Hap Hsh Hlk Hds Hls Hsz] Hin Hm Hc.
  pose proof (in_cx _ _ _ _ Hin) as Ecx. unfold cx_rest in Ecx. injection Ecx as Eh Ep Ei _.
  pose proof (fl_rest_cmds _ _ (in_fl _ _ _ _ Hin)) as Efl. pose proof (in_new _ _ _ _ Hin) as Hnew.
  assert (forall q x, msgs (w_apps w) !! q = Some x -> exists x', msgs (w_apps w1) !! q = Some x' /\ msg_ctx x' = msg_ctx x) as Hfw.
  { intros q x Hq. assert (q <> mp) as Hne by congruence. pose proof (in_msgs _ _ _ _ Hin q Hne) as Hs. rewrite Hq in Hs.
    inversion Hs as [? x' [_ E _] E1 E2|]; subst. by exists x'. }
  assert (forall q x', q <> mp -> msgs (w_apps w1) !! q = Some x' -> exists x, msgs (w_apps w) !! q = Some x /\ msg_ctx x' = msg_ctx x) as Hbw.
  { intros q x' Hne Hq. pose proof (in_msgs _ _ _ _ Hin q Hne) as Hs. rewrite Hq in Hs.
    inversion Hs as [x ? [_ E _] E1 E2|]; subst. by exists x. }
  split.
  - split; rewrite ?(in_mm _ _ _ _ Hin), ?(in_bf _ _ _ _ Hin), ?Eh, ?Ep, ?Ei, ?Efl, ?(in_size _ _ _ _ Hin); try done; [apply Hin|..].
    + intros q Hq. destruct (Hap q Hq) as (x & Hx & Hxc). destruct (Hfw q x Hx) as (x' & Hx' & E). exists x'. split; [done|congruence].
    + destruct Hlk as [H1 H2]. split.
      * intros q c x Hq Ex. destruct (H1 q c x Hq Ex) as (y & Hy & Ey). destruct (Hfw x y Hy) as (y' & Hy' & E). exists y'. split; [done|congruence].
      * intros x y q Hx Ey. destruct (decide (x = mp)) as [->|Hne]; [simplify_eq; congruence|].
        destruct (Hbw x y Hne Hx) as (y0 & Hy0 & E). apply (H2 x y0); [done|congruence].
  - split; [by exists m|]. rewrite Efl. intros (x & Hx & _)%Hap. congruence.
Qed.

Lemma xfer_loose w w' mp : xfer w w' -> loose w mp -> loose w' mp.
Proof.
  intros Hx [(m & Hm & Hc) Hn]. split; [|by rewrite (fl_rest_cmds _ _ (xf_fl _ _ Hx))].
  pose proof (xf_msgs _ _ Hx mp) as Hs. rewrite Hm in Hs. inversion Hs as [? m' [_ E _] E1 E2|]; subst.
  exists m'. split; [done|congruence].
Qed.

(** The end of a loose message. *)
Lemma drop_loose k w mp m a' :
  ctx_inv ∅ k w -> loose w mp -> msgs (w_apps w) !! mp = Some m ->
  release_msg mp (rxbuf m) (w_apps w) = Ok () a' -> ctx_inv ∅ k (w <| w_apps := a' |>).
Proof.
  intros [Hrx Hmp Hnz Hbf Hnd Hap Hsh Hlk Hds Hls Hsz] [(m0 & Hm0 & Hc) Hn] Hm E.
  assert (m0 = m) as -> by congruence.
  destruct (release_msg_ok mp m w Hrx Hm) as (a & Er & Hi & Em & _ & Es & _). rewrite E in Er. injection Er as <-.
  split; try done; simpl; rewrite ?Em, ?Es; try done.
  - intros q Hq. rewrite lookup_delete_ne by by intros ->. by apply Hap.
  - destruct Hlk as [H1 H2]. split.
    + intros q c x Hq Ex. destruct (H1 q c x Hq Ex) as (y & Hy & Ey). exists y. split; [|done].
      rewrite lookup_delete_ne; [done|]. intros ->. congruence.
    + intros x y q [_ Hx]%lookup_delete_Some. by apply H2.
Qed.

Lemma munmap_fd_wait_keeps e mp k w :
  ctx_inv ∅ k w -> loose w mp -> swp (munmap_fd_wait e mp) (fun _ w' => ctx_inv ∅ k w') w.
Proof.
  intros Hi Hl. unfold munmap_fd_wait. eapply swp_bind; [apply wait_swp; [apply Hi|destruct Hl as [(m & -> & _) _]; by eexists]|].
  intros r w1 [[Hf1 Hr1] Hr]. pose proof (ctx_inv_rx _ _ _ _ Hi (conj Hf1 Hr1)) as Hi1.
  pose proof (xfer_loose w w1 mp (rx_frame_xfer _ _ Hf1) Hl) as Hl1.
  destruct Hl1 as [(m & Hm & Hc) Hn]. destruct (Z.eqb_spec r 0) as [->|Hne]; cbn [negb].
  - eapply (swp_bind _ _ (fun _ w' => ctx_inv ∅ k w')); [|intros; by apply swp_ret].
    unfold take_response. eapply swp_zoom_eq; [unfold msg_load; rewrite Hm; done|]. apply swp_gets.
    destruct (release_msg_ok mp m w1 Hr1 Hm) as (a & Er & _). eapply swp_zoom_eq; [exact Er|]. apply swp_ret.
    replace (w1 <| w_apps := w_apps w1 |>) with w1 by by destruct w1.
    by eapply drop_loose; [|split; [by exists m|]| |].
  - unfold save_interrupted_cmds. destruct (negb (_ =? 0)); [by apply swp_ret|]. unfold on_fl, modify.
    eapply swp_zoom_eq; [done|]. apply swp_ret. destruct Hi1 as [Hrx Hmp Hnz Hbf Hnd Hap Hsh Hlk Hds Hls Hsz].
    split; try done; simpl; [by destruct Hrx|by apply NoDup_cons|].
    intros q [->|Hq]%elem_of_cons; [by exists m|by apply Hap].
Qed.

Lemma munmap_fd_send_keeps e fd flags va len n k w :
  ctx_inv ∅ k w -> swp (virt_fastrpc_munmap_fd e fd flags va len n None) (fun _ w' => ctx_inv ∅ k w') w.
Proof.
  intros Hi. unfold virt_fastrpc_munmap_fd. unfold on_apps at 1.
  destruct (alloc_in_flight (me_kzalloc (fe_msg e)) sizeof_munmap_fd_msg w (ci_rx _ _ _ Hi)) as
    [(a' & Ea & Hx & Hri & _)|(mp & i & buf & a' & Ea & Hin & Hm & _ & Hsz & Eh & _)];
    (eapply swp_zoom_eq; [exact Ea|]).
  { apply swp_ret. by eapply ctx_inv_xfer. }
  eapply swp_zoom_eq; [unfold msg_load; simpl; rewrite Hm; done|]. apply swp_gets.
  eapply swp_zoom_eq; [by eapply tx_fill_eq|]. cbn [txbuf].
  match goal with |- swp _ _ ?x => set (w2 := x) end.
  assert (in_flight w w2 mp i) as Hin2.
  { apply (in_flight_apps _ (w <| w_apps := a' |>)); try done. destruct (ri_apps _ (in_inv _ _ _ _ Hin)). by split. }
  destruct (txbuf_send_ok buf sizeof_munmap_fd_msg (w_apps w2)) as (err & q & _ & Es & Ha3);
    [apply (in_inv _ _ _ _ Hin2)|simpl; rewrite Eh; multiset_solver|].
  assert (msgs (w_apps w2) !! mp = Some {| work_done := 0; msg_ctx := None;
    msgid := Z.of_nat i; txbuf := Some buf; rxbuf := None |}) as Hm2 by exact Hm.
  clearbody w2. eapply swp_zoom_eq; [exact Es|].
  match goal with |- swp _ _ (upd w_apps (fun _ => ?a3) w2) =>
    assert (in_flight w (w2 <| w_apps := a3 |>) mp i) as Hin3
      by (apply in_flight_apps; try done; by destruct (err =? 0));
    assert (msgs a3 = msgs (w_apps w2)) as Em3 by (by destruct (err =? 0)); set (w3 := w2 <| w_apps := a3 |>) in * end.
  assert (msgs (w_apps w3) !! mp = Some {| work_done := 0; msg_ctx := None;
    msgid := Z.of_nat i; txbuf := Some buf; rxbuf := None |}) as Hm3
    by exact (eq_trans (f_equal (lookup mp) Em3) Hm2).
  destruct (in_flight_keeps k w w3 mp i _ Hi Hin3 Hm3 eq_refl) as [Hi3 Hl3].
  destruct (Z.eqb_spec err 0) as [->|Hne]; cbn [negb]; [by apply munmap_fd_wait_keeps|].
  destruct (release_msg_ok mp _ w3 (ci_rx _ _ _ Hi3) Hm3) as (a5 & E5 & _). cbn [rxbuf] in E5.
  eapply swp_zoom_eq; [exact E5|]. apply swp_ret. by eapply drop_loose.
Qed.

Lemma munmap_fd_keeps e fd flags va len k w :
  0 <= k < 2 ^ 31 -> ctx_inv ∅ k w ->
  swp (vfastrpc_internal_munmap_fd e fd flags va len) (fun _ w' => ctx_inv ∅ k w') w.
Proof.
  intros Hk Hi. unfold vfastrpc_internal_munmap_fd. apply swp_gets. destruct (negb _); [by apply swp_ret|].
  unfold find_interrupted_cmds.
  destruct (find_cmd_spec (fl_interrupted_cmds (w_fl w)) (me_pid (fe_msg e)) VIRTIO_FASTRPC_CMD_MUNMAP_FD)
    as [[E Hno]|(l1 & c & l2 & El & _ & _ & E)].
  - eapply (swp_bind _ _ (fun r w' => r = None /\ ctx_inv ∅ k w')).
    { apply swp_gets. rewrite E. unfold swp, mbind, M_bind, on_fl, zoom, put. simpl. split; [done|].
      match goal with |- ctx_inv _ _ ?x => replace x with w by by destruct w as [? ? ? ? []] end. done. }
    intros r w0 [-> Hi0]. destruct (remove_fd_ok fd w0 (ctx_inv_file _ _ _ Hi0)) as ([err n] & s' & Erun & Hmi & _).
    eapply swp_zoom_eq; [exact Erun|]. cbn [fst snd].
    assert (ctx_inv ∅ k (w0 <| w_mm := s' |>)) as Hi1 by (apply ctx_inv_mm; [done..|]; exact (remove_fd_step fd _ _ _ Logic.I Erun)).
    destruct (n =? 0); [by apply swp_ret|].
    eapply swp_bind; [by apply munmap_fd_send_keeps|]. intros r w2 Hi2. by apply swp_ret.
  - set (w1 := w <| w_fl := (w_fl w) <| fl_interrupted_cmds := l1 ++ l2 |> |>).
    eapply (swp_bind _ _ (fun r w' => r = Some (vc_msg c) /\ w' = w1)).
    { apply swp_gets. by rewrite E. }
    intros r w' [-> ->]. pose proof (ci_nodup _ _ _ Hi) as Hnd. rewrite El, map_app in Hnd. cbn [map] in Hnd.
    apply NoDup_app in Hnd as (Hn1 & Hd & [Hc Hn2]%NoDup_cons).
    assert (ctx_inv ∅ k w1) as Hi1.
    { destruct Hi as [Hrx Hmp Hnz Hbf _ Hap Hsh Hlk Hds Hls Hsz]. rewrite El in Hap.
      split; try done; simpl; [by destruct Hrx|..].
      - rewrite map_app. apply NoDup_app. split_and!; [done| |done]. intros x Hx Hx2. apply (Hd x); set_solver.
      - intros q Hq. apply Hap. rewrite map_app in *. set_solver. }
    eapply (swp_bind _ _ (fun _ w' => ctx_inv ∅ k w')); [|intros; by apply swp_ret].
    cbn [virt_fastrpc_munmap_fd]. apply munmap_fd_wait_keeps; [done|]. split.
    + destruct (ci_apart _ _ _ Hi (vc_msg c)) as (m & Hm & Hmc); [rewrite El, map_app; set_solver|]. by exists m.
    + simpl. rewrite map_app, elem_of_app. intros [Hx|Hx]; [|done]. apply (Hd _ Hx). left.
Qed.
End handlers.
