(* ===== verification/KeepFile.v ===== *)
(** * What maps and invocations leave of a session

    Mapping, unmapping and invoking change neither the domain of a file nor
    its process; the session commands keep a file with invocations
    consistent. *)
From S2P Require Import Prelude Shared Mmap MmapFacts Pages Buf BufFacts Apps AppsFacts World WorldFacts Transact MapOps MapFacts MapProps Session SessionFacts Invoke CtxFacts CtxInv ArgFacts DescFacts MsgFacts InvokeFacts InvokeSafe Keep.

Section session.
Context `{HS : adsprpc_shared, KC : kernel_config, V : virtqueue}.
Implicit Types w : world.

Definition fl_session (f : file) : Z * Z * Z := (fl_domain f, fl_dsp_proc_init f, fl_cid f).
Definition sess_frame w w' : Prop := fl_session (w_fl w') = fl_session (w_fl w).
#[export] Instance sess_frame_dev : dev_frame sess_frame.
Proof. split; unfold sess_frame; try done. split; [done|]. intros x y z E1 E2. congruence. Qed.

Lemma sess_on_mm {A} (m : M mmaps A) : framed sess_frame (on_mm m).
Proof. intros w a w' _. unfold on_mm, zoom. destruct (m (w_mm w)); [|done..]. by intros [= <- <-]. Qed.
Lemma sess_on_bf {A} (m : M bufs A) : framed sess_frame (on_bf m).
Proof. intros w a w' _. unfold on_bf, zoom. destruct (m (w_bf w)); [|done..]. by intros [= <- <-]. Qed.
Lemma sess_on_fl g : (forall f, fl_session (g f) = fl_session f) -> framed sess_frame (on_fl (modify g)).
Proof. intros Hg w a w' _ [= <- <-]. apply Hg. Qed.
(** The file is read and written back. *)
Lemma sess_put {A} g (k : file -> () -> M world A) :
  (forall f, fl_session (g f) = fl_session f) -> (forall f x, framed sess_frame (k f x)) ->
  framed sess_frame (f ← gets w_fl; on_fl (put (g f)) ≫= k f).
Proof.
  intros Hg Hk w a w' _ E. trans (w <| w_fl := g (w_fl w) |>); [apply Hg|]. exact (Hk _ _ _ _ _ Logic.I E).
Qed.
Lemma sess_at_index {A} (l : list A) i : framed sess_frame (at_index l i).
Proof. unfold at_index. framed. Qed.
Lemma sess_prefix {A} (l : list A) n : framed sess_frame (prefix l n).
Proof. unfold prefix. framed. Qed.
#[local] Hint Resolve sess_on_mm sess_on_bf sess_at_index sess_prefix : framed.
#[local] Hint Extern 2 (framed sess_frame (on_fl (modify _))) => by apply sess_on_fl : framed.

(** ** The map handlers *)

Lemma sess_find_cmds pid cmd : framed sess_frame (find_interrupted_cmds pid cmd).
Proof.
  intros w a w' _. unfold find_interrupted_cmds, mbind, M_bind, gets. destruct (find_cmd _ _ _) as [r l].
  by intros [= <- <-].
Qed.
#[local] Hint Resolve sess_find_cmds : framed.
Lemma sess_map_op o : framed sess_frame (run_map_op o).
Proof.
  destruct o; cbn [run_map_op]; unfold vfastrpc_internal_mmap, mmap_add_pages, mmap_user_fd, virt_fastrpc_mmap,
    vfastrpc_internal_munmap, munmap_map, virt_fastrpc_munmap, vfastrpc_internal_mem_map, virt_fastrpc_mem_map,
    vfastrpc_internal_mem_unmap, virt_fastrpc_mem_unmap, vfastrpc_internal_munmap_fd, virt_fastrpc_munmap_fd,
    munmap_fd_wait, save_interrupted_cmds; framed.
Qed.

(** ** Invocations *)

Lemma sess_ctx_upd p g : framed sess_frame (ctx_upd p g).
Proof. unfold ctx_upd. framed. Qed.
#[local] Hint Resolve sess_ctx_upd : framed.
Lemma sess_context_free p : framed sess_frame (context_free p).
Proof. unfold context_free. framed. Qed.
#[local] Hint Resolve sess_context_free : framed.
Lemma sess_context_alloc e n ia : framed sess_frame (context_alloc e n ia).
Proof. unfold context_alloc, context_alloc_tail, context_alloc_job, alloc_bail. framed. Qed.

Lemma sess_map_bufs e p inb n i cl : framed sess_frame (map_bufs e p inb n i cl).
Proof.
  revert i cl. induction n as [|n IH]; intros i cl; cbn [map_bufs]; [framed|].
  unfold map_buf, arg_fd, mapping_len, set_ctx_map, add_out_offset. framed.
Qed.
Lemma sess_map_handles e p b n i hl : framed sess_frame (map_handles e p b n i hl).
Proof.
  revert i hl. induction n as [|n IH]; intros i hl; cbn [map_handles]; [framed|].
  unfold arg_fd, mapping_len, set_ctx_map. framed.
Qed.
Lemma sess_make_descs e p inb n i cl : framed sess_frame (make_descs e p inb n i cl).
Proof.
  revert i cl. induction n as [|n IH]; intros i cl; cbn [make_descs]; [framed|].
  unfold make_desc, set_desc, mapping_len, add_out_offset. framed.
Qed.
Lemma sess_tx_write off n : framed sess_frame (tx_write off n).
Proof. unfold tx_write. framed. Qed.
#[local] Hint Resolve sess_context_alloc sess_map_bufs sess_map_handles sess_make_descs sess_tx_write : framed.
Lemma sess_fill_buf e p inb i off : framed sess_frame (fill_buf e p inb i off).
Proof. unfold fill_buf, internal_buf, fill_ion, fill_internal, fill_copy, write_mapping. framed. Qed.
#[local] Hint Resolve sess_fill_buf : framed.
Lemma sess_fill_bufs e p inb n i off : framed sess_frame (fill_bufs e p inb n i off).
Proof. revert i off. induction n as [|n IH]; intros i off; cbn [fill_bufs]; framed. Qed.
Lemma sess_fill_handles e p n i off : framed sess_frame (fill_handles e p n i off).
Proof.
  revert i off. induction n as [|n IH]; intros i off; cbn [fill_handles]; [framed|].
  unfold fill_handle, write_mapping. framed.
Qed.
#[local] Hint Resolve sess_fill_bufs sess_fill_handles : framed.
Lemma sess_get_args e p : framed sess_frame (get_args e p).
Proof. unfold get_args, shrink_msg, build_msg. framed. Qed.
Lemma sess_put_bufs e p rsp n i off : framed sess_frame (put_bufs e p rsp n i off).
Proof. revert i off. induction n as [|n IH]; intros i off; cbn [put_bufs]; [framed|]. unfold rx_read, internal_buf. framed. Qed.
#[local] Hint Resolve sess_get_args sess_put_bufs : framed.
Lemma sess_put_args e p : framed sess_frame (put_args e p).
Proof. unfold put_args, rx_read. framed. Qed.
#[local] Hint Resolve sess_put_args : framed.
Lemma sess_invoke_wait e p : framed sess_frame (invoke_wait e p).
Proof. unfold invoke_wait, context_save_interrupted, invoke_bail. framed. Qed.
#[local] Hint Resolve sess_invoke_wait : framed.
Lemma sess_invoke nc e ia : framed sess_frame (vfastrpc_internal_invoke nc e ia).
Proof. unfold vfastrpc_internal_invoke, virt_fastrpc_invoke, invoke_bail. apply sess_put; [done|]. framed. Qed.
Lemma sess_async_response e ws out : framed sess_frame (vfastrpc_get_async_response e ws out).
Proof.
  unfold vfastrpc_get_async_response. apply framed_bind; [apply _| |framed].
  induction ws as [|evs ws IH]; cbn [vfastrpc_wait_on_async_queue]; [framed|]. unfold wait_async, async_done. framed.
Qed.
End session.

(** ** The session commands *)

Section commands.
Context `{HS : adsprpc_shared, !adsprpc_shared_ok HS}.
Context `{KC : kernel_config, !kernel_config_ok KC}.
Context `{V : virtqueue, !virtqueue_ok V}.
Variable k : Z.

Definition ctx_keeps (w w' : world) : Prop := ctx_inv ∅ k w -> ctx_inv ∅ k w'.
Definition dr_keeps (d d' : driver) : Prop := ctx_keeps (dr_world d) (dr_world d').
#[export] Instance dr_keeps_preorder : PreOrder dr_keeps.
Proof. split; unfold dr_keeps, ctx_keeps; [by intros d|]. intros x y z; tauto. Qed.

Lemma keeps_on_w {A} (m : M world A) : framed ctx_keeps m -> framed dr_keeps (on_w m).
Proof.
  intros Hm d a d' _. unfold on_w, zoom. destruct (m (dr_world d)) eqn:E; [|done..]. intros [= <- <-].
  exact (Hm _ _ _ Logic.I E).
Qed.
Lemma keeps_on_file g :
  (forall f, fl_interrupted_cmds (g f) = fl_interrupted_cmds f) -> framed dr_keeps (on_file (modify g)).
Proof. intros Hg. apply keeps_on_w. intros w a w' _ [= <- <-] Hi. by apply ctx_inv_fl. Qed.
Lemma keeps_modify g : (forall d, dr_world (g d) = dr_world d) -> framed dr_keeps (modify g).
Proof. intros Hg d a d' _ [= <- <-]. unfold dr_keeps, ctx_keeps. by rewrite Hg. Qed.
Lemma keeps_channel_at i : framed dr_keeps (channel_at i).
Proof. intros d a d' _. unfold channel_at. repeat case_match; try done. by intros [= <- <-]. Qed.
#[local] Hint Resolve keeps_channel_at : framed.
#[local] Hint Extern 2 (framed dr_keeps (on_file (modify _))) => by apply keeps_on_file : framed.
#[local] Hint Extern 2 (framed dr_keeps (modify _)) => by apply keeps_modify : framed.

(** A command that is one request. *)
Lemma keeps_command {A} (m : M world A) (Q : A -> world -> Prop) :
  (forall w, file_inv w -> swp m (fun a w' => xfer w w' /\ file_inv w' /\ Q a w') w) -> framed ctx_keeps m.
Proof.
  intros Hm w a w' _ E Hi. specialize (Hm w (ctx_inv_file _ _ _ Hi)). unfold swp in Hm. rewrite E in Hm.
  destruct Hm as (Hx & Hf & _). eapply ctx_inv_xfer; [done..|apply Hf].
Qed.
Lemma keeps_control e enable latency : framed ctx_keeps (virt_fastrpc_control e enable latency).
Proof.
  apply (keeps_command _ (fun _ _ => True)). intros w Hw. eapply swp_mono; [by apply virt_control_swp|]. by intros a w' [? ?].
Qed.
Lemma keeps_dsp_info e : framed ctx_keeps (virt_fastrpc_get_dsp_info e).
Proof.
  apply (keeps_command _ (fun _ _ => True)). intros w Hw. eapply swp_mono; [by apply virt_dsp_info_swp|]. by intros a w' (? & ? & _).
Qed.
Lemma keeps_open e attrs : framed ctx_keeps (virt_fastrpc_open e attrs).
Proof.
  intros w a w' _ E Hi. pose proof (virt_open_swp e attrs w (ctx_inv_file _ _ _ Hi)) as Hs. unfold swp in Hs.
  rewrite E in Hs. destruct Hs as (w1 & Hx & Hf & Ew & Hc).
  assert (fl_interrupted_cmds (w_fl w') = fl_interrupted_cmds (w_fl w1)) as Ec
    by by destruct Hc as [[_ ->]|(_ & cid & _ & ->)].
  rewrite Ew. apply ctx_inv_fl; [|done]. eapply ctx_inv_xfer; [done..|apply Hf].
Qed.
#[local] Hint Resolve keeps_control keeps_dsp_info keeps_open : framed.
#[local] Hint Extern 2 (framed dr_keeps (on_w _)) => apply keeps_on_w : framed.

Lemma session_op_keeps o : framed dr_keeps (run_session_op o).
Proof.
  destruct o; cbn [run_session_op]; unfold vfastrpc_setmode_ioctl, vfastrpc_control_ioctl, vfastrpc_get_info_ioctl,
    vfastrpc_init_ioctl, vfastrpc_internal_get_dsp_info, copy_from_user, vfastrpc_internal_control,
    vfastrpc_internal_get_info, vfastrpc_set_process_info, vfastrpc_internal_init_process, init_process_switch,
    vfastrpc_get_info_from_kernel, channel_store, attribute; framed.
Qed.
End commands.
