(* ===== verification/AsyncFacts.v ===== *)
(** * The queue of completed asynchronous jobs

    The receive path appends a finished job to [cx_async_queue];
    [vfastrpc_get_async_response] takes the first one off.  [aq] is what the
    queue relies on; every operation keeps it. *)
From S2P Require Import Prelude Shared Mmap MmapFacts Pages Buf BufFacts Apps AppsFacts World WorldFacts Transact MapOps MapFacts MapProps Session SessionFacts Invoke CtxFacts CtxInv ArgFacts DescFacts MsgFacts InvokeFacts InvokeSafe Keep.

Lemma s32_add a b : s32 (s32 a + b) = s32 (a + b).
Proof.
  unfold s32. f_equal.
  replace ((a + 2 ^ 31) mod 2 ^ 32 - 2 ^ 31 + b + 2 ^ 31) with ((a + 2 ^ 31) mod 2 ^ 32 + b) by lia.
  rewrite Zplus_mod_idemp_l. f_equal. lia.
Qed.

Section queue.
Context `{V : virtqueue}.
Implicit Types (w : world) (c : vfastrpc_invoke_ctx).

(** A job that has been answered. *)
Definition answered w p : Prop := exists c mp m,
  cx_heap (w_cx w) !! p = Some c /\ c_isasyncjob c = true /\ c_msg c = Some mp /\
  msgs (w_apps w) !! mp = Some m /\ is_Some (rxbuf m).

Record aq w : Prop := {
  aq_nodup : NoDup (cx_async_queue (w_cx w));
  aq_queue p : p ∈ cx_async_queue (w_cx w) -> answered w p;
  aq_interrupted p c : p ∈ cx_interrupted (w_cx w) -> cx_heap (w_cx w) !! p = Some c -> c_isasyncjob c = false;
  aq_count : fl_async_queue_job_count (w_fl w) = s32 (Z.of_nat (length (cx_async_queue (w_cx w))));
}.

(** The queue and what it relies on. *)
Definition jobs_ok w : Prop := linked (cx_heap (w_cx w)) (msgs (w_apps w)) /\ aq w.
Definition jobs_kept w w' : Prop := jobs_ok w -> jobs_ok w'.
#[export] Instance jobs_kept_preorder : PreOrder jobs_kept.
Proof. split; unfold jobs_kept; [by intros w|]. intros x y z; tauto. Qed.

(** Contexts other than [p], messages other than [p]'s and the queue stay. *)
Lemma aq_frame p w w' :
  jobs_ok w -> p ∉ cx_async_queue (w_cx w) ->
  cx_async_queue (w_cx w') = cx_async_queue (w_cx w) ->
  (forall q, q <> p -> cx_heap (w_cx w') !! q = cx_heap (w_cx w) !! q) ->
  (forall q c, q ∈ cx_interrupted (w_cx w') -> cx_heap (w_cx w') !! q = Some c ->
     q ∈ cx_interrupted (w_cx w) /\ q <> p \/ c_isasyncjob c = false) ->
  (forall mp m, msgs (w_apps w) !! mp = Some m -> msg_ctx m <> Some p -> msgs (w_apps w') !! mp = Some m) ->
  fl_async_queue_job_count (w_fl w') = fl_async_queue_job_count (w_fl w) -> aq w'.
Proof.
  intros [[Hl _] [Hnd Hq Hi Hc]] Hp Eq Hh Hint Hm Ef. split; rewrite ?Eq, ?Ef; try done.
  - intros q Hin. destruct (Hq q Hin) as (c & mp & m & Hx & Ha & Em & Hmp & Hr).
    assert (q <> p) as Hne by by intros ->. destruct (Hl q c mp Hx Em) as (m' & Hm' & Emc). simplify_eq.
    exists c, mp, m. rewrite (Hh q Hne). split_and!; try done. apply Hm; congruence.
  - intros q c Hin Hx. destruct (Hint q c Hin Hx) as [[Hin' Hne]|?]; [|done]. rewrite (Hh q Hne) in Hx. by apply (Hi q).
Qed.

(** Messages get responses, and nothing else happens to them. *)
Definition msg_grows (m m' : virt_fastrpc_msg) : Prop :=
  msg_ctx m' = msg_ctx m /\ (is_Some (rxbuf m) -> is_Some (rxbuf m')).

Lemma jobs_update w p m m' :
  jobs_ok w -> msgs (w_apps w) !! p = Some m -> msg_grows m m' ->
  jobs_ok (w <| w_apps := (w_apps w) <| msgs := <[p := m']> (msgs (w_apps w)) |> |>).
Proof.
  intros [[L1 L2] [Hnd Hq Hi Hc]] Hp [Ec Er]. split; [split|split; try done]; simpl.
  - intros q c mp Hx Em. rewrite lookup_insert. destruct (L1 q c mp Hx Em) as (x & Hmx & E).
    case_decide; [subst|by exists x]. exists m'. split; [done|]. congruence.
  - intros mp x q. rewrite lookup_insert. case_decide; [subst|by apply L2].
    intros [= <-] E. apply (L2 mp m); [done|congruence].
  - intros q Hin. destruct (Hq q Hin) as (c & mp & x & Hx & Ha & Em & Hmp & Hr).
    unfold answered. simpl. destruct (decide (p = mp)) as [->|Hne].
    + exists c, mp, m'. rewrite lookup_insert_eq. simplify_eq. split_and!; auto.
    + exists c, mp, x. rewrite lookup_insert_ne by done. done.
Qed.

Lemma jobs_same_msgs w a : msgs a = msgs (w_apps w) -> jobs_kept w (w <| w_apps := a |>).
Proof.
  intros E [Hl [Hnd Hq Hi Hc]]. split; [simpl; by rewrite E|]. split; try done.
  intros q Hin. destruct (Hq q Hin) as (c & mp & m & ?). exists c, mp, m. simpl. by rewrite E.
Qed.

(** A finished job goes to the end of the queue. *)
Lemma jobs_append w p :
  jobs_ok w -> answered w p -> (p ∉ cx_async_queue (w_cx w)) ->
  jobs_ok (w <| w_cx := (w_cx w) <| cx_async_queue := cx_async_queue (w_cx w) ++ [p] |> |>
             <| w_fl := (w_fl w) <| fl_async_queue_job_count := s32 (fl_async_queue_job_count (w_fl w) + 1) |> |>).
Proof.
  intros [Hl [Hnd Hq Hi Hc]] Hp Hn. split; [done|]. split; simpl.
  - apply NoDup_app. split_and!; [done| |apply NoDup_singleton]. intros x Hx ->%list_elem_of_singleton. done.
  - intros q [Hin| ->%list_elem_of_singleton]%elem_of_app; [by apply Hq|done].
  - done.
  - rewrite Hc, s32_add, length_app. simpl. do 2 f_equal. lia.
Qed.

(** ** The receive path *)

(** A message that belongs to no context. *)
Definition unowned w mp : Prop := exists m, msgs (w_apps w) !! mp = Some m /\ msg_ctx m = None.

(** What the device does keeps the queue, and the messages without a context. *)
Definition jobs_grow w w' : Prop := jobs_kept w w' /\ forall mp, unowned w mp -> unowned w' mp.
#[export] Instance jobs_grow_preorder : PreOrder jobs_grow.
Proof.
  split; [by intros w|]. intros x y z [H1 U1] [H2 U2]. split; [by trans y|]. intros mp Hm. by apply U2, U1.
Qed.

Lemma grow_update w p m m' :
  msgs (w_apps w) !! p = Some m -> msg_grows m m' ->
  jobs_grow w (w <| w_apps := (w_apps w) <| msgs := <[p := m']> (msgs (w_apps w)) |> |>).
Proof.
  intros Hp Hg. split; [intros Hj; by apply (jobs_update w p m)|]. intros mp (x & Hx & Ex). unfold unowned. simpl.
  rewrite lookup_insert. case_decide; [subst|by exists x]. exists m'. split; [done|]. destruct Hg as [E _]. congruence.
Qed.
Lemma grow_msgs w a : msgs a = msgs (w_apps w) -> jobs_grow w (w <| w_apps := a |>).
Proof. intros E. split; [by apply jobs_same_msgs|]. intros mp. unfold unowned. simpl. by rewrite E. Qed.

Lemma grow_on_apps {A} (m : M apps A) :
  (forall a x a', m a = Ok x a' -> msgs a' = msgs a) -> framed jobs_grow (on_apps m).
Proof.
  intros Hm w x w' _. unfold on_apps, zoom. destruct (m (w_apps w)) eqn:E; [|done..]. intros [= <- <-].
  apply grow_msgs. by eapply Hm.
Qed.
(** A message is read and written back. *)
Lemma grow_msg {A} p g (k : virt_fastrpc_msg -> () -> M world A) :
  (forall m, msg_grows m (g m)) -> (forall m x, framed jobs_grow (k m x)) ->
  framed jobs_grow (m ← on_apps (msg_load p); on_apps (msg_store p (g m)) ≫= k m).
Proof.
  intros Hg Hk w a w' _. unfold mbind, M_bind, on_apps, zoom, msg_load.
  destruct (msgs (w_apps w) !! p) as [m|] eqn:Hm; [|done]. simpl. unfold msg_store. simpl. rewrite Hm. intros E.
  etrans; [|exact (Hk _ _ _ _ _ Logic.I E)]. by apply (grow_update w p m).
Qed.

Lemma grow_rvq_get : framed jobs_grow (on_apps rvq_get_buf).
Proof.
  apply grow_on_apps. intros a x a'. unfold rvq_get_buf, mbind, M_bind, get, put. destruct (virtqueue_get_buf (rvq a)) as [[[]|] q].
  all: by intros [= <- <-].
Qed.

Lemma grow_complete mp : framed jobs_grow (on_apps (complete mp)).
Proof.
  intros w a w' _. unfold on_apps, zoom, complete, mbind, M_bind, msg_load, msg_store.
  destruct (msgs (w_apps w) !! mp) as [m|] eqn:Hm; [|done]. rewrite Hm. intros [= <- <-]. by apply (grow_update w mp m).
Qed.

(** The last part of [recv_single]: message [mp] of context [c] has a response. *)
Lemma grow_queue_job (c : ptr) x mp m w a w' :
  msgs (w_apps w) !! mp = Some m -> msg_ctx m = Some c -> is_Some (rxbuf m) -> cx_heap (w_cx w) !! c = Some x ->
  c_isasyncjob x = true -> vfastrpc_queue_completed_async_job c w = Ok a w' -> jobs_grow w w'.
Proof.
  intros Hm Ec Hr Hx Ha. unfold vfastrpc_queue_completed_async_job, mbind, M_bind, on_cx, on_fl, zoom, async_add_tail.
  case_decide as Hin; [done|]. simpl. intros [= <- <-]. split; [|done]. intros Hj. apply (jobs_append w c Hj); [|done].
  destruct Hj as [[_ L2] _]. destruct (L2 mp m c Hm Ec) as (y & Hy & Ey). simplify_eq. by exists x, mp, m.
Qed.

Lemma grow_recv_single rsp len : framed jobs_grow (recv_single rsp len).
Proof.
  unfold recv_single. apply framed_bind; [apply _|apply framed_gets, _|]. intros a. cbv zeta.
  destruct (negb _); [apply framed_ret, _|]. destruct (msgtable a !! _) as [[mp|]|]; [|apply framed_ret, _|apply framed_fail].
  intros w r w' _. unfold mbind at 1, M_bind at 1. unfold on_apps at 1, zoom, msg_load.
  destruct (msgs (w_apps w) !! mp) as [m|] eqn:Hm; [|done]. replace (w <| w_apps := w_apps w |>) with w by by destruct w.
  unfold mbind at 1, M_bind at 1. unfold on_apps at 1, zoom, msg_store. rewrite Hm.
  set (m' := m <| rxbuf := Some rsp |>).
  set (w1 := w <| w_apps := (w_apps w) <| msgs := <[mp := m']> (msgs (w_apps w)) |> |>).
  assert (jobs_grow w w1) as H1 by (apply (grow_update w mp m m'); [done|split; [done|by eexists]]).
  intros E. etrans; [exact H1|]. revert E. unfold is_async. destruct (msg_ctx m) as [c|] eqn:Ec.
  - unfold mbind at 1, M_bind at 1, mbind at 1, M_bind at 1. unfold on_cx, zoom, ctx_load.
    destruct (cx_heap (w_cx w1) !! c) as [x|] eqn:Hx; [|done].
    replace (w1 <| w_cx := w_cx w1 |>) with w1 by by destruct w1.
    unfold mret at 1, M_ret at 1. destruct (c_isasyncjob x) eqn:Ha.
    + unfold mbind, M_bind. destruct (vfastrpc_queue_completed_async_job c w1) as [y w2| |] eqn:Eq; [|done..].
      intros [= <- <-]. eapply (grow_queue_job c x mp m'); [apply lookup_insert_eq|done|by eexists|done..].
    + intros E. exact (framed_bind jobs_grow _ _ (grow_complete mp) (fun _ => framed_ret jobs_grow 0) _ _ _ Logic.I E).
  - intros E. exact (framed_bind jobs_grow _ _ (grow_complete mp) (fun _ => framed_ret jobs_grow 0) _ _ _ Logic.I E).
Qed.

Lemma grow_recv_loop fuel rsp len : framed jobs_grow (recv_loop fuel rsp len).
Proof.
  revert rsp len. induction fuel as [|fuel IH]; intros rsp len; cbn [recv_loop]; [apply framed_hang|].
  apply framed_bind; [apply _|apply grow_recv_single|]. intros err. destruct (negb _); [apply framed_ret, _|].
  apply framed_bind; [apply _|apply grow_rvq_get|]. intros [[r l]|]; [apply IH|apply framed_ret, _].
Qed.

Lemma dev_write_msgs l a : msgs (foldl dev_write a l) = msgs a.
Proof.
  revert a. induction l as [|x l IH]; intros a; [done|]. simpl. rewrite IH. unfold dev_write. by case_decide.
Qed.

Lemma grow_run_events l : framed jobs_grow (run_events l).
Proof.
  induction l as [|e l IH]; cbn [run_events]; [apply framed_ret, _|].
  apply framed_bind; [apply _| |done]. destruct e as [s r ws|]; cbn [run_event].
  - apply grow_on_apps. intros a x a' [= <- <-]. apply dev_write_msgs.
  - unfold recv_done. apply framed_bind; [apply _|apply framed_gets, _|]. intros a.
    apply framed_bind; [apply _|apply grow_rvq_get|]. intros [[p n]|]; [apply grow_recv_loop|apply framed_ret, _].
Qed.

(** ** Requests *)

Lemma free_msgs p a x a' : virt_free_msg p a = Ok x a' -> msgs a' = delete p (msgs a).
Proof.
  unfold virt_free_msg, mbind, M_bind, msg_load, get. destruct (msgs a !! p) as [m|] eqn:Hm; [|done].
  destruct (msgtable a !! _) as [sl|]; [|done]. unfold when, put, mret, M_ret, msg_kfree.
  case_bool_decide; simpl; rewrite Hm; by intros [= <- <-].
Qed.
Lemma rxbuf_send_msgs r n a x a' : vfastrpc_rxbuf_send r n a = Ok x a' -> msgs a' = msgs a.
Proof.
  unfold vfastrpc_rxbuf_send, mbind, M_bind, get, put. destruct (virtqueue_add_inbuf _ _ _) as [err q].
  destruct (negb _); by intros [= <- <-].
Qed.
Lemma txbuf_send_msgs r n a x a' : vfastrpc_txbuf_send r n a = Ok x a' -> msgs a' = msgs a.
Proof.
  unfold vfastrpc_txbuf_send, mbind, M_bind, get, put, mret, M_ret. destruct (virtqueue_add_outbuf _ _ _) as [err q].
  destruct (negb _); by intros [= <- <-].
Qed.
Lemma release_msgs mp rsp a x a' : release_msg mp rsp a = Ok x a' -> msgs a' = delete mp (msgs a).
Proof.
  unfold release_msg, mbind at 1, M_bind at 1. destruct rsp as [r|]; [|apply free_msgs].
  unfold mbind, M_bind, get. destruct (vfastrpc_rxbuf_send r (buf_size a) a) as [y a1| |] eqn:E; [|done..].
  intros E'. by rewrite (free_msgs _ _ _ _ E'), (rxbuf_send_msgs _ _ _ _ _ E).
Qed.
Lemma tx_fill_msgs p n v a x a' : tx_fill p n v a = Ok x a' -> msgs a' = msgs a.
Proof.
  unfold tx_fill, mbind, M_bind, msg_load, get, put. destruct (msgs a !! p) as [m|]; [|done].
  destruct (txbuf m); [|done]. destruct (_ <? _); [done|]. by intros [= <- <-].
Qed.
Lemma get_a_tx_buf_msgs a x a' : get_a_tx_buf a = Ok x a' -> msgs a' = msgs a.
Proof.
  unfold get_a_tx_buf, mbind, M_bind, get, put, mret, M_ret. destruct (_ <? _).
  - destruct (sbufs a !! _); [|done]. by intros [= <- <-].
  - destruct (virtqueue_get_buf _) as [[[]|] q]; by intros [= <- <-].
Qed.

Lemma alloc_msgs kz size a r a' :
  virt_alloc_msg kz size a = Ok r a' ->
  match r with
  | None => msgs a' = msgs a
  | Some mp => msgs a !! mp = None /\ exists m, msgs a' = <[mp := m]> (msgs a) /\ msg_ctx m = None
  end.
Proof.
  unfold virt_alloc_msg, mbind, M_bind, get. destruct (_ <? _); [by intros [= <- <-]|]. destruct (negb kz); [by intros [= <- <-]|].
  pose proof (new_ptr_None (msgs a)) as Hn. set (p := new_ptr (msgs a)) in *. unfold put at 1.
  destruct (find_slot (msgtable a) 0) as [i|].
  - unfold modify, msg_load at 1, msg_store at 1. simpl. rewrite !lookup_insert_eq. simpl. rewrite !lookup_insert_eq.
    match goal with |- context [get_a_tx_buf ?x] => destruct (get_a_tx_buf x) as [b a1| |] eqn:E; [|done..];
      pose proof (get_a_tx_buf_msgs _ _ _ E) as Em end. simpl in Em. rewrite insert_insert_eq in Em.
    destruct b as [buf|].
    + assert (exists m, msgs a1 !! p = Some m /\ msg_ctx m = None) as (m & Hm & Hc)
        by (rewrite Em, lookup_insert_eq; by eexists).
      unfold msg_load, msg_store. rewrite Hm. simpl. rewrite Hm. intros [= <- <-]. split; [done|].
      eexists. simpl. rewrite Em, insert_insert_eq. by split.
    + destruct (virt_free_msg p a1) as [y a2| |] eqn:Ef; [|done..]. intros [= <- <-].
      by rewrite (free_msgs _ _ _ _ Ef), Em, delete_insert_id.
  - unfold msg_kfree. simpl. rewrite lookup_insert_eq. intros [= <- <-]. simpl. by rewrite delete_insert_id.
Qed.

Lemma jobs_new_msg w mp m a :
  jobs_ok w -> msgs (w_apps w) !! mp = None -> msgs a = <[mp := m]> (msgs (w_apps w)) -> msg_ctx m = None ->
  jobs_ok (w <| w_apps := a |>) /\ unowned (w <| w_apps := a |>) mp.
Proof.
  intros [[L1 L2] [Hnd Hq Hi Hc]] Hn E Em. split; [split; [split|split; try done]|]; simpl; rewrite ?E.
  - intros q c x Hx Ex. destruct (L1 q c x Hx Ex) as (y & Hy & Ey). exists y. split; [|done].
    rewrite lookup_insert_ne; [done|]. congruence.
  - intros x y q. rewrite lookup_insert. case_decide; [subst; intros [= <-]; congruence|]. apply L2.
  - intros q Hin. destruct (Hq q Hin) as (c & x & y & Hx & Ha & Ex & Hy & Hr). exists c, x, y. simpl. rewrite E.
    rewrite lookup_insert_ne by congruence. done.
  - exists m. simpl. rewrite E. by rewrite lookup_insert_eq.
Qed.

Lemma jobs_drop w mp a :
  jobs_ok w -> unowned w mp -> msgs a = delete mp (msgs (w_apps w)) -> jobs_ok (w <| w_apps := a |>).
Proof.
  intros [[L1 L2] [Hnd Hq Hi Hc]] (m & Hm & Em) E. split; [split|split; try done]; simpl; rewrite ?E.
  - intros q c x Hx Ex. destruct (L1 q c x Hx Ex) as (y & Hy & Ey). exists y. split; [|done].
    rewrite lookup_delete_ne; [done|]. congruence.
  - intros x y q [_ Hx]%lookup_delete_Some. by apply L2.
  - intros q Hin. destruct (Hq q Hin) as (c & x & y & Hx & Ha & Ex & Hy & Hr). exists c, x, y. simpl. rewrite E.
    rewrite lookup_delete_ne; [done|]. intros ->. destruct (L1 q c x Hx Ex) as (y' & Hy' & Ey'). congruence.
Qed.

(** [m], begun with the message [mp] of a request, keeps the queue. *)
Definition serves {A} (mp : ptr) (m : M world A) : Prop := from (fun w => jobs_ok w /\ unowned w mp) (fun _ w' => jobs_ok w') m.

Lemma serves_ret {A} mp (a : A) : serves mp (mret a).
Proof. intros w x w' [Hj _] E. unfold mret, M_ret in E. by simplify_eq. Qed.
Lemma serves_bind {A B} mp (m : M world A) (k : A -> M world B) :
  framed jobs_grow m -> (forall a, serves mp (k a)) -> serves mp (m ≫= k).
Proof.
  intros Hm Hk w b w' [Hj Hu]. unfold mbind, M_bind. destruct (m w) as [a w1| |] eqn:E; [|done..].
  destruct (Hm _ _ _ Logic.I E) as [Hj1 Hu1]. apply (Hk a). split; [by apply Hj1|by apply Hu1].
Qed.
Lemma serves_release {A} mp rsp (k : M world A) : framed jobs_kept k -> serves mp (on_apps (release_msg mp rsp);; k).
Proof.
  intros Hk w b w' [Hj Hu]. unfold mbind, M_bind, on_apps, zoom. destruct (release_msg mp rsp (w_apps w)) as [x a| |] eqn:E; [|done..].
  intros E'. apply (Hk _ _ _ Logic.I E'). apply (jobs_drop w mp a Hj Hu). by eapply release_msgs.
Qed.

Lemma grow_load mp : framed jobs_grow (on_apps (msg_load mp)).
Proof. apply grow_on_apps. intros a x a'. unfold msg_load. case_match; [|done]. by intros [= <- <-]. Qed.
Lemma grow_tx_fill mp n v : framed jobs_grow (on_apps (tx_fill mp n v)).
Proof. apply grow_on_apps. intros a x a'. apply tx_fill_msgs. Qed.
Lemma grow_txbuf_send b n : framed jobs_grow (on_apps (vfastrpc_txbuf_send b n)).
Proof. apply grow_on_apps. intros a x a'. apply txbuf_send_msgs. Qed.
Lemma grow_wait evs mp : framed jobs_grow (wait_for_completion evs mp).
Proof.
  unfold wait_for_completion. apply framed_bind; [apply _|apply grow_run_events|]. intros _ w a w' _.
  unfold mbind, M_bind, on_apps, zoom, msg_load. destruct (msgs (w_apps w) !! mp) as [m|] eqn:Hm; [|done]. simpl.
  destruct (0 <? work_done m); [|done]. unfold msg_store. simpl. rewrite Hm. intros [= <- <-]. by apply (grow_update w mp m).
Qed.
Lemma grow_wait_interruptible evs sig mp : framed jobs_grow (wait_for_completion_interruptible evs sig mp).
Proof.
  unfold wait_for_completion_interruptible. apply framed_bind; [apply _|apply grow_run_events|]. intros _ w a w' _.
  unfold mbind, M_bind, on_apps, zoom, msg_load. destruct (msgs (w_apps w) !! mp) as [m|] eqn:Hm; [|done]. simpl.
  destruct (0 <? work_done m).
  - unfold msg_store. simpl. rewrite Hm. intros [= <- <-]. by apply (grow_update w mp m).
  - destruct sig; [|done]. intros [= <- <-]. by apply (grow_msgs w (w_apps w)).
Qed.

Lemma serves_take_response {A} mp err (dflt : A) read : serves mp (take_response mp err dflt read).
Proof.
  unfold take_response. apply serves_bind; [apply grow_load|]. intros m.
  apply serves_bind; [apply framed_gets, _|]. intros a. cbv zeta. apply serves_release, framed_ret, _.
Qed.

Lemma jobs_transact {A} e session cmd size extent build (dflt : A) read :
  framed jobs_kept (transact e session cmd size extent build dflt read).
Proof.
  intros w a w' _ E Hj. revert E. unfold transact. unfold mbind at 1, M_bind at 1. unfold on_apps at 1, zoom.
  destruct (virt_alloc_msg _ _ _) as [[mp|] a1| |] eqn:Ea; [| |done..]; apply alloc_msgs in Ea.
  2: { intros [= <- <-]. by apply (jobs_same_msgs w a1). }
  destruct Ea as (Hn & m & Em & Ec). intros E. destruct (jobs_new_msg w mp m a1 Hj Hn Em Ec) as [Hj1 Hu1].
  match type of E with ?prog _ = _ => assert (serves mp prog) as Hs end; [|exact (Hs _ _ _ (conj Hj1 Hu1) E)].
  apply serves_bind; [apply grow_load|]. intros x. apply serves_bind; [apply framed_gets, _|]. intros f.
  destruct (build _) as [v|]; [|done]. destruct (txbuf x) as [b|]; [|done].
  apply serves_bind; [apply grow_tx_fill|]. intros _. apply serves_bind; [apply grow_txbuf_send|]. intros err.
  destruct (negb _); [apply serves_release, framed_ret, _|].
  apply serves_bind; [apply grow_wait|]. intros _. apply serves_take_response.
Qed.

(** ** The handlers *)

Lemma grow_kept {A} (m : M world A) : framed jobs_grow m -> framed jobs_kept m.
Proof. intros Hm w a w' _ E. by destruct (Hm w a w' Logic.I E). Qed.
Lemma jobs_on_mm {A} (m : M mmaps A) : framed jobs_kept (on_mm m).
Proof.
  intros w a w' _. unfold on_mm, zoom. destruct (m (w_mm w)); [|done..]. intros [= <- <-] [Hl []]. by split; [|split].
Qed.
Lemma jobs_on_bf {A} (m : M bufs A) : framed jobs_kept (on_bf m).
Proof.
  intros w a w' _. unfold on_bf, zoom. destruct (m (w_bf w)); [|done..]. intros [= <- <-] [Hl []]. by split; [|split].
Qed.
Lemma jobs_fl w f :
  fl_async_queue_job_count f = fl_async_queue_job_count (w_fl w) -> jobs_kept w (w <| w_fl := f |>).
Proof. intros E [Hl []]. split; [done|]. split; try done. simpl. congruence. Qed.
Lemma jobs_on_fl g :
  (forall f, fl_async_queue_job_count (g f) = fl_async_queue_job_count f) -> framed jobs_kept (on_fl (modify g)).
Proof. intros Hg w a w' _ [= <- <-]. by apply jobs_fl. Qed.
#[local] Hint Resolve jobs_on_mm jobs_on_bf jobs_transact : framed.
#[local] Hint Extern 2 (framed jobs_kept (on_fl (modify _))) => by apply jobs_on_fl : framed.

Context `{HS : adsprpc_shared, KC : kernel_config}.

Lemma serves_kept {A} mp (m : M world A) : framed jobs_kept m -> serves mp m.
Proof. intros Hm w a w' [Hj _] E. exact (Hm _ _ _ Logic.I E Hj). Qed.
Lemma serves_map {A B} mp (m : M world A) (f : A -> B) : serves mp m -> serves mp (x ← m; mret (f x)).
Proof.
  intros Hm w a w' Hw. unfold mbind, M_bind. destruct (m w) as [x w1| |] eqn:E; [|done..]. intros [= <- <-]. exact (Hm _ _ _ Hw E).
Qed.
Lemma serves_fd_wait e mp : serves mp (munmap_fd_wait e mp).
Proof.
  unfold munmap_fd_wait. apply serves_bind; [apply grow_wait_interruptible|]. intros r. destruct (negb _).
  - apply serves_kept. unfold save_interrupted_cmds. framed.
  - apply serves_map, serves_take_response.
Qed.

Lemma jobs_fd_send e fd flags va len n : framed jobs_kept (virt_fastrpc_munmap_fd e fd flags va len n None).
Proof.
  intros w a w' _ E Hj. revert E. unfold virt_fastrpc_munmap_fd. unfold mbind at 1, M_bind at 1. unfold on_apps at 1, zoom.
  destruct (virt_alloc_msg _ _ _) as [[mp|] a1| |] eqn:Ea; [| |done..]; apply alloc_msgs in Ea.
  2: { intros [= <- <-]. by apply (jobs_same_msgs w a1). }
  destruct Ea as (Hn & m & Em & Ec). intros E. destruct (jobs_new_msg w mp m a1 Hj Hn Em Ec) as [Hj1 Hu1].
  match type of E with ?prog _ = _ => assert (serves mp prog) as Hs end; [|exact (Hs _ _ _ (conj Hj1 Hu1) E)].
  apply serves_bind; [apply grow_load|]. intros x. apply serves_bind; [apply framed_gets, _|]. intros f.
  apply serves_bind; [apply grow_tx_fill|]. intros _. destruct (txbuf x) as [b|]; [|done].
  apply serves_bind; [apply grow_txbuf_send|]. intros err.
  destruct (negb _); [apply serves_release, framed_ret, _|]. apply serves_fd_wait.
Qed.
#[local] Hint Resolve jobs_fd_send : framed.

Lemma jobs_munmap_fd e fd flags va len :
  from (fun w => apart (fl_interrupted_cmds (w_fl w)) (msgs (w_apps w))) jobs_kept (vfastrpc_internal_munmap_fd e fd flags va len).
Proof.
  intros w a w' Hap. unfold vfastrpc_internal_munmap_fd. unfold mbind at 1, M_bind at 1, gets.
  destruct (negb _); [by intros [= <- <-]|]. unfold mbind at 1, M_bind at 1. unfold find_interrupted_cmds, mbind at 1, M_bind at 1, gets.
  destruct (find_cmd_spec (fl_interrupted_cmds (w_fl w)) (me_pid (fe_msg e)) VIRTIO_FASTRPC_CMD_MUNMAP_FD)
    as [[-> _]|(l1 & c & l2 & El & _ & _ & ->)]; unfold mbind at 1, M_bind at 1, on_fl, zoom, put, mret at 1, M_ret at 1.
  - intros E. trans (w <| w_fl := (w_fl w) <| fl_interrupted_cmds := fl_interrupted_cmds (w_fl w) |> |>); [by apply (jobs_fl w)|].
    match type of E with ?prog _ = _ => assert (framed jobs_kept prog) as Hs by framed end. exact (Hs _ _ _ Logic.I E).
  - intros E. set (w1 := w <| w_fl := (w_fl w) <| fl_interrupted_cmds := l1 ++ l2 |> |>) in E.
    intros Hj. assert (jobs_ok w1) as Hj1 by by apply (jobs_fl w).
    assert (unowned w1 (vc_msg c)) as Hu1. { apply Hap. rewrite El, map_app. set_solver. }
    refine (serves_map (vc_msg c) _ (fun err1 => if negb (err1 =? 0) then err1 else 0) _ w1 a w' (conj Hj1 Hu1) E).
    apply serves_fd_wait.
Qed.

Lemma jobs_map_op o :
  from (fun w => apart (fl_interrupted_cmds (w_fl w)) (msgs (w_apps w))) jobs_kept (run_map_op o).
Proof.
  destruct o; cbn [run_map_op]; [| | | |apply jobs_munmap_fd]; apply from_framed;
    unfold vfastrpc_internal_mmap, mmap_add_pages, mmap_user_fd, virt_fastrpc_mmap,
    vfastrpc_internal_munmap, munmap_map, virt_fastrpc_munmap, vfastrpc_internal_mem_map, virt_fastrpc_mem_map,
    vfastrpc_internal_mem_unmap, virt_fastrpc_mem_unmap; framed.
Qed.

(** ** The session commands *)

Definition dr_jobs (d d' : driver) : Prop := jobs_kept (dr_world d) (dr_world d').
#[export] Instance dr_jobs_preorder : PreOrder dr_jobs.
Proof. split; unfold dr_jobs; [by intros d|]. intros x y z ? ?. by trans (dr_world y). Qed.

Lemma jobs_on_w {A} (m : M world A) : framed jobs_kept m -> framed dr_jobs (on_w m).
Proof.
  intros Hm d a d' _. unfold on_w, zoom. destruct (m (dr_world d)) eqn:E; [|done..]. intros [= <- <-].
  exact (Hm _ _ _ Logic.I E).
Qed.
Lemma jobs_on_file g :
  (forall f, fl_async_queue_job_count (g f) = fl_async_queue_job_count f) -> framed dr_jobs (on_file (modify g)).
Proof. intros Hg. by apply jobs_on_w, jobs_on_fl. Qed.
Lemma jobs_modify g : (forall d, dr_world (g d) = dr_world d) -> framed dr_jobs (modify g).
Proof. intros Hg d a d' _ [= <- <-]. unfold dr_jobs. by rewrite Hg. Qed.
Lemma jobs_channel_at i : framed dr_jobs (channel_at i).
Proof. intros d a d' _. unfold channel_at. repeat case_match; try done. by intros [= <- <-]. Qed.
Lemma jobs_open e attrs : framed jobs_kept (virt_fastrpc_open e attrs).
Proof. unfold virt_fastrpc_open. framed. Qed.
Lemma jobs_control e enable latency : framed jobs_kept (virt_fastrpc_control e enable latency).
Proof. unfold virt_fastrpc_control. framed. Qed.
Lemma jobs_dsp_info e : framed jobs_kept (virt_fastrpc_get_dsp_info e).
Proof. unfold virt_fastrpc_get_dsp_info. framed. Qed.
#[local] Hint Resolve jobs_channel_at jobs_open jobs_control jobs_dsp_info : framed.
#[local] Hint Extern 2 (framed dr_jobs (on_file (modify _))) => by apply jobs_on_file : framed.
#[local] Hint Extern 2 (framed dr_jobs (modify _)) => by apply jobs_modify : framed.
#[local] Hint Extern 2 (framed dr_jobs (on_w _)) => apply jobs_on_w : framed.

Lemma jobs_session_op o : framed dr_jobs (run_session_op o).
Proof.
  destruct o; cbn [run_session_op]; unfold vfastrpc_setmode_ioctl, vfastrpc_control_ioctl, vfastrpc_get_info_ioctl,
    vfastrpc_init_ioctl, vfastrpc_internal_get_dsp_info, copy_from_user, vfastrpc_internal_control,
    vfastrpc_internal_get_info, vfastrpc_set_process_info, vfastrpc_internal_init_process, init_process_switch,
    vfastrpc_get_info_from_kernel, channel_store, attribute; framed.
Qed.
End queue.

(** ** Invocations *)

Section invoke.
Context `{HS : adsprpc_shared, !adsprpc_shared_ok HS}.
Context `{KC : kernel_config, !kernel_config_ok KC}.
Context `{V : virtqueue, !virtqueue_ok V}.
Implicit Types (w : world) (c : vfastrpc_invoke_ctx).

Lemma jobs_of k w : ctx_inv ∅ k w -> aq w -> jobs_ok w.
Proof. intros Hi Hq. split; [apply Hi|done]. Qed.

Lemma sync_not_queued w p c : aq w -> cx_heap (w_cx w) !! p = Some c -> c_isasyncjob c = false -> p ∉ cx_async_queue (w_cx w).
Proof. intros Hq Hp Ha (x & mp & m & Hx & Hax & _)%(aq_queue _ Hq). congruence. Qed.

(** Freeing a context that is not queued, after its results were copied out. *)
Lemma free_put_aq p c c2 k w w2 w' :
  ctx_inv ∅ k w -> aq w -> ctx_inv ∅ k w2 -> 0 <= k -> cx_heap (w_cx w) !! p = Some c -> (p ∉ cx_async_queue (w_cx w)) ->
  put_frame p w w2 c c2 -> context_free p w2 = Ok () w' -> aq w'.
Proof.
  intros Hi Hq Hi2 Hk Hp Hn Hf E.
  assert (cx_heap (w_cx w2) !! p = Some c2) as Hp2 by (rewrite (pf_cx _ _ _ _ _ Hf); apply lookup_insert_eq).
  destruct (context_free_ok p c2 ∅ k w2 Hi2 Hk Hp2) as (w1 & E1 & _ & Ecx & Ef & _ & Em & _).
  rewrite E in E1. injection E1 as <-. rewrite (pf_cx _ _ _ _ _ Hf) in Ecx. rewrite (pf_fl _ _ _ _ _ Hf) in Ef.
  rewrite (pf_apps _ _ _ _ _ Hf) in Em.
  apply (aq_frame p w w'); rewrite ?Ecx, ?Ef, ?Em; simpl; try done.
  - by apply (jobs_of k).
  - intros q Hne. by rewrite lookup_delete_ne, lookup_insert_ne.
  - intros q x [Hin Hne]%elem_of_hlist_del _. by left.
  - intros mp m Hm Hne. rewrite (pf_msg _ _ _ _ _ Hf). destruct (c_msg c) as [x|] eqn:Ex; [|done].
    rewrite lookup_delete_ne; [done|]. intros ->.
    destruct (proj1 (ci_linked _ _ _ Hi) p c mp Hp Ex) as (y & Hy & Ey). congruence.
Qed.
Lemma free_aq p c k w w' :
  ctx_inv ∅ k w -> 0 <= k -> aq w -> cx_heap (w_cx w) !! p = Some c -> (p ∉ cx_async_queue (w_cx w)) ->
  context_free p w = Ok () w' -> aq w'.
Proof. intros Hi Hk Hq Hp Hn. eapply free_put_aq; [done..|by apply put_frame_refl]. Qed.
Lemma bail_aq p c err k w x w' :
  ctx_inv ∅ k w -> 0 <= k -> aq w -> cx_heap (w_cx w) !! p = Some c -> (p ∉ cx_async_queue (w_cx w)) ->
  invoke_bail p err w = Ok x w' -> aq w'.
Proof.
  intros Hi Hk Hq Hp Hn. unfold invoke_bail, mbind, M_bind. destruct (context_free p w) as [[] w1| |] eqn:E; [|done..].
  intros [= <- <-]. by eapply free_aq.
Qed.

Lemma save_aq p c w w' :
  aq w -> cx_heap (w_cx w) !! p = Some c -> c_isasyncjob c = false -> context_save_interrupted p w = Ok () w' -> aq w'.
Proof.
  intros [Hnd Hq Hi Hc] Hp Ha. unfold context_save_interrupted, mbind, M_bind, on_cx, zoom, ctx_unlink, modify, interrupted_add_head.
  simpl. case_decide; [done|]. intros [= <-]. split; try done. simpl. intros q x [->|[Hin _]%elem_of_hlist_del]%elem_of_cons Hx.
  - congruence.
  - by apply (Hi q).
Qed.

Lemma invoke_wait_aq e p c k w :
  ctx_inv ∅ k w -> 0 <= k -> aq w -> cx_heap (w_cx w) !! p = Some c -> c_isasyncjob c = false ->
  forall err w', invoke_wait e p w = Ok err w' -> aq w'.
Proof.
  intros Hi Hk Hq Hp Ha err w'. unfold invoke_wait. rewrite (bind_eq _ _ _ _ _ (load_ctx _ _ _ Hp)).
  destruct (c_msg c) as [mp|] eqn:Em; [|done].
  destruct (proj1 (ci_linked _ _ _ Hi) p c mp Hp Em) as (m & Hm & _).
  pose proof (wait_swp (ie_events e) (ie_signal e) mp w (ci_rx _ _ _ Hi) (ex_intro _ m Hm)) as Hw. unfold swp in Hw.
  unfold mbind at 1, M_bind at 1. destruct (wait_for_completion_interruptible _ _ _ w) as [r w1| |] eqn:Ew; [|done..].
  destruct Hw as [Hrx _]. pose proof (ctx_inv_rx _ _ _ _ Hi Hrx) as Hi1. destruct (rx_ok_heap _ _ Hrx) as [Eh1 _].
  assert (aq w1) as Hq1 by apply (proj1 (grow_wait_interruptible _ _ _ _ _ _ Logic.I Ew) (jobs_of k w Hi Hq)).
  assert (cx_heap (w_cx w1) !! p = Some c) as Hp1 by by rewrite Eh1.
  destruct (negb (r =? 0)).
  - unfold mbind, M_bind. destruct (context_save_interrupted p w1) as [[] w2| |] eqn:Es; [|done..]. intros [= <- <-].
    by eapply save_aq.
  - unfold mbind at 1, M_bind at 1. pose proof (put_args_swp e p k c w1 Hi1 Hk Hp1) as Hpa. unfold swp in Hpa.
    destruct (put_args e p w1) as [err2 w2| |]; [|done..]. destruct Hpa as [Hi2 [c2 Hf]].
    unfold invoke_bail, mbind, M_bind. destruct (context_free p w2) as [[] w3| |] eqn:Ef; [|done..]. intros [= <- <-].
    eapply (free_put_aq p c c2 k w1 w2); try done. by eapply sync_not_queued.
Qed.

(** A context that is new. *)
Lemma fresh_not_queued w p : aq w -> cx_heap (w_cx w) !! p = None -> p ∉ cx_async_queue (w_cx w).
Proof. intros Hq Hp (c & mp & m & Hx & _)%(aq_queue _ Hq). congruence. Qed.

Lemma aq_cx w w' :
  aq w -> w_cx w' = w_cx w -> w_fl w' = w_fl w -> msgs (w_apps w') = msgs (w_apps w) -> aq w'.
Proof.
  intros [Hnd Hq Hi Hc] Ecx Ef Em. split; rewrite ?Ecx, ?Ef; try done.
  intros q Hin. destruct (Hq q Hin) as (c & mp & m & Hx & Ha & Ex & Hy & Hr). exists c, mp, m. by rewrite Ecx, Em.
Qed.

Lemma jobs_send p : framed jobs_kept (virt_fastrpc_invoke p).
Proof.
  intros w a w' _. unfold virt_fastrpc_invoke, mbind at 1, M_bind at 1. unfold on_cx, zoom, ctx_load.
  destruct (cx_heap (w_cx w) !! p) as [c|]; [|done]. replace (w <| w_cx := w_cx w |>) with w by by destruct w.
  intros E. refine (grow_kept _ _ w a w' Logic.I E). destruct (c_msg c) as [mp|]; [|apply framed_ret, _].
  apply framed_bind; [apply _|apply grow_load|]. intros m. destruct (txbuf m); [apply grow_txbuf_send|apply framed_ret, _].
Qed.

(** Resuming an interrupted context, which is that of a synchronous call. *)
Lemma restore_aq pid sc k w r w' :
  ctx_inv ∅ k w -> aq w -> on_cx (context_restore_interrupted pid sc) w = Ok r w' ->
  aq w' /\ forall p c, r.2 = Some p -> cx_heap (w_cx w') !! p = Some c -> c_isasyncjob c = false.
Proof.
  intros Hi Hq. unfold on_cx, zoom. rewrite (restore_eq pid sc (w_cx w) (ci_lists _ _ _ Hi)).
  assert (aq (w <| w_cx := w_cx w |>)) as Hq' by by destruct w.
  destruct (List.find _ _) as [p|] eqn:Efd; [|intros [= <- <-]; by split].
  apply List.find_some in Efd as [Hin%list_elem_of_In _]. destruct (cx_heap (w_cx w) !! p) as [c|] eqn:Hp; [|done].
  destruct (c_sc c =? sc); intros [= <- <-]; [|by split]. destruct Hq as [Hnd Hqu Hint Hc]. split.
  - split; try done. simpl. intros q x [Hx _]%elem_of_hlist_del. by apply Hint.
  - intros q x [= <-] Hx. simpl in Hx. by apply (Hint p).
Qed.

Lemma invoke_fresh_aq e sn ia k w err w' :
  0 <= k < 2 ^ 29 -> ctx_inv ∅ (540 + k) w -> aq w -> env_ok e -> args_ok ia -> invoke_fresh e sn ia w = Ok err w' -> aq w'.
Proof.
  intros Hk Hi Hq He Ha. unfold invoke_fresh. assert (0 <= 540 + k) as H540 by lia.
  destruct (context_alloc_ok e sn ia (540 + k) w Hi H540 Ha) as ([err1 r] & w1 & E1 & Hi1 & _ & Ef1 & Em1 & _ & Hr).
  rewrite (bind_eq _ _ _ _ _ E1). cbv zeta. simpl in Hr. destruct r as [p|].
  2: { destruct Hr as [Hne Ecx]. simpl. rewrite (proj2 (Z.eqb_neq (VERIFY _ _) 0)) by by rewrite VERIFY_same.
       intros [= _ <-]. by apply (aq_cx w). }
  destruct Hr as (-> & c & Hnew & Hb & _ & _ & Ecx). simpl.
  assert (cx_heap (w_cx w1) !! p = Some c) as Hp1 by (rewrite Ecx; apply lookup_insert_eq).
  rewrite (bind_eq _ _ _ _ _ (load_ctx _ _ _ Hp1)).
  destruct (get_args_ok e p c k w1 Hk He Hi1 Hp1 Hb) as (err2 & w2 & c2 & E2 & Hi2 & Ho & Hu & _).
  rewrite (bind_eq _ _ _ _ _ E2). cbv zeta.
  assert (cx_heap (w_cx w2) !! p = Some c2) as Hp2 by (rewrite (oc_cx _ _ _ _ _ Ho); apply lookup_insert_eq).
  pose proof (fresh_not_queued w p Hq Hnew) as Hn.
  assert (p ∉ cx_async_queue (w_cx w2)) as Hn2 by by rewrite (oc_cx _ _ _ _ _ Ho), Ecx.
  assert (aq w2) as Hq2.
  { apply (aq_frame p w w2); rewrite ?(oc_cx _ _ _ _ _ Ho), ?Ecx, ?(oc_fl _ _ _ _ _ Ho), ?Ef1; try done.
    - by apply (jobs_of (540 + k)).
    - intros q Hne. simpl. by rewrite !lookup_insert_ne.
    - intros q x Hin Hx. left. split; [done|]. intros ->.
      destruct (li_live _ _ _ (ci_lists _ _ _ Hi) p) as [y Hy]; [set_solver|congruence].
    - intros mp m Hm _. rewrite <- Em1, <- (oc_msgs _ _ _ _ _ Ho) in Hm. unfold msgs_but in Hm.
      destruct (c_msg c2); [by apply lookup_delete_Some in Hm as [_ ?]|done]. }
  destruct (Z.eqb_spec (VERIFY 0 (err2 =? 0)) 0) as [Ev|Ev]; simpl; [|apply (bail_aq p c2 _ k); try done; lia].
  apply VERIFY_same in Ev as ->.
  destruct (send_ok p c2 k w2 Hi2 Hp2 (Hu eq_refl)) as (err3 & w3 & E3 & Hi3 & Ecx3 & Em3 & _).
  assert (aq w3) as Hq3 by apply (jobs_send p w2 err3 w3 Logic.I E3), (jobs_of k w2 Hi2 Hq2).
  rewrite (bind_eq _ _ _ _ _ E3). cbv zeta.
  destruct (Z.eqb_spec (VERIFY 0 (err3 =? 0)) 0) as [Ev|Ev]; simpl;
    [|apply (bail_aq p c2 _ k); rewrite ?Ecx3; try done; lia].
  destruct (c_isasyncjob c) eqn:Eas; [by intros [= _ <-]|].
  apply (invoke_wait_aq e p c2 k w3); rewrite ?Ecx3; try done; [lia|]. by rewrite (oc_async _ _ _ _ _ Ho).
Qed.

Lemma invoke_aq num_channels e ia k w err w' :
  0 <= k < 2 ^ 29 -> ctx_inv ∅ (540 + k) w -> aq w -> env_ok e -> args_ok ia ->
  vfastrpc_internal_invoke num_channels e ia w = Ok err w' -> aq w'.
Proof.
  intros Hk Hi Hq He Ha. unfold vfastrpc_internal_invoke. erewrite bind_eq by done. cbv zeta. erewrite bind_eq by done.
  match goal with |- (if _ then _ else _) ?x = _ -> _ => set (w1 := x) end.
  assert (ctx_inv ∅ (540 + k) w1) as Hi1 by by apply ctx_inv_fl.
  assert (aq w1) as Hq1 by (destruct Hq; by split).
  destruct (negb (_ =? 0)); [by intros [= _ <-]|]. destruct (negb (_ =? 0)); [by intros [= _ <-]|].
  destruct (restore_ok (ie_pid e) (ia_sc ia) (540 + k) w1 Hi1) as ([err1 r] & w2 & E2 & Hi2 & Eh2 & _ & _ & _ & Hr).
  destruct (restore_aq _ _ _ _ _ _ Hi1 Hq1 E2) as [Hq2 Hs].
  rewrite (bind_eq _ _ _ _ _ E2). cbv zeta. cbn [fst snd] in *. destruct r as [p|].
  - destruct Hr as (-> & Hin & c & Hp & _ & _ & _). simpl. rewrite <- Eh2 in Hp.
    apply (invoke_wait_aq e p c (540 + k) w2); try done; [lia|]. by apply (Hs p).
  - destruct (negb (_ =? 0)); [by intros [= _ <-]|]. subst w2. by apply invoke_fresh_aq with (k := k).
Qed.
End invoke.
