(* ===== verification/AsyncQueue.v ===== *)
(** * Delivery of asynchronous jobs

    [vfastrpc_get_async_response] refines a first-in first-out queue: the
    jobs of a file are taken in the order in which the device answered them,
    each once, and delivered unless the copy to user space fails; the context
    and the message of a job are freed when it is taken. *)
From S2P Require Import Prelude Shared Mmap MmapFacts Pages Buf BufFacts Apps AppsFacts World WorldFacts Transact MapOps MapFacts MapProps Session SessionFacts Invoke CtxFacts CtxInv ArgFacts DescFacts MsgFacts InvokeFacts InvokeSafe Keep AsyncFacts.

(** [m] comes to an end. *)
Definition ends {S A} (m : M S A) : Prop := forall s, match m s with Hang _ => False | _ => True end.

Lemma ends_ret {S A} (a : A) : ends (S := S) (mret a).
Proof. by intros s. Qed.
Lemma ends_gets {S A} (f : S -> A) : ends (gets f).
Proof. by intros s. Qed.
Lemma ends_fail {S A} f : ends (@fail S A f).
Proof. by intros s. Qed.
Lemma ends_bind {S A B} (m : M S A) (k : A -> M S B) : ends m -> (forall a, ends (k a)) -> ends (m ≫= k).
Proof.
  intros Hm Hk s. unfold mbind, M_bind. specialize (Hm s). destruct (m s) as [a s1| |]; [|done..]. apply Hk.
Qed.
Lemma ends_when {S} b (m : M S ()) : ends m -> ends (when b m).
Proof. by destruct b. Qed.

Create HintDb ends.
#[export] Hint Resolve ends_ret ends_gets ends_fail ends_when : ends.

Ltac ends :=
  repeat first
    [ progress intros
    | progress cbv zeta
    | solve [eauto with ends]
    | match goal with
      | |- ends (_ ≫= _) => apply ends_bind
      | |- ends (when _ _) => apply ends_when
      | |- ends (match ?x with _ => _ end) => destruct x eqn:?
      end ].

Section put_ends.
Context `{HS : adsprpc_shared, KC : kernel_config, V : virtqueue}.

Lemma ends_zoom_cx {A} (m : M ctxs A) : ends m -> ends (on_cx m).
Proof. intros Hm w. unfold on_cx, zoom. specialize (Hm (w_cx w)). by destruct (m (w_cx w)). Qed.
Lemma ends_zoom_mm {A} (m : M mmaps A) : ends m -> ends (on_mm m).
Proof. intros Hm w. unfold on_mm, zoom. specialize (Hm (w_mm w)). by destruct (m (w_mm w)). Qed.
Lemma ends_zoom_bf {A} (m : M bufs A) : ends m -> ends (on_bf m).
Proof. intros Hm w. unfold on_bf, zoom. specialize (Hm (w_bf w)). by destruct (m (w_bf w)). Qed.
Lemma ends_zoom_apps {A} (m : M apps A) : ends m -> ends (on_apps m).
Proof. intros Hm w. unfold on_apps, zoom. specialize (Hm (w_apps w)). by destruct (m (w_apps w)). Qed.
Lemma ends_ctx_load p : ends (ctx_load p).
Proof. intros s. unfold ctx_load. by destruct (_ !! _). Qed.
Lemma ends_ctx_store p c : ends (ctx_store p c).
Proof. intros s. unfold ctx_store. by destruct (_ !! _). Qed.
#[local] Hint Resolve ends_zoom_cx ends_zoom_mm ends_zoom_bf ends_zoom_apps ends_ctx_load ends_ctx_store : ends.
Lemma ends_ctx_upd p f : ends (ctx_upd p f).
Proof. unfold ctx_upd. ends. Qed.
Lemma ends_msg_load p : ends (msg_load p).
Proof. intros s. unfold msg_load. by destruct (_ !! _). Qed.
Lemma ends_bload p : ends (bload p).
Proof. intros s. unfold bload. by destruct (_ !! _). Qed.
Lemma ends_load p : ends (load p).
Proof. intros s. unfold load. by destruct (_ !! _). Qed.
Lemma ends_store p m : ends (store p m).
Proof. intros s. unfold store. by destruct (_ !! _). Qed.
Lemma ends_kfree p : ends (kfree_map p).
Proof. intros s. unfold kfree_map. by repeat (case_match; simplify_eq). Qed.
Lemma ends_at_index {A} (l : list A) i : ends (S := world) (at_index l i).
Proof. unfold at_index. ends. Qed.
#[local] Hint Resolve ends_ctx_upd ends_msg_load ends_bload
  ends_load ends_store ends_kfree ends_at_index : ends.
Lemma ends_mmap_free om f : ends (vfastrpc_mmap_free om f).
Proof.
  unfold vfastrpc_mmap_free, maps_del_init, dma_buf_unmap_attachment, dma_buf_detach, dma_buf_put. ends; by intros s.
Qed.
Lemma ends_find_loop l fd va len refs : ends (mmap_find_loop l fd va len refs).
Proof. induction l as [|p l IH]; cbn [mmap_find_loop]; ends. Qed.
#[local] Hint Resolve ends_mmap_free ends_find_loop : ends.
Lemma ends_drop om : ends (drop_ctx_map om).
Proof. unfold drop_ctx_map, ctx_ref_dec. ends. Qed.
#[local] Hint Resolve ends_drop : ends.
Lemma ends_put_fds rsp n i : ends (put_fds rsp n i).
Proof. revert i. induction n as [|n IH]; intros i; cbn [put_fds]; unfold vfastrpc_mmap_find; ends. Qed.
Lemma ends_put_bufs e p rsp n i off : ends (put_bufs e p rsp n i off).
Proof. revert i off. induction n as [|n IH]; intros i off; cbn [put_bufs]; unfold rx_read, internal_buf; ends. Qed.
#[local] Hint Resolve ends_put_fds ends_put_bufs : ends.
Lemma ends_put_args e p : ends (put_args e p).
Proof. unfold put_args. ends. Qed.
End put_ends.

(** ** The abstract queue *)

(** What identifies a job to its caller. *)
Record job := { j_id : Z; j_handle : Z; j_sc : Z }.
Definition job_of (c : vfastrpc_invoke_ctx) : job := {| j_id := c_jobid c; j_handle := c_handle c; j_sc := c_sc c |}.
Definition response_job (r : async_response) : job := {| j_id := ar_jobid r; j_handle := ar_handle r; j_sc := ar_sc r |}.

Section fifo.
Context `{HS : adsprpc_shared, !adsprpc_shared_ok HS}.
Context `{KC : kernel_config, !kernel_config_ok KC}.
Context `{V : virtqueue, !virtqueue_ok V}.
Implicit Types (w : world) (c : vfastrpc_invoke_ctx).

(** The answered jobs of a file, the oldest first. *)
Definition jobs_at (h : gmap ptr vfastrpc_invoke_ctx) (l : list ptr) : list job := omap (fun p => job_of <$> h !! p) l.
Definition jobs w : list job := jobs_at (cx_heap (w_cx w)) (cx_async_queue (w_cx w)).

Lemma jobs_at_frame h h' l :
  (forall q, q ∈ l -> h' !! q = h !! q) -> jobs_at h' l = jobs_at h l.
Proof.
  intros Hl. apply list_omap_ext, Forall_Forall2_diag, Forall_forall. intros q Hq. by rewrite (Hl q Hq).
Qed.
Lemma jobs_length w : aq w -> length (jobs w) = length (cx_async_queue (w_cx w)).
Proof.
  intros Hq. unfold jobs. assert (forall p, p ∈ cx_async_queue (w_cx w) -> is_Some (cx_heap (w_cx w) !! p)) as Hl.
  { intros p (c & _ & _ & Hc & _)%(aq_queue _ Hq). by eexists. }
  revert Hl. generalize (cx_async_queue (w_cx w)). intros l. induction l as [|p l IH]; intros Hl; [done|].
  destruct (Hl p) as [c Hc]; [by left|]. cbn. rewrite Hc. cbn. f_equal. apply IH. set_solver.
Qed.

(** The device only adds to the queue. *)
Definition queue_grows w w' : Prop := cx_async_queue (w_cx w) `prefix_of` cx_async_queue (w_cx w').
#[local] Instance queue_grows_preorder : PreOrder queue_grows.
Proof. split; unfold queue_grows; [intros w; reflexivity|]. intros x y z H1 H2. by etrans. Qed.
Lemma grows_on_apps {A} (m : M apps A) : framed queue_grows (on_apps m).
Proof. intros w a w' _. unfold on_apps, zoom. case_match; intros; simplify_eq; by exists []; rewrite app_nil_r. Qed.
Lemma grows_on_fl {A} (m : M file A) : framed queue_grows (on_fl m).
Proof. intros w a w' _. unfold on_fl, zoom. case_match; intros; simplify_eq; by exists []; rewrite app_nil_r. Qed.
Lemma grows_ctx_load p : framed queue_grows (on_cx (ctx_load p)).
Proof. intros w a w' _. unfold on_cx, zoom, ctx_load. destruct (_ !! _); intros; simplify_eq; by exists []; rewrite app_nil_r. Qed.
Lemma grows_add p : framed queue_grows (on_cx (async_add_tail p)).
Proof.
  intros w a w' _. unfold on_cx, zoom, async_add_tail. case_decide; [done|]. intros [= <- <-]. by exists [p].
Qed.
#[local] Hint Resolve grows_on_apps grows_on_fl grows_ctx_load grows_add : framed.
Lemma grows_recv_single rsp len : framed queue_grows (recv_single rsp len).
Proof. unfold recv_single, is_async, vfastrpc_queue_completed_async_job. framed. Qed.
#[local] Hint Resolve grows_recv_single : framed.
Lemma grows_recv_loop fuel rsp len : framed queue_grows (recv_loop fuel rsp len).
Proof. revert rsp len. induction fuel as [|fuel IH]; intros rsp len; cbn [recv_loop]; framed. Qed.
#[local] Hint Resolve grows_recv_loop : framed.
Lemma grows_run_events l : framed queue_grows (run_events l).
Proof.
  induction l as [|e l IH]; cbn [run_events]; [framed|]. apply framed_bind; [apply _| |done].
  destruct e; cbn [run_event]; unfold recv_done; framed.
Qed.
#[local] Hint Resolve grows_run_events : framed.

(** A file that can deliver. *)
Definition delivers (k : Z) w : Prop := ctx_inv ∅ k w /\ aq w.

Lemma run_events_delivers evs k w :
  delivers k w -> swp (run_events evs) (fun _ w' => delivers k w' /\ fl_file_close (w_fl w') = fl_file_close (w_fl w) /\
    cx_heap (w_cx w') = cx_heap (w_cx w) /\ exists new, jobs w' = jobs w ++ new) w.
Proof.
  intros [Hi Hq]. pose proof (run_events_safe evs w (ci_rx _ _ _ Hi)) as Hs. unfold rx_safe in Hs. unfold swp.
  destruct (run_events evs w) as [[] w'| |] eqn:E; [|by apply rx_fault_device|done]. pose proof (ctx_inv_rx _ _ _ _ Hi Hs) as Hi'.
  split; [split; [done|]|].
  - by apply (proj1 (grow_run_events evs w () w' Logic.I E) (jobs_of k w Hi Hq)).
  - split; [pose proof (rf_fl _ _ (proj1 Hs)) as Ef; unfold fl_rest in Ef; by injection Ef|].
    destruct (rx_ok_heap _ _ Hs) as [Eh _]. split; [done|]. destruct (grows_run_events evs w () w' Logic.I E) as [l El].
    unfold jobs. rewrite Eh, El. exists (jobs_at (cx_heap (w_cx w)) l). unfold jobs_at. apply omap_app.
Qed.

(** The first job is taken off. *)
Definition taken w (l : list ptr) : world :=
  w <| w_cx := (w_cx w) <| cx_async_queue := l |> |>
    <| w_fl := (w_fl w) <| fl_async_queue_job_count := s32 (fl_async_queue_job_count (w_fl w) - 1) |> |>.

Lemma taken_delivers p l k w :
  delivers k w -> cx_async_queue (w_cx w) = p :: l -> delivers k (taken w l) /\ answered w p /\ (p ∉ l).
Proof.
  intros [Hi [Hnd Hq Hint Hc]] El. rewrite El in *. inversion Hnd as [|? ? Hp Hl]; subst.
  split; [split|split; [apply Hq; by left|done]].
  - apply ctx_inv_fl; [|done]. apply (ctx_inv_lists k w); [done..|apply Hi].
  - split; try done.
    + intros q Hin. apply (Hq q). by right.
    + simpl. rewrite Hc. change (s32 (Z.of_nat (length (p :: l))) - 1) with (s32 (Z.of_nat (length (p :: l))) + -1).
      rewrite s32_add. simpl. f_equal. lia.
Qed.

(** The job of [p], which is on no queue any more, is delivered. *)
Lemma done_delivers e p c mp m k w :
  delivers k w -> 0 <= k -> cx_heap (w_cx w) !! p = Some c -> (p ∉ cx_async_queue (w_cx w)) ->
  c_msg c = Some mp -> msgs (w_apps w) !! mp = Some m -> is_Some (rxbuf m) ->
  match async_done e p w with
  | Ok (err, r) w' => err = 0 /\ delivers k w' /\ jobs w' = jobs w /\ cx_heap (w_cx w') = delete p (cx_heap (w_cx w)) /\
      msgs (w_apps w') = delete mp (msgs (w_apps w)) /\ exists ar, r = Some ar /\ response_job ar = job_of c
  | Fault f => device_fault f
  | Hang _ => False
  end.
Proof.
  intros [Hi Hq] Hk Hp Hn Em Hm [r Hr]. unfold async_done. rewrite (bind_eq _ _ _ _ _ (load_ctx _ _ _ Hp)), Em.
  rewrite (bind_eq _ _ _ _ _ (load_msg _ _ _ Hm)). erewrite bind_eq by done. rewrite Hr. cbv zeta.
  assert (forall w2 c2, ctx_inv ∅ k w2 -> put_frame p w w2 c c2 -> exists w', context_free p w2 = Ok () w' /\
    delivers k w' /\ jobs w' = jobs w /\ cx_heap (w_cx w') = delete p (cx_heap (w_cx w)) /\
    msgs (w_apps w') = delete mp (msgs (w_apps w))) as Hfree.
  { intros w2 c2 Hi2 Hf.
    assert (cx_heap (w_cx w2) !! p = Some c2) as Hp2 by (rewrite (pf_cx _ _ _ _ _ Hf); apply lookup_insert_eq).
    destruct (context_free_ok p c2 ∅ k w2 Hi2 Hk Hp2) as (w' & E & Hi' & Ecx & _ & _ & Ems & _).
    exists w'. split; [done|]. rewrite (pf_cx _ _ _ _ _ Hf) in Ecx.
    assert (cx_heap (w_cx w') = delete p (cx_heap (w_cx w))) as Eh by (rewrite Ecx; simpl; by rewrite delete_insert_eq).
    split; [split; [done|by eapply (free_put_aq p c c2 k w w2)]|]. split; [|split; [done|]].
    - unfold jobs. rewrite Eh. rewrite Ecx. simpl. apply jobs_at_frame. intros q Hin. rewrite lookup_delete_ne; [done|]. by intros <-.
    - by rewrite Ems, (pf_msg _ _ _ _ _ Hf), Em, (pf_apps _ _ _ _ _ Hf). }
  destruct (negb (rsp_err (rxmem (w_apps w) r) =? 0)).
  - erewrite bind_eq by done. destruct (Hfree w c Hi (put_frame_refl p w c Hp)) as (w' & E & Hd & Ej & Eh & Ems).
    rewrite (bind_eq _ _ _ _ _ E). simpl. split_and!; try done. by eexists.
  - pose proof (put_args_swp e p k c w Hi Hk Hp) as Hpa. unfold swp in Hpa. pose proof (ends_put_args e p w) as Hend.
    unfold mbind at 1, M_bind at 1. destruct (put_args e p w) as [ierr w2|f|]; [|done..].
    destruct Hpa as [Hi2 [c2 Hf]]. destruct (Hfree w2 c2 Hi2 Hf) as (w' & E & Hd & Ej & Eh & Ems).
    rewrite (bind_eq _ _ _ _ _ E). simpl. split_and!; try done. by eexists.
Qed.

Lemma get_unfold e evs ws out w :
  vfastrpc_get_async_response e (evs :: ws) out w =
    match run_events evs w with
    | Ok () w1 =>
      if (fl_async_queue_job_count (w_fl w1) =? 0) && negb (ie_signal e) then Hang (Sleeps None w1)
      else if 1 <=? fl_file_close (w_fl w1) then Ok (- EBADF, None) w1
      else if fl_async_queue_job_count (w_fl w1) =? 0 then Ok (- ERESTARTSYS, None) w1
      else match cx_async_queue (w_cx w1) with
           | [] => vfastrpc_get_async_response e ws out w1
           | p :: l =>
             (r ← async_done e p;
              if negb (r.1 =? 0) then mret (r.1, None)
              else if out then mret (0, r.2) else mret (VERIFY_err 0, None)) (taken w1 l)
           end
    | Fault f => Fault f
    | Hang h => Hang h
    end.
Proof.
  unfold vfastrpc_get_async_response. cbn [vfastrpc_wait_on_async_queue]. unfold wait_async, mbind, M_bind, gets.
  destruct (run_events evs w) as [[] w1| |]; [|done..].
  destruct (fl_async_queue_job_count (w_fl w1) =? 0), (ie_signal e); simpl; try done;
    destruct (1 <=? fl_file_close (w_fl w1)); try done.
  all: by destruct (cx_async_queue (w_cx w1)).
Qed.

(** Nothing was taken: the file is being closed, or a signal came while no
    job was answered.  No job is lost and no context freed. *)
Definition fifo_idle (new : list job) w (err : Z) (r : option async_response) w' : Prop :=
  r = None /\ jobs w' = jobs w ++ new /\ cx_heap (w_cx w') = cx_heap (w_cx w) /\
  (err = - EBADF /\ 1 <= fl_file_close (w_fl w) \/
   err = - ERESTARTSYS /\ fl_file_close (w_fl w) < 1 /\ Z.of_nat (length (jobs w')) mod 2 ^ 32 = 0).

(** The first job was taken and its context freed, with its message: it is
    delivered if the answer can be copied out, and lost if not. *)
Definition fifo_take (out : bool) (new : list job) w (err : Z) (r : option async_response) w' : Prop :=
  fl_file_close (w_fl w) < 1 /\
  exists p c mp, cx_heap (w_cx w) !! p = Some c /\ jobs w ++ new = job_of c :: jobs w' /\
    cx_heap (w_cx w') = delete p (cx_heap (w_cx w)) /\ (p ∉ cx_async_queue (w_cx w')) /\
    c_msg c = Some mp /\ msgs (w_apps w') !! mp = None /\
    if out then err = 0 /\ exists ar, r = Some ar /\ response_job ar = job_of c
    else err = VERIFY_err 0 /\ r = None.

(** The queue grew by [new] while the thread waited; then its first job is
    taken, or nothing is. *)
Definition fifo_step (out : bool) w (err : Z) (r : option async_response) w' : Prop :=
  exists new, fifo_idle new w err r w' \/ fifo_take out new w err r w'.

Lemma s32_zero n : s32 n = 0 -> n mod 2 ^ 32 = 0.
Proof.
  unfold s32. intros E. assert ((n + 2 ^ 31) mod 2 ^ 32 = 2 ^ 31) as H by lia.
  rewrite <- (Z.add_0_l n). replace (0 + n) with (n + 2 ^ 31 - 2 ^ 31) by lia.
  rewrite Zminus_mod, H. done.
Qed.

Lemma taken_done e (out : bool) p l k w :
  delivers k w -> 0 <= k -> cx_async_queue (w_cx w) = p :: l -> fl_file_close (w_fl w) < 1 ->
  match (r ← async_done e p;
         if negb (r.1 =? 0) then mret (r.1, None)
         else if out then mret (0, r.2) else mret (VERIFY_err 0, None)) (taken w l) with
  | Ok (err, r) w' => delivers k w' /\ fifo_take out [] w err r w'
  | Fault f => device_fault f
  | Hang _ => False
  end.
Proof.
  intros Hd Hk El Hcl. destruct (taken_delivers p l k w Hd El) as (Ht & (c & mp & m & Hp & _ & Em & Hm & Hr) & Hn).
  pose proof (done_delivers e p c mp m k (taken w l) Ht Hk Hp Hn Em Hm Hr) as Hdone.
  unfold mbind, M_bind. destruct (async_done e p (taken w l)) as [[err r] w'| |]; [|done..].
  destruct Hdone as (-> & Hd' & Ej & Eh & Ems & ar & -> & Ear). cbn [fst snd negb Z.eqb].
  assert (jobs w ++ [] = job_of c :: jobs w') as Ejs.
  { rewrite app_nil_r. unfold jobs at 1. rewrite El. cbn. by rewrite Hp, Ej. }
  assert (p ∉ cx_async_queue (w_cx w')) as Hn'.
  { intros (x & _ & _ & Hx & _)%(aq_queue _ (proj2 Hd')). rewrite Eh in Hx. by rewrite lookup_delete_eq in Hx. }
  assert (msgs (w_apps w') !! mp = None) as Hmn by (rewrite Ems; apply lookup_delete_eq).
  assert (fifo_take out [] w (if out then 0 else VERIFY_err 0) (if out then Some ar else None) w') as Hf.
  { split; [done|]. exists p, c, mp. split_and!; try done. destruct out; split; try done. by exists ar. }
  by destruct out.
Qed.

(** What the device did during the wait comes first. *)
Lemma fifo_take_after out new w w1 err r w' :
  jobs w1 = jobs w ++ new -> cx_heap (w_cx w1) = cx_heap (w_cx w) -> fl_file_close (w_fl w1) = fl_file_close (w_fl w) ->
  fifo_take out [] w1 err r w' -> fifo_take out new w err r w'.
Proof.
  unfold fifo_take. intros -> -> ->. by rewrite app_nil_r.
Qed.

Lemma async_fifo_gen e evs ws out k w :
  delivers k w -> 0 <= k ->
  swp (vfastrpc_get_async_response e (evs :: ws) out) (fun r w' => delivers k w' /\ fifo_step out w r.1 r.2 w') w.
Proof.
  intros Hd Hk. unfold swp. rewrite get_unfold. pose proof (run_events_delivers evs k w Hd) as Hs. unfold swp in Hs.
  destruct (run_events evs w) as [[] w1| |]; [|done..]. destruct Hs as (Hd1 & Ec & Eh & new & Ej).
  destruct (Z.eqb_spec (fl_async_queue_job_count (w_fl w1)) 0) as [E0|E0]; simpl.
  - destruct (ie_signal e); simpl; [|split; [apply Hd1|done]].
    destruct (Z.leb_spec 1 (fl_file_close (w_fl w1))) as [Hc|Hc]; rewrite Ec in Hc;
      (split; [done|]); exists new; left; split_and!; try done; [by left|right].
    split_and!; [done..|]. rewrite (jobs_length _ (proj2 Hd1)). apply s32_zero. by rewrite <- (aq_count _ (proj2 Hd1)).
  - destruct (Z.leb_spec 1 (fl_file_close (w_fl w1))) as [Hc|Hc].
    { rewrite Ec in Hc. split; [done|]. exists new. left. split_and!; try done. by left. }
    destruct (cx_async_queue (w_cx w1)) as [|p l] eqn:El.
    { destruct E0. by rewrite (aq_count _ (proj2 Hd1)), El. }
    pose proof (taken_done e out p l k w1 Hd1 Hk El Hc) as Ht.
    match type of Ht with match ?m with _ => _ end => destruct m as [[err r] w'| |]; [|done..] end.
    destruct Ht as [Hd' Hf]. split; [done|]. exists new. right. by eapply fifo_take_after.
Qed.

(** C2: the queue of asynchronous jobs is first in, first out.  Take a file
    whose contexts and queue are consistent.  Whatever the device does while
    the caller waits, [vfastrpc_get_async_response] takes the oldest job that
    was answered off the queue, frees its context and its message, and leaves
    the other jobs in their order, followed by those answered meanwhile; it
    delivers the id, handle and scalars of that job, unless the answer cannot
    be copied to user space: then the job is lost and the call fails.  It
    takes nothing only if the file is being closed (-EBADF) or a signal
    arrives while no job is answered (-ERESTARTSYS), and then no job is lost
    and no context freed.  The only faults are the device's: a response whose
    lengths reach past its buffer, an id outside the table, a second answer
    to a job; and it sleeps only while no job is answered.  If a job is there
    and the file is open it does not wait. *)
Theorem async_fifo e evs waits out k w :
  ctx_inv ∅ k w -> aq w -> 0 <= k ->
  match vfastrpc_get_async_response e (evs :: waits) out w with
  | Ok (err, r) w' => ctx_inv ∅ k w' /\ aq w' /\ fifo_step out w err r w'
  | Fault f => device_fault f
  | Hang Loops => False
  | Hang (Sleeps on w') => on = None /\ Z.of_nat (length (cx_async_queue (w_cx w'))) mod 2 ^ 32 = 0
  end /\
  (fl_file_close (w_fl w) < 1 -> Z.of_nat (length (jobs w)) mod 2 ^ 32 <> 0 ->
   match vfastrpc_get_async_response e ([] :: waits) out w with
   | Ok (err, r) w' => fifo_take out [] w err r w'
   | Fault f => device_fault f
   | Hang _ => False
   end).
Proof.
  intros Hi Hq Hk. assert (delivers k w) as Hd by done. split.
  - pose proof (async_fifo_gen e evs waits out k w Hd Hk) as H. unfold swp in H. revert H.
    rewrite get_unfold. pose proof (run_events_delivers evs k w Hd) as Hs. unfold swp in Hs.
    pose proof (run_events_safe evs w (ci_rx _ _ _ Hi)) as Hno. unfold rx_safe in Hno.
    destruct (run_events evs w) as [[] w1|f|]; [|by intros _|done]. destruct Hs as (Hd1 & _). clear Hno.
    destruct (Z.eqb_spec (fl_async_queue_job_count (w_fl w1)) 0) as [E0|E0]; cbn [andb].
    { destruct (ie_signal e); cbn [negb]; [|intros _; split; [done|]; apply s32_zero; by rewrite <- (aq_count _ (proj2 Hd1))].
      destruct (1 <=? _); by intros [[] ?]. }
    destruct (1 <=? fl_file_close (w_fl w1)) eqn:Ecl; [by intros [[] ?]|]. apply Z.leb_gt in Ecl.
    destruct (cx_async_queue (w_cx w1)) as [|p l] eqn:El.
    { destruct E0. by rewrite (aq_count _ (proj2 Hd1)), El. }
    pose proof (taken_done e out p l k w1 Hd1 Hk El Ecl) as Ht.
    match type of Ht with match ?m with _ => _ end => destruct m as [[err r] w'| |]; [|done..] end.
    by intros [[] ?].
  - intros Hc Hn. rewrite get_unfold. cbn [run_events]. unfold mret at 1, M_ret at 1.
    rewrite (jobs_length w Hq) in Hn.
    destruct (Z.eqb_spec (fl_async_queue_job_count (w_fl w)) 0) as [E0|E0].
    { destruct Hn. apply s32_zero. by rewrite <- (aq_count _ Hq). }
    rewrite (proj2 (Z.leb_gt 1 _)) by lia. destruct (cx_async_queue (w_cx w)) as [|p l] eqn:El; [by destruct Hn|]. cbn [andb].
    pose proof (taken_done e out p l k w Hd Hk El Hc) as Ht.
    match type of Ht with match ?m with _ => _ end => destruct m as [[err r] w'| |]; [|done..] end. apply Ht.
Qed.
End fifo.
