(* ===== verification/Close.v ===== *)
(** * Closing a file (virtio_fastrpc_core.c, virtio_fastrpc_base.c)

    [vfastrpc_file_free]: the close command, the contexts, the buffers, the
    saved commands and the maps, in the order of the code; and
    [vfastrpc_release] that calls it. *)
From S2P Require Import Prelude Shared Mmap Pages Buf Apps World Transact MapOps Session Invoke.

Section ops.
Context `{HS : adsprpc_shared, KC : kernel_config, V : virtqueue}.

(** One of the two loops of [vfastrpc_context_list_dtor]: [lst] is the list
    it empties. *)
Fixpoint free_contexts (lst : ctxs -> list ptr) (fuel : nat) : M world () :=
  match fuel with
  | O => hang
  | S fuel =>
    l ← gets (fun w => lst (w_cx w));
    match l with
    | [] => mret ()
    | p :: _ => on_cx (ctx_unlink p);; context_free p;; free_contexts lst fuel
    end
  end.

Definition vfastrpc_context_list_dtor : M world () :=
  n ← gets (fun w => length (cx_interrupted (w_cx w)));
  free_contexts cx_interrupted (S n);;
  n ← gets (fun w => length (cx_pending (w_cx w)));
  free_contexts cx_pending (S n).

Fixpoint free_cmds (fuel : nat) : M world () :=
  match fuel with
  | O => hang
  | S fuel =>
    l ← gets (fun w => fl_interrupted_cmds (w_fl w));
    match l with
    | [] => mret ()
    | cmd :: l =>
      on_fl (modify (fun f => f <| fl_interrupted_cmds := l |>));;
      m ← on_apps (msg_load (vc_msg cmd));
      on_apps (release_msg (vc_msg cmd) (rxbuf m));;
      free_cmds fuel
    end
  end.

Definition vfastrpc_interrupted_cmd_list_free : M world () :=
  n ← gets (fun w => length (fl_interrupted_cmds (w_fl w)));
  free_cmds (S n).

(** Up to and including the close command. *)
Definition close_session (e : msg_env) : M world () :=
  on_fl (modify (fun f => f <| fl_file_close := 1 |>));;
  f ← gets w_fl;
  when (fl_dsp_proc_init f =? 1) (virt_fastrpc_close e;; mret ()).

(** The two lists of buffers. *)
Definition free_buffers : M world () :=
  n ← gets (fun w => length (bf_cached (w_bf w)));
  on_bf (vfastrpc_cached_buf_list_free (S n));;
  n ← gets (fun w => length (bf_remote (w_bf w)));
  on_bf (vfastrpc_remote_buf_list_free (S n)).

(** From the wake-up of the asynchronous thread on. *)
Definition release_file : M world Z :=
  on_fl (modify (fun f => f <| fl_async_queue_job_count := s32 (fl_async_queue_job_count f + 1) |>));;
  vfastrpc_context_list_dtor;;
  free_buffers;;
  vfastrpc_interrupted_cmd_list_free;;
  n ← gets (fun w => length (mm_list (w_mm w)));
  on_mm (free_all_maps (S n));;
  mret 0.

Definition vfastrpc_file_free (e : msg_env) : M world Z := close_session e;; release_file.

(** [file->private_data] is [None] once the file is released. *)
Definition vfastrpc_release (e : msg_env) : M (option world) Z := fun ow =>
  match ow with
  | None => Ok 0 None
  | Some w =>
    match vfastrpc_file_free e w with
    | Ok _ _ => Ok 0 None
    | Fault f => Fault f
    | Hang h => Hang (stall_map Some h)
    end
  end.
End ops.
