(* ===== verification/CloseFacts.v ===== *)
(** * Closing a file: it returns, and nothing is left

    The loops of [vfastrpc_file_free] stop after one turn per element as long
    as every listed map has at least the references its users count. *)
From S2P Require Import Prelude Shared Mmap MmapFacts Pages Buf BufFacts Apps AppsFacts World WorldFacts Transact MapOps MapFacts Session SessionFacts Invoke CtxFacts CtxInv ArgFacts DescFacts MsgFacts InvokeFacts InvokeSafe Keep AsyncFacts AsyncQueue Close.

Section close.
Context `{HS : adsprpc_shared, !adsprpc_shared_ok HS}.
Context `{KC : kernel_config, !kernel_config_ok KC}.
Context `{V : virtqueue, !virtqueue_ok V}.
Implicit Types (w : world) (c : vfastrpc_invoke_ctx) (s : mmaps).

(** ** Maps *)

(** Every listed map has a reference, and one for each user that counts it. *)
Definition covered (m : vfastrpc_mmap) : Prop := 0 < m_refs m /\ m_ctx_refs m <= m_refs m.
Definition refs_cover s : Prop := forall q m, q ∈ mm_list s -> mm_heap s !! q = Some m -> covered m.

(** No map is alive off the list. *)
Definition all_listed s : Prop := forall q, is_Some (mm_heap s !! q) -> q ∈ mm_list s.

Lemma refs_cover_set q m m' s :
  refs_cover s -> mm_heap s !! q = Some m -> (covered m -> covered m') -> refs_cover (set_map q m' s).
Proof.
  intros Hr Hq Hc x mx Hx. simpl. rewrite lookup_insert. case_decide; [|by apply Hr].
  intros [= <-]. subst. by apply Hc, (Hr x).
Qed.

Lemma all_listed_set q m s : all_listed s -> is_Some (mm_heap s !! q) -> all_listed (set_map q m s).
Proof.
  intros Hl Hq x. simpl. rewrite lookup_insert. case_decide; [by subst; intros; apply Hl|by apply Hl].
Qed.

Lemma refs_cover_release q m s : refs_cover s -> refs_cover (release q m s).
Proof.
  intros Hr x mx Hx Hm. apply (Hr x).
  - simpl in Hx. by apply elem_of_hlist_del in Hx as [? _].
  - simpl in Hm. by apply lookup_delete_Some in Hm as [_ ?].
Qed.

Lemma all_listed_release q m s : all_listed s -> all_listed (release q m s).
Proof.
  intros Hl x [mx Hx]. simpl in Hx. apply lookup_delete_Some in Hx as [Hne Hx]. simpl. apply elem_of_hlist_del. split; [|done].
  apply Hl. by eexists.
Qed.

(** One hold dropped. *)
Lemma drop_ctx_map_refs om s s' :
  mm_inv s -> drop_ctx_map om s = Ok () s' ->
  (refs_cover s -> refs_cover s') /\ (all_listed s -> all_listed s').
Proof.
  intros Hi E. destruct om as [q|]; [|by injection E as <-].
  destruct (mm_heap s !! q) as [m|] eqn:Hm; [|exfalso].
  2:{ unfold drop_ctx_map, ctx_ref_dec, load, mbind, M_bind in E. by rewrite Hm in E. }
  destruct (inv_counts s Hi q m Hm) as [Hr Hc].
  set (m1 := if m_ctx_refs m =? 0 then m else m <| m_ctx_refs := m_ctx_refs m - 1 |>).
  assert (m_refs m1 = m_refs m /\ m_flags m1 = m_flags m /\ 0 <= m_ctx_refs m1 <= m_ctx_refs m /\
          (m_ctx_refs m <> 0 -> m_ctx_refs m1 = m_ctx_refs m - 1)) as (Er & Ef & Ec & Ec').
  { unfold m1. destruct (Z.eqb_spec (m_ctx_refs m) 0); simpl; split_and!; lia || done. }
  assert (drop_ctx_map (Some q) s = vfastrpc_mmap_free (Some q) 0 (set_map q m1 s)) as Ed.
  { unfold drop_ctx_map, mbind, M_bind. rewrite (ctx_ref_dec_eq q m) by done. unfold m1.
    destruct (m_ctx_refs m =? 0); [|done]. f_equal. unfold set_map. rewrite insert_id by done. by destruct s. }
  rewrite Ed in E. clear Ed.
  assert (mm_heap (set_map q m1 s) !! q = Some m1) as Hm1 by apply lookup_insert_eq.
  assert (forall m2, set_map q m2 (set_map q m1 s) = set_map q m2 s) as Eset.
  { intros m2. unfold set_map. simpl. by rewrite insert_insert_eq. }
  destruct (is_heap_addr (m_flags m1)) eqn:Hf.
  { rewrite (mmap_free_skip q m1) in E by eauto. simplify_eq. split; [|by intros; apply all_listed_set].
    intros Hrc. apply (refs_cover_set q m); [done..|]. unfold covered. lia. }
  destruct (Z.le_gt_cases (m_refs m1) 0) as [Hle|Hgt].
  { rewrite (mmap_free_skip q m1) in E by eauto. simplify_eq. split; [|by intros; apply all_listed_set].
    intros Hrc. apply (refs_cover_set q m); [done..|]. unfold covered. lia. }
  destruct (decide (m_refs m1 = 1 /\ m_ctx_refs m1 = 0)) as [[Hr1 Hc0]|Hmore].
  - rewrite (mmap_free_last q m1) in E by (done || lia || by right). simplify_eq. split.
    + intros Hrc x mx Hx Hmx. simpl in Hx, Hmx. apply elem_of_hlist_del in Hx as [Hx Hne].
      rewrite lookup_delete_ne, lookup_insert_ne in Hmx by done. by apply (Hrc x).
    + intros Hl. by apply all_listed_release, all_listed_set.
  - rewrite (mmap_free_drop q m1) in E by (done || lia). simplify_eq. rewrite Eset.
    split; [|by intros; apply all_listed_set].
    intros Hrc. apply (refs_cover_set q m); [done..|]. unfold covered. simpl. lia.
Qed.

(** All holds of a context. *)
Lemma drop_ctx_maps_refs l H k s s' :
  maps_ok (maps_of l ⊎ H) k s -> 0 <= k -> drop_ctx_maps l s = Ok () s' ->
  (refs_cover s -> refs_cover s') /\ (all_listed s -> all_listed s').
Proof.
  intros Hok Hk. revert s Hok. induction l as [|om l IH]; intros s Hok E; [by injection E as <-|].
  assert (exists s1, drop_ctx_map om s = Ok () s1 /\ maps_ok (maps_of l ⊎ H) k s1) as (s1 & E1 & Hok1).
  { destruct om as [q|]; [|by exists s].
    destruct (drop_ctx_map_ok (maps_of l ⊎ H) k s q) as (s1 & E1 & Hok1 & _); [|done|by exists s1].
    eapply maps_ok_weaken; [..|exact Hok]; [|lia]. unfold maps_of. simpl. multiset_solver. }
  cbn [drop_ctx_maps] in E. unfold mbind, M_bind in E. rewrite E1 in E.
  destruct (drop_ctx_map_refs om s s1 (mo_inv _ _ _ Hok) E1), (IH s1 Hok1 E). split; auto.
Qed.

(** ** Contexts *)

(** Everything alive can be found from the file: maps on their list, buffers
    on a list or in a context, contexts on a list, messages through their
    context or their saved command. *)
Record tidy w : Prop := {
  td_maps : all_listed (w_mm w);
  td_bufs : placed (hsum ctx_bufs (cx_heap (w_cx w))) (w_bf w);
  td_ctxs q : is_Some (cx_heap (w_cx w) !! q) -> q ∈ cx_pending (w_cx w) ++ cx_interrupted (w_cx w);
  td_msgs q m : msgs (w_apps w) !! q = Some m ->
    is_Some (msg_ctx m) \/ q ∈ map vc_msg (fl_interrupted_cmds (w_fl w));
}.

(** [w'] after some contexts of [w] were freed. *)
Record freed w w' : Prop := {
  fr_fl : w_fl w' = w_fl w;
  fr_async : cx_async_queue (w_cx w') = cx_async_queue (w_cx w);
  fr_refs : refs_cover (w_mm w) -> refs_cover (w_mm w');
  fr_tidy : tidy w -> tidy w';
  fr_pending q : q ∈ cx_pending (w_cx w') -> q ∈ cx_pending (w_cx w);
  fr_interrupted q : q ∈ cx_interrupted (w_cx w') -> q ∈ cx_interrupted (w_cx w);
  fr_heap q : cx_heap (w_cx w) !! q = None -> cx_heap (w_cx w') !! q = None;
  fr_gone q : q ∈ cx_pending (w_cx w) ++ cx_interrupted (w_cx w) ->
    cx_heap (w_cx w') !! q = None \/ q ∈ cx_pending (w_cx w') ++ cx_interrupted (w_cx w');
}.

#[export] Instance freed_preorder : PreOrder freed.
Proof.
  split; [intros x; by split; auto|]. intros x y z H1 H2. pose proof (fr_gone _ _ H1). pose proof (fr_gone _ _ H2).
  destruct H1, H2. split; [congruence|congruence|auto..|]. intros q Hq. edestruct fr_gone0; eauto.
Qed.

Lemma context_free_freed p c k w :
  ctx_inv ∅ k w -> 0 <= k -> cx_heap (w_cx w) !! p = Some c ->
  exists w', context_free p w = Ok () w' /\ ctx_inv ∅ k w' /\ freed w w' /\
    cx_heap (w_cx w') = delete p (cx_heap (w_cx w)) /\
    cx_pending (w_cx w') = hlist_del p (cx_pending (w_cx w)) /\
    cx_interrupted (w_cx w') = hlist_del p (cx_interrupted (w_cx w)).
Proof.
  intros Hi Hk Hp. destruct (context_free_runs p c ∅ k w Hi Hk Hp)
    as (w' & E & Hi' & Ecx & Ef & _ & Em & _ & _ & _ & Ed & _ & Hg & _).
  exists w'. split; [done|]. split; [done|]. rewrite Ecx. simpl. split; [|done].
  pose proof (ci_maps _ _ _ Hi) as Hmp. rewrite (hsum_delete ctx_maps _ p c Hp) in Hmp.
  assert (maps_ok (maps_of (take (nbufs (c_sc c)) (c_maps c)) ⊎ hsum ctx_maps (delete p (cx_heap (w_cx w)))) k (w_mm w))
    as Hmp' by (eapply maps_ok_weaken; [|reflexivity|exact Hmp]; unfold ctx_maps; multiset_solver).
  destruct (drop_ctx_maps_refs _ _ k _ _ Hmp' Hk Ed) as [Hrc Hal].
  split; rewrite ?Ecx; simpl; try done.
  - intros [H1 H2 H3 H4]. split; [by apply Hal|..]; rewrite ?Ecx, ?Ef; simpl.
    + eapply placed_given; [exact Hg|]. by rewrite (hsum_delete ctx_bufs _ p c Hp) in H2.
    + intros q [x [Hne Hq]%lookup_delete_Some]. rewrite <- hlist_del_app. apply elem_of_hlist_del.
      split; [|done]. apply H3. by eexists.
    + intros q m Hq. apply (H4 q). rewrite Em in Hq. destruct (c_msg c); [|done].
      by apply lookup_delete_Some in Hq as [_ ?].
  - intros q Hq. by apply elem_of_hlist_del in Hq as [? _].
  - intros q Hq. by apply elem_of_hlist_del in Hq as [? _].
  - intros q Hq. by rewrite lookup_delete_None; right.
  - intros q Hq. destruct (decide (q = p)) as [->|Hne]; [left; apply lookup_delete_eq|right].
    rewrite <- hlist_del_app. by apply elem_of_hlist_del.
Qed.

(** The loops unlink a context before they free it. *)
Lemma unlink_free p w : (on_cx (ctx_unlink p);; context_free p) w = context_free p w.
Proof.
  unfold context_free, mbind, M_bind, on_cx, zoom, ctx_unlink, ctx_load, modify. simpl.
  destruct (cx_heap (w_cx w) !! p) as [c|]; [|done]. simpl.
  assert (forall l, hlist_del p (hlist_del p l) = hlist_del p l) as Hid.
  { intros l. apply hlist_del_id. intros Hin. by apply elem_of_hlist_del in Hin as [_ ?]. }
  by rewrite !Hid.
Qed.

(** Either loop of [vfastrpc_context_list_dtor]. *)
Lemma free_contexts_ok lst k n w :
  lst = cx_interrupted \/ lst = cx_pending -> ctx_inv ∅ k w -> 0 <= k -> length (lst (w_cx w)) = n ->
  exists w', free_contexts lst (S n) w = Ok () w' /\ ctx_inv ∅ k w' /\ freed w w' /\ lst (w_cx w') = [] /\
    forall q, q ∈ lst (w_cx w) -> cx_heap (w_cx w') !! q = None.
Proof.
  intros Hlst. revert w. induction n as [|n IH]; intros w Hi Hk Hn; cbn [free_contexts];
    unfold mbind at 1, M_bind at 1, gets.
  { destruct (lst (w_cx w)) eqn:El; [|done]. exists w. split_and!; try done. intros q. by rewrite elem_of_nil. }
  destruct (lst (w_cx w)) as [|p l] eqn:El; [done|].
  assert (p ∈ cx_pending (w_cx w) ++ cx_interrupted (w_cx w)) as Hin.
  { apply elem_of_app. destruct Hlst as [-> | ->]; rewrite El; [right|left]; by left. }
  destruct (li_live _ _ _ (ci_lists _ _ _ Hi) p Hin) as [c Hc].
  destruct (context_free_freed p c k w Hi Hk Hc) as (w1 & E1 & Hi1 & Hf1 & Eh & Ep & Ei).
  assert (NoDup (lst (w_cx w))) as Hnd.
  { destruct (proj1 (NoDup_app _ _) (li_nodup _ _ _ (ci_lists _ _ _ Hi))) as (? & _ & ?).
    by destruct Hlst as [-> | ->]. }
  assert (lst (w_cx w1) = l) as El1.
  { transitivity (hlist_del p (lst (w_cx w))); [by destruct Hlst as [-> | ->]|].
    rewrite El. apply hlist_del_head. by rewrite <- El. }
  destruct (IH w1 Hi1 Hk) as (w2 & E2 & Hi2 & Hf2 & El2 & Hg); [by rewrite El1; injection Hn|].
  exists w2. split; [|split_and!; try done; [by etrans|]].
  - pose proof (unlink_free p w) as Eu. unfold mbind, M_bind in Eu |- *.
    destruct (on_cx (ctx_unlink p) w); [|by rewrite E1 in Eu..]. by rewrite Eu, E1.
  - intros q Hq. apply elem_of_cons in Hq as [-> |Hq]; [|by apply Hg; rewrite El1].
    apply (fr_heap _ _ Hf2). by rewrite Eh, lookup_delete_eq.
Qed.

Lemma context_list_dtor_ok k w :
  ctx_inv ∅ k w -> 0 <= k ->
  exists w', vfastrpc_context_list_dtor w = Ok () w' /\ ctx_inv ∅ k w' /\ freed w w' /\
    cx_pending (w_cx w') = [] /\ cx_interrupted (w_cx w') = [] /\
    forall q, q ∈ cx_pending (w_cx w) ++ cx_interrupted (w_cx w) -> cx_heap (w_cx w') !! q = None.
Proof.
  intros Hi Hk.
  destruct (free_contexts_ok cx_interrupted k _ w (or_introl eq_refl) Hi Hk eq_refl) as (w1 & E1 & Hi1 & Hf1 & El1 & Hg1).
  destruct (free_contexts_ok cx_pending k _ w1 (or_intror eq_refl) Hi1 Hk eq_refl) as (w2 & E2 & Hi2 & Hf2 & El2 & Hg2).
  exists w2. split; [|split_and!; try done; [by etrans|..]].
  - unfold vfastrpc_context_list_dtor, mbind, M_bind, gets. by rewrite E1, E2.
  - apply elem_of_nil_inv. intros q Hq. apply (fr_interrupted _ _ Hf2) in Hq. rewrite El1 in Hq. by apply elem_of_nil in Hq.
  - intros q [Hq|Hq]%(fr_gone _ _ Hf1); [by apply (fr_heap _ _ Hf2)|].
    apply elem_of_app in Hq as [Hq|Hq]; [by apply Hg2|]. rewrite El1 in Hq. by apply elem_of_nil in Hq.
Qed.

(** ** Saved commands *)

Definition with_cmds (l : list virt_fastrpc_cmd) w : world :=
  w <| w_fl := (w_fl w) <| fl_interrupted_cmds := l |> |>.

Lemma free_cmds_ok n w :
  rx_inv w -> cmds_ok (fl_interrupted_cmds (w_fl w)) (msgs (w_apps w)) -> length (fl_interrupted_cmds (w_fl w)) = n ->
  exists a', free_cmds (S n) w = Ok () (with_cmds [] (w <| w_apps := a' |>)) /\
    rx_inv (with_cmds [] (w <| w_apps := a' |>)) /\
    forall q, msgs a' !! q =
      if decide (q ∈ map vc_msg (fl_interrupted_cmds (w_fl w))) then None else msgs (w_apps w) !! q.
Proof.
  revert w. induction n as [|n IH]; intros w Hi [Hnd Hlive] Hn; cbn [free_cmds];
    unfold mbind at 1, M_bind at 1, gets; destruct (fl_interrupted_cmds (w_fl w)) as [|cmd l] eqn:El; try done.
  { exists (w_apps w). assert (with_cmds [] (w <| w_apps := w_apps w |>) = w) as ->.
    { destruct w as [? ? ? ? fl]; destruct fl; simpl in *. by subst. }
    split_and!; try done. }
  simpl in Hnd, Hlive. apply NoDup_cons in Hnd as [Hnl Hnd].
  destruct (Hlive (vc_msg cmd)) as [m Hm]; [by left|].
  assert (rx_inv (with_cmds l w)) as Hi0 by (by apply (rx_inv_cx w)).
  destruct (release_msg_ok (vc_msg cmd) m (with_cmds l w) Hi0 Hm) as (a1 & E1 & Hi1 & Em1 & _).
  set (w1 := with_cmds l w <| w_apps := a1 |>) in *.
  destruct (IH w1 Hi1) as (a2 & E2 & Hi2 & Em2).
  { split; [done|]. intros q Hq. simpl. rewrite Em1. simpl.
    rewrite lookup_delete_ne; [apply Hlive; by right|]. intros <-. done. }
  { by injection Hn. }
  exists a2. assert (with_cmds [] (w1 <| w_apps := a2 |>) = with_cmds [] (w <| w_apps := a2 |>)) as Ew by done.
  rewrite Ew in E2, Hi2. split_and!; [|done|].
  - unfold mbind at 1, M_bind at 1, on_fl, zoom at 1, modify.
    rewrite (bind_eq _ _ _ _ _ (load_msg (vc_msg cmd) m (with_cmds l w) Hm)).
    unfold mbind, M_bind, on_apps, zoom. change (w_apps (with_cmds l w)) with (w_apps w) in *.
    by rewrite E1.
  - intros q. rewrite Em2. simpl. rewrite Em1. simpl.
    destruct (decide (q = vc_msg cmd)) as [->|Hne].
    + rewrite lookup_delete_eq. rewrite (decide_True (P := vc_msg cmd ∈ _ :: _)) by by left. by case_decide.
    + rewrite lookup_delete_ne by done. destruct (decide (q ∈ map vc_msg l)) as [Hq|Hq].
      * by rewrite decide_True by by right.
      * rewrite decide_False; [done|]. by intros [->|?]%elem_of_cons.
Qed.

(** ** The whole of [vfastrpc_file_free] *)

#[local] Existing Instance queue_grows_preorder.
#[local] Hint Resolve grows_on_apps grows_run_events : framed.

Lemma grows_close e : framed queue_grows (virt_fastrpc_close e).
Proof.
  unfold virt_fastrpc_close, transact, wait_for_completion, take_response. framed.
Qed.

Lemma close_session_swp e k w :
  ctx_inv ∅ k w ->
  swp (close_session e)
    (fun _ w' => ctx_inv ∅ k w' /\ w_mm w' = w_mm w /\ cx_rest (w_cx w') = cx_rest (w_cx w) /\
       fl_file_close (w_fl w') = 1 /\ queue_grows w w' /\ (tidy w -> tidy w')) w.
Proof.
  intros Hi. set (w0 := w <| w_fl := (w_fl w) <| fl_file_close := 1 |> |>).
  assert (ctx_inv ∅ k w0) as Hi0.
  { pose proof (ci_rx _ _ _ Hi). destruct Hi. split; try done. by eapply rx_inv_cx. }
  assert (tidy w -> tidy w0) as Ht0 by by intros [].
  unfold close_session. unfold swp, mbind at 1, M_bind at 1, on_fl, zoom, modify.
  fold w0. unfold mbind at 1, M_bind at 1, gets, when.
  destruct (fl_dsp_proc_init (w_fl w0) =? 1); [|split_and!; try done; by exists []; rewrite app_nil_r].
  pose proof (virt_close_swp e w0 (ctx_inv_file _ _ _ Hi0)) as Hc. unfold swp in Hc. unfold mbind, M_bind.
  destruct (virt_fastrpc_close e w0) as [r w'| |] eqn:E; [|done..]. destruct Hc as [Hx Hf].
  pose proof (xf_cx _ _ Hx) as Ecx.
  split_and!; [by eapply ctx_inv_xfer; [| |apply Hf]|apply Hx|done|..].
  - by pose proof (f_equal fl_file_close (xf_fl _ _ Hx)).
  - exact (grows_close e w0 r w' Logic.I E).
  - intros [H1 H2 H3 H4]%Ht0. unfold cx_rest in Ecx. injection Ecx as Eh Ep Ei _.
    split; rewrite ?(xf_mm _ _ Hx), ?(xf_bf _ _ Hx), ?Eh, ?Ep, ?Ei, ?(fl_rest_cmds _ _ (xf_fl _ _ Hx)); try done.
    intros q m Hq. pose proof (xf_msgs _ _ Hx q) as Hs. rewrite Hq in Hs.
    inversion Hs as [m0 ? [_ Ec _] E1|]; subst. rewrite Ec. by apply (H4 q).
Qed.

Lemma free_buffers_ok w :
  bf_inv (w_bf w) ->
  exists s' : bufs, free_buffers w = Ok () (w <| w_bf := s' |>) /\ bf_inv s' /\ bf_cached s' = [] /\ bf_remote s' = [] /\
    forall q, bf_heap s' !! q = if decide (q ∈ bf_cached (w_bf w) ++ bf_remote (w_bf w)) then None else bf_heap (w_bf w) !! q.
Proof.
  intros Hi. destruct (cached_list_free_ok _ _ Hi eq_refl) as (s1 & E1 & Hi1 & Hc1 & Hr1 & Hh1).
  destruct (remote_list_free_ok _ s1 Hi1 eq_refl) as (s2 & E2 & Hi2 & Hr2 & Hc2 & Hh2).
  exists s2. split.
  { unfold free_buffers, mbind, M_bind, gets, on_bf, zoom. rewrite E1.
    change (w_bf (w <| w_bf := s1 |>)) with s1. by rewrite E2. }
  split_and!; [done|by rewrite Hc2|done|]. intros q. rewrite Hh2, Hh1, Hr1.
  destruct (decide (q ∈ bf_remote (w_bf w))), (decide (q ∈ bf_cached (w_bf w))),
    (decide (q ∈ bf_cached (w_bf w) ++ bf_remote (w_bf w))); set_solver.
Qed.

(** What a closed file leaves: the invariant holds, the lists of contexts,
    buffers, commands and maps are empty, and the listed contexts are gone; if
    the file was tidy nothing at all is left.  The queue of answered jobs is
    not emptied: it goes with the file. *)
Record closed w w' : Prop := {
  cl_file : file_inv w';
  cl_flag : fl_file_close (w_fl w') = 1;
  cl_ctxs : cx_pending (w_cx w') = [] /\ cx_interrupted (w_cx w') = [];
  cl_gone q : q ∈ cx_pending (w_cx w) ++ cx_interrupted (w_cx w) -> cx_heap (w_cx w') !! q = None;
  cl_async : queue_grows w w';
  cl_bufs : bf_cached (w_bf w') = [] /\ bf_remote (w_bf w') = [];
  cl_cmds : fl_interrupted_cmds (w_fl w') = [];
  cl_maps : mm_list (w_mm w') = [];
  cl_tidy : tidy w -> w_mm w' = empty_mmaps /\ cx_heap (w_cx w') = ∅ /\ bf_heap (w_bf w') = ∅ /\
    pg_live (bf_pages (w_bf w')) = ∅ /\ msgs (w_apps w') = ∅;
}.

(** From the wake-up of the asynchronous thread on, the device is not waited
    for. *)
Lemma release_all_ok k w :
  ctx_inv ∅ k w -> 0 <= k -> refs_cover (w_mm w) -> fl_file_close (w_fl w) = 1 ->
  exists w', (vfastrpc_context_list_dtor;; free_buffers;; vfastrpc_interrupted_cmd_list_free;;
              n ← gets (fun w => length (mm_list (w_mm w))); on_mm (free_all_maps (S n));; mret 0) w = Ok 0 w' /\
    closed w w'.
Proof.
  intros Hi Hk Hrc Hfc. destruct (context_list_dtor_ok k w Hi Hk) as (w1 & E1 & Hi1 & Hf1 & Ep1 & Ei1 & Hg1).
  pose proof (ctx_inv_file _ _ _ Hi1) as Hfi1.
  destruct (free_buffers_ok w1 (fi_bf _ Hfi1)) as (b2 & E2 & Hb2 & Hc2 & Hr2 & Hh2).
  set (w2 := w1 <| w_bf := b2 |>) in *.
  assert (rx_inv w2) as Hrx2 by (eapply rx_inv_cx; [apply (fi_rx _ Hfi1)|done..]).
  destruct (free_cmds_ok _ w2 Hrx2 (fi_cmds _ Hfi1) eq_refl) as (a3 & E3 & Hrx3 & Em3).
  set (w3 := with_cmds [] (w2 <| w_apps := a3 |>)) in *.
  destruct (free_all_maps_ok (w_mm w1) (fi_mm _ Hfi1)) as (s4 & E4 & Hl4 & Hm4 & Hh4).
  { intros q m Hq Hm. by apply (fr_refs _ _ Hf1 Hrc q m Hq Hm). }
  exists (w3 <| w_mm := s4 |>). split.
  { rewrite (bind_eq _ _ _ _ _ E1), (bind_eq _ _ _ _ _ E2).
    unfold mbind at 1, M_bind at 1, vfastrpc_interrupted_cmd_list_free, gets at 1, mbind at 1, M_bind at 1.
    rewrite E3. unfold mbind, M_bind, gets, on_mm, zoom. change (w_mm w3) with (w_mm w1). by rewrite E4. }
  split; simpl; try done.
  - destruct Hfi1. split; simpl; try done.
    + by eapply rx_inv_cx; [exact Hrx3|..].
    + intros q m. rewrite Hh4. case_decide; [done|]. apply fi_small.
    + split; [constructor|]. intros q Hq. by apply elem_of_nil in Hq.
  - by rewrite (fr_fl _ _ Hf1).
  - exists []. rewrite app_nil_r. apply (fr_async _ _ Hf1).
  - intros Ht. destruct (fr_tidy _ _ Hf1 Ht) as [T1 T2 T3 T4]. rewrite Ep1, Ei1 in T3.
    assert (cx_heap (w_cx w1) = ∅) as Eh.
    { apply map_eq. intros q. rewrite lookup_empty. apply eq_None_not_Some. intros Hs%T3. by apply elem_of_nil in Hs. }
    assert (bf_heap b2 = ∅) as Eb.
    { apply map_eq. intros q. rewrite Hh2, lookup_empty. case_decide as Hd; [done|].
      apply eq_None_not_Some. intros [Hl|Hl]%T2; [done|]. rewrite Eh in Hl. unfold hsum in Hl. rewrite map_fold_empty in Hl. multiset_solver. }
    split_and!; [|done|done|by rewrite (bi_pages _ Hb2), Eb|].
    + apply mm_inv_none; [done| |done]. apply map_eq. intros q. rewrite Hh4, lookup_empty.
      case_decide as Hd; [done|]. apply eq_None_not_Some. intros Hs. by apply Hd, T1.
    + apply map_eq. intros q. rewrite Em3, lookup_empty. case_decide as Hd; [done|].
      apply eq_None_not_Some. intros [m Hm]. simpl in Hm. destruct (T4 q m Hm) as [[c Hc]|]; [|done].
      destruct (ri_ctx _ (fi_rx _ Hfi1) q m c Hm Hc) as [? Hx]. by rewrite Eh in Hx.
Qed.

End close.
