(* ===== verification/CloseDemo.v ===== *)
(** * Closing a concrete file *)
From S2P Require Import Prelude Shared Mmap MmapFacts Pages Buf BufFacts Apps AppsFacts World WorldFacts Transact MapOps MapFacts Demo Session Invoke CtxFacts CtxInv ArgFacts InvokeFacts InvokeSafe InvokeDemo Close CloseFacts.

(** A file with one map, one context and its message is tidy. *)
Lemma tidy_one (w : world) q x p c mp m :
  mm_heap (w_mm w) = {[ q := x ]} -> mm_list (w_mm w) = [q] -> bf_heap (w_bf w) = ∅ -> cx_heap (w_cx w) = {[ p := c ]} ->
  cx_pending (w_cx w) ++ cx_interrupted (w_cx w) = [p] -> msgs (w_apps w) = {[ mp := m ]} -> is_Some (msg_ctx m) ->
  tidy w.
Proof.
  intros Em Eml Eb Ec El Es Hm. split.
  - intros y. rewrite Em, Eml. intros [z Hy]. apply lookup_singleton_Some in Hy as [<- _]. by left.
  - intros y. rewrite Eb, lookup_empty. by intros [].
  - intros y. rewrite Ec, El. intros [z Hy]. apply lookup_singleton_Some in Hy as [<- _]. by left.
  - intros y z. rewrite Es. intros Hy. apply lookup_singleton_Some in Hy as [_ <-]. by left.
Qed.

Lemma mapped_interrupted_tidy : tidy mapped_interrupted.
Proof.
  eapply (tidy_one mapped_interrupted 1%positive _ 1%positive _ 1%positive);
    [vm_compute; reflexivity..|eexists; vm_compute; reflexivity].
Qed.

(** The device answers the close command, whose message has the id 1. *)
Definition demo_close : msg_env :=
  {| me_kzalloc := true; me_pid := 200; me_events := demo_answer 3 1 28 0 0 |}.

