(* ===== verification/Probe.v ===== *)
(** * Setting the device up and taking it down (virtio_fastrpc_base.c)

    [init_vqs], [vfastrpc_channel_init], [virt_fastrpc_probe] and
    [virt_fastrpc_remove], over [struct vfastrpc_apps] and a ledger of the
    kernel objects the driver has asked for. *)
From S2P Require Import Prelude Shared Apps Session.

Definition VIRTIO_FASTRPC_F_INVOKE_ATTR : Z := 1.
Definition VIRTIO_FASTRPC_F_INVOKE_CRC : Z := 2.
Definition VIRTIO_FASTRPC_F_MMAP : Z := 3.
Definition VIRTIO_FASTRPC_F_CONTROL : Z := 4.
Definition VIRTIO_FASTRPC_F_VERSION : Z := 5.
Definition VIRTIO_FASTRPC_F_DOMAIN_NUM : Z := 6.
Definition VIRTIO_FASTRPC_F_VQUEUE_SETTING : Z := 7.
Definition VIRTIO_FASTRPC_F_MEM_MAP : Z := 8.
(** include/uapi/linux/virtio_config.h *)
Definition VIRTIO_F_VERSION_1 : Z := 32.

Definition NUM_CHANNELS : Z := 4.
Definition NUM_DEVICES : Z := 2.
Definition MAX_FASTRPC_BUF_SIZE : Z := 1024 * 1024 * 4.
Definition DEF_FASTRPC_BUF_SIZE : Z := 128 * 1024.
Definition FE_MAJOR_VER : Z := 6.
Definition BE_MAJOR_VER (ver : Z) : Z := Z.land (Z.shiftr ver 16) 65535.

(** ** State *)

(** [struct vfastrpc_apps] as the probe fills it; a pointer that was freed is
    still there. *)
Record gfa `{virtqueue} := {
  g_vqs : option (vq * vq);              (* send and receive queue *)
  g_rbufs : option ptr;
  g_sbufs : option ptr;
  g_num_bufs : Z;
  g_last_sbuf : Z;
  g_msgtable : list (option ptr);
  g_order : Z;
  g_buf_size : Z;
  g_num_channels : Z;
  g_has_invoke_attr : bool;
  g_has_invoke_crc : bool;
  g_has_mmap : bool;
  g_has_control : bool;
  g_has_mem_map : bool;
  g_class : bool;                        (* a class was stored *)
  g_channel : option (list vfastrpc_channel_ctx);
  g_debugfs_root : bool;
}.
#[export] Instance eta_gfa `{virtqueue} : Eta gfa := fun g =>
  {| g_vqs := g_vqs g; g_rbufs := g_rbufs g; g_sbufs := g_sbufs g; g_num_bufs := g_num_bufs g;
     g_last_sbuf := g_last_sbuf g; g_msgtable := g_msgtable g; g_order := g_order g; g_buf_size := g_buf_size g; g_num_channels := g_num_channels g;
     g_has_invoke_attr := g_has_invoke_attr g; g_has_invoke_crc := g_has_invoke_crc g;
     g_has_mmap := g_has_mmap g; g_has_control := g_has_control g; g_has_mem_map := g_has_mem_map g;
     g_class := g_class g; g_channel := g_channel g; g_debugfs_root := g_debugfs_root g |}.

(** What the driver has taken from the kernel and not given back. *)
Record kernel := {
  kn_pages : gmap ptr Z;                    (* blocks of __get_free_pages, with their order *)
  kn_arrays : gmap ptr (list (option ptr)); (* the arrays rbufs and sbufs *)
  kn_channels : Z;                          (* channel arrays *)
  kn_vqs : bool;
  kn_debugfs : bool;
  kn_region : option Z;                     (* device numbers registered *)
  kn_cdev : bool;
  kn_class : bool;
  kn_dev : bool;
  kn_secure_dev : bool;
}.
#[export] Instance eta_kernel : Eta kernel := fun k =>
  {| kn_pages := kn_pages k; kn_arrays := kn_arrays k; kn_channels := kn_channels k; kn_vqs := kn_vqs k;
     kn_debugfs := kn_debugfs k; kn_region := kn_region k; kn_cdev := kn_cdev k; kn_class := kn_class k;
     kn_dev := kn_dev k; kn_secure_dev := kn_secure_dev k |}.

Definition kernel0 : kernel :=
  {| kn_pages := ∅; kn_arrays := ∅; kn_channels := 0; kn_vqs := false; kn_debugfs := false;
     kn_region := None; kn_cdev := false; kn_class := false; kn_dev := false; kn_secure_dev := false |}.

Record device `{virtqueue} := { dv_me : gfa; dv_k : kernel }.
#[export] Instance eta_device `{virtqueue} : Eta device := fun d => {| dv_me := dv_me d; dv_k := dv_k d |}.

(** What the virtio device and the kernel answer during one probe. *)
Record probe_env `{virtqueue} := {
  pv_feature : Z -> bool;            (* virtio_has_feature *)
  pv_version : Z;                    (* the configuration space *)
  pv_max_buf_size : Z;
  pv_domain_num : Z;
  pv_find_vqs : Z;                   (* the error code of virtio_find_vqs *)
  pv_svq : vq;
  pv_rvq : vq;
  pv_svring : Z;                     (* virtqueue_get_vring_size *)
  pv_rvring : Z;
  pv_kcalloc_rbufs : bool;
  pv_kcalloc_sbufs : bool;
  pv_rpages : nat -> bool;           (* __get_free_pages *)
  pv_spages : nat -> bool;
  pv_of_property : option (Z * Z);   (* qcom,domain_num: the error code and the value *)
  pv_kcalloc_channel : bool;
  pv_debugfs : bool;
  pv_alloc_chrdev : Z;
  pv_cdev_add : Z;
  pv_class : bool;
  pv_dev : bool;
  pv_secure_dev : bool;
}.

Section ops.
Context `{HS : adsprpc_shared, KC : kernel_config, V : virtqueue}.

(** [memset(me, 0, sizeof( *me))]: [msgtable] is an array of pointers. *)
Definition zero_table : list (option ptr) := replicate FASTRPC_MSG_MAX None.

Definition zero_gfa : gfa :=
  {| g_vqs := None; g_rbufs := None; g_sbufs := None; g_num_bufs := 0; g_last_sbuf := 0;
     g_msgtable := zero_table; g_order := 0; g_buf_size := 0; g_num_channels := 0; g_has_invoke_attr := false; g_has_invoke_crc := false; g_has_mmap := false;
     g_has_control := false; g_has_mem_map := false; g_class := false; g_channel := None;
     g_debugfs_root := false |}.

Definition me_upd (f : gfa -> gfa) : M device () := modify (fun d => d <| dv_me := f (dv_me d) |>).
Definition k_upd (f : kernel -> kernel) : M device () := modify (fun d => d <| dv_k := f (dv_k d) |>).
Definition getme {A} (f : gfa -> A) : M device A := gets (fun d => f (dv_me d)).

(** ** Kernel calls *)

(** [get_order(size)]: [size--; size >>= PAGE_SHIFT; return fls64(size);], so
    [get_order(0)] is [64 - PAGE_SHIFT]. *)
Definition fls64 (x : Z) : Z := if x =? 0 then 0 else Z.log2 x + 1.
Definition get_order (size : Z) : Z := fls64 (Z.shiftr (u64 (size - 1)) PAGE_SHIFT).

Definition kcalloc_array (ok : bool) (n : Z) : M device (option ptr) := fun d =>
  if ok then
    let p := new_ptr (kn_arrays (dv_k d)) in
    Ok (Some p) (d <| dv_k := (dv_k d) <| kn_arrays := <[p := replicate (Z.to_nat n) None]> (kn_arrays (dv_k d)) |> |>)
  else Ok None d.

(** [kfree], which accepts NULL. *)
Definition kfree_array (op : option ptr) : M device () := fun d =>
  match op with
  | None => Ok () d
  | Some p =>
    match kn_arrays (dv_k d) !! p with
    | Some _ => Ok () (d <| dv_k := (dv_k d) <| kn_arrays := delete p (kn_arrays (dv_k d)) |> |>)
    | None => Fault DoubleFree
    end
  end.

Definition array_get (op : option ptr) (i : nat) : M device (option ptr) := fun d =>
  match op with
  | None => Fault NullDeref
  | Some p =>
    match kn_arrays (dv_k d) !! p with
    | None => Fault UseAfterFree
    | Some l => match l !! i with Some x => Ok x d | None => Fault OutOfBounds end
    end
  end.

Definition array_set (op : option ptr) (i : nat) (x : option ptr) : M device () := fun d =>
  match op with
  | None => Fault NullDeref
  | Some p =>
    match kn_arrays (dv_k d) !! p with
    | None => Fault UseAfterFree
    | Some l =>
      if decide (i < length l)%nat
      then Ok () (d <| dv_k := (dv_k d) <| kn_arrays := <[p := <[i := x]> l]> (kn_arrays (dv_k d)) |> |>)
      else Fault OutOfBounds
    end
  end.

Definition get_free_pages (ok : bool) (order : Z) : M device (option ptr) := fun d =>
  if ok then
    let p := new_ptr (kn_pages (dv_k d)) in
    Ok (Some p) (d <| dv_k := (dv_k d) <| kn_pages := <[p := order]> (kn_pages (dv_k d)) |> |>)
  else Ok None d.

(** [free_pages], which ignores address 0. *)
Definition free_pages (op : option ptr) (order : Z) : M device () := fun d =>
  match op with
  | None => Ok () d
  | Some p =>
    match kn_pages (dv_k d) !! p with
    | Some o => if o =? order then Ok () (d <| dv_k := (dv_k d) <| kn_pages := delete p (kn_pages (dv_k d)) |> |>)
                else Fault OutOfBounds
    | None => Fault DoubleFree
    end
  end.

(** Deleting the queues or the character device, and unregistering device
    numbers, when they are not there. *)
Definition del_vqs : M device () := fun d =>
  if kn_vqs (dv_k d) then Ok () (d <| dv_k := (dv_k d) <| kn_vqs := false |> |>) else Fault DoubleFree.
Definition cdev_del : M device () := fun d =>
  if kn_cdev (dv_k d) then Ok () (d <| dv_k := (dv_k d) <| kn_cdev := false |> |>) else Fault DoubleFree.
Definition unregister_chrdev_region (n : Z) : M device () := fun d =>
  match kn_region (dv_k d) with
  | Some m => if m =? n then Ok () (d <| dv_k := (dv_k d) <| kn_region := None |> |>) else Fault OutOfBounds
  | None => Fault DoubleFree
  end.

(** A class that was destroyed is not to be used again; an error pointer is
    ignored by [class_destroy] and is no class to [device_destroy]. *)
Definition device_destroy (secure : bool) : M device () := fun d =>
  if g_class (dv_me d) then
    if kn_class (dv_k d) then
      Ok () (d <| dv_k := if secure then (dv_k d) <| kn_secure_dev := false |> else (dv_k d) <| kn_dev := false |> |>)
    else Fault UseAfterFree
  else Fault NullDeref.
Definition class_destroy : M device () := fun d =>
  if g_class (dv_me d) then
    if kn_class (dv_k d) then Ok () (d <| dv_k := (dv_k d) <| kn_class := false |> |>) else Fault DoubleFree
  else Ok () d.

(** ** [init_vqs] *)

(** One of the two loops that fill an array of buffers. *)
Fixpoint alloc_bufs (pages : nat -> bool) (arr : option ptr) (n i : nat) : M device Z :=
  match n with
  | O => mret 0
  | S n' =>
    order ← getme g_order;
    p ← get_free_pages (pages i) order;
    array_set arr i p;;
    match p with
    | None => mret (- ENOMEM)
    | Some _ => alloc_bufs pages arr n' (S i)
    end
  end.

(** One of the loops that free them. *)
Fixpoint free_bufs (arr : option ptr) (n i : nat) : M device () :=
  match n with
  | O => mret ()
  | S n' =>
    p ← array_get arr i;
    order ← getme g_order;
    free_pages p order;;
    free_bufs arr n' (S i)
  end.

Definition num_bufs_nat : M device nat := getme (fun g => Z.to_nat (g_num_bufs g)).

(** [vqs_del], [rbuf_del] and [sbuf_del]. *)
Definition vqs_del (err : Z) : M device Z := del_vqs;; mret err.
Definition rbuf_del (err : Z) : M device Z :=
  n ← num_bufs_nat;
  rbufs ← getme g_rbufs;
  free_bufs rbufs n 0;;
  sbufs ← getme g_sbufs;
  kfree_array sbufs;;
  kfree_array rbufs;;
  vqs_del err.
Definition sbuf_del (err : Z) : M device Z :=
  n ← num_bufs_nat;
  sbufs ← getme g_sbufs;
  free_bufs sbufs n 0;;
  rbuf_del err.

(** The two loops that get the buffers. *)
Definition fill_arrays (e : probe_env) : M device Z :=
  n ← num_bufs_nat;
  rbufs ← getme g_rbufs;
  err ← alloc_bufs (pv_rpages e) rbufs n 0;
  if negb (err =? 0) then rbuf_del err
  else
    sbufs ← getme g_sbufs;
    err ← alloc_bufs (pv_spages e) sbufs n 0;
    if negb (err =? 0) then sbuf_del err else mret 0.

(** From [me->num_bufs = ...] on. *)
Definition init_bufs (e : probe_env) : M device Z :=
  me_upd (fun g => g <| g_num_bufs := pv_rvring e |>);;
  rbufs ← kcalloc_array (pv_kcalloc_rbufs e) (pv_rvring e);
  me_upd (fun g => g <| g_rbufs := rbufs |>);;
  match rbufs with
  | None => vqs_del (- ENOMEM)
  | Some _ =>
    sbufs ← kcalloc_array (pv_kcalloc_sbufs e) (pv_rvring e);
    me_upd (fun g => g <| g_sbufs := sbufs |>);;
    match sbufs with
    | None => kfree_array rbufs;; vqs_del (- ENOMEM)
    | Some _ =>
      me_upd (fun g => g <| g_order := get_order (g_buf_size g) |>);;
      fill_arrays e
    end
  end.

Definition init_vqs (e : probe_env) : M device Z :=
  if negb (pv_find_vqs e =? 0) then mret (pv_find_vqs e)
  else
    k_upd (fun k => k <| kn_vqs := true |>);;
    me_upd (fun g => g <| g_vqs := Some (pv_svq e, pv_rvq e) |>);;
    if negb (pv_rvring e =? pv_svring e) then vqs_del (- EINVAL)
    else init_bufs e.

(** ** [vfastrpc_channel_init] and [vfastrpc_channel_deinit] *)

Definition vfastrpc_channel_init (ok : bool) : M device Z :=
  if negb ok then me_upd (fun g => g <| g_channel := None |>);; mret (- ENOMEM)
  else
    k_upd (fun k => k <| kn_channels := kn_channels k + 1 |>);;
    me_upd (fun g => g <| g_channel := Some (map channel_init (seq 0 (Z.to_nat (g_num_channels g)))) |>);;
    mret 0.

Definition vfastrpc_channel_deinit : M device () :=
  c ← getme g_channel;
  when (bool_decide (is_Some c)) (k_upd (fun k => k <| kn_channels := kn_channels k - 1 |>));;
  me_upd (fun g => g <| g_channel := None |>).

(** ** [virt_fastrpc_probe] *)

Definition debugfs_remove_recursive : M device () := fun d =>
  if g_debugfs_root (dv_me d) then
    if kn_debugfs (dv_k d) then Ok () (d <| dv_k := (dv_k d) <| kn_debugfs := false |> |>) else Fault UseAfterFree
  else Ok () d.

(** The labels from [alloc_channel_bail] up to [device_create_bail]. *)
Definition alloc_channel_bail (err : Z) : M device Z := del_vqs;; mret err.
Definition alloc_chrdev_bail (err : Z) : M device Z :=
  debugfs_remove_recursive;; vfastrpc_channel_deinit;; alloc_channel_bail err.
Definition cdev_init_bail (err : Z) : M device Z :=
  n ← getme g_num_channels; unregister_chrdev_region n;; alloc_chrdev_bail err.
Definition class_create_bail (err : Z) : M device Z := cdev_del;; cdev_init_bail err.
Definition device_create_bail (dev secure_dev : bool) (err : Z) : M device Z :=
  when dev (device_destroy false);;
  when secure_dev (device_destroy true);;
  class_destroy;;
  class_create_bail err.

(** The receive buffers are given to the device; an error only warns. *)
Fixpoint setup_rbufs (n i : nat) : M device () :=
  match n with
  | O => mret ()
  | S n' =>
    arr ← getme g_rbufs;
    p ← array_get arr i;
    q ← getme g_vqs;
    size ← getme g_buf_size;
    match p, q with
    | Some p, Some (sq, rq) => me_upd (fun g => g <| g_vqs := Some (sq, (virtqueue_add_inbuf rq p size).2) |>)
    | _, _ => fail NullDeref
    end;;
    setup_rbufs n' (S i)
  end.

(** From [virtio_device_ready(vdev)] on. *)
Definition start_device : M device Z :=
  n ← num_bufs_nat;
  setup_rbufs n 0;;
  me_upd (fun g => g <| g_vqs := (fun q => (q.1, virtqueue_kick q.2)) <$> g_vqs g |>);;
  mret 0.

(** From [class_create] on; [err] is 0 here. *)
Definition create_devices (e : probe_env) (err : Z) : M device Z :=
  me_upd (fun g => g <| g_class := pv_class e |>);;
  if negb (pv_class e) then class_create_bail err
  else
    k_upd (fun k => k <| kn_class := true |>);;
    if negb (pv_dev e) then device_create_bail false false err
    else
      k_upd (fun k => k <| kn_dev := true |>);;
      if negb (pv_secure_dev e) then device_create_bail true false err
      else
        k_upd (fun k => k <| kn_secure_dev := true |>);;
        start_device.

(** From [debugfs_create_dir] on. *)
Definition register_chrdev (e : probe_env) : M device Z :=
  k_upd (fun k => k <| kn_debugfs := pv_debugfs e |>);;
  me_upd (fun g => g <| g_debugfs_root := pv_debugfs e |>);;
  n ← getme g_num_channels;
  if negb (pv_alloc_chrdev e =? 0) then alloc_chrdev_bail (pv_alloc_chrdev e)
  else
    k_upd (fun k => k <| kn_region := Some n |>);;
    if negb (pv_cdev_add e =? 0) then cdev_init_bail (pv_cdev_add e)
    else
      k_upd (fun k => k <| kn_cdev := true |>);;
      create_devices e (pv_cdev_add e).

(** The number of channels: the error code of [of_property_read_u32]. *)
Definition read_domain_num (e : probe_env) : M device Z :=
  if pv_feature e VIRTIO_FASTRPC_F_DOMAIN_NUM then
    me_upd (fun g => g <| g_num_channels := u32 (pv_domain_num e) |>);; mret 0
  else match pv_of_property e with
  | Some (err, v) =>
    when (err =? 0) (me_upd (fun g => g <| g_num_channels := u32 v |>));; mret err
  | None => me_upd (fun g => g <| g_num_channels := NUM_CHANNELS |>);; mret 0
  end.

(** After [init_vqs]. *)
Definition init_channels (e : probe_env) : M device Z :=
  err ← read_domain_num e;
  if negb (err =? 0) then alloc_channel_bail err
  else
    err ← vfastrpc_channel_init (pv_kcalloc_channel e);
    if negb (err =? 0) then alloc_channel_bail err
    else register_chrdev e.

(** The fields read from the features of the device. *)
Definition features (e : probe_env) : gfa :=
  zero_gfa <| g_has_invoke_attr := pv_feature e VIRTIO_FASTRPC_F_INVOKE_ATTR |>
    <| g_has_invoke_crc := pv_feature e VIRTIO_FASTRPC_F_INVOKE_CRC |>
    <| g_has_mmap := pv_feature e VIRTIO_FASTRPC_F_MMAP |>
    <| g_has_control := pv_feature e VIRTIO_FASTRPC_F_CONTROL |>
    <| g_has_mem_map := pv_feature e VIRTIO_FASTRPC_F_MEM_MAP |>.

Definition virt_fastrpc_probe (e : probe_env) : M device Z :=
  if negb (pv_feature e VIRTIO_F_VERSION_1) then mret (- ENODEV)
  else if pv_feature e VIRTIO_FASTRPC_F_VERSION && negb (BE_MAJOR_VER (u32 (pv_version e)) =? FE_MAJOR_VER)
  then mret (- ENODEV)
  else
    me_upd (fun _ => features e);;
    let max := u32 (pv_max_buf_size e) in
    if pv_feature e VIRTIO_FASTRPC_F_VQUEUE_SETTING && (MAX_FASTRPC_BUF_SIZE <? max) then mret (- EINVAL)
    else
      me_upd (fun g => g <| g_buf_size :=
        if pv_feature e VIRTIO_FASTRPC_F_VQUEUE_SETTING then max else DEF_FASTRPC_BUF_SIZE |>);;
      err ← init_vqs e;
      if negb (err =? 0) then mret err else init_channels e.

(** ** [virt_fastrpc_remove] *)

(** From [for (i = 0; i < me->num_bufs; i++)] on. *)
Definition remove_bufs : M device () :=
  n ← num_bufs_nat;
  rbufs ← getme g_rbufs;
  free_bufs rbufs n 0;;
  sbufs ← getme g_sbufs;
  free_bufs sbufs n 0;;
  kfree_array sbufs;;
  kfree_array rbufs.

Definition virt_fastrpc_remove : M device () :=
  device_destroy false;;
  device_destroy true;;
  class_destroy;;
  cdev_del;;
  n ← getme g_num_channels;
  unregister_chrdev_region n;;
  debugfs_remove_recursive;;
  vfastrpc_channel_deinit;;
  del_vqs;;
  remove_bufs.
End ops.
