(* ===== verification/ProbeFacts.v ===== *)
(** * What probe and remove do with kernel objects

    [init_vqs] is exact; a probe that ends with its devices created is undone
    by remove and starts the driver in a consistent state; the other ends
    leave the message buffers behind. *)
From S2P Require Import Prelude Shared Mmap MmapFacts Pages Buf BufFacts Apps AppsFacts World WorldFacts Transact MapOps MapFacts Session SessionFacts CtxFacts CtxInv Probe.

Section facts.
Context `{HS : adsprpc_shared, !adsprpc_shared_ok HS, KC : kernel_config, !kernel_config_ok KC}.
Context `{V : virtqueue, !virtqueue_ok V}.
Implicit Types (d : device) (P : gmap ptr Z) (A : gmap ptr (list (option ptr))).

(** ** Blocks of pages *)

Definition blocks (o : Z) (ps : list ptr) P : gmap ptr Z := foldl (fun m p => <[p := o]> m) P ps.
Definition unblocks (ps : list ptr) P : gmap ptr Z := foldl (fun m p => delete p m) P ps.

Lemma lookup_blocks o ps P q : blocks o ps P !! q = if decide (q ∈ ps) then Some o else P !! q.
Proof.
  revert P. induction ps as [|p ps IH]; intros P; [done|].
  change (blocks o (p :: ps) P) with (blocks o ps (<[p := o]> P)). rewrite IH. destruct (decide (q ∈ ps)) as [Hq|Hq].
  - by rewrite decide_True by by right.
  - destruct (decide (q = p)) as [->|Hne].
    + rewrite decide_True by by left. apply lookup_insert_eq.
    + rewrite decide_False by (by intros [?|?]%elem_of_cons). by rewrite lookup_insert_ne.
Qed.

Lemma lookup_unblocks ps P q : unblocks ps P !! q = if decide (q ∈ ps) then None else P !! q.
Proof.
  revert P. induction ps as [|p ps IH]; intros P; [done|].
  change (unblocks (p :: ps) P) with (unblocks ps (delete p P)). rewrite IH. destruct (decide (q ∈ ps)) as [Hq|Hq].
  - by rewrite decide_True by by right.
  - destruct (decide (q = p)) as [->|Hne].
    + rewrite decide_True by by left. apply lookup_delete_eq.
    + rewrite decide_False by (by intros [?|?]%elem_of_cons). by rewrite lookup_delete_ne.
Qed.

(** [ps] are new blocks: distinct, and none of [P]. *)
Definition new_blocks (ps : list ptr) P : Prop := NoDup ps /\ forall p, p ∈ ps -> P !! p = None.

Lemma unblocks_blocks o ps P : new_blocks ps P -> unblocks ps (blocks o ps P) = P.
Proof.
  intros [_ Hf]. apply map_eq. intros q. rewrite lookup_unblocks, lookup_blocks.
  destruct (decide (q ∈ ps)) as [Hq|]; [|done]. by rewrite Hf.
Qed.

Lemma blocks_size o ps P : new_blocks ps P -> size (blocks o ps P) = (length ps + size P)%nat.
Proof.
  revert P. induction ps as [|p ps IH]; intros P [Hnd Hf]; [done|]. apply NoDup_cons in Hnd as [Hp Hnd].
  change (blocks o (p :: ps) P) with (blocks o ps (<[p := o]> P)). simpl. rewrite IH, map_size_insert_None; [lia|by apply Hf; left|].
  split; [done|]. intros q Hq. rewrite lookup_insert_ne by (by intros ->). apply Hf. by right.
Qed.

(** ** The two loops over an array of buffers *)

(** The device with other pages and arrays. *)
Definition with_mem P A d : device := d <| dv_k := (dv_k d) <| kn_pages := P |> <| kn_arrays := A |> |>.

Definition entries (ps : list ptr) (n : nat) : list (option ptr) := map Some ps ++ replicate n None.

Lemma with_mem_id d : with_mem (kn_pages (dv_k d)) (kn_arrays (dv_k d)) d = d.
Proof. destruct d as [? []]. reflexivity. Qed.

Lemma array_set_eq p i x l d :
  kn_arrays (dv_k d) !! p = Some l -> (i < length l)%nat ->
  array_set (Some p) i x d = Ok () (with_mem (kn_pages (dv_k d)) (<[p := <[i := x]> l]> (kn_arrays (dv_k d))) d).
Proof. intros Hp Hi. unfold array_set. rewrite Hp, decide_True by done. by destruct d as [? []]. Qed.

Lemma array_get_eq p i x l d :
  kn_arrays (dv_k d) !! p = Some l -> l !! i = Some x -> array_get (Some p) i d = Ok x d.
Proof. intros Hp Hi. unfold array_get. by rewrite Hp, Hi. Qed.

Lemma alloc_bufs_ok pages p n l d :
  kn_arrays (dv_k d) !! p = Some (l ++ replicate n None) ->
  exists err ps, alloc_bufs pages (Some p) n (length l) d =
      Ok err (with_mem (blocks (g_order (dv_me d)) ps (kn_pages (dv_k d)))
                (<[p := l ++ entries ps (n - length ps)]> (kn_arrays (dv_k d))) d) /\
    new_blocks ps (kn_pages (dv_k d)) /\ (length ps <= n)%nat /\
    (err = 0 /\ length ps = n \/ err = - ENOMEM).
Proof.
  revert l d. induction n as [|n IH]; intros l d Hp; cbn [alloc_bufs].
  { exists 0, []. unfold entries. simpl. rewrite insert_id by done. rewrite with_mem_id.
    split_and!; try done; [|by left]. split; [constructor|]. by intros q ?%elem_of_nil. }
  assert (length l < length (l ++ replicate (S n) (@None ptr)))%nat as Hlt by (rewrite length_app, length_replicate; lia).
  rewrite (bind_eq _ _ _ _ _ (eq_refl : getme g_order d = Ok _ d)).
  destruct (pages (length l)).
  - set (b := new_ptr (kn_pages (dv_k d))). pose proof (new_ptr_None (kn_pages (dv_k d)) : _ !! b = None) as Hb.
    set (d1 := with_mem (<[b := g_order (dv_me d)]> (kn_pages (dv_k d))) (kn_arrays (dv_k d)) d).
    rewrite (bind_eq _ _ _ (Some b) d1) by by destruct d as [? []].
    rewrite (bind_eq _ _ _ _ _ (array_set_eq p (length l) (Some b) _ d1 Hp Hlt)).
    rewrite insert_app_r_alt, Nat.sub_diag by lia. cbn [replicate list_insert].
    set (d2 := with_mem _ _ d1).
    destruct (IH (l ++ [Some b]) d2) as (err & ps & E & [Hnd Hf] & Hle & Hr).
    { simpl. rewrite lookup_insert_eq. by rewrite <- app_assoc. }
    rewrite length_app, Nat.add_1_r in E. exists err, (b :: ps). rewrite E. split_and!; [| |simpl; lia|].
    + f_equal. unfold with_mem, d2, d1. simpl. rewrite insert_insert_eq, <- app_assoc. done.
    + split; [apply NoDup_cons; split; [|done]|].
      * intros Hin%Hf. simpl in Hin. by rewrite lookup_insert_eq in Hin.
      * intros q [->|Hq]%elem_of_cons; [done|]. apply Hf in Hq. simpl in Hq.
        rewrite lookup_insert_ne in Hq; [done|]. intros <-. by rewrite lookup_insert_eq in Hq.
    + simpl. destruct Hr as [[-> <-]|]; [by left|by right].
  - exists (- ENOMEM), []. rewrite (bind_eq _ _ _ None d) by done.
    rewrite (bind_eq _ _ _ _ _ (array_set_eq p (length l) None _ d Hp Hlt)).
    unfold entries. simpl. rewrite insert_app_r_alt, Nat.sub_diag by lia. simpl.
    split_and!; [done| |lia|by right]. split; [constructor|]. by intros q ?%elem_of_nil.
Qed.

Lemma free_none p n l d :
  kn_arrays (dv_k d) !! p = Some (l ++ replicate n None) -> free_bufs (Some p) n (length l) d = Ok () d.
Proof.
  revert l. induction n as [|n IH]; intros l Hp; [done|]. cbn [free_bufs].
  rewrite (bind_eq _ _ _ _ _ (array_get_eq p (length l) None _ d Hp (list_lookup_middle _ _ _ _ eq_refl))).
  specialize (IH (l ++ [None])). rewrite length_app, Nat.add_1_r, <- app_assoc in IH. by apply IH.
Qed.

Lemma free_bufs_ok p ps n l d :
  kn_arrays (dv_k d) !! p = Some (l ++ entries ps n) -> NoDup ps ->
  (forall q, q ∈ ps -> kn_pages (dv_k d) !! q = Some (g_order (dv_me d))) ->
  free_bufs (Some p) (length ps + n) (length l) d =
    Ok () (with_mem (unblocks ps (kn_pages (dv_k d))) (kn_arrays (dv_k d)) d).
Proof.
  revert l d. induction ps as [|q ps IH]; intros l d Hp Hnd Hq.
  { rewrite free_none by done. simpl. by rewrite with_mem_id. }
  apply NoDup_cons in Hnd as [Hqn Hnd]. cbn [free_bufs length Nat.add]. unfold entries in Hp. cbn [map app] in Hp.
  rewrite (bind_eq _ _ _ _ _ (array_get_eq p (length l) (Some q) _ d Hp (list_lookup_middle _ _ _ _ eq_refl))).
  rewrite (bind_eq _ _ _ _ _ (eq_refl : getme g_order d = Ok _ d)).
  set (d1 := with_mem (delete q (kn_pages (dv_k d))) (kn_arrays (dv_k d)) d).
  rewrite (bind_eq _ _ _ () d1).
  2:{ unfold free_pages. rewrite Hq by by left. rewrite Z.eqb_refl. by destruct d as [? []]. }
  specialize (IH (l ++ [Some q]) d1). rewrite length_app, Nat.add_1_r in IH. rewrite IH; [done| |done|].
  - by rewrite <- app_assoc.
  - intros x Hx. simpl. rewrite lookup_delete_ne by (by intros ->). apply Hq. by right.
Qed.

(** ** [init_vqs] *)

Lemma kcalloc_eq n d :
  kcalloc_array true n d = Ok (Some (new_ptr (kn_arrays (dv_k d))))
    (with_mem (kn_pages (dv_k d)) (<[new_ptr (kn_arrays (dv_k d)) := replicate (Z.to_nat n) None]> (kn_arrays (dv_k d))) d).
Proof. by destruct d as [? []]. Qed.

Lemma kfree_eq p l d :
  kn_arrays (dv_k d) !! p = Some l ->
  kfree_array (Some p) d = Ok () (with_mem (kn_pages (dv_k d)) (delete p (kn_arrays (dv_k d))) d).
Proof. intros Hp. unfold kfree_array. rewrite Hp. by destruct d as [? []]. Qed.

Lemma delete_two A r s l l' :
  A !! r = None -> A !! s = None -> r <> s -> delete r (delete s (<[s := l]> (<[r := l']> A))) = A.
Proof.
  intros Hr Hs Hne. rewrite delete_insert_id by (by rewrite lookup_insert_ne). by rewrite delete_insert_id.
Qed.

(** The kernel [k] with the queues and some message buffers. *)
Definition holding (k : kernel) (o : Z) (rs ss : list ptr) A : kernel :=
  k <| kn_vqs := true |> <| kn_pages := blocks o ss (blocks o rs (kn_pages k)) |> <| kn_arrays := A |>.

Lemma rbuf_del_ok err k d r s rs a l :
  g_rbufs (dv_me d) = Some r -> g_sbufs (dv_me d) = Some s ->
  kn_arrays k !! r = None -> kn_arrays k !! s = None -> r <> s ->
  dv_k d = holding k (g_order (dv_me d)) rs [] (<[s := l]> (<[r := entries rs a]> (kn_arrays k))) ->
  new_blocks rs (kn_pages k) -> Z.to_nat (g_num_bufs (dv_me d)) = (length rs + a)%nat ->
  rbuf_del err d = Ok err (d <| dv_k := k <| kn_vqs := false |> |>).
Proof.
  intros Er Es Hr Hs Hne Ek [Hnd Hf] En. unfold rbuf_del.
  rewrite (bind_eq _ _ _ _ _ (eq_refl : num_bufs_nat d = Ok _ d)), En.
  rewrite (bind_eq _ _ _ _ _ (eq_refl : getme g_rbufs d = Ok _ d)), Er.
  assert (kn_arrays (dv_k d) = <[s := l]> (<[r := entries rs a]> (kn_arrays k))) as Ea by by rewrite Ek.
  assert (kn_pages (dv_k d) = blocks (g_order (dv_me d)) rs (kn_pages k)) as Ep by by rewrite Ek.
  assert (free_bufs (Some r) (length rs + a) 0 d = Ok () (with_mem (kn_pages k) (kn_arrays (dv_k d)) d)) as E1.
  { rewrite <- (unblocks_blocks (g_order (dv_me d)) rs (kn_pages k)) by done. rewrite <- Ep.
    apply (free_bufs_ok r rs a []); [|done|].
    - rewrite Ea, lookup_insert_ne by done. apply lookup_insert_eq.
    - intros q Hq. by rewrite Ep, lookup_blocks, decide_True. }
  rewrite (bind_eq _ _ _ _ _ E1). set (d1 := with_mem _ _ d).
  rewrite (bind_eq _ _ _ _ _ (eq_refl : getme g_sbufs d1 = Ok (g_sbufs (dv_me d)) d1)), Es.
  assert (kn_arrays (dv_k d1) !! s = Some l) as El by (simpl; rewrite Ea; apply lookup_insert_eq).
  rewrite (bind_eq _ _ _ _ _ (kfree_eq s l d1 El)). set (d2 := with_mem _ _ d1).
  assert (kn_arrays (dv_k d2) !! r = Some (entries rs a)) as El2.
  { simpl. rewrite lookup_delete_ne, Ea, lookup_insert_ne by done. apply lookup_insert_eq. }
  rewrite (bind_eq _ _ _ _ _ (kfree_eq r _ d2 El2)).
  unfold vqs_del, del_vqs, mbind, M_bind, d2, d1. destruct d as [me k']. simpl in *. subst k'. simpl.
  rewrite delete_two by done. by destruct k.
Qed.

Lemma sbuf_del_ok err k d r s rs ss b :
  g_rbufs (dv_me d) = Some r -> g_sbufs (dv_me d) = Some s ->
  kn_arrays k !! r = None -> kn_arrays k !! s = None -> r <> s ->
  dv_k d = holding k (g_order (dv_me d)) rs ss (<[s := entries ss b]> (<[r := entries rs 0]> (kn_arrays k))) ->
  new_blocks rs (kn_pages k) -> new_blocks ss (blocks (g_order (dv_me d)) rs (kn_pages k)) ->
  Z.to_nat (g_num_bufs (dv_me d)) = length rs -> Z.to_nat (g_num_bufs (dv_me d)) = (length ss + b)%nat ->
  sbuf_del err d = Ok err (d <| dv_k := k <| kn_vqs := false |> |>).
Proof.
  intros Er Es Hr Hs Hne Ek Hrs Hss En Em. unfold sbuf_del.
  rewrite (bind_eq _ _ _ _ _ (eq_refl : num_bufs_nat d = Ok _ d)), Em.
  rewrite (bind_eq _ _ _ _ _ (eq_refl : getme g_sbufs d = Ok _ d)), Es.
  set (P := blocks (g_order (dv_me d)) rs (kn_pages k)) in *.
  assert (kn_pages (dv_k d) = blocks (g_order (dv_me d)) ss P) as Ep by by rewrite Ek.
  assert (kn_arrays (dv_k d) !! s = Some (entries ss b)) as Ea by (rewrite Ek; apply lookup_insert_eq).
  assert (free_bufs (Some s) (length ss + b) 0 d = Ok () (with_mem P (kn_arrays (dv_k d)) d)) as E1.
  { rewrite <- (unblocks_blocks (g_order (dv_me d)) ss P) by done. rewrite <- Ep.
    apply (free_bufs_ok s ss b []); [done|apply Hss|]. intros q Hq. by rewrite Ep, lookup_blocks, decide_True. }
  rewrite (bind_eq _ _ _ _ _ E1).
  rewrite (rbuf_del_ok err k _ r s rs 0 (entries ss b)); try done.
  - unfold with_mem, holding in *. simpl. by rewrite Ek.
  - simpl. lia.
Qed.

(** [d'] holds the buffers of [init_vqs]: the arrays [r] and [s] with the
    blocks [rs] and [ss], new in [k]. *)
Record bufs_set (k : kernel) d' (r s : ptr) (rs ss : list ptr) : Prop := {
  bs_r : g_rbufs (dv_me d') = Some r;
  bs_s : g_sbufs (dv_me d') = Some s;
  bs_rs : kn_arrays k !! r = None /\ kn_arrays k !! s = None /\ r <> s;
  bs_k : dv_k d' = holding k (g_order (dv_me d')) rs ss (<[s := entries ss 0]> (<[r := entries rs 0]> (kn_arrays k)));
  bs_new : new_blocks rs (kn_pages k) /\ new_blocks ss (blocks (g_order (dv_me d')) rs (kn_pages k));
  bs_len : length rs = Z.to_nat (g_num_bufs (dv_me d')) /\ length ss = Z.to_nat (g_num_bufs (dv_me d'));
}.

(** The fields [init_vqs] sets. *)
Definition with_bufs (e : probe_env) (r s : ptr) (g : gfa) : gfa :=
  g <| g_num_bufs := pv_rvring e |> <| g_rbufs := Some r |> <| g_sbufs := Some s |>
    <| g_order := get_order (g_buf_size g) |>.

Lemma fill_arrays_ok e k d r s :
  g_rbufs (dv_me d) = Some r -> g_sbufs (dv_me d) = Some s ->
  kn_arrays k !! r = None -> kn_arrays k !! s = None -> r <> s ->
  let n := Z.to_nat (g_num_bufs (dv_me d)) in
  dv_k d = holding k (g_order (dv_me d)) [] [] (<[s := entries [] n]> (<[r := entries [] n]> (kn_arrays k))) ->
  exists err d', fill_arrays e d = Ok err d' /\
    (err <> 0 /\ dv_k d' = k <| kn_vqs := false |> \/
     err = 0 /\ dv_me d' = dv_me d /\ exists rs ss, bufs_set k d' r s rs ss).
Proof.
  intros Er Es Hr Hs Hne n Ek. unfold fill_arrays.
  rewrite (bind_eq _ _ _ _ _ (eq_refl : num_bufs_nat d = Ok n d)).
  rewrite (bind_eq _ _ _ _ _ (eq_refl : getme g_rbufs d = Ok _ d)), Er.
  destruct (alloc_bufs_ok (pv_rpages e) r n [] d) as (err1 & rs & E1 & Hrs & Hle1 & Hr1).
  { rewrite Ek. simpl. rewrite lookup_insert_ne by done. apply lookup_insert_eq. }
  change (@length (option ptr) []) with 0%nat in E1. rewrite (bind_eq _ _ _ _ _ E1). cbn [app].
  assert (kn_pages (dv_k d) = kn_pages k) as Ep by by rewrite Ek. rewrite Ep in *.
  set (d1 := with_mem _ _ d).
  assert (dv_k d1 = holding k (g_order (dv_me d)) rs []
            (<[s := entries [] n]> (<[r := entries rs (n - length rs)]> (kn_arrays k)))) as Ek1.
  { unfold d1, with_mem. simpl. rewrite Ek. unfold holding. simpl.
    rewrite insert_insert_ne, insert_insert_eq by done. done. }
  destruct (Z.eqb_spec err1 0) as [->|Hn1]; cbn [negb].
  2:{ rewrite (rbuf_del_ok err1 k d1 r s rs (n - length rs) (entries [] n)); try done; [|simpl; fold n; lia].
      eexists _, _. split; [done|]. by left. }
  destruct Hr1 as [[_ Hl1]|]; [|done]. rewrite Hl1, Nat.sub_diag in Ek1.
  rewrite (bind_eq _ _ _ _ _ (eq_refl : getme g_sbufs d1 = Ok (g_sbufs (dv_me d)) d1)), Es.
  destruct (alloc_bufs_ok (pv_spages e) s n [] d1) as (err2 & ss & E2 & Hss & Hle2 & Hr2).
  { rewrite Ek1. simpl. apply lookup_insert_eq. }
  change (@length (option ptr) []) with 0%nat in E2. rewrite (bind_eq _ _ _ _ _ E2). cbn [app].
  change (g_order (dv_me d1)) with (g_order (dv_me d)) in *.
  assert (kn_pages (dv_k d1) = blocks (g_order (dv_me d)) rs (kn_pages k)) as Ep1 by by rewrite Ek1.
  rewrite Ep1 in *. set (d2 := with_mem _ _ d1).
  assert (dv_k d2 = holding k (g_order (dv_me d)) rs ss
            (<[s := entries ss (n - length ss)]> (<[r := entries rs 0]> (kn_arrays k)))) as Ek2.
  { unfold d2, with_mem. cbn [dv_k]. rewrite Ek1. unfold holding. simpl. by rewrite insert_insert_eq. }
  destruct (Z.eqb_spec err2 0) as [->|Hn2]; cbn [negb].
  2:{ rewrite (sbuf_del_ok err2 k d2 r s rs ss (n - length ss)); try done; [|simpl; fold n; lia].
      eexists _, _. split; [done|]. by left. }
  destruct Hr2 as [[_ Hl2]|]; [|done]. rewrite Hl2, Nat.sub_diag in Ek2.
  exists 0, d2. split; [done|]. right. split; [done|]. split; [done|]. exists rs, ss. by split.
Qed.

Lemma init_bufs_ok e d :
  kn_vqs (dv_k d) = true ->
  exists err d', init_bufs e d = Ok err d' /\
    (err <> 0 /\ dv_k d' = (dv_k d) <| kn_vqs := false |> \/
     err = 0 /\ exists r s rs ss, bufs_set (dv_k d) d' r s rs ss /\ dv_me d' = with_bufs e r s (dv_me d)).
Proof.
  intros Hvq. destruct d as [g k]. simpl in Hvq. unfold init_bufs.
  rewrite (bind_eq _ _ _ _ _ (eq_refl : me_upd _ _ = Ok () _)). simpl dv_me.
  destruct (pv_kcalloc_rbufs e).
  2:{ eexists _, _. split; [unfold mbind, M_bind; simpl; unfold vqs_del, del_vqs, mbind, M_bind; simpl; by rewrite Hvq|].
      left. by split. }
  set (r := new_ptr (kn_arrays k)). pose proof (new_ptr_None (kn_arrays k) : _ !! r = None) as Hr.
  rewrite (bind_eq _ _ _ _ _ (kcalloc_eq _ _)). simpl. fold r.
  rewrite (bind_eq _ _ _ _ _ (eq_refl : me_upd _ _ = Ok () _)). simpl.
  destruct (pv_kcalloc_sbufs e).
  2:{ eexists (- ENOMEM), _. split; [|left; split; [done|]].
      - unfold mbind, M_bind, kcalloc_array, me_upd, modify. simpl. rewrite lookup_insert_eq.
        unfold vqs_del, del_vqs, mbind, M_bind. simpl. rewrite Hvq. reflexivity.
      - simpl. by rewrite delete_insert_id. }
  set (A1 := <[r := replicate (Z.to_nat (pv_rvring e)) None]> (kn_arrays k)).
  set (s := new_ptr A1). pose proof (new_ptr_None A1 : _ !! s = None) as Hs1.
  assert (r <> s) as Hne by (intros E; unfold A1 in Hs1; by rewrite <- E, lookup_insert_eq in Hs1).
  assert (kn_arrays k !! s = None) as Hs by (unfold A1 in Hs1; by rewrite lookup_insert_ne in Hs1).
  rewrite (bind_eq _ _ _ _ _ (kcalloc_eq _ _)). simpl. fold A1. fold s.
  rewrite (bind_eq _ _ _ _ _ (eq_refl : me_upd _ _ = Ok () _)). simpl.
  rewrite (bind_eq _ _ _ _ _ (eq_refl : me_upd _ _ = Ok () _)). simpl.
  match goal with |- context [fill_arrays e ?x] => destruct (fill_arrays_ok e k x r s) as (err & d' & E & Hc); try done end.
  { unfold holding, entries. simpl. by rewrite Hvq. }
  exists err, d'. split; [exact E|]. destruct Hc as [[Hn Ek]|(-> & Em & rs & ss & Hb)]; [by left|].
  right. split; [done|]. by exists r, s, rs, ss.
Qed.

(** The fields [init_vqs] sets, and what it leaves. *)
Definition with_queues (e : probe_env) (r s : ptr) (g : gfa) : gfa :=
  with_bufs e r s (g <| g_vqs := Some (pv_svq e, pv_rvq e) |>).

Lemma init_vqs_ok e d :
  kn_vqs (dv_k d) = false ->
  exists err d', init_vqs e d = Ok err d' /\
    (err <> 0 /\ dv_k d' = dv_k d \/
     err = 0 /\ pv_rvring e = pv_svring e /\
     exists r s rs ss, bufs_set (dv_k d) d' r s rs ss /\ dv_me d' = with_queues e r s (dv_me d)).
Proof.
  intros Hvq. destruct d as [g k]. simpl in Hvq. unfold init_vqs.
  destruct (Z.eqb_spec (pv_find_vqs e) 0) as [_|Hne]; cbn [negb].
  2:{ eexists _, _. split; [done|]. by left. }
  assert (forall b : kernel, b = k <| kn_vqs := true |> <| kn_vqs := false |> -> b = k) as Hk.
  { intros ? ->. destruct k. simpl in *. by subst. }
  rewrite (bind_eq _ _ _ _ _ (eq_refl : k_upd _ _ = Ok () _)).
  rewrite (bind_eq _ _ _ _ _ (eq_refl : me_upd _ _ = Ok () _)). simpl dv_me. simpl dv_k.
  destruct (Z.eqb_spec (pv_rvring e) (pv_svring e)) as [Heq|Hne]; cbn [negb].
  2:{ eexists (- EINVAL), _. split; [done|]. left. split; [done|]. by apply Hk. }
  match goal with |- context [init_bufs e ?x] => destruct (init_bufs_ok e x) as (err & d' & E & Hc); [done|] end.
  exists err, d'. split; [exact E|].
  destruct Hc as [[Hn Ek]|(-> & r & s & rs & ss & Hb & Em)]; [left; split; [done|by apply Hk]|].
  right. split; [done|]. split; [done|]. exists r, s, rs, ss. split; [|exact Em].
  by destruct Hb.
Qed.

(** [init_vqs] is exact.  From a driver without queues it always returns.
    On any error (no queues, rings of different sizes, no memory at any point)
    every kernel object is as before.  On success the queues exist and the
    driver holds exactly two arrays of [num_bufs] entries, filled with
    [2 * num_bufs] distinct new blocks of pages of one order; the send ring
    has the size of the receive ring. *)
Theorem init_vqs_exact e d :
  kn_vqs (dv_k d) = false ->
  exists err d', init_vqs e d = Ok err d' /\
    (err <> 0 /\ dv_k d' = dv_k d \/
     err = 0 /\ pv_rvring e = pv_svring e /\
     exists r s rs ss, bufs_set (dv_k d) d' r s rs ss /\
       size (kn_pages (dv_k d')) = (2 * Z.to_nat (pv_rvring e) + size (kn_pages (dv_k d)))%nat).
Proof.
  intros Hvq. destruct (init_vqs_ok e d Hvq) as (err & d' & E & Hc). exists err, d'. split; [done|].
  destruct Hc as [?|(-> & Heq & r & s & rs & ss & Hb & Em)]; [by left|right]. split; [done|]. split; [done|].
  exists r, s, rs, ss. split; [done|]. destruct Hb as [_ _ _ Ek [Hr Hs] [Lr Ls]]. rewrite Ek. simpl.
  rewrite !blocks_size by done. rewrite Lr, Ls, Em. simpl. lia.
Qed.

(** ** The rest of the probe *)

(** The receive queue with the buffers [ps] added. *)
Definition add_inbufs (size : Z) (ps : list ptr) (q : vq) : vq :=
  foldl (fun q p => (virtqueue_add_inbuf q p size).2) q ps.

Lemma add_inbufs_owned size ps q :
  exists ps', sublist ps' ps /\ vq_owned (add_inbufs size ps q) = list_to_set_disj ps' ⊎ vq_owned q.
Proof.
  revert q. induction ps as [|p ps IH]; intros q; [by exists []; split; [|multiset_solver]|].
  unfold add_inbufs. cbn [foldl]. fold (add_inbufs size ps (virtqueue_add_inbuf q p size).2).
  destruct (virtqueue_add_inbuf q p size) as [err q'] eqn:E. pose proof (add_inbuf_owned _ _ _ _ _ E) as Ho.
  destruct (IH q') as (ps' & Hs & Eo). simpl. rewrite Eo, Ho. destruct (err =? 0).
  - exists (p :: ps'). split; [by constructor|]. simpl. multiset_solver.
  - exists ps'. split; [by constructor|]. done.
Qed.

Lemma setup_rbufs_ok r pre ps sq rq d :
  g_rbufs (dv_me d) = Some r -> kn_arrays (dv_k d) !! r = Some (map Some (pre ++ ps)) -> g_vqs (dv_me d) = Some (sq, rq) ->
  setup_rbufs (length ps) (length pre) d =
    Ok () (d <| dv_me := (dv_me d) <| g_vqs := Some (sq, add_inbufs (g_buf_size (dv_me d)) ps rq) |> |>).
Proof.
  revert pre rq d. induction ps as [|p ps IH]; intros pre rq d Er Ea Eq.
  { destruct d as [[] k]. simpl in *. by subst. }
  cbn [setup_rbufs length]. rewrite (bind_eq _ _ _ _ _ (eq_refl : getme g_rbufs d = Ok _ d)), Er.
  assert (map Some (pre ++ p :: ps) !! length pre = Some (Some p)) as Hp.
  { rewrite map_app, lookup_app_r, length_map, Nat.sub_diag by (rewrite length_map; lia). done. }
  rewrite (bind_eq _ _ _ _ _ (array_get_eq r _ _ _ d Ea Hp)).
  rewrite (bind_eq _ _ _ _ _ (eq_refl : getme g_vqs d = Ok _ d)), Eq.
  rewrite (bind_eq _ _ _ _ _ (eq_refl : getme g_buf_size d = Ok _ d)).
  rewrite (bind_eq _ _ _ _ _ (eq_refl : me_upd _ d = Ok () _)).
  specialize (IH (pre ++ [p]) (virtqueue_add_inbuf rq p (g_buf_size (dv_me d))).2). rewrite length_app, Nat.add_1_r in IH.
  rewrite IH; [done|done| |done]. simpl. by rewrite <- app_assoc.
Qed.

(** A driver with its devices created, started from nothing. *)
Record running (e : probe_env) d (r s : ptr) (rs ss : list ptr) : Prop := {
  rn_r : g_rbufs (dv_me d) = Some r;
  rn_s : g_sbufs (dv_me d) = Some s;
  rn_ne : r <> s;
  rn_k : dv_k d =
    (holding kernel0 (g_order (dv_me d)) rs ss (<[s := entries ss 0]> (<[r := entries rs 0]> ∅)))
      <| kn_channels := 1 |> <| kn_debugfs := g_debugfs_root (dv_me d) |> <| kn_region := Some (g_num_channels (dv_me d)) |>
      <| kn_cdev := true |> <| kn_class := true |> <| kn_dev := true |> <| kn_secure_dev := true |>;
  rn_class : g_class (dv_me d) = true;
  rn_new : new_blocks rs ∅ /\ new_blocks ss (blocks (g_order (dv_me d)) rs ∅);
  rn_len : length rs = Z.to_nat (g_num_bufs (dv_me d)) /\ length ss = Z.to_nat (g_num_bufs (dv_me d));
  rn_vqs : g_vqs (dv_me d) = Some (pv_svq e, virtqueue_kick (add_inbufs (g_buf_size (dv_me d)) rs (pv_rvq e)));
  rn_channel : g_channel (dv_me d) = Some (map channel_init (seq 0 (Z.to_nat (g_num_channels (dv_me d)))));
  rn_chan : 0 <= g_num_channels (dv_me d) < 2 ^ 32;
  rn_num : g_num_bufs (dv_me d) = pv_rvring e;
  rn_size : 0 <= g_buf_size (dv_me d) <= MAX_FASTRPC_BUF_SIZE;
  rn_order : g_order (dv_me d) = get_order (g_buf_size (dv_me d));
  rn_table : g_last_sbuf (dv_me d) = 0 /\ g_msgtable (dv_me d) = zero_table;
}.

(** What is left when the probe gives up after [init_vqs]. *)
Definition stranded (o : Z) (r s : ptr) (rs ss : list ptr) : kernel :=
  kernel0 <| kn_pages := blocks o ss (blocks o rs ∅) |> <| kn_arrays := <[s := entries ss 0]> (<[r := entries rs 0]> ∅) |>.

Lemma start_device_ok d r rs sq rq :
  g_rbufs (dv_me d) = Some r -> kn_arrays (dv_k d) !! r = Some (entries rs 0) ->
  Z.to_nat (g_num_bufs (dv_me d)) = length rs -> g_vqs (dv_me d) = Some (sq, rq) ->
  start_device d = Ok 0 (d <| dv_me := (dv_me d)
    <| g_vqs := Some (sq, virtqueue_kick (add_inbufs (g_buf_size (dv_me d)) rs rq)) |> |>).
Proof.
  intros Er Ea En Eq. unfold start_device. rewrite (bind_eq _ _ _ _ _ (eq_refl : num_bufs_nat d = Ok _ d)), En.
  unfold entries in Ea. simpl in Ea. rewrite app_nil_r in Ea.
  rewrite (bind_eq _ _ _ _ _ (setup_rbufs_ok r [] rs sq rq d Er Ea Eq)). done.
Qed.

Lemma read_domain_num_ok e d :
  exists err n, read_domain_num e d = Ok err (d <| dv_me := (dv_me d) <| g_num_channels := n |> |>) /\
    (err = 0 -> 0 <= n < 2 ^ 32).
Proof.
  unfold read_domain_num. destruct (pv_feature e _); [eexists 0, _; split; [done|intros _; apply u32_range]|].
  destruct (pv_of_property e) as [[err v]|]; [|by eexists 0, NUM_CHANNELS].
  unfold when. destruct (Z.eqb_spec err 0) as [->|Hne]; [eexists 0, _; split; [done|intros _; apply u32_range]|].
  exists err, (g_num_channels (dv_me d)). by destruct d as [[] k].
Qed.

Definition created (e : probe_env) : bool := pv_class e && pv_dev e && pv_secure_dev e.

(** The end of the probe. *)
Lemma init_channels_ok e d r s rs ss :
  bufs_set kernel0 d r s rs ss -> g_vqs (dv_me d) = Some (pv_svq e, pv_rvq e) -> g_num_bufs (dv_me d) = pv_rvring e ->
  0 <= g_buf_size (dv_me d) <= MAX_FASTRPC_BUF_SIZE -> g_order (dv_me d) = get_order (g_buf_size (dv_me d)) ->
  g_last_sbuf (dv_me d) = 0 /\ g_msgtable (dv_me d) = zero_table ->
  exists err d', init_channels e d = Ok err d' /\
    (dv_k d' = stranded (g_order (dv_me d)) r s rs ss /\ (err = 0 -> created e = false) \/
     err = 0 /\ created e = true /\ running e d' r s rs ss).
Proof.
  intros [Er Es (_ & _ & Hne) Ek Hnew Hlen] Hq Hn Hsz Ho Htb. unfold init_channels.
  destruct (read_domain_num_ok e d) as (err & n & E & Hch). rewrite (bind_eq _ _ _ _ _ E).
  destruct d as [g k]. simpl in *. subst k.
  destruct (Z.eqb_spec err 0) as [He|He]; cbn [negb].
  2:{ eexists _, _. split; [done|]. left. split; [done|]. by intros ->. }
  unfold vfastrpc_channel_init. destruct (pv_kcalloc_channel e); cbn [negb].
  2:{ eexists _, _. split; [done|]. by left. }
  unfold register_chrdev, create_devices, created, device_create_bail, class_create_bail,
    cdev_init_bail, alloc_chrdev_bail, alloc_channel_bail, vfastrpc_channel_deinit, when, mbind, M_bind.
  destruct (pv_debugfs e), (Z.eqb_spec (pv_alloc_chrdev e) 0) as [_|He1],
    (Z.eqb_spec (pv_cdev_add e) 0) as [He2|He2], (pv_class e), (pv_dev e), (pv_secure_dev e);
    repeat (progress (cbn -[Z.eqb start_device]; unfold unregister_chrdev_region; rewrite ?Z.eqb_refl)).
  all: match goal with
       | |- context [start_device _] => idtac
       | |- _ => eexists _, _; split; [reflexivity|]; left; split; [reflexivity|by intros]
       end.
  all: rewrite (start_device_ok _ r rs (pv_svq e) (pv_rvq e));
    [|done|simpl; rewrite lookup_insert_ne by done; apply lookup_insert_eq|symmetry; apply Hlen|done].
  all: eexists _, _; split; [reflexivity|]; right; split; [done|]; split; [done|]; split; try done; by apply Hch.
Qed.

Lemma probe_ok e me0 :
  exists err d', virt_fastrpc_probe e {| dv_me := me0; dv_k := kernel0 |} = Ok err d' /\
    (err <> 0 /\ dv_k d' = kernel0 \/
     (exists o r s rs ss, dv_k d' = stranded o r s rs ss /\ new_blocks rs ∅ /\ new_blocks ss (blocks o rs ∅) /\
        r <> s /\ length rs = Z.to_nat (pv_rvring e) /\ length ss = Z.to_nat (pv_rvring e)) /\
       (err = 0 -> created e = false) \/
     err = 0 /\ created e = true /\ exists r s rs ss, running e d' r s rs ss).
Proof.
  unfold virt_fastrpc_probe. destruct (pv_feature e VIRTIO_F_VERSION_1); cbn [negb].
  2:{ eexists _, _. split; [done|]. by left. }
  destruct (pv_feature e VIRTIO_FASTRPC_F_VERSION && _).
  { eexists _, _. split; [done|]. by left. }
  rewrite (bind_eq _ _ _ _ _ (eq_refl : me_upd _ _ = Ok () _)). cbv zeta.
  set (size := if pv_feature e VIRTIO_FASTRPC_F_VQUEUE_SETTING then u32 (pv_max_buf_size e) else DEF_FASTRPC_BUF_SIZE).
  destruct (pv_feature e VIRTIO_FASTRPC_F_VQUEUE_SETTING && (MAX_FASTRPC_BUF_SIZE <? u32 (pv_max_buf_size e))) eqn:Em.
  { eexists _, _. split; [done|]. by left. }
  assert (0 <= size <= MAX_FASTRPC_BUF_SIZE) as Hsz.
  { unfold size. pose proof (u32_range (pv_max_buf_size e)). destruct (pv_feature e _); [|done].
    simpl in Em. apply Z.ltb_ge in Em. lia. }
  rewrite (bind_eq _ _ _ _ _ (eq_refl : me_upd _ _ = Ok () _)).
  match goal with |- context [(init_vqs e ≫= _) ?x] => destruct (init_vqs_ok e x eq_refl) as (err & d1 & E & Hc) end.
  rewrite (bind_eq _ _ _ _ _ E). destruct Hc as [[Hne Ek]|(-> & _ & r & s & rs & ss & Hb & Eme)].
  { rewrite (proj2 (Z.eqb_neq err 0)) by done. cbn [negb]. eexists _, _. split; [done|]. by left. }
  cbn [Z.eqb negb]. simpl dv_k in Hb.
  destruct (init_channels_ok e d1 r s rs ss Hb) as (err & d' & E' & Hc); [by rewrite Eme..|].
  exists err, d'. split; [exact E'|]. right. destruct Hc as [[Ek He]|(-> & Hcr & Hr)]; [left|right].
  - split; [|done]. exists (g_order (dv_me d1)), r, s, rs, ss. destruct Hb as [_ _ (_ & _ & ?) _ [? ?] [Lr Ls]].
    rewrite Eme in Lr, Ls. by split_and!.
  - split; [done|]. split; [done|]. by exists r, s, rs, ss.
Qed.

(** C13: how a probe ends.  From a driver that holds nothing, for all answers of
    the kernel and the device, [virt_fastrpc_probe] returns in one of three
    ways: with an error and nothing held; with the devices created and
    everything set up; or, once [init_vqs] has succeeded and a later step
    fails, with all [2 * num_bufs] message buffers and both arrays still
    allocated.  In the third way it returns 0 only when the class or a device
    node could not be created: the error is lost, and removing the driver
    then faults. *)
Theorem probe_outcomes e me0 :
  exists err d', virt_fastrpc_probe e {| dv_me := me0; dv_k := kernel0 |} = Ok err d' /\
    (err <> 0 /\ dv_k d' = kernel0 \/
     err = 0 /\ created e = true /\ (exists r s rs ss, running e d' r s rs ss) \/
     (size (kn_pages (dv_k d')) = (2 * Z.to_nat (pv_rvring e))%nat /\ size (kn_arrays (dv_k d')) = 2%nat /\
      (dv_k d') <| kn_pages := ∅ |> <| kn_arrays := ∅ |> = kernel0 /\
      (err = 0 -> created e = false) /\ exists f, virt_fastrpc_remove d' = Fault f)).
Proof.
  destruct (probe_ok e me0) as (err & d' & E & Hc). exists err, d'. split; [exact E|].
  destruct Hc as [?|[[(o & r & s & rs & ss & Ek & Hr & Hs & Hne & Lr & Ls) He]|?]]; [by left| |by right; left].
  right. right. rewrite Ek. split_and!; try done.
  - simpl. rewrite !blocks_size, map_size_empty, Lr, Ls by done. lia.
  - simpl. rewrite !map_size_insert_None, map_size_empty by (by rewrite ?lookup_insert_ne). done.
  - unfold virt_fastrpc_remove, device_destroy, mbind, M_bind. rewrite Ek. simpl.
    destruct (g_class (dv_me d')); by eexists.
Qed.

Lemma unblocks_two o rs ss P :
  new_blocks rs P -> new_blocks ss (blocks o rs P) -> unblocks ss (unblocks rs (blocks o ss (blocks o rs P))) = P.
Proof.
  intros [_ Hr] [_ Hs]. apply map_eq. intros q. rewrite !lookup_unblocks, !lookup_blocks.
  destruct (decide (q ∈ ss)) as [Hq|]; [|destruct (decide (q ∈ rs)) as [Hq|]; [|done]].
  - apply Hs in Hq. rewrite lookup_blocks in Hq. by destruct (decide (q ∈ rs)).
  - symmetry. by apply Hr.
Qed.

Lemma remove_bufs_ok d r s rs ss P A :
  g_rbufs (dv_me d) = Some r -> g_sbufs (dv_me d) = Some s -> A !! r = None -> A !! s = None -> r <> s ->
  kn_arrays (dv_k d) = <[s := entries ss 0]> (<[r := entries rs 0]> A) ->
  kn_pages (dv_k d) = blocks (g_order (dv_me d)) ss (blocks (g_order (dv_me d)) rs P) ->
  new_blocks rs P -> new_blocks ss (blocks (g_order (dv_me d)) rs P) ->
  length rs = Z.to_nat (g_num_bufs (dv_me d)) -> length ss = Z.to_nat (g_num_bufs (dv_me d)) ->
  remove_bufs d = Ok () (with_mem P A d).
Proof.
  intros Er Es Hr Hs Hne Ea Ep Hnr Hns Lr Ls. unfold remove_bufs.
  rewrite (bind_eq _ _ _ _ _ (eq_refl : num_bufs_nat d = Ok _ d)).
  rewrite (bind_eq _ _ _ _ _ (eq_refl : getme g_rbufs d = Ok _ d)), Er.
  assert (kn_arrays (dv_k d) !! r = Some (entries rs 0)) as Ear by (rewrite Ea, lookup_insert_ne by done; apply lookup_insert_eq).
  assert (forall q, q ∈ rs -> q ∉ ss) as Hdj.
  { intros q Hq Hq'. apply (proj2 Hns) in Hq'. by rewrite lookup_blocks, decide_True in Hq'. }
  pose proof (free_bufs_ok r rs 0 [] d Ear (proj1 Hnr)) as E1. rewrite Nat.add_0_r, Lr in E1.
  rewrite (bind_eq _ _ _ () (with_mem (unblocks rs (kn_pages (dv_k d))) (kn_arrays (dv_k d)) d)).
  2:{ apply E1. intros q Hq. rewrite Ep, !lookup_blocks. by rewrite (decide_False (P := q ∈ ss)), decide_True by auto. }
  set (d1 := with_mem _ _ d).
  rewrite (bind_eq _ _ _ _ _ (eq_refl : getme g_sbufs d1 = Ok (g_sbufs (dv_me d)) d1)), Es.
  assert (kn_arrays (dv_k d1) !! s = Some (entries ss 0)) as Eas by (simpl; rewrite Ea; apply lookup_insert_eq).
  pose proof (free_bufs_ok s ss 0 [] d1 Eas (proj1 Hns)) as E2. rewrite Nat.add_0_r, Ls in E2.
  rewrite (bind_eq _ _ _ () (with_mem (unblocks ss (kn_pages (dv_k d1))) (kn_arrays (dv_k d1)) d1)).
  2:{ apply E2. intros q Hq. simpl. rewrite lookup_unblocks, decide_False by (intros Hq'; by apply (Hdj q)).
      by rewrite Ep, lookup_blocks, decide_True. }
  simpl kn_pages. rewrite Ep, unblocks_two by done. simpl kn_arrays. set (d2 := with_mem _ _ d1).
  rewrite (bind_eq _ _ _ _ _ (kfree_eq s (entries ss 0) d2 Eas)). set (d3 := with_mem _ _ d2).
  rewrite (kfree_eq r (entries rs 0) d3).
  - unfold d3, d2, d1, with_mem. simpl. by rewrite Ea, delete_two.
  - simpl. by rewrite lookup_delete_ne.
Qed.

(** C14: remove undoes probe.  After a probe that returned 0 with its devices
    created, [virt_fastrpc_remove] returns and the driver holds nothing any
    more: no page, array, queue, device number, class or device node. *)
Theorem probe_remove_roundtrip e me0 d' :
  virt_fastrpc_probe e {| dv_me := me0; dv_k := kernel0 |} = Ok 0 d' -> created e = true ->
  exists d'', virt_fastrpc_remove d' = Ok () d'' /\ dv_k d'' = kernel0.
Proof.
  intros E Hcr. destruct (probe_ok e me0) as (err & x & E' & Hc). rewrite E in E'. injection E' as <- <-.
  destruct Hc as [[? _]|[[_ He]|(_ & _ & r & s & rs & ss & [Er Es Hne Ek Ecl [Hr Hs] [Lr Ls] _ Ech _ _ _ _])]];
    [done|by rewrite He in Hcr|].
  unfold virt_fastrpc_remove, device_destroy, class_destroy, debugfs_remove_recursive, vfastrpc_channel_deinit, when.
  destruct d' as [g k]. simpl in *. subst k. unfold mbind, M_bind.
  destruct (g_debugfs_root g) eqn:Edb;
    repeat (progress (cbn -[remove_bufs Z.eqb]; unfold unregister_chrdev_region; rewrite ?Ecl, ?Z.eqb_refl, ?Edb, ?Ech)).
  all: eexists; split; [eapply (remove_bufs_ok _ r s rs ss ∅ ∅); done|done].
Qed.

(** ** The state the driver starts in *)

(** The device the other components work on, as the probe leaves it; [mem]
    is what the receive buffers hold.  Messages are allocated by
    [virt_alloc_msg] only, so there are none, and nobody holds a buffer. *)
Definition boot_apps (mem : ptr -> virt_rsp) d : option apps :=
  match g_vqs (dv_me d), g_sbufs (dv_me d) with
  | Some (sq, rq), Some s =>
    Some {| num_bufs := g_num_bufs (dv_me d); buf_size := g_buf_size (dv_me d); last_sbuf := g_last_sbuf (dv_me d);
            sbufs := omap id (default [] (kn_arrays (dv_k d) !! s)); svq := sq; rvq := rq;
            msgtable := g_msgtable (dv_me d); msgs := ∅; txmem := ∅; rxmem := mem;
            tx_held := ∅; rx_held := ∅ |}
  | _, _ => None
  end.

(** The driver before a file is opened. *)
Definition boot_driver (mem : ptr -> virt_rsp) d : option driver :=
  match boot_apps mem d, g_channel (dv_me d) with
  | Some a, Some channel =>
    Some {| dr_world := {| w_apps := a; w_mm := empty_mmaps; w_bf := empty_bufs; w_cx := new_ctxs; w_fl := new_file 0 |};
            dr_num_channels := g_num_channels (dv_me d); dr_channel := channel;
            dr_has_invoke_attr := g_has_invoke_attr (dv_me d); dr_has_invoke_crc := g_has_invoke_crc (dv_me d);
            dr_has_mmap := g_has_mmap (dv_me d); dr_has_control := g_has_control (dv_me d);
            dr_has_mem_map := g_has_mem_map (dv_me d); dr_debugfs_root := g_debugfs_root (dv_me d);
            dr_dev_minor := 0; dr_tgid_open := 0; dr_untrusted_process := false;
            dr_debug_buf_alloced_attempted := false; dr_debug_buf := false; dr_debugfs_file := false |}
  | _, _ => None
  end.

Lemma omap_entries ps : omap id (entries ps 0) = ps.
Proof. unfold entries. simpl. rewrite app_nil_r. induction ps as [|p ps IH]; [done|]. simpl. by f_equal. Qed.

Lemma boot_rx_inv e mem d r s rs ss a cx fl :
  running e d r s rs ss -> vq_owned (pv_svq e) = ∅ -> vq_owned (pv_rvq e) = ∅ -> 0 <= pv_rvring e < 2 ^ 31 ->
  boot_apps mem d = Some a ->
  rx_inv {| w_apps := a; w_mm := empty_mmaps; w_bf := empty_bufs; w_cx := cx; w_fl := fl |}.
Proof.
  intros [Er Es Hne Ek _ [Hr Hs] [Lr Ls] Hq _ _ Hn _ _ [Hls HT]] Ho1 Ho2 Hring Ha.
  unfold boot_apps in Ha. rewrite Hq, Es, Ek, Hls, HT in Ha. simpl in Ha. rewrite lookup_insert_eq in Ha. simpl in Ha.
  rewrite omap_entries in Ha. injection Ha as <-.
  split; simpl; try done.
  - split; simpl; try done.
    + intros i p Hi. unfold zero_table in Hi. by apply lookup_replicate in Hi as [? _].
    + rewrite Ls, Hn. lia.
    + rewrite Hn. lia.
    + rewrite Hn. lia.
    + apply Hs.
    + rewrite Ho1, drop_0. multiset_solver.
  - intros p. unfold rx_all. simpl. rewrite kick_owned.
    destruct (add_inbufs_owned (g_buf_size (dv_me d)) rs (pv_rvq e)) as (ps & Hsub & ->). rewrite Ho2.
    rewrite !multiplicity_disj_union, !multiplicity_empty, Nat.add_0_r. simpl.
    apply disj_nodup_mult. eapply sublist_NoDup; [apply Hr|done].
Qed.

(** A file just opened. *)
Definition fresh_world (a : apps) (tgid : Z) : world :=
  {| w_apps := a; w_mm := empty_mmaps; w_bf := empty_bufs; w_cx := new_ctxs; w_fl := new_file tgid |}.

Lemma fresh_ctx_inv a tgid k :
  rx_inv (fresh_world a tgid) -> msgs a = ∅ -> 0 <= buf_size a < 2 ^ 32 -> k < 2 ^ 31 -> ctx_inv ∅ k (fresh_world a tgid).
Proof.
  intros Hrx Hm Hb Hk. split; simpl; try done.
  - unfold hsum. rewrite map_fold_empty. split; try done; [apply inv_empty|]. intros q Hq. multiset_solver.
  - unfold hsum. rewrite map_fold_empty. split; try done; [apply inv_bf_empty|]. intros q Hq. multiset_solver.
  - apply NoDup_nil_2.
  - by intros p ?%not_elem_of_nil.
  - rewrite Hm. by split.
  - split; [apply NoDup_nil_2|by intros q ?%not_elem_of_nil|by intros q c ?%not_elem_of_nil].
Qed.

Lemma channel_init_ok i : chan_ok (channel_init i).
Proof.
  split; simpl; [apply length_replicate|]. by destruct (_ || _).
Qed.

Lemma fresh_session dr a tgid :
  dr_world dr = fresh_world a tgid -> file_inv (fresh_world a tgid) ->
  dr_num_channels dr = Z.of_nat (length (dr_channel dr)) -> dr_num_channels dr < 2 ^ 31 ->
  Forall chan_ok (dr_channel dr) -> session_inv dr.
Proof. intros E Hf Hn Hs Hc. split; rewrite ?E; try done. left. by rewrite E. Qed.

(** [get_order] is large enough. *)
Lemma fls64_spec x : 0 <= x -> x < 2 ^ fls64 x /\ 0 <= fls64 x.
Proof.
  intros Hx. unfold fls64. destruct (Z.eqb_spec x 0) as [->|Hne]; [done|].
  pose proof (Z.log2_spec x). pose proof (Z.log2_nonneg x). rewrite Z.add_1_r. lia.
Qed.

Lemma get_order_covers size : 0 <= size < 2 ^ 64 -> size <= PAGE_SIZE * 2 ^ get_order size.
Proof.
  intros Hs. pose proof PAGE_SHIFT_range. unfold get_order, PAGE_SIZE.
  set (n := Z.shiftr (u64 (size - 1)) PAGE_SHIFT). assert (0 <= n) as Hn0 by (apply Z.shiftr_nonneg, u64_range).
  destruct (fls64_spec n Hn0) as [Hn _]. destruct (Z.eq_dec size 0) as [->|Hne]; [nia|].
  assert (size - 1 < 2 ^ PAGE_SHIFT * (n + 1)) as Hd; [|nia].
  unfold n. rewrite u64_id, Z.shiftr_div_pow2 by lia.
  pose proof (Z.mul_succ_div_gt (size - 1) (2 ^ PAGE_SHIFT)). lia.
Qed.

(** The state after an attempt to open a device node. *)
Lemma probe_starts e me0 d' mem :
  virt_fastrpc_probe e {| dv_me := me0; dv_k := kernel0 |} = Ok 0 d' -> created e = true ->
  vq_owned (pv_svq e) = ∅ -> vq_owned (pv_rvq e) = ∅ -> 0 <= pv_rvring e < 2 ^ 31 ->
  g_num_channels (dv_me d') < 2 ^ 31 ->
  exists dr, boot_driver mem d' = Some dr /\
    (forall dev_minor tgid kzalloc k, k < 2 ^ 31 ->
      exists err dr', vfastrpc_open dev_minor tgid kzalloc dr = Ok err dr' /\
        session_inv dr' /\ ctx_inv ∅ k (dr_world dr')) /\
    forall p, p ∈ sbufs (w_apps (dr_world dr)) -> exists o, kn_pages (dv_k d') !! p = Some o /\
      buf_size (w_apps (dr_world dr)) <= PAGE_SIZE * 2 ^ o.
Proof.
  intros E Hcr Ho1 Ho2 Hring Hch. destruct (probe_ok e me0) as (err & x & E' & Hc). rewrite E in E'. injection E' as <- <-.
  destruct Hc as [[? _]|[[_ He]|(_ & _ & r & s & rs & ss & Hrun)]]; [done|by rewrite He in Hcr|].
  pose proof Hrun as [Er Es Hne Ek _ [Hr Hs] [Lr Ls] Hq Hcn Hrng Hn Hsz Hord _].
  assert (exists a, boot_apps mem d' = Some a /\ sbufs a = ss /\ buf_size a = g_buf_size (dv_me d') /\ msgs a = ∅)
    as (a & Ea & Esb & Ebs & Ems).
  { unfold boot_apps. rewrite Hq, Es. eexists. split; [done|]. split; [|done].
    rewrite Ek. simpl. rewrite lookup_insert_eq. apply omap_entries. }
  unfold boot_driver. rewrite Ea, Hcn. eexists. split; [done|]. split.
  - intros dev_minor tgid kzalloc k Hk.
    assert (forall t, ctx_inv ∅ k (fresh_world a t)) as Hci.
    { intros t. apply fresh_ctx_inv; [by eapply boot_rx_inv|done| |done]. rewrite Ebs. unfold MAX_FASTRPC_BUF_SIZE in Hsz. lia. }
    assert (forall dr t, dr_world dr = fresh_world a t -> dr_num_channels dr = g_num_channels (dv_me d') ->
      dr_channel dr = map channel_init (seq 0 (Z.to_nat (g_num_channels (dv_me d')))) -> session_inv dr) as Hse.
    { intros dr t Ew En Ec. eapply fresh_session; [exact Ew|by eapply ctx_inv_file|..]; rewrite ?En, ?Ec; try done.
      - rewrite length_map, length_seq. lia.
      - apply Forall_forall. intros c Hc. apply list_elem_of_fmap in Hc as (i & -> & _). apply channel_init_ok. }
    unfold vfastrpc_open.
    destruct (negb (VERIFY 0 (_ || _) =? 0)); [eexists _, _; split; [done|]; split; [by eapply Hse|apply Hci]|].
    destruct (negb (VERIFY 0 kzalloc =? 0)); [eexists _, _; split; [done|]; split; [by eapply Hse|apply Hci]|].
    eexists _, _; split; [done|]; split; [by eapply Hse|apply Hci].
  - cbn [dr_world w_apps]. rewrite Esb, Ebs. intros p Hp. exists (g_order (dv_me d')). split.
    + rewrite Ek. simpl. by rewrite lookup_blocks, decide_True.
    + rewrite Hord. apply get_order_covers. unfold MAX_FASTRPC_BUF_SIZE in Hsz. lia.
Qed.

(** C12: the probe starts the driver in a consistent state.  If the probe
    returned 0 with its devices created, on virtqueues that were empty and of
    at most [2^31 - 1] entries, then after every attempt to open a device
    node, successful or not, the session, the message table, the queues and
    the (empty) maps, buffers and contexts satisfy the invariants from which
    the safety of all other operations is proved, and the pages of each tx
    buffer cover [buf_size] bytes. *)
Theorem probe_establishes e me0 d' mem :
  virt_fastrpc_probe e {| dv_me := me0; dv_k := kernel0 |} = Ok 0 d' -> created e = true ->
  vq_owned (pv_svq e) = ∅ -> vq_owned (pv_rvq e) = ∅ -> 0 <= pv_rvring e < 2 ^ 31 ->
  g_num_channels (dv_me d') < 2 ^ 31 ->
  exists dr, boot_driver mem d' = Some dr /\
    (forall dev_minor tgid kzalloc k, k < 2 ^ 31 ->
      exists err dr', vfastrpc_open dev_minor tgid kzalloc dr = Ok err dr' /\
        session_inv dr' /\ ctx_inv ∅ k (dr_world dr')) /\
    forall p, p ∈ sbufs (w_apps (dr_world dr)) -> exists o, kn_pages (dv_k d') !! p = Some o /\
      buf_size (w_apps (dr_world dr)) <= PAGE_SIZE * 2 ^ o.
Proof. apply probe_starts. Qed.
End facts.
