(* ===== verification/ProbeDemo.v ===== *)
(** * A concrete probe *)
From S2P Require Import Prelude Shared Mmap Pages Buf Apps AppsFacts World WorldFacts Transact MapFacts Session SessionFacts CtxInv Demo Probe ProbeFacts.

Definition demo_ring : vq := {| avail := []; used := []; room := 2 |}.

(** Every feature, rings of two entries, all memory; [cls] is whether the
    class can be created. *)
Definition demo_probe (cls : bool) : probe_env :=
  {| pv_feature := fun _ => true; pv_version := 0x60001; pv_max_buf_size := 8192; pv_domain_num := 5;
     pv_find_vqs := 0; pv_svq := demo_ring; pv_rvq := demo_ring; pv_svring := 2; pv_rvring := 2;
     pv_kcalloc_rbufs := true; pv_kcalloc_sbufs := true; pv_rpages := fun _ => true; pv_spages := fun _ => true;
     pv_of_property := None; pv_kcalloc_channel := true; pv_debugfs := true; pv_alloc_chrdev := 0; pv_cdev_add := 0;
     pv_class := cls; pv_dev := true; pv_secure_dev := true |}.

Definition unprobed : device := {| dv_me := zero_gfa; dv_k := kernel0 |}.
Definition probed : device := end_state unprobed (virt_fastrpc_probe (demo_probe true) unprobed).

Lemma demo_probes : virt_fastrpc_probe (demo_probe true) unprobed = Ok 0 probed.
Proof. vm_compute. reflexivity. Qed.

Lemma init_vqs_exact_witness :
  exists d', init_vqs (demo_probe true) unprobed = Ok 0 d' /\ size (kn_pages (dv_k d')) = 4%nat.
Proof.
  destruct (init_vqs_exact (demo_probe true) unprobed eq_refl) as (err & d' & E & Hc).
  assert (exists d', init_vqs (demo_probe true) unprobed = Ok 0 d') as [d1 E1] by (eexists; vm_compute; reflexivity).
  rewrite E1 in E. injection E as <- <-. exists d1. split; [exact E1|].
  destruct Hc as [[H _]|(_ & _ & r & s & rs & ss & _ & Hs)]; [by destruct H|exact Hs].
Defined.

Lemma probe_remove_roundtrip_witness :
  exists d'', virt_fastrpc_remove probed = Ok () d'' /\ dv_k d'' = kernel0.
Proof. exact (probe_remove_roundtrip (demo_probe true) zero_gfa probed demo_probes eq_refl). Defined.

Lemma probe_establishes_witness :
  exists dr err dr', boot_driver (fun _ => zero_rsp) probed = Some dr /\ vfastrpc_open 1 100 true dr = Ok err dr' /\
    session_inv dr' /\ ctx_inv ∅ 540 (dr_world dr').
Proof.
  destruct (probe_establishes (demo_probe true) zero_gfa probed (fun _ => zero_rsp) demo_probes eq_refl) as (dr & E & H & _).
  { vm_compute. reflexivity. }
  { vm_compute. reflexivity. }
  { vm_compute. split; [discriminate|reflexivity]. }
  { vm_compute. reflexivity. }
  destruct (H 1 100 true 540) as (err & dr' & Eo & Hs & Hc); [vm_compute; reflexivity|].
  exists dr, err, dr'. exact (conj E (conj Eo (conj Hs Hc))).
Defined.

(** A class that cannot be created: the probe reports success, nothing is
    registered, and remove dereferences the error pointer. *)
Lemma probe_hides_failure :
  exists d', virt_fastrpc_probe (demo_probe false) unprobed = Ok 0 d' /\
    kn_cdev (dv_k d') = false /\ kn_vqs (dv_k d') = false /\ size (kn_pages (dv_k d')) = 4%nat /\
    virt_fastrpc_remove d' = Fault NullDeref.
Proof.
  exists (end_state unprobed (virt_fastrpc_probe (demo_probe false) unprobed)).
  split_and!; vm_compute; reflexivity.
Qed.
