(* ===== verification/Dispatch.v ===== *)
(** * The ioctls of the device node

    [vfastrpc_ioctl] and [vfastrpc_mmap_ioctl] (virtio_fastrpc_base.c) with
    [vfastrpc_internal_invoke2] (virtio_fastrpc_core.c), which pass a request
    of the caller on to the maps, the sessions and the invocations, and the
    functions other kernel modules call instead. *)
From S2P Require Import Prelude Shared Mmap Pages Buf Apps World Transact MapOps Session Invoke.


(** The layout of [struct fastrpc_ioctl_invoke_async] and of the structures
    that are prefixes of it, declared in adsprpc_shared.h. *)
Class invoke_layout := {
  sizeof_ioctl_invoke : Z;
  sizeof_ioctl_invoke_fd : Z;
  sizeof_ioctl_invoke_attrs : Z;
  sizeof_ioctl_invoke_crc : Z;
  sizeof_ioctl_invoke_perf : Z;
  offsetof_fds : Z;
  offsetof_attrs : Z;
  offsetof_crc : Z;
  offsetof_job : Z;
}.

(** Each structure ends where the next one's own member begins. *)
Class invoke_layout_ok (L : invoke_layout) : Prop := {
  layout_invoke : 0 < sizeof_ioctl_invoke <= offsetof_fds;
  layout_fd : offsetof_fds < sizeof_ioctl_invoke_fd <= offsetof_attrs;
  layout_attrs : offsetof_attrs < sizeof_ioctl_invoke_attrs <= offsetof_crc;
  layout_crc : offsetof_crc < sizeof_ioctl_invoke_crc;
  layout_perf : sizeof_ioctl_invoke_crc < sizeof_ioctl_invoke_perf <= offsetof_job;
}.

(** ** Parameters *)

(** [struct fastrpc_ioctl_mmap], [fastrpc_ioctl_munmap] and their 64-bit
    variants; [fastrpc_ioctl_mem_map], [mem_unmap] and [munmap_fd]. *)
Record ioctl_mmap := { mmap_fd : Z; mmap_flags : Z; mmap_vaddrin : Z; mmap_size : Z; mmap_vaddrout : Z }.
#[export] Instance eta_ioctl_mmap : Eta ioctl_mmap := fun m =>
  {| mmap_fd := mmap_fd m; mmap_flags := mmap_flags m; mmap_vaddrin := mmap_vaddrin m;
     mmap_size := mmap_size m; mmap_vaddrout := mmap_vaddrout m |}.
Record ioctl_mmap_64 := { m64_fd : Z; m64_flags : Z; m64_vaddrin : Z; m64_size : Z; m64_vaddrout : Z }.
#[export] Instance eta_ioctl_mmap_64 : Eta ioctl_mmap_64 := fun m =>
  {| m64_fd := m64_fd m; m64_flags := m64_flags m; m64_vaddrin := m64_vaddrin m;
     m64_size := m64_size m; m64_vaddrout := m64_vaddrout m |}.
Record ioctl_munmap := { munmap_vaddrout : Z; munmap_size : Z }.
Record ioctl_munmap_64 := { mu64_vaddrout : Z; mu64_size : Z }.
Record ioctl_mem_map := { mem_fd : Z; mem_attrs : Z; mem_vaddrin : Z; mem_length : Z; mem_flags : Z; mem_offset : Z;
  mem_vaddrout : Z }.
#[export] Instance eta_ioctl_mem_map : Eta ioctl_mem_map := fun m =>
  {| mem_fd := mem_fd m; mem_attrs := mem_attrs m; mem_vaddrin := mem_vaddrin m; mem_length := mem_length m;
     mem_flags := mem_flags m; mem_offset := mem_offset m; mem_vaddrout := mem_vaddrout m |}.
Record ioctl_mem_unmap := { mun_fd : Z; mun_vaddr : Z; mun_length : Z }.
Record ioctl_munmap_fd := { mfd_fd : Z; mfd_flags : Z; mfd_va : Z; mfd_len : Z }.
(** [struct fastrpc_ioctl_invoke2] with the structure at [invparam]. *)
Record ioctl_invoke2 := { i2_req : Z; i2_size : Z; i2_inv : option invoke_args }.

(** The number of an ioctl with what its parameter points to; a structure that
    cannot be read is [None].  For the invocations it is the whole [struct
    fastrpc_ioctl_invoke_async] that would be read at that address. *)
Inductive ioctl_req :=
| FASTRPC_IOCTL_INVOKE (p : option invoke_args)
| FASTRPC_IOCTL_INVOKE_FD (p : option invoke_args)
| FASTRPC_IOCTL_INVOKE_ATTRS (p : option invoke_args)
| FASTRPC_IOCTL_INVOKE_CRC (p : option invoke_args)
| FASTRPC_IOCTL_INVOKE_PERF (p : option invoke_args)
| FASTRPC_IOCTL_INVOKE2 (p : option ioctl_invoke2)
| FASTRPC_IOCTL_MEM_MAP (p : option ioctl_mem_map)
| FASTRPC_IOCTL_MEM_UNMAP (p : option ioctl_mem_unmap)
| FASTRPC_IOCTL_MMAP (p : option ioctl_mmap)
| FASTRPC_IOCTL_MUNMAP (p : option ioctl_munmap)
| FASTRPC_IOCTL_MMAP_64 (p : option ioctl_mmap_64)
| FASTRPC_IOCTL_MUNMAP_64 (p : option ioctl_munmap_64)
| FASTRPC_IOCTL_MUNMAP_FD (p : option ioctl_munmap_fd)
| FASTRPC_IOCTL_SETMODE (ioctl_param : Z)
| FASTRPC_IOCTL_CONTROL (p : option ioctl_control)
| FASTRPC_IOCTL_GETINFO (p : option Z)
| FASTRPC_IOCTL_INIT (p : option init_attrs)
| FASTRPC_IOCTL_INIT_ATTRS (p : option init_attrs)
| FASTRPC_IOCTL_GET_DSP_INFO (p : option capability)
| bad_ioctl (ioctl_num : Z).

(** What the kernel and the device answer during one ioctl, and whether the
    copy of the answer to user space succeeds. *)
Record ioctl_env `{virtqueue} := {
  io_create : create_env;
  io_alloc : alloc_env;
  io_msg : msg_env;
  io_fd : fd_env;
  io_proc : proc_env;
  io_invoke : invoke_env;
  io_waits : list (list dev_event);
  io_out : bool;
  io_stack : ioctl_mmap;            (* what the local [i.mmap] holds before it is filled in *)
}.

(** What is copied back to the structure of a map ioctl. *)
Inductive ioctl_out :=
| OutMmap (m : ioctl_mmap)
| OutMmap64 (m : ioctl_mmap_64)
| OutMemMap (m : ioctl_mem_map)
| OutAsync (r : async_response).

Section ops.
Context `{HS : adsprpc_shared, KC : kernel_config, V : virtqueue, L : invoke_layout}.

(** ** Maps *)

Definition get_fastrpc_ioctl_mmap_64 (mmap64 : ioctl_mmap_64) (immap : ioctl_mmap) : ioctl_mmap :=
  immap <| mmap_fd := m64_fd mmap64 |> <| mmap_flags := m64_flags mmap64 |>
        <| mmap_vaddrin := u64 (m64_vaddrin mmap64) |> <| mmap_size := m64_size mmap64 |>.
Definition put_fastrpc_ioctl_mmap_64 (mmap64 : ioctl_mmap_64) (immap : ioctl_mmap) : ioctl_mmap_64 :=
  mmap64 <| m64_vaddrout := u64 (mmap_vaddrout immap) |>.
Definition get_fastrpc_ioctl_munmap_64 (munmap64 : ioctl_munmap_64) : ioctl_munmap :=
  {| munmap_vaddrout := u64 (mu64_vaddrout munmap64); munmap_size := mu64_size munmap64 |}.

(** The functions exported to other kernel modules; the structure they update
    is returned with the error code. *)
Definition fastrpc_internal_mmap (e : ioctl_env) (ud : ioctl_mmap) : M driver (Z * ioctl_mmap) :=
  r ← on_w (vfastrpc_internal_mmap (io_create e) (io_alloc e) (io_msg e)
              (mmap_fd ud) (mmap_vaddrin ud) (mmap_size ud) (mmap_flags ud));
  mret (r.1, match r.2 with Some v => ud <| mmap_vaddrout := v |> | None => ud end).
Definition fastrpc_internal_munmap (e : ioctl_env) (ud : ioctl_munmap) : M driver Z :=
  on_w (vfastrpc_internal_munmap (io_msg e) (munmap_vaddrout ud) (munmap_size ud)).
Definition fastrpc_internal_mem_map (e : ioctl_env) (ud : ioctl_mem_map) : M driver (Z * ioctl_mem_map) :=
  r ← on_w (vfastrpc_internal_mem_map (io_create e) (io_msg e) (mem_fd ud) (mem_attrs ud) (mem_vaddrin ud)
              (mem_length ud) (mem_flags ud) (mem_offset ud));
  mret (r.1, match r.2 with Some v => ud <| mem_vaddrout := v |> | None => ud end).
Definition fastrpc_internal_mem_unmap (e : ioctl_env) (ud : ioctl_mem_unmap) : M driver Z :=
  on_w (vfastrpc_internal_mem_unmap (io_msg e) (mun_fd ud) (mun_vaddr ud) (mun_length ud)).
Definition fastrpc_internal_munmap_fd (e : ioctl_env) (ud : ioctl_munmap_fd) : M driver Z :=
  on_w (vfastrpc_internal_munmap_fd (io_fd e) (mfd_fd ud) (mfd_flags ud) (mfd_va ud) (mfd_len ud)).

(** [K_COPY_FROM_USER], the handler and, if it succeeds, [K_COPY_TO_USER]. *)
Definition with_param {A} (p : option A) (k : A -> M driver (Z * option ioctl_out)) : M driver (Z * option ioctl_out) :=
  match p with
  | None => mret (VERIFY_err 0, None)
  | Some a => k a
  end.
Definition copy_to_user (e : ioctl_env) (o : ioctl_out) : M driver (Z * option ioctl_out) :=
  if io_out e then mret (0, Some o) else mret (VERIFY_err 0, None).

Definition vfastrpc_mmap_ioctl (e : ioctl_env) (req : ioctl_req) : M driver (Z * option ioctl_out) :=
  me ← get;
  match req with
  | FASTRPC_IOCTL_MEM_MAP p =>
    if negb (dr_has_mem_map me) then mret (- ENOTTY, None)
    else with_param p (fun m =>
      r ← fastrpc_internal_mem_map e m;
      let err := VERIFY r.1 (r.1 =? 0) in
      if negb (err =? 0) then mret (err, None) else copy_to_user e (OutMemMap r.2))
  | FASTRPC_IOCTL_MEM_UNMAP p =>
    if negb (dr_has_mem_map me) then mret (- ENOTTY, None)
    else with_param p (fun m =>
      err ← fastrpc_internal_mem_unmap e m;
      mret (VERIFY err (err =? 0), None))
  | FASTRPC_IOCTL_MMAP p =>
    if negb (dr_has_mmap me) then mret (- ENOTTY, None)
    else with_param p (fun m =>
      r ← fastrpc_internal_mmap e m;
      let err := VERIFY r.1 (r.1 =? 0) in
      if negb (err =? 0) then mret (err, None) else copy_to_user e (OutMmap r.2))
  | FASTRPC_IOCTL_MUNMAP p =>
    if negb (dr_has_mmap me) then mret (- ENOTTY, None)
    else with_param p (fun m =>
      err ← fastrpc_internal_munmap e m;
      mret (VERIFY err (err =? 0), None))
  | FASTRPC_IOCTL_MMAP_64 p =>
    if negb (dr_has_mmap me) then mret (- ENOTTY, None)
    else with_param p (fun m =>
      r ← fastrpc_internal_mmap e (get_fastrpc_ioctl_mmap_64 m (io_stack e));
      let err := VERIFY r.1 (r.1 =? 0) in
      if negb (err =? 0) then mret (err, None)
      else copy_to_user e (OutMmap64 (put_fastrpc_ioctl_mmap_64 m r.2)))
  | FASTRPC_IOCTL_MUNMAP_64 p =>
    if negb (dr_has_mmap me) then mret (- ENOTTY, None)
    else with_param p (fun m =>
      err ← fastrpc_internal_munmap e (get_fastrpc_ioctl_munmap_64 m);
      mret (VERIFY err (err =? 0), None))
  | FASTRPC_IOCTL_MUNMAP_FD p =>
    with_param p (fun m =>
      err ← fastrpc_internal_munmap_fd e m;
      mret (VERIFY err (err =? 0), None))
  | _ => mret (- ENOTTY, None)
  end.

(** ** Invocations *)

(** [&p.inv] after [size] bytes were copied over pointers that are NULL. *)
Definition copied_inv (size : Z) (a : invoke_args) : invoke_args :=
  {| ia_handle := ia_handle a; ia_sc := ia_sc a; ia_pra := ia_pra a;
     ia_fds := if offsetof_fds <? size then ia_fds a else None;
     ia_attrs := if offsetof_attrs <? size then ia_attrs a else None;
     ia_crc := (offsetof_crc <? size) && ia_crc a;
     ia_job := if offsetof_job <? size then ia_job a else None |}.

Definition check_invoke_supported (inv : invoke_args) : M driver Z :=
  me ← get;
  if bool_decide (is_Some (ia_attrs inv)) && negb (dr_has_invoke_attr me) then mret (- ENOTTY)
  else if ia_crc inv && negb (dr_has_invoke_crc me) then mret (- ENOTTY)
  else mret 0.

Definition fastrpc_internal_invoke (e : ioctl_env) (inv : invoke_args) : M driver Z :=
  me ← get;
  on_w (vfastrpc_internal_invoke (dr_num_channels me) (io_invoke e) inv).

(** The cases of [FASTRPC_IOCTL_INVOKE] to [FASTRPC_IOCTL_INVOKE_PERF]. *)
Definition invoke_ioctl (e : ioctl_env) (size : Z) (p : option invoke_args) : M driver (Z * option ioctl_out) :=
  with_param p (fun a =>
    let inv := copied_inv size a in
    err ← check_invoke_supported inv;
    if negb (err =? 0) then mret (err, None)
    else err ← fastrpc_internal_invoke e inv; mret (err, None)).

(** The check of [vfastrpc_internal_invoke2] for the asynchronous requests. *)
Definition async_supported : M driver Z :=
  f ← gets (fun d => w_fl (dr_world d));
  let domain := fl_domain f in
  let err := VERIFY 0 ((domain =? CDSP_DOMAIN_ID) || (domain =? CDSP1_DOMAIN_ID)) in
  if negb (err =? 0) then mret err
  else
    c ← channel_at domain;
    v ← attribute c ASYNC_FASTRPC_CAP;
    if negb (VERIFY 0 (v =? 1) =? 0) then mret (- EPROTONOSUPPORT) else mret 0.

Definition vfastrpc_internal_invoke2 (e : ioctl_env) (inv2 : ioctl_invoke2) : M driver (Z * option ioctl_out) :=
  err ← (if (i2_req inv2 =? FASTRPC_INVOKE2_ASYNC) || (i2_req inv2 =? FASTRPC_INVOKE2_ASYNC_RESPONSE)
         then async_supported else mret 0);
  if negb (err =? 0) then mret (err, None)
  else if i2_req inv2 =? FASTRPC_INVOKE2_ASYNC then
    let size := sizeof_ioctl_invoke_async in
    if negb (VERIFY 0 (i2_size inv2 <=? size) =? 0) then mret (- EBADE, None)
    else with_param (i2_inv inv2) (fun a =>
      err ← fastrpc_internal_invoke e a;
      mret (VERIFY err (err =? 0), None))
  else if i2_req inv2 =? FASTRPC_INVOKE2_ASYNC_RESPONSE then
    if negb (VERIFY 0 (i2_size inv2 <=? sizeof_ioctl_async_response) =? 0) then mret (- EBADE, None)
    else
      r ← on_w (vfastrpc_get_async_response (io_invoke e) (io_waits e) (io_out e));
      mret (r.1, OutAsync <$> r.2)
  else if i2_req inv2 =? FASTRPC_INVOKE2_KERNEL_OPTIMIZATIONS then mret (- ENOTTY, None)
  else mret (- ENOTTY, None).

Definition fastrpc_internal_invoke2 (e : ioctl_env) (inv2 : ioctl_invoke2) : M driver (Z * option ioctl_out) :=
  vfastrpc_internal_invoke2 e inv2.

(** ** [vfastrpc_ioctl] *)

Definition no_out (m : M driver Z) : M driver (Z * option ioctl_out) := err ← m; mret (err, None).

Definition ioctl_switch (e : ioctl_env) (req : ioctl_req) : M driver (Z * option ioctl_out) :=
  match req with
  | FASTRPC_IOCTL_INVOKE p => invoke_ioctl e sizeof_ioctl_invoke p
  | FASTRPC_IOCTL_INVOKE_FD p => invoke_ioctl e sizeof_ioctl_invoke_fd p
  | FASTRPC_IOCTL_INVOKE_ATTRS p => invoke_ioctl e sizeof_ioctl_invoke_attrs p
  | FASTRPC_IOCTL_INVOKE_CRC p => invoke_ioctl e sizeof_ioctl_invoke_crc p
  | FASTRPC_IOCTL_INVOKE_PERF p => invoke_ioctl e sizeof_ioctl_invoke_perf p
  | FASTRPC_IOCTL_INVOKE2 None => mret (- EFAULT, None)
  | FASTRPC_IOCTL_INVOKE2 (Some inv2) => vfastrpc_internal_invoke2 e inv2
  | FASTRPC_IOCTL_MEM_MAP _ | FASTRPC_IOCTL_MEM_UNMAP _ | FASTRPC_IOCTL_MMAP _ | FASTRPC_IOCTL_MUNMAP _
  | FASTRPC_IOCTL_MMAP_64 _ | FASTRPC_IOCTL_MUNMAP_64 _ | FASTRPC_IOCTL_MUNMAP_FD _ => vfastrpc_mmap_ioctl e req
  | FASTRPC_IOCTL_SETMODE ioctl_param => no_out (vfastrpc_setmode_ioctl ioctl_param)
  | FASTRPC_IOCTL_CONTROL p => no_out (vfastrpc_control_ioctl (io_msg e) p (io_out e))
  | FASTRPC_IOCTL_GETINFO p => no_out (vfastrpc_get_info_ioctl (io_proc e) p (io_out e))
  | FASTRPC_IOCTL_INIT p | FASTRPC_IOCTL_INIT_ATTRS p => no_out (vfastrpc_init_ioctl (io_msg e) p)
  | FASTRPC_IOCTL_GET_DSP_INFO p => no_out (vfastrpc_internal_get_dsp_info (io_msg e) p (io_out e))
  | bad_ioctl _ => mret (- ENOTTY, None)
  end.

Definition vfastrpc_ioctl (e : ioctl_env) (req : ioctl_req) : M driver (Z * option ioctl_out) :=
  f ← gets (fun d => w_fl (dr_world d));
  if fl_file_close f =? 1 then mret (- EBADF, None) else ioctl_switch e req.

(** ** The rest of the kernel interface *)

Definition fastrpc_setmode (ioctl_param : Z) : M driver Z := vfastrpc_setmode_ioctl ioctl_param.
Definition fastrpc_get_info (e : ioctl_env) (info : option Z) : M driver Z := vfastrpc_get_info_ioctl (io_proc e) info (io_out e).
Definition fastrpc_init_process (e : ioctl_env) (uproc : init_attrs) : M driver Z := vfastrpc_internal_init_process (io_msg e) uproc.
Definition fastrpc_internal_control (e : ioctl_env) (cp : ioctl_control) : M driver (Z * ioctl_control) :=
  vfastrpc_internal_control (io_msg e) cp.
Definition fastrpc_get_info_from_kernel (e : ioctl_env) (cap : capability) : M driver (Z * Z) :=
  vfastrpc_get_info_from_kernel (io_msg e) cap.
Definition fastrpc_dspsignal_cancel_wait : M driver Z := mret (- ENOTTY).
Definition fastrpc_dspsignal_wait : M driver Z := mret (- ENOTTY).
Definition fastrpc_dspsignal_signal : M driver Z := mret (- ENOTTY).
Definition fastrpc_dspsignal_create : M driver Z := mret (- ENOTTY).
Definition fastrpc_dspsignal_destroy : M driver Z := mret (- ENOTTY).
End ops.

(** The layout of the structures on a 64-bit kernel. *)
Module ExampleLayout.
#[export] Instance layout : invoke_layout := {|
  sizeof_ioctl_invoke := 16; sizeof_ioctl_invoke_fd := 24; sizeof_ioctl_invoke_attrs := 32;
  sizeof_ioctl_invoke_crc := 40; sizeof_ioctl_invoke_perf := 56;
  offsetof_fds := 16; offsetof_attrs := 24; offsetof_crc := 32; offsetof_job := 56 |}.
#[export] Instance layout_ok : invoke_layout_ok layout.
Proof. split; simpl; lia. Qed.
End ExampleLayout.
