(* ===== verification/DispatchFacts.v ===== *)
(** * The ioctls keep the driver consistent *)
From S2P Require Import Prelude Shared Mmap MmapFacts Pages Buf BufFacts Apps AppsFacts World WorldFacts Transact MapOps MapFacts MapProps Session SessionFacts Invoke CtxFacts CtxInv ArgFacts DescFacts MsgFacts InvokeFacts InvokeSafe Keep KeepFile AsyncFacts AsyncQueue Dispatch.

Section facts.
Context `{HS : adsprpc_shared, !adsprpc_shared_ok HS}.
Context `{KC : kernel_config, !kernel_config_ok KC}.
Context `{V : virtqueue, !virtqueue_ok V}.
Implicit Types (w : world) (d : driver).

Lemma swp_and {S A} `{sleeper S} (m : M S A) (Q : A -> S -> Prop) (P : S -> Prop) s :
  swp m Q s -> (forall a s', m s = Ok a s' -> P s') -> swp m (fun a s' => Q a s' /\ P s') s.
Proof. intros Hm HP. unfold swp in *. destruct (m s) as [a s'| |]; [|done..]. split; [done|]. by apply (HP a). Qed.
Lemma swp_unmap {S A B} `{sleeper S} (m : M S A) (f : A -> B) (P : S -> Prop) s :
  swp (r ← m; mret (f r)) (fun _ s' => P s') s -> swp m (fun _ s' => P s') s.
Proof. unfold swp, mbind, M_bind. by destruct (m s). Qed.

(** ** Maps *)

(** What the map handlers need of their arguments and of the kernel: short
    scatter tables, and no dma-buf of some length at address 0. *)
Definition map_op_ok (o : map_op) : Prop :=
  match o with
  | MMmap ce ae _ _ va size flags =>
      (forall t, ce_table ce = Some t -> tiny t) /\ (forall t, ae_sgt ae = Some t -> tiny t) /\
      0 <= va /\ (va = 0 -> flags <> ADSP_MMAP_ADD_PAGES -> size = 0)
  | MMemMap ce _ _ _ va len _ _ => (forall t, ce_table ce = Some t -> tiny t) /\ 0 <= va /\ (va = 0 -> len = 0)
  | _ => True
  end.
Lemma map_op_ok_small o : map_op_ok o -> map_op_small o.
Proof.
  destruct o; simpl; try done; intros H.
  - destruct H as (H1 & H2 & _). split; intros; by apply tiny_small; auto.
  - destruct H as (H1 & _). intros; by apply tiny_small; auto.
Qed.

Lemma map_op_keeps o k w a w' :
  map_op_ok o -> 0 <= k < 2 ^ 31 -> ctx_inv ∅ k w -> run_map_op o w = Ok a w' -> ctx_inv ∅ k w'.
Proof.
  intros Ho Hk Hi. destruct o; cbn [run_map_op map_op_ok] in *.
  - destruct Ho as (? & ? & ? & ?). unfold mbind, M_bind.
    destruct (vfastrpc_internal_mmap _ _ _ _ _ _ _ w) eqn:E; [|done..]. intros [= <- <-].
    eapply internal_mmap_keeps; [exact Hk|exact Hi|..|exact E]; done.
  - by eapply internal_munmap_keeps.
  - destruct Ho as (? & ? & ?). unfold mbind, M_bind.
    destruct (vfastrpc_internal_mem_map _ _ _ _ _ _ _ _ w) eqn:E; [|done..]. intros [= <- <-].
    eapply mem_map_keeps; [exact Hk|exact Hi|..|exact E]; done.
  - by eapply mem_unmap_keeps.
  - intros E. pose proof (munmap_fd_keeps e fd flags va len k w Hk Hi) as Hs. unfold swp in Hs. by rewrite E in Hs.
Qed.

(** ** A file in a driver *)

Definition dr_ok (k : Z) d : Prop := session_inv d /\ delivers k (dr_world d).

Lemma delivers_weaken k k' w : k' <= k -> delivers k w -> delivers k' w.
Proof. intros Hk [Hi Hq]. split; [by eapply ctx_inv_weaken|done]. Qed.
Lemma dr_ok_weaken k k' d : k' <= k -> dr_ok k d -> dr_ok k' d.
Proof. intros Hk [Hs Hd]. split; [done|by eapply delivers_weaken]. Qed.

Lemma on_w_ok {A} (m : M world A) k k' d :
  dr_ok k d -> swp m (fun _ w' => delivers k' w' /\ sess_frame (dr_world d) w') (dr_world d) ->
  swp (on_w m) (fun _ d' => dr_ok k' d') d.
Proof.
  intros [Hs Hd] Hm. unfold swp, on_w, zoom in *. destruct (m (dr_world d)) as [a w'|f|h]; [|done|by destruct h].
  destruct Hm as [Hd' Hf]. unfold sess_frame, fl_session in Hf. injection Hf as E1 E2 E3. split; [|done].
  pose proof (ctx_inv_file _ _ _ (proj1 Hd')) as Hfi. destruct Hs. split; try done.
  - unfold domain_ok in *. simpl. by rewrite E1.
  - unfold proc_ok in *. simpl. by rewrite E1, E2, E3.
Qed.

Lemma map_op_dr o k d :
  map_op_ok o -> 0 <= k < 2 ^ 31 -> dr_ok k d -> swp (on_w (run_map_op o)) (fun _ d' => dr_ok k d') d.
Proof.
  intros Ho Hk Hd. apply (on_w_ok _ k k d Hd). destruct Hd as [_ [Hi Hq]].
  eapply swp_mono; [eapply (swp_and _ _ (fun w' => delivers k w' /\ sess_frame (dr_world d) w'));
    [exact (map_op_swp o _ (ctx_inv_file _ _ _ Hi) (map_op_ok_small o Ho))|]|by intros a w' [_ ?]].
  intros a w' E. split; [split; [by eapply map_op_keeps|]|exact (sess_map_op o _ _ _ Logic.I E)].
  exact (proj2 (jobs_map_op o _ _ _ (ci_apart _ _ _ Hi) E (jobs_of k _ Hi Hq))).
Qed.

Lemma invoke_dr nc e ia k d :
  0 <= k < 2 ^ 29 -> env_ok e -> args_ok ia -> dr_ok (540 + k) d ->
  swp (on_w (vfastrpc_internal_invoke nc e ia)) (fun _ d' => dr_ok k d') d.
Proof.
  intros Hk He Ha Hd. apply (on_w_ok _ (540 + k) k d Hd). destruct Hd as [_ [Hi Hq]].
  eapply swp_mono; [eapply (swp_and _ _ (fun w' => aq w' /\ sess_frame (dr_world d) w'));
    [by apply (invoke_swp nc e ia k)|]|intros a w' (Hp & Hq' & Hf); split; [split; [apply Hp|done]|done]].
  intros a w' E. split; [by eapply (invoke_aq nc e ia k)|exact (sess_invoke nc e ia _ _ _ Logic.I E)].
Qed.

Lemma async_dr e evs ws out k d :
  0 <= k -> dr_ok k d -> swp (on_w (vfastrpc_get_async_response e (evs :: ws) out)) (fun _ d' => dr_ok k d') d.
Proof.
  intros Hk Hd. apply (on_w_ok _ k k d Hd).
  apply (swp_and _ (fun _ w' => delivers k w') (fun w' => sess_frame (dr_world d) w')).
  - eapply swp_mono; [apply (async_fifo_gen e evs ws out k (dr_world d) (proj2 Hd) Hk)|]. by intros r w' [? _].
  - intros a w' E. exact (sess_async_response e (evs :: ws) out _ _ _ Logic.I E).
Qed.

Lemma session_dr o k d :
  dr_ok k d -> (match o with SInit _ _ => fl_domain (w_fl (dr_world d)) <> -1 | _ => True end) ->
  swp (run_session_op o) (fun _ d' => dr_ok k d') d.
Proof.
  intros [Hs [Hi Hq]] Ho. eapply swp_mono; [apply (swp_and _ (fun _ d' => session_inv d') (fun d' => delivers k (dr_world d')));
    [by apply session_op_swp|]|by intros a d' [? ?]].
  intros a d' E. split; [exact (session_op_keeps k o _ _ _ Logic.I E Hi)|].
  exact (proj2 (jobs_session_op o _ _ _ Logic.I E (jobs_of k _ Hi Hq))).
Qed.

(** ** One ioctl *)

Context `{L : invoke_layout}.

(** What is assumed of the kernel's answers, ... *)
Record io_ok (e : ioctl_env) : Prop := {
  io_create_ok t : ce_table (io_create e) = Some t -> tiny t;
  io_alloc_ok t : ae_sgt (io_alloc e) = Some t -> tiny t;
  io_invoke_ok : env_ok (io_invoke e);
  io_waits_ok : io_waits e <> [];          (* what happens during the first wait *)
}.
(** ... and of the caller's parameters: buffers of less than 2 GiB, no
    dma-buf of some length at address 0; and the process is started only after
    [FASTRPC_IOCTL_GETINFO] has chosen the domain. *)
Definition req_ok (req : ioctl_req) d : Prop :=
  match req with
  | FASTRPC_IOCTL_INVOKE (Some a) | FASTRPC_IOCTL_INVOKE_FD (Some a) | FASTRPC_IOCTL_INVOKE_ATTRS (Some a)
  | FASTRPC_IOCTL_INVOKE_CRC (Some a) | FASTRPC_IOCTL_INVOKE_PERF (Some a) => args_ok a
  | FASTRPC_IOCTL_INVOKE2 (Some i) => forall a, i2_inv i = Some a -> args_ok a
  | FASTRPC_IOCTL_MMAP (Some m) =>
      0 <= mmap_vaddrin m /\ (mmap_vaddrin m = 0 -> mmap_flags m <> ADSP_MMAP_ADD_PAGES -> mmap_size m = 0)
  | FASTRPC_IOCTL_MMAP_64 (Some m) =>
      u64 (m64_vaddrin m) = 0 -> m64_flags m <> ADSP_MMAP_ADD_PAGES -> m64_size m = 0
  | FASTRPC_IOCTL_MEM_MAP (Some m) => 0 <= mem_vaddrin m /\ (mem_vaddrin m = 0 -> mem_length m = 0)
  | FASTRPC_IOCTL_INIT (Some _) | FASTRPC_IOCTL_INIT_ATTRS (Some _) => fl_domain (w_fl (dr_world d)) <> -1
  | _ => True
  end.

Lemma with_param_ok {A} (p : option A) f k d :
  dr_ok k d -> (forall a, p = Some a -> swp (f a) (fun _ d' => dr_ok k d') d) -> swp (with_param p f) (fun _ d' => dr_ok k d') d.
Proof. intros Hd Hf. destruct p as [a|]; [by apply Hf|by apply swp_ret]. Qed.
Lemma copy_to_user_ok e o k d : dr_ok k d -> swp (copy_to_user e o) (fun _ d' => dr_ok k d') d.
Proof. intros Hd. unfold copy_to_user. case_match; by apply swp_ret. Qed.
(** A handler and what is made of its result. *)
Lemma then_ok {A B} (m : M driver A) (f : A -> M driver B) k d :
  swp m (fun _ d' => dr_ok k d') d -> (forall a d', dr_ok k d' -> swp (f a) (fun _ d' => dr_ok k d') d') ->
  swp (m ≫= f) (fun _ d' => dr_ok k d') d.
Proof. intros Hm Hf. eapply swp_bind; [exact Hm|]. intros a d' Hd. by apply Hf. Qed.
Lemma fst_ok {A B} (m : M world A) (f : A -> B) k d :
  swp (on_w (r ← m; mret (f r))) (fun _ d' => dr_ok k d') d -> swp (on_w m) (fun _ d' => dr_ok k d') d.
Proof. unfold swp, on_w, zoom, mbind, M_bind. by destruct (m (dr_world d)) as [| |h]. Qed.

Lemma mmap_dr e ud k d :
  io_ok e -> 0 <= mmap_vaddrin ud -> (mmap_vaddrin ud = 0 -> mmap_flags ud <> ADSP_MMAP_ADD_PAGES -> mmap_size ud = 0) ->
  0 <= k < 2 ^ 31 -> dr_ok k d -> swp (fastrpc_internal_mmap e ud) (fun _ d' => dr_ok k d') d.
Proof.
  intros [Hc Ha _ _] Hva Hz Hk Hd. apply then_ok; [|intros; by apply swp_ret]. apply (fst_ok _ fst).
  by apply (map_op_dr (MMmap (io_create e) (io_alloc e) (io_msg e) (mmap_fd ud) (mmap_vaddrin ud) (mmap_size ud) (mmap_flags ud))).
Qed.
Lemma mem_map_dr e ud k d :
  io_ok e -> 0 <= mem_vaddrin ud -> (mem_vaddrin ud = 0 -> mem_length ud = 0) -> 0 <= k < 2 ^ 31 -> dr_ok k d ->
  swp (fastrpc_internal_mem_map e ud) (fun _ d' => dr_ok k d') d.
Proof.
  intros [Hc _ _ _] Hva Hz Hk Hd. apply then_ok; [|intros; by apply swp_ret]. apply (fst_ok _ fst).
  by apply (map_op_dr (MMemMap (io_create e) (io_msg e) (mem_fd ud) (mem_attrs ud) (mem_vaddrin ud) (mem_length ud) (mem_flags ud) (mem_offset ud))).
Qed.
Lemma munmap_dr e ud k d : 0 <= k < 2 ^ 31 -> dr_ok k d -> swp (fastrpc_internal_munmap e ud) (fun _ d' => dr_ok k d') d.
Proof. intros Hk Hd. by apply (map_op_dr (MMunmap (io_msg e) (munmap_vaddrout ud) (munmap_size ud))). Qed.


(** Follows a handler to its end: feature checks, the copy in, the copy out. *)
Ltac dispatched :=
  repeat first
    [ assumption
    | progress intros; cbv zeta
    | apply swp_ret; assumption
    | apply copy_to_user_ok
    | match goal with
      | |- swp (if ?b then _ else _) _ _ => destruct b
      | |- swp (with_param _ _) _ _ => apply with_param_ok; [assumption|]
      | |- swp (_ ≫= _) _ _ => apply then_ok
      end ].

Lemma mmap_ioctl_ok e req k d :
  io_ok e -> req_ok req d -> 0 <= k < 2 ^ 31 -> dr_ok k d -> swp (vfastrpc_mmap_ioctl e req) (fun _ d' => dr_ok k d') d.
Proof.
  intros He Hr Hk Hd. unfold vfastrpc_mmap_ioctl. apply (swp_gets id). unfold id.
  destruct req as [| | | | | |[m|]|[m|]|[m|]|[m|]|[m|]|[m|]|[m|]| | | | | | |]; dispatched; simplify_eq; cbn [req_ok] in Hr.
  - destruct Hr. by apply mem_map_dr.
  - by apply (map_op_dr (MMemUnmap (io_msg e) (mun_fd a) (mun_vaddr a) (mun_length a))).
  - destruct Hr. by apply mmap_dr.
  - by apply munmap_dr.
  - apply mmap_dr; try done. apply u64_range.
  - by apply munmap_dr.
  - by apply (map_op_dr (MMunmapFd (io_fd e) (mfd_fd a) (mfd_flags a) (mfd_va a) (mfd_len a))).
Qed.

Lemma check_ok inv k d : dr_ok k d -> swp (check_invoke_supported inv) (fun _ d' => dr_ok k d') d.
Proof. intros Hd. unfold check_invoke_supported. apply (swp_gets id). dispatched. Qed.

Lemma internal_invoke_ok e inv k d :
  0 <= k < 2 ^ 29 -> io_ok e -> args_ok inv -> dr_ok (540 + k) d -> swp (fastrpc_internal_invoke e inv) (fun _ d' => dr_ok k d') d.
Proof. intros Hk He Ha Hd. unfold fastrpc_internal_invoke. apply (swp_gets id). apply invoke_dr; try done. apply He. Qed.

Lemma invoke_ioctl_ok e size p k d :
  0 <= k < 2 ^ 29 -> io_ok e -> (forall a, p = Some a -> args_ok a) -> dr_ok (540 + k) d ->
  swp (invoke_ioctl e size p) (fun _ d' => dr_ok k d') d.
Proof.
  intros Hk He Ha Hd. assert (dr_ok k d) as Hd' by (eapply dr_ok_weaken; [|exact Hd]; lia).
  apply with_param_ok; [done|]. intros a ->. cbv zeta. eapply swp_bind; [by apply (check_ok _ (540 + k))|]. intros err d1 Hd1.
  destruct (negb _); [apply swp_ret; eapply dr_ok_weaken; [|exact Hd1]; lia|].
  apply then_ok; [apply internal_invoke_ok; try done; exact (Ha a eq_refl)|]. dispatched.
Qed.

(** Asynchronous calls are for the two compute DSPs, once their capabilities
    have been read. *)
Definition async_ready d : Prop :=
  let dom := fl_domain (w_fl (dr_world d)) in
  (dom = CDSP_DOMAIN_ID \/ dom = CDSP1_DOMAIN_ID) /\
  exists c, dr_channel d !! Z.to_nat dom = Some c /\ ch_dsp_attributes c !! Z.to_nat ASYNC_FASTRPC_CAP = Some 1.

Lemma async_supported_eq d :
  session_inv d -> exists err, async_supported d = Ok err d /\ (err = 0 <-> async_ready d).
Proof.
  intros Hs. unfold async_supported. erewrite bind_eq by done. cbv zeta. set (dom := fl_domain (w_fl (dr_world d))).
  destruct (Z.eqb_spec (VERIFY 0 ((dom =? CDSP_DOMAIN_ID) || (dom =? CDSP1_DOMAIN_ID))) 0) as [E|E]; cbn [negb].
  2: { eexists. split; [done|]. split; [done|]. intros [Hd _]. destruct E. apply VERIFY_zero. by rewrite orb_true_iff, !Z.eqb_eq. }
  apply VERIFY_zero in E. rewrite orb_true_iff, !Z.eqb_eq in E. pose proof E as Hdom.
  pose proof CDSP_DOMAIN_range. destruct (si_domain _ Hs) as [Hno|(c & H0 & Hc & _)].
  { fold dom in Hno. unfold CDSP1_DOMAIN_ID in Hdom. lia. }
  rewrite (bind_eq _ _ _ _ _ (channel_at_Some dom c d H0 Hc)).
  pose proof (Forall_lookup_1 _ _ _ _ (si_chan _ Hs) Hc) as Hch.
  assert (0 <= ASYNC_FASTRPC_CAP < FASTRPC_MAX_DSP_ATTRIBUTES) as Hcap by (pose proof ASYNC_CAP_range; lia).
  destruct (attribute_ok c ASYNC_FASTRPC_CAP d Hch Hcap) as (v & Ev & Hv). rewrite (bind_eq _ _ _ _ _ Ev).
  assert (async_ready d <-> v = 1) as Hr.
  { split; [intros (_ & c' & Hc' & Hv')|intros ->; split; [done|by exists c]]. simpl in Hc, Hc'. congruence. }
  destruct (Z.eqb_spec (VERIFY 0 (v =? 1)) 0) as [Ev1|Ev1]; cbn [negb]; eexists; (split; [done|]); rewrite Hr.
  - by apply VERIFY_zero, Z.eqb_eq in Ev1.
  - split; [done|]. intros ->. destruct Ev1. by apply VERIFY_zero.
Qed.

Lemma async_supported_ok k d : dr_ok k d -> swp async_supported (fun _ d' => dr_ok k d') d.
Proof. intros Hd. destruct (async_supported_eq d (proj1 Hd)) as (err & E & _). unfold swp. by rewrite E. Qed.

Lemma invoke2_ok e inv2 k d :
  0 <= k < 2 ^ 29 -> io_ok e -> (forall a, i2_inv inv2 = Some a -> args_ok a) -> dr_ok (540 + k) d ->
  swp (vfastrpc_internal_invoke2 e inv2) (fun _ d' => dr_ok k d') d.
Proof.
  intros Hk He Ha Hd. unfold vfastrpc_internal_invoke2. apply (swp_bind _ _ (fun _ d' => dr_ok (540 + k) d')).
  { destruct (_ || _); [by apply async_supported_ok|by apply swp_ret]. }
  intros err d1 Hd1. assert (dr_ok k d1) as Hd1' by (eapply dr_ok_weaken; [|exact Hd1]; lia).
  dispatched; [by apply internal_invoke_ok; [..|apply Ha|]|]. destruct (io_waits e) as [|evs ws] eqn:Ew; [by destruct (io_waits_ok _ He)|]. apply async_dr; [lia|done].
Qed.

Lemma ioctl_switch_ok e req k d :
  0 <= k < 2 ^ 29 -> io_ok e -> req_ok req d -> dr_ok (540 + k) d -> swp (ioctl_switch e req) (fun _ d' => dr_ok k d') d.
Proof.
  intros Hk He Hr Hd. assert (dr_ok k d) as Hd' by (eapply dr_ok_weaken; [|exact Hd]; lia).
  assert (0 <= k < 2 ^ 31) as Hk' by lia.
  assert (forall o, (match o with SInit _ _ => fl_domain (w_fl (dr_world d)) <> -1 | _ => True end) ->
    swp (no_out (run_session_op o)) (fun _ d' => dr_ok k d') d) as Hse.
  { intros o Ho. apply then_ok; [by apply session_dr|]. dispatched. }
  destruct req as [[]|[]|[]|[]|[]|[i|]|p|p|p|p|p|p|p|p|p|p|[]|[]|p|n]; cbn [ioctl_switch req_ok] in *;
    try (by apply mmap_ioctl_ok); try (apply invoke_ioctl_ok; try done; by intros ? [= <-]); try (by apply swp_ret).
  - by apply invoke2_ok.
  - by apply (Hse (SSetmode p)).
  - by apply (Hse (SControl (io_msg e) p (io_out e))).
  - by apply (Hse (SGetInfo (io_proc e) p (io_out e))).
  - by apply (Hse (SInit (io_msg e) (Some i))).
  - by apply (Hse (SInit (io_msg e) (Some i))).
  - by apply (Hse (SDspInfo (io_msg e) p (io_out e))).
Qed.
End facts.
