(* ===== verification/DispatchProps.v ===== *)
(** * The properties of the driver as a whole

    From the probe of the device and the opening of a device node, every
    sequence of ioctls stays within the invariants of all components; what an
    ioctl refuses leaves no trace; the 64-bit and the plain map ioctls agree. *)
From S2P Require Import Prelude Shared Mmap MmapFacts Pages Buf BufFacts Apps AppsFacts World WorldFacts Transact MapOps MapFacts MapProps Session SessionFacts Invoke CtxFacts CtxInv ArgFacts DescFacts MsgFacts InvokeFacts InvokeSafe Keep KeepFile AsyncFacts AsyncQueue Probe ProbeFacts Dispatch DispatchFacts.

Section props.
Context `{HS : adsprpc_shared, !adsprpc_shared_ok HS}.
Context `{KC : kernel_config, !kernel_config_ok KC}.
Context `{V : virtqueue, !virtqueue_ok V}.
Context `{L : invoke_layout, !invoke_layout_ok L}.
Implicit Types (d : driver) (e : ioctl_env).

(** ** Sequences of ioctls *)

(** The states after [n] ioctls that returned. *)
Inductive driver_reach (d0 : driver) : nat -> driver -> Prop :=
| reach_open : driver_reach d0 0 d0
| reach_ioctl n d e req r d' :
    driver_reach d0 n d -> io_ok e -> req_ok req d -> vfastrpc_ioctl e req d = Ok r d' -> driver_reach d0 (S n) d'.

Lemma ioctl_ok e req k d :
  0 <= k < 2 ^ 29 -> io_ok e -> req_ok req d -> dr_ok (540 + k) d -> swp (vfastrpc_ioctl e req) (fun _ d' => dr_ok k d') d.
Proof.
  intros Hk He Hr Hd. unfold vfastrpc_ioctl. apply swp_gets. destruct (_ =? 1); [|by apply ioctl_switch_ok].
  apply swp_ret. eapply dr_ok_weaken; [|exact Hd]. lia.
Qed.

Lemma reach_ok d0 n d k :
  driver_reach d0 n d -> 0 <= k -> k + 540 * Z.of_nat n <= 2 ^ 29 -> dr_ok (k + 540 * Z.of_nat n) d0 -> dr_ok k d.
Proof.
  intros Hr. revert k. induction Hr as [|n d e req r d' Hr IH He Hq E]; intros k Hk Hn H0.
  { eapply dr_ok_weaken; [|exact H0]. lia. }
  assert (dr_ok (540 + k) d) as Hd.
  { apply IH; [lia..|]. eapply dr_ok_weaken; [|exact H0]. lia. }
  assert (0 <= k < 2 ^ 29) as Hk' by lia. pose proof (ioctl_ok e req k d Hk' He Hq Hd) as Hs. unfold swp in Hs. by rewrite E in Hs.
Qed.

Lemma fresh_aq a tgid : aq (fresh_world a tgid).
Proof.
  split; simpl.
  - apply NoDup_nil_2.
  - by intros p ?%not_elem_of_nil.
  - by intros p c ?%not_elem_of_nil.
  - done.
Qed.
Lemma opened_aq dev_minor tgid d d' : vfastrpc_open dev_minor tgid true d = Ok 0 d' -> aq (dr_world d').
Proof.
  unfold vfastrpc_open, VERIFY at 2. destruct (Z.eqb_spec (VERIFY 0 ((dev_minor =? MINOR_NUM_DEV) || (dev_minor =? MINOR_NUM_SECURE_DEV))) 0) as [E|E]; simpl.
  - intros [= <-]. apply fresh_aq.
  - by intros [= E' _].
Qed.


(** ** Refusals *)

(** The parameter cannot be read, or the number is none of the driver's. *)
Definition unreadable (req : ioctl_req) : bool :=
  match req with
  | FASTRPC_IOCTL_INVOKE None | FASTRPC_IOCTL_INVOKE_FD None | FASTRPC_IOCTL_INVOKE_ATTRS None
  | FASTRPC_IOCTL_INVOKE_CRC None | FASTRPC_IOCTL_INVOKE_PERF None | FASTRPC_IOCTL_INVOKE2 None
  | FASTRPC_IOCTL_MEM_MAP None | FASTRPC_IOCTL_MEM_UNMAP None | FASTRPC_IOCTL_MMAP None | FASTRPC_IOCTL_MUNMAP None
  | FASTRPC_IOCTL_MMAP_64 None | FASTRPC_IOCTL_MUNMAP_64 None | FASTRPC_IOCTL_MUNMAP_FD None
  | FASTRPC_IOCTL_CONTROL None | FASTRPC_IOCTL_GETINFO None | FASTRPC_IOCTL_INIT None
  | FASTRPC_IOCTL_INIT_ATTRS None | FASTRPC_IOCTL_GET_DSP_INFO None | bad_ioctl _ => true
  | _ => false
  end.

(** The features of the device a request needs. *)
Definition lacks (req : ioctl_req) d : bool :=
  let no_attr a := bool_decide (is_Some (ia_attrs a)) && negb (dr_has_invoke_attr d) in
  let no_crc a := ia_crc a && negb (dr_has_invoke_crc d) in
  match req with
  | FASTRPC_IOCTL_INVOKE_ATTRS (Some a) => no_attr a
  | FASTRPC_IOCTL_INVOKE_CRC (Some a) | FASTRPC_IOCTL_INVOKE_PERF (Some a) => no_attr a || no_crc a
  | FASTRPC_IOCTL_MEM_MAP _ | FASTRPC_IOCTL_MEM_UNMAP _ => negb (dr_has_mem_map d)
  | FASTRPC_IOCTL_MMAP _ | FASTRPC_IOCTL_MUNMAP _ | FASTRPC_IOCTL_MMAP_64 _ | FASTRPC_IOCTL_MUNMAP_64 _ => negb (dr_has_mmap d)
  | FASTRPC_IOCTL_INVOKE2 (Some i) =>
      (i2_req i =? FASTRPC_INVOKE2_KERNEL_OPTIMIZATIONS) && negb (i2_req i =? FASTRPC_INVOKE2_ASYNC) &&
      negb (i2_req i =? FASTRPC_INVOKE2_ASYNC_RESPONSE)
  | _ => false
  end.

Lemma check_eq inv d :
  check_invoke_supported inv d =
    Ok (if bool_decide (is_Some (ia_attrs inv)) && negb (dr_has_invoke_attr d) || ia_crc inv && negb (dr_has_invoke_crc d)
        then - ENOTTY else 0) d.
Proof.
  unfold check_invoke_supported. erewrite bind_eq by done.
  destruct (_ && negb (dr_has_invoke_attr d)); [done|]. by destruct (_ && _).
Qed.
Lemma invoke_ioctl_lacks e size a d :
  (let inv := copied_inv size a in
   bool_decide (is_Some (ia_attrs inv)) && negb (dr_has_invoke_attr d) || ia_crc inv && negb (dr_has_invoke_crc d)) = true ->
  invoke_ioctl e size (Some a) d = Ok (- ENOTTY, None) d.
Proof. cbv zeta. intros H. unfold invoke_ioctl, with_param. cbv zeta. by rewrite (bind_eq _ _ _ _ _ (check_eq _ _)), H. Qed.

(** C9: a refused ioctl leaves no trace.  On a file that is being closed every
    ioctl returns -EBADF; on an open file one whose parameter cannot be read,
    or whose number is unknown, returns an error, and one that needs a feature
    the device does not have returns -ENOTTY, a mapping even before its
    parameter is read.  In all cases the driver's state is exactly as
    before, and no message went to the device. *)
Theorem ioctl_refused e req d :
  (fl_file_close (w_fl (dr_world d)) = 1 -> vfastrpc_ioctl e req d = Ok (- EBADF, None) d) /\
  (fl_file_close (w_fl (dr_world d)) <> 1 -> lacks req d = true -> vfastrpc_ioctl e req d = Ok (- ENOTTY, None) d) /\
  (fl_file_close (w_fl (dr_world d)) <> 1 -> unreadable req = true ->
   exists err, err <> 0 /\ vfastrpc_ioctl e req d = Ok (err, None) d).
Proof.
  unfold vfastrpc_ioctl. split_and!.
  - intros E. erewrite bind_eq by done. by rewrite E.
  - intros Hc Hl. erewrite bind_eq by done. rewrite (proj2 (Z.eqb_neq _ _) Hc).
    pose proof layout_invoke. pose proof layout_fd. pose proof layout_attrs. pose proof layout_crc. pose proof layout_perf.
    destruct req as [| |[a|]|[a|]|[a|]|[i|]|p|p|p|p|p|p| | | | | | | |]; cbn [lacks ioctl_switch] in *; try done.
    1-3: apply invoke_ioctl_lacks; simpl; zdec; by rewrite ?Hl.
    { apply andb_true_iff in Hl as [[H1' H2']%andb_true_iff H3']. unfold vfastrpc_internal_invoke2.
      apply negb_true_iff in H2', H3'. by rewrite H2', H3', H1'. }
    all: unfold vfastrpc_mmap_ioctl; erewrite bind_eq by done; by rewrite Hl.
  - intros Hc Hu. erewrite bind_eq by done. rewrite (proj2 (Z.eqb_neq _ _) Hc). pose proof (VERIFY_err_nonzero 0).
    destruct req as [[]|[]|[]|[]|[]|[]|[]|[]|[]|[]|[]|[]|[]| |[]|[]|[]|[]|[]|]; cbn [ioctl_switch] in *; try done;
      try (eexists; split; [|done]; done);
      unfold vfastrpc_mmap_ioctl; erewrite bind_eq by done; try (eexists; split; [|done]; done);
      case_match; by eexists; split; [|done].
Qed.

(** ** The 64-bit map ioctls *)

(** A successful map reports an address. *)
Lemma internal_mmap_addr ce ae me fd va size flags :
  yields (vfastrpc_internal_mmap ce ae me fd va size flags) (fun r => r.1 = 0 -> is_Some r.2).
Proof.
  pose proof (VERIFY_err_nonzero 0) as Hv. apply yields_any. intros f. yields_if; [by apply yields_ret|]. yields_if.
  - unfold mmap_add_pages. yields_if; [by apply yields_ret|]. apply yields_any. intros r.
    destruct (Z.eqb_spec r.1 0) as [E|E]; cbn [negb]; [|by apply yields_ret]. destruct (r.2); [|by intros w].
    apply yields_any. intros b. destruct (b_sgt b); [|by intros w]. apply yields_any. intros x.
    destruct (Z.eqb_spec x.1 0) as [E1|E1]; cbn [negb]; [|by apply yields_ret].
    cbv zeta. apply yields_any. intros b'. apply yields_any. intros _. apply yields_ret. by eexists.
  - unfold mmap_user_fd. apply yields_any. intros r. cbv zeta.
    destruct (Z.eqb_spec (VERIFY 0 (r.1 =? 0)) 0) as [E|E]; cbn [negb]; [|by apply yields_ret]. destruct (r.2); [|by intros w].
    apply yields_any. intros m. destruct (m_table m); [|by intros w]. apply yields_any. intros x.
    destruct (Z.eqb_spec (VERIFY 0 (x.1 =? 0)) 0) as [E1|E1]; cbn [negb].
    + apply yields_any. intros m'. apply yields_any. intros _. apply yields_ret. by eexists.
    + apply yields_any. intros _. by apply yields_ret.
Qed.

(** The plain structure with the same request. *)
Definition narrow (m : ioctl_mmap_64) : ioctl_mmap :=
  {| mmap_fd := m64_fd m; mmap_flags := m64_flags m; mmap_vaddrin := m64_vaddrin m; mmap_size := m64_size m;
     mmap_vaddrout := m64_vaddrout m |}.
(** What the caller of the 64-bit ioctl sees for an answer to the plain one. *)
Definition widen (m : ioctl_mmap_64) (o : ioctl_out) : ioctl_out :=
  match o with
  | OutMmap x => OutMmap64 (m <| m64_vaddrout := u64 (mmap_vaddrout x) |>)
  | _ => o
  end.
Definition widen_result (m : ioctl_mmap_64) (r : outcome driver (Z * option ioctl_out)) : outcome driver (Z * option ioctl_out) :=
  match r with
  | Ok (err, o) d => Ok (err, widen m <$> o) d
  | Fault f => Fault f
  | Hang h => Hang h
  end.

(** C10: the 64-bit map ioctls are the plain ones.  For addresses of 64 bits,
    [FASTRPC_IOCTL_MMAP_64] does what [FASTRPC_IOCTL_MMAP] does with the same
    fields: same error, same state, same address reported, with every other
    field of the caller's structure given back unchanged; nothing of the
    driver's uninitialised local structure gets out.  [MUNMAP_64] and
    [MUNMAP] agree too. *)
Theorem mmap64_equivalent e m u d :
  0 <= m64_vaddrin m < 2 ^ 64 -> 0 <= mu64_vaddrout u < 2 ^ 64 ->
  vfastrpc_ioctl e (FASTRPC_IOCTL_MMAP_64 (Some m)) d =
    widen_result m (vfastrpc_ioctl e (FASTRPC_IOCTL_MMAP (Some (narrow m))) d) /\
  vfastrpc_ioctl e (FASTRPC_IOCTL_MUNMAP_64 (Some u)) d =
    vfastrpc_ioctl e (FASTRPC_IOCTL_MUNMAP (Some {| munmap_vaddrout := mu64_vaddrout u; munmap_size := mu64_size u |})) d.
Proof.
  intros Hm Hu. unfold vfastrpc_ioctl. split; (erewrite !bind_eq by done); (destruct (_ =? 1); [done|]).
  - cbn [ioctl_switch]. unfold vfastrpc_mmap_ioctl. erewrite !bind_eq by done. destruct (negb (dr_has_mmap d)); [done|].
    unfold with_param, fastrpc_internal_mmap, get_fastrpc_ioctl_mmap_64, mbind, M_bind, on_w, zoom, mret, M_ret. simpl.
    rewrite (u64_id (m64_vaddrin m)) by done.
    pose proof (internal_mmap_addr (io_create e) (io_alloc e) (io_msg e) (m64_fd m) (m64_vaddrin m) (m64_size m) (m64_flags m) (dr_world d)) as Hy.
    destruct (vfastrpc_internal_mmap _ _ _ _ _ _ _ _) as [[err [v|]] w'| |]; try done; simpl.
    + rewrite VERIFY_assign. destruct (negb (err =? 0)); [done|]. unfold copy_to_user. by destruct (io_out e).
    + rewrite VERIFY_assign. destruct (Z.eqb_spec err 0) as [->|]; [|done]. by destruct Hy.
  - cbn [ioctl_switch]. unfold vfastrpc_mmap_ioctl. erewrite !bind_eq by done. destruct (negb (dr_has_mmap d)); [done|].
    unfold with_param, get_fastrpc_ioctl_munmap_64. by rewrite (u64_id (mu64_vaddrout u)).
Qed.

(** An asynchronous call is made with attributes and a crc list on a device
    that supports neither: [vfastrpc_internal_invoke2] does not look. *)
Theorem async_ignores_features e size a d :
  session_inv d -> async_ready d -> fl_file_close (w_fl (dr_world d)) <> 1 -> size <= sizeof_ioctl_invoke_async ->
  vfastrpc_ioctl e (FASTRPC_IOCTL_INVOKE2 (Some {| i2_req := FASTRPC_INVOKE2_ASYNC; i2_size := size; i2_inv := Some a |})) d =
    no_out (on_w (vfastrpc_internal_invoke (dr_num_channels d) (io_invoke e) a)) d.
Proof.
  intros Hs Hr Hc Hz. unfold vfastrpc_ioctl. erewrite bind_eq by done. rewrite (proj2 (Z.eqb_neq _ _) Hc).
  cbn [ioctl_switch]. unfold vfastrpc_internal_invoke2. cbn [i2_req i2_size i2_inv]. rewrite Z.eqb_refl. cbn [orb].
  destruct (async_supported_eq d Hs) as (err & E & Ee). rewrite (bind_eq _ _ _ _ _ E), (proj2 Ee Hr). cbn [negb Z.eqb].
  unfold VERIFY. zdec. cbn [negb with_param]. unfold no_out, mbind, M_bind, fastrpc_internal_invoke, mbind, M_bind, get. simpl.
  destruct (on_w _ d) as [err' d'| |]; [|done..]. fold (VERIFY err' (err' =? 0)). by rewrite VERIFY_assign.
Qed.
End props.
