(* ===== verification/DispatchDemo.v ===== *)
(** * Concrete ioctls *)
From S2P Require Import Prelude Shared Mmap MmapFacts Pages Buf BufFacts Apps AppsFacts World WorldFacts Transact MapOps MapFacts MapProps Demo Session SessionFacts SessionDemo Invoke CtxFacts CtxInv ArgFacts DescFacts MsgFacts InvokeFacts InvokeSafe InvokeDemo Keep KeepFile AsyncFacts AsyncQueue Probe ProbeFacts ProbeDemo Dispatch DispatchFacts DispatchProps.
Export ExampleLayout.

(** ** Two asynchronous jobs *)

Definition job_args (id : Z) : invoke_args :=
  {| ia_handle := 5; ia_sc := 65536; ia_pra := Some (fun _ => {| ra_pv := 8192; ra_len := 16 |});
     ia_fds := None; ia_attrs := None; ia_crc := false; ia_job := Some (Some (true, id)) |}.
Lemma job_args_ok id : args_ok (job_args id).
Proof. intros pra j [= <-] _. by split_and!. Qed.

Definition submit (id : Z) (w : world) : outcome world Z := vfastrpc_internal_invoke 5 (demo_env [] false) (job_args id) w.
Definition one_job : world := end_state demo_world (submit 77 demo_world).
Definition two_jobs : world := end_state demo_world (submit 88 one_job).

Lemma demo_aq : aq demo_world.
Proof.
  split; simpl; [apply NoDup_nil_2|by intros p ?%not_elem_of_nil|by intros p c ?%not_elem_of_nil|done].
Qed.

Lemma submit_ok id k w w' :
  0 <= k < 2 ^ 29 -> ctx_inv ∅ (540 + k) w -> aq w -> submit id w = Ok 0 w' -> ctx_inv ∅ k w' /\ aq w'.
Proof.
  intros Hk Hi Hq E. split.
  - pose proof (invoke_swp 5 (demo_env [] false) (job_args id) k w Hk Hi (demo_env_ok _ _) (job_args_ok id)) as H.
    unfold swp in H. unfold submit in E. rewrite E in H. apply H.
  - exact (invoke_aq 5 _ _ k w 0 w' Hk Hi Hq (demo_env_ok _ _) (job_args_ok id) E).
Qed.

Lemma two_jobs_inv : ctx_inv ∅ 0 two_jobs /\ aq two_jobs.
Proof.
  assert (ctx_inv ∅ 540 one_job /\ aq one_job) as [H1 H2].
  { apply (submit_ok 77 540 demo_world); [done|by apply demo_ctx_inv|apply demo_aq|vm_compute; reflexivity]. }
  apply (submit_ok 88 0 one_job); [done|exact H1|exact H2|vm_compute; reflexivity].
Qed.

(** The device answers the second job first. *)
Definition answers : list dev_event := demo_answer 3 1 64 0 0 ++ demo_answer 4 0 64 0 0.
Definition first_response : outcome world (Z * option async_response) :=
  vfastrpc_get_async_response (demo_env [] false) [answers] true two_jobs.

Lemma async_fifo_witness :
  exists ar w', first_response = Ok (0, Some ar) w' /\ response_job ar = {| j_id := 88; j_handle := 5; j_sc := 65536 |} /\
    jobs w' = [{| j_id := 77; j_handle := 5; j_sc := 65536 |}] /\ size (cx_heap (w_cx w')) = 1%nat /\ aq w'.
Proof.
  destruct (async_fifo (demo_env [] false) answers [] true 0 two_jobs (proj1 two_jobs_inv) (proj2 two_jobs_inv) (Z.le_refl 0)) as [H _].
  fold first_response in H.
  assert (exists ar, first_response = Ok (0, Some ar) (end_state demo_world first_response) /\
    response_job ar = {| j_id := 88; j_handle := 5; j_sc := 65536 |}) as (ar & E & Ej)
    by (eexists; split; vm_compute; reflexivity).
  rewrite E in H. exists ar, (end_state demo_world first_response). split; [exact E|]. split; [exact Ej|].
  split; [vm_compute; reflexivity|]. split; [vm_compute; reflexivity|]. apply H.
Defined.

(** The answer cannot be copied out: the job is lost. *)
Lemma lost_response :
  match vfastrpc_get_async_response (demo_env [] false) [answers] false two_jobs with
  | Ok (err, r) w' => err = VERIFY_err 0 /\ r = None /\ jobs w' = [{| j_id := 77; j_handle := 5; j_sc := 65536 |}]
  | _ => False
  end.
Proof. vm_compute. split_and!; reflexivity. Qed.

(** The second answer follows without waiting. *)
Lemma second_response :
  match vfastrpc_get_async_response (demo_env [] false) [[]] true (end_state demo_world first_response) with
  | Ok (err, Some ar) w' => err = 0 /\ ar_jobid ar = 77 /\ cx_heap (w_cx w') = ∅ /\ msgs (w_apps w') = ∅
  | _ => False
  end.
Proof. vm_compute. split_and!; reflexivity. Qed.

(** ** From the probe to an invocation *)

Definition io_with (inv : invoke_env) (msg : msg_env) : ioctl_env :=
  {| io_create := demo_create; io_alloc := demo_alloc; io_msg := msg;
     io_fd := {| fe_msg := demo_msg 3 64 0 0; fe_signal := false; fe_kzalloc := true |};
     io_proc := {| pe_tgid := 100; pe_kzalloc := true; pe_debugfs := true |}; io_invoke := inv; io_waits := [[]];
     io_out := true;
     io_stack := {| mmap_fd := 1; mmap_flags := 2; mmap_vaddrin := 3; mmap_size := 4; mmap_vaddrout := 5 |} |}.
Definition demo_io (inv : invoke_env) : ioctl_env := io_with inv (demo_msg 3 64 0 0).
Lemma demo_io_ok evs sig : io_ok (demo_io (demo_env evs sig)).
Proof. split; [by intros t [= <-]; apply demo_table_tiny..|apply demo_env_ok|done]. Qed.

Definition booted : driver := default demo_driver (boot_driver (fun _ => zero_rsp) probed).
Definition opened : driver := end_state demo_driver (vfastrpc_open 1 100 true booted).
Definition with_domain : driver :=
  end_state demo_driver (vfastrpc_ioctl (demo_io (demo_env [] true)) (FASTRPC_IOCTL_GETINFO (Some 3)) opened).
Definition invoked : outcome driver (Z * option ioctl_out) :=
  vfastrpc_ioctl (demo_io (demo_env [] true)) (FASTRPC_IOCTL_INVOKE (Some demo_args)) with_domain.


(** ** Refusals and the 64-bit variants *)

Definition plain_driver : driver := demo_driver <| dr_has_mmap := false |> <| dr_has_invoke_attr := false |>.
Definition attr_args : invoke_args :=
  {| ia_handle := 5; ia_sc := 65536; ia_pra := Some (fun _ => {| ra_pv := 8192; ra_len := 16 |});
     ia_fds := None; ia_attrs := Some (Some (fun _ => 0)); ia_crc := false; ia_job := None |}.

Lemma ioctl_refused_witness :
  vfastrpc_ioctl (demo_io (demo_env [] true)) (FASTRPC_IOCTL_MMAP None) plain_driver = Ok (- ENOTTY, None) plain_driver /\
  vfastrpc_ioctl (demo_io (demo_env [] true)) (FASTRPC_IOCTL_INVOKE_ATTRS (Some attr_args)) plain_driver =
    Ok (- ENOTTY, None) plain_driver /\
  exists err, err <> 0 /\ vfastrpc_ioctl (demo_io (demo_env [] true)) (bad_ioctl 7) plain_driver = Ok (err, None) plain_driver.
Proof.
  split; [|split].
  - apply ioctl_refused; [vm_compute; discriminate|reflexivity].
  - apply ioctl_refused; [vm_compute; discriminate|reflexivity].
  - apply ioctl_refused; [vm_compute; discriminate|reflexivity].
Defined.

Definition demo_m64 : ioctl_mmap_64 :=
  {| m64_fd := 9; m64_flags := 0; m64_vaddrin := 8192; m64_size := 4096; m64_vaddrout := 0 |}.
Definition map_io : ioctl_env := io_with (demo_env [] true) (demo_msg 3 64 0 4660).

Lemma mmap64_equivalent_witness :
  exists d', vfastrpc_ioctl map_io (FASTRPC_IOCTL_MMAP_64 (Some demo_m64)) demo_driver =
    Ok (0, Some (OutMmap64 (demo_m64 <| m64_vaddrout := 4660 |>))) d' /\ length (mm_list (w_mm (dr_world d'))) = 1%nat.
Proof.
  destruct (mmap64_equivalent map_io demo_m64 {| mu64_vaddrout := 4660; mu64_size := 4096 |} demo_driver) as [-> _].
  { vm_compute. split; [discriminate|reflexivity]. }
  { vm_compute. split; [discriminate|reflexivity]. }
  match goal with |- exists d', ?x = _ /\ _ => exists (end_state demo_driver x) end.
  split; vm_compute; reflexivity.
Defined.
