(* ===== verification/Silent.v ===== *)
(** * Silent boot and its hardware monitor

    silent_boot.c: the mode given on the kernel command line, the state that
    the hardware and user space compete for, and the notifier chain.
    silent-mode-hw-monitoring.c: the driver that watches a GPIO and feeds
    that state.  The constants of linux/silent_mode.h, which is not in the
    repository, are parameters. *)
From S2P Require Import Prelude.
From Stdlib Require Import Ascii.

Class silent_mode_h := {
  MODE_SILENT : Z;
  MODE_NON_SILENT : Z;
  MODE_GPIO_LOW : Z;
  MODE_GPIO_HIGH : Z;
  USERSPACE_CONTROL_DISABLED : Z;
  USERSPACE_CONTROL_ENABLED : Z;
}.

(** The driver tells a mode that was set from none by [silent_mode != 0], a
    forced mode by its sign, and user control by a flag. *)
Class silent_mode_ok (H : silent_mode_h) : Prop := {
  SILENT_pos : 0 < MODE_SILENT;
  NON_SILENT_pos : 0 < MODE_NON_SILENT;
  CONTROL_DISABLED_zero : USERSPACE_CONTROL_DISABLED = 0;
  CONTROL_ENABLED_nonzero : USERSPACE_CONTROL_ENABLED <> 0;
}.

Definition ENOENT : Z := 2.

(** ** Strings in memory *)

(** The bytes from an address on; a read past the list is out of bounds. *)
Abbreviation bytes := (list ascii) (only parsing).

Definition NUL : ascii := Ascii.zero.

(** [isspace] of the kernel's ctype table: tab to carriage return, the space,
    and the no-break space 0xA0 of Latin-1. *)
Definition isspace (c : ascii) : bool :=
  let n := nat_of_ascii c in (n =? 32)%nat || ((9 <=? n)%nat && (n <=? 13)%nat) || (n =? 160)%nat.

(** The string at an address: up to the first NUL. *)
Fixpoint cstr (m : bytes) : list ascii :=
  match m with
  | [] => []
  | c :: m' => if decide (c = NUL) then [] else c :: cstr m'
  end.

Fixpoint skip_spaces (s : list ascii) : list ascii :=
  match s with
  | c :: s' => if isspace c then skip_spaces s' else s
  | [] => []
  end.

(** [strstrip]: the address after the leading spaces, with a NUL written after
    the last character that is not a space. *)
Definition strstrip (m : bytes) : bytes :=
  let s := cstr m in
  let rest := drop (length s) m in
  let kept := reverse (skip_spaces (reverse s)) in
  let m' := kept ++ (if decide (length kept < length s)%nat
                     then NUL :: drop (S (length kept)) s else []) ++ rest in
  drop (length kept - length (skip_spaces kept))%nat m'.

(** [memcmp(s1, s2, strlen(s2)) == 0]; [None] if it runs off the memory
    before a difference. *)
Fixpoint matches (m : bytes) (kw : list ascii) : option bool :=
  match kw, m with
  | [], _ => Some true
  | _ :: _, [] => None
  | k :: kw', c :: m' => if decide (c = k) then matches m' kw' else Some false
  end.

(** [strnstr] of lib/string.c: it compares at [len - strlen(s2) + 1] places
    and does not stop at a NUL. *)
Fixpoint strnstr_from (n : nat) (m : bytes) (kw : list ascii) : option bool :=
  match n with
  | O => Some false
  | S n' =>
    match matches m kw with
    | None => None
    | Some true => Some true
    | Some false => strnstr_from n' (tail m) kw
    end
  end.
Definition strnstr (m : bytes) (kw : list ascii) (len : nat) : option bool :=
  if decide (length kw = 0)%nat then Some true else strnstr_from (len + 1 - length kw) m kw.

Definition str (s : string) : list ascii := String.list_ascii_of_string s.

(** ** silent_boot.c *)

(** The static variables, and the log of what went out: values user space was
    told about, and callbacks. *)
Record silent := {
  sl_mode : Z;                  (* silent_mode *)
  sl_userspace_cntrl : Z;
  sl_enable : Z;                (* pm_silent_mode_enable *)
  sl_hw_state : Z;
  sl_kobj : bool;               (* silent_boot_kobj *)
  sl_chain : list ptr;          (* notifier blocks, by address *)
  sl_called : list ptr;         (* callbacks run, the last one first *)
}.
#[export] Instance eta_silent : Eta silent := fun s =>
  {| sl_mode := sl_mode s; sl_userspace_cntrl := sl_userspace_cntrl s; sl_enable := sl_enable s;
     sl_hw_state := sl_hw_state s; sl_kobj := sl_kobj s; sl_chain := sl_chain s; sl_called := sl_called s |}.

Section ops.
Context `{H : silent_mode_h}.

Definition silent0 : silent :=
  {| sl_mode := 0; sl_userspace_cntrl := USERSPACE_CONTROL_DISABLED; sl_enable := MODE_NON_SILENT;
     sl_hw_state := MODE_GPIO_LOW; sl_kobj := false; sl_chain := []; sl_called := [] |}.

(** One of the tests of [silent_mode_param_set]. *)
Definition found (m : bytes) (kw : string) (k : M silent Z) (other : M silent Z) : M silent Z :=
  match strnstr m (str kw) (String.length "forcednonsilent") with
  | None => fail OutOfBounds
  | Some true => k
  | Some false => other
  end.

Definition set_mode (v : Z) : M silent Z := modify (fun s => s <| sl_mode := v |>);; mret 0.

Definition silent_mode_param_set (val : bytes) : M silent Z :=
  s ← get;
  if sl_mode s =? 0 then
    let m := strstrip val in
    found m "forcednonsilent" (set_mode (- MODE_NON_SILENT))
    (found m "forcedsilent" (set_mode (- MODE_SILENT))
    (found m "nonsilent" (set_mode MODE_NON_SILENT)
    (found m "silent" (set_mode MODE_SILENT) (set_mode MODE_NON_SILENT))))
  else mret 0.

(** [scnprintf(buf, size, "%s\n", s)]: what is written before the NUL. *)
Definition scnprintf_line (size : nat) (s : list ascii) : list ascii :=
  take (size - 1) (s ++ [ascii_of_nat 10]).

(** [mode], which nothing changes, and what reading the parameter gives. *)
Definition mode : list ascii := str "nonsilent".
Definition silent_mode_param_get : list ascii := scnprintf_line (length mode + 1) mode.

Definition pm_silentmode_kernel_set (val : Z) : M silent Z :=
  s ← get;
  if sl_userspace_cntrl s =? 0 then
    put (s <| sl_enable := val |>);; mret 0
  else mret (- USERSPACE_CONTROL_ENABLED).

Definition pm_silentmode_kernel_get : M silent Z := gets sl_enable.
Definition pm_silentmode_hw_state_set (val : Z) : M silent () := modify (fun s => s <| sl_hw_state := val |>).
Definition pm_silentmode_hw_state_get : M silent Z := gets sl_hw_state.

(** [notifier_chain_register] of kernel/notifier.c: by priority, once; [prio]
    is the priority of each notifier block. *)
Fixpoint chain_insert (prio : ptr -> Z) (l : list ptr) (n : ptr) : option (list ptr) :=
  match l with
  | [] => Some [n]
  | x :: l' =>
    if decide (x = n) then None
    else if prio x <? prio n then Some (n :: l)
    else cons x <$> chain_insert prio l' n
  end.

Definition register_pm_silentmode_notifier (prio : ptr -> Z) (nb : ptr) : M silent Z :=
  lsilent ← pm_silentmode_kernel_get;
  when (lsilent =? MODE_SILENT)
    (modify (fun s => s <| sl_chain := default (sl_chain s) (chain_insert prio (sl_chain s) nb) |>));;
  mret lsilent.

Definition unregister_pm_silentmode_notifier (nb : ptr) : M silent Z :=
  s ← get;
  if decide (nb ∈ sl_chain s) then
    put (s <| sl_chain := hlist_del nb (sl_chain s) |>);; mret 0
  else mret (- ENOENT).

(** [blocking_notifier_call_chain]; [stop] are the callbacks that return a
    value with [NOTIFY_STOP_MASK]. *)
Fixpoint call_chain (l : list ptr) (stop : ptr -> bool) : list ptr :=
  match l with
  | [] => []
  | x :: l' => x :: if stop x then [] else call_chain l' stop
  end.

Definition pm_silent_mode_cb_chain (stop : ptr -> bool) : M silent () :=
  modify (fun s => s <| sl_called := reverse (call_chain (sl_chain s) stop) ++ sl_called s |>).

Definition pm_silentmode_user_update (kobj : bool) (val : Z) : M silent () :=
  when kobj (modify (fun s => s <| sl_userspace_cntrl := USERSPACE_CONTROL_ENABLED |> <| sl_enable := val |>)).

(** [sysfs_notify], which dereferences the kobject. *)
Definition sysfs_notify : M silent () :=
  k ← gets sl_kobj; if (k : bool) then mret () else fail NullDeref.

Definition pm_silentmode_update (stop : ptr -> bool) (val : Z) (kobj us : bool) : M silent Z :=
  if us then pm_silentmode_user_update kobj (s32 val);; mret 0
  else
    pm_silentmode_kernel_set (Z.lxor (s32 val) 1);;
    pm_silentmode_hw_state_set (Z.lxor (s32 val) 1);;
    sysfs_notify;;
    sysfs_notify;;
    pm_silent_mode_cb_chain stop;;
    mret 0.

Definition pm_silentmode_status : M silent Z := pm_silentmode_kernel_get.
Definition pm_silentmode_get_mode : M silent Z := gets sl_mode.

(** The sysfs stores; [val] is what [kstrtoul] reads, if anything. *)
Definition pm_silentmode_kernel_state_store (stop : ptr -> bool) (val : option Z) (n : Z) : M silent Z :=
  match val with
  | None => mret (- EINVAL)
  | Some v => pm_silentmode_update stop v true true;; mret n
  end.
Definition pm_silentmode_hw_state_store : M silent Z := mret (- EINVAL).

(** [kobj] and [group] are what creating the kobject and its files answer. *)
Definition pm_silentmode_init (kobj : bool) (group : Z) : M silent Z :=
  s ← get;
  when (sl_mode s =? 0) (modify (fun s => s <| sl_mode := MODE_NON_SILENT |>));;
  s ← get;
  (if (sl_mode s =? MODE_SILENT) || (sl_mode s =? - MODE_SILENT) then
     pm_silentmode_hw_state_set MODE_GPIO_HIGH;; pm_silentmode_kernel_set 1
   else
     pm_silentmode_hw_state_set MODE_GPIO_LOW;; pm_silentmode_kernel_set 0);;
  modify (fun s => s <| sl_kobj := kobj |>);;
  if negb kobj then mret (- ENOMEM) else mret group.
End ops.
