(* ===== verification/Monitor.v ===== *)
(** * The hardware monitor of silent mode (silent-mode-hw-monitoring.c)

    The driver, over the state of silent_boot.c that it updates, the
    interrupt of its GPIO and the delayed work that debounces it. *)
From S2P Require Import Prelude Silent.

(** [struct silent_mode_info], with the fields that matter later. *)
Record silent_mode_info := { si_sgpio : Z; si_sirq : Z; si_active_low : bool }.

Record monitor := {
  mo_silent : silent;
  mo_drvdata : option silent_mode_info;   (* platform_get_drvdata *)
  mo_irq : bool;                          (* the interrupt was requested *)
  mo_depth : Z;                           (* disable_irq calls not undone *)
  mo_pending : bool;                      (* the delayed work is queued *)
}.
#[export] Instance eta_monitor : Eta monitor := fun m =>
  {| mo_silent := mo_silent m; mo_drvdata := mo_drvdata m; mo_irq := mo_irq m; mo_depth := mo_depth m;
     mo_pending := mo_pending m |}.

(** What the kernel answers during a probe. *)
Record monitor_env := {
  mv_kzalloc : bool;
  mv_named_gpio : Z;                      (* of_get_named_gpio *)
  mv_gpio_request : Z;
  mv_gpio_is_valid : Z -> bool;
  mv_active_low : bool;
  mv_to_irq : Z;
  mv_debounce : Z;
  mv_request_irq : Z;                     (* negative, or the context of the handler *)
}.

Section ops.
Context `{SH : silent_mode_h}.

Definition on_silent {A} (m : M silent A) : M monitor A := zoom mo_silent (fun s x => x <| mo_silent := s |>) m.

(** The handler of the interrupt. *)
Definition silent_mode_irq : M monitor () := modify (fun x => x <| mo_pending := true |>).

(** [level] is what [gpiod_get_value] reads. *)
Definition silent_mode_handler_work_func (stop : ptr -> bool) (level : Z) : M monitor () :=
  on_silent (pm_silentmode_update stop level false false);; mret ().

Definition silent_mode_init_monitor (e : monitor_env) (info : silent_mode_info) : M monitor Z :=
  if negb (mv_gpio_is_valid e (si_sgpio info)) then mret (- EINVAL)
  else
    let info := {| si_sgpio := si_sgpio info; si_sirq := mv_to_irq e; si_active_low := mv_active_low e |} in
    modify (fun x => x <| mo_drvdata := Some info |>);;
    if mv_debounce e <? 0 then mret (mv_debounce e)
    else
      when (0 <=? mv_request_irq e) (modify (fun x => x <| mo_irq := true |> <| mo_depth := 0 |>));;
      mret (mv_request_irq e).

(** [info->pdev], read by the log output of the next three functions. *)
Definition deref_info (info : option silent_mode_info) : M monitor () :=
  match info with Some _ => mret () | None => fail NullDeref end.

Definition silent_mode_enable_monitor (info : option silent_mode_info) (level : Z) : M monitor Z :=
  deref_info info;;
  match info with
  | Some _ =>
    if negb (level =? 0) then modify (fun x => x <| mo_depth := mo_depth x - 1 |>);; mret 0
    else mret (- EEXIST)
  | None => mret 0
  end.

Definition silent_mode_disable_monitor (info : option silent_mode_info) : M monitor Z :=
  deref_info info;;
  match info with
  | Some _ => modify (fun x => x <| mo_depth := mo_depth x + 1 |>);; mret 0
  | None => mret 0
  end.

Definition forced_mode_enforced : M monitor bool :=
  m ← on_silent pm_silentmode_get_mode; mret (m <? 0).

Definition silent_mode_probe (e : monitor_env) : M monitor Z :=
  forced ← forced_mode_enforced;
  if (forced : bool) then mret 0
  else if negb (mv_kzalloc e) then mret (- ENOMEM)
  else
    let info := {| si_sgpio := mv_named_gpio e; si_sirq := 0; si_active_low := false |} in
    modify (fun x => x <| mo_drvdata := Some info |>);;
    result ← silent_mode_init_monitor e info;
    mret (if result <? 0 then - EINVAL else result).

Definition silent_mode_suspend_late : M monitor Z :=
  info ← gets mo_drvdata;
  ret ← silent_mode_disable_monitor info;
  deref_info info;;
  mret ret.

Definition silent_mode_resume_early (level : Z) : M monitor Z :=
  info ← gets mo_drvdata;
  ret ← silent_mode_enable_monitor info level;
  deref_info info;;
  mret ret.

(** ** The system: hardware, power management and user space *)

(** What happens to a bound device: an edge on the GPIO, the delayed work when
    its time has come and the GPIO reads [level], a write to the sysfs file,
    and the two power transitions. *)
Inductive mon_event : Type :=
| EvEdge
| EvTimer (level : Z)
| EvStore (val : option Z)
| EvSuspend
| EvResume (level : Z).

Definition mon_event_run (stop : ptr -> bool) (ev : mon_event) : M monitor () :=
  match ev with
  | EvEdge =>
    x ← get;
    when (mo_irq x && (mo_depth x =? 0)) silent_mode_irq
  | EvTimer level =>
    x ← get;
    when (mo_pending x)
      (modify (fun x => x <| mo_pending := false |>);; silent_mode_handler_work_func stop level)
  | EvStore val => on_silent (pm_silentmode_kernel_state_store stop val 1);; mret ()
  | EvSuspend => silent_mode_suspend_late;; mret ()
  | EvResume level => silent_mode_resume_early level;; mret ()
  end.
End ops.
