(* ===== verification/SilentFacts.v ===== *)
(** * What silent boot guarantees

    The command line is parsed as documented on clean memory; the state
    machine refines a register with a user override; the monitor follows its
    GPIO until a resume finds it low. *)
From S2P Require Import Prelude Silent Monitor.
From Stdlib Require Import Ascii Sorted.

(** ** The mode on the command line *)

(** [kw] occurs in [s]. *)
Fixpoint infix (kw s : list ascii) : bool :=
  bool_decide (kw `prefix_of` s) || match s with [] => false | _ :: s' => infix kw s' end.

Lemma infix_spec kw s : infix kw s = true <-> exists a b, s = a ++ kw ++ b.
Proof.
  induction s as [|c s IH]; simpl.
  - rewrite orb_false_r, bool_decide_eq_true. split; [intros [k E]; exists [], k; done|].
    intros (a & b & E). symmetry in E. apply app_eq_nil in E as [-> E]. by exists b.
  - rewrite orb_true_iff, bool_decide_eq_true, IH. split.
    + intros [[k E]|(a & b & ->)]; [by exists [], k|by exists (c :: a), b].
    + intros (a & b & E). destruct a as [|x a]; [left; by exists b|right]. injection E as -> E. by exists a, b.
Qed.

(** Spaces around a value do not count. *)
Definition strip (v : list ascii) : list ascii := skip_spaces (reverse (skip_spaces (reverse v))).

Lemma matches_prefix m kw :
  (length kw <= length m)%nat -> matches m kw = Some (bool_decide (kw `prefix_of` m)).
Proof.
  revert m. induction kw as [|k kw IH]; intros m Hl.
  - rewrite bool_decide_true by apply prefix_nil. by destruct m.
  - destruct m as [|c m]; simpl in Hl; [lia|]. cbn [matches]. case_decide as E.
    + rewrite IH by lia. f_equal. apply bool_decide_ext. subst. split; [apply prefix_cons|apply prefix_cons_inv_2].
    + rewrite bool_decide_false; [done|]. intros ?%prefix_cons_inv_1. congruence.
Qed.

Lemma infix_short kw s : (length s < length kw)%nat -> infix kw s = false.
Proof.
  intros Hl. apply not_true_iff_false. rewrite infix_spec. intros (a & b & ->). rewrite !length_app in Hl. lia.
Qed.

Lemma strnstr_from_spec n m kw :
  (0 < length kw)%nat -> (n + length kw <= S (length m))%nat ->
  strnstr_from n m kw = Some (infix kw (take (n + length kw - 1) m)).
Proof.
  intros Hk. revert m. induction n as [|n IH]; intros m Hl; simpl.
  - rewrite infix_short; [done|]. rewrite length_take. lia.
  - rewrite matches_prefix by lia. destruct m as [|c m]; simpl in Hl; [lia|].
    replace (n + length kw - 0)%nat with (S (n + length kw - 1)) by lia. cbn [take infix tail].
    assert (bool_decide (kw `prefix_of` c :: take (n + length kw - 1) m) = bool_decide (kw `prefix_of` c :: m)) as ->.
    { apply bool_decide_ext. split; intros [k E].
      - exists (k ++ drop (n + length kw - 1) m). rewrite app_assoc, <- E. simpl. by rewrite take_drop.
      - exists (take n k). destruct kw as [|x kw]; [simpl in Hk; lia|]. injection E as -> E. simpl. f_equal.
        replace (n + S (length kw) - 1)%nat with (length kw + n)%nat by lia. by rewrite E, take_app_add. }
    destruct (bool_decide (kw `prefix_of` c :: m)); [done|]. simpl. apply IH. lia.
Qed.

Lemma strnstr_spec m kw :
  (0 < length kw <= 15)%nat -> (15 <= length m)%nat -> strnstr m kw 15 = Some (infix kw (take 15 m)).
Proof.
  intros Hk Hm. unfold strnstr. rewrite decide_False by lia. rewrite strnstr_from_spec by lia. do 3 f_equal. lia.
Qed.

(** What may follow a value without being taken for a part of it. *)
Definition blank (c : ascii) : Prop := c = NUL \/ isspace c = true.

Lemma infix_app_blank kw s j :
  kw <> [] -> Forall (fun c => ~ blank c) kw -> Forall blank j -> infix kw (s ++ j) = infix kw s.
Proof.
  intros Hne Hk Hj. apply eq_true_iff_eq. rewrite !infix_spec. split; [|by intros (a & b & ->); exists a, (b ++ j); rewrite <- !app_assoc].
  assert (forall x l b, x :: l ++ b = j -> ~ blank x -> False) as Hx.
  { intros x l b <- Hx. by apply Forall_cons in Hj as [? _]. }
  intros (a & b & E). apply app_eq_app in E as (l & [[-> E]|[-> E]]).
  - symmetry in E. apply app_eq_app in E as (l2 & [[-> E2]|[-> E2]]); [by exists a, l2|].
    destruct l2 as [|x l2]; [exists a, []; by rewrite !app_nil_r in *|].
    exfalso. apply Forall_app in Hk as [_ Hk]. apply Forall_cons in Hk as [Hk _]. by apply (Hx x l2 b).
  - destruct kw as [|x kw]; [done|]. exfalso. apply Forall_cons in Hk as [Hk _].
    subst j. apply Forall_app in Hj as [_ Hj]. by apply Forall_cons in Hj as [? _].
Qed.

Lemma infix_take_blank n kw s j :
  kw <> [] -> Forall (fun c => ~ blank c) kw -> Forall blank j -> infix kw (take n (s ++ j)) = infix kw (take n s).
Proof. intros. rewrite take_app. apply infix_app_blank; [done..|]. by apply Forall_take. Qed.

Lemma skip_spaces_split s : exists sp, s = sp ++ skip_spaces s /\ Forall blank sp.
Proof.
  induction s as [|c s (sp & E & Hsp)]; [by exists []|]. simpl. destruct (isspace c) eqn:Ec; [|by exists []].
  exists (c :: sp). split; [simpl; by f_equal|]. constructor; [by right|done].
Qed.

Lemma cstr_app v pad : NUL ∉ v -> cstr (v ++ NUL :: pad) = v.
Proof.
  induction v as [|c v IH]; intros Hn; [done|]. cbn [cstr app].
  rewrite decide_False by (intros ->; apply Hn; by left). f_equal. apply IH. intros ?. apply Hn. by right.
Qed.

(** After [strstrip], the value without its spaces and blanks behind it. *)
Lemma strstrip_spec v pad :
  NUL ∉ v -> Forall blank pad ->
  exists j, strstrip (v ++ NUL :: pad) = strip v ++ j /\ Forall blank j /\ (length pad < length j)%nat.
Proof.
  intros Hn Hp. unfold strstrip. rewrite cstr_app, drop_app_length by done.
  destruct (skip_spaces_split (reverse v)) as (sp & E & Hsp).
  set (kept := reverse (skip_spaces (reverse v))) in *.
  assert (v = kept ++ reverse sp) as Ev.
  { rewrite <- (reverse_involutive v), E, reverse_app. done. }
  destruct (skip_spaces_split kept) as (sp2 & E2 & Hsp2).
  assert (length kept - length (skip_spaces kept) = length sp2)%nat as ->.
  { rewrite E2 at 1. rewrite length_app. lia. }
  set (j0 := if decide (length kept < length v)%nat then NUL :: drop (S (length kept)) v else []).
  exists (j0 ++ NUL :: pad). split_and!.
  - unfold strip. fold kept. rewrite E2 at 1. by rewrite <- app_assoc, drop_app_length.
  - apply Forall_app. split; [|constructor; [by left|done]]. unfold j0. case_decide; [|constructor].
    constructor; [by left|]. rewrite Ev, drop_app_ge by lia. apply Forall_drop, Forall_reverse. done.
  - rewrite length_app. simpl. lia.
Qed.

(** The mode a value asks for, by its first 15 characters. *)
Section spec.
Context `{SH : silent_mode_h, !silent_mode_ok SH}.

Definition spec_mode (s : list ascii) : Z :=
  let p := take 15 s in
  if infix (str "forcednonsilent") p then - MODE_NON_SILENT
  else if infix (str "forcedsilent") p then - MODE_SILENT
  else if infix (str "nonsilent") p then MODE_NON_SILENT
  else if infix (str "silent") p then MODE_SILENT
  else MODE_NON_SILENT.

Lemma found_spec s j kw k1 k2 st :
  Forall blank j -> (15 <= length j)%nat -> (0 < length (str kw) <= 15)%nat -> Forall (fun c => ~ blank c) (str kw) ->
  found (s ++ j) kw k1 k2 st = (if infix (str kw) (take 15 s) then k1 else k2) st.
Proof.
  intros Hj Hl Hk Hb. unfold found. change (String.length "forcednonsilent") with 15%nat.
  rewrite strnstr_spec by (rewrite ?length_app; lia).
  rewrite infix_take_blank; [|by intros E; rewrite E in Hk; simpl in Hk; lia|done..].
  by destruct (infix _ _).
Qed.

Lemma keyword_ok kw : forallb (fun c => negb (isspace c || bool_decide (c = NUL))) (str kw) = true ->
  Forall (fun c => ~ blank c) (str kw).
Proof.
  intros Hf. apply Forall_forall. intros c Hc. rewrite forallb_forall in Hf.
  apply list_elem_of_In, Hf, negb_true_iff, orb_false_iff in Hc as [H1 H2].
  apply bool_decide_eq_false in H2. intros [?|?]; congruence.
Qed.

(** C15: the mode on the command line.  A value that is followed by at least 15
    blank bytes sets the mode that the reference [spec_mode] reads from its
    first 15 characters once spaces are stripped, forced modes first; the
    mode is never 0, so that every later value, whatever it holds, is
    ignored. *)
Theorem param_set_correct v pad st :
  NUL ∉ v -> Forall blank pad -> (15 <= length pad)%nat -> sl_mode st = 0 ->
  let st' := st <| sl_mode := spec_mode (strip v) |> in
  silent_mode_param_set (v ++ NUL :: pad) st = Ok 0 st' /\
  forall m, silent_mode_param_set m st' = Ok 0 st'.
Proof.
  intros Hn Hp Hl Hm st'. pose proof SILENT_pos. pose proof NON_SILENT_pos. split.
  - unfold silent_mode_param_set, mbind, M_bind, get. rewrite Hm. cbn [Z.eqb].
    destruct (strstrip_spec v pad Hn Hp) as (j & -> & Hj & Hlj). cbv zeta.
    repeat (rewrite found_spec; [|done|lia|simpl; lia|by apply keyword_ok];
            match goal with |- (if ?b then _ else _) _ = _ => destruct b eqn:? end;
            [unfold set_mode, mbind, M_bind, modify, mret, M_ret, st', spec_mode; by repeat case_match|]).
    unfold set_mode, mbind, M_bind, modify, mret, M_ret, st', spec_mode. by repeat case_match.
  - intros m. unfold silent_mode_param_set, mbind, M_bind, get.
    assert (sl_mode st' <> 0) as Hne by (unfold st', spec_mode; simpl; repeat case_match; lia).
    by rewrite (proj2 (Z.eqb_neq _ 0) Hne).
Qed.
End spec.

(** ** The state machine *)

Section machine.
Context `{SH : silent_mode_h, !silent_mode_ok SH}.
Variable prio : ptr -> Z.

(** The calls that reach the module once it is initialised: an update by a
    driver, a write to the sysfs file, and the notifier interface. *)
Inductive sl_op : Type :=
| OpDriver (val : Z)
| OpStore (val : option Z)
| OpHwStore
| OpRegister (nb : ptr)
| OpUnregister (nb : ptr)
| OpStatus.

Definition run_sl (stop : ptr -> bool) (o : sl_op) : M silent Z :=
  match o with
  | OpDriver val => pm_silentmode_update stop val false false
  | OpStore val => pm_silentmode_kernel_state_store stop val 1
  | OpHwStore => pm_silentmode_hw_state_store
  | OpRegister nb => register_pm_silentmode_notifier prio nb
  | OpUnregister nb => unregister_pm_silentmode_notifier nb
  | OpStatus => pm_silentmode_status
  end.

(** What the module promises: a value the hardware sets, a value user space
    may put over it for good, and a set of subscribers in order of priority,
    all of whom hear of every hardware update. *)
Record reg := { rg_user : option Z; rg_kern : Z; rg_hw : Z; rg_subs : list ptr; rg_heard : list ptr }.

Definition rg_value (a : reg) : Z := default (rg_kern a) (rg_user a).

(** Subscribers at least as important as [n] stay in front of it. *)
Definition subscribe (n : ptr) (l : list ptr) : list ptr :=
  if decide (n ∈ l) then l
  else filter (fun x => prio n <= prio x) l ++ n :: filter (fun x => prio x < prio n) l.

Definition spec_step (stop : ptr -> bool) (o : sl_op) (a : reg) : Z * reg :=
  match o with
  | OpDriver val =>
    let level := Z.lxor (s32 val) 1 in
    (0, {| rg_user := rg_user a; rg_kern := level; rg_hw := level; rg_subs := rg_subs a;
           rg_heard := reverse (call_chain (rg_subs a) stop) ++ rg_heard a |})
  | OpStore None | OpHwStore => (- EINVAL, a)
  | OpStore (Some v) =>
    (1, {| rg_user := Some (s32 v); rg_kern := rg_kern a; rg_hw := rg_hw a; rg_subs := rg_subs a; rg_heard := rg_heard a |})
  | OpRegister nb =>
    (rg_value a, {| rg_user := rg_user a; rg_kern := rg_kern a; rg_hw := rg_hw a;
                    rg_subs := if decide (rg_value a = MODE_SILENT) then subscribe nb (rg_subs a) else rg_subs a;
                    rg_heard := rg_heard a |})
  | OpUnregister nb =>
    (if decide (nb ∈ rg_subs a) then 0 else - ENOENT,
     {| rg_user := rg_user a; rg_kern := rg_kern a; rg_hw := rg_hw a;
        rg_subs := hlist_del nb (rg_subs a); rg_heard := rg_heard a |})
  | OpStatus => (rg_value a, a)
  end.

(** The chain is sorted by falling priority, and no block is on it twice. *)
Definition sorted (l : list ptr) : Prop := StronglySorted (fun x y => prio y <= prio x) l.

Record refines (s : silent) (a : reg) : Prop := {
  rf_value : sl_enable s = rg_value a;
  rf_hw : sl_hw_state s = rg_hw a;
  rf_user : sl_userspace_cntrl s = 0 <-> rg_user a = None;
  rf_subs : sl_chain s = rg_subs a;
  rf_heard : sl_called s = rg_heard a;
  rf_kobj : sl_kobj s = true;
  rf_sorted : sorted (sl_chain s);
  rf_nodup : NoDup (sl_chain s);
}.

Lemma filter_all {A} (P : A -> Prop) `{!forall x, Decision (P x)} (l : list A) : Forall P l -> filter P l = l.
Proof. induction 1 as [|x l Hx Hl IH]; [done|]. rewrite filter_cons_True by done. by f_equal. Qed.

Lemma filter_none {A} (P : A -> Prop) `{!forall x, Decision (P x)} (l : list A) : Forall (fun x => ~ P x) l -> filter P l = [].
Proof. induction 1 as [|x l Hx Hl IH]; [done|]. by rewrite filter_cons_False. Qed.

Lemma chain_insert_spec l n :
  sorted l -> chain_insert prio l n = if decide (n ∈ l) then None else
    Some (filter (fun x => prio n <= prio x) l ++ n :: filter (fun x => prio x < prio n) l).
Proof.
  intros Hs. induction l as [|x l IH]; [done|]. apply StronglySorted_inv in Hs as [Hs Hx].
  cbn [chain_insert]. destruct (decide (x = n)) as [E|E]; [rewrite decide_True; [done|]; subst; by left|].
  assert (n ∈ x :: l <-> n ∈ l) as Hin by (rewrite elem_of_cons; naive_solver).
  rewrite (decide_ext _ _ _ _ Hin). destruct (Z.ltb_spec (prio x) (prio n)) as [Hlt|Hge].
  - assert (forall y, y ∈ x :: l -> prio y < prio n) as Hl.
    { intros y [->|Hy]%elem_of_cons; [done|]. rewrite Forall_forall in Hx. specialize (Hx y Hy). simpl in Hx. lia. }
    rewrite decide_False by (intros Hn%Hin%Hl; lia).
    rewrite filter_none, filter_all; [done|..]; apply Forall_forall; [done|]. intros y Hy%Hl. lia.
  - rewrite IH by done. destruct (decide (n ∈ l)); [done|]. simpl.
    rewrite filter_cons_True, filter_cons_False by lia. done.
Qed.

Lemma subscribe_insert l n : sorted l -> default l (chain_insert prio l n) = subscribe n l.
Proof. intros Hs. rewrite chain_insert_spec by done. unfold subscribe. by destruct (decide (n ∈ l)). Qed.

Lemma sorted_filter (P : ptr -> Prop) `{!forall x, Decision (P x)} l : sorted l -> sorted (filter P l).
Proof.
  induction 1 as [|x l Hl IH Hx]; [constructor|]. destruct (decide (P x)).
  - rewrite filter_cons_True by done. constructor; [done|]. apply Forall_forall. intros y Hy.
    apply list_elem_of_filter in Hy as [_ Hy]. rewrite Forall_forall in Hx. by apply Hx.
  - by rewrite filter_cons_False.
Qed.

Lemma sorted_app l k : sorted l -> sorted k -> (forall x y, x ∈ l -> y ∈ k -> prio y <= prio x) -> sorted (l ++ k).
Proof.
  intros Hl Hk Hb. induction Hl as [|x l Hl IH Hx]; [done|]. simpl. constructor.
  - apply IH. intros y z Hy Hz. apply Hb; [by right|done].
  - apply Forall_app. split; [done|]. apply Forall_forall. intros y Hy. apply Hb; [by left|done].
Qed.

Lemma subscribe_sorted n l : sorted l -> sorted (subscribe n l).
Proof.
  intros Hs. unfold subscribe. destruct (decide (n ∈ l)); [done|]. apply sorted_app; [by apply sorted_filter|..].
  - constructor; [by apply sorted_filter|]. apply Forall_forall. intros y Hy. apply list_elem_of_filter in Hy as [? _]. lia.
  - intros x y Hx Hy. apply list_elem_of_filter in Hx as [Hx _]. apply elem_of_cons in Hy as [->|Hy]; [done|].
    apply list_elem_of_filter in Hy as [? _]. lia.
Qed.

Lemma subscribe_nodup n l : NoDup l -> NoDup (subscribe n l).
Proof.
  intros Hn. unfold subscribe. destruct (decide (n ∈ l)) as [|Hin]; [done|]. apply NoDup_app. split_and!.
  - by apply NoDup_filter.
  - intros x Hx Hy. apply list_elem_of_filter in Hx as [Hx Hxl]. apply elem_of_cons in Hy as [->|Hy]; [done|].
    apply list_elem_of_filter in Hy as [Hy _]. lia.
  - apply NoDup_cons. split; [|by apply NoDup_filter]. intros Hx. by apply list_elem_of_filter in Hx as [_ Hx].
Qed.

Lemma step_refines stop o s a :
  refines s a -> exists s', run_sl stop o s = Ok (spec_step stop o a).1 s' /\ refines s' (spec_step stop o a).2.
Proof.
  intros [Hv Hh Hu Hc Hl Hk Hs Hn]. pose proof CONTROL_ENABLED_nonzero as Hce.
  destruct o as [val|[v|]| |nb|nb|]; simpl.
  - unfold pm_silentmode_update, pm_silentmode_kernel_set, sysfs_notify, mbind, M_bind, get, gets, put, mret, M_ret. simpl.
    destruct (Z.eqb_spec (sl_userspace_cntrl s) 0) as [E|E]; simpl; rewrite Hk; eexists; (split; [reflexivity|]);
      split; simpl; try done; try congruence.
    + unfold rg_value. simpl. apply Hu in E. by rewrite E.
    + unfold rg_value in *. simpl. destruct (rg_user a); [done|]. by destruct E; apply Hu.
  - eexists. split; [reflexivity|]. split; simpl; try done.
  - eexists. split; [reflexivity|]. by split.
  - eexists. split; [reflexivity|]. by split.
  - unfold register_pm_silentmode_notifier, pm_silentmode_kernel_get, mbind, M_bind, gets, when. rewrite Hv.
    destruct (Z.eqb_spec (rg_value a) MODE_SILENT) as [E|E]; eexists; (split; [reflexivity|]).
    + rewrite decide_True by done. rewrite <- Hc. split; simpl; rewrite ?subscribe_insert by done; try done.
      * by apply subscribe_sorted.
      * by apply subscribe_nodup.
    + rewrite decide_False by done. by split.
  - unfold unregister_pm_silentmode_notifier, mbind, M_bind, get. rewrite <- Hc.
    destruct (decide (nb ∈ sl_chain s)) as [Hin|Hin]; eexists; (split; [reflexivity|]); split; simpl; try done.
    + by apply sorted_filter.
    + by apply NoDup_hlist_del.
    + by rewrite hlist_del_id.
  - eexists. split; [by rewrite <- Hv|]. by split.
Qed.

Fixpoint run_sls (stop : ptr -> bool) (ops : list sl_op) : M silent (list Z) :=
  match ops with
  | [] => mret []
  | o :: ops => r ← run_sl stop o; l ← run_sls stop ops; mret (r :: l)
  end.

Fixpoint spec_run (stop : ptr -> bool) (ops : list sl_op) (a : reg) : list Z * reg :=
  match ops with
  | [] => ([], a)
  | o :: ops => let x := spec_step stop o a in let y := spec_run stop ops x.2 in (x.1 :: y.1, y.2)
  end.

(** What user space wrote last, and the last level a driver reported. *)
Definition last_store (ops : list sl_op) : option Z :=
  last (omap (fun o => match o with OpStore (Some v) => Some (s32 v) | _ => None end) ops).
Definition last_level (ops : list sl_op) : option Z :=
  last (omap (fun o => match o with OpDriver v => Some (Z.lxor (s32 v) 1) | _ => None end) ops).

Lemma last_cons_default {A} (x : A) l : last (x :: l) = Some (default x (last l)).
Proof. by rewrite last_cons; destruct (last l). Qed.

Lemma spec_run_values stop ops a :
  rg_user (spec_run stop ops a).2 = match last_store ops with Some v => Some v | None => rg_user a end /\
  rg_kern (spec_run stop ops a).2 = default (rg_kern a) (last_level ops) /\
  rg_hw (spec_run stop ops a).2 = default (rg_hw a) (last_level ops).
Proof.
  unfold last_store, last_level. revert a. induction ops as [|o ops IH]; intros a; [done|].
  cbn [spec_run]. destruct (IH (spec_step stop o a).2) as (E1 & E2 & E3). cbn [fst snd]. rewrite E1, E2, E3.
  destruct o as [v|[v|]| | | |]; cbn [omap list_omap spec_step fst snd rg_user rg_kern rg_hw];
    rewrite ?last_cons_default; split_and!; try done; by destruct (last _).
Qed.

Lemma run_refines stop ops s a :
  refines s a -> exists s', run_sls stop ops s = Ok (spec_run stop ops a).1 s' /\ refines s' (spec_run stop ops a).2.
Proof.
  revert s a. induction ops as [|o ops IH]; intros s a Hr; [by exists s|].
  destruct (step_refines stop o s a Hr) as (s1 & E1 & Hr1). destruct (IH s1 _ Hr1) as (s2 & E2 & Hr2).
  exists s2. split; [|done]. cbn [run_sls]. rewrite (bind_eq _ _ _ _ _ E1), (bind_eq _ _ _ _ _ E2). done.
Qed.

(** The module after a successful initialisation. *)
Definition reg0 (mode : Z) : reg :=
  let silent := (mode =? MODE_SILENT) || (mode =? - MODE_SILENT) in
  {| rg_user := None; rg_kern := if silent then 1 else 0;
     rg_hw := if silent then MODE_GPIO_HIGH else MODE_GPIO_LOW; rg_subs := []; rg_heard := [] |}.

(** C11: the module implements a register that the hardware drives and user
    space may override for good.  Whatever mode the command line set, once the
    module is initialised every sequence of driver updates, sysfs writes and
    notifier calls returns exactly what the abstract register [spec_run]
    returns, and calls the same subscribers in the same order.  So the mode
    is what user space wrote last, if it ever wrote, and the inverse of the
    last level a driver reported otherwise; the hardware state always is the
    inverse of that level. *)
Theorem silent_refines stop mode ops :
  let m := if mode =? 0 then MODE_NON_SILENT else mode in
  exists s0 s', pm_silentmode_init true 0 (silent0 <| sl_mode := mode |>) = Ok 0 s0 /\
    run_sls stop ops s0 = Ok (spec_run stop ops (reg0 m)).1 s' /\
    refines s' (spec_run stop ops (reg0 m)).2 /\
    sl_enable s' = default (default (rg_kern (reg0 m)) (last_level ops)) (last_store ops) /\
    sl_hw_state s' = default (rg_hw (reg0 m)) (last_level ops).
Proof.
  intros m. pose proof CONTROL_DISABLED_zero as Hz.
  assert (exists s0, pm_silentmode_init true 0 (silent0 <| sl_mode := mode |>) = Ok 0 s0 /\ refines s0 (reg0 m)) as (s0 & E0 & Hr0).
  { unfold pm_silentmode_init, pm_silentmode_kernel_set, mbind, M_bind, get, when, reg0, m. simpl.
    destruct (mode =? 0); simpl; rewrite Hz;
      match goal with |- context [if ?b then _ else _] => destruct b end; eexists; (split; [reflexivity|]);
      split; simpl; try done; constructor. }
  destruct (run_refines stop ops s0 _ Hr0) as (s' & E & Hr). exists s0, s'.
  destruct (spec_run_values stop ops (reg0 m)) as (E1 & E2 & E3).
  split_and!; try done.
  - rewrite (rf_value _ _ Hr). unfold rg_value. rewrite E1, E2. simpl. by destruct (last_store ops).
  - by rewrite (rf_hw _ _ Hr), E3.
Qed.
End machine.

(** ** The hardware monitor *)

Section monitor.
Context `{SH : silent_mode_h, !silent_mode_ok SH}.
Variable stop : ptr -> bool.

Fixpoint run_mons (evs : list mon_event) : M monitor () :=
  match evs with
  | [] => mret ()
  | ev :: evs => mon_event_run stop ev;; run_mons evs
  end.

(** The power transitions of a trace alternate; [awake] is the state before it. *)
Fixpoint legal (awake : bool) (evs : list mon_event) : bool :=
  match evs with
  | [] => true
  | EvSuspend :: evs => awake && legal false evs
  | EvResume _ :: evs => negb awake && legal true evs
  | _ :: evs => legal awake evs
  end.

(** A bound device whose interrupt stays disabled after the next resume. *)
Definition deaf (awake : bool) (x : monitor) : Prop :=
  is_Some (mo_drvdata x) /\ mo_pending x = false /\ (if awake then 1 else 2) <= mo_depth x.

Lemma deaf_run evs awake x :
  legal awake evs = true -> deaf awake x ->
  exists x', run_mons evs x = Ok () x' /\ sl_hw_state (mo_silent x') = sl_hw_state (mo_silent x) /\
    mo_pending x' = false.
Proof.
  revert awake x. induction evs as [|ev evs IH]; intros awake x Hl (Hd & Hp & Hdep); [by exists x|].
  assert (forall awake' x1, mon_event_run stop ev x = Ok () x1 -> legal awake' evs = true -> deaf awake' x1 ->
    sl_hw_state (mo_silent x1) = sl_hw_state (mo_silent x) ->
    exists x', run_mons (ev :: evs) x = Ok () x' /\ sl_hw_state (mo_silent x') = sl_hw_state (mo_silent x) /\
      mo_pending x' = false) as Hstep.
  { intros awake' x1 E Hl' Hd' Eh. destruct (IH awake' x1 Hl' Hd') as (x' & E' & Eh' & Hp').
    exists x'. cbn [run_mons]. rewrite (bind_eq _ _ _ _ _ E). split; [done|]. by rewrite Eh', Eh. }
  destruct x as [s [info|] irq depth pending]; [|by destruct Hd]. simpl in Hp, Hdep. subst pending.
  destruct ev as [|level|val| |level]; simpl in Hl.
  - apply (Hstep awake {| mo_silent := s; mo_drvdata := Some info; mo_irq := irq; mo_depth := depth; mo_pending := false |});
      [|done|by split_and!|done].
    unfold mon_event_run, mbind, M_bind, get. simpl.
    rewrite (proj2 (Z.eqb_neq depth 0)) by (destruct awake; lia). by rewrite andb_false_r.
  - eapply (Hstep awake); [reflexivity|done| |done]. split_and!; [by eexists|done|exact Hdep].
  - destruct val as [v|]; (eapply (Hstep awake); [reflexivity|done| |done]; split_and!; [by eexists|done|exact Hdep]).
  - apply andb_true_iff in Hl as [-> Hl]. eapply (Hstep false); [reflexivity|done| |done].
    split_and!; [by eexists|done|]. simpl. lia.
  - apply andb_true_iff in Hl as [Ha Hl]. destruct awake; [done|].
    unfold silent_mode_resume_early in Hstep. destruct (Z.eqb_spec level 0) as [->|Hne].
    + eapply (Hstep true); [reflexivity|done| |done]. split_and!; [by eexists|done|]. simpl. lia.
    + eapply (Hstep true); [|done| |].
      { unfold mon_event_run, silent_mode_resume_early, silent_mode_enable_monitor, mbind, M_bind, gets. simpl.
        rewrite (proj2 (Z.eqb_neq level 0)) by done. reflexivity. }
      { split_and!; [by eexists|done|]. simpl. lia. }
      done.
Qed.

(** C16: a resume while the GPIO is low stops the monitor for good.
    [silent_mode_resume_early] then leaves the interrupt disabled, and no
    later resume makes up for it: whatever edges, timers, sysfs writes and
    (alternating) power transitions follow, no work is ever queued again and
    the hardware state stays what it was.  A device that was not suspended,
    in contrast, follows its GPIO: after an edge the work stores the inverse
    of the level, as the mode too unless user space took control, and calls
    the subscribers. *)
Theorem resume_low_goes_deaf x evs level :
  is_Some (mo_drvdata x) -> mo_pending x = false -> mo_irq x = true -> mo_depth x = 0 -> sl_kobj (mo_silent x) = true ->
  legal true evs = true ->
  (exists x', run_mons (EvSuspend :: EvResume 0 :: evs) x = Ok () x' /\
     sl_hw_state (mo_silent x') = sl_hw_state (mo_silent x) /\ mo_pending x' = false) /\
  (exists x', run_mons [EvEdge; EvTimer level] x = Ok () x' /\
     sl_hw_state (mo_silent x') = Z.lxor (s32 level) 1 /\
     sl_enable (mo_silent x') = (if sl_userspace_cntrl (mo_silent x) =? 0 then Z.lxor (s32 level) 1 else sl_enable (mo_silent x)) /\
     sl_called (mo_silent x') = reverse (call_chain (sl_chain (mo_silent x)) stop) ++ sl_called (mo_silent x)).
Proof.
  intros [info Hd] Hp Hi Hz Hk Hl. destruct x as [s dd irq depth pend]. simpl in *. subst. split.
  - destruct (deaf_run evs true {| mo_silent := s; mo_drvdata := Some info; mo_irq := true; mo_depth := 1; mo_pending := false |} Hl)
      as (x' & E & Eh & Hp); [by split_and!; [eexists| |]|].
    by exists x'.
  - unfold run_mons, mon_event_run, silent_mode_handler_work_func, pm_silentmode_update, pm_silentmode_kernel_set, sysfs_notify,
      on_silent, zoom, mbind, M_bind, get, gets, put, when, modify, mret, M_ret. simpl.
    destruct (sl_userspace_cntrl s =? 0); simpl; rewrite Hk; eexists; (split; [reflexivity|]); by split_and!.
Qed.

(** A forced mode makes suspend fault.  With a forced mode on the command
    line the probe succeeds without driver data, and the next suspend reads
    through the missing pointer, as does a resume. *)
Theorem forced_mode_suspend_faults e x level :
  sl_mode (mo_silent x) < 0 -> mo_drvdata x = None ->
  silent_mode_probe e x = Ok 0 x /\ silent_mode_suspend_late x = Fault NullDeref /\
  silent_mode_resume_early level x = Fault NullDeref.
Proof.
  intros Hm Hd. unfold silent_mode_suspend_late, silent_mode_resume_early, mbind, M_bind, gets. rewrite Hd.
  split; [|done]. unfold silent_mode_probe, forced_mode_enforced, on_silent, zoom, mbind, M_bind. simpl.
  rewrite (proj2 (Z.ltb_lt _ 0) Hm). by destruct x.
Qed.
End monitor.
