(* ===== verification/SilentDemo.v ===== *)
(** * Concrete runs of silent boot and its monitor *)
From S2P Require Import Prelude Silent Monitor SilentFacts.
From Stdlib Require Import Ascii.

#[export] Instance demo_silent_h : silent_mode_h :=
  {| MODE_SILENT := 1; MODE_NON_SILENT := 2; MODE_GPIO_LOW := 0; MODE_GPIO_HIGH := 1;
     USERSPACE_CONTROL_DISABLED := 0; USERSPACE_CONTROL_ENABLED := 1 |}.

#[export] Instance demo_silent_ok : silent_mode_ok demo_silent_h.
Proof. by split. Qed.

(** " forcedsilent\n" on a cleared page. *)
Lemma param_set_correct_witness :
  silent_mode_param_set (str " forcedsilent " ++ NUL :: replicate 20 NUL) silent0 = Ok 0 (silent0 <| sl_mode := -1 |>).
Proof.
  destruct (param_set_correct (str " forcedsilent ") (replicate 20 NUL) silent0) as [E _].
  { intros Hin. vm_compute in Hin. repeat (apply elem_of_cons in Hin as [Hin|Hin]; [discriminate Hin|]).
    by apply elem_of_nil in Hin. }
  { apply Forall_replicate. left. reflexivity. }
  { simpl. lia. }
  { reflexivity. }
  exact E.
Defined.

(** A value shorter than 15 bytes is read past its end: the next word of the
    command line decides. *)
Lemma param_set_overreads :
  silent_mode_param_set (str "x" ++ NUL :: str "silent" ++ replicate 20 NUL) silent0 = Ok 0 (silent0 <| sl_mode := 1 |>) /\
  silent_mode_param_set (str "x" ++ [NUL]) silent0 = Fault OutOfBounds.
Proof. split; vm_compute; reflexivity. Qed.

(** Reading the parameter does not report the mode. *)
Lemma param_get_constant : silent_mode_param_get = str "nonsilent".
Proof. reflexivity. Qed.

(** The hardware reports 0, user space writes 0, the hardware reports 0 again. *)
Lemma silent_refines_witness :
  exists s0 s', pm_silentmode_init true 0 (silent0 <| sl_mode := 1 |>) = Ok 0 s0 /\
    run_sls (fun _ => 0) (fun _ => false) [OpRegister 7; OpDriver 0; OpStore (Some 0); OpDriver 0; OpStatus] s0 = Ok [1; 0; 1; 0; 0] s' /\
    sl_enable s' = 0 /\ sl_hw_state s' = 1.
Proof.
  destruct (silent_refines (fun _ => 0) (fun _ => false) 1 [OpRegister 7; OpDriver 0; OpStore (Some 0); OpDriver 0; OpStatus])
    as (s0 & s' & E0 & E & _ & Ee & Eh).
  exists s0, s'. exact (conj E0 (conj E (conj Ee Eh))).
Defined.

(** A bound monitor with one subscriber. *)
Definition demo_monitor : monitor :=
  {| mo_silent := silent0 <| sl_mode := 2 |> <| sl_kobj := true |> <| sl_chain := [7%positive] |>;
     mo_drvdata := Some {| si_sgpio := 5; si_sirq := 40; si_active_low := false |};
     mo_irq := true; mo_depth := 0; mo_pending := false |}.

Lemma resume_low_goes_deaf_witness :
  exists x', run_mons (fun _ => false) [EvSuspend; EvResume 0; EvEdge; EvTimer 0; EvSuspend; EvResume 1; EvEdge; EvTimer 0]
    demo_monitor = Ok () x' /\ sl_hw_state (mo_silent x') = 0.
Proof.
  destruct (resume_low_goes_deaf (fun _ => false) demo_monitor [EvEdge; EvTimer 0; EvSuspend; EvResume 1; EvEdge; EvTimer 0] 0)
    as [(x' & E & Eh & _) _]; try reflexivity.
  { eexists. reflexivity. }
  exists x'. exact (conj E Eh).
Defined.

Definition demo_monitor_env : monitor_env :=
  {| mv_kzalloc := true; mv_named_gpio := 5; mv_gpio_request := 0; mv_gpio_is_valid := fun _ => true;
     mv_active_low := false; mv_to_irq := 40; mv_debounce := 0; mv_request_irq := 0 |}.

(** The command line of the first example. *)
Lemma forced_mode_suspend_faults_witness :
  let x := {| mo_silent := silent0 <| sl_mode := -1 |>; mo_drvdata := None; mo_irq := false; mo_depth := 0; mo_pending := false |} in
  silent_mode_probe demo_monitor_env x = Ok 0 x /\ silent_mode_suspend_late x = Fault NullDeref.
Proof.
  intros x. destruct (forced_mode_suspend_faults demo_monitor_env x 0) as (E1 & E2 & _); [reflexivity|reflexivity|].
  exact (conj E1 E2).
Defined.

(** A handler in a nested context: the probe returns 1. *)
Lemma nested_irq_probe :
  exists x', silent_mode_probe {| mv_kzalloc := true; mv_named_gpio := 5; mv_gpio_request := -16;
      mv_gpio_is_valid := fun _ => true; mv_active_low := false; mv_to_irq := 40; mv_debounce := 0; mv_request_irq := 1 |}
      (demo_monitor <| mo_drvdata := None |>) = Ok 1 x'.
Proof. eexists. vm_compute. reflexivity. Qed.
