(* ===== verification/Subsys.v ===== *)
(** * Virtual subsystem notification (subsystem_notif_virt.c)

    The driver forwards the state of subsystems between the hypervisor and
    the guest: for a native one, SSR notifications are written to a register;
    for a virtual one, an interrupt queues a work item that notifies the
    clients and writes their answer back. *)
From S2P Require Import Prelude.

Definition CLIENT_STATE_OFFSET : Z := 4.
Definition SUBSYS_STATE_OFFSET : Z := 8.

Inductive subsystem_type : Type := VIRTUAL | NATIVE.
#[export] Instance subsystem_type_eq_dec : EqDecision subsystem_type.
Proof. solve_decision. Defined.

Record subsystem_descriptor := {
  sd_name : string;
  sd_offset : Z;
  sd_type : subsystem_type;
  sd_ssr_irq : Z;
  sd_work : bool;              (* INIT_WORK was done *)
}.
#[export] Instance eta_sd : Eta subsystem_descriptor := fun s =>
  {| sd_name := sd_name s; sd_offset := sd_offset s; sd_type := sd_type s; sd_ssr_irq := sd_ssr_irq s;
     sd_work := sd_work s |}.

(** [ssr_wq]: not created yet, usable, or destroyed. *)
Inductive wq_state : Type := WqNone | WqLive | WqDestroyed.

Record subsys := {
  ss_heap : gmap ptr subsystem_descriptor;   (* devm allocations *)
  ss_list : list ptr;                        (* subsystem_descriptor_list *)
  ss_wq : wq_state;
  ss_notifiers : list ptr;                   (* blocks registered with the SSR core *)
  ss_irqs : list ptr;                        (* devm interrupts, by descriptor *)
  ss_queue : list ptr;                       (* work queued *)
  ss_regs : gmap Z Z;                        (* the registers from base_reg on *)
}.
#[export] Instance eta_subsys : Eta subsys := fun s =>
  {| ss_heap := ss_heap s; ss_list := ss_list s; ss_wq := ss_wq s; ss_notifiers := ss_notifiers s;
     ss_irqs := ss_irqs s; ss_queue := ss_queue s; ss_regs := ss_regs s |}.

Definition subsys0 : subsys :=
  {| ss_heap := ∅; ss_list := []; ss_wq := WqNone; ss_notifiers := []; ss_irqs := []; ss_queue := []; ss_regs := ∅ |}.

(** A child of the device-tree node, and what the kernel answers for it. *)
Record child := {
  cd_kzalloc : bool;
  cd_name : option string;
  cd_offset : option Z;
  cd_type : option string;
  cd_register : bool;          (* qcom_register_ssr_notifier *)
  cd_irq : Z;                  (* of_irq_get_byname *)
  cd_request_irq : Z;
}.

Definition sd_load (p : ptr) : M subsys subsystem_descriptor := fun s =>
  match ss_heap s !! p with Some d => Ok d s | None => Fault UseAfterFree end.
Definition sd_upd (p : ptr) (f : subsystem_descriptor -> subsystem_descriptor) : M subsys () := fun s =>
  match ss_heap s !! p with
  | Some d => Ok () (s <| ss_heap := <[p := f d]> (ss_heap s) |>)
  | None => Fault UseAfterFree
  end.

(** ** Handlers *)

(** [notify] is [qcom_notify_ssr_clients] of the subsystem of that name. *)
Definition subsystem_notif_wq_func (notify : string -> Z -> Z) (p : ptr) : M subsys () :=
  d ← sd_load p;
  s ← get;
  let state := s32 (default 0 (ss_regs s !! sd_offset d)) in
  put (s <| ss_regs := <[sd_offset d + CLIENT_STATE_OFFSET := u32 (notify (sd_name d) state)]> (ss_regs s) |>).

Definition subsystem_state_callback (p : ptr) (value : Z) : M subsys () :=
  d ← sd_load p;
  modify (fun s => s <| ss_regs := <[sd_offset d + SUBSYS_STATE_OFFSET := u32 value]> (ss_regs s) |>).

(** [queue_work], which does nothing for work already queued. *)
Definition subsystem_restart_irq_handler (p : ptr) : M subsys () :=
  d ← sd_load p;
  s ← get;
  match ss_wq s with
  | WqNone => fail NullDeref
  | WqDestroyed => fail UseAfterFree
  | WqLive =>
    if negb (sd_work d) then fail Uninitialised
    else when (bool_decide (p ∉ ss_queue s)) (put (s <| ss_queue := ss_queue s ++ [p] |>))
  end.

(** ** [get_resources] *)

(** [kzalloc] leaves the type 0, which is [VIRTUAL]. *)
Definition read_type (s : string) : subsystem_type := if bool_decide (s = "native"%string) then NATIVE else VIRTUAL.

Definition zero_sd : subsystem_descriptor :=
  {| sd_name := ""; sd_offset := 0; sd_type := VIRTUAL; sd_ssr_irq := 0; sd_work := false |}.

(** The [switch] on the type. *)
Definition attach_child (c : child) (p : ptr) : M subsys Z :=
  d ← sd_load p;
  match sd_type d with
  | NATIVE =>
    if negb (cd_register c) then mret (- EINVAL)
    else
      modify (fun s => s <| ss_notifiers := ss_notifiers s ++ [p] |>);;
      modify (fun s => s <| ss_list := ss_list s ++ [p] |>);;
      mret 0
  | VIRTUAL =>
    sd_upd p (fun d => d <| sd_ssr_irq := cd_irq c |>);;
    if cd_irq c <? 0 then mret (- EINVAL)
    else
      when (cd_request_irq c =? 0) (modify (fun s => s <| ss_irqs := ss_irqs s ++ [p] |>));;
      sd_upd p (fun d => d <| sd_work := true |>);;
      mret 0
  end.

(** One turn of the loop. *)
Definition get_child (c : child) : M subsys Z :=
  if negb (cd_kzalloc c) then mret (- ENOMEM)
  else
    s ← get;
    let p := new_ptr (ss_heap s) in
    put (s <| ss_heap := <[p := zero_sd]> (ss_heap s) |>);;
    match cd_name c, cd_offset c, cd_type c with
    | None, _, _ => mret (- EINVAL)
    | Some name, None, _ => sd_upd p (fun d => d <| sd_name := name |>);; mret (- EINVAL)
    | Some name, Some off, None => sd_upd p (fun d => d <| sd_name := name |> <| sd_offset := off |>);; mret (- EINVAL)
    | Some name, Some off, Some ty =>
      sd_upd p (fun d => d <| sd_name := name |> <| sd_offset := off |> <| sd_type := read_type ty |>);;
      attach_child c p
    end.

Fixpoint get_children (l : list child) : M subsys Z :=
  match l with
  | [] => mret 0
  | c :: l =>
    err ← get_child c;
    if negb (err =? 0) then mret err else get_children l
  end.

(** [ioremap] is whether the registers can be mapped. *)
Definition get_resources (ioremap : bool) (l : list child) : M subsys Z :=
  if negb ioremap then mret (- ENOMEM) else get_children l.

Fixpoint release_loop (l : list ptr) : M subsys () :=
  match l with
  | [] => mret ()
  | p :: l =>
    sd_load p;;
    modify (fun s => s <| ss_notifiers := hlist_del p (ss_notifiers s) |>);;
    modify (fun s => s <| ss_list := hlist_del p (ss_list s) |>);;
    release_loop l
  end.
Definition release_resources : M subsys () := l ← gets ss_list; release_loop l.

(** [destroy_workqueue] runs what is queued, then frees the queue. *)
Fixpoint drain (notify : string -> Z -> Z) (l : list ptr) : M subsys () :=
  match l with
  | [] => mret ()
  | p :: l => subsystem_notif_wq_func notify p;; drain notify l
  end.
Definition destroy_workqueue (notify : string -> Z -> Z) : M subsys () :=
  s ← get;
  match ss_wq s with
  | WqLive =>
    drain notify (ss_queue s);;
    modify (fun s => s <| ss_queue := [] |> <| ss_wq := WqDestroyed |>)
  | WqNone => fail NullDeref
  | WqDestroyed => fail DoubleFree
  end.

(** ** Probe and remove *)

Definition subsys_notif_virt_probe (notify : string -> Z -> Z) (wq ioremap : bool) (l : list child) : M subsys Z :=
  if negb wq then modify (fun s => s <| ss_wq := WqNone |>);; mret (- ENOMEM)
  else
    modify (fun s => s <| ss_wq := WqLive |>);;
    ret ← get_resources ioremap l;
    when (negb (ret =? 0)) (destroy_workqueue notify);;
    mret ret.

Definition subsys_notif_virt_remove (notify : string -> Z -> Z) : M subsys Z :=
  destroy_workqueue notify;;
  release_resources;;
  mret 0.

(** What the driver core does after a failed probe and after a remove: devm
    interrupts and memory go. *)
Definition devres_release_all : M subsys () := modify (fun s => s <| ss_irqs := [] |> <| ss_heap := ∅ |>).

(** An SSR event of a registered subsystem, and an interrupt of a virtual one. *)
Definition ssr_event (p : ptr) (value : Z) : M subsys () :=
  s ← get; when (bool_decide (p ∈ ss_notifiers s)) (subsystem_state_callback p value).
Definition irq_event (p : ptr) : M subsys () :=
  s ← get; when (bool_decide (p ∈ ss_irqs s)) (subsystem_restart_irq_handler p).

(** The worker thread takes the first work item. *)
Definition run_work (notify : string -> Z -> Z) : M subsys () :=
  s ← get;
  match ss_queue s with
  | [] => mret ()
  | p :: q => put (s <| ss_queue := q |>);; subsystem_notif_wq_func notify p
  end.
