(* ===== verification/SubsysFacts.v ===== *)
(** * What the virtual subsystem driver guarantees

    Probing attaches exactly the described children; a probed device serves
    any sequence of events and leaves nothing behind when it is removed; a
    probe that fails half-way, and the order of [subsys_notif_virt_remove],
    leave handlers on freed objects. *)
From S2P Require Import Prelude Subsys.

(** ** What the device tree asks for *)

Definition is_native (c : child) : bool := match cd_type c with Some t => bool_decide (t = "native"%string) | None => false end.

(** The error of a child, 0 when it can be attached. *)
Definition child_err (c : child) : Z :=
  if negb (cd_kzalloc c) then - ENOMEM
  else if bool_decide (is_Some (cd_name c)) && bool_decide (is_Some (cd_offset c)) && bool_decide (is_Some (cd_type c))
          && (if is_native c then cd_register c else 0 <=? cd_irq c)
       then 0 else - EINVAL.

(** The children attached: those before the first that fails. *)
Fixpoint good (l : list child) : list child :=
  match l with
  | [] => []
  | c :: l => if child_err c =? 0 then c :: good l else []
  end.
Fixpoint first_err (l : list child) : Z :=
  match l with
  | [] => 0
  | c :: l => if child_err c =? 0 then first_err l else child_err c
  end.

(** The descriptor of an attached child. *)
Definition describe (c : child) : subsystem_descriptor :=
  {| sd_name := default ""%string (cd_name c); sd_offset := default 0 (cd_offset c);
     sd_type := if is_native c then NATIVE else VIRTUAL;
     sd_ssr_irq := if is_native c then 0 else cd_irq c;
     sd_work := negb (is_native c) |}.

Definition has_irq (c : child) : bool := negb (is_native c) && (cd_request_irq c =? 0).

(** The pointers of the children that satisfy [f]. *)
Definition those (f : child -> bool) (pc : list (ptr * child)) : list ptr := (filter (fun x => f x.2 = true) pc).*1.

Lemma those_cons f p c pc : those f ((p, c) :: pc) = (if f c then [p] else []) ++ those f pc.
Proof. unfold those. rewrite filter_cons. simpl. destruct (f c); [by rewrite decide_True|by rewrite decide_False]. Qed.
Lemma elem_of_those f pc p : p ∈ those f pc <-> exists c, (p, c) ∈ pc /\ f c = true.
Proof.
  unfold those. rewrite list_elem_of_fmap. split.
  - intros ([? c] & -> & [? ?]%list_elem_of_filter). by exists c.
  - intros (c & Hc & E). exists (p, c). split; [done|]. by apply list_elem_of_filter.
Qed.

Lemma those_NoDup f pc : NoDup pc.*1 -> NoDup (those f pc).
Proof.
  induction pc as [|[p c] pc IH]; [done|]. intros [Hp Hd]%NoDup_cons. rewrite those_cons.
  destruct (f c); cbn; [|by apply IH]. apply NoDup_cons. split; [|by apply IH].
  intros (c' & Hc & _)%elem_of_those. apply Hp. by apply (list_elem_of_fmap_2 fst) in Hc.
Qed.

(** [s'] is [s] with the children of [pc] attached. *)
Record attached (pc : list (ptr * child)) (s s' : subsys) : Prop := {
  at_nodup : NoDup pc.*1;
  at_fresh : Forall (fun p => ss_heap s !! p = None) pc.*1;
  at_heap : Forall (fun x => ss_heap s' !! x.1 = Some (describe x.2)) pc;
  at_old : ss_heap s ⊆ ss_heap s';
  at_list : ss_list s' = ss_list s ++ those is_native pc;
  at_notifiers : ss_notifiers s' = ss_notifiers s ++ those is_native pc;
  at_irqs : ss_irqs s' = ss_irqs s ++ those has_irq pc;
  at_wq : ss_wq s' = ss_wq s;
  at_queue : ss_queue s' = ss_queue s;
  at_regs : ss_regs s' = ss_regs s;
}.

Lemma attached_nil s s' :
  ss_heap s ⊆ ss_heap s' -> ss_list s' = ss_list s -> ss_notifiers s' = ss_notifiers s -> ss_irqs s' = ss_irqs s ->
  ss_wq s' = ss_wq s -> ss_queue s' = ss_queue s -> ss_regs s' = ss_regs s -> attached [] s s'.
Proof. intros. split; cbn; rewrite ?app_nil_r; try done; constructor. Qed.

Lemma attached_cons p c pc s s1 s' : attached [(p, c)] s s1 -> attached pc s1 s' -> attached ((p, c) :: pc) s s'.
Proof.
  intros [_ F1 H1 O1 L1 N1 I1 W1 Q1 R1] [D2 F2 H2 O2 L2 N2 I2 W2 Q2 R2]. simpl in *.
  apply Forall_cons in F1 as [F1 _], H1 as [H1 _]. simpl in H1. rewrite those_cons in L1, N1, I1.
  change (those _ []) with (@nil ptr) in L1, N1, I1. rewrite app_nil_r in L1, N1, I1.
  split; cbn [fmap list_fmap fst]; rewrite ?those_cons, ?app_assoc; try congruence.
  - constructor; [|done]. intros Hp. rewrite Forall_forall in F2. specialize (F2 _ Hp). simpl in F2. congruence.
  - constructor; [done|]. eapply Forall_impl; [exact F2|]. intros q Hq. by apply (lookup_weaken_None _ (ss_heap s1)).
  - constructor; [|done]. cbn. by apply (lookup_weaken (ss_heap s1)).
  - by trans (ss_heap s1).
Qed.

(** ** One child *)

Lemma sd_upd_run s p d f :
  ss_heap s !! p = Some d -> sd_upd p f s = Ok () (s <| ss_heap := <[p := f d]> (ss_heap s) |>).
Proof. intros E. unfold sd_upd. by rewrite E. Qed.

Lemma attached_one s p c h l n i :
  ss_heap s !! p = None -> h = <[p := describe c]> (ss_heap s) ->
  l = ss_list s ++ (if is_native c then [p] else []) -> n = ss_notifiers s ++ (if is_native c then [p] else []) ->
  i = ss_irqs s ++ (if has_irq c then [p] else []) ->
  attached [(p, c)] s {| ss_heap := h; ss_list := l; ss_wq := ss_wq s; ss_notifiers := n; ss_irqs := i;
                         ss_queue := ss_queue s; ss_regs := ss_regs s |}.
Proof.
  intros Hp -> -> -> ->. split; rewrite ?those_cons; cbn -[those]; change (those _ []) with (@nil ptr); rewrite ?app_nil_r; try done.
  - apply NoDup_singleton.
  - by apply Forall_singleton.
  - apply Forall_singleton. cbn. by rewrite lookup_insert_eq.
  - by apply insert_subseteq.
Qed.

(** Runs the monad's own steps. *)
Ltac run := cbv [mbind M_bind mret M_ret get gets put modify fail when sd_load sd_upd upd]; cbn [ss_heap ss_list ss_wq ss_notifiers ss_irqs ss_queue ss_regs upd
  sd_name sd_offset sd_type sd_ssr_irq sd_work]; rewrite ?lookup_insert_eq.

Ltac attach_tac :=
  rewrite ?insert_insert_eq; unfold describe, has_irq, is_native; cbn;
  repeat match goal with E : @eq bool _ _ |- _ => rewrite E end; cbn; rewrite ?app_nil_r; done.

Lemma get_child_runs c s :
  exists s', get_child c s = Ok (child_err c) s'
    /\ (if child_err c =? 0 then exists p, attached [(p, c)] s s' else attached [] s s').
Proof.
  pose proof (new_ptr_None (ss_heap s)) as Hn. unfold get_child, child_err.
  destruct c as [k nm off ty reg irq req]. cbn [cd_kzalloc cd_name cd_offset cd_type cd_register cd_irq].
  destruct k; cbn [negb]; [|by eexists; split; [reflexivity|apply attached_nil]].
  destruct nm as [nm|], off as [off|], ty as [ty|]; unfold attach_child; cbn; do 3 run.
  2-8: eexists; split; [reflexivity|apply attached_nil; try done; cbn; rewrite ?insert_insert_eq; by apply insert_subseteq].
  unfold read_type, describe, has_irq, is_native. cbn. destruct (bool_decide (ty = "native"%string)) eqn:E; do 2 run.
  - destruct reg; cbn; (eexists; split; [reflexivity|]).
    + exists (new_ptr (ss_heap s)). apply attached_one; attach_tac.
    + apply attached_nil; try done. cbn. rewrite ?insert_insert_eq. by apply insert_subseteq.
  - rewrite Z.ltb_antisym. destruct (0 <=? irq); cbn [negb].
    + destruct (req =? 0) eqn:Er; do 3 run; (eexists; split; [reflexivity|]); exists (new_ptr (ss_heap s));
        apply attached_one; attach_tac.
    + eexists; split; [reflexivity|]. apply attached_nil; try done. cbn. rewrite ?insert_insert_eq. by apply insert_subseteq.
Qed.

Lemma get_children_runs l s :
  exists ps s', length ps = length (good l) /\ get_children l s = Ok (first_err l) s' /\ attached (zip ps (good l)) s s'.
Proof.
  revert s. induction l as [|c l IH]; intros s; [exists [], s; split_and!; [done|done|by apply attached_nil]|].
  cbn [get_children good first_err]. destruct (get_child_runs c s) as (s1 & E & H). rewrite (bind_eq _ _ _ _ _ E).
  destruct (child_err c =? 0); cbn [negb]; [|by exists [], s1].
  destruct H as [p H]. destruct (IH s1) as (ps & s' & Hl & E' & H').
  exists (p :: ps), s'. cbn. split_and!; [lia|done|]. by apply (attached_cons _ _ _ _ s1).
Qed.

Lemma first_err_0 l : first_err l = 0 <-> good l = l.
Proof.
  induction l as [|c l IH]; cbn; [done|]. destruct (Z.eqb_spec (child_err c) 0); [|done]. rewrite IH. split; [by intros ->|by intros [= ->]].
Qed.

(** The device as it is bound: nothing is attached yet. *)
Definition fresh_device (s : subsys) : Prop :=
  ss_heap s = ∅ /\ ss_list s = [] /\ ss_notifiers s = [] /\ ss_irqs s = [] /\ ss_queue s = [].

Lemma probe_runs notify l s :
  fresh_device s ->
  exists ps s', length ps = length (good l)
    /\ subsys_notif_virt_probe notify true true l s = Ok (first_err l) s'
    /\ attached (zip ps (good l)) (s <| ss_wq := if first_err l =? 0 then WqLive else WqDestroyed |>) s'.
Proof.
  intros (Hh & Hl & Hn & Hi & Hq). unfold subsys_notif_virt_probe. cbn [negb].
  rewrite (bind_eq _ _ _ () (s <| ss_wq := WqLive |>)) by done. unfold get_resources. cbn [negb].
  destruct (get_children_runs l (s <| ss_wq := WqLive |>)) as (ps & s' & El & E & H).
  rewrite (bind_eq _ _ _ _ _ E). destruct (first_err l =? 0) eqn:E0; cbn [negb when].
  - by exists ps, s'.
  - exists ps, (s' <| ss_queue := [] |> <| ss_wq := WqDestroyed |>). split; [done|]. destruct H. split.
    + unfold when, destroy_workqueue. run. rewrite at_wq0, at_queue0. cbn. rewrite Hq. done.
    + by split.
Qed.

(** C18: Probing attaches the children in the order of the device tree up to
    the first that cannot be attached, whose error it returns. Every attached
    child has a descriptor of its own with the name, offset and type the tree
    gives (a type that is neither string is taken for virtual); exactly the
    native ones are registered for SSR events and listed, exactly the virtual
    ones whose interrupt could be requested have a handler; the work queue
    survives exactly when probing succeeds. *)
Theorem subsys_probe_exact notify l s :
  fresh_device s ->
  exists ps s', let pc := zip ps (good l) in
    length ps = length (good l) /\ NoDup ps
    /\ subsys_notif_virt_probe notify true true l s = Ok (first_err l) s'
    /\ Forall (fun x => ss_heap s' !! x.1 = Some (describe x.2)) pc
    /\ ss_list s' = those is_native pc /\ ss_notifiers s' = those is_native pc /\ ss_irqs s' = those has_irq pc
    /\ (first_err l = 0 <-> good l = l)
    /\ (ss_wq s' = WqLive <-> first_err l = 0).
Proof.
  intros Hf. destruct (probe_runs notify l s Hf) as (ps & s' & Hl & E & [D F H O L N I W Q R]).
  destruct Hf as (Hh & Hl0 & Hn & Hi & Hq). exists ps, s'. cbn in *. rewrite Hl0 in L. rewrite Hn in N. rewrite Hi in I.
  rewrite fst_zip in D by lia. repeat split; try done; try apply first_err_0.
  - rewrite W. by destruct (Z.eqb_spec (first_err l) 0).
  - rewrite W. by intros ->.
Qed.

(** ** A bound device *)

Inductive event : Type :=
| Ssr (p : ptr) (value : Z)
| Irq (p : ptr)
| Work.

Definition serve (notify : string -> Z -> Z) (e : event) : M subsys () :=
  match e with
  | Ssr p v => ssr_event p v
  | Irq p => irq_event p
  | Work => run_work notify
  end.
Fixpoint serve_all (notify : string -> Z -> Z) (es : list event) : M subsys () :=
  match es with
  | [] => mret ()
  | e :: es => serve notify e;; serve_all notify es
  end.

(** What the handlers rely on. *)
Record ready (s : subsys) : Prop := {
  rd_wq : ss_wq s = WqLive;
  rd_nodup : NoDup (ss_list s);
  rd_listed : ss_notifiers s = ss_list s;
  rd_live : forall p, p ∈ ss_list s -> is_Some (ss_heap s !! p);
  rd_irq : forall p, p ∈ ss_irqs s -> exists d, ss_heap s !! p = Some d /\ sd_work d = true;
  rd_queue : forall p, p ∈ ss_queue s -> is_Some (ss_heap s !! p);
}.

(** The registers a device with these descriptors may write. *)
Definition owned (h : gmap ptr subsystem_descriptor) (a : Z) : Prop :=
  exists p d, h !! p = Some d /\ (a = sd_offset d + CLIENT_STATE_OFFSET \/ a = sd_offset d + SUBSYS_STATE_OFFSET).

(** Only registers and the queue change. *)
Definition serves (s s' : subsys) : Prop :=
  ss_heap s' = ss_heap s /\ ss_list s' = ss_list s /\ ss_notifiers s' = ss_notifiers s /\ ss_irqs s' = ss_irqs s
  /\ ss_wq s' = ss_wq s /\ forall a, ~ owned (ss_heap s) a -> ss_regs s' !! a = ss_regs s !! a.

#[export] Instance serves_preorder : PreOrder serves.
Proof.
  split; [by intros s; repeat split|]. intros s1 s2 s3 (H1 & L1 & N1 & I1 & W1 & R1) (H2 & L2 & N2 & I2 & W2 & R2).
  split_and!; try congruence. intros a Ha. rewrite R2, R1; [done..|]. by rewrite H1.
Qed.

Lemma ready_serves s s' :
  ready s -> serves s s' -> (forall p, p ∈ ss_queue s' -> is_Some (ss_heap s !! p)) -> ready s'.
Proof. intros [] (H & L & N & I & W & _) Hq. split; rewrite ?H, ?L, ?N, ?I, ?W; done. Qed.

Lemma serves_write s p d o v :
  ss_heap s !! p = Some d -> o = CLIENT_STATE_OFFSET \/ o = SUBSYS_STATE_OFFSET ->
  serves s (s <| ss_regs := <[sd_offset d + o := v]> (ss_regs s) |>).
Proof.
  intros Hp Ho. split_and!; try done. intros a Ha. cbn. rewrite lookup_insert_ne; [done|].
  intros <-. apply Ha. exists p, d. destruct Ho as [->| ->]; auto.
Qed.

Lemma wq_func_runs notify p d s :
  ss_heap s !! p = Some d ->
  exists s', subsystem_notif_wq_func notify p s = Ok () s' /\ serves s s' /\ ss_queue s' = ss_queue s.
Proof.
  intros Hp. unfold subsystem_notif_wq_func, sd_load. eexists. split; [by run; rewrite Hp|].
  split; [|done]. apply (serves_write s p d _ _ Hp). auto.
Qed.

Lemma serve_runs notify e s : ready s -> exists s', serve notify e s = Ok () s' /\ serves s s' /\ ready s'.
Proof.
  intros Hr. destruct e as [p v|p|]; cbn [serve].
  - unfold ssr_event. rewrite (bind_eq _ _ _ s s) by done. case_bool_decide as Hp; [|by exists s].
    rewrite (rd_listed s Hr) in Hp. destruct (rd_live s Hr p Hp) as [d E].
    assert (serves s (s <| ss_regs := <[sd_offset d + SUBSYS_STATE_OFFSET := u32 v]> (ss_regs s) |>)) as Hs by (eapply serves_write; eauto).
    eexists. split; [unfold when, subsystem_state_callback; run; by rewrite E|]. split; [exact Hs|].
    apply (ready_serves s); [done..|]. apply (rd_queue s Hr).
  - unfold irq_event. rewrite (bind_eq _ _ _ s s) by done. case_bool_decide as Hp; [|by exists s].
    destruct (rd_irq s Hr p Hp) as (d & E & Ew). unfold when at 1, subsystem_restart_irq_handler.
    rewrite (bind_eq _ _ _ d s) by (unfold sd_load; by rewrite E). rewrite (bind_eq _ _ _ s s) by done.
    rewrite (rd_wq s Hr), Ew. cbn [negb]. case_bool_decide as Hq; [|by exists s].
    eexists. split; [reflexivity|]. assert (serves s (s <| ss_queue := ss_queue s ++ [p] |>)) as Hs by by split_and!.
    split; [exact Hs|]. apply (ready_serves s); [done..|]. cbn. intros q [Hq'| ->%list_elem_of_singleton]%elem_of_app; [by apply (rd_queue s Hr)|]. by rewrite E.
  - unfold run_work. rewrite (bind_eq _ _ _ s s) by done. destruct (ss_queue s) as [|p q] eqn:Eq; [by exists s|].
    destruct (rd_queue s Hr p) as [d E]; [rewrite Eq; left|].
    rewrite (bind_eq _ _ _ () (s <| ss_queue := q |>)) by done.
    set (s1 := s <| ss_queue := q |>). destruct (wq_func_runs notify p d s1 E) as (s' & E' & Hs & Hq).
    assert (serves s s') as Hs' by (trans s1; [by split_and!|done]).
    exists s'. split; [exact E'|split; [done|]]. apply (ready_serves s); [done..|]. rewrite Hq. cbn. intros r Hr'.
    apply (rd_queue s Hr). rewrite Eq. by right.
Qed.

Lemma serve_all_runs notify es s : ready s -> exists s', serve_all notify es s = Ok () s' /\ serves s s' /\ ready s'.
Proof.
  revert s. induction es as [|e es IH]; intros s Hr; cbn [serve_all]; [by exists s|].
  destruct (serve_runs notify e s Hr) as (s1 & E1 & S1 & R1). rewrite (bind_eq _ _ _ _ _ E1).
  destruct (IH s1 R1) as (s2 & E2 & S2 & R2). exists s2. split; [done|split; [by trans s1|done]].
Qed.

(** ** Removal *)

Lemma drain_runs notify l s :
  (forall p, p ∈ l -> is_Some (ss_heap s !! p)) ->
  exists s', drain notify l s = Ok () s' /\ serves s s'.
Proof.
  revert s. induction l as [|p l IH]; intros s Hl; cbn [drain]; [by exists s|].
  destruct (Hl p) as [d E]; [left|]. destruct (wq_func_runs notify p d s E) as (s1 & E1 & S1 & _).
  rewrite (bind_eq _ _ _ _ _ E1). destruct (IH s1) as (s2 & E2 & S2).
  - intros q Hq. destruct S1 as (-> & _). apply Hl. by right.
  - exists s2. split; [done|by trans s1].
Qed.

Lemma release_loop_runs s :
  NoDup (ss_list s) -> ss_notifiers s = ss_list s -> (forall p, p ∈ ss_list s -> is_Some (ss_heap s !! p)) ->
  release_loop (ss_list s) s = Ok () (s <| ss_notifiers := [] |> <| ss_list := [] |>).
Proof.
  remember (ss_list s) as l eqn:El. revert s El. induction l as [|p l IH]; intros s El Hd Hn Hl; cbn [release_loop].
  - destruct s; cbn in *. by subst.
  - destruct (Hl p) as [d E]; [left|]. rewrite (bind_eq _ _ _ d s) by (unfold sd_load; by rewrite E).
    rewrite !(bind_eq (modify _) _ _ _ _ eq_refl).
    rewrite IH; [done|cbn -[hlist_del]; by rewrite <- El, hlist_del_head|by apply NoDup_cons in Hd as [_ ?]|cbn -[hlist_del]; by rewrite Hn, hlist_del_head|].
    cbn. intros q Hq. apply Hl. by right.
Qed.

(** Removing a bound device. *)
Lemma remove_runs notify s :
  ready s ->
  exists s', subsys_notif_virt_remove notify s = Ok 0 s' /\ ss_heap s' = ss_heap s /\ ss_list s' = [] /\ ss_notifiers s' = []
    /\ ss_irqs s' = ss_irqs s /\ ss_queue s' = [] /\ ss_wq s' = WqDestroyed
    /\ forall a, ~ owned (ss_heap s) a -> ss_regs s' !! a = ss_regs s !! a.
Proof.
  intros Hr. unfold subsys_notif_virt_remove.
  destruct (drain_runs notify (ss_queue s) s (rd_queue s Hr)) as (s1 & E1 & H1 & L1 & N1 & I1 & W1 & R1).
  set (s2 := s1 <| ss_queue := [] |> <| ss_wq := WqDestroyed |>).
  assert (destroy_workqueue notify s = Ok () s2) as E2.
  { unfold destroy_workqueue. rewrite (bind_eq _ _ _ s s) by done. rewrite (rd_wq s Hr), (bind_eq _ _ _ _ _ E1). done. }
  rewrite (bind_eq _ _ _ _ _ E2). unfold release_resources. rewrite (bind_eq _ _ _ () (s2 <| ss_notifiers := [] |> <| ss_list := [] |>)).
  - eexists. split; [reflexivity|]. cbn. by rewrite H1, I1.
  - rewrite (bind_eq (gets ss_list) _ _ _ _ eq_refl). apply release_loop_runs; cbn; rewrite ?L1, ?N1, ?H1; apply Hr.
Qed.

Lemma probe_ready pc s s' :
  fresh_device s -> attached pc (s <| ss_wq := WqLive |>) s' -> ready s'.
Proof.
  intros (Hh & Hl & Hn & Hi & Hq) [D F H O L N I W Q R]. cbn in *. rewrite Hl in L. rewrite Hn in N. rewrite Hi in I. cbn in L, N, I.
  rewrite Forall_forall in H. split; rewrite ?L, ?N, ?I, ?W, ?Q, ?Hq; try done.
  - by apply those_NoDup.
  - intros p (c & Hc & _)%elem_of_those. specialize (H _ Hc). cbn in H. by rewrite H.
  - intros p (c & Hc & Hi')%elem_of_those. specialize (H _ Hc). eexists. split; [exact H|]. cbn.
    unfold has_irq in Hi'. by destruct (is_native c).
  - by intros p ?%not_elem_of_nil.
Qed.

(** C17: A device all of whose children can be attached probes, serves any
    sequence of SSR events, interrupts and work items without fault, and
    writes only the client and state registers of its descriptors; removing
    it and releasing its devm resources then leaves no list entry, notifier,
    interrupt, queued work, descriptor or work queue. *)
Theorem subsys_life notify l es s :
  fresh_device s -> good l = l ->
  exists s1 s2 s3, subsys_notif_virt_probe notify true true l s = Ok 0 s1
    /\ serve_all notify es s1 = Ok () s2
    /\ (subsys_notif_virt_remove notify;; devres_release_all) s2 = Ok () s3
    /\ fresh_device s3 /\ ss_wq s3 = WqDestroyed
    /\ forall a, ~ owned (ss_heap s1) a -> ss_regs s3 !! a = ss_regs s !! a.
Proof.
  intros Hf Hg. destruct (probe_runs notify l s Hf) as (ps & s1 & _ & E1 & H1).
  assert (first_err l = 0) as E0 by by apply first_err_0. rewrite E0 in E1, H1. cbn in H1.
  assert (ready s1) as R1 by by eapply probe_ready.
  destruct (serve_all_runs notify es s1 R1) as (s2 & E2 & S2 & R2).
  destruct (remove_runs notify s2 R2) as (s3 & E3 & Hh & Hl & Hn & Hi & Hq & Hw & Hr).
  exists s1, s2, (s3 <| ss_irqs := [] |> <| ss_heap := ∅ |>). split; [done|]. split; [done|].
  split; [by rewrite (bind_eq _ _ _ _ _ E3)|]. split; [by repeat split|]. split; [done|].
  intros a Ha. destruct S2 as (Eh & _ & _ & _ & _ & Er). cbn. rewrite Hr by by rewrite Eh.
  rewrite Er by done. by rewrite (at_regs _ _ _ H1).
Qed.

Lemma ssr_event_dangles p v s : p ∈ ss_notifiers s -> ss_heap s = ∅ -> ssr_event p v s = Fault UseAfterFree.
Proof.
  intros Hp Hh. unfold ssr_event. rewrite (bind_eq _ _ _ s s) by done. rewrite bool_decide_true by done.
  unfold when, subsystem_state_callback. run. by rewrite Hh.
Qed.

Lemma irq_event_dangles p s :
  p ∈ ss_irqs s -> is_Some (ss_heap s !! p) -> ss_wq s = WqDestroyed -> irq_event p s = Fault UseAfterFree.
Proof.
  intros Hp [d E] Hw. unfold irq_event. rewrite (bind_eq _ _ _ s s) by done. rewrite bool_decide_true by done.
  unfold when, subsystem_restart_irq_handler. run. by rewrite E, Hw.
Qed.

(** C19: When a child after a native one cannot be attached, the notifier of
    the native one stays registered and listed although its memory is released with the
    device, so its next SSR event writes through a freed descriptor. And
    [subsys_notif_virt_remove] destroys the work queue before the interrupts
    are released: an interrupt in between queues work on a freed queue. *)
Theorem subsys_dangling_handlers notify l s c v :
  fresh_device s -> c ∈ good l ->
  (first_err l <> 0 -> is_native c = true ->
   exists p s1 s2, (subsys_notif_virt_probe notify true true l;; devres_release_all) s = Ok () s1
     /\ p ∈ ss_list s1 /\ ss_heap s1 !! p = None /\ ssr_event p v s1 = Fault UseAfterFree
     /\ subsys_notif_virt_probe notify true true l s = Ok (first_err l) s2 /\ ss_heap s2 !! p = Some (describe c))
  /\ (first_err l = 0 -> has_irq c = true ->
   exists p s1, (subsys_notif_virt_probe notify true true l;; subsys_notif_virt_remove notify) s = Ok 0 s1
     /\ ss_heap s1 !! p = Some (describe c) /\ irq_event p s1 = Fault UseAfterFree).
Proof.
  intros Hf Hc. destruct (probe_runs notify l s Hf) as (ps & s1 & Hps & E1 & H1).
  assert (exists p, (p, c) ∈ zip ps (good l)) as [p Hp].
  { rewrite <- (snd_zip ps (good l)) in Hc by lia. apply list_elem_of_fmap in Hc as ([p c'] & -> & ?). by exists p. }
  pose proof (at_heap _ _ _ H1) as Hh. rewrite Forall_forall in Hh. specialize (Hh _ Hp). cbn in Hh. split.
  - intros He Hn. assert (p ∈ those is_native (zip ps (good l))) as Hin by (apply elem_of_those; by exists c).
    exists p, (s1 <| ss_irqs := [] |> <| ss_heap := ∅ |>), s1. split; [by rewrite (bind_eq _ _ _ _ _ E1)|].
    destruct Hf as (_ & Hl & Hno & _).
    split; [cbn; rewrite (at_list _ _ _ H1); cbn; by rewrite Hl|]. split; [apply lookup_empty|].
    split; [|done]. apply ssr_event_dangles; [|done]. cbn. rewrite (at_notifiers _ _ _ H1). cbn. by rewrite Hno.
  - intros He Hi. rewrite He in H1, E1. assert (p ∈ those has_irq (zip ps (good l))) as Hin by (apply elem_of_those; by exists c).
    destruct (remove_runs notify s1 (probe_ready _ _ _ Hf H1)) as (s2 & E2 & Hh2 & _ & _ & Hi2 & _ & Hw2 & _).
    exists p, s2. split; [by rewrite (bind_eq _ _ _ _ _ E1)|]. rewrite Hh2. split; [done|].
    apply irq_event_dangles; [|by rewrite Hh2, Hh|done]. rewrite Hi2, (at_irqs _ _ _ H1).
    destruct Hf as (_ & _ & _ & Hi0 & _). cbn. by rewrite Hi0.
Qed.
