(* ===== verification/SubsysDemo.v ===== *)
(** * Virtual subsystem notification: concrete device trees *)
From S2P Require Import Prelude Subsys SubsysFacts.

Definition native_child : child :=
  {| cd_kzalloc := true; cd_name := Some "adsp"%string; cd_offset := Some 0; cd_type := Some "native"%string;
     cd_register := true; cd_irq := -1; cd_request_irq := 0 |}.
Definition virtual_child : child :=
  {| cd_kzalloc := true; cd_name := Some "modem"%string; cd_offset := Some 16; cd_type := Some "virtual"%string;
     cd_register := false; cd_irq := 40; cd_request_irq := 0 |}.
(** The node has no interrupt. *)
Definition broken_child : child :=
  {| cd_kzalloc := true; cd_name := Some "slpi"%string; cd_offset := Some 32; cd_type := Some "virtual"%string;
     cd_register := false; cd_irq := -1; cd_request_irq := 0 |}.
Definition answer (name : string) (state : Z) : Z := - state.

Lemma subsys0_fresh : fresh_device subsys0.
Proof. by repeat split. Qed.

(** A misspelt type makes a child virtual; a failed interrupt request is not noticed. *)
Lemma misspelt_type_virtual :
  match subsys_notif_virt_probe answer true true
          [native_child; {| cd_kzalloc := true; cd_name := Some "adsp"%string; cd_offset := Some 0;
                            cd_type := Some "Native"%string; cd_register := true; cd_irq := 3; cd_request_irq := - EINVAL |}] subsys0 with
  | Ok r s => r = 0 /\ length (ss_list s) = 1%nat /\ ss_irqs s = [] /\ size (filter (fun x => sd_type x.2 = VIRTUAL) (ss_heap s)) = 1%nat
  | _ => False
  end.
Proof. vm_compute. done. Qed.

(** An interrupt, then the worker: the clients' answer is written back. *)
Lemma interrupt_answered :
  match (subsys_notif_virt_probe answer true true [virtual_child];; serve_all answer [Irq 1%positive; Irq 1%positive; Work])
          (subsys0 <| ss_regs := {[16 := 7]} |>) with
  | Ok _ s => ss_regs s !! 20 = Some (2 ^ 32 - 7) /\ ss_queue s = []
  | _ => False
  end.
Proof. vm_compute. done. Qed.

Lemma subsys_probe_exact_witness :
  exists ps s', let pc := zip ps (good [native_child; virtual_child; broken_child; native_child]) in
    length ps = 2%nat /\ NoDup ps
    /\ subsys_notif_virt_probe answer true true [native_child; virtual_child; broken_child; native_child] subsys0 = Ok (- EINVAL) s'
    /\ ss_list s' = those is_native pc.
Proof.
  destruct (subsys_probe_exact answer [native_child; virtual_child; broken_child; native_child] subsys0 subsys0_fresh)
    as (ps & s' & H1 & H2 & H3 & _ & H4 & _).
  exists ps, s'. split; [exact H1|]. split; [exact H2|]. split; [exact H3|exact H4].
Defined.

Lemma subsys_life_witness :
  exists s1 s2 s3, subsys_notif_virt_probe answer true true [native_child; virtual_child] subsys0 = Ok 0 s1
    /\ serve_all answer [Ssr 1%positive 5; Irq 2%positive; Work; Irq 2%positive] s1 = Ok () s2
    /\ (subsys_notif_virt_remove answer;; devres_release_all) s2 = Ok () s3
    /\ fresh_device s3.
Proof.
  destruct (subsys_life answer [native_child; virtual_child] [Ssr 1%positive 5; Irq 2%positive; Work; Irq 2%positive] subsys0
              subsys0_fresh eq_refl) as (s1 & s2 & s3 & H1 & H2 & H3 & H4 & _).
  exists s1, s2, s3. split; [exact H1|]. split; [exact H2|]. split; [exact H3|exact H4].
Defined.

Lemma subsys_dangling_handlers_witness :
  (exists p s1, (subsys_notif_virt_probe answer true true [native_child; broken_child];; devres_release_all) subsys0 = Ok () s1
     /\ ssr_event p 2 s1 = Fault UseAfterFree)
  /\ exists p s1, (subsys_notif_virt_probe answer true true [virtual_child];; subsys_notif_virt_remove answer) subsys0 = Ok 0 s1
     /\ irq_event p s1 = Fault UseAfterFree.
Proof.
  split.
  - destruct (subsys_dangling_handlers answer [native_child; broken_child] subsys0 native_child 2 subsys0_fresh) as [H _].
    { vm_compute. left. }
    destruct (H ltac:(vm_compute; discriminate) ltac:(vm_compute; reflexivity)) as (p & s1 & s2 & H1 & _ & _ & H2 & _).
    exists p, s1. split; [exact H1|exact H2].
  - destruct (subsys_dangling_handlers answer [virtual_child] subsys0 virtual_child 0 subsys0_fresh) as [_ H].
    { vm_compute. left. }
    destruct (H ltac:(vm_compute; reflexivity) ltac:(vm_compute; reflexivity)) as (p & s1 & H1 & _ & H2).
    exists p, s1. split; [exact H1|exact H2].
Defined.
