(* ===== verification/BootLog.v ===== *)
(** * The boot log in sysfs

    dump_boot_log.c: the log the boot loader left in reserved memory is mapped
    and shown as a file of sysfs.  The state holds the driver's static
    variables and a ledger of what it took from the kernel: the kobject, the
    references to two device-tree nodes, the mapping and the file. *)
From S2P Require Import Prelude Silent.
From Stdlib Require Import Ascii.

(** A [struct kobject] that is allocated. *)
Record kobject := { ko_in_sysfs : bool; ko_refs : Z }.

Record boot_log := {
  xbl_log_size : Z;
  kobj : bool;                        (* the pointer is not NULL *)
  parent : bool;
  node : bool;
  xbl_log_buf_addr : option bytes;    (* the bytes mapped there *)
  (* held from the kernel *)
  k_kobj : option kobject;
  k_parent_refs : Z;
  k_node_refs : Z;
  k_mapped : bool;
  k_bin_file : bool;
}.
#[export] Instance eta_boot_log : Eta boot_log := fun s =>
  {| xbl_log_size := xbl_log_size s; kobj := kobj s; parent := parent s; node := node s;
     xbl_log_buf_addr := xbl_log_buf_addr s; k_kobj := k_kobj s; k_parent_refs := k_parent_refs s;
     k_node_refs := k_node_refs s; k_mapped := k_mapped s; k_bin_file := k_bin_file s |}.

Definition boot_log0 : boot_log :=
  {| xbl_log_size := 0; kobj := false; parent := false; node := false; xbl_log_buf_addr := None;
     k_kobj := None; k_parent_refs := 0; k_node_refs := 0; k_mapped := false; k_bin_file := false |}.

(** What the kernel and the device tree answer; [lg_resource] is the memory of
    the uefi_log node. *)
Record log_env := {
  lg_kcalloc : bool;
  lg_kobject_add : Z;
  lg_parent : bool;
  lg_node : bool;
  lg_resource : option bytes;
  lg_memremap : bool;
  lg_bin_file : Z;
}.

(** ** What the driver calls *)

(** [kobject_init_and_add]: the object has one reference even if it fails. *)
Definition kobject_init_and_add (err : Z) : M boot_log Z :=
  modify (fun s => s <| k_kobj := Some {| ko_in_sysfs := err =? 0; ko_refs := 1 |} |>);; mret err.
Definition kobject_get : M boot_log () :=
  s ← get;
  match k_kobj s with
  | Some k => put (s <| k_kobj := Some {| ko_in_sysfs := ko_in_sysfs k; ko_refs := ko_refs k + 1 |} |>)
  | None => fail UseAfterFree
  end.
(** [kobject_del] takes the directory with its files out of sysfs. *)
Definition kobject_del : M boot_log () :=
  s ← get;
  if negb (kobj s) then mret ()
  else match k_kobj s with
  | Some k => put (s <| k_kobj := Some {| ko_in_sysfs := false; ko_refs := ko_refs k |} |> <| k_bin_file := false |>)
  | None => fail UseAfterFree
  end.
Definition kfree_kobj : M boot_log () :=
  s ← get;
  if negb (kobj s) then mret ()
  else match k_kobj s with
  | Some _ => put (s <| k_kobj := None |>)
  | None => fail DoubleFree
  end.
(** [of_find_node_by_name] gives up the reference to the node it starts from. *)
Definition of_find_node_by_name (found : bool) : M boot_log () :=
  modify (fun s => s <| k_parent_refs := k_parent_refs s - 1 |> <| node := found |>
                     <| k_node_refs := k_node_refs s + (if found then 1 else 0) |>).
Definition put_node : M boot_log () :=
  modify (fun s => if node s then s <| k_node_refs := k_node_refs s - 1 |> else s).
Definition put_parent : M boot_log () :=
  modify (fun s => if parent s then s <| k_parent_refs := k_parent_refs s - 1 |> else s).

(** ** The module *)

(** The error labels; each falls through to the next. *)
Definition node_fail : M boot_log Z := put_parent;; mret 1.
Definition remap_fail : M boot_log Z := put_node;; node_fail.
Definition kobj_fail : M boot_log Z := kobject_del;; kfree_kobj;; remap_fail.

(** From the search of the device tree on. *)
Definition map_log (e : log_env) : M boot_log Z :=
  modify (fun s => s <| parent := lg_parent e |> <| k_parent_refs := k_parent_refs s + (if lg_parent e then 1 else 0) |>);;
  if negb (lg_parent e) then kobj_fail
  else
    of_find_node_by_name (lg_node e);;
    if negb (lg_node e) then node_fail
    else match lg_resource e with
    | None => node_fail
    | Some mem =>
      let size := u64 (Z.of_nat (length mem) - 1) in
      modify (fun s => s <| xbl_log_size := size |>);;
      if negb (lg_memremap e) then remap_fail
      else
        modify (fun s => s <| xbl_log_buf_addr := Some (take (Z.to_nat size) mem) |> <| k_mapped := true |>);;
        if negb (lg_bin_file e =? 0) then kobj_fail
        else modify (fun s => s <| k_bin_file := true |>);; mret 0
    end.

Definition dump_boot_log_init (e : log_env) : M boot_log Z :=
  modify (fun s => s <| kobj := lg_kcalloc e |>);;
  if negb (lg_kcalloc e) then mret 1
  else
    err ← kobject_init_and_add (lg_kobject_add e);
    if negb (err =? 0) then kobj_fail
    else kobject_get;; map_log e.

Definition dump_boot_log_exit : M boot_log () := kobject_del;; kfree_kobj;; put_node;; put_parent.

(** [scnprintf(buf, count, "%s", addr)]: the string is read up to its NUL,
    and all of it but what does not fit is written. *)
Definition scnprintf_s (count : nat) (m : bytes) : M boot_log (list ascii) :=
  if decide (NUL ∈ m) then mret (take (count - 1) (cstr m)) else fail OutOfBounds.

Definition xbl_log_show (offset : Z) (count : nat) : M boot_log (list ascii) :=
  s ← get;
  if offset <? xbl_log_size s then
    match xbl_log_buf_addr s with
    | None => fail NullDeref
    | Some m => scnprintf_s count (drop (Z.to_nat offset) m)
    end
  else mret [].

(** ** Facts *)

(** A process that reads the file [count] bytes at a time until it is told
    that it ends. *)
Fixpoint read_file (count fuel : nat) (offset : Z) : M boot_log (list ascii) :=
  match fuel with
  | O => hang
  | S fuel' =>
    b ← xbl_log_show offset count;
    if decide (b = []) then mret []
    else rest ← read_file count fuel' (offset + Z.of_nat (length b)); mret (b ++ rest)
  end.

Lemma cstr_drop n m : (n <= length (cstr m))%nat -> cstr (drop n m) = drop n (cstr m).
Proof.
  revert m. induction n as [|n IH]; intros m Hn; [by rewrite !drop_0|]. destruct m as [|c m]; [done|].
  simpl in *. case_decide; [simpl in Hn; lia|]. simpl in Hn. apply IH. lia.
Qed.
(** The string ends before the memory does. *)
Lemma cstr_short m : NUL ∈ m -> (length (cstr m) < length m)%nat.
Proof.
  induction m as [|c m IH]; [by intros ?%not_elem_of_nil|]. intros Hin. simpl. case_decide; [simpl; lia|].
  apply elem_of_cons in Hin as [?|Hin]; [by subst|]. specialize (IH Hin). simpl. lia.
Qed.
Lemma NUL_drop n m : NUL ∈ m -> (n <= length (cstr m))%nat -> NUL ∈ drop n m.
Proof.
  revert m. induction n as [|n IH]; intros m Hin Hn; [done|]. destruct m as [|c m]; [done|]. simpl in *.
  case_decide; [simpl in Hn; lia|]. apply elem_of_cons in Hin as [?|Hin]; [by subst|]. apply IH; [done|]. simpl in Hn. lia.
Qed.

Lemma read_file_from count fuel m off s :
  xbl_log_buf_addr s = Some m -> xbl_log_size s = Z.of_nat (length m) -> NUL ∈ m -> (2 <= count)%nat ->
  (off <= length (cstr m))%nat -> (length (cstr m) - off < fuel)%nat ->
  read_file count fuel (Z.of_nat off) s = Ok (drop off (cstr m)) s.
Proof.
  intros Ea Es Hnul Hc. revert off. induction fuel as [|fuel IH]; intros off Hoff Hf; [lia|]. cbn [read_file].
  pose proof (cstr_short m Hnul) as Hlen. unfold mbind at 1, M_bind at 1, xbl_log_show.
  erewrite bind_eq by done. rewrite Es, Ea. zdec. unfold scnprintf_s.
  rewrite Nat2Z.id, decide_True by (by apply NUL_drop). rewrite cstr_drop by done.
  unfold mret at 1, M_ret at 1. case_decide as He.
  - assert (length (drop off (cstr m)) = 0)%nat as H0.
    { apply (f_equal length) in He. rewrite length_take in He. simpl in He. lia. }
    by destruct (drop off (cstr m)).
  - assert (off < length (cstr m))%nat as Hlt.
    { destruct (decide (off = length (cstr m))) as [->|]; [|lia]. by rewrite drop_all, take_nil in He. }
    set (n := length (take (count - 1) (drop off (cstr m)))).
    assert (1 <= n <= length (cstr m) - off)%nat as Hn by (unfold n; rewrite length_take, length_drop; lia).
    rewrite <- Nat2Z.inj_add. erewrite bind_eq by (apply IH; lia). unfold mret, M_ret. f_equal.
    rewrite <- drop_drop. rewrite <- (take_drop n (drop off (cstr m))) at 3. f_equal.
    unfold n. rewrite length_take. destruct (decide (count - 1 <= length (drop off (cstr m)))%nat).
    + by rewrite Nat.min_l.
    + rewrite Nat.min_r, !take_ge by lia. done.
Qed.

(** C21: reading the file gives the log.  If the mapped memory holds a NUL, then
    a process that reads the file by any number of bytes from 2 on gets the
    text up to the first NUL, whole and in order, and then the end of the
    file.  By one byte at a time it gets nothing; and if there is no NUL in
    the mapping (the last byte of the reserved memory is left out) the first
    read runs past it. *)
Theorem boot_log_reads count m s :
  xbl_log_buf_addr s = Some m -> xbl_log_size s = Z.of_nat (length m) ->
  (NUL ∈ m -> (2 <= count)%nat -> read_file count (S (length m)) 0 s = Ok (cstr m) s) /\
  (NUL ∈ m -> (count < 2)%nat -> read_file count (S (length m)) 0 s = Ok [] s) /\
  ((NUL ∉ m) -> m <> [] -> read_file count (S (length m)) 0 s = Fault OutOfBounds).
Proof.
  intros Ea Es. split_and!.
  - intros Hn Hc. pose proof (cstr_short m Hn).
    change 0 with (Z.of_nat 0). by rewrite (read_file_from count (S (length m)) m 0 s Ea Es Hn Hc) by lia.
  - intros Hn Hc. pose proof (cstr_short m Hn). cbn [read_file]. unfold mbind, M_bind, xbl_log_show, mbind, M_bind, get.
    rewrite Es, Ea. zdec. unfold scnprintf_s. rewrite decide_True by done. simpl.
    replace (count - 1)%nat with 0%nat by lia. done.
  - intros Hn Hm. destruct m as [|c m]; [done|]. cbn [read_file]. unfold mbind, M_bind, xbl_log_show, mbind, M_bind, get.
    rewrite Es, Ea. zdec. unfold scnprintf_s. by rewrite decide_False.
Qed.

(** ** The ledger *)

(** The first step of [dump_boot_log_init] that fails. *)
Inductive log_failure :=
  NoMemory | NoObject | NoParent | NoNode | NoResource | NoMapping | NoFile.
Definition first_failure (e : log_env) : option log_failure :=
  if negb (lg_kcalloc e) then Some NoMemory
  else if negb (lg_kobject_add e =? 0) then Some NoObject
  else if negb (lg_parent e) then Some NoParent
  else if negb (lg_node e) then Some NoNode
  else if bool_decide (lg_resource e = None) then Some NoResource
  else if negb (lg_memremap e) then Some NoMapping
  else if negb (lg_bin_file e =? 0) then Some NoFile
  else None.

(** What is held from the kernel: the object, the references to the
    /reserved-memory and uefi_log nodes, the mapping, the file. *)
Definition ledger (s : boot_log) : option kobject * Z * Z * bool * bool :=
  (k_kobj s, k_parent_refs s, k_node_refs s, k_mapped s, k_bin_file s).

(** The object with its directory, and the second reference of [kobject_get]. *)
Definition shown_object : option kobject := Some {| ko_in_sysfs := true; ko_refs := 2 |}.

(** What is held when [dump_boot_log_init] returns. *)
Definition held_after_init (f : option log_failure) : option kobject * Z * Z * bool * bool :=
  match f with
  | None            => (shown_object,  0, 1, true,  true)
  | Some NoMemory   => (None,          0, 0, false, false)
  | Some NoObject   => (None,          0, 0, false, false)
  | Some NoParent   => (None,          0, 0, false, false)
  | Some NoNode     => (shown_object, -1, 0, false, false)
  | Some NoResource => (shown_object, -1, 1, false, false)
  | Some NoMapping  => (shown_object, -1, 0, false, false)
  | Some NoFile     => (None,         -1, 0, true,  false)
  end.

(** What is held when [dump_boot_log_exit] has run after that, or the fault
    it ends in. *)
Definition held_after_exit (f : option log_failure) : (option kobject * Z * Z * bool * bool) + fault :=
  match f with
  | None            => inl (None, -1,  0, true,  false)
  | Some NoMemory   => inl (None,  0,  0, false, false)
  | Some NoNode     => inl (None, -2,  0, false, false)
  | Some NoResource => inl (None, -2,  0, false, false)
  | Some NoMapping  => inl (None, -2, -1, false, false)
  | Some NoObject | Some NoParent | Some NoFile => inr UseAfterFree
  end.

(** The exit function ends as the table says. *)
Definition exit_ends (f : option log_failure) (s : boot_log) : Prop :=
  match held_after_exit f with
  | inl l => exists s', dump_boot_log_exit s = Ok () s' /\ ledger s' = l
  | inr x => dump_boot_log_exit s = Fault x
  end.

(** The run has failed; tables and runs evaluate. *)
Ltac log_fails := eexists; split_and!; [done|done|done|unfold exit_ends; simpl; by try eexists].

(** C22: what the module holds.  [dump_boot_log_init] always returns, 0 exactly
    if no step fails and 1 (which the module loader does not take as an
    error) otherwise; and what it then holds, and what is left when the exit
    function has run, is exactly what the two tables give for the first step
    that failed.  If none did, the file is there and shows all of the reserved
    memory but its last byte; the exit function frees the object and the file
    but keeps the mapping, and gives back one reference to /reserved-memory
    too many.  If the object could not be added, /reserved-memory is missing or
    the file could not be created (with the mapping kept), the object is
    already freed and the exit function uses it after free.  If uefi_log is
    missing, has no resource or could not be mapped, the object and its empty
    directory stay, and /reserved-memory has lost a reference that was not the
    module's, and loses a second one to the exit function. *)
Theorem boot_log_ledger e :
  exists s, dump_boot_log_init e boot_log0 = Ok (if first_failure e is Some _ then 1 else 0) s /\
    ledger s = held_after_init (first_failure e) /\
    (first_failure e = None ->
       exists mem, lg_resource e = Some mem /\ ((0 < length mem)%nat -> Z.of_nat (length mem) < 2 ^ 64 ->
          xbl_log_buf_addr s = Some (take (length mem - 1) mem) /\ xbl_log_size s = Z.of_nat (length mem - 1))) /\
    exit_ends (first_failure e) s.
Proof.
  unfold dump_boot_log_init, first_failure. destruct (lg_kcalloc e); [|log_fails].
  unfold mbind, M_bind, kobject_init_and_add, mbind, M_bind, modify, mret, M_ret. simpl.
  destruct (lg_kobject_add e =? 0); simpl; [|log_fails].
  unfold map_log, mbind, M_bind, modify. destruct (lg_parent e); simpl; [|log_fails].
  destruct (lg_node e); simpl; [|log_fails]. destruct (lg_resource e) as [mem|]; simpl; [|log_fails].
  destruct (lg_memremap e); simpl; [|log_fails].
  destruct (lg_bin_file e =? 0); simpl; [|log_fails].
  eexists. split_and!; [done|done| |unfold exit_ends; simpl; by eexists]. intros _. exists mem.
  split; [done|]. intros Hl Hb. simpl. rewrite u64_id by lia. split; [do 2 f_equal|]; lia.
Qed.
