(* ===== verification/Print.v ===== *)
(** * Printing

    What the drivers use of the kernel's [printf] family: decimal and
    hexadecimal conversions of fixed width, and padding. *)
From S2P Require Import Prelude Silent.
From Stdlib Require Import Ascii.

(** ** Decimal *)

Definition digit (d : Z) : ascii := ascii_of_nat (Z.to_nat (48 + d)).

(** The decimal digits of a number of 32 bits: ten are enough. *)
Fixpoint utoa (fuel : nat) (n : Z) : list ascii :=
  match fuel with
  | O => []
  | S fuel' => if n <? 10 then [digit n] else utoa fuel' (n / 10) ++ [digit (n mod 10)]
  end.
(** [%u] and [%d]. *)
Definition fmt_u (n : Z) : list ascii := utoa 10 (u32 n).
Definition fmt_d (n : Z) : list ascii := if s32 n <? 0 then "-"%char :: utoa 10 (- s32 n) else utoa 10 (s32 n).

(** Reading digits. *)
Definition undigit (c : ascii) : Z := Z.of_nat (nat_of_ascii c) - 48.
Definition atou (l : list ascii) : Z := foldl (fun n c => 10 * n + undigit c) 0 l.
Definition atoi (l : list ascii) : Z :=
  match l with
  | c :: l' => if decide (c = "-"%char) then - atou l' else atou l
  | [] => 0
  end.
Definition is_digit (c : ascii) : Prop := 0 <= undigit c < 10.

Lemma undigit_digit d : 0 <= d < 10 -> undigit (digit d) = d.
Proof. intros Hd. unfold undigit, digit. rewrite nat_ascii_embedding by lia. lia. Qed.
Lemma utoa_digits fuel n : 0 <= n -> Forall is_digit (utoa fuel n).
Proof.
  revert n. induction fuel as [|fuel IH]; intros n Hn; [constructor|]. simpl.
  assert (forall d, 0 <= d < 10 -> Forall is_digit [digit d]) as Hd.
  { intros d Hd. constructor; [|constructor]. unfold is_digit. by rewrite undigit_digit. }
  destruct (Z.ltb_spec n 10); [apply Hd; lia|]. apply Forall_app. split; [apply IH; apply Z.div_pos; lia|].
  apply Hd. pose proof (Z.mod_pos_bound n 10). lia.
Qed.
Lemma utoa_length fuel n : (length (utoa fuel n) <= fuel)%nat.
Proof.
  revert n. induction fuel as [|fuel IH]; intros n; [done|]. simpl. destruct (n <? 10); simpl; [lia|].
  rewrite length_app. specialize (IH (n / 10)). simpl. lia.
Qed.
Lemma utoa_nonempty fuel n : utoa (S fuel) n <> [].
Proof. simpl. destruct (n <? 10); [done|]. by destruct (utoa fuel (n / 10)). Qed.
Lemma atou_utoa fuel n : 0 <= n < 10 ^ Z.of_nat fuel -> atou (utoa fuel n) = n.
Proof.
  revert n. induction fuel as [|fuel IH]; intros n Hn; [simpl in Hn; unfold atou; simpl; lia|]. cbn [utoa].
  destruct (Z.ltb_spec n 10) as [Hlt|Hge]; [unfold atou; simpl; rewrite undigit_digit; lia|].
  unfold atou. rewrite foldl_app. simpl. fold (atou (utoa fuel (n / 10))).
  pose proof (Z.mod_pos_bound n 10). pose proof (Z.div_mod n 10). rewrite undigit_digit by lia. rewrite IH; [lia|].
  split; [apply Z.div_pos; lia|]. apply Z.div_lt_upper_bound; [lia|].
  rewrite Nat2Z.inj_succ, Z.pow_succ_r in Hn by lia. lia.
Qed.
Lemma digit_not c x : is_digit c -> ~ is_digit x -> c <> x.
Proof. by intros ? ? ->. Qed.

Lemma fmt_u_spec n : 0 <= n < 2 ^ 32 -> atou (fmt_u n) = n /\ Forall is_digit (fmt_u n) /\ (length (fmt_u n) <= 10)%nat.
Proof.
  intros Hn. unfold fmt_u. rewrite u32_id by done. split_and!; [apply atou_utoa; simpl; lia|apply utoa_digits; lia|apply utoa_length].
Qed.
Lemma s32_range n : - 2 ^ 31 <= s32 n < 2 ^ 31.
Proof. unfold s32. pose proof (Z.mod_pos_bound (n + 2 ^ 31) (2 ^ 32)). lia. Qed.
Lemma fmt_d_spec n : atoi (fmt_d n) = s32 n /\ (length (fmt_d n) <= 11)%nat /\ Forall (fun c => is_digit c \/ c = "-"%char) (fmt_d n).
Proof.
  pose proof (s32_range n) as Hr. unfold fmt_d. destruct (Z.ltb_spec (s32 n) 0) as [Hlt|Hge].
  - pose proof (utoa_length 10 (- s32 n)). split_and!; [|cbn [length]; lia|].
    + unfold atoi. rewrite decide_True by done. rewrite atou_utoa by (simpl; lia). lia.
    + constructor; [by right|]. eapply Forall_impl; [apply (utoa_digits 10); lia|]. by left.
  - pose proof (utoa_length 10 (s32 n)). pose proof (utoa_digits 10 (s32 n) ltac:(lia)) as Hd. split_and!; [|lia|].
    + pose proof (atou_utoa 10 (s32 n) ltac:(simpl; lia)) as Ha. pose proof (utoa_nonempty 9 (s32 n)) as Hne.
      destruct (utoa 10 (s32 n)) as [|c l]; [done|]. unfold atoi. rewrite decide_False; [done|].
      apply Forall_cons in Hd as [Hd _]. intros ->. assert (undigit "-"%char = -3) by reflexivity. unfold is_digit in Hd. lia.
    + eapply Forall_impl; [exact Hd|]. by left.
Qed.

(** ** Hexadecimal *)

Definition xdigit (upper : bool) (d : Z) : ascii :=
  if d <? 10 then digit d else ascii_of_nat (Z.to_nat ((if upper then 55 else 87) + d)).
(** Sixteen digits are enough for 64 bits. *)
Fixpoint utox (upper : bool) (fuel : nat) (n : Z) : list ascii :=
  match fuel with
  | O => []
  | S fuel' => if n <? 16 then [xdigit upper n] else utox upper fuel' (n / 16) ++ [xdigit upper (n mod 16)]
  end.

(** [%zu], [%lX] and [%llX], [%X], [%x]. *)
Definition fmt_zu (n : Z) : list ascii := utoa 20 (u64 n).
Definition fmt_lX (n : Z) : list ascii := utox true 16 (u64 n).
Definition fmt_X (n : Z) : list ascii := utox true 8 (u32 n).
Definition fmt_x (n : Z) : list ascii := utox false 8 (u32 n).
(** A conversion with [-] and a width. *)
Definition ljust (width : nat) (s : list ascii) : list ascii := s ++ replicate (width - length s) " "%char.

Arguments utoa : simpl never.
Arguments fmt_u : simpl never.
Arguments fmt_d : simpl never.
Arguments utox : simpl never.
Arguments fmt_zu : simpl never.
Arguments fmt_lX : simpl never.
Arguments fmt_X : simpl never.
Arguments fmt_x : simpl never.
