(* ===== verification/Platform.v ===== *)
(** * The small platform drivers

    aop-set-ddr.c (a frequency cap sent to the power controller),
    socinfo_dt.c (the identity of the chip from the device tree),
    adsp_vote_smp2p.c (a vote for the audio DSP in shared memory) and
    wallpower_charger.c (a power supply that is always online).  Each has a
    Module with its static variables and what it holds from the kernel. *)
From S2P Require Import Prelude Silent Print.
From Stdlib Require Import Ascii.

(** ** Registration *)

(** What a module has registered with the platform bus. *)
Record registered := { rg_device : bool; rg_driver : bool }.
#[export] Instance eta_registered : Eta registered := fun s => {| rg_device := rg_device s; rg_driver := rg_driver s |}.

Definition register_device (err : Z) : M registered Z :=
  modify (fun s => s <| rg_device := err =? 0 |>);; mret err.
Definition register_driver (err : Z) : M registered Z :=
  modify (fun s => s <| rg_driver := err =? 0 |>);; mret err.
Definition unregister_device : M registered () :=
  s ← get; if rg_device s then put (s <| rg_device := false |>) else fail UseAfterFree.
Definition unregister_driver : M registered () :=
  s ← get; if rg_driver s then put (s <| rg_driver := false |>) else fail UseAfterFree.

(** ** aop-set-ddr.c *)

Module Ddr.
Definition MAX_MSG_SIZE : nat := 96.

(** [struct set_ddr_freq_data] and what the channel was asked to send. *)
Record ddr := {
  pkt_size : Z;
  pkt_buf : list ascii;              (* MAX_MSG_SIZE + 1 bytes *)
  mbox_sent : list (list ascii);     (* the messages, the last one first *)
  chan : bool;
  sysfs_file : bool;
}.
#[export] Instance eta_ddr : Eta ddr := fun s =>
  {| pkt_size := pkt_size s; pkt_buf := pkt_buf s; mbox_sent := mbox_sent s; chan := chan s; sysfs_file := sysfs_file s |}.

(** [snprintf(buf, n, text)] into a zeroed buffer of [size] bytes. *)
Definition snprintf_zeroed (size n : nat) (text : list ascii) : list ascii :=
  let t := take (n - 1) text in t ++ replicate (size - length t) NUL.

Definition ddr_text (freq : Z) : list ascii := str "{class:ddr, res:capped, val: " ++ fmt_d freq ++ str "}".

(** [parsed] is what [kstrtou32] makes of the text written, [send] the result
    of [mbox_send_message]. *)
Definition set_ddr_capped_freq_store (parsed : option Z) (send len : Z) : M ddr Z :=
  match parsed with
  | None => mret (- EINVAL)
  | Some freq =>
    modify (fun s => s <| pkt_buf := snprintf_zeroed (MAX_MSG_SIZE + 1) MAX_MSG_SIZE (ddr_text freq) |>);;
    s ← get;
    let size := Z.land (Z.of_nat (length (cstr (pkt_buf s))) + 3) (Z.lnot 3) in
    put (s <| pkt_size := size |>);;
    if Z.of_nat (length (pkt_buf s)) <? size then fail OutOfBounds
    else modify (fun s => if send <? 0 then s else s <| mbox_sent := take (Z.to_nat size) (pkt_buf s) :: mbox_sent s |>);;
    mret len
  end.

(** [kzalloc], [mbox_request_channel] (the error, if any) and
    [device_create_file] of the probe. *)
Definition set_ddr_freq_probe (kzalloc : bool) (request : option Z) (create : Z) : M ddr Z :=
  if negb kzalloc then mret (- ENOMEM)
  else match request with
  | Some err => mret err
  | None =>
    modify (fun s => s <| chan := true |>);;
    modify (fun s => s <| sysfs_file := (create =? 0) |>);;
    mret 0
  end.
Definition set_ddr_freq_remove : M ddr Z :=
  modify (fun s => s <| sysfs_file := false |>);;
  modify (fun s => s <| chan := false |>);;
  mret 0.
End Ddr.

(** ** socinfo_dt.c *)

Module Socinfo.
Definition SOCINFO_MAJOR (ver : Z) : Z := Z.land (Z.shiftr ver 16) 0xffff.
Definition SOCINFO_MINOR (ver : Z) : Z := Z.land ver 0xffff.

(** [struct soc_device_attribute]; a string that could not be allocated is
    [None]. *)
Record soc_attr := {
  sa_family : list ascii;
  sa_machine : option (list ascii);
  sa_soc_id : option (list ascii);
  sa_revision : option (list ascii);
}.

Record soc := {
  root_refs : Z;                     (* references held to the root node *)
  soc_dev : option soc_attr;         (* the registered device *)
}.
#[export] Instance eta_soc : Eta soc := fun s => {| root_refs := root_refs s; soc_dev := soc_dev s |}.

(** What the kernel answers; [le32_to_cpu] depends on the machine. *)
Record soc_env := {
  so_kzalloc : bool;
  so_msm_id : Z + (Z * Z);           (* the error, or both words *)
  so_msm_name : option (list ascii);
  so_soc_id : bool;                  (* devm_kasprintf succeeds *)
  so_revision : bool;
  so_register : Z;
  le32_to_cpu : Z -> Z;
}.

Definition qcom_dt_socinfo_probe (e : soc_env) : M soc Z :=
  if negb (so_kzalloc e) then mret (- ENOMEM)
  else
    modify (fun s => s <| root_refs := root_refs s + 1 |>);;
    match so_msm_id e with
    | inl ret => mret ret
    | inr (val0, val1) =>
      let machine := so_msm_name e in
      modify (fun s => s <| root_refs := root_refs s - 1 |>);;
      let soc_id := le32_to_cpu e val0 in
      let revision := le32_to_cpu e val1 in
      let attr := {| sa_family := str "Snapdragon"; sa_machine := machine;
                     sa_soc_id := if so_soc_id e then Some (fmt_d soc_id) else None;
                     sa_revision := if so_revision e
                       then Some (fmt_u (SOCINFO_MAJOR revision) ++ str "." ++ fmt_u (SOCINFO_MINOR revision)) else None |} in
      if so_register e =? 0 then modify (fun s => s <| soc_dev := Some attr |>);; mret 0
      else mret (so_register e)
    end.

Definition qcom_dt_socinfo_remove : M soc Z := modify (fun s => s <| soc_dev := None |>);; mret 0.

(** The results of [platform_driver_register] and
    [platform_device_register_simple]. *)
Definition qcom_dt_socinfo_init (driver device : Z) : M registered Z :=
  ret ← register_driver driver;
  if negb (ret =? 0) then mret ret
  else
    err ← register_device device;
    if negb (err =? 0) then unregister_driver;; mret err else mret 0.
Definition qcom_dt_socinfo_exit : M registered () := unregister_device;; unregister_driver.
End Socinfo.

(** ** adsp_vote_smp2p.c *)

Module Vote.
Definition AWAKE_BITS : Z := 3.
Definition ADSP_VOTE : Z := 2.
Definition ADSP_UNVOTE : Z := 1.

(** The word in shared memory, whose bits under the mask are set. *)
Record vote := {
  smem_word : Z;
  smem_held : bool;                  (* state, from qcom_smem_state_get *)
  debug_dir : bool;
  debug_file : bool;
}.
#[export] Instance eta_vote : Eta vote := fun s =>
  {| smem_word := smem_word s; smem_held := smem_held s; debug_dir := debug_dir s; debug_file := debug_file s |}.

Definition qcom_smem_state_update_bits (mask value : Z) : M vote () :=
  s ← get;
  if negb (smem_held s) then fail NullDeref
  else put (s <| smem_word := Z.lor (Z.ldiff (smem_word s) mask) (Z.land value mask) |>).

Definition adsp_manual_vote_op (v : Z) : M vote Z :=
  (if v =? 0 then qcom_smem_state_update_bits AWAKE_BITS ADSP_UNVOTE
   else if v =? 1 then qcom_smem_state_update_bits AWAKE_BITS ADSP_VOTE
   else mret ());;
  mret 0.
Definition send_adsp_manual_unvote : M vote Z := qcom_smem_state_update_bits AWAKE_BITS ADSP_UNVOTE;; mret 0.
Definition send_adsp_manual_vote : M vote Z := qcom_smem_state_update_bits AWAKE_BITS ADSP_VOTE;; mret 0.

(** [get] is the error or the bit number [qcom_smem_state_get] stores in
    [ret], the only value [ret] ever has. *)
Definition adsp_vote_smp2p_probe (get : Z + Z) (dir file : bool) : M vote Z :=
  match get with
  | inl err => mret err
  | inr ret =>
    modify (fun s => s <| smem_held := true |>);;
    if negb dir then mret ret
    else
      modify (fun s => s <| debug_dir := true |> <| debug_file := file |>);;
      when (negb file) (modify (fun s => s <| debug_dir := false |>));;
      mret 0
  end.

Definition adsp_vote_smp2p_init (driver : Z) : M registered Z :=
  ret ← register_driver driver;
  if negb (ret =? 0) then mret ret else mret 0.
End Vote.

(** ** wallpower_charger.c *)

Module Wall.
Inductive power_supply_property := POWER_SUPPLY_PROP_ONLINE | POWER_SUPPLY_PROP_CURRENT_MAX | POWER_SUPPLY_PROP_VOLTAGE_MAX
| POWER_SUPPLY_PROP_other (n : Z).
Definition wall_properties : list power_supply_property :=
  [POWER_SUPPLY_PROP_ONLINE; POWER_SUPPLY_PROP_CURRENT_MAX; POWER_SUPPLY_PROP_VOLTAGE_MAX].

(** The error code, and the value if it is set. *)
Definition wall_get_property (psp : power_supply_property) : Z * option Z :=
  match psp with
  | POWER_SUPPLY_PROP_ONLINE => (0, Some 1)
  | _ => (- EINVAL, None)
  end.

(** The registered supply; an error is kept in [wall_psy]. *)
Record wall := { drvdata : bool; wall_psy : option (Z + unit); supply : bool }.
#[export] Instance eta_wall : Eta wall := fun s => {| drvdata := drvdata s; wall_psy := wall_psy s; supply := supply s |}.

Definition wallpower_probe (kzalloc : bool) (register : Z) : M wall Z :=
  if negb kzalloc then mret (- ENOMEM)
  else
    modify (fun s => s <| drvdata := true |>);;
    if negb (register =? 0) then
      modify (fun s => s <| wall_psy := Some (inl register) |>);; mret register
    else
      modify (fun s => s <| wall_psy := Some (inr ()) |> <| supply := true |>);; mret 0.
Definition wallpower_remove : M wall Z :=
  s ← get;
  match wall_psy s with
  | Some (inr _) => put (s <| supply := false |>);; mret 0
  | _ => fail NullDeref
  end.

Definition wallpower_init (device driver : Z) : M registered Z :=
  register_device device;; register_driver driver;; mret 0.
Definition wallpower_exit : M registered () := unregister_device;; unregister_driver.
End Wall.
