(* ===== verification/PlatformFacts.v ===== *)
(** * The properties of the small platform drivers *)
From S2P Require Import Prelude Silent Print Platform.
From Stdlib Require Import Ascii.
Import Ddr Socinfo Vote Wall.

(** ** The message to the power controller *)

Lemma cstr_pad t n : NUL ∉ t -> cstr (t ++ replicate n NUL) = t.
Proof.
  induction t as [|c t IH]; intros Hn; simpl; [by destruct n|].
  apply not_elem_of_cons in Hn as [Hc Hn]. rewrite decide_False by done. by rewrite IH.
Qed.

Lemma ddr_text_no_nul freq : NUL ∉ ddr_text freq.
Proof.
  unfold ddr_text. rewrite !elem_of_app. intros [H|[H|H]].
  - vm_compute in H. by repeat (apply elem_of_cons in H as [?|H]; [done|]); apply not_elem_of_nil in H.
  - destruct (fmt_d_spec freq) as (_ & _ & Hd). apply (Forall_forall _ _) with (x := NUL) in Hd; [|done].
    destruct Hd as [[Hd _]|Hd]; [by vm_compute in Hd|done].
  - vm_compute in H. by apply elem_of_cons in H as [?|?%not_elem_of_nil].
Qed.
Lemma ddr_text_length freq : (length (ddr_text freq) <= 41)%nat.
Proof.
  destruct (fmt_d_spec freq) as (_ & Hl & _). unfold ddr_text. rewrite !length_app.
  change (length (str "{class:ddr, res:capped, val: ")) with 29%nat. change (length (str "}")) with 1%nat. lia.
Qed.

(** Rounding up to a multiple of 4. *)
Lemma align4 n : 0 <= n -> exists k, Z.land (n + 3) (Z.lnot 3) = n + k /\ 0 <= k <= 3 /\ (n + k) mod 4 = 0.
Proof.
  intros Hn. rewrite <- Z.ldiff_land. change 3 with (Z.ones 2) at 2. rewrite Z.ldiff_ones_r by lia.
  rewrite Z.shiftl_mul_pow2, Z.shiftr_div_pow2 by lia. change (2 ^ 2) with 4.
  pose proof (Z.div_mod (n + 3) 4). pose proof (Z.mod_pos_bound (n + 3) 4).
  exists (4 * ((n + 3) / 4) - n). split; [lia|]. split; [lia|].
  replace (n + (4 * ((n + 3) / 4) - n)) with ((n + 3) / 4 * 4) by lia. by rewrite Z.mod_mul.
Qed.

(** C23: the message that caps the DDR frequency.  A number that parses is sent
    as the text "{class:ddr, res:capped, val: N}", cut short never, padded
    with zero bytes to a multiple of 4 as the controller expects, in at most
    44 of the 97 bytes of the buffer; the write reports success even if the
    message could not be sent.  N, read back, is the frequency only below
    2^31: larger ones are printed as negative numbers. *)
Theorem ddr_message freq send len s :
  0 <= freq < 2 ^ 32 ->
  exists pad s', set_ddr_capped_freq_store (Some freq) send len s = Ok len s' /\
    pkt_size s' = Z.of_nat (length (ddr_text freq ++ replicate pad NUL)) /\
    (pad <= 3)%nat /\ pkt_size s' mod 4 = 0 /\ pkt_size s' <= 44 /\
    mbox_sent s' = (if send <? 0 then mbox_sent s else (ddr_text freq ++ replicate pad NUL) :: mbox_sent s) /\
    atoi (fmt_d freq) = (if freq <? 2 ^ 31 then freq else freq - 2 ^ 32).
Proof.
  intros Hf. pose proof (ddr_text_length freq) as Hl. pose proof (ddr_text_no_nul freq) as Hn.
  destruct (align4 (Z.of_nat (length (ddr_text freq)))) as (k & Ek & Hk & Hm); [lia|].
  remember (ddr_text freq) as t eqn:Et0.
  assert (snprintf_zeroed (MAX_MSG_SIZE + 1) MAX_MSG_SIZE t = t ++ replicate (97 - length t) NUL) as Eb.
  { unfold snprintf_zeroed, MAX_MSG_SIZE. rewrite take_ge by lia. done. }
  exists (Z.to_nat k). eexists. split.
  { unfold set_ddr_capped_freq_store. rewrite <- Et0. erewrite bind_eq by done. erewrite bind_eq by done. rewrite Eb.
    set (b := t ++ replicate (97 - length t) NUL). change (pkt_buf (s <| pkt_buf := b |>)) with b.
    unfold b. rewrite cstr_pad, Ek by done. erewrite bind_eq by done. rewrite length_app, length_replicate. zdec. done. }
  assert (take (Z.to_nat (Z.of_nat (length t) + k)) (t ++ replicate (97 - length t) NUL) = t ++ replicate (Z.to_nat k) NUL) as Et.
  { rewrite take_app, take_ge, take_replicate by lia. do 2 f_equal. lia. }
  assert (length (t ++ replicate (Z.to_nat k) NUL) = Z.to_nat (Z.of_nat (length t) + k)) as El
    by (rewrite length_app, length_replicate; lia).
  split_and!.
  - rewrite El. destruct (send <? 0); simpl; lia.
  - lia.
  - by destruct (send <? 0).
  - destruct (send <? 0); simpl; lia.
  - destruct (send <? 0); simpl; [done|]. by rewrite Et.
  - destruct (fmt_d_spec freq) as [-> _]. destruct (Z.ltb_spec freq (2 ^ 31)); [by apply s32_id; lia|].
    unfold s32. rewrite <- (Z.mod_unique (freq + 2 ^ 31) (2 ^ 32) 1 (freq - 2 ^ 31)); lia.
Qed.

(** ** The identity of the chip *)

(** Both halves of a revision "major.minor". *)
Fixpoint split_dot (l : list ascii) : list ascii * list ascii :=
  match l with
  | [] => ([], [])
  | c :: l' => if decide (c = "."%char) then ([], l') else let r := split_dot l' in (c :: r.1, r.2)
  end.
Definition parse_revision (l : list ascii) : Z := let r := split_dot l in atou r.1 * 65536 + atou r.2.

Lemma split_dot_app a b : Forall is_digit a -> split_dot (a ++ "."%char :: b) = (a, b).
Proof.
  induction 1 as [|c a Hc Ha IH]; [done|]. simpl. rewrite decide_False, IH; [done|]. intros ->.
  assert (undigit "."%char = -2) by reflexivity. unfold is_digit in Hc. lia.
Qed.

Lemma major_range v : 0 <= SOCINFO_MAJOR v < 65536.
Proof. unfold SOCINFO_MAJOR. change 65535 with (Z.ones 16). rewrite Z.land_ones by lia. apply Z.mod_pos_bound. lia. Qed.
Lemma minor_range v : 0 <= SOCINFO_MINOR v < 65536.
Proof. unfold SOCINFO_MINOR. change 65535 with (Z.ones 16). rewrite Z.land_ones by lia. apply Z.mod_pos_bound. lia. Qed.
Lemma major_minor v : 0 <= v < 2 ^ 32 -> SOCINFO_MAJOR v * 65536 + SOCINFO_MINOR v = v.
Proof.
  intros Hv. unfold SOCINFO_MAJOR, SOCINFO_MINOR. change 65535 with (Z.ones 16). rewrite !Z.land_ones by lia.
  rewrite Z.shiftr_div_pow2 by lia. change (2 ^ 16) with 65536. pose proof (Z.div_mod v 65536).
  rewrite (Z.mod_small (v / 65536)); [lia|]. split; [apply Z.div_pos; lia|]. apply Z.div_lt_upper_bound; lia.
Qed.

(** C24: the chip's revision survives printing.  On a machine whose words need
    no conversion, when everything succeeds the probe registers a device
    whose revision string, read as "major.minor", gives the second word of
    qcom,msm-id, and whose soc_id string gives the first as a signed number;
    it holds no reference to the device tree then.  If the property is
    missing it keeps one for good. *)
Theorem socinfo_roundtrip e s :
  so_kzalloc e = true -> (forall v, le32_to_cpu e v = v) ->
  (forall val0 val1, so_msm_id e = inr (val0, val1) -> 0 <= val1 < 2 ^ 32 -> so_register e = 0 ->
     so_soc_id e = true -> so_revision e = true ->
     exists s' a id rev, qcom_dt_socinfo_probe e s = Ok 0 s' /\ soc_dev s' = Some a /\ root_refs s' = root_refs s /\
       sa_revision a = Some rev /\ parse_revision rev = val1 /\ sa_soc_id a = Some id /\ atoi id = s32 val0) /\
  (forall ret, so_msm_id e = inl ret ->
     exists s', qcom_dt_socinfo_probe e s = Ok ret s' /\ root_refs s' = root_refs s + 1 /\ soc_dev s' = soc_dev s).
Proof.
  intros Hk Hle. unfold qcom_dt_socinfo_probe. rewrite Hk. unfold mbind, M_bind, modify. cbn [negb]. split.
  - intros v0 v1 -> Hv -> -> ->. rewrite !Hle. cbn [Z.eqb]. eexists _, _, _, _. split; [done|]. split; [done|].
    split; [cbn; lia|]. split; [done|]. split; [|split; [done|by destruct (fmt_d_spec v0)]].
    pose proof (major_range v1). pose proof (minor_range v1).
    destruct (fmt_u_spec (SOCINFO_MAJOR v1)) as (E1 & D1 & _); [lia|]. destruct (fmt_u_spec (SOCINFO_MINOR v1)) as (E2 & _ & _); [lia|].
    unfold parse_revision. change (str "." ++ ?x) with ("."%char :: x). rewrite split_dot_app by done. simpl.
    rewrite E1, E2. by apply major_minor.
  - intros ret ->. by eexists.
Qed.

(** ** The vote for the audio DSP *)

Inductive vote_op := Manual (v : Z) | Suspend | Resume.
Definition run_vote (o : vote_op) : M vote Z :=
  match o with
  | Manual v => adsp_manual_vote_op v
  | Suspend => send_adsp_manual_unvote
  | Resume => send_adsp_manual_vote
  end.
Fixpoint run_votes (l : list vote_op) : M vote () :=
  match l with
  | [] => mret ()
  | o :: l => run_vote o;; run_votes l
  end.

(** What an operation asks for, if anything. *)
Definition wish (o : vote_op) : option Z :=
  match o with
  | Manual v => if v =? 0 then Some ADSP_UNVOTE else if v =? 1 then Some ADSP_VOTE else None
  | Suspend => Some ADSP_UNVOTE
  | Resume => Some ADSP_VOTE
  end.
(** The last wish of a sequence, [d] if there is none. *)
Definition last_wish (d : Z) (l : list vote_op) : Z := foldl (fun d o => default d (wish o)) d l.

Definition set_awake (s : vote) (v : Z) : vote := s <| smem_word := Z.lor (Z.ldiff (smem_word s) AWAKE_BITS) v |>.

Lemma set_awake_bits w v : 0 <= v <= 3 -> Z.land (Z.lor (Z.ldiff w 3) v) 3 = v.
Proof.
  intros Hv. change 3 with (Z.ones 2). apply Z.bits_inj'. intros i Hi.
  rewrite Z.land_spec, Z.lor_spec, Z.ldiff_spec, Z.testbit_ones by lia.
  destruct (Z.ltb_spec i 2) as [Hlt|Hge].
  - assert ((0 <=? i) = true) as -> by lia. by destruct (Z.testbit w i), (Z.testbit v i).
  - rewrite !andb_false_r. symmetry. apply Z.bits_above_log2; [lia|]. destruct (decide (v = 0)) as [->|]; [simpl; lia|].
    apply Z.log2_lt_pow2; [lia|]. assert (2 ^ 2 <= 2 ^ i) by (apply Z.pow_le_mono_r; lia). lia.
Qed.

Lemma set_awake_rest w v : 0 <= v <= 3 -> Z.ldiff (Z.lor (Z.ldiff w 3) v) 3 = Z.ldiff w 3.
Proof.
  intros Hv. change 3 with (Z.ones 2). apply Z.bits_inj'. intros i Hi.
  rewrite !Z.ldiff_spec, Z.lor_spec, Z.ldiff_spec, Z.testbit_ones by lia. assert ((0 <=? i) = true) as -> by lia. simpl.
  destruct (Z.ltb_spec i 2) as [Hlt|Hge]; simpl; [by rewrite !andb_false_r|]. rewrite !andb_true_r.
  rewrite (Z.bits_above_log2 v); [by rewrite orb_false_r|lia|]. destruct (decide (v = 0)) as [->|]; [simpl; lia|].
  apply Z.log2_lt_pow2; [lia|]. assert (2 ^ 2 <= 2 ^ i) by (apply Z.pow_le_mono_r; lia). lia.
Qed.

Lemma run_vote_eq o s :
  smem_held s = true -> run_vote o s = Ok 0 (match wish o with Some v => set_awake s v | None => s end).
Proof.
  intros Hs.
  assert (forall v, Z.land v AWAKE_BITS = v -> qcom_smem_state_update_bits AWAKE_BITS v s = Ok () (set_awake s v)) as Hu.
  { intros v Ev. unfold qcom_smem_state_update_bits. erewrite bind_eq by done. by rewrite Hs, Ev. }
  destruct o as [v| |]; cbn [run_vote wish].
  - unfold adsp_manual_vote_op. destruct (v =? 0); [by rewrite (bind_eq _ _ _ _ _ (Hu _ eq_refl))|].
    destruct (v =? 1); [by rewrite (bind_eq _ _ _ _ _ (Hu _ eq_refl))|done].
  - unfold send_adsp_manual_unvote. by rewrite (bind_eq _ _ _ _ _ (Hu _ eq_refl)).
  - unfold send_adsp_manual_vote. by rewrite (bind_eq _ _ _ _ _ (Hu _ eq_refl)).
Qed.

(** The two bits are a register with the last wish: whatever sequence of
    manual votes, suspends and resumes, the bits in shared memory are what was
    asked for last, and no other bit changes.  So a manual withdrawal does not
    survive a suspend and a resume. *)
Theorem vote_register l s :
  smem_held s = true ->
  exists s', run_votes l s = Ok () s' /\ Z.ldiff (smem_word s') AWAKE_BITS = Z.ldiff (smem_word s) AWAKE_BITS /\
    Z.land (smem_word s') AWAKE_BITS = last_wish (Z.land (smem_word s) AWAKE_BITS) l.
Proof.
  revert s. induction l as [|o l IH]; intros s Hs; [by exists s|]. cbn [run_votes].
  rewrite (bind_eq _ _ _ _ _ (run_vote_eq o s Hs)). change (last_wish ?d (o :: l)) with (last_wish (default d (wish o)) l).
  destruct (wish o) as [v|] eqn:Ew; [|by apply IH].
  assert (0 <= v <= 3) as Hv.
  { destruct o as [x| |]; simpl in Ew; repeat case_match; simplify_eq; unfold ADSP_VOTE, ADSP_UNVOTE; lia. }
  destruct (IH (set_awake s v) Hs) as (s' & E & Er & Eb). exists s'. split; [done|].
  unfold set_awake, AWAKE_BITS in *. simpl in *. rewrite set_awake_rest in Er by done. by rewrite set_awake_bits in Eb.
Qed.

(** A probe whose debugfs directory cannot be made returns the number of the
    smp2p bit, and keeps the state it got: 0, that is success, for bit 0. *)
Theorem vote_probe_returns_bit bit file s :
  exists s', adsp_vote_smp2p_probe (inr bit) false file s = Ok bit s' /\ smem_held s' = true.
Proof. by eexists. Qed.

(** Of the three properties the charger announces only one can be read. *)
Theorem wall_announces_more p :
  p ∈ wall_properties -> (wall_get_property p).1 = 0 -> p = POWER_SUPPLY_PROP_ONLINE.
Proof. unfold wall_properties. intros Hp. by destruct p. Qed.
Theorem wall_roundtrip s :
  exists s1 s2, wallpower_probe true 0 s = Ok 0 s1 /\ supply s1 = true /\ wallpower_remove s1 = Ok 0 s2 /\ supply s2 = false.
Proof. by eexists _, _. Qed.

(** ** Registration *)

Definition unregistered : registered := {| rg_device := false; rg_driver := false |}.

(** The identity driver registers both or nothing, and its exit function undoes
    it. *)
Theorem socinfo_init_exact driver device :
  exists r s, qcom_dt_socinfo_init driver device unregistered = Ok r s /\
    (r = 0 -> s = {| rg_device := true; rg_driver := true |} /\ qcom_dt_socinfo_exit s = Ok () unregistered) /\
    (r <> 0 -> s = unregistered).
Proof.
  unfold qcom_dt_socinfo_init, register_driver, register_device, mbind, M_bind, modify, mret, M_ret.
  destruct (Z.eqb_spec driver 0) as [->|E]; cbn; [|eexists _, _; split; [done|]; naive_solver].
  destruct (Z.eqb_spec device 0) as [->|E]; cbn; (rewrite ?(proj2 (Z.eqb_neq _ _) E)); eexists _, _; (split; [done|]); naive_solver.
Qed.

(** The charger reports success even if nothing could be registered; its exit
    function then unregisters what is not there. *)
Theorem wall_init_hides_failure device driver :
  exists s, wallpower_init device driver unregistered = Ok 0 s /\
    (device = 0 -> driver = 0 -> wallpower_exit s = Ok () unregistered) /\
    (device <> 0 \/ driver <> 0 -> wallpower_exit s = Fault UseAfterFree).
Proof.
  unfold wallpower_init, wallpower_exit, register_driver, register_device, unregister_device, unregister_driver, mbind, M_bind, modify, mret, M_ret, get, put.
  eexists. split; [done|]. cbn. destruct (Z.eqb_spec device 0), (Z.eqb_spec driver 0); cbn; split; try done; intros [?|?]; done.
Qed.
