(* ===== verification/PlatformDemo.v ===== *)
(** * Concrete runs of the small drivers *)
From S2P Require Import Prelude Silent BootLog Print Platform PlatformFacts.
From Stdlib Require Import Ascii.
Import Ddr Socinfo Vote Wall.

(** A log of five characters in twelve bytes of memory. *)
Definition demo_log : bytes := str "B - 0" ++ replicate 7 NUL.
Definition demo_log_env : log_env :=
  {| lg_kcalloc := true; lg_kobject_add := 0; lg_parent := true; lg_node := true; lg_resource := Some demo_log;
     lg_memremap := true; lg_bin_file := 0 |}.
Definition demo_log_state : boot_log :=
  match dump_boot_log_init demo_log_env boot_log0 with Ok _ s => s | _ => boot_log0 end.

Lemma boot_log_reads_witness :
  read_file 3 12 0 demo_log_state = Ok (str "B - 0") demo_log_state.
Proof.
  destruct (boot_log_reads 3 (take 11 demo_log) demo_log_state) as (H & _ & _); [reflexivity|reflexivity|].
  apply H; [|lia]. apply (bool_decide_unpack _). vm_compute. exact Logic.I.
Defined.

(** The file cannot be created: unloading the module uses freed memory. *)
Definition no_file_env : log_env :=
  {| lg_kcalloc := true; lg_kobject_add := 0; lg_parent := true; lg_node := true; lg_resource := Some demo_log;
     lg_memremap := true; lg_bin_file := -12 |}.
Lemma boot_log_exit_faults :
  match dump_boot_log_init no_file_env boot_log0 with
  | Ok r s => r = 1 /\ k_mapped s = true /\ dump_boot_log_exit s = Fault UseAfterFree
  | _ => False
  end.
Proof. vm_compute. split_and!; reflexivity. Qed.

Definition ddr0 : ddr := {| pkt_size := 0; pkt_buf := replicate 97 NUL; mbox_sent := []; chan := true; sysfs_file := true |}.

Lemma ddr_message_witness :
  exists s', set_ddr_capped_freq_store (Some 3000000000) 0 11 ddr0 = Ok 11 s' /\ pkt_size s' mod 4 = 0 /\
    mbox_sent s' = [str "{class:ddr, res:capped, val: -1294967296}" ++ replicate 3 NUL].
Proof.
  destruct (ddr_message 3000000000 0 11 ddr0) as (pad & s' & E & _ & _ & Hm & _).
  { split; [discriminate|reflexivity]. }
  exists s'. split; [exact E|]. split; [exact Hm|].
  assert (exists x, set_ddr_capped_freq_store (Some 3000000000) 0 11 ddr0 = Ok 11 x /\
    mbox_sent x = [str "{class:ddr, res:capped, val: -1294967296}" ++ replicate 3 NUL]) as (x & Ex & Hx)
    by (eexists; split; vm_compute; reflexivity).
  rewrite E in Ex. injection Ex as ->. exact Hx.
Defined.

Definition demo_soc : soc_env :=
  {| so_kzalloc := true; so_msm_id := inr (415, 131073); so_msm_name := None; so_soc_id := true; so_revision := true;
     so_register := 0; le32_to_cpu := fun v => v |}.

Lemma socinfo_roundtrip_witness :
  exists s' a rev, qcom_dt_socinfo_probe demo_soc {| root_refs := 0; soc_dev := None |} = Ok 0 s' /\ soc_dev s' = Some a /\
    sa_revision a = Some rev /\ parse_revision rev = 131073.
Proof.
  destruct (socinfo_roundtrip demo_soc {| root_refs := 0; soc_dev := None |} eq_refl (fun v => eq_refl)) as [H _].
  destruct (H 415 131073 eq_refl) as (s' & a & id & rev & E & Ea & _ & Er & Ep & _);
    [split; [discriminate|reflexivity]|reflexivity|reflexivity|reflexivity|].
  exists s', a, rev. exact (conj E (conj Ea (conj Er Ep))).
Defined.
