(* ===== verification/Debugfs.v ===== *)
(** * The debugfs file of an open file

    [vfastrpc_debugfs_read] (virtio_fastrpc_base.c): a report of the cached
    buffers, the contexts and the maps of a file, written into a buffer of
    [DEBUGFS_SIZE] bytes. *)
From S2P Require Import Prelude Shared Mmap Pages Buf Apps World Silent Print.
From Stdlib Require Import Ascii.

Definition DEBUGFS_SIZE : nat := 3072.

Definition nl : list ascii := [ascii_of_nat 10].
Definition bar : list ascii := str "|".
Definition title : list ascii := str "=========================".

(** ** The lines *)

Definition channel_line (f : file) : list ascii :=
  nl ++ str "channel =" ++ str " " ++ fmt_d (fl_domain f) ++ str " " ++ str "proc_attr =" ++ str " " ++ fmt_d (fl_procattrs f) ++ nl.
(** "\n========%s %s %s========\n" and its shorter variants. *)
Definition title_line (edge name : list ascii) : list ascii :=
  nl ++ edge ++ title ++ str " " ++ name ++ str " " ++ title ++ edge ++ nl.
Definition bufs_head : list ascii :=
  ljust 19 (str "virt") ++ bar ++ ljust 19 (str "phys") ++ bar ++ ljust 19 (str "size") ++ nl ++ nl.
Definition buf_line (va phys size : Z) : list ascii :=
  str "0x" ++ ljust 17 (fmt_lX va) ++ bar ++ str "0x" ++ ljust 17 (fmt_lX phys) ++ bar ++ ljust 19 (fmt_zu size) ++ nl.
Definition ctxs_head : list ascii :=
  ljust 20 (str "sc") ++ bar ++ ljust 10 (str "pid") ++ bar ++ ljust 10 (str "tgid") ++ bar ++ ljust 10 (str "size") ++
  bar ++ ljust 20 (str "handle") ++ nl ++ nl.
Definition ctx_line (c : vfastrpc_invoke_ctx) : list ascii :=
  str "0x" ++ ljust 18 (fmt_X (c_sc c)) ++ bar ++ ljust 10 (fmt_d (c_pid c)) ++ bar ++ ljust 10 (fmt_d (c_tgid c)) ++ bar ++
  ljust 10 (fmt_zu (c_size c)) ++ bar ++ str "0x" ++ ljust 20 (fmt_X (c_handle c)) ++ nl ++ nl.
Definition maps_head : list ascii :=
  ljust 20 (str "va") ++ bar ++ ljust 20 (str "phys") ++ bar ++ ljust 10 (str "size") ++ bar ++ ljust 10 (str "attr") ++
  bar ++ ljust 10 (str "refs") ++ nl ++ nl.
Definition map_line (m : vfastrpc_mmap) : list ascii :=
  str "0x" ++ ljust 18 (fmt_lX (m_va m)) ++ bar ++ str "0x" ++ ljust 18 (fmt_lX (m_phys m)) ++ bar ++
  ljust 10 (fmt_zu (m_size m)) ++ bar ++ str "0x" ++ ljust 10 (fmt_x (m_attr m)) ++ bar ++ ljust 10 (fmt_d (m_refs m)) ++ nl ++ nl.

Section read.
Context `{V : virtqueue}.
(** [page_to_phys]. *)
Variable page_to_phys : Z -> Z.

(** [len += scnprintf(fileinfo + len, DEBUGFS_SIZE - len, ...)], where
    [text] is what the buffer holds. *)
Definition scnprintf_at (text s : list ascii) : M world (list ascii) :=
  if decide (DEBUGFS_SIZE < length text)%nat then fail OutOfBounds
  else mret (text ++ take (DEBUGFS_SIZE - length text - 1) s).

Fixpoint print_bufs (l : list ptr) (text : list ascii) : M world (list ascii) :=
  match l with
  | [] => mret text
  | p :: l' =>
    b ← on_bf (bload p);
    match b_pages b with
    | None => fail NullDeref
    | Some [] => fail OutOfBounds
    | Some (page :: _) =>
      text ← scnprintf_at text (buf_line (default 0 (b_va b)) (page_to_phys page) (b_size b));
      print_bufs l' text
    end
  end.
Fixpoint print_ctxs (l : list ptr) (text : list ascii) : M world (list ascii) :=
  match l with
  | [] => mret text
  | p :: l' =>
    c ← on_cx (ctx_load p);
    text ← scnprintf_at text (ctx_line c);
    print_ctxs l' text
  end.
Fixpoint print_maps (l : list ptr) (text : list ascii) : M world (list ascii) :=
  match l with
  | [] => mret text
  | p :: l' =>
    m ← on_mm (load p);
    text ← scnprintf_at text (map_line m);
    print_maps l' text
  end.

(** The text of the report. *)
Definition fileinfo : M world (list ascii) :=
  w ← get;
  t ← scnprintf_at [] (channel_line (w_fl w));
  t ← scnprintf_at t (title_line (str "========") (str " LIST OF BUFS "));
  t ← scnprintf_at t bufs_head;
  t ← print_bufs (bf_cached (w_bf w)) t;
  t ← scnprintf_at t (title_line (str "==") (str " LIST OF PENDING CONTEXTS "));
  t ← scnprintf_at t ctxs_head;
  t ← print_ctxs (cx_pending (w_cx w)) t;
  t ← scnprintf_at t (title_line [] (str " LIST OF INTERRUPTED CONTEXTS "));
  t ← scnprintf_at t ctxs_head;
  t ← print_ctxs (cx_interrupted (w_cx w)) t;
  t ← scnprintf_at t (title_line (str "========") (str " LIST OF MAPS "));
  t ← scnprintf_at t maps_head;
  print_maps (mm_list (w_mm w)) t.

(** [simple_read_from_buffer] at position 0. *)
Definition simple_read (count : nat) (text : list ascii) (copied : bool) : Z * list ascii :=
  let out := take count text in
  if copied || bool_decide (out = []) then (Z.of_nat (length out), out) else (- EFAULT, []).

Definition vfastrpc_debugfs_read (kzalloc copied : bool) (position : Z) (count : nat) : M world (Z * list ascii) :=
  if negb (position =? 0) then mret (0, [])
  else if negb kzalloc then mret (- ENOMEM, [])
  else
    text ← fileinfo;
    mret (simple_read count (take DEBUGFS_SIZE text) copied).

(** ** What the report should be *)

Definition buf_text (h : gmap ptr vfastrpc_buf) (p : ptr) : list ascii :=
  match h !! p with
  | Some b => match b_pages b with
              | Some (page :: _) => buf_line (default 0 (b_va b)) (page_to_phys page) (b_size b)
              | _ => []
              end
  | None => []
  end.
Definition ctx_text (h : gmap ptr vfastrpc_invoke_ctx) (p : ptr) : list ascii := from_option ctx_line [] (h !! p).
Definition map_text (h : gmap ptr vfastrpc_mmap) (p : ptr) : list ascii := from_option map_line [] (h !! p).

(** The whole report, without a limit on its size. *)
Definition report (w : world) : list ascii :=
  channel_line (w_fl w) ++
  title_line (str "========") (str " LIST OF BUFS ") ++ bufs_head ++
  concat (buf_text (bf_heap (w_bf w)) <$> bf_cached (w_bf w)) ++
  title_line (str "==") (str " LIST OF PENDING CONTEXTS ") ++ ctxs_head ++
  concat (ctx_text (cx_heap (w_cx w)) <$> cx_pending (w_cx w)) ++
  title_line [] (str " LIST OF INTERRUPTED CONTEXTS ") ++ ctxs_head ++
  concat (ctx_text (cx_heap (w_cx w)) <$> cx_interrupted (w_cx w)) ++
  title_line (str "========") (str " LIST OF MAPS ") ++ maps_head ++
  concat (map_text (mm_heap (w_mm w)) <$> mm_list (w_mm w)).

(** ** Facts *)

(** The buffer holds as much of [x] as fits. *)
Definition fits (x : list ascii) : list ascii := take (DEBUGFS_SIZE - 1) x.

Lemma scnprintf_fits x s w : scnprintf_at (fits x) s w = Ok (fits (x ++ s)) w.
Proof.
  unfold scnprintf_at, fits. rewrite length_take. rewrite decide_False by (unfold DEBUGFS_SIZE; lia).
  unfold mret, M_ret. f_equal. rewrite take_app. f_equal.
  destruct (decide (length x <= DEBUGFS_SIZE - 1)%nat).
  - rewrite Nat.min_r by lia. f_equal. lia.
  - rewrite Nat.min_l by lia. f_equal. unfold DEBUGFS_SIZE in *. lia.
Qed.

Lemma print_bufs_fits l x w :
  (forall p, p ∈ l -> exists b page pages, bf_heap (w_bf w) !! p = Some b /\ b_pages b = Some (page :: pages)) ->
  print_bufs l (fits x) w = Ok (fits (x ++ concat (buf_text (bf_heap (w_bf w)) <$> l))) w.
Proof.
  revert x. induction l as [|p l IH]; intros x Hl; [by rewrite app_nil_r|]. cbn [print_bufs fmap list_fmap concat].
  destruct (Hl p) as (b & page & pages & Hb & Hp); [by left|].
  assert (on_bf (bload p) w = Ok b w) as El by (unfold on_bf, zoom, bload; rewrite Hb; by destruct w).
  rewrite (bind_eq _ _ _ _ _ El), Hp.
  rewrite (bind_eq _ _ _ _ _ (scnprintf_fits _ _ _)). etrans; [apply IH; set_solver|].
  unfold buf_text at 2. by rewrite Hb, Hp, app_assoc.
Qed.
Lemma print_ctxs_fits l x w :
  (forall p, p ∈ l -> is_Some (cx_heap (w_cx w) !! p)) ->
  print_ctxs l (fits x) w = Ok (fits (x ++ concat (ctx_text (cx_heap (w_cx w)) <$> l))) w.
Proof.
  revert x. induction l as [|p l IH]; intros x Hl; [by rewrite app_nil_r|]. cbn [print_ctxs fmap list_fmap concat].
  destruct (Hl p) as [c Hc]; [by left|]. assert (on_cx (ctx_load p) w = Ok c w) as El by (unfold on_cx, zoom, ctx_load; rewrite Hc; by destruct w).
  rewrite (bind_eq _ _ _ _ _ El).
  rewrite (bind_eq _ _ _ _ _ (scnprintf_fits _ _ _)). etrans; [apply IH; set_solver|].
  unfold ctx_text at 2. by rewrite Hc, app_assoc.
Qed.
Lemma print_maps_fits l x w :
  (forall p, p ∈ l -> is_Some (mm_heap (w_mm w) !! p)) ->
  print_maps l (fits x) w = Ok (fits (x ++ concat (map_text (mm_heap (w_mm w)) <$> l))) w.
Proof.
  revert x. induction l as [|p l IH]; intros x Hl; [by rewrite app_nil_r|]. cbn [print_maps fmap list_fmap concat].
  destruct (Hl p) as [m Hm]; [by left|]. assert (on_mm (load p) w = Ok m w) as El by (unfold on_mm, zoom, load; rewrite Hm; by destruct w).
  rewrite (bind_eq _ _ _ _ _ El).
  rewrite (bind_eq _ _ _ _ _ (scnprintf_fits _ _ _)). etrans; [apply IH; set_solver|].
  unfold map_text at 2. by rewrite Hm, app_assoc.
Qed.
End read.
