(* ===== verification/DebugfsFacts.v ===== *)
(** * The report is right *)
From S2P Require Import Prelude Shared Mmap MmapFacts Pages Buf BufFacts Apps AppsFacts World WorldFacts Transact MapOps MapFacts Demo Invoke CtxFacts CtxInv ArgFacts DescFacts MsgFacts InvokeFacts InvokeSafe InvokeDemo Silent Print Debugfs.
From Stdlib Require Import Ascii.

Section facts.
Context `{HS : adsprpc_shared, !adsprpc_shared_ok HS}.
Context `{KC : kernel_config, !kernel_config_ok KC}.
Context `{V : virtqueue, !virtqueue_ok V}.
Variable page_to_phys : Z -> Z.
Implicit Types w : world.

(** Every cached buffer has a page. *)
Definition cached_paged w : Prop :=
  forall p, p ∈ bf_cached (w_bf w) -> exists b page pages, bf_heap (w_bf w) !! p = Some b /\ b_pages b = Some (page :: pages).

Lemma fileinfo_fits k w :
  ctx_inv ∅ k w -> cached_paged w -> fileinfo page_to_phys w = Ok (fits (report page_to_phys w)) w.
Proof.
  intros Hi Hb. pose proof (ci_lists _ _ _ Hi) as Hls. pose proof (fi_mm _ (ctx_inv_file _ _ _ Hi)) as Hmm.
  assert (forall p, p ∈ cx_pending (w_cx w) -> is_Some (cx_heap (w_cx w) !! p)) as Hpe by (intros; apply (li_live _ _ _ Hls); set_solver).
  assert (forall p, p ∈ cx_interrupted (w_cx w) -> is_Some (cx_heap (w_cx w) !! p)) as Hin by (intros; apply (li_live _ _ _ Hls); set_solver).
  unfold fileinfo. erewrite bind_eq by done.
  rewrite (bind_eq _ _ _ _ _ (scnprintf_fits [] _ _ : scnprintf_at [] _ _ = _)).
  rewrite !(bind_eq _ _ _ _ _ (scnprintf_fits _ _ _)).
  rewrite (bind_eq _ _ _ _ _ (print_bufs_fits page_to_phys _ _ _ Hb)).
  rewrite !(bind_eq _ _ _ _ _ (scnprintf_fits _ _ _)).
  rewrite (bind_eq _ _ _ _ _ (print_ctxs_fits _ _ _ Hpe)).
  rewrite !(bind_eq _ _ _ _ _ (scnprintf_fits _ _ _)).
  rewrite (bind_eq _ _ _ _ _ (print_ctxs_fits _ _ _ Hin)).
  rewrite !(bind_eq _ _ _ _ _ (scnprintf_fits _ _ _)).
  rewrite (print_maps_fits _ _ _ (fun p Hp => inv_is_Some _ p Hmm Hp)).
  unfold report. do 2 f_equal. by rewrite <- !app_assoc.
Qed.

(** C20: the debugfs report.  On a consistent file whose cached buffers have
    pages, the first read gives the beginning of the report of the cached
    buffers, the pending and the interrupted contexts and the maps, each in the
    order of its list: as much as the caller asked for and at most 3071 bytes,
    for the scratch buffer of 3072 bytes is never overrun however long the
    lists are.  The state does not change, no freed object is read, and a
    second read says that the file ends. *)
Theorem debugfs_report k count position w :
  ctx_inv ∅ k w -> cached_paged w -> position <> 0 ->
  (let n := Nat.min count (Nat.min 3071 (length (report page_to_phys w))) in
   vfastrpc_debugfs_read page_to_phys true true 0 count w = Ok (Z.of_nat n, take n (report page_to_phys w)) w) /\
  vfastrpc_debugfs_read page_to_phys true true position count w = Ok (0, []) w.
Proof.
  intros Hi Hb Hp. unfold vfastrpc_debugfs_read. split; [|by rewrite (proj2 (Z.eqb_neq _ _) Hp)]. cbn [Z.eqb negb].
  rewrite (bind_eq _ _ _ _ _ (fileinfo_fits k w Hi Hb)). unfold mret, M_ret. f_equal. unfold simple_read. cbn [orb].
  rewrite (take_ge (fits _)) by (unfold fits, DEBUGFS_SIZE; rewrite length_take; lia).
  unfold fits, DEBUGFS_SIZE. rewrite take_take, length_take. change (3072 - 1)%nat with 3071%nat. f_equal.
  - f_equal. lia.
  - destruct (decide (Nat.min count 3071 <= length (report page_to_phys w))%nat).
    + f_equal. lia.
    + rewrite !take_ge by lia. done.
Qed.
End facts.

Lemma debugfs_report_witness :
  exists n, vfastrpc_debugfs_read (fun p => p * 4096) true true 0 100 demo_interrupted =
    Ok (Z.of_nat n, take n (report (fun p => p * 4096) demo_interrupted)) demo_interrupted /\ n = 100%nat.
Proof.
  destruct (debugfs_report (fun p => p * 4096) 0 100 1 demo_interrupted demo_interrupted_inv) as [H _].
  { intros p Hp. vm_compute in Hp. inversion Hp. }
  { discriminate. }
  eexists. split; [exact H|]. vm_compute. reflexivity.
Defined.
